(* ===== verification/_CoqProject ===== *)
-Q . S2P
Prelude.v
Bus.v
Ttc.v
Spi.v
Gic.v
Arm.v
Cp15.v
Monitor.v
WorldSwitch.v
Handlers.v
Worlds.v
Entry.v
Cache.v
Mmu.v
CString.v
Uart.v
Printk.v
Board.v
Soc.v
Core.v
SGuest.v
RtList.v
RtRings.v
RtHeap.v
RtAlloc.v
RtTasks.v
RtSched.v
RtTick.v
RtLive.v
RtCreate.v
RtStack.v
RtStart.v
RtSystem.v
RtDemo.v
RtPort.v
RtFrame.v
RtSwitch.v
RtYield.v
RtFirst.v
RtIrq.v
RtPreempt.v
RtPortDemo.v
