(* ===== verification/Prelude.v ===== *)
(** * LTZVisor: the shared prelude of the verification development

    LTZVisor runs two guests on one ARMv7-A processor with the Security
    Extensions: a secure guest, here the bare application that receives bytes
    over SPI, and a non-secure guest, here FreeRTOS with lwIP.  The monitor
    switches between them.  This library models the program of [src/src] (the
    monitor, the boot code, the C core, the drivers, the boards, the secure
    guest), the copies of its drivers the non-secure guest carries in
    [src/ns_guest/src], and the kernel of that guest: the lists, the heap, the
    scheduler, the creation of tasks and the context switches of the FreeRTOS
    under [src/ns_guest/lib/freertos].

    ** How the parts work together

    [_start] ([Entry]) sets up processor 0 and calls [ltzvisor_main] ([Core]).
    It initialises the hardware ([Board]: TrustZone registers, interrupt
    controller [Gic], serial port [Uart]), creates the non-secure guest (its
    [tzmachine] record, its coprocessor registers [Cp15], its image), leaves
    Monitor mode and calls [main] of the secure guest ([SGuest]), which yields with
    an SMC after each byte it publishes.  The monitor ([Monitor]) then enters
    the non-secure guest; a fast interrupt of the SPI controller or of the
    tick brings the secure world back through [fiq_handler] ([Gic], [Spi],
    [Ttc]).  The non-secure guest reads the published byte and calls the
    monitor for [board_handler] ([Board]).

    Inside the non-secure guest the scheduler ([RtTasks]) moves tasks between
    lists ([RtList]); tasks are created on the heap ([RtHeap], [RtCreate]).  A
    software interrupt of the task that yields, or a hardware interrupt, runs
    the assembly code of the port ([RtPort]), which saves the processor in the
    stack of the task, calls [vTaskSwitchContext] and restores the task chosen.
    The monitor's theorems say that the guest does not see the world switch;
    those of the port say that a task does not see the context switch.

    ** Files and sources (paths under [src/src])

    - [Prelude]: words of 8, 16 and 32 bits, outcomes, the state monad.
    - [Bus]: 32-bit accesses on a bus of devices and memory ([lib/io.c]); the
      classes [Bus] and [Storage] are the interfaces the other files use.
      [Traces] records the accesses; [replay] runs them again.
    - [Ttc], [Spi], [Gic], [Uart]: the drivers ([boards/*/zynq_ttc.c],
      [zynq_spi.c], [drivers/gic.c], [zynq_uart.c], the copies under
      [drivers/] and [../ns_guest/src]).  Where copies differ a record of
      constants is the parameter and each copy is a value of it.
    - [CString], [Printk]: [lib/string.c] on bytes, [lib/printk.c].
    - [Arm]: the processor; [Monitor]: [arch/armv7/cpu_monitor.S]; [Cp15]:
      [cpu_cp15_switch.S]; [Entry]: [cpu_entry.S]; [Cache]: [cpu_cache.S];
      [Mmu]: [translation_table.S].  Each macro or routine is a definition
      with one line for each instruction.
    - [WorldSwitch], [Handlers], [Worlds]: no code, except the C handlers
      [mon_fiq_handler] calls; the proofs about [Monitor] and its properties.
    - [Board]: [boards/*/board.c], [boards/*/ltzvisor_hw.c] of the four
      variants; [Core]: [core/ltzvisor.c], [core/ltzvisor_api.c],
      [arch/armv7/cpu_helper.c], [cpu_handlers.c].
    - [Soc]: memory as bytes for C and as words for the assembly, below the
      devices.
    - [SGuest]: [s_guest/BareApp]: [blink.c] and [portable/].

    FreeRTOS (paths under [src/ns_guest/lib/freertos]):
    - [RtList]: [list.c] and the macros of [inc/FreeRTOS/list.h], over a store
      of nodes; [RtRings]: the sequence each list holds.
    - [RtHeap]: [heap_4.c] with the scheduler suspended; [RtAlloc]: the heap as
      a partition of its area into blocks.
    - [RtTasks]: [tasks.c] over [RtList]; [RtSched]: the invariant;
      [RtTick]: ticks, delays and the choice of the next task; [RtLive]: calls
      from the running system.
    - [RtCreate]: the functions of [tasks.c], [heap_4.c] and [port.c] that need
      scheduler and heap; [RtStack], [RtStart], [RtSystem]: the stack of a new
      task, the start of the scheduler, tasks on the heap.
    - [RtDemo]: a concrete system, the witnesses of the theorems above.
    - [RtPort]: [portASM.S], with the macros of [xscugic_hw.h] it uses;
      [RtFrame], [RtSwitch]: saved contexts and the two macros that write and
      read them; [RtYield]: [FreeRTOS_SWI_Handler]; [RtFirst]: the first switch
      to a task; [RtIrq], [RtPreempt]: [FreeRTOS_IRQ_Handler] with the handler
      of [../../src/tick.c]; [RtPortDemo]: the witnesses.

    ** What the theorems show

    - Worlds.  The non-secure world resumes with every register, mode bank and
      CPSR it was interrupted with ([ns_world_preserved]); the secure world
      resumes with its User and FIQ registers, mode and monitor stack
      ([secure_world_round_trip]) but with the Supervisor, Abort, Undefined and
      IRQ registers of the other world ([secure_banks_replaced]), and its FIQ
      bank is visible there ([secure_fiq_bank_visible]).  Calls of the board's
      handler return to the caller, in its world, with r0 the only register of
      the processor that changed ([smc_board_call]); an
      unknown call does not return to it ([smc_unknown_stays_in_monitor]).
      They hold for any handlers with [handlers_ok]; [Handlers] proves it of
      the zedboard's, which is how [SGuest] uses them.
    - Start-up.  [reset_boots_cpu0] and [reset_parks_others] from the vector
      to [ltzvisor_main]; [hw_init_secures] and [board_init_configures] for
      what the four boards leave in the hardware; [nsguest_create_ready],
      [main_starts_guests] and [first_schedule_enters_guest] from the
      configuration record to the first instruction of the guest.
    - The application.  [main_first_turn] up to the first yield: the accesses
      that set up the hardware, in order, and none that takes a received byte;
      [received_byte_published]: in the round from one turn of the secure
      guest over the non-secure world and the fast interrupt to the next
      turn, the published byte is the oldest byte of the receive queue, and
      the bytes that came in meanwhile are queued behind, up to 127.
    - Drivers.  Access by access for [Ttc] and [Gic], with the accuracy of the
      interval [ttc_request] programs ([ttc_request_accuracy]) and of a baud rate
      ([guest_baud_rate]); the receive ring of [Spi] refines a bounded queue;
      refused arguments change nothing ([ttc_bad_args_refused]); a text sent
      over a port arrives in order ([uart_puts_sends], [printk_text]).
    - The rest: [memcpy_copies], [print_hex_value], [print_decimal_value],
      [cp15_save_restore], [cp15_restore_loads], [data_cache_every_line] and
      [mmu_table_regions], where the 4096 words are compared with a table of
      regions.
    - Context switches.  [FreeRTOS_SWI_Handler_switches]: the assembly refines
      [vTaskSwitchContext]; every task has its context saved in its stack but
      the one that runs, which has it in the processor.
      [FreeRTOS_IRQ_Handler_preempts]: the same for an interrupt, after which
      the interrupted task goes on or another does, the controller has been
      told and the nesting count is back at 0.  [new_task_starts]: the
      stack of a new task is such a saved context, of a call of its function.
    - Scheduling.  [scheduler_stays_stable] (from a stable state every sequence
      of ticks and calls returns and ends in a stable state),
      [created_tasks_start] (such a state is reached from the memory after
      reset, with a task on memory of its own for every request first fit has
      room for), [xTaskIncrementTick_wakes], [vTaskDelay_exact],
      [xTaskCheckForTimeOut_exact] (both across the wrap of the counter),
      [vTaskSwitchContext_highest], [xTaskGenericNotify_delivers],
      [resume_ends_notification_wait], [stack_overflow_stops].
    - Memory and lists of the guest.  [xTaskCreate_outcome] (one new task or
      nothing changed), [malloc_first_fit], [malloc_area_fresh], [free_merges],
      [malloc_then_free], [vListInsert_keeps_order].

    ** Bounds

    A loop of the source that waits for hardware takes the number of times it
    may look as an argument: [polls] for the serial port, [acks] for the
    pending interrupts, [turns] for the endless loop of the secure guest.
    [NoFuel] is the outcome when it was not enough, and the theorems say what
    is: [room_within polls] (the device makes room within that many looks)
    and [acks] larger than the number of pending interrupts.
    [copy_string]'s argument exceeds the length of the string, the loop
    of [Entry] the words of the bss, those of [Cache] the 255 sets and 3 ways
    they count down to zero (so [258 < fuel]).  A loop with a constant bound has none.
    The walks of FreeRTOS take their bound from the state: the nodes of the
    store plus one ([list_fuel], and in [vListInsert]), the free blocks plus one
    ([walk_fuel]), the tasks plus one ([clean_up]).  A walk meets each of them at
    most once when the lists are well formed, and the theorems on the heap, the
    lists and the calls of the scheduler prove that they return.

    ** Choices of the model

    - The hardware behind the bus is a class instance: the theorems hold for
      every device with the laws they name, and each comes with an instance.
    - A field of a C structure is an offset from its address; an array or a
      global of a driver is a field of the state, [tzmachine] is memory.
    - The monitor's C handlers may change the registers the procedure call
      standard lets them change ([clobbered]).  The C functions of [Core] and
      [SGuest] change only the registers their inline assembly writes.
    - In Monitor mode and in the secure guest fast interrupts are masked, so
      the SPI handler runs from [mon_fiq_handler] only.
    - [stale] is the text left in [printk]'s buffer, which it reads before it
      is set; the SPSR in System mode ([sys_spsr]) is UNPREDICTABLE.
    - The delay loop of [SPI_1_Reset] and the counter [i] of [blink.c] change
      nothing and are left out.  Maintenance operations are recorded in
      [Cache] and read their register elsewhere.
    - An unaligned word access faults on the bus of [Soc]: nothing is stored.
    - The translation table is the one with [USE_AMP], which [cpu_defines.h]
      defines.
    - A function of the FreeRTOS kernel is one step; interrupts come before or
      after it.  [configASSERT] is empty in this configuration, and
      [vApplicationMallocFailedHook] only prints.
    - What a control block or a stack held before its task was created is an
      argument ([raw_tcb]).
    - The compiled C functions the port's assembly calls are arguments;
      [kernel_code] and [handler_code] say that they do what the model of
      their source does, and they may change the registers the procedure call
      standard lets them change.
    - [Arm] has no floating point registers; [RtPort] keeps them beside the
      memory.  The assembly's [vApplicationIRQHandler] is weak and saves them;
      the guest's own, in [tick.c], replaces it and does not.  The theorem on
      interrupts covers both links ([linked]) and asks in the second case that
      the C handler leaves those registers alone.
    - Code runs in the ARM instruction set; the theorem on interrupts is of an
      interrupt that arrives while a task runs (nesting count 0).

    ** Not modelled

    - [cpu_stack.c], [ltzvisor_nsguest.S] and [ltzvisor_nsguest_config.c] are
      data: stacks, the guest's image and its configuration; they are
      arguments of [Core].
    - Of FreeRTOS: [queue.c], [timers.c], [event_groups.c], which are clients of
      the scheduler; the queries that fill reports; [xPortStartScheduler] and
      the critical sections of [port.c], which program the interrupt
      controller.  Interrupts inside interrupts run the modelled code, and
      nothing is proved of them.
    - lwIP and the Xilinx libraries under [src/ns_guest] are other projects'
      code, and [main.c], [echo.c], [iic_phyreset.c] of the guest only call them.
    - [ltzvisor_nsguest_restart] and [ltzvisor_schedule] are empty loops in the
      source; they are modelled as such and nothing is proved of them. *)
From Stdlib Require Export ZArith Lia.
From stdpp Require Export base decidable numbers list gmap.

Local Open Scope Z_scope.

(** ** Machine words

    C's [uint8_t], [uint16_t] and [uint32_t] are integers of [Z] kept in
    range by an explicit wrap-around.  The bitwise operators of C are those
    of [Z] on non-negative values; only [~], [<<], [+], [-] and [*] leave the
    range and are wrapped. *)

Definition u8 (z : Z) : Z := z mod 2 ^ 8.
Definition u16 (z : Z) : Z := z mod 2 ^ 16.
Definition u32 (z : Z) : Z := z mod 2 ^ 32.

(** The value of a 32-bit pattern read as a C [int]. *)
Definition s32 (z : Z) : Z := if u32 z <? 2 ^ 31 then u32 z else u32 z - 2 ^ 32.

Definition is_u8 (z : Z) : Prop := 0 <= z < 2 ^ 8.
Definition is_u32 (z : Z) : Prop := 0 <= z < 2 ^ 32.

Definition add32 (a b : Z) : Z := u32 (a + b).
Definition sub32 (a b : Z) : Z := u32 (a - b).
Definition mul32 (a b : Z) : Z := u32 (a * b).
Definition shl32 (a n : Z) : Z := u32 (Z.shiftl a n).
Definition shr32 (a n : Z) : Z := Z.shiftr a n.
Definition not32 (a : Z) : Z := u32 (Z.lnot a).
(** [a & ~b], the operation of the ARM [bic] instruction. *)
Definition bic32 (a b : Z) : Z := Z.land a (not32 b).

(** C truth values of [types.h]. *)
Definition TRUE : Z := 1.
Definition FALSE : Z := 0.

Declare Scope word_scope.
Delimit Scope word_scope with word.
(** The operands are read in the same scope, so that every operator of a
    nested expression wraps around. *)
Notation "a + b" := (add32 a%word b%word) : word_scope.
Notation "a - b" := (sub32 a%word b%word) : word_scope.
Notation "a * b" := (mul32 a%word b%word) : word_scope.
Notation "a << b" := (shl32 a%word b%word) (at level 35) : word_scope.
Notation "a >> b" := (shr32 a%word b%word) (at level 35) : word_scope.
Notation "a .& b" := (Z.land a%word b%word) (at level 36, left associativity) : word_scope.
Notation "a .| b" := (Z.lor a%word b%word) (at level 37, left associativity) : word_scope.
Notation "~! a" := (not32 a%word) (at level 34, right associativity) : word_scope.

(** ** Outcomes and the state monad of the model

    A C function (or a run of assembly) is a function from a state to an
    outcome.  [Hang] is a loop the source means never to leave ([while(1);],
    [b .]), [Undef] is behaviour the C standard leaves undefined (an array
    index out of bounds, an unmapped address), [NoFuel] says that a polling
    loop outlived the bound the caller gave the model. *)

Inductive res (S A : Type) : Type :=
| Ok (a : A) (s : S)
| Hang (s : S)
| Undef
| NoFuel.
Arguments Ok {S A} a s.
Arguments Hang {S A} s.
Arguments Undef {S A}.
Arguments NoFuel {S A}.

Definition M (S A : Type) : Type := S -> res S A.

#[export] Instance M_ret (S : Type) : MRet (M S) := fun A a s => Ok a s.
#[export] Instance M_bind (S : Type) : MBind (M S) := fun A B f m s =>
  match m s with
  | Ok a s' => f a s'
  | Hang s' => Hang s'
  | Undef => Undef
  | NoFuel => NoFuel
  end.

Definition undef {S A : Type} : M S A := fun _ => Undef.
Definition hang {S A : Type} : M S A := fun s => Hang s.
Definition no_fuel {S A : Type} : M S A := fun _ => NoFuel.
Definition get {S : Type} : M S S := fun s => Ok s s.
Definition put {S : Type} (s : S) : M S unit := fun _ => Ok tt s.
Definition modify {S : Type} (f : S -> S) : M S unit := fun s => Ok tt (f s).
Definition when {S : Type} (c : bool) (m : M S unit) : M S unit :=
  if c then m else mret tt.

(** [for (i = lo; i < lo + n; i++) body(i)] *)
Fixpoint for_range {S : Type} (lo : Z) (n : nat) (body : Z -> M S unit) : M S unit :=
  match n with
  | O => mret tt
  | Datatypes.S n' => body lo ;; for_range (lo + 1) n' body
  end.

(** [while (cond()) body()], at most [fuel] evaluations of the condition. *)
Fixpoint while_fuel {S : Type} (fuel : nat) (cond : M S bool) (body : M S unit)
  : M S unit :=
  match fuel with
  | O => no_fuel
  | Datatypes.S f =>
      c ← cond;
      if (c : bool) then body ;; while_fuel f cond body else mret tt
  end.

Lemma bind_ok {S A B} (m : M S A) (f : A -> M S B) s a s' :
  m s = Ok a s' -> (m ≫= f) s = f a s'.
Proof. intros H. unfold mbind, M_bind. by rewrite H. Qed.

Lemma ok_inj {S A} (a b : A) (s t : S) : Ok a s = Ok b t -> a = b /\ s = t.
Proof. by intros [=]. Qed.

Lemma bind_inv {S A B} (m : M S A) (f : A -> M S B) s b s' :
  (m ≫= f) s = Ok b s' -> exists a s1, m s = Ok a s1 /\ f a s1 = Ok b s'.
Proof. unfold mbind, M_bind. destruct (m s); naive_solver. Qed.

Lemma bind_assoc {S A B C} (m : M S A) (f : A -> M S B) (g : B -> M S C) s :
  ((m ≫= f) ≫= g) s = (m ≫= (fun x => f x ≫= g)) s.
Proof. unfold mbind, M_bind. by destruct (m s). Qed.

Lemma bind_ret {S A B} (a : A) (f : A -> M S B) s : (mret a ≫= f) s = f a s.
Proof. done. Qed.

Lemma bind_ret_r {S A} (m : M S A) s : (m ≫= mret) s = m s.
Proof. unfold mbind, M_bind. by destruct (m s). Qed.

Lemma bind_get {S B} (f : S -> M S B) s : (get ≫= f) s = f s s.
Proof. done. Qed.

Lemma bind_modify {S B} (g : S -> S) (f : unit -> M S B) s : (modify g ≫= f) s = f tt (g s).
Proof. done. Qed.

(** Runs the monad one step: reduces binds and returns, nothing else. *)
Ltac mrun := cbn beta iota delta
  [mbind M_bind mret M_ret undef hang no_fuel get put modify when].

(** The tactic most functional properties start with: unfold the operation,
    run the monad and normalise. *)
Ltac mstep := mrun; repeat (case_match; mrun); try done.

(** ** Bits

    Equalities of words are proved bit by bit: [bits_db] rewrites
    [Z.testbit] through every operator of the model. *)

Lemma u32_testbit a i :
  0 <= i -> Z.testbit (u32 a) i = ((i <? 32) && Z.testbit a i)%bool.
Proof.
  intros Hi. unfold u32. destruct (Z.ltb_spec i 32).
  - by rewrite Z.mod_pow2_bits_low by lia.
  - by rewrite Z.mod_pow2_bits_high by lia.
Qed.

Lemma not32_testbit a i :
  0 <= i -> Z.testbit (not32 a) i = ((i <? 32) && negb (Z.testbit a i))%bool.
Proof. intros Hi. unfold not32. by rewrite u32_testbit, Z.lnot_spec by lia. Qed.

Lemma ones_testbit n i :
  0 <= n -> 0 <= i -> Z.testbit (Z.ones n) i = (i <? n).
Proof.
  intros Hn Hi. destruct (Z.ltb_spec i n).
  - by apply Z.ones_spec_low.
  - by apply Z.ones_spec_high.
Qed.

Lemma shl32_testbit a n i :
  0 <= i -> Z.testbit (shl32 a n) i = ((i <? 32) && Z.testbit a (i - n))%bool.
Proof. intros Hi. unfold shl32. by rewrite u32_testbit, Z.shiftl_spec by lia. Qed.

Lemma pow2_testbit n i : 0 <= n -> Z.testbit (2 ^ n) i = (i =? n).
Proof. intros Hn. rewrite Z.pow2_bits_eqb by done. apply Z.eqb_sym. Qed.

Create Rewrite HintDb bits_db.
#[export] Hint Rewrite Z.land_spec Z.lor_spec Z.lxor_spec Z.ldiff_spec
  Z.testbit_0_l Z.bits_m1 andb_false_r andb_true_r andb_false_l andb_true_l
  orb_false_r orb_true_r orb_false_l orb_true_l : bits_db.
#[export] Hint Rewrite u32_testbit not32_testbit shl32_testbit ones_testbit
  Z.shiftl_spec Z.shiftr_spec pow2_testbit using lia : bits_db.

(** Splits every comparison of bit positions left by [bits_db]. *)
Ltac split_positions :=
  repeat match goal with
    | |- context [?a <? ?b] =>
        destruct (Z.ltb_spec a b); try lia; autorewrite with bits_db
    | |- context [?a =? ?b] =>
        destruct (Z.eqb_spec a b); try lia; subst; autorewrite with bits_db
    end.

Ltac bitwise :=
  apply Z.bits_inj'; intros ?i ?Hi; autorewrite with bits_db; split_positions;
  try done.

Lemma is_u32_bits a :
  is_u32 a <-> 0 <= a /\ forall i, 32 <= i -> Z.testbit a i = false.
Proof.
  unfold is_u32. split.
  - intros [? ?]. split; [done|]. intros i Hi.
    rewrite <- (Z.mod_small a (2 ^ 32)) by lia. apply Z.mod_pow2_bits_high; lia.
  - intros [? H]. split; [done|].
    assert (a = u32 a) as ->; [|unfold u32; apply Z.mod_pos_bound; lia].
    apply Z.bits_inj'. intros i ?. rewrite u32_testbit by done.
    destruct (Z.ltb_spec i 32); [done|]. by rewrite H.
Qed.

Lemma u32_is_u32 a : is_u32 (u32 a).
Proof. unfold is_u32, u32. apply Z.mod_pos_bound. lia. Qed.

Lemma u32_small a : is_u32 a -> u32 a = a.
Proof. intros. by apply Z.mod_small. Qed.

Lemma u32_idem a : u32 (u32 a) = u32 a.
Proof. apply u32_small, u32_is_u32. Qed.

Lemma u32_testbit_high a i : is_u32 a -> 32 <= i -> Z.testbit a i = false.
Proof. intros [_ H]%is_u32_bits. auto. Qed.

Lemma is_u32_lor a b : is_u32 a -> is_u32 b -> is_u32 (Z.lor a b).
Proof.
  intros [? Ha]%is_u32_bits [? Hb]%is_u32_bits. apply is_u32_bits.
  split; [by apply Z.lor_nonneg|]. intros. by rewrite Z.lor_spec, Ha, Hb by done.
Qed.

Lemma is_u32_land a b : is_u32 a -> 0 <= b -> is_u32 (Z.land a b).
Proof.
  intros [? Ha]%is_u32_bits ?. apply is_u32_bits.
  split; [apply Z.land_nonneg; by left|]. intros. by rewrite Z.land_spec, Ha by done.
Qed.

Lemma is_u32_ldiff a b : is_u32 a -> is_u32 (Z.ldiff a b).
Proof.
  intros [? Ha]%is_u32_bits. apply is_u32_bits.
  split; [apply Z.ldiff_nonneg; lia|]. intros. by rewrite Z.ldiff_spec, Ha by done.
Qed.

Lemma is_u32_not32 a : is_u32 (not32 a).
Proof. apply u32_is_u32. Qed.
Lemma is_u32_shl32 a n : is_u32 (shl32 a n).
Proof. apply u32_is_u32. Qed.
Lemma is_u32_add32 a b : is_u32 (add32 a b).
Proof. apply u32_is_u32. Qed.

Lemma not32_nonneg a : 0 <= not32 a.
Proof. apply u32_is_u32. Qed.
Lemma shl32_nonneg a n : 0 <= shl32 a n.
Proof. apply u32_is_u32. Qed.

Create HintDb word_db.
#[export] Hint Resolve u32_is_u32 is_u32_lor is_u32_land is_u32_ldiff is_u32_not32
  is_u32_shl32 is_u32_add32
  not32_nonneg shl32_nonneg : word_db.
#[export] Hint Extern 1 (is_u32 _) => (unfold is_u32; lia) : word_db.
#[export] Hint Extern 1 (0 <= _) => (unfold is_u32 in *; lia) : word_db.

(** *** Bit fields *)

(** Bits [pos .. pos + len - 1] of [z]. *)
Definition field (pos len z : Z) : Z := Z.land (Z.shiftr z pos) (Z.ones len).

(** The read-modify-write idiom of the drivers: clear a field, then or in its
    new value. *)
Definition set_field (pos len v z : Z) : Z :=
  ((z .& ~! (Z.ones len << pos)) .| (v << pos))%word.

Lemma field_testbit pos len z i :
  0 <= len -> 0 <= i -> 0 <= pos ->
  Z.testbit (field pos len z) i = ((i <? len) && Z.testbit z (i + pos))%bool.
Proof.
  intros. unfold field. autorewrite with bits_db. by rewrite andb_comm.
Qed.
#[export] Hint Rewrite field_testbit using lia : bits_db.

Lemma set_field_testbit pos len v z i :
  0 <= pos -> 0 <= len -> pos + len <= 32 -> 0 <= v < 2 ^ len -> is_u32 z -> 0 <= i ->
  Z.testbit (set_field pos len v z) i =
    if (pos <=? i) && (i <? pos + len) then Z.testbit v (i - pos) else Z.testbit z i.
Proof.
  intros Hp Hl Hpl Hv Hz Hi. unfold set_field. autorewrite with bits_db.
  assert (Hvhi : forall j, len <= j -> Z.testbit v j = false).
  { intros j Hj. rewrite <- (Z.mod_small v (2 ^ len)) by lia.
    apply Z.mod_pow2_bits_high. lia. }
  assert (Hneg : forall w j, j < 0 -> Z.testbit w j = false)
    by (intros; by apply Z.testbit_neg_r).
  destruct (Z.leb_spec pos i); cbn [andb].
  - autorewrite with bits_db. split_positions; try done.
    + by rewrite Hvhi, orb_false_r by lia.
    + by rewrite (u32_testbit_high z i) by (done || lia).
  - rewrite !(Hneg _ (i - pos)) by lia.
    destruct (Z.ltb_spec i 32); autorewrite with bits_db; [done|lia].
Qed.

Lemma field_set_field_eq pos len v z :
  0 <= pos -> 0 <= len -> pos + len <= 32 -> 0 <= v < 2 ^ len -> is_u32 z ->
  field pos len (set_field pos len v z) = v.
Proof.
  intros. apply Z.bits_inj'. intros i Hi.
  rewrite field_testbit, set_field_testbit by lia || done.
  destruct (Z.leb_spec pos (i + pos)); [|lia].
  destruct (Z.ltb_spec (i + pos) (pos + len)), (Z.ltb_spec i len); try lia; cbn [andb].
  - f_equal. lia.
  - rewrite <- (Z.mod_small v (2 ^ len)) by lia.
    by rewrite Z.mod_pow2_bits_high by lia.
Qed.

Lemma field_set_field_ne pos len pos' len' v z :
  0 <= pos -> 0 <= len -> pos + len <= 32 -> 0 <= v < 2 ^ len -> is_u32 z ->
  0 <= pos' -> 0 <= len' -> pos' + len' <= pos \/ pos + len <= pos' ->
  field pos' len' (set_field pos len v z) = field pos' len' z.
Proof.
  intros. apply Z.bits_inj'. intros i Hi.
  rewrite !field_testbit, set_field_testbit by lia || done.
  destruct (Z.ltb_spec i len'); [|done].
  destruct (Z.leb_spec pos (i + pos')), (Z.ltb_spec (i + pos') (pos + len)); try lia; done.
Qed.

Lemma is_u32_set_field pos len v z :
  0 <= len -> is_u32 z -> is_u32 (set_field pos len v z).
Proof. intros. unfold set_field. auto with word_db. Qed.

Lemma field_bound pos len z : 0 <= len -> 0 <= field pos len z < 2 ^ len.
Proof.
  intros. unfold field. rewrite Z.land_ones by done. apply Z.mod_pos_bound. lia.
Qed.

(** The value [1 << n] of a [uint32_t], [n < 32]. *)
Definition bit32 (n : Z) : Z := shl32 1 n.

Lemma bit32_pow n : 0 <= n < 32 -> bit32 n = 2 ^ n.
Proof.
  intros. unfold bit32, shl32. rewrite Z.shiftl_1_l. apply Z.mod_small.
  split; [lia|]. apply Z.pow_lt_mono_r; lia.
Qed.

Lemma bit32_testbit n i :
  0 <= n < 32 -> Z.testbit (bit32 n) i = (i =? n).
Proof. intros. by rewrite bit32_pow, pow2_testbit by lia. Qed.
#[export] Hint Rewrite bit32_testbit using lia : bits_db.

(** [if (x & (1 << n))] *)
Lemma land_pow2_eqb x n : 0 <= n -> (Z.land x (2 ^ n) =? 0) = negb (Z.testbit x n).
Proof.
  intros Hn. destruct (Z.testbit x n) eqn:E; cbn.
  - apply Z.eqb_neq. intros H.
    assert (Z.testbit (Z.land x (2 ^ n)) n = true) as Ht
      by (rewrite Z.land_spec, E, pow2_testbit by done; apply Z.eqb_refl).
    by rewrite H, Z.testbit_0_l in Ht.
  - apply Z.eqb_eq. bitwise.
Qed.

(** Does a run return?  (For witnesses: evaluated by [vm_compute].) *)
Definition returns {S A} (r : res S A) : bool :=
  match r with Ok _ _ => true | _ => false end.

(** [destruct]s the run a goal matches on, which evaluation shows to return. *)
Ltac run_returns E :=
  match goal with
  | |- context [match ?r with Ok _ _ => _ | _ => _ end] =>
      let H := fresh in
      assert (H : returns r = true) by (vm_compute; reflexivity);
      destruct r eqn:E; [clear H|discriminate H..]
  end.
