(* ===== verification/Bus.v ===== *)
(** * The memory-mapped bus

    Every device register, and the memory the monitor reads and writes, is
    reached through 32-bit accesses on one bus ([lib/io.c] and the
    struct pointers of the drivers).  What sits behind the bus is hardware,
    not code of the repository: it is a type class, and the theorems hold
    for every instance.  The laws a theorem needs of the hardware (an address
    that stores what is written to it) are the class [Storage], over a set of
    addresses chosen by the theorem. *)
From S2P Require Import Prelude.

Local Open Scope Z_scope.

Class Bus (S : Type) := {
  bus_rd : Z -> S -> Z * S;
  bus_wr : Z -> Z -> S -> S;
}.

Section ops.
Context {S : Type} `{Bus S}.

(** [read32] of io.c: a volatile 32-bit load. *)
Definition read32 (addr : Z) : M S Z := fun s =>
  let '(v, s') := bus_rd addr s in Ok (u32 v) s'.

(** [write32] of io.c: a volatile 32-bit store. *)
Definition write32 (addr data : Z) : M S unit := fun s =>
  Ok tt (bus_wr addr (u32 data) s).

(** What a load of [addr] returns now, and the state after it. *)
Definition peek (addr : Z) (s : S) : Z := u32 (fst (bus_rd addr s)).
Definition after_rd (addr : Z) (s : S) : S := snd (bus_rd addr s).

(** [p->r |= bits] and [p->r &= bits] on a volatile register: one load, one
    store. *)
Definition or32 (addr bits : Z) : M S unit :=
  v ← read32 addr; write32 addr (Z.lor v bits).

Lemma read32_run addr s : read32 addr s = Ok (peek addr s) (after_rd addr s).
Proof. unfold read32, peek, after_rd. by destruct (bus_rd addr s). Qed.

Lemma write32_run addr v s : write32 addr v s = Ok tt (bus_wr addr (u32 v) s).
Proof. done. Qed.

Lemma or32_run addr v s :
  or32 addr v s = Ok tt (bus_wr addr (u32 (Z.lor (peek addr s) v)) (after_rd addr s)).
Proof. unfold or32. by rewrite (bind_ok _ _ _ _ _ (read32_run addr s)). Qed.

Lemma or32_eq addr v : or32 addr v = (x ← read32 addr; write32 addr (Z.lor x v)).
Proof. done. Qed.

Lemma peek_u32 addr s : is_u32 (peek addr s).
Proof. apply u32_is_u32. Qed.
End ops.

(** ** Recording a run

    [traced S] behaves as [S] and records every access in order, so that a
    theorem can say exactly which registers an operation touches whatever the
    hardware answers. *)

Inductive access : Type :=
| Rd (addr value : Z)
| Wr (addr value : Z).

#[export] Instance access_eq_dec : EqDecision access.
Proof. solve_decision. Defined.

Record traced (S : Type) : Type := Traced { tr_state : S; tr_log : list access }.
Arguments Traced {S}.
Arguments tr_state {S}.
Arguments tr_log {S}.

#[export] Instance traced_bus {S} `{Bus S} : Bus (traced S) := {
  bus_rd a t :=
    let '(v, s') := bus_rd a (tr_state t) in
    (v, Traced s' (tr_log t ++ [Rd a (u32 v)]));
  bus_wr a v t := Traced (bus_wr a v (tr_state t)) (tr_log t ++ [Wr a v]);
}.

Section traced_run.
Context {S : Type} `{Bus S}.

Lemma read32_traced addr (s : S) log :
  read32 addr (Traced s log) =
    Ok (peek addr s) (Traced (after_rd addr s) (log ++ [Rd addr (peek addr s)])).
Proof. unfold read32, peek, after_rd. cbn. by destruct (bus_rd addr s). Qed.

Lemma write32_traced addr v (s : S) log :
  write32 addr v (Traced s log) =
    Ok tt (Traced (bus_wr addr (u32 v) s) (log ++ [Wr addr (u32 v)])).
Proof. done. Qed.

Lemma or32_traced addr v (s : S) log :
  or32 addr v (Traced s log) =
    Ok tt (Traced (bus_wr addr (u32 (Z.lor (peek addr s) v)) (after_rd addr s))
             (log ++ [Rd addr (peek addr s); Wr addr (u32 (Z.lor (peek addr s) v))])).
Proof.
  unfold or32. rewrite (bind_ok _ _ _ _ _ (read32_traced addr s log)).
  rewrite write32_traced. by rewrite <- app_assoc.
Qed.
End traced_run.

Global Typeclasses Opaque read32 write32 or32.
#[global] Opaque read32 write32 or32.
#[export] Hint Resolve peek_u32 : word_db.

(** Runs every register access at the head of the computation. *)
Ltac run_access :=
  match goal with
  | |- context [((?m ≫= ?f) ≫= ?g) ?s] => rewrite (bind_assoc m f g s)
  | |- context [(mret ?a ≫= ?f) ?s] => rewrite (bind_ret a f s)
  | |- context [(get ≫= ?f) ?s] => rewrite (bind_get f s)
  | |- context [(modify ?g ≫= ?f) ?s] => rewrite (bind_modify g f s)
  | |- context [(read32 ?a ≫= ?f) (Traced ?s ?l)] =>
      rewrite (bind_ok _ f _ _ _ (read32_traced a s l))
  | |- context [(write32 ?a ?v ≫= ?f) (Traced ?s ?l)] =>
      rewrite (bind_ok _ f _ _ _ (write32_traced a v s l))
  | |- context [(or32 ?a ?v ≫= ?f) (Traced ?s ?l)] =>
      rewrite (bind_ok _ f _ _ _ (or32_traced a v s l))
  | |- context [(read32 ?a ≫= ?f) ?s] => rewrite (bind_ok _ f s _ _ (read32_run a s))
  | |- context [(write32 ?a ?v ≫= ?f) ?s] => rewrite (bind_ok _ f s _ _ (write32_run a v s))
  | |- context [(or32 ?a ?v ≫= ?f) ?s] => rewrite (bind_ok _ f s _ _ (or32_run a v s))
  | |- context [read32 ?a (Traced ?s ?l)] => rewrite (read32_traced a s l)
  | |- context [write32 ?a ?v (Traced ?s ?l)] => rewrite (write32_traced a v s l)
  | |- context [or32 ?a ?v (Traced ?s ?l)] => rewrite (or32_traced a v s l)
  | |- context [read32 ?a ?s] => rewrite (read32_run a s)
  | |- context [write32 ?a ?v ?s] => rewrite (write32_run a v s)
  | |- context [or32 ?a ?v ?s] => rewrite (or32_run a v s)
  end.

(** ** Addresses that behave as memory *)

Class Storage (S : Type) `{Bus S} (P : Z -> Prop) := {
  storage_rd : forall a s, P a -> after_rd a s = s;
  storage_wr_eq : forall a v s, P a -> is_u32 v -> peek a (bus_wr a v s) = v;
  storage_wr_ne : forall a a' v s, P a -> a' <> a -> peek a (bus_wr a' v s) = peek a s;
  storage_rd_ne : forall a a' s, P a -> peek a (after_rd a' s) = peek a s;
}.

Lemma Storage_mono {S} `{Bus S} (P Q : Z -> Prop) :
  (forall a, Q a -> P a) -> Storage S P -> Storage S Q.
Proof. intros HQ []. constructor; eauto. Qed.

(** ** Register blocks

    A device's [typedef struct] of volatile words: its fields in order, each
    with its number of words; [None] is a reserved gap.  Offsets are computed
    from the declaration, as the compiler does. *)
Section layout.
Context {R : Type} `{EqDecision R}.

Fixpoint find_reg (r : R) (l : list (option R * Z)) (off : Z) : option (Z * Z) :=
  match l with
  | [] => None
  | (f, n) :: l' =>
      if decide (f = Some r) then Some (off, n) else find_reg r l' (off + 4 * n)
  end.

(** Address of element [i] of field [r]; [None] outside the array. *)
Definition reg_addr (l : list (option R * Z)) (base : Z) (r : R) (i : Z) : option Z :=
  match find_reg r l 0 with
  | Some (off, n) =>
      if (0 <=? i) && (i <? n) then Some (base + off + 4 * i) else None
  | None => None
  end.

Lemma reg_addr_in l base r i off n :
  find_reg r l 0 = Some (off, n) -> 0 <= i < n ->
  reg_addr l base r i = Some (base + off + 4 * i).
Proof.
  intros Hf Hi. unfold reg_addr. rewrite Hf.
  by destruct (Z.leb_spec 0 i), (Z.ltb_spec i n); try lia.
Qed.

Lemma reg_addr_out l base r i off n :
  find_reg r l 0 = Some (off, n) -> ~ 0 <= i < n -> reg_addr l base r i = None.
Proof.
  intros Hf Hi. unfold reg_addr. rewrite Hf.
  by destruct (Z.leb_spec 0 i), (Z.ltb_spec i n); try lia.
Qed.
End layout.

Section reg_ops.
Context {S : Type} `{Bus S}.
(** Accesses through a struct pointer; an index outside the declared array
    is undefined behaviour. *)
Definition ld (a : option Z) : M S Z :=
  match a with Some a => read32 a | None => undef end.
Definition st (a : option Z) (v : Z) : M S unit :=
  match a with Some a => write32 a v | None => undef end.
Definition st_or (a : option Z) (v : Z) : M S unit :=
  match a with Some a => or32 a v | None => undef end.
End reg_ops.

(** ** What a computation does to the bus

    [replay] performs the accesses of a log.  A computation that reaches the
    bus only through the loads and stores above [traces]: the state it ends in
    is the replay of what it recorded.  [does m a P] says that [m] returns [a]
    whatever the hardware answers, with a log that satisfies [P]. *)
Definition replay1 {S} `{Bus S} (s : S) (a : access) : S :=
  match a with Rd x _ => after_rd x s | Wr x v => bus_wr x v s end.
Definition replay {S} `{Bus S} (l : list access) (s : S) : S := fold_left replay1 l s.

Lemma replay_app {S} `{Bus S} l1 l2 (s : S) : replay (l1 ++ l2) s = replay l2 (replay l1 s).
Proof. apply fold_left_app. Qed.

Class Traces {S} `{Bus S} {A} (m : M (traced S) A) : Prop :=
  traces : forall s log,
    match m (Traced s log) with
    | Ok _ t => exists new, t = Traced (replay new s) (log ++ new)
    | _ => True
    end.

Section traces.
Context {S : Type} `{Bus S}.

#[export] Instance traces_ret {A} (a : A) : Traces (mret a : M (traced S) A).
Proof. intros s log. exists []. by rewrite app_nil_r. Qed.
#[export] Instance traces_undef {A} : Traces (undef : M (traced S) A).
Proof. done. Qed.
#[export] Instance traces_no_fuel {A} : Traces (no_fuel : M (traced S) A).
Proof. done. Qed.
#[export] Instance traces_hang {A} : Traces (hang : M (traced S) A).
Proof. done. Qed.
#[export] Instance traces_bind {A B} (m : M (traced S) A) (f : A -> M (traced S) B) :
  Traces m -> (forall a, Traces (f a)) -> Traces (m ≫= f).
Proof.
  intros Hm Hf s log. unfold mbind, M_bind. specialize (Hm s log).
  destruct (m (Traced s log)) as [a t| | |]; [|done..]. destruct Hm as [n1 ->].
  specialize (Hf a (replay n1 s) (log ++ n1)). destruct (f a _) as [b t| | |]; [|done..].
  destruct Hf as [n2 ->]. exists (n1 ++ n2). by rewrite replay_app, app_assoc.
Qed.
#[export] Instance traces_read32 a : Traces (read32 a : M (traced S) Z).
Proof. intros s log. rewrite read32_traced. by exists [Rd a (peek a s)]. Qed.
#[export] Instance traces_write32 a v : Traces (write32 a v : M (traced S) unit).
Proof. intros s log. rewrite write32_traced. by exists [Wr a (u32 v)]. Qed.
#[export] Instance traces_or32 a v : Traces (or32 a v : M (traced S) unit).
Proof. rewrite or32_eq. apply _. Qed.
#[export] Instance traces_ld a : Traces (ld a : M (traced S) Z).
Proof. destruct a; apply _. Qed.
#[export] Instance traces_st a v : Traces (st a v : M (traced S) unit).
Proof. destruct a; apply _. Qed.
#[export] Instance traces_st_or a v : Traces (st_or a v : M (traced S) unit).
Proof. destruct a; apply _. Qed.
#[export] Instance traces_if {A} (b : bool) (m1 m2 : M (traced S) A) :
  Traces m1 -> Traces m2 -> Traces (if b then m1 else m2).
Proof. by destruct b. Qed.
#[export] Instance traces_when b (m : M (traced S) unit) : Traces m -> Traces (when b m).
Proof. unfold when. apply _. Qed.
#[export] Instance traces_for lo n (body : Z -> M (traced S) unit) :
  (forall i, Traces (body i)) -> Traces (for_range lo n body).
Proof. intros Hb. revert lo. induction n; intros lo; cbn; apply _. Qed.
#[export] Instance traces_while n (c : M (traced S) bool) body :
  Traces c -> Traces body -> Traces (while_fuel n c body).
Proof. intros Hc Hb. induction n; cbn; apply _. Qed.

Definition does {A} (m : M (traced S) A) (a : A) (P : list access -> Prop) : Prop :=
  forall s log, exists new, m (Traced s log) = Ok a (Traced (replay new s) (log ++ new)) /\ P new.

(** Logs made of a part for each of two computations; a given log. *)
Definition chop (P Q : list access -> Prop) (l : list access) : Prop :=
  exists l1 l2, l = l1 ++ l2 /\ P l1 /\ Q l2.
Definition exactly (l : list access) : list access -> Prop := eq l.

Lemma does_intro {A} (m : M (traced S) A) a (P : list access -> Prop) :
  Traces m ->
  (forall s log, exists s' new, m (Traced s log) = Ok a (Traced s' (log ++ new)) /\ P new) ->
  does m a P.
Proof.
  intros Ht Hm s log. destruct (Hm s log) as (s' & new & E & HP). exists new. split; [|done].
  specialize (Ht s log). rewrite E in *. destruct Ht as [n [= -> En]].
  by apply app_inv_head in En as ->.
Qed.

Lemma does_bind {A B} (m : M (traced S) A) (f : A -> M (traced S) B) a b P Q :
  does m a P -> does (f a) b Q -> does (m ≫= f) b (chop P Q).
Proof.
  intros Hm Hf s log. destruct (Hm s log) as (n1 & E1 & H1).
  destruct (Hf (replay n1 s) (log ++ n1)) as (n2 & E2 & H2).
  exists (n1 ++ n2). rewrite (bind_ok _ _ _ _ _ E1), E2, replay_app, app_assoc.
  split; [done|]. by exists n1, n2.
Qed.

Lemma does_ret {A} (a : A) : does (mret a) a (exactly []).
Proof. intros s log. exists []. by rewrite app_nil_r. Qed.

Lemma does_weaken {A} (m : M (traced S) A) a (P Q : list access -> Prop) :
  does m a P -> (forall l, P l -> Q l) -> does m a Q.
Proof. intros Hm HPQ s log. destruct (Hm s log) as (n & E & HP). exists n. auto. Qed.

Lemma does_write32 a v : does (write32 a v) tt (exactly [Wr a (u32 v)]).
Proof. intros s log. rewrite write32_traced. by exists [Wr a (u32 v)]. Qed.

(** A store in front of a computation. *)
Lemma does_write_then {A} a v (f : unit -> M (traced S) A) b l Q :
  does (f tt) b (chop (exactly l) Q) ->
  does (write32 a v ≫= f) b (chop (exactly (Wr a (u32 v) :: l)) Q).
Proof.
  intros Hf. eapply does_weaken; [exact (does_bind _ _ _ _ _ _ (does_write32 a v) Hf)|].
  intros ? (l1 & l2 & -> & <- & (l3 & l4 & -> & <- & HQ)). by exists (Wr a (u32 v) :: l), l4.
Qed.

Lemma does_chop_nil {A} (m : M (traced S) A) a Q :
  does m a Q -> does m a (chop (exactly []) Q).
Proof. intros Hm. eapply does_weaken; [exact Hm|]. intros l HQ. by exists [], l. Qed.
End traces.

(** ** Instances

    [regfile] is memory: every address stores the last value written to it. *)

Definition regfile : Type := gmap Z Z.

#[export] Instance regfile_bus : Bus regfile := {
  bus_rd a m := (default 0 ((m : gmap Z Z) !! a), m);
  bus_wr a v m := <[a := v]> (m : gmap Z Z);
}.

#[export] Instance regfile_storage P : Storage regfile P.
Proof.
  constructor; unfold peek, after_rd; cbn; intros; try done.
  - rewrite lookup_insert_eq. cbn. by apply u32_small.
  - by rewrite lookup_insert_ne by done.
Qed.

