(* ===== verification/Ttc.v ===== *)
(** * Triple Timer Counter driver ([zynq_ttc.c], [zynq_ttc.h])

    The driver is the same text on every board and in the non-secure guest, up
    to four constants and the result of [ttc_interrupt_clear]; the record
    [ttc_cfg] holds what differs and the boards are its values. *)
From S2P Require Import Prelude Bus.

Local Open Scope Z_scope.

(** ** Registers and constants ([zynq_ttc.h]) *)

Definition TTC0_TTCx_1_INTERRUPT : Z := 42.
Definition TTC0_TTCx_2_INTERRUPT : Z := 43.
Definition TTC0_TTCx_3_INTERRUPT : Z := 44.
Definition TTC1_TTCx_1_INTERRUPT : Z := 69.
Definition TTC1_TTCx_2_INTERRUPT : Z := 70.
Definition TTC1_TTCx_3_INTERRUPT : Z := 71.

Definition TTC_CLK_CNTRL_PS_EN : Z := Z.shiftl 1 0.

Definition TTC_CNT_CNTRL_RST : Z := Z.shiftl 1 4.
Definition TTC_CNT_CNTRL_MATCH : Z := Z.shiftl 1 3.
Definition TTC_CNT_CNTRL_INT : Z := Z.shiftl 1 1.
Definition TTC_CNT_CNTRL_DIS : Z := Z.shiftl 1 0.

Definition TTC_INT_EN_MATCH1 : Z := Z.shiftl 1 1.
Definition TTC_INT_EN_INTERVAL : Z := Z.shiftl 1 0.

Definition TTC_RESET_CONFIG : Z := 0x21.

Definition NUM_TTC : Z := 2.
Definition NUM_TIM_PER_TTC : Z := 3.
Definition TTC0 : Z := 0.
Definition TTC1 : Z := 1.
Definition TTCx_1 : Z := 0.
Definition TTCx_2 : Z := 1.
Definition TTCx_3 : Z := 2.

Definition INTERVAL : Z := 0.
Definition MATCH : Z := 1.
Definition FREE_RUNNING : Z := 2.

Definition TTC0_BASE : Z := 0xF8001000.
Definition TTC1_BASE : Z := 0xF8002000.

Inductive ttc_reg : Type :=
| clk_cntrl | cnt_cntrl | cnt_value | interv_cnt
| match1_cnt | match2_cnt | match3_cnt
| interrupt_reg | interrupt_en | event_cntrl_tim | event_reg.

#[export] Instance ttc_reg_eq_dec : EqDecision ttc_reg.
Proof. solve_decision. Defined.

Definition Zynq_Ttc : list (option ttc_reg * Z) :=
  [ (Some clk_cntrl, NUM_TIM_PER_TTC);
    (Some cnt_cntrl, NUM_TIM_PER_TTC);
    (Some cnt_value, NUM_TIM_PER_TTC);
    (Some interv_cnt, NUM_TIM_PER_TTC);
    (Some match1_cnt, NUM_TIM_PER_TTC);
    (Some match2_cnt, NUM_TIM_PER_TTC);
    (Some match3_cnt, NUM_TIM_PER_TTC);
    (Some interrupt_reg, NUM_TIM_PER_TTC);
    (Some interrupt_en, NUM_TIM_PER_TTC);
    (Some event_cntrl_tim, NUM_TIM_PER_TTC);
    (Some event_reg, NUM_TIM_PER_TTC) ].

(** [Ptr_Ttc[ttc_num]] *)
Definition Ptr_Ttc (ttc_num : Z) : option Z :=
  if ttc_num =? 0 then Some TTC0_BASE
  else if ttc_num =? 1 then Some TTC1_BASE else None.

(** [ptr_ttc->r[i]] *)
Definition ttc_at (ttc_num : Z) (r : ttc_reg) (i : Z) : option Z :=
  match Ptr_Ttc ttc_num with
  | Some base => reg_addr Zynq_Ttc base r i
  | None => None
  end.

(** ** What differs between the copies of the driver *)

Record ttc_cfg : Type := {
  TTC_INT_VALUE : Z;
  TTC_MATCH1_VALUE : Z;
  (** ticks per 1000 us, prescaler 1 *)
  ticks_short : Z;
  (** ticks per 10000 us, prescaler 11 *)
  ticks_long : Z;
  (** [ttc_interrupt_clear] returns the status register, or TRUE *)
  returns_status : bool;
}.

Definition zedboard_ttc : ttc_cfg := {|
  TTC_INT_VALUE := 111; TTC_MATCH1_VALUE := 111;
  ticks_short := 27750; ticks_long := 271; returns_status := true |}.
Definition zybo_ttc : ttc_cfg := {|
  TTC_INT_VALUE := 100; TTC_MATCH1_VALUE := 100;
  ticks_short := 25000; ticks_long := 244; returns_status := true |}.
Definition zc702_ttc : ttc_cfg := {|
  TTC_INT_VALUE := 111; TTC_MATCH1_VALUE := 111;
  ticks_short := 27750; ticks_long := 271; returns_status := false |}.

(** ** Operations *)
Section driver.
Context {S : Type} `{Bus S}.
Variable cfg : ttc_cfg.

(** [(ttc_num > TTC1) || (timer_num > TTCx_2)] *)
Definition ttc_bad_args (ttc_num timer_num : Z) : bool :=
  (TTC1 <? ttc_num) || (TTCx_2 <? timer_num).

Definition ttc_init (ttc_num timer_num mode : Z) : M S Z :=
  if ttc_bad_args ttc_num timer_num || (FREE_RUNNING <? mode) then mret FALSE
  else
    st (ttc_at ttc_num cnt_cntrl timer_num) TTC_RESET_CONFIG ;;
    clk ← ld (ttc_at ttc_num clk_cntrl timer_num);
    st (ttc_at ttc_num clk_cntrl timer_num) (bic32 clk TTC_CLK_CNTRL_PS_EN) ;;
    (if mode =? INTERVAL then
       st (ttc_at ttc_num cnt_cntrl timer_num)
         (Z.lor TTC_RESET_CONFIG
            (Z.lor (Z.lor TTC_CNT_CNTRL_RST TTC_CNT_CNTRL_INT) TTC_CNT_CNTRL_DIS)) ;;
       st (ttc_at ttc_num interv_cnt timer_num) (TTC_INT_VALUE cfg) ;;
       st (ttc_at ttc_num interrupt_en timer_num) TTC_INT_EN_INTERVAL
     else if mode =? MATCH then
       st (ttc_at ttc_num cnt_cntrl timer_num)
         (Z.lor (Z.lor TTC_CNT_CNTRL_RST TTC_CNT_CNTRL_MATCH) TTC_CNT_CNTRL_DIS) ;;
       st (ttc_at ttc_num match1_cnt timer_num) (TTC_MATCH1_VALUE cfg) ;;
       st (ttc_at ttc_num interrupt_en timer_num) TTC_INT_EN_MATCH1
     else mret tt) ;;
    mret TRUE.

Definition ttc_enable (ttc_num timer_num : Z) : M S Z :=
  if ttc_bad_args ttc_num timer_num then mret FALSE
  else
    c ← ld (ttc_at ttc_num cnt_cntrl timer_num);
    st (ttc_at ttc_num cnt_cntrl timer_num)
      (bic32 (Z.lor c TTC_CNT_CNTRL_RST) TTC_CNT_CNTRL_DIS) ;;
    mret TRUE.

Definition ttc_disable (ttc_num timer_num : Z) : M S Z :=
  if ttc_bad_args ttc_num timer_num then mret FALSE
  else
    c ← ld (ttc_at ttc_num cnt_cntrl timer_num);
    st (ttc_at ttc_num cnt_cntrl timer_num) (Z.lor c TTC_CNT_CNTRL_DIS) ;;
    mret TRUE.

(** [((n - 1) << 1) | 0x1]: prescaler value [n - 1], prescaler enabled. *)
Definition prescale (n : Z) : Z := Z.lor (Z.shiftl (n - 1) 1) 0x1.

(** The two static ranges of [ttc_request]: program the prescaler, return
    the tick count; [None] outside them. *)
Definition ttc_request_ticks (ttc_num timer_num useconds : Z) : M S (option Z) :=
  if (1 <=? useconds) && (useconds <=? 1000) then
    clk ← ld (ttc_at ttc_num clk_cntrl timer_num);
    st (ttc_at ttc_num clk_cntrl timer_num) (Z.lor clk (prescale 2)) ;;
    mret (Some (mul32 useconds (ticks_short cfg) / 1000))
  else if (1000 <? useconds) && (useconds <=? 1000000) then
    clk ← ld (ttc_at ttc_num clk_cntrl timer_num);
    st (ttc_at ttc_num clk_cntrl timer_num) (Z.lor clk (prescale 12)) ;;
    mret (Some (mul32 useconds (ticks_long cfg) / 10000))
  else mret None.

Definition ttc_request (ttc_num timer_num useconds : Z) : M S Z :=
  if ttc_bad_args ttc_num timer_num then mret FALSE
  else
    c ← ld (ttc_at ttc_num cnt_cntrl timer_num);
    let c := Z.lor c (Z.lor TTC_CNT_CNTRL_RST TTC_CNT_CNTRL_DIS) in
    st (ttc_at ttc_num cnt_cntrl timer_num) c ;;
    ticks ← ttc_request_ticks ttc_num timer_num useconds;
    match ticks with
    | None => mret FALSE
    | Some ticks =>
        let c := Z.land c (Z.lor TTC_CNT_CNTRL_MATCH TTC_CNT_CNTRL_INT) in
        if negb (Z.land c TTC_CNT_CNTRL_INT =? 0) then
          st (ttc_at ttc_num interv_cnt timer_num) ticks ;; mret TRUE
        else if negb (Z.land c TTC_CNT_CNTRL_MATCH =? 0) then
          st (ttc_at ttc_num match1_cnt timer_num) ticks ;; mret TRUE
        else mret FALSE
    end.

(** The [switch] of [ttc_interrupt_clear]: which timer raised it. *)
Definition ttc_of_interrupt (interrupt : Z) : option (Z * Z) :=
  if interrupt =? TTC0_TTCx_1_INTERRUPT then Some (0, 0)
  else if interrupt =? TTC0_TTCx_2_INTERRUPT then Some (0, 1)
  else if interrupt =? TTC0_TTCx_3_INTERRUPT then Some (0, 2)
  else if interrupt =? TTC1_TTCx_1_INTERRUPT then Some (1, 0)
  else if interrupt =? TTC1_TTCx_2_INTERRUPT then Some (1, 1)
  else if interrupt =? TTC1_TTCx_3_INTERRUPT then Some (1, 2)
  else None.

Definition ttc_interrupt_clear (interrupt : Z) : M S Z :=
  match ttc_of_interrupt interrupt with
  | None => mret FALSE
  | Some (ttc_num, tim) =>
      v ← ld (ttc_at ttc_num interrupt_reg tim);
      mret (if returns_status cfg then v else TRUE)
  end.

Definition read_ttc (ttc_num timer_num : Z) : M S Z :=
  ld (ttc_at ttc_num cnt_value timer_num).
End driver.

(** ** Addresses *)

(** The offsets of the TTC programming model (three timers, one word each). *)
Definition ttc_off (r : ttc_reg) : Z :=
  match r with
  | clk_cntrl => 0x00 | cnt_cntrl => 0x0C | cnt_value => 0x18 | interv_cnt => 0x24
  | match1_cnt => 0x30 | match2_cnt => 0x3C | match3_cnt => 0x48
  | interrupt_reg => 0x54 | interrupt_en => 0x60
  | event_cntrl_tim => 0x6C | event_reg => 0x78
  end.
Definition ttc_base (ttc_num : Z) : Z := if ttc_num =? 0 then TTC0_BASE else TTC1_BASE.

Lemma ttc_at_eq t r k :
  0 <= t <= 1 -> 0 <= k < 3 ->
  ttc_at t r k = Some (ttc_base t + ttc_off r + 4 * k).
Proof.
  intros Ht Hk. unfold ttc_at, Ptr_Ttc, ttc_base.
  assert (find_reg r Zynq_Ttc 0 = Some (ttc_off r, 3)) as Hf by (by destruct r).
  assert (t = 0 \/ t = 1) as [-> | ->] by lia; eapply reg_addr_in; eauto.
Qed.

Lemma ttc_good_args t k :
  ttc_bad_args t k = false <-> t <= 1 /\ k <= 1.
Proof. unfold ttc_bad_args, TTC1, TTCx_2. lia. Qed.

(** The address of a register of an accepted timer. *)
Definition ttc_addr (t k : Z) (r : ttc_reg) : Z := ttc_base t + ttc_off r + 4 * k.

Ltac ttc_start Ht Hk :=
  rewrite ?(proj2 (ttc_good_args _ _)) by lia; cbn [orb];
  rewrite ?(ttc_at_eq _ _ _ Ht) by lia; cbn [ld st];
  repeat match goal with
    | |- context [ttc_base ?t + ttc_off ?r + 4 * ?k] =>
        change (ttc_base t + ttc_off r + 4 * k) with (ttc_addr t k r)
    end.

(** ** What [ttc_request] programs *)

(** Prescaler exponent and reload value for an interval: the timer is clocked
    at 111 MHz divided by [2 ^ (exponent + 1)]. *)
Definition interval_spec (cfg : ttc_cfg) (useconds : Z) : option (Z * Z) :=
  if (1 <=? useconds) && (useconds <=? 1000) then
    Some (1, useconds * ticks_short cfg / 1000)
  else if (1000 <? useconds) && (useconds <=? 1000000) then
    Some (11, useconds * ticks_long cfg / 10000)
  else None.

(** The configurations of the repository. *)
Definition board_ttc (cfg : ttc_cfg) : Prop :=
  cfg = zedboard_ttc \/ cfg = zybo_ttc \/ cfg = zc702_ttc.

Lemma interval_spec_mul32 cfg us :
  board_ttc cfg -> 1 <= us <= 1000000 ->
  (us <= 1000 -> mul32 us (ticks_short cfg) = us * ticks_short cfg) /\
  mul32 us (ticks_long cfg) = us * ticks_long cfg.
Proof.
  intros Hc Hu. unfold mul32, u32.
  destruct Hc as [-> | [-> | ->]]; cbn; split; intros; apply Z.mod_small; lia.
Qed.

Lemma interval_spec_bounds cfg us ps ticks :
  board_ttc cfg -> interval_spec cfg us = Some (ps, ticks) -> 0 <= ticks < 2 ^ 15.
Proof.
  unfold interval_spec. intros Hc.
  destruct (Z.leb_spec 1 us), (Z.leb_spec us 1000), (Z.ltb_spec 1000 us),
    (Z.leb_spec us 1000000); cbn; intros; simplify_eq; try lia;
  (destruct Hc as [-> | [-> | ->]]; cbn;
   (split; [apply Z.div_pos; lia | apply Z.div_lt_upper_bound; lia])).
Qed.

(** The register accesses of a request, given the two values the device
    answers: the counter is stopped and reset first, then the prescaler is
    programmed, then the reload register of the selected mode. *)
Definition request_spec (cfg : ttc_cfg) (t k us c clk : Z) : Z * list access :=
  let stop := [Rd (ttc_addr t k cnt_cntrl) c;
               Wr (ttc_addr t k cnt_cntrl) (Z.lor c 0x11)] in
  match interval_spec cfg us with
  | None => (FALSE, stop)
  | Some (ps, ticks) =>
      let clock := [Rd (ttc_addr t k clk_cntrl) clk;
                    Wr (ttc_addr t k clk_cntrl) (Z.lor clk (2 * ps + 1))] in
      if Z.testbit c 1 then
        (TRUE, stop ++ clock ++ [Wr (ttc_addr t k interv_cnt) ticks])
      else if Z.testbit c 3 then
        (TRUE, stop ++ clock ++ [Wr (ttc_addr t k match1_cnt) ticks])
      else (FALSE, stop ++ clock)
  end.

Lemma request_mode_bits c :
  let c' := Z.land (Z.lor c (Z.lor TTC_CNT_CNTRL_RST TTC_CNT_CNTRL_DIS))
              (Z.lor TTC_CNT_CNTRL_MATCH TTC_CNT_CNTRL_INT) in
  (Z.land c' TTC_CNT_CNTRL_INT =? 0) = negb (Z.testbit c 1) /\
  (Z.land c' TTC_CNT_CNTRL_MATCH =? 0) = negb (Z.testbit c 3).
Proof.
  cbn zeta. change TTC_CNT_CNTRL_INT with (2 ^ 1) at 2.
  change TTC_CNT_CNTRL_MATCH with (2 ^ 3) at 3.
  rewrite !land_pow2_eqb, !Z.land_spec, !Z.lor_spec by lia. cbn.
  by rewrite !orb_false_r, !andb_true_r.
Qed.

Section request.
Context {S : Type} `{Bus S}.
Variable cfg : ttc_cfg.
Hypothesis Hcfg : board_ttc cfg.

Lemma ttc_request_ticks_run t k us (s : S) log :
  0 <= t <= 1 -> 0 <= k <= 1 ->
  exists clk s1,
    ttc_request_ticks cfg t k us (Traced s log) =
    match interval_spec cfg us with
    | None => Ok None (Traced s log)
    | Some (ps, ticks) =>
        Ok (Some ticks)
          (Traced s1 (log ++ [Rd (ttc_addr t k clk_cntrl) clk;
                              Wr (ttc_addr t k clk_cntrl) (Z.lor clk (2 * ps + 1))]))
    end.
Proof.
  intros Ht Hk. unfold ttc_request_ticks, interval_spec.
  ttc_start Ht Hk. set (clk := peek (ttc_addr t k clk_cntrl) s).
  change (prescale 2) with 3. change (prescale 12) with 23.
  destruct ((1 <=? us) && (us <=? 1000)) eqn:E1;
    [|destruct ((1000 <? us) && (us <=? 1000000)) eqn:E2; [|by exists 0, s]];
    exists clk; eexists; repeat run_access; mrun;
    destruct (interval_spec_mul32 cfg us Hcfg) as [Hs Hl]; try lia;
    rewrite ?Hs, ?Hl by lia; rewrite u32_small by (subst clk; auto with word_db);
    by rewrite <- app_assoc.
Qed.

Lemma ttc_request_run t k us (s : S) log :
  0 <= t <= 1 -> 0 <= k <= 1 ->
  exists clk s1,
    let spec := request_spec cfg t k us (peek (ttc_addr t k cnt_cntrl) s) clk in
    ttc_request cfg t k us (Traced s log) = Ok (fst spec) (Traced s1 (log ++ snd spec)).
Proof.
  intros Ht Hk. cbn zeta. unfold ttc_request, request_spec.
  ttc_start Ht Hk. repeat run_access.
  set (c := peek (ttc_addr t k cnt_cntrl) s).
  assert (Hc : is_u32 c) by apply peek_u32. clearbody c.
  destruct (request_mode_bits c) as [-> ->]. rewrite !negb_involutive.
  change (Z.lor TTC_CNT_CNTRL_RST TTC_CNT_CNTRL_DIS) with 0x11.
  rewrite u32_small, <- app_assoc by auto with word_db. cbn [app].
  edestruct (ttc_request_ticks_run t k us) as (clk & s1 & Hr); [done..|].
  exists clk. unfold mbind at 1, M_bind at 1. rewrite Hr.
  destruct (interval_spec cfg us) as [[ps ticks]|] eqn:E; [|by eexists].
  apply interval_spec_bounds in E; [|done].
  destruct (Z.testbit c 1), (Z.testbit c 3); eexists;
    repeat run_access; mrun; cbn [fst snd]; rewrite <- ?app_assoc;
    by rewrite ?u32_small by (unfold is_u32; lia).
Qed.
End request.

(** ** The copies of the driver

    Each board directory, [drivers/zynq] and the non-secure guest carry their
    own copy of the file. *)
Section copies.
Context {S : Type} `{Bus S}.

Definition zybo_ttc_init : Z -> Z -> Z -> M S Z := ttc_init zybo_ttc.
Definition zybo_ttc_enable : Z -> Z -> M S Z := ttc_enable.
Definition zybo_ttc_disable : Z -> Z -> M S Z := ttc_disable.
Definition zybo_ttc_request : Z -> Z -> Z -> M S Z := ttc_request zybo_ttc.
Definition zybo_ttc_interrupt_clear : Z -> M S Z := ttc_interrupt_clear zybo_ttc.

Definition zc702_ttc_init : Z -> Z -> Z -> M S Z := ttc_init zc702_ttc.
Definition zc702_ttc_enable : Z -> Z -> M S Z := ttc_enable.
Definition zc702_ttc_disable : Z -> Z -> M S Z := ttc_disable.
Definition zc702_ttc_request : Z -> Z -> Z -> M S Z := ttc_request zc702_ttc.
Definition zc702_ttc_interrupt_clear : Z -> M S Z := ttc_interrupt_clear zc702_ttc.

Definition zynq_ttc_init : Z -> Z -> Z -> M S Z := ttc_init zc702_ttc.
Definition zynq_ttc_enable : Z -> Z -> M S Z := ttc_enable.
Definition zynq_ttc_disable : Z -> Z -> M S Z := ttc_disable.
Definition zynq_ttc_request : Z -> Z -> Z -> M S Z := ttc_request zc702_ttc.
Definition zynq_ttc_interrupt_clear : Z -> M S Z := ttc_interrupt_clear zc702_ttc.

Definition guest_ttc_init : Z -> Z -> Z -> M S Z := ttc_init zedboard_ttc.
Definition guest_ttc_enable : Z -> Z -> M S Z := ttc_enable.
Definition guest_ttc_disable : Z -> Z -> M S Z := ttc_disable.
Definition guest_ttc_request : Z -> Z -> Z -> M S Z := ttc_request zedboard_ttc.
Definition guest_ttc_interrupt_clear : Z -> M S Z := ttc_interrupt_clear zedboard_ttc.
Definition guest_read_ttc : Z -> Z -> M S Z := read_ttc.
End copies.

(** ** Properties *)

(** The timer's mode of operation after [ttc_init], as the registers written. *)
Definition init_spec (cfg : ttc_cfg) (t k mode clk : Z) : list access :=
  [Wr (ttc_addr t k cnt_cntrl) 0x21;
   Rd (ttc_addr t k clk_cntrl) clk;
   Wr (ttc_addr t k clk_cntrl) (Z.ldiff clk 1)] ++
  (if mode =? 0 then
     [Wr (ttc_addr t k cnt_cntrl) 0x33;
      Wr (ttc_addr t k interv_cnt) (TTC_INT_VALUE cfg);
      Wr (ttc_addr t k interrupt_en) 1]
   else if mode =? 1 then
     [Wr (ttc_addr t k cnt_cntrl) 0x19;
      Wr (ttc_addr t k match1_cnt) (TTC_MATCH1_VALUE cfg);
      Wr (ttc_addr t k interrupt_en) 2]
   else []).

Lemma bic32_ldiff a b : is_u32 a -> bic32 a b = Z.ldiff a b.
Proof.
  intros Ha. unfold bic32. bitwise. by rewrite (u32_testbit_high a) by (done || lia).
Qed.

(** On an accepted timer, [ttc_request] returns and makes exactly the
    register accesses of [request_spec], whatever the device answers: stop and
    reset the counter, or in the prescaler of the range, write the reload
    value to the register of the mode the counter was configured in. *)
Theorem ttc_request_accesses {S} `{Bus S} (cfg : ttc_cfg) (t k us : Z) (s : S) :
  board_ttc cfg -> 0 <= t <= 1 -> 0 <= k <= 1 ->
  exists clk s1,
    let spec := request_spec cfg t k us (peek (ttc_addr t k cnt_cntrl) s) clk in
    ttc_request cfg t k us (Traced s []) = Ok (fst spec) (Traced s1 (snd spec)).
Proof. intros Hc Ht Hk. by apply (ttc_request_run cfg Hc t k us s []). Qed.

Lemma ttc_request_accesses_witness :
  exists clk s1,
    ttc_request zedboard_ttc 0 0 1000 (Traced (<[0xF800100C := 0x33]> ∅ : regfile) []) =
    Ok TRUE (Traced s1 [Rd 0xF800100C 0x33; Wr 0xF800100C 0x33; Rd 0xF8001000 clk;
                        Wr 0xF8001000 (Z.lor clk 3); Wr 0xF8001024 27750]).
Proof.
  refine (ttc_request_accesses zedboard_ttc 0 0 1000 (<[0xF800100C := 0x33]> ∅ : regfile)
            _ _ _); [by left|lia|lia].
Defined.

Lemma interval_spec_cases cfg us :
  (1 <= us <= 1000 /\ interval_spec cfg us = Some (1, us * ticks_short cfg / 1000)) \/
  (1000 < us <= 1000000 /\ interval_spec cfg us = Some (11, us * ticks_long cfg / 10000)) \/
  ((us < 1 \/ 1000000 < us) /\ interval_spec cfg us = None).
Proof.
  unfold interval_spec.
  destruct (Z.leb_spec 1 us), (Z.leb_spec us 1000), (Z.ltb_spec 1000 us),
    (Z.leb_spec us 1000000); cbn; try lia; naive_solver lia.
Qed.

(** What a timer must be set to for an interval of [us] microseconds: clocked
    at [clock_mhz] divided by [2 ^ (ps + 1)], it counts to [ticks] in that time
    to within one tick; in the long range of the 100 MHz board, where the code
    rounds the rate down, to within 16 ticks.  [TTC_INT_VALUE] is a microsecond
    in cycles of the clock without prescaler. *)
Definition clock_mhz (cfg : ttc_cfg) : Z := TTC_INT_VALUE cfg.
Definition times (cfg : ttc_cfg) (us ps ticks : Z) : Prop :=
  0 <= ticks < 2 ^ 16 /\
  Z.abs (ticks * 2 ^ (ps + 1) - us * clock_mhz cfg) <=
    (if (clock_mhz cfg =? 100) && (1000 <? us) then 16 else 1) * 2 ^ (ps + 1).

Lemma interval_spec_times cfg us ps ticks :
  board_ttc cfg -> interval_spec cfg us = Some (ps, ticks) -> times cfg us ps ticks.
Proof.
  intros Hc E. pose proof (interval_spec_bounds _ _ _ _ Hc E) as Hb. split; [lia|]. clear Hb.
  destruct (interval_spec_cases cfg us) as [[? E'] | [[? E'] | [? E']]]; rewrite E' in E; [..|done];
    injection E as <- <-; destruct (Z.ltb_spec 1000 us); try lia; clear E';
    destruct Hc as [-> | [-> | ->]]; cbn; Z.div_mod_to_equations; lia.
Qed.

Lemma prescaler_field clk ps :
  ps = 1 \/ ps = 11 ->
  Z.testbit (Z.lor clk (2 * ps + 1)) 0 = true /\ field 1 4 (Z.lor clk (2 * ps + 1)) = Z.lor (field 1 4 clk) ps.
Proof.
  intros Hps. unfold field. rewrite Z.lor_spec, Z.shiftr_lor, Z.land_lor_distr_l.
  destruct Hps as [-> | ->]; cbn; by rewrite orb_true_r.
Qed.

(** C33: [ttc_request] programs the interval it is asked for, on any timer of
    any board and whatever the device answers.  It always returns, after it
    has stopped and reset the counter.  For an interval of 1 us to 1 s it then
    enables the prescaler - its field becomes the exponent or-ed into what the
    field held - and stores to the reload register of the mode the counter is
    in, and to no other, a count that with that exponent is the interval to
    within one tick (16 in the long range of the 100 MHz board) and fits the
    16 bits of the register; without a mode it returns FALSE.  Any other
    interval is refused with nothing more done. *)
Theorem ttc_request_accuracy {S} `{Bus S} (cfg : ttc_cfg) (t k us : Z) (s : S) :
  board_ttc cfg -> 0 <= t <= 1 -> 0 <= k <= 1 ->
  exists ret s' log,
    let c := peek (ttc_addr t k cnt_cntrl) s in
    let stop := [Rd (ttc_addr t k cnt_cntrl) c; Wr (ttc_addr t k cnt_cntrl) (Z.lor c 0x11)] in
    ttc_request cfg t k us (Traced s []) = Ok ret (Traced s' log) /\
    (1 <= us <= 1000000 -> exists clk w ps ticks,
      Z.testbit w 0 = true /\ field 1 4 w = Z.lor (field 1 4 clk) ps /\ times cfg us ps ticks /\
      let clock := [Rd (ttc_addr t k clk_cntrl) clk; Wr (ttc_addr t k clk_cntrl) w] in
      if Z.testbit c 1 then ret = TRUE /\ log = stop ++ clock ++ [Wr (ttc_addr t k interv_cnt) ticks]
      else if Z.testbit c 3 then ret = TRUE /\ log = stop ++ clock ++ [Wr (ttc_addr t k match1_cnt) ticks]
      else ret = FALSE /\ log = stop ++ clock) /\
    (us < 1 \/ 1000000 < us -> ret = FALSE /\ log = stop).
Proof.
  intros Hc Ht Hk. destruct (ttc_request_run cfg Hc t k us s [] Ht Hk) as (clk & s' & E). cbn zeta in E.
  do 3 eexists. cbn zeta. split; [exact E|]. clear E. unfold request_spec.
  set (c := peek (ttc_addr t k cnt_cntrl) s). clearbody c.
  destruct (interval_spec cfg us) as [[ps ticks]|] eqn:E.
  - destruct (interval_spec_cases cfg us) as [[Hu E'] | [[Hu E'] | [Hu E']]]; [..|congruence];
      (split; [|lia]); intros _; exists clk, (Z.lor clk (2 * ps + 1)), ps, ticks;
      (assert (Hps : ps = 1 \/ ps = 11) by (rewrite E' in E; injection E; lia));
      destruct (prescaler_field clk ps Hps);
      (split_and!; [done|done|by apply interval_spec_times|]); by destruct (Z.testbit c 1), (Z.testbit c 3).
  - destruct (interval_spec_cases cfg us) as [[Hu E'] | [[Hu E'] | [Hu E']]]; [congruence..|].
    split; [lia|]. done.
Qed.

Lemma ttc_request_accuracy_witness :
  exists s' clk w ps ticks,
    ttc_request zedboard_ttc 0 0 10000 (Traced (<[0xF800100C := 0x33]> ∅ : regfile) []) =
      Ok TRUE (Traced s' [Rd 0xF800100C 0x33; Wr 0xF800100C 0x33; Rd 0xF8001000 clk; Wr 0xF8001000 w;
                          Wr 0xF8001024 ticks]) /\
    Z.abs (ticks * 2 ^ (ps + 1) - 10000 * 111) <= 1 * 2 ^ (ps + 1).
Proof.
  destruct (ttc_request_accuracy zedboard_ttc 0 0 10000 (<[0xF800100C := 0x33]> ∅ : regfile))
    as (ret & s' & log & E & H & _); [by left|lia|lia|].
  destruct H as (clk & w & ps & ticks & _ & _ & [_ Hacc] & Hret & Hlog); [lia|].
  exists s', clk, w, ps, ticks. rewrite Hret, Hlog in E. exact (conj E Hacc).
Defined.

Lemma ttc_addr_ne t k r : r <> clk_cntrl -> ttc_addr t k r <> ttc_addr t k clk_cntrl.
Proof. unfold ttc_addr. destruct r; cbn; intros; try done; lia. Qed.

(** The clock control register after a request, where it stores. *)
Lemma ttc_request_clk {S} `{Bus S} cfg t k us (s : S) :
  board_ttc cfg -> 0 <= t <= 1 -> 0 <= k <= 1 ->
  Storage S (fun a => a = ttc_addr t k clk_cntrl) ->
  exists r s',
    ttc_request cfg t k us s = Ok r s' /\
    peek (ttc_addr t k clk_cntrl) s' =
      match interval_spec cfg us with
      | Some (ps, _) => Z.lor (peek (ttc_addr t k clk_cntrl) s) (2 * ps + 1)
      | None => peek (ttc_addr t k clk_cntrl) s
      end.
Proof.
  intros Hc Ht Hk [Hrd Hwr Hne Hrne]. unfold ttc_request, ttc_request_ticks, interval_spec.
  ttc_start Ht Hk. repeat run_access.
  change (prescale 2) with 3. change (prescale 12) with 23.
  assert (forall r, r <> clk_cntrl -> ttc_addr t k r <> ttc_addr t k clk_cntrl) as Hd
    by (intros; by apply ttc_addr_ne).
  repeat (repeat run_access; case_match); repeat run_access;
    (do 2 eexists; (split; [reflexivity|])); simplify_eq;
    rewrite ?Hne by (done || apply Hd; done);
    rewrite ?Hwr by (done || apply u32_is_u32);
    rewrite ?u32_small by auto with word_db;
    by rewrite ?Hrne, ?Hne, ?Hrne by (done || apply Hd; done).
Qed.

(** The prescaler is never cleared.  Where the clock control register
    stores what is written to it, a short interval requested after a long one
    runs with at least the long interval's prescaler, 11 instead of 1: from a
    reset clock register the timer is [2 ^ 10] times too slow. *)
Theorem ttc_request_stale_prescaler {S} `{Bus S} (cfg : ttc_cfg) (t k us us' : Z) (s : S) r s' :
  board_ttc cfg -> 0 <= t <= 1 -> 0 <= k <= 1 ->
  Storage S (fun a => a = ttc_addr t k clk_cntrl) ->
  1000 < us <= 1000000 -> 1 <= us' <= 1000 ->
  (ttc_request cfg t k us ;; ttc_request cfg t k us') s = Ok r s' ->
  Z.testbit (peek (ttc_addr t k clk_cntrl) s') 0 = true /\
  field 1 4 (peek (ttc_addr t k clk_cntrl) s') =
    Z.lor (field 1 4 (peek (ttc_addr t k clk_cntrl) s)) 11 /\
  exists ticks, interval_spec cfg us' = Some (1, ticks).
Proof.
  intros Hc Ht Hk Hst Hus Hus' Hrun.
  apply bind_inv in Hrun as (r1 & s1 & Hrun1 & Hrun2).
  destruct (ttc_request_clk cfg t k us s) as (r1' & s1' & E1 & Hp1); try done.
  rewrite Hrun1 in E1. symmetry in E1. simplify_eq.
  destruct (ttc_request_clk cfg t k us' s1) as (r2 & s2 & E2 & Hp2); try done.
  rewrite Hrun2 in E2. symmetry in E2. simplify_eq.
  destruct (interval_spec_cases cfg us) as [[? E] | [[? E] | [? E]]]; try lia.
  destruct (interval_spec_cases cfg us') as [[? E'] | [[? E'] | [? E']]]; try lia.
  rewrite E in Hp1. rewrite E' in Hp2. rewrite Hp2, Hp1, E'.
  rewrite <- Z.lor_assoc; change (Z.lor (2 * 11 + 1) (2 * 1 + 1)) with 23.
  split; [|split; [|by eexists]].
  - by rewrite Z.lor_spec, orb_true_r.
  - unfold field. by rewrite Z.shiftr_lor, Z.land_lor_distr_l.
Qed.

Lemma ttc_request_stale_prescaler_witness :
  match (ttc_request zedboard_ttc 0 0 10000 ;; ttc_request zedboard_ttc 0 0 1000)
          (<[0xF800100C := 0x33]> ∅ : regfile) with
  | Ok _ s' => field 1 4 (peek 0xF8001000 s') = 11
  | _ => False
  end.
Proof.
  run_returns E.
  apply (ttc_request_stale_prescaler zedboard_ttc 0 0 10000 1000) in E;
    [|by left|lia|lia|apply _|lia|lia].
  by apply E.
Defined.

Lemma ttc_bad_args_eq t k :
  TTC1 < t \/ TTCx_2 < k -> ttc_bad_args t k = true.
Proof. unfold ttc_bad_args. lia. Qed.

(** A timer number past the second, a block number past the first or an
    unknown mode is refused by every operation that takes one: it returns
    FALSE and touches no register.  (The third timer of a block, [TTCx_3],
    is among the refused ones.) *)
Theorem ttc_bad_args_refused {S} `{Bus S} (cfg : ttc_cfg) (t k mode us : Z) (s : S) :
  (TTC1 < t \/ TTCx_2 < k ->
    ttc_enable t k s = Ok FALSE s /\ ttc_disable t k s = Ok FALSE s /\
    ttc_request cfg t k us s = Ok FALSE s) /\
  (TTC1 < t \/ TTCx_2 < k \/ FREE_RUNNING < mode -> ttc_init cfg t k mode s = Ok FALSE s) /\
  ttc_bad_args 0 TTCx_3 = true.
Proof.
  split; [|split; [|done]].
  - intros Hb%ttc_bad_args_eq. unfold ttc_enable, ttc_disable, ttc_request. by rewrite Hb.
  - intros Hb. unfold ttc_init.
    assert (ttc_bad_args t k || (FREE_RUNNING <? mode) = true) as ->; [|done].
    destruct Hb as [?|[?|?]]; [rewrite ttc_bad_args_eq by lia; done..|lia].
Qed.

Lemma ttc_bad_args_refused_witness :
  ttc_enable 0 2 (∅ : regfile) = Ok FALSE ∅ /\
  ttc_init zedboard_ttc 0 0 3 (∅ : regfile) = Ok FALSE ∅.
Proof.
  split.
  - apply (ttc_bad_args_refused zedboard_ttc 0 2 0 0 (∅ : regfile)).
    unfold TTCx_2. lia.
  - apply (ttc_bad_args_refused zedboard_ttc 0 0 3 0 (∅ : regfile)).
    unfold FREE_RUNNING. lia.
Defined.

(** On an accepted timer and mode, [ttc_init] returns TRUE after exactly
    the accesses of [init_spec]: the counter is reset, its prescaler switched
    off with the other clock bits kept, and the mode's reload register and
    interrupt are set up with the counter stopped. *)
Theorem ttc_init_accesses {S} `{Bus S} (cfg : ttc_cfg) (t k mode : Z) (s : S) :
  board_ttc cfg -> 0 <= t <= 1 -> 0 <= k <= 1 -> 0 <= mode <= 2 ->
  exists clk s1,
    ttc_init cfg t k mode (Traced s []) = Ok TRUE (Traced s1 (init_spec cfg t k mode clk)).
Proof.
  intros Hc Ht Hk Hm. unfold ttc_init, init_spec. ttc_start Ht Hk.
  assert (Hi : is_u32 (TTC_INT_VALUE cfg) /\ is_u32 (TTC_MATCH1_VALUE cfg))
    by (destruct Hc as [-> | [-> | ->]]; unfold is_u32; cbn; lia).
  assert (mode = 0 \/ mode = 1 \/ mode = 2) as [-> | [-> | ->]] by lia; cbn [Z.eqb];
    cbn -[ttc_addr Z.ldiff TTC_CLK_CNTRL_PS_EN]; repeat run_access;
    (do 2 eexists); rewrite ?bic32_ldiff by auto with word_db;
    rewrite (u32_small (Z.ldiff _ _)) by auto with word_db;
    rewrite ?(u32_small (TTC_INT_VALUE _)), ?(u32_small (TTC_MATCH1_VALUE _)) by apply Hi;
    reflexivity.
Qed.

Lemma ttc_init_accesses_witness :
  exists clk s1,
    ttc_init zedboard_ttc 1 0 INTERVAL (Traced (∅ : regfile) []) =
    Ok TRUE (Traced s1 [Wr 0xF800200C 0x21; Rd 0xF8002000 clk; Wr 0xF8002000 (Z.ldiff clk 1);
                        Wr 0xF800200C 0x33; Wr 0xF8002024 111; Wr 0xF8002060 1]).
Proof.
  refine (ttc_init_accesses zedboard_ttc 1 0 INTERVAL (∅ : regfile) _ _ _ _);
    [by left|lia|lia|unfold INTERVAL; lia].
Defined.
