(* ===== verification/Spi.v ===== *)
(** * SPI 1 controller driver ([boards/zedboard/zynq_spi.c])

    The driver keeps a ring buffer of received bytes in three C globals.  They
    live beside the bus in [spi_world], which is itself a bus, so that the
    handlers of the other drivers run on it too. *)
From S2P Require Import Prelude Bus.

Local Open Scope Z_scope.

(** ** State *)

Record spi_world (B : Type) : Type := SpiWorld {
  dev : B;
  RX_BUFFER : list Z;
  RX_BUFFER_HEAD : Z;
  RX_BUFFER_TAIL : Z;
}.
Arguments SpiWorld {B}.
Arguments dev {B}.
Arguments RX_BUFFER {B}.
Arguments RX_BUFFER_HEAD {B}.
Arguments RX_BUFFER_TAIL {B}.

#[export] Instance spi_world_bus {B} `{Bus B} : Bus (spi_world B) := {
  bus_rd a w :=
    let '(v, d) := bus_rd a (dev w) in
    (v, SpiWorld d (RX_BUFFER w) (RX_BUFFER_HEAD w) (RX_BUFFER_TAIL w));
  bus_wr a v w :=
    SpiWorld (bus_wr a v (dev w)) (RX_BUFFER w) (RX_BUFFER_HEAD w) (RX_BUFFER_TAIL w);
}.

Lemma spi_world_peek {B} `{Bus B} a (w : spi_world B) : peek a w = peek a (dev w).
Proof. unfold peek. cbn. by destruct (bus_rd a (dev w)). Qed.

Lemma spi_world_after_rd {B} `{Bus B} a (w : spi_world B) :
  after_rd a w = SpiWorld (after_rd a (dev w)) (RX_BUFFER w) (RX_BUFFER_HEAD w) (RX_BUFFER_TAIL w).
Proof. unfold after_rd. cbn. by destruct (bus_rd a (dev w)). Qed.

#[export] Instance spi_world_storage {B} `{Bus B} P : Storage B P -> Storage (spi_world B) P.
Proof.
  intros [Hrd]. constructor; intros; rewrite ?spi_world_peek, ?spi_world_after_rd; cbn; auto.
  rewrite Hrd by done. by destruct s.
Qed.

(** ** Constants ([zynq_spi.h], [board.h]), as the compiler evaluates them:
    [1111] and [101] are decimal, [011] and [0000] are octal. *)

Definition SPI_1_INTERRUPT : Z := 81.
Definition RX_BUFF_SIZE : Z := 128.
Definition APER_CLK_CTRL : Z := 0xF800012C.
Definition SPI1_CPU_1XCLKACT : Z := Z.shiftl 1 15.
Definition SPI_RST_CTRL : Z := 0xF800021C.
Definition SPI1_REF_RST_NO : Z := Z.shiftl 0 3.
Definition SPI1_REF_RST_YES : Z := Z.shiftl 1 3.
Definition SPI1_CPU1X_RST_NO : Z := Z.shiftl 0 1.
Definition SPI1_CPU1X_RST_YES : Z := Z.shiftl 1 1.
Definition SPI_CLK_CTRL : Z := 0xF8000158.
Definition SPI_CLK_RESET_VAL : Z := 0x3F03.
Definition SPI_CLKACT1_EN : Z := Z.shiftl 1 1.
Definition SPI_SRCSEL_IO : Z := Z.shiftl 0 4.
Definition SPI_CLK_DIV_40 : Z := Z.shiftl 0x28 8.
Definition MIO_10 : Z := 0xF8000728.
Definition MIO_11 : Z := 0xF800072C.
Definition MIO_12 : Z := 0xF8000730.
Definition MIO_13 : Z := 0xF8000734.
Definition MIO_RESET_VAL : Z := 0x1601.
Definition MIO_TRI_DIS : Z := 0.
Definition MIO_TRI_EN : Z := 1.
Definition MIO10_L3_SEL_SPI1 : Z := Z.shiftl 101 5.
Definition MIO_SPEED_SLOW : Z := Z.shiftl 0 8.
Definition MIO_IO_TYPE_CMOS33 : Z := Z.shiftl 9 9.
Definition MIO_PULLUP_EN : Z := Z.shiftl 1 12.
Definition MIO_PULLUP_DIS : Z := Z.shiftl 0 12.
Definition MIO_HSTL_REC_DIS : Z := Z.shiftl 1 13.
Definition MIO11_L3_SEL_SPI1 : Z := Z.shiftl 101 5.
Definition MIO12_L3_SEL_SPI1 : Z := Z.shiftl 101 5.
Definition MIO13_L3_SEL_SPI1 : Z := Z.shiftl 101 5.
Definition SPI1_BASE_ADDR : Z := 0xE0007000.
Definition CR_RESET : Z := 0x20000.
Definition CR_MASTER_MODE : Z := 1.
Definition CR_CLK_POL_HIGH : Z := Z.shiftl 1 1.
Definition CR_CLK_PHASE_INACTIVE : Z := Z.shiftl 1 2.
Definition CR_BAUD_RATE_DIV_4 : Z := Z.shiftl 1 3.
Definition CR_PERI_SEL_1TO3 : Z := Z.shiftl 0 9.
Definition CR_CS_0 : Z := Z.shiftl 0 10.
Definition CR_CS_R : Z := Z.shiftl 73 10.
Definition CR_CS_NS : Z := Z.shiftl 1111 10.
Definition CR_MAN_CS : Z := Z.shiftl 1 14.
Definition CR_MAN_START_AUTO : Z := Z.shiftl 0 15.
Definition CR_MODE_FAIL_EN : Z := Z.shiftl 1 17.
Definition SR_RXOVR_YES : Z := 1.
Definition SR_MODEF_YES : Z := Z.shiftl 1 1.
Definition SR_TX_FULL : Z := Z.shiftl 1 3.
Definition SR_RX_NEMPTY : Z := Z.shiftl 1 4.
Definition SR_TX_UF : Z := Z.shiftl 1 6.
Definition IER_RXOVR_EN : Z := 1.
Definition IER_MODF_EN : Z := Z.shiftl 1 1.
Definition IER_RX_NEMPTY_EN : Z := Z.shiftl 1 4.
Definition IER_RXFULL_EN : Z := Z.shiftl 1 5.
Definition IDR_RXOVR_DIS : Z := 1.
Definition IDR_MODF_DIS : Z := Z.shiftl 1 1.
Definition IDR_TXOVR_DIS : Z := Z.shiftl 1 2.
Definition IDR_TXFULL_DIS : Z := Z.shiftl 1 3.
Definition IDR_RX_NEMPTY_DIS : Z := Z.shiftl 1 4.
Definition IDR_RXFULL_DIS : Z := Z.shiftl 1 5.
Definition ER_SPI_ENABLE : Z := 1.
Definition ER_SPI_DISABLE : Z := 0.
Definition RX_THRES_VAL : Z := 6.
Definition TX_THRES_VAL : Z := 1.
Definition SLCR_UNLOCK : Z := 0xF8000008.
Definition SLCR_UNLOCK_KEY : Z := 0xDF0D.
Definition SLCR_LOCK : Z := 0xF8000004.
Definition SLCR_LOCK_KEY : Z := 0x767B.

Inductive spi_reg : Type :=
| cr_register | sr_register | ien_register | idis_register | imask_register
| er_register | dr_register | txd_register | rxd_register | sicr_register
| txwr_register | rx_thres_reg.

#[export] Instance spi_reg_eq_dec : EqDecision spi_reg.
Proof. solve_decision. Defined.

Definition SPI_Zynq : list (option spi_reg * Z) :=
  [ (Some cr_register, 1); (Some sr_register, 1); (Some ien_register, 1);
    (Some idis_register, 1); (Some imask_register, 1); (Some er_register, 1);
    (Some dr_register, 1); (Some txd_register, 1); (Some rxd_register, 1);
    (Some sicr_register, 1); (Some txwr_register, 1); (Some rx_thres_reg, 1) ].

(** [SPI_Struct->r] *)
Definition spi_at (r : spi_reg) : option Z := reg_addr SPI_Zynq SPI1_BASE_ADDR r 0.

(** ** Operations *)
Section driver.
Context {B : Type} `{Bus B}.
#[local] Abbreviation SM := (M (spi_world B)).

Definition set_head (h : Z) : SM unit :=
  modify (fun w => SpiWorld (dev w) (RX_BUFFER w) h (RX_BUFFER_TAIL w)).
Definition set_tail (t : Z) : SM unit :=
  modify (fun w => SpiWorld (dev w) (RX_BUFFER w) (RX_BUFFER_HEAD w) t).
(** [RX_BUFFER[i] = v]: the index is a [uint8_t] and the array has
    [2 * RX_BUFF_SIZE] = 256 bytes. *)
Definition set_byte (i v : Z) : SM unit :=
  modify (fun w => SpiWorld (dev w) (<[Z.to_nat (u8 i) := u8 v]> (RX_BUFFER w))
                     (RX_BUFFER_HEAD w) (RX_BUFFER_TAIL w)).
(** [RX_BUFFER[i]] *)
Definition get_byte (i : Z) : SM Z :=
  w ← get;
  match RX_BUFFER w !! Z.to_nat i with
  | Some v => mret v
  | None => undef
  end.

(** The delay loop of inline assembly counts a scratch register down to zero:
    it takes time and changes no state of the model. *)
Definition wait : SM unit := mret tt.

Definition SPI_1_Reset : SM unit :=
  write32 SLCR_UNLOCK SLCR_UNLOCK_KEY ;;
  or32 SPI_RST_CTRL (Z.lor SPI1_REF_RST_YES SPI1_CPU1X_RST_YES) ;;
  wait ;;
  write32 SPI_RST_CTRL (Z.lor SPI1_REF_RST_NO SPI1_CPU1X_RST_NO) ;;
  write32 SLCR_LOCK SLCR_LOCK_KEY.

Definition SPI_1_ClockEnable : SM unit :=
  write32 SLCR_UNLOCK SLCR_UNLOCK_KEY ;;
  or32 APER_CLK_CTRL SPI1_CPU_1XCLKACT ;;
  write32 SPI_CLK_CTRL SPI_CLK_RESET_VAL ;;
  write32 SPI_CLK_CTRL SPI_SRCSEL_IO ;;
  or32 SPI_CLK_CTRL SPI_CLK_DIV_40 ;;
  or32 SPI_CLK_CTRL SPI_CLKACT1_EN ;;
  write32 SLCR_LOCK SLCR_LOCK_KEY.

(** The three stores that route one pin. *)
Definition route_pin (pin sel io : Z) : SM unit :=
  write32 pin MIO_RESET_VAL ;; write32 pin sel ;; or32 pin io.

Definition SPI_1_SignalRoute : SM unit :=
  write32 SLCR_UNLOCK SLCR_UNLOCK_KEY ;;
  route_pin MIO_10
    (Z.lor (Z.lor MIO10_L3_SEL_SPI1 MIO_TRI_DIS) MIO_IO_TYPE_CMOS33)
    (Z.lor (Z.lor MIO_SPEED_SLOW MIO_PULLUP_DIS) MIO_HSTL_REC_DIS) ;;
  route_pin MIO_11
    (Z.lor (Z.lor MIO11_L3_SEL_SPI1 MIO_TRI_EN) MIO_IO_TYPE_CMOS33)
    (Z.lor (Z.lor MIO_SPEED_SLOW MIO_PULLUP_DIS) MIO_HSTL_REC_DIS) ;;
  route_pin MIO_12
    (Z.lor (Z.lor MIO12_L3_SEL_SPI1 MIO_TRI_DIS) MIO_IO_TYPE_CMOS33)
    (Z.lor (Z.lor MIO_SPEED_SLOW MIO_PULLUP_DIS) MIO_HSTL_REC_DIS) ;;
  route_pin MIO_13
    (Z.lor (Z.lor MIO13_L3_SEL_SPI1 MIO_TRI_DIS) MIO_IO_TYPE_CMOS33)
    (Z.lor (Z.lor MIO_SPEED_SLOW MIO_PULLUP_EN) MIO_HSTL_REC_DIS) ;;
  write32 SLCR_LOCK SLCR_LOCK_KEY.

Definition SPI_1_Config : SM unit :=
  st (spi_at cr_register) CR_RESET ;;
  st (spi_at cr_register) CR_CS_NS ;;
  st_or (spi_at cr_register) CR_PERI_SEL_1TO3 ;;
  st_or (spi_at cr_register) CR_BAUD_RATE_DIV_4 ;;
  st_or (spi_at cr_register) (Z.lor CR_CLK_POL_HIGH CR_CLK_PHASE_INACTIVE) ;;
  st_or (spi_at cr_register) CR_MASTER_MODE ;;
  st_or (spi_at cr_register) CR_MODE_FAIL_EN ;;
  st_or (spi_at cr_register) CR_MAN_START_AUTO ;;
  set_head 0 ;;
  set_tail 0 ;;
  st (spi_at rx_thres_reg) RX_THRES_VAL ;;
  st (spi_at txwr_register) TX_THRES_VAL.

Definition SPI_1_Enable : SM unit :=
  st_or (spi_at cr_register) CR_MAN_CS ;;
  st (spi_at ien_register) IER_RXFULL_EN ;;
  st (spi_at er_register) ER_SPI_ENABLE.

Definition SPI_1_Disable : SM unit :=
  st_or (spi_at cr_register) CR_CS_NS ;;
  st (spi_at er_register) ER_SPI_DISABLE ;;
  st (spi_at idis_register)
    (Z.lor (Z.lor (Z.lor (Z.lor (Z.lor IDR_RXOVR_DIS IDR_MODF_DIS) IDR_TXOVR_DIS)
                     IDR_RXFULL_DIS) IDR_TXFULL_DIS) IDR_RX_NEMPTY_DIS).

(** [if (irq_status & bit) sr_register |= bit;] *)
Definition clear_status (irq_status bit : Z) : SM unit :=
  when (negb (Z.land irq_status bit =? 0)) (st_or (spi_at sr_register) bit).

(** One turn of the loop that empties the FIFO.  [rx_head] is a [char], which
    is unsigned on ARM. *)
Definition rx_entry : SM unit :=
  read ← ld (spi_at rxd_register);
  w ← get;
  let rx_head := u8 (RX_BUFFER_HEAD w + 1) in
  let rx_head := if rx_head =? RX_BUFF_SIZE then 0 else rx_head in
  when (negb (rx_head =? RX_BUFFER_TAIL w))
    (set_byte (RX_BUFFER_HEAD w) read ;; set_head rx_head).

Definition SPI_1_irq_handler (interrupt : Z) : SM unit :=
  st (spi_at idis_register) (Z.lor (Z.lor IDR_RXOVR_DIS IDR_MODF_DIS) IDR_RXFULL_DIS) ;;
  irq_status ← ld (spi_at sr_register);
  clear_status irq_status SR_TX_FULL ;;
  clear_status irq_status SR_RXOVR_YES ;;
  clear_status irq_status SR_MODEF_YES ;;
  clear_status irq_status SR_TX_UF ;;
  sr ← ld (spi_at sr_register);
  when (negb (Z.land sr SR_RX_NEMPTY =? 0))
    (for_range 0 (Z.to_nat RX_THRES_VAL) (fun _ => rx_entry)) ;;
  st (spi_at ien_register)
    (Z.lor (Z.lor (Z.lor IER_RXOVR_EN IER_MODF_EN) IER_RX_NEMPTY_EN) IER_RXFULL_EN).

Definition SPI1_SendData (data : Z) : SM Z :=
  reg ← ld (spi_at cr_register);
  st (spi_at cr_register) (Z.lor (Z.land reg 0xFFFFC3FF) CR_CS_0) ;;
  st (spi_at txd_register) data ;;
  mret 1.

(** The fetch from the ring: 1 and the byte stored through [data], or 0. *)
Definition fetch_rx : SM (Z * option Z) :=
  w ← get;
  if negb (RX_BUFFER_HEAD w =? RX_BUFFER_TAIL w) then
    data ← get_byte (RX_BUFFER_TAIL w);
    let tail := u8 (RX_BUFFER_TAIL w + 1) in
    set_tail (if tail =? RX_BUFF_SIZE then 0 else tail) ;;
    mret (1, Some data)
  else mret (0, None).

Definition SPI1_ReadData : SM (Z * option Z) :=
  st (spi_at idis_register)
    (Z.lor (Z.lor (Z.lor (Z.lor IDR_RXOVR_DIS IDR_MODF_DIS) IDR_TXOVR_DIS)
              IDR_RX_NEMPTY_DIS) IDR_RXFULL_DIS) ;;
  ret ← fetch_rx;
  st_or (spi_at cr_register) CR_CS_NS ;;
  st (spi_at ien_register)
    (Z.lor (Z.lor (Z.lor IER_RXOVR_EN IER_MODF_EN) IER_RX_NEMPTY_EN) IER_RXFULL_EN) ;;
  mret ret.

Definition SPI1_assert_slave (slave_nmr : Z) : SM unit :=
  reg ← ld (spi_at cr_register);
  let reg := Z.land reg 0xFFFFC3FF in
  when (slave_nmr =? 0) (st (spi_at cr_register) (Z.lor reg CR_CS_0)).

Definition SPI1_deassert_slave : SM unit :=
  st_or (spi_at cr_register) CR_CS_NS.
End driver.

(** ** Addresses *)

Definition spi_addr (r : spi_reg) : Z :=
  SPI1_BASE_ADDR +
  match r with
  | cr_register => 0x00 | sr_register => 0x04 | ien_register => 0x08
  | idis_register => 0x0C | imask_register => 0x10 | er_register => 0x14
  | dr_register => 0x18 | txd_register => 0x1C | rxd_register => 0x20
  | sicr_register => 0x24 | txwr_register => 0x28 | rx_thres_reg => 0x2C
  end.

Lemma spi_at_eq r : spi_at r = Some (spi_addr r).
Proof. by destruct r. Qed.

(** ** The receive ring as a queue

    The bytes between the tail and the head, in the order they came. *)

Definition ring_len {B} (w : spi_world B) : Z :=
  (RX_BUFFER_HEAD w - RX_BUFFER_TAIL w) mod RX_BUFF_SIZE.
Definition ring_at {B} (w : spi_world B) (i : Z) : Z :=
  default 0 (RX_BUFFER w !! Z.to_nat ((RX_BUFFER_TAIL w + i) mod RX_BUFF_SIZE)).
Definition ring {B} (w : spi_world B) : list Z :=
  ring_at w <$> seqZ 0 (ring_len w).

(** The ring holds one byte less than its size: a full ring would look empty. *)
Definition ring_cap : nat := 127.

Definition ring_ok {B} (w : spi_world B) : Prop :=
  length (RX_BUFFER w) = 256%nat /\
  0 <= RX_BUFFER_HEAD w < RX_BUFF_SIZE /\ 0 <= RX_BUFFER_TAIL w < RX_BUFF_SIZE.

Lemma ring_length {B} (w : spi_world B) : length (ring w) = Z.to_nat (ring_len w).
Proof. unfold ring. by rewrite length_fmap, length_seqZ. Qed.

Lemma ring_len_bound {B} (w : spi_world B) : 0 <= ring_len w <= 127.
Proof. unfold ring_len, RX_BUFF_SIZE. pose proof (Z.mod_pos_bound (RX_BUFFER_HEAD w - RX_BUFFER_TAIL w) 128). lia. Qed.

(** Advancing an index of the ring, as the code does on [uint8_t]. *)
Lemma ring_next i :
  0 <= i < RX_BUFF_SIZE ->
  (if u8 (i + 1) =? RX_BUFF_SIZE then 0 else u8 (i + 1)) = (i + 1) mod RX_BUFF_SIZE.
Proof.
  unfold RX_BUFF_SIZE, u8. intros. rewrite (Z.mod_small _ (2 ^ 8)) by lia.
  destruct (Z.eqb_spec (i + 1) 128) as [->|]; [done|]. rewrite Z.mod_small; lia.
Qed.

(** What one byte of the FIFO does to the ring. *)
Definition ring_put {B} (v : Z) (w : spi_world B) : spi_world B :=
  let h' := (RX_BUFFER_HEAD w + 1) mod RX_BUFF_SIZE in
  if h' =? RX_BUFFER_TAIL w then w
  else SpiWorld (dev w) (<[Z.to_nat (RX_BUFFER_HEAD w) := u8 v]> (RX_BUFFER w))
         h' (RX_BUFFER_TAIL w).

Lemma ring_put_spec {B} v (w : spi_world B) :
  ring_ok w ->
  ring_ok (ring_put v w) /\ ring (ring_put v w) = take ring_cap (ring w ++ [u8 v]).
Proof.
  intros (Hlen & Hh & Ht). unfold ring_put, RX_BUFF_SIZE in *.
  pose proof (ring_length w) as HL. pose proof (ring_len_bound w) as Hb.
  destruct (Z.eqb_spec ((RX_BUFFER_HEAD w + 1) mod 128) (RX_BUFFER_TAIL w)) as [E|E].
  - split; [exact (conj Hlen (conj Hh Ht))|]. rewrite take_app_le, take_ge; [done|..];
      rewrite HL; unfold ring_len, RX_BUFF_SIZE, ring_cap; rewrite <- E;
      Z.div_mod_to_equations; lia.
  - assert (Hl : ring_len w < 127).
    { unfold ring_len, RX_BUFF_SIZE in *. Z.div_mod_to_equations. lia. }
    split.
    { split_and!; cbn; rewrite ?length_insert; unfold RX_BUFF_SIZE;
        try done; try apply Z.mod_pos_bound; lia. }
    rewrite take_ge by (rewrite length_app, HL; unfold ring_cap; cbn; lia).
    unfold ring at 1. unfold ring_len at 1. cbn [RX_BUFFER_HEAD RX_BUFFER_TAIL].
    replace (((RX_BUFFER_HEAD w + 1) mod 128 - RX_BUFFER_TAIL w) mod RX_BUFF_SIZE)
      with (ring_len w + 1)
      by (unfold ring_len, RX_BUFF_SIZE in *; Z.div_mod_to_equations; lia).
    rewrite seqZ_app, fmap_app by lia. f_equal.
    + unfold ring. apply list_fmap_ext. intros i x Hx%lookup_seqZ.
      unfold ring_at. cbn [RX_BUFFER RX_BUFFER_TAIL]. rewrite list_lookup_insert_ne; [done|].
      unfold ring_len, RX_BUFF_SIZE in *. Z.div_mod_to_equations. lia.
    + rewrite seqZ_cons by lia. rewrite fmap_cons. change (Z.pred 1) with 0. cbn [seqZ fmap].
      change (seqZ _ 0) with (@nil Z). rewrite fmap_nil. f_equal.
      unfold ring_at. cbn [RX_BUFFER RX_BUFFER_TAIL].
      replace ((RX_BUFFER_TAIL w + (0 + ring_len w)) mod RX_BUFF_SIZE) with (RX_BUFFER_HEAD w)
        by (unfold ring_len, RX_BUFF_SIZE in *; Z.div_mod_to_equations; lia).
      by rewrite list_lookup_insert_eq by (rewrite Hlen; lia).
Qed.

Lemma ring_empty {B} (w : spi_world B) :
  ring_ok w -> (RX_BUFFER_HEAD w = RX_BUFFER_TAIL w <-> ring w = []).
Proof.
  intros (_ & Hh & Ht). rewrite <- length_zero_iff_nil, ring_length.
  unfold ring_len, RX_BUFF_SIZE in *. split; intros; Z.div_mod_to_equations; lia.
Qed.

(** What taking the oldest byte does to the ring. *)
Definition ring_pop {B} (w : spi_world B) : spi_world B :=
  SpiWorld (dev w) (RX_BUFFER w) (RX_BUFFER_HEAD w) ((RX_BUFFER_TAIL w + 1) mod RX_BUFF_SIZE).

Lemma ring_pop_spec {B} (w : spi_world B) :
  ring_ok w -> RX_BUFFER_HEAD w <> RX_BUFFER_TAIL w ->
  ring_ok (ring_pop w) /\
  exists x, RX_BUFFER w !! Z.to_nat (RX_BUFFER_TAIL w) = Some x /\
            ring w = x :: ring (ring_pop w).
Proof.
  intros (Hlen & Hh & Ht) Hne. unfold RX_BUFF_SIZE in *. split.
  { refine (conj Hlen (conj Hh _)). cbn. unfold RX_BUFF_SIZE. apply Z.mod_pos_bound. lia. }
  destruct (lookup_lt_is_Some_2 (RX_BUFFER w) (Z.to_nat (RX_BUFFER_TAIL w))) as [x Hx];
    [lia|]. exists x. split; [done|].
  unfold ring. replace (ring_len w) with (Z.succ (ring_len (ring_pop w)))
    by (unfold ring_len, ring_pop, RX_BUFF_SIZE in *; cbn; Z.div_mod_to_equations; lia).
  rewrite seqZ_cons by (pose proof (ring_len_bound (ring_pop w)); lia).
  rewrite Z.pred_succ, fmap_cons. f_equal.
  - unfold ring_at, RX_BUFF_SIZE. by rewrite Z.add_0_r, Z.mod_small, Hx by lia.
  - change (Z.succ 0) with (1 + 0). rewrite <- (fmap_add_seqZ 1 0). rewrite <- list_fmap_compose. apply list_fmap_ext. intros i y _.
    unfold ring_at, ring_pop, RX_BUFF_SIZE, compose. cbn [RX_BUFFER RX_BUFFER_TAIL].
    by rewrite Z.add_mod_idemp_l, Z.add_assoc by done.
Qed.

(** *** What an operation may do to the ring *)

(** The bytes a run took from the receive FIFO. *)
Definition RXD : Z := 0xE0007020.
Definition rxd_byte (a : access) : option Z :=
  match a with
  | Rd addr v => if addr =? RXD then Some (u8 v) else None
  | Wr _ _ => None
  end.
Definition rxd_bytes (log : list access) : list Z := omap rxd_byte log.

Lemma rxd_bytes_other a v : a <> RXD -> rxd_bytes [Rd a v] = [].
Proof.
  intros Ha. unfold rxd_bytes, rxd_byte. cbn -[Z.eqb RXD].
  by rewrite (proj2 (Z.eqb_neq a RXD) Ha).
Qed.

Section ring_runs.
Context {B : Type} `{Bus B}.
#[local] Abbreviation TW := (spi_world (traced B)).

(** [w'] continues [w]: its ring has what the FIFO delivered in between
    appended, as far as there was room. *)
Definition queued (w w' : TW) : Prop :=
  ring_ok w' /\
  exists new, tr_log (dev w') = tr_log (dev w) ++ new /\
              ring w' = take ring_cap (ring w ++ rxd_bytes new).

Definition queues {A} (m : M TW A) : Prop :=
  forall w, ring_ok w -> exists a w', m w = Ok a w' /\ queued w w'.

(** Operations that leave the ring alone and take nothing from the FIFO. *)
Definition same_ring (w w' : TW) : Prop :=
  exists d new, w' = SpiWorld d (RX_BUFFER w) (RX_BUFFER_HEAD w) (RX_BUFFER_TAIL w) /\
    tr_log d = tr_log (dev w) ++ new /\ rxd_bytes new = [].

Definition quiet {A} (m : M TW A) : Prop :=
  forall w, exists a w', m w = Ok a w' /\ same_ring w w'.

Lemma same_ring_eq (w w' : TW) :
  same_ring w w' -> ring w' = ring w /\ (ring_ok w -> ring_ok w').
Proof. intros (d & new & -> & _). done. Qed.

Lemma same_ring_refl (w : TW) : same_ring w w.
Proof. exists (dev w), []. rewrite app_nil_r. by destruct w. Qed.

Lemma same_ring_trans (w1 w2 w3 : TW) :
  same_ring w1 w2 -> same_ring w2 w3 -> same_ring w1 w3.
Proof.
  intros (d & n & -> & L & E) (d' & n' & -> & L' & E'). exists d', (n ++ n').
  split; [done|]. split; [by rewrite L'; cbn; rewrite L, app_assoc|].
  unfold rxd_bytes in *. by rewrite omap_app, E, E'.
Qed.

Lemma quiet_bind {A C} (m : M TW A) (f : A -> M TW C) :
  quiet m -> (forall a, quiet (f a)) -> quiet (m ≫= f).
Proof.
  intros Hm Hf w. destruct (Hm w) as (a & w1 & E1 & S1), (Hf a w1) as (c & w2 & E2 & S2).
  exists c, w2. split; [by rewrite (bind_ok _ _ _ _ _ E1)|]. by eapply same_ring_trans.
Qed.

Lemma quiet_read a : a <> RXD -> quiet (read32 a).
Proof.
  intros Ha [[d l] b h t]. rewrite read32_run.
  unfold peek, after_rd. cbn. destruct (bus_rd a d) as [v d']. cbn. do 2 eexists.
  split; [done|]. exists (Traced d' (l ++ [Rd a (u32 v)])), [Rd a (u32 v)].
  split; [done|]. split; [done|]. by apply rxd_bytes_other.
Qed.

Lemma quiet_write a v : quiet (write32 a v).
Proof.
  intros [[d l] b h t]. rewrite write32_run. do 2 eexists. split; [done|].
  by exists (Traced (bus_wr a (u32 v) d) (l ++ [Wr a (u32 v)])), [Wr a (u32 v)].
Qed.

Lemma quiet_or a v : a <> RXD -> quiet (or32 a v).
Proof.
  intros. rewrite or32_eq. apply quiet_bind; [by apply quiet_read|].
  intros. apply quiet_write.
Qed.

Lemma quiet_ret {A} (a : A) : quiet (mret a).
Proof.
  intros w. exists a, w. split; [done|]. exists (dev w), [].
  by rewrite app_nil_r; destruct w.
Qed.

Lemma quiet_ld r : r <> rxd_register -> quiet (ld (spi_at r)).
Proof. intros. rewrite spi_at_eq. apply quiet_read. by destruct r. Qed.

Lemma quiet_st r v : quiet (st (spi_at r) v).
Proof. rewrite spi_at_eq. apply quiet_write. Qed.

Lemma quiet_st_or r v : r <> rxd_register -> quiet (st_or (spi_at r) v).
Proof. intros. rewrite spi_at_eq. apply quiet_or. by destruct r. Qed.

Lemma same_ring_queued (w w' : TW) : ring_ok w -> same_ring w w' -> queued w w'.
Proof.
  intros Hok S. destruct (same_ring_eq _ _ S) as [Hr Hok']. destruct S as (d & new & -> & L & Hn).
  split; [auto|]. exists new. split; [done|]. rewrite Hn, app_nil_r, Hr, take_ge; [done|].
  rewrite ring_length. pose proof (ring_len_bound w). unfold ring_cap. lia.
Qed.

Lemma queues_quiet {A} (m : M TW A) : quiet m -> queues m.
Proof.
  intros Hm w Hok. destruct (Hm w) as (a & w' & E & S). exists a, w'.
  split; [done|by apply same_ring_queued].
Qed.

Lemma queued_trans (w1 w2 w3 : TW) : queued w1 w2 -> queued w2 w3 -> queued w1 w3.
Proof.
  intros (_ & n1 & L1 & R1) (Hok & n2 & L2 & R2). split; [done|].
  exists (n1 ++ n2). split; [by rewrite L2, L1, app_assoc|].
  rewrite R2, R1. unfold rxd_bytes. rewrite omap_app, app_assoc.
  generalize (ring w1 ++ omap rxd_byte n1). intros l.
  destruct (decide (length l <= ring_cap)%nat).
  - by rewrite (take_ge l) by done.
  - rewrite !take_app_le; [by rewrite take_idemp| |]; rewrite ?length_take; lia.
Qed.

Lemma queues_bind {A C} (m : M TW A) (f : A -> M TW C) :
  queues m -> (forall a, queues (f a)) -> queues (m ≫= f).
Proof.
  intros Hm Hf w Hok. destruct (Hm w Hok) as (a & w1 & E1 & Q1).
  destruct (Hf a w1 (proj1 Q1)) as (c & w2 & E2 & Q2).
  exists c, w2. split; [by rewrite (bind_ok _ _ _ _ _ E1)|by eapply queued_trans].
Qed.

Lemma queues_ret {A} (a : A) : queues (mret a).
Proof. apply queues_quiet, quiet_ret. Qed.

Lemma queues_when c (m : M TW unit) : queues m -> queues (when c m).
Proof. intros. destruct c; [done|apply queues_ret]. Qed.

Lemma queues_for lo n (body : Z -> M TW unit) :
  (forall i, queues (body i)) -> queues (for_range lo n body).
Proof.
  intros Hb. revert lo. induction n as [|n IH]; intros lo; cbn; [apply queues_ret|].
  by apply queues_bind.
Qed.

Lemma rx_entry_run (w : TW) :
  ring_ok w ->
  exists v d, rx_entry w = Ok tt (ring_put v (SpiWorld d (RX_BUFFER w) (RX_BUFFER_HEAD w)
                                                  (RX_BUFFER_TAIL w))) /\
              tr_log d = tr_log (dev w) ++ [Rd RXD v].
Proof.
  intros (Hlen & Hh & Ht). destruct w as [[d l] b h t]. cbn in *.
  unfold rx_entry. change (spi_at rxd_register) with (Some RXD). cbn [ld].
  run_access. unfold peek, after_rd. cbn. destruct (bus_rd RXD d) as [v d'] eqn:E.
  cbn [fst snd]. run_access. cbn zeta. cbn [RX_BUFFER RX_BUFFER_HEAD RX_BUFFER_TAIL dev].
  rewrite !ring_next by (unfold RX_BUFF_SIZE in *; lia).
  exists (u32 v), (Traced d' (l ++ [Rd RXD (u32 v)])). split; [|done]. unfold ring_put.
  cbn [RX_BUFFER RX_BUFFER_HEAD RX_BUFFER_TAIL dev].
  destruct (_ =? t); cbn [negb]; [done|]. unfold set_byte, set_head.
  assert (u8 h = h) as -> by (unfold u8, RX_BUFF_SIZE in *; apply Z.mod_small; lia).
  reflexivity.
Qed.

Lemma queues_rx_entry : queues rx_entry.
Proof.
  intros w Hok. destruct (rx_entry_run w Hok) as (v & d & E & Hl). do 2 eexists.
  split; [exact E|].
  destruct (ring_put_spec v (SpiWorld d (RX_BUFFER w) (RX_BUFFER_HEAD w) (RX_BUFFER_TAIL w)))
    as [Hok' Hr]; [exact Hok|]. split; [exact Hok'|].
  exists [Rd RXD v]. split; [|exact Hr]. unfold ring_put. by case_match.
Qed.
End ring_runs.

(** Accesses to other devices. *)
Lemma replay_same_ring {B} `{Bus B} l (w : spi_world (traced B)) :
  (forall c, c ∈ l -> match c with Rd a _ | Wr a _ => a <> RXD end) -> same_ring w (replay l w).
Proof.
  revert w. induction l as [|c l IH]; intros w Hl.
  { apply same_ring_refl. }
  change (replay (c :: l) w) with (replay l (replay1 w c)).
  apply (same_ring_trans _ (replay1 w c)); [|apply IH; intros x Hx; apply Hl; by right].
  specialize (Hl c ltac:(left)). destruct c as [a v|a v]; cbn [replay1].
  - destruct (quiet_read a Hl w) as (u & w' & E & S). rewrite read32_run in E.
    by apply ok_inj in E as [_ <-].
  - destruct w as [[d l'] b h t]. exists (Traced (bus_wr a v d) (l' ++ [Wr a v])), [Wr a v]. done.
Qed.

Lemma fetch_rx_run {B} `{Bus B} (w : spi_world B) :
  ring_ok w ->
  exists r w', fetch_rx w = Ok r w' /\ dev w' = dev w /\ ring_ok w' /\
    ring w' = tail (ring w) /\
    r = match ring w with x :: _ => (1, Some x) | [] => (0, None) end.
Proof.
  intros Hok. unfold fetch_rx. rewrite bind_get.
  destruct (Z.eqb_spec (RX_BUFFER_HEAD w) (RX_BUFFER_TAIL w)) as [E|E]; cbn [negb].
  - exists (0, None), w. rewrite (proj1 (ring_empty w Hok) E). done.
  - destruct (ring_pop_spec w Hok E) as (Hok' & x & Hx & ->).
    exists (1, Some x), (ring_pop w). split; [|done].
    unfold get_byte. rewrite bind_assoc, bind_get, Hx, bind_ret.
    destruct Hok as (_ & _ & Ht). cbn zeta. by rewrite ring_next by done.
Qed.

(** ** Properties *)

(** Follows the operation's syntax. *)
Ltac queues_step :=
  match goal with
  | |- queues (_ ≫= _) => apply queues_bind; [|intros ?]
  | |- queues (mret _) => apply queues_ret
  | |- queues (when _ _) => apply queues_when
  | |- queues (for_range _ _ _) => apply queues_for; intros ?
  | |- queues rx_entry => apply queues_rx_entry
  | |- queues (ld _) => by apply queues_quiet, quiet_ld
  | |- queues (st _ _) => apply queues_quiet, quiet_st
  | |- queues (st_or _ _) => by apply queues_quiet, quiet_st_or
  | |- quiet (_ ≫= _) => apply quiet_bind; [|intros ?]
  | |- quiet (mret _) => apply quiet_ret
  | |- quiet (ld _) => by apply quiet_ld
  | |- quiet (st _ _) => apply quiet_st
  | |- quiet (st_or _ _) => by apply quiet_st_or
  end.

(** C23: the interrupt handler refines a bounded queue.  It returns, keeps the
    ring well formed, and the queued bytes afterwards are those of before
    followed by the bytes it took from the device's FIFO, in order, the ones
    that did not fit in 127 dropped - whatever the device answers, and whether
    or not it has anything to deliver. *)
Theorem SPI_1_irq_handler_queues {B} `{Bus B} (interrupt : Z) (w : spi_world (traced B)) :
  ring_ok w ->
  exists w' new,
    SPI_1_irq_handler interrupt w = Ok tt w' /\ ring_ok w' /\
    tr_log (dev w') = tr_log (dev w) ++ new /\
    ring w' = take 127 (ring w ++ rxd_bytes new).
Proof.
  intros Hok. cut (queues (B:=B) (SPI_1_irq_handler interrupt)).
  { intros Hq. destruct (Hq w Hok) as ([] & w' & ? & ? & new & ? & ?). by exists w', new. }
  unfold SPI_1_irq_handler, clear_status. repeat queues_step.
Qed.

(** A device whose receive register delivers the next byte of a list. *)
Record fifo_dev : Type := FifoDev { fd_sr : Z; fd_rx : list Z }.
#[export] Instance fifo_dev_bus : Bus fifo_dev := {
  bus_rd a d :=
    if a =? RXD then (hd 0 (fd_rx d), FifoDev (fd_sr d) (tl (fd_rx d)))
    else if a =? spi_addr sr_register then (fd_sr d, d) else (0, d);
  bus_wr a v d := d;
}.

Definition spi_demo : spi_world (traced fifo_dev) :=
  SpiWorld (Traced (FifoDev 0x10 [11; 12; 13; 14; 15; 16]) []) (replicate 256 0) 127 125.

Example irq_delivers_six :
  match SPI_1_irq_handler 81 spi_demo with
  | Ok _ w' => (ring spi_demo, ring w') = ([0; 0], [0; 0; 11; 12; 13; 14; 15; 16])
  | _ => False
  end.
Proof. vm_compute. reflexivity. Qed.

Lemma SPI_1_irq_handler_queues_witness :
  exists w' new,
    SPI_1_irq_handler 81 spi_demo = Ok tt w' /\ ring_ok w' /\
    tr_log (dev w') = new /\ ring w' = take 127 ([0; 0] ++ rxd_bytes new).
Proof. apply (SPI_1_irq_handler_queues 81 spi_demo). by vm_compute. Defined.

Lemma SPI1_ReadData_run {B} `{Bus B} (w : spi_world (traced B)) :
  ring_ok w ->
  exists w' new,
    SPI1_ReadData w = Ok (match ring w with x :: _ => (1, Some x) | [] => (0, None) end) w' /\
    ring_ok w' /\ ring w' = tail (ring w) /\
    tr_log (dev w') = tr_log (dev w) ++ new /\ rxd_bytes new = [].
Proof.
  intros Hok. unfold SPI1_ReadData.
  match goal with |- context [(?m ≫= _) w] => assert (Hq1 : quiet m) by queues_step end.
  destruct (Hq1 w) as (u & w1 & E1 & S1).
  rewrite (bind_ok _ _ _ _ _ E1). destruct (same_ring_eq _ _ S1) as [Hr1 Hok1].
  destruct (fetch_rx_run w1 (Hok1 Hok)) as (r & w2 & E2 & Hd2 & Hok2 & Hr2 & Hres).
  rewrite (bind_ok _ _ _ _ _ E2).
  match goal with |- context [(?m ≫= fun _ => ?k ≫= fun _ => mret r) w2] =>
    assert (Hq3 : quiet (m ;; k)) by repeat queues_step;
    destruct (Hq3 w2) as (v & w3 & E3 & S3)
  end.
  apply bind_inv in E3 as (v' & w2' & E3 & E4).
  rewrite (bind_ok _ _ _ _ _ E3), (bind_ok _ _ _ _ _ E4).
  destruct (same_ring_eq _ _ S3) as [Hr3 Hok3].
  destruct (same_ring_trans w w1 (SpiWorld (dev w3) (RX_BUFFER w1) (RX_BUFFER_HEAD w1)
              (RX_BUFFER_TAIL w1)) S1) as (d & new & Hd & Hlog & Hn).
  { destruct S3 as (d & new & -> & L & Hn). exists d, new. by rewrite <- Hd2. }
  exists w3, new. rewrite Hres, Hr3, Hr2, Hr1. split_and!; try done; [by apply Hok3|].
  inversion Hd. congruence.
Qed.

(** C24: reading takes the oldest byte.  [SPI1_ReadData] returns 1 and stores
    the byte at the head of the queue when there is one, returns 0 and stores
    nothing when the queue is empty, and never takes a byte from the device. *)
Theorem SPI1_ReadData_dequeues {B} `{Bus B} (w : spi_world (traced B)) :
  ring_ok w ->
  exists w' new,
    SPI1_ReadData w = Ok (match ring w with x :: _ => (1, Some x) | [] => (0, None) end) w' /\
    ring_ok w' /\ ring w' = tail (ring w) /\
    tr_log (dev w') = tr_log (dev w) ++ new /\ rxd_bytes new = [].
Proof. apply SPI1_ReadData_run. Qed.

Lemma SPI1_ReadData_dequeues_witness :
  exists w' new,
    SPI1_ReadData spi_demo = Ok (1, Some 0) w' /\ ring_ok w' /\ ring w' = [0] /\
    tr_log (dev w') = new /\ rxd_bytes new = [].
Proof. apply (SPI1_ReadData_dequeues spi_demo). by vm_compute. Defined.

(** The driver cannot deselect its slave.  [CR_CS_NS], meant as the pattern
    1111 of the four chip-select bits, is written in decimal: after
    [SPI1_deassert_slave] with slave 0 selected, where the configuration
    register stores, the field reads 0111, the code the header calls reserved,
    and the unrelated bit 16 (manual start) is set. *)
Theorem SPI1_deassert_slave_leaves_cs {B} `{Bus B} (w w' : spi_world B) :
  Storage B (fun a => a = spi_addr cr_register) ->
  field 10 4 (peek (spi_addr cr_register) w) = 0 ->
  SPI1_deassert_slave w = Ok tt w' ->
  field 10 4 (peek (spi_addr cr_register) w') = 7 /\
  Z.testbit (peek (spi_addr cr_register) w') 16 = true.
Proof.
  intros HB%spi_world_storage Hcs. unfold SPI1_deassert_slave. rewrite spi_at_eq.
  cbn [st_or]. set (a := spi_addr cr_register) in *. run_access. intros [_ <-]%ok_inj.
  rewrite storage_wr_eq by (done || apply u32_is_u32).
  rewrite u32_small by (apply is_u32_lor; [apply peek_u32|done]).
  revert Hcs. unfold field. rewrite Z.shiftr_lor, Z.land_lor_distr_l. intros ->.
  split; [done|]. by rewrite Z.lor_spec, orb_true_r.
Qed.

Lemma SPI1_deassert_slave_leaves_cs_witness :
  match SPI1_deassert_slave (SpiWorld (∅ : regfile) [] 0 0) with
  | Ok _ w' => field 10 4 (peek 0xE0007000 w') = 7
  | _ => False
  end.
Proof.
  run_returns E.
  destruct a. apply (SPI1_deassert_slave_leaves_cs _ s) in E; [|apply _|by vm_compute].
  apply E.
Defined.
