(* ===== verification/Gic.v ===== *)
(** * Generic Interrupt Controller driver ([drivers/gic.c], [drivers/inc/gic.h])

    Distributor and CPU interface of the Zynq, and the dispatch of fast
    interrupts to the drivers' handlers.  [ns_guest/src/gic.c] is the same
    text without the dispatch. *)
From S2P Require Import Prelude Bus Ttc Spi.

Local Open Scope Z_scope.

(** ** Registers and constants ([gic.h], [platform_zynq.h]) *)

Definition MPIC_BASE : Z := 0xF8F00100.
Definition MPID_BASE : Z := 0xF8F01000.
Definition NO_OF_INTERRUPTS_IMPLEMENTED : Z := 96.
Definition GIC_NUM_REGISTERS : Z := NO_OF_INTERRUPTS_IMPLEMENTED / 32.
Definition GIC_PRIORITY_REGISTERS : Z := 24.
Definition GIC_TARGET_REGISTERS : Z := 24.
Definition GIC_CONFIG_REGISTERS : Z := 6.
Definition GIC_SPI_STATUS_REGISTERS : Z := 2.
Definition GIC_PERIPHERAL_ID : Z := 4.
Definition GIC_COMPONENT_ID : Z := 4.
Definition GIC_ACK_INTID_MASK : Z := 0x3FF.
Definition FAKE_INTERRUPT : Z := 1023.
Definition IPI_TARGET_SHIFT : Z := 16.

Inductive IntSecurity_TypeDef : Type := Int_S | Int_NS.

#[export] Instance IntSecurity_eq_dec : EqDecision IntSecurity_TypeDef.
Proof. solve_decision. Defined.

Inductive dist_reg : Type :=
| ICDDCR | ICDICTR | ICDIIDR | ICDISRx | ICDISERx | ICDICERx | ICDISPRx
| ICDICPRx | ICDABRx | ICDIPRx | ICDIPTRx | ICDICFRx | PPI_STATUS | SPI_STATUS
| ICDSGIR | ICPIDR_4_7 | ICPIDR_0_3 | ICCIDRx.

#[export] Instance dist_reg_eq_dec : EqDecision dist_reg.
Proof. solve_decision. Defined.

Definition Interrupt_Distributor : list (option dist_reg * Z) :=
  [ (Some ICDDCR, 1); (Some ICDICTR, 1); (Some ICDIIDR, 1);
    (None, 0x1D); (Some ICDISRx, GIC_NUM_REGISTERS);
    (None, 0x1D); (Some ICDISERx, GIC_NUM_REGISTERS);
    (None, 0x1D); (Some ICDICERx, GIC_NUM_REGISTERS);
    (None, 0x1D); (Some ICDISPRx, GIC_NUM_REGISTERS);
    (None, 0x1D); (Some ICDICPRx, GIC_NUM_REGISTERS);
    (None, 0x1D); (Some ICDABRx, GIC_NUM_REGISTERS);
    (None, 0x3D); (Some ICDIPRx, GIC_PRIORITY_REGISTERS);
    (None, 0xE8); (Some ICDIPTRx, GIC_TARGET_REGISTERS);
    (None, 0xE8); (Some ICDICFRx, GIC_CONFIG_REGISTERS);
    (None, 0x3A); (Some PPI_STATUS, 1); (Some SPI_STATUS, GIC_SPI_STATUS_REGISTERS);
    (None, 0x7D); (Some ICDSGIR, 1);
    (None, 0x33); (Some ICPIDR_4_7, GIC_PERIPHERAL_ID);
    (Some ICPIDR_0_3, GIC_PERIPHERAL_ID); (Some ICCIDRx, GIC_COMPONENT_ID) ].

Inductive cpu_reg : Type :=
| ICCICR | ICCPMR | ICCBPR | ICCIAR | ICCEOIR | ICCRPR | ICCHPIR | ICCABPR | ICCIDR.

#[export] Instance cpu_reg_eq_dec : EqDecision cpu_reg.
Proof. solve_decision. Defined.

Definition Cpu_Interface : list (option cpu_reg * Z) :=
  [ (Some ICCICR, 1); (Some ICCPMR, 1); (Some ICCBPR, 1); (Some ICCIAR, 1);
    (Some ICCEOIR, 1); (Some ICCRPR, 1); (Some ICCHPIR, 1); (Some ICCABPR, 1);
    (None, 0x37); (Some ICCIDR, 1) ].

(** [int_dist->r[i]] and [cpu_inter->r] *)
Definition int_dist (r : dist_reg) (i : Z) : option Z :=
  reg_addr Interrupt_Distributor MPID_BASE r i.
Definition cpu_inter (r : cpu_reg) : option Z := reg_addr Cpu_Interface MPIC_BASE r 0.

(** ** Operations *)
Section driver.
Context {S : Type} `{Bus S}.

(** [if (a != x || ...)]: the loads stop at the first mismatch. *)
Fixpoint ids_match (l : list (option Z * Z)) : M S bool :=
  match l with
  | [] => mret true
  | (a, x) :: l' =>
      v ← ld a;
      if v =? x then ids_match l' else mret false
  end.

Definition gic_ids : list (option Z * Z) :=
  [ (int_dist ICPIDR_0_3 0, 0x90); (int_dist ICPIDR_0_3 1, 0xB3);
    (int_dist ICPIDR_0_3 2, 0x1B); (int_dist ICPIDR_0_3 3, 0x00);
    (int_dist ICPIDR_4_7 0, 0x04); (int_dist ICPIDR_4_7 1, 0x00);
    (int_dist ICPIDR_4_7 2, 0x00); (int_dist ICPIDR_4_7 3, 0x00);
    (int_dist ICCIDRx 0, 0x0D); (int_dist ICCIDRx 1, 0xF0);
    (int_dist ICCIDRx 2, 0x05); (int_dist ICCIDRx 3, 0xB1) ].

(** [for (i = lo; i < hi; i++) int_dist->r[i] = v;] *)
Definition dist_fill (r : dist_reg) (lo hi v : Z) : M S unit :=
  for_range lo (Z.to_nat (hi - lo)) (fun i => st (int_dist r i) v).

Definition interrupt_distributor_init : M S Z :=
  ok ← ids_match gic_ids;
  if negb ok then mret FALSE
  else
    st (int_dist ICDDCR 0) 0x00000000 ;;
    dist_fill ICDICERx 0 GIC_NUM_REGISTERS 0xFFFFFFFF ;;
    dist_fill ICDICPRx 1 GIC_NUM_REGISTERS 0xFFFFFFFF ;;
    dist_fill ICDIPRx 8 GIC_PRIORITY_REGISTERS 0x00000000 ;;
    dist_fill ICDIPTRx 0 GIC_TARGET_REGISTERS 0x00000000 ;;
    dist_fill ICDICFRx 2 ((NO_OF_INTERRUPTS_IMPLEMENTED - 32) / 16) 0x55555555 ;;
    st (int_dist ICDDCR 0) 0x00000001 ;;
    st_or (int_dist ICDDCR 0) 0x00000002 ;;
    mret TRUE.

(** The endless loop that acknowledges pending interrupts, left at the first
    spurious one; [fuel] bounds its turns. *)
Fixpoint clear_pending (fuel : nat) : M S unit :=
  match fuel with
  | O => no_fuel
  | Datatypes.S f =>
      temp ← ld (cpu_inter ICCIAR);
      if Z.land temp GIC_ACK_INTID_MASK =? FAKE_INTERRUPT then mret tt
      else st (cpu_inter ICCEOIR) temp ;; clear_pending f
  end.

Definition interface_setup : M S unit :=
  st (int_dist ICDICPRx 0) 0xFFFFFFFF ;;
  dist_fill ICDIPRx 0 8 0x00000000 ;;
  st (int_dist ICDICFRx 0) 0xAAAAAAAA ;;
  st (int_dist ICDICFRx 1) 0xAAAAAAAA ;;
  st (cpu_inter ICCICR) 0x00000000 ;;
  st (cpu_inter ICCPMR) 0x000000F0 ;;
  st (cpu_inter ICCBPR) 0x00000003.

Definition interrupt_interface_init (fuel : nat) : M S Z :=
  interface_setup ;;
  clear_pending fuel ;;
  st (cpu_inter ICCICR) 0x00000009 ;;
  st_or (cpu_inter ICCICR) 0x00000002 ;;
  mret TRUE.

Definition interrupt_enable (interrupt enable : Z) : M S unit :=
  let word := interrupt / 32 in
  let interrupt := interrupt mod 32 in
  let interrupt := shl32 1 interrupt in
  if negb (enable =? 0) then st (int_dist ICDISERx word) interrupt
  else st (int_dist ICDICERx word) interrupt.

Definition interrupt_priority_set (interrupt priority : Z) : M S Z :=
  let priority := Z.land priority 0xF in
  let word := interrupt / 4 in
  let bit_shift := (interrupt mod 4) * 8 + 4 in
  old_priority ← ld (int_dist ICDIPRx word);
  let temp := Z.land old_priority (not32 (shl32 0xF bit_shift)) in
  let temp := Z.lor temp (shl32 priority bit_shift) in
  st (int_dist ICDIPRx word) temp ;;
  mret (Z.land (shr32 old_priority bit_shift) 0xF).

Definition interrupt_target_set (interrupt cpu set : Z) : M S unit :=
  let word := interrupt / 4 in
  let bit_shift := (interrupt mod 4) * 8 in
  let cpu := shl32 (shl32 1 cpu) bit_shift in
  temp ← ld (int_dist ICDIPTRx word);
  let temp := if negb (set =? 0) then Z.lor temp cpu else Z.land temp (not32 cpu) in
  st (int_dist ICDIPTRx word) temp.

Definition interrupt_clear (interrupt target : Z) : M S unit :=
  st (cpu_inter ICCEOIR) (Z.lor (shl32 target 10) interrupt).

Definition interrupt_security_configall : M S unit :=
  dist_fill ICDISRx 1 GIC_NUM_REGISTERS 0xFFFFFFFF.

Definition interrupt_security_config (interrupt : Z) (security : IntSecurity_TypeDef)
  : M S unit :=
  let word := interrupt / 32 in
  let interrupt := interrupt mod 32 in
  let interrupt := shl32 1 interrupt in
  temp ← ld (int_dist ICDISRx word);
  let temp := if decide (security = Int_NS) then Z.lor temp interrupt
              else Z.land temp (not32 interrupt) in
  st (int_dist ICDISRx word) temp.

Definition interrupt_number_get : M S Z := ld (cpu_inter ICCIAR).

Definition interrupt_critical_entry : M S unit := st (cpu_inter ICCPMR) 0x00.
Definition interrupt_critical_exit : M S unit := st (cpu_inter ICCPMR) 0xF0.

Definition interrupt_IPI_generate (id target : Z) : M S unit :=
  st (int_dist ICDSGIR 0) (Z.lor (shl32 target IPI_TARGET_SHIFT) id).
End driver.

(** ** Dispatch of fast interrupts *)

Inductive tHandler : Type := Handler_ttc_interrupt_clear | Handler_SPI_1_irq_handler.

#[export] Instance tHandler_eq_dec : EqDecision tHandler.
Proof. solve_decision. Defined.

Definition fiq_handlers : list (option tHandler) :=
  replicate 42 None ++ replicate 3 (Some Handler_ttc_interrupt_clear) ++
  replicate 24 None ++ replicate 3 (Some Handler_ttc_interrupt_clear) ++
  replicate 9 None ++ [Some Handler_SPI_1_irq_handler] ++ replicate 14 None.

Definition fiq_handler {B} `{Bus B} (cfg : ttc_cfg) (interrupt : Z) : M (spi_world B) unit :=
  match fiq_handlers !! Z.to_nat interrupt with
  | Some (Some Handler_ttc_interrupt_clear) => ttc_interrupt_clear cfg interrupt ;; mret tt
  | Some (Some Handler_SPI_1_irq_handler) => SPI_1_irq_handler interrupt
  | Some None => mret tt
  | None => undef
  end.

(** ** The other copies of the driver *)
Section copies.
Context {S : Type} `{Bus S}.
Definition common_interrupt_distributor_init : M S Z := interrupt_distributor_init.
Definition common_interrupt_interface_init : nat -> M S Z := interrupt_interface_init.
Definition common_interrupt_enable : Z -> Z -> M S unit := interrupt_enable.
Definition common_interrupt_priority_set : Z -> Z -> M S Z := interrupt_priority_set.
Definition common_interrupt_target_set : Z -> Z -> Z -> M S unit := interrupt_target_set.
Definition common_interrupt_clear : Z -> Z -> M S unit := interrupt_clear.
Definition common_interrupt_security_configall : M S unit := interrupt_security_configall.
Definition common_interrupt_security_config : Z -> IntSecurity_TypeDef -> M S unit :=
  interrupt_security_config.
Definition common_interrupt_number_get : M S Z := interrupt_number_get.
Definition common_interrupt_critical_entry : M S unit := interrupt_critical_entry.
Definition common_interrupt_critical_exit : M S unit := interrupt_critical_exit.
Definition common_interrupt_IPI_generate : Z -> Z -> M S unit := interrupt_IPI_generate.
Definition guest_interrupt_distributor_init : M S Z := interrupt_distributor_init.
Definition guest_interrupt_interface_init : nat -> M S Z := interrupt_interface_init.
Definition guest_interrupt_enable : Z -> Z -> M S unit := interrupt_enable.
Definition guest_interrupt_priority_set : Z -> Z -> M S Z := interrupt_priority_set.
Definition guest_interrupt_target_set : Z -> Z -> Z -> M S unit := interrupt_target_set.
Definition guest_interrupt_clear : Z -> Z -> M S unit := interrupt_clear.
Definition guest_interrupt_security_configall : M S unit := interrupt_security_configall.
Definition guest_interrupt_security_config : Z -> IntSecurity_TypeDef -> M S unit :=
  interrupt_security_config.
Definition guest_interrupt_number_get : M S Z := interrupt_number_get.
Definition guest_interrupt_critical_entry : M S unit := interrupt_critical_entry.
Definition guest_interrupt_critical_exit : M S unit := interrupt_critical_exit.
Definition guest_interrupt_IPI_generate : Z -> Z -> M S unit := interrupt_IPI_generate.
End copies.

(** ** Addresses

    The programming model of the controller: offset and word count of each
    distributor register. *)
Definition dist_off (r : dist_reg) : Z * Z :=
  match r with
  | ICDDCR => (0x000, 1) | ICDICTR => (0x004, 1) | ICDIIDR => (0x008, 1)
  | ICDISRx => (0x080, 3) | ICDISERx => (0x100, 3) | ICDICERx => (0x180, 3)
  | ICDISPRx => (0x200, 3) | ICDICPRx => (0x280, 3) | ICDABRx => (0x300, 3)
  | ICDIPRx => (0x400, 24) | ICDIPTRx => (0x800, 24) | ICDICFRx => (0xC00, 6)
  | PPI_STATUS => (0xD00, 1) | SPI_STATUS => (0xD04, 2) | ICDSGIR => (0xF00, 1)
  | ICPIDR_4_7 => (0xFD0, 4) | ICPIDR_0_3 => (0xFE0, 4) | ICCIDRx => (0xFF0, 4)
  end.
Definition cpu_off (r : cpu_reg) : Z :=
  match r with
  | ICCICR => 0x00 | ICCPMR => 0x04 | ICCBPR => 0x08 | ICCIAR => 0x0C | ICCEOIR => 0x10
  | ICCRPR => 0x14 | ICCHPIR => 0x18 | ICCABPR => 0x1C | ICCIDR => 0xFC
  end.
Definition dist_addr (r : dist_reg) (i : Z) : Z := MPID_BASE + fst (dist_off r) + 4 * i.
Definition cpu_addr (r : cpu_reg) : Z := MPIC_BASE + cpu_off r.

Lemma dist_find r : find_reg r Interrupt_Distributor 0 = Some (dist_off r).
Proof. by destruct r. Qed.

Lemma int_dist_eq r i : 0 <= i < snd (dist_off r) -> int_dist r i = Some (dist_addr r i).
Proof.
  intros Hi. unfold int_dist, dist_addr. pose proof (dist_find r) as Hf.
  destruct (dist_off r) as [off n]. by eapply reg_addr_in.
Qed.

Lemma int_dist_out r i : ~ 0 <= i < snd (dist_off r) -> int_dist r i = None.
Proof.
  intros Hi. unfold int_dist. pose proof (dist_find r) as Hf.
  destruct (dist_off r) as [off n]. by eapply reg_addr_out.
Qed.

Lemma cpu_inter_eq r : cpu_inter r = Some (cpu_addr r).
Proof. by destruct r. Qed.

#[export] Instance traces_ids_match {S} `{Bus S} l : Traces (ids_match l : M (traced S) bool).
Proof. induction l as [|[]]; cbn; apply _. Qed.
#[export] Instance traces_clear_pending {S} `{Bus S} n : Traces (clear_pending n : M (traced S) unit).
Proof. induction n; cbn; apply _. Qed.
#[export] Instance traces_distributor_init {S} `{Bus S} :
  Traces (interrupt_distributor_init : M (traced S) Z).
Proof. unfold interrupt_distributor_init, dist_fill. apply _. Qed.
#[export] Instance traces_interface_init {S} `{Bus S} n :
  Traces (interrupt_interface_init n : M (traced S) Z).
Proof. unfold interrupt_interface_init, interface_setup, dist_fill. apply _. Qed.
#[export] Instance traces_security_config {S} `{Bus S} irq sec :
  Traces (interrupt_security_config irq sec : M (traced S) unit).
Proof. unfold interrupt_security_config. apply _. Qed.
#[export] Instance traces_security_configall {S} `{Bus S} :
  Traces (interrupt_security_configall : M (traced S) unit).
Proof. unfold interrupt_security_configall, dist_fill. apply _. Qed.

(** ** Properties *)

(** The register structure lays every register out at the offset and with
    the number of words the controller's programming model gives it, for the
    distributor and for the CPU interface, and any other index of a register
    array is outside it. *)
Lemma gic_layout (r : dist_reg) (c : cpu_reg) (i : Z) :
  (int_dist r i =
     if (0 <=? i) && (i <? snd (dist_off r))
     then Some (0xF8F01000 + fst (dist_off r) + 4 * i) else None) /\
  cpu_inter c = Some (0xF8F00100 + cpu_off c).
Proof.
  split; [|apply cpu_inter_eq].
  destruct (Z.leb_spec 0 i), (Z.ltb_spec i (snd (dist_off r))); cbn [andb];
    (apply int_dist_eq || apply int_dist_out); lia.
Qed.

(** One register updated in place: what is loaded and stored. *)
Definition rmw (a old new : Z) : list access := [Rd a old; Wr a new].

(** [interrupt_priority_set] returns the priority the interrupt had and
    sets it to the low four bits of the argument: it stores back the word it
    loaded with exactly the interrupt's own field replaced. *)
Theorem interrupt_priority_set_spec {S} `{Bus S} (irq prio : Z) (s : S) :
  0 <= irq < 96 ->
  let old := peek (dist_addr ICDIPRx (irq / 4)) s in
  exists s1,
    interrupt_priority_set irq prio (Traced s []) =
      Ok (field (8 * (irq mod 4) + 4) 4 old)
         (Traced s1 (rmw (dist_addr ICDIPRx (irq / 4)) old
                       (set_field (8 * (irq mod 4) + 4) 4 (prio mod 16) old))) /\
    (forall j, 0 <= j < 4 ->
       field (8 * j + 4) 4 (set_field (8 * (irq mod 4) + 4) 4 (prio mod 16) old) =
       if j =? irq mod 4 then prio mod 16 else field (8 * j + 4) 4 old).
Proof.
  intros Hi. unfold interrupt_priority_set.
  rewrite (int_dist_eq ICDIPRx (irq / 4)) by (cbn; Z.div_mod_to_equations; lia).
  set (a := dist_addr ICDIPRx (irq / 4)). cbn [ld st]. cbv zeta. fold a.
  rewrite (Z.mul_comm (irq mod 4) 8). pose proof (Z.mod_pos_bound irq 4).
  change 0xF with (Z.ones 4). rewrite (Z.land_ones prio 4) by lia.
  pose proof (Z.mod_pos_bound prio 16).
  set (sh := 8 * (irq mod 4) + 4) in *. set (p := prio mod 2 ^ 4) in *.
  repeat run_access. set (old := peek a s). eexists. split.
  - mrun. unfold rmw, set_field, field, shr32. rewrite u32_small; [done|].
    subst old. auto with word_db.
  - intros j Hj. assert (Hold : is_u32 old) by apply peek_u32.
    destruct (Z.eqb_spec j (irq mod 4)) as [->|Hne]; subst sh.
    + apply field_set_field_eq; lia || done.
    + apply field_set_field_ne; lia || done.
Qed.

Lemma interrupt_priority_set_spec_witness :
  exists s1,
    interrupt_priority_set 70 14 (Traced (<[0xF8F01444 := 0xFFFFFFFF]> ∅ : regfile) []) =
      Ok 15 (Traced s1 [Rd 0xF8F01444 0xFFFFFFFF; Wr 0xF8F01444 0xFFEFFFFF]).
Proof.
  destruct (interrupt_priority_set_spec 70 14 (<[0xF8F01444 := 0xFFFFFFFF]> ∅ : regfile))
    as (s1 & E & _); [lia|].
  exists s1. exact E.
Defined.

Lemma bit_set_testbit old n j :
  is_u32 old -> 0 <= n < 32 -> 0 <= j ->
  Z.testbit (Z.lor old (shl32 1 n)) j = if j =? n then true else Z.testbit old j.
Proof.
  intros. change (shl32 1 n) with (bit32 n). autorewrite with bits_db.
  destruct (Z.eqb_spec j n); subst; cbn; autorewrite with bits_db; done.
Qed.

Lemma bit_clear_testbit old n j :
  is_u32 old -> 0 <= n < 32 -> 0 <= j ->
  Z.testbit (Z.land old (not32 (shl32 1 n))) j = if j =? n then false else Z.testbit old j.
Proof.
  intros. change (shl32 1 n) with (bit32 n). autorewrite with bits_db.
  destruct (Z.eqb_spec j n), (Z.ltb_spec j 32); cbn; subst; autorewrite with bits_db;
    rewrite ?u32_testbit_high by done; done || lia.
Qed.

(** [interrupt_security_config] moves exactly one interrupt between the
    worlds: the security word it stores back is the one it loaded with the
    interrupt's own bit set for [Int_NS], clear for [Int_S], and no other
    interrupt's bit changed. *)
Theorem interrupt_security_config_spec {S} `{Bus S} (irq : Z) (sec : IntSecurity_TypeDef) (s : S) :
  0 <= irq < 96 ->
  let old := peek (dist_addr ICDISRx (irq / 32)) s in
  exists s1 new,
    interrupt_security_config irq sec (Traced s []) =
      Ok tt (Traced s1 (rmw (dist_addr ICDISRx (irq / 32)) old new)) /\
    forall j, 0 <= j ->
      Z.testbit new j = if j =? irq mod 32 then bool_decide (sec = Int_NS) else Z.testbit old j.
Proof.
  intros Hi. unfold interrupt_security_config.
  rewrite (int_dist_eq ICDISRx (irq / 32)) by (cbn; Z.div_mod_to_equations; lia).
  set (a := dist_addr ICDISRx (irq / 32)). cbn [ld st]. cbv zeta. fold a.
  pose proof (Z.mod_pos_bound irq 32). repeat run_access.
  set (old := peek a s). assert (Hold : is_u32 old) by apply peek_u32.
  do 2 eexists. split; [rewrite u32_small; [unfold rmw; done|]|].
  - destruct (decide _); auto with word_db.
  - intros j Hj. destruct (decide (sec = Int_NS)) as [Hs|Hs];
      [rewrite bool_decide_true by done; apply bit_set_testbit
      |rewrite bool_decide_false by done; apply bit_clear_testbit]; done || lia.
Qed.

Lemma interrupt_security_config_spec_witness :
  exists s1 new,
    interrupt_security_config 29 Int_NS (Traced (∅ : regfile) []) =
      Ok tt (Traced s1 [Rd 0xF8F01080 0; Wr 0xF8F01080 new]) /\
    forall j, 0 <= j -> Z.testbit new j = if j =? 29 then true else false.
Proof.
  destruct (interrupt_security_config_spec 29 Int_NS (∅ : regfile)) as (s1 & new & E & Hn);
    [lia|].
  exists s1, new. split; [exact E|]. intros j Hj. rewrite Hn by done.
  destruct (_ =? _); [reflexivity|]. apply Z.testbit_0_l.
Defined.

(** An interrupt number past the 96 implemented ones makes every
    operation that indexes a register array with it, and the dispatch of fast
    interrupts, go out of the array's bounds; the spurious number 1023 that
    the controller returns when nothing is pending is one of them. *)
Theorem interrupt_out_of_range {B} `{Bus B} (cfg : ttc_cfg) (irq e p c s : Z)
    (sec : IntSecurity_TypeDef) (w : spi_world B) :
  96 <= irq ->
  interrupt_enable irq e w = Undef /\ interrupt_priority_set irq p w = Undef /\
  interrupt_target_set irq c s w = Undef /\ interrupt_security_config irq sec w = Undef /\
  fiq_handler cfg irq w = Undef.
Proof.
  intros Hi. pose proof (Z.div_le_mono 96 irq 32 ltac:(lia) Hi).
  pose proof (Z.div_le_mono 96 irq 4 ltac:(lia) Hi).
  change (96 / 32) with 3 in *. change (96 / 4) with 24 in *.
  unfold interrupt_enable, interrupt_priority_set, interrupt_target_set,
    interrupt_security_config, fiq_handler.
  rewrite !int_dist_out by (cbn; lia). split_and!; try done; [by case_match|].
  by rewrite lookup_ge_None_2 by (cbn; lia).
Qed.

Lemma interrupt_out_of_range_witness :
  fiq_handler zedboard_ttc 1023 (SpiWorld (∅ : regfile) [] 0 0) = Undef.
Proof. apply (interrupt_out_of_range zedboard_ttc 1023 0 0 0 0 Int_S). lia. Defined.

(** The register writes of a successful distributor initialisation. *)
Definition fill_spec (r : dist_reg) (lo n v : Z) : list access :=
  (fun i => Wr (dist_addr r i) v) <$> seqZ lo n.
Definition ids_spec : list access :=
  [Rd 0xF8F01FE0 0x90; Rd 0xF8F01FE4 0xB3; Rd 0xF8F01FE8 0x1B; Rd 0xF8F01FEC 0x00;
   Rd 0xF8F01FD0 0x04; Rd 0xF8F01FD4 0x00; Rd 0xF8F01FD8 0x00; Rd 0xF8F01FDC 0x00;
   Rd 0xF8F01FF0 0x0D; Rd 0xF8F01FF4 0xF0; Rd 0xF8F01FF8 0x05; Rd 0xF8F01FFC 0xB1].
Definition distributor_spec (ctl : Z) : list access :=
  ids_spec ++ [Wr 0xF8F01000 0] ++
  fill_spec ICDICERx 0 3 0xFFFFFFFF ++ fill_spec ICDICPRx 1 2 0xFFFFFFFF ++
  fill_spec ICDIPRx 8 16 0 ++ fill_spec ICDIPTRx 0 24 0 ++
  fill_spec ICDICFRx 2 2 0x55555555 ++
  [Wr 0xF8F01000 1; Rd 0xF8F01000 ctl; Wr 0xF8F01000 (Z.lor ctl 2)].

Lemma seqZ_step lo n : seqZ lo (Z.of_nat (S n)) = lo :: seqZ (lo + 1) (Z.of_nat n).
Proof. rewrite seqZ_cons by lia. f_equal. f_equal; lia. Qed.

Lemma for_fill_run {S} `{Bus S} r v n lo (s : S) log :
  is_u32 v -> 0 <= lo -> lo + Z.of_nat n <= snd (dist_off r) ->
  exists s1, for_range lo n (fun i => st (int_dist r i) v) (Traced s log) =
             Ok tt (Traced s1 (log ++ fill_spec r lo (Z.of_nat n) v)).
Proof.
  intros Hv. revert lo s log. induction n as [|n IH]; intros lo s log Hlo Hn.
  - exists s. cbn. by rewrite app_nil_r.
  - cbn [for_range]. rewrite int_dist_eq by lia. cbn [st]. run_access.
    rewrite u32_small by done.
    edestruct (IH (lo + 1)) as [s1 ->]; [lia|lia|]. exists s1.
    unfold fill_spec. by rewrite seqZ_step, <- app_assoc.
Qed.

Lemma dist_fill_run {S} `{Bus S} r v lo hi (s : S) log :
  is_u32 v -> 0 <= lo <= hi -> hi <= snd (dist_off r) ->
  exists s1, dist_fill r lo hi v (Traced s log) =
             Ok tt (Traced s1 (log ++ fill_spec r lo (hi - lo) v)).
Proof.
  intros. unfold dist_fill. edestruct (for_fill_run r v (Z.to_nat (hi - lo)) lo s log)
    as [s1 E]; [done|lia|lia|]. exists s1. by rewrite E, Z2Nat.id by lia.
Qed.

(** Only the reads of a prefix of the identification registers. *)
Lemma ids_match_run {S} `{Bus S} (l : list (Z * Z)) (s : S) log :
  exists b s1 new,
    ids_match ((fun p => (Some p.1, p.2)) <$> l) (Traced s log) = Ok b (Traced s1 (log ++ new)) /\
    if (b : bool) then new = (fun p => Rd p.1 p.2) <$> l
    else exists k a x v, l !! k = Some (a, x) /\ v <> x /\
           new = ((fun p => Rd p.1 p.2) <$> take k l) ++ [Rd a v].
Proof.
  revert s log. induction l as [|[a x] l IH]; intros s log.
  - exists true, s, []. by rewrite app_nil_r.
  - cbn. run_access. destruct (Z.eqb_spec (peek a s) x) as [E|E].
    + destruct (IH (after_rd a s) (log ++ [Rd a (peek a s)])) as (b & s1 & new & -> & Hb).
      exists b, s1, (Rd a x :: new). rewrite E, <- app_assoc. split; [done|].
      destruct b; [by rewrite Hb|]. destruct Hb as (k & a' & x' & v & Hk & Hv & ->).
      by exists (Datatypes.S k), a', x', v.
    + exists false. do 2 eexists. split; [done|]. by exists 0%nat, a, x, (peek a s).
Qed.

Ltac run_fill :=
  match goal with
  | |- context [(dist_fill ?r ?lo ?hi ?v ≫= ?f) (Traced ?s ?l)] =>
      let E := fresh in let s' := fresh "s" in
      destruct (dist_fill_run r v lo hi s l) as [s' E];
      [by vm_compute|by vm_compute|by vm_compute|];
      rewrite (bind_ok _ f _ _ _ E); clear E
  end.

Lemma distributor_init_run {S} `{Bus S} (s : S) log :
  exists s1 new,
    (interrupt_distributor_init (Traced s log) = Ok FALSE (Traced s1 (log ++ new)) /\
     exists k a x v, ids_spec !! k = Some (Rd a x) /\ v <> x /\
       new = take k ids_spec ++ [Rd a v]) \/
    (exists ctl, interrupt_distributor_init (Traced s log) = Ok TRUE (Traced s1 (log ++ new)) /\
       new = distributor_spec ctl).
Proof.
  unfold interrupt_distributor_init.
  set (l := (fun a => match a with Rd a v | Wr a v => (a, v) end) <$> ids_spec).
  assert (gic_ids = (fun p => (Some p.1, p.2)) <$> l) as -> by reflexivity.
  assert (ids_spec = (fun p => Rd p.1 p.2) <$> l) as Hl by reflexivity.
  destruct (ids_match_run l s log) as (b & s1 & new & E & Hb).
  rewrite (bind_ok _ _ _ _ _ E). destruct b; cbn [negb].
  - rewrite <- Hl in Hb. subst new. rewrite int_dist_eq by (cbn; lia). cbn [st st_or].
    run_access.
    repeat (run_fill || run_access). do 2 eexists. right. eexists.
    split; [|reflexivity]. rewrite u32_small by auto with word_db.
    unfold distributor_spec. rewrite <- !app_assoc. reflexivity.
  - destruct Hb as (k & a & x & v & Hk & Hv & ->). exists s1. eexists. left.
    split; [reflexivity|]. exists k, a, x, v. rewrite Hl, list_lookup_fmap, Hk, fmap_take.
    done.
Qed.

(** C25: [interrupt_distributor_init] either finds a wrong identification
    register, and then returns FALSE having only read registers, or returns
    TRUE after exactly the writes of its specification: the controller off,
    every interrupt disabled, the shared ones not pending, with priority 0 and
    no target, registers 2 and 3 of the configuration set, both groups on. *)
Theorem interrupt_distributor_init_spec {S} `{Bus S} (s : S) :
  exists s1 log,
    (interrupt_distributor_init (Traced s []) = Ok FALSE (Traced s1 log) /\
     exists k a x v, ids_spec !! k = Some (Rd a x) /\ v <> x /\
       log = take k ids_spec ++ [Rd a v]) \/
    (exists ctl, interrupt_distributor_init (Traced s []) = Ok TRUE (Traced s1 log) /\
       log = distributor_spec ctl).
Proof. apply (distributor_init_run s []). Qed.

(** A controller with a list of interrupts to acknowledge. *)
Inductive gic_pending {S} `{Bus S} : list Z -> S -> Prop :=
| pending_none s :
    Z.land (peek (cpu_addr ICCIAR) s) 0x3FF = 1023 -> gic_pending [] s
| pending_some v vs s :
    peek (cpu_addr ICCIAR) s = v -> Z.land v 0x3FF <> 1023 ->
    gic_pending vs (bus_wr (cpu_addr ICCEOIR) v (after_rd (cpu_addr ICCIAR) s)) ->
    gic_pending (v :: vs) s.

Definition ack_spec (vs : list Z) (last : Z) : list access :=
  (v ← vs; [Rd (cpu_addr ICCIAR) v; Wr (cpu_addr ICCEOIR) v]) ++ [Rd (cpu_addr ICCIAR) last].

Lemma clear_pending_run {S} `{Bus S} vs (s : S) log fuel :
  gic_pending vs s -> (length vs < fuel)%nat ->
  exists s1 last, clear_pending fuel (Traced s log) = Ok tt (Traced s1 (log ++ ack_spec vs last)).
Proof.
  intros Hp. revert log fuel. induction Hp as [s Hs|v vs s Hv Hs Hp IH]; intros log fuel Hf;
    (destruct fuel as [|fuel]; [cbn in Hf; lia|]); cbn [clear_pending];
    rewrite (cpu_inter_eq ICCIAR); cbn [ld]; run_access;
    unfold FAKE_INTERRUPT, GIC_ACK_INTID_MASK.
  - rewrite Hs. by do 2 eexists.
  - rewrite Hv.
    rewrite (proj2 (Z.eqb_neq _ _) Hs). cbn [st]. rewrite cpu_inter_eq. cbn [st]. run_access.
    rewrite u32_small by (rewrite <- Hv; apply peek_u32).
    destruct (IH ((log ++ [Rd (cpu_addr ICCIAR) v]) ++ [Wr (cpu_addr ICCEOIR) v]) fuel)
      as (s1 & last & E); [cbn in Hf; lia|]. exists s1, last.
    rewrite E, <- !app_assoc. done.
Qed.

Definition interface_spec (vs : list Z) (last ctl : Z) : list access :=
  [Wr 0xF8F01280 0xFFFFFFFF] ++ fill_spec ICDIPRx 0 8 0 ++
  [Wr 0xF8F01C00 0xAAAAAAAA; Wr 0xF8F01C04 0xAAAAAAAA;
   Wr 0xF8F00100 0; Wr 0xF8F00104 0xF0; Wr 0xF8F00108 3] ++
  ack_spec vs last ++ [Wr 0xF8F00100 9; Rd 0xF8F00100 ctl; Wr 0xF8F00100 (Z.lor ctl 2)].

Lemma interface_setup_run {S} `{Bus S} (s : S) log :
  exists s1,
    interface_setup (Traced s log) =
    Ok tt (Traced s1 (log ++ [Wr 0xF8F01280 0xFFFFFFFF] ++ fill_spec ICDIPRx 0 8 0 ++
                      [Wr 0xF8F01C00 0xAAAAAAAA; Wr 0xF8F01C04 0xAAAAAAAA;
                       Wr 0xF8F00100 0; Wr 0xF8F00104 0xF0; Wr 0xF8F00108 3])).
Proof.
  unfold interface_setup. rewrite !int_dist_eq by (cbn; lia). rewrite !cpu_inter_eq.
  cbn [st]. repeat (run_fill || run_access). eexists. by rewrite <- !app_assoc.
Qed.

Lemma interface_init_run {S} `{Bus S} (vs : list Z) (s : S) (fuel : nat) log :
  (forall s1 log1, interface_setup (Traced s log) = Ok tt (Traced s1 log1) -> gic_pending vs s1) ->
  (length vs < fuel)%nat ->
  exists s1 last ctl,
    interrupt_interface_init fuel (Traced s log) =
    Ok TRUE (Traced s1 (log ++ interface_spec vs last ctl)).
Proof.
  intros Hp Hf. unfold interrupt_interface_init, interface_spec.
  destruct (interface_setup_run s log) as [s1 E1].
  specialize (Hp _ _ E1). rewrite (bind_ok _ _ _ _ _ E1).
  edestruct (clear_pending_run vs s1) as (s2 & last & E2); [done..|].
  rewrite (bind_ok _ _ _ _ _ E2). rewrite !cpu_inter_eq. cbn [st st_or].
  repeat run_access. do 3 eexists. rewrite u32_small by auto with word_db.
  rewrite <- !app_assoc. reflexivity.
Qed.

(** The loop that acknowledges pending interrupts terminates when the
    controller has finitely many: with [n] of them, [n + 1] turns are enough,
    and [interrupt_interface_init] returns TRUE after ending each of them
    exactly once, in order, between switching the interface off and on. *)
Theorem interrupt_interface_init_terminates {S} `{Bus S} (vs : list Z) (s : S) (fuel : nat) :
  (forall s1 log, interface_setup (Traced s []) = Ok tt (Traced s1 log) -> gic_pending vs s1) ->
  (length vs < fuel)%nat ->
  exists s1 last ctl,
    interrupt_interface_init fuel (Traced s []) =
    Ok TRUE (Traced s1 (interface_spec vs last ctl)).
Proof. intros. by apply (interface_init_run vs s fuel []). Qed.

(** A controller with a queue of acknowledged interrupts. *)
Definition gic_dev : Type := list Z.
#[export] Instance gic_dev_bus : Bus gic_dev := {
  bus_rd a d := (if a =? cpu_addr ICCIAR then hd 1023 d else 0, d);
  bus_wr a v d := if a =? cpu_addr ICCEOIR then tl d else d;
}.

Lemma interrupt_interface_init_terminates_witness :
  exists s1 last ctl,
    interrupt_interface_init 3 (Traced ([29; 42] : gic_dev) []) =
    Ok TRUE (Traced s1 (interface_spec [29; 42] last ctl)).
Proof.
  apply (interrupt_interface_init_terminates [29; 42]); [|cbn; lia].
  intros s1 log E. vm_compute in E. inversion E. subst.
  repeat (apply pending_some; [reflexivity|done|]). by apply pending_none.
Defined.

(** The handler table, by position. *)
Lemma fiq_handlers_lookup irq :
  0 <= irq < 96 ->
  fiq_handlers !! Z.to_nat irq =
  Some (match ttc_of_interrupt irq with
        | Some _ => Some Handler_ttc_interrupt_clear
        | None => if irq =? SPI_1_INTERRUPT then Some Handler_SPI_1_irq_handler else None
        end).
Proof.
  intros Hi. cut (forallb (fun i =>
    bool_decide (fiq_handlers !! Z.to_nat i = Some (match ttc_of_interrupt i with
        | Some _ => Some Handler_ttc_interrupt_clear
        | None => if i =? SPI_1_INTERRUPT then Some Handler_SPI_1_irq_handler else None
        end))) (seqZ 0 96) = true).
  - rewrite forallb_forall. intros H. eapply bool_decide_eq_true_1, H.
    apply list_elem_of_In, elem_of_seqZ. lia.
  - vm_compute. reflexivity.
Qed.

Lemma ttc_of_interrupt_range irq t k :
  ttc_of_interrupt irq = Some (t, k) -> 0 <= t <= 1 /\ 0 <= k < 3.
Proof. unfold ttc_of_interrupt. intros. repeat case_match; simplify_eq; lia. Qed.

(** A fast interrupt of the implemented range reaches its driver: a timer
    interrupt makes the single read that acknowledges the timer that raised
    it, the SPI interrupt runs the SPI handler, and any other changes nothing. *)
Theorem fiq_handler_dispatch {B} `{Bus B} (cfg : ttc_cfg) (irq : Z) (w : spi_world B) :
  0 <= irq < 96 ->
  fiq_handler cfg irq w =
  match ttc_of_interrupt irq with
  | Some (t, k) => Ok tt (after_rd (ttc_base t + 0x54 + 4 * k) w)
  | None => if irq =? SPI_1_INTERRUPT then SPI_1_irq_handler irq w else Ok tt w
  end.
Proof.
  intros Hi. unfold fiq_handler, ttc_interrupt_clear. rewrite fiq_handlers_lookup by done.
  destruct (ttc_of_interrupt irq) as [[t k]|] eqn:E;
    [|by destruct (irq =? SPI_1_INTERRUPT)].
  apply ttc_of_interrupt_range in E as [Ht Hk]. rewrite ttc_at_eq by done. cbn [ld].
  by repeat run_access.
Qed.

Lemma fiq_handler_dispatch_witness :
  fiq_handler zedboard_ttc 42 (SpiWorld (Traced (∅ : regfile) []) [] 0 0) =
    Ok tt (SpiWorld (Traced ∅ [Rd 0xF8001054 0]) [] 0 0).
Proof.
  refine (eq_trans (fiq_handler_dispatch zedboard_ttc 42
                      (SpiWorld (Traced (∅ : regfile) []) [] 0 0) _) _);
    [lia|vm_compute; reflexivity].
Defined.
