(* ===== verification/Arm.v ===== *)
(** * The processor the assembly runs on

    The part of ARMv7-A with the Security Extensions that the monitor and the
    boot code use: modes with their banked registers, CPSR and SPSRs, SCR and
    the CP15 registers banked by SCR.NS, load/store-multiple, exception entry
    and return.  One operation per instruction form, so that the definitions
    of [Monitor.v], [Cp15.v] and [Entry.v] read line by line like the source.

    The architecture is hardware, not code of the repository; what the ARM
    manual leaves UNPREDICTABLE (an SPSR in System mode) is a variable. *)
From S2P Require Import Prelude Bus.

Local Open Scope Z_scope.

(** ** Modes ([cpu_defines.h]) *)

Inductive mode : Type :=
| USER_MODE | FIQ_MODE | IRQ_MODE | SUPERVISOR_MODE | MONITOR_MODE
| ABORT_MODE | UNDEFINED_MODE | SYSTEM_MODE.

#[export] Instance mode_eq_dec : EqDecision mode.
Proof. solve_decision. Defined.

(** CPSR[4:0]. *)
Definition mode_bits (m : mode) : Z :=
  match m with
  | USER_MODE => 0x10 | FIQ_MODE => 0x11 | IRQ_MODE => 0x12 | SUPERVISOR_MODE => 0x13
  | MONITOR_MODE => 0x16 | ABORT_MODE => 0x17 | UNDEFINED_MODE => 0x1B | SYSTEM_MODE => 0x1F
  end.
Definition decode_mode (z : Z) : option mode :=
  let b := Z.land z 0x1F in
  if b =? 0x10 then Some USER_MODE else if b =? 0x11 then Some FIQ_MODE
  else if b =? 0x12 then Some IRQ_MODE else if b =? 0x13 then Some SUPERVISOR_MODE
  else if b =? 0x16 then Some MONITOR_MODE else if b =? 0x17 then Some ABORT_MODE
  else if b =? 0x1B then Some UNDEFINED_MODE else if b =? 0x1F then Some SYSTEM_MODE
  else None.

Definition FIQ_BIT : Z := 0x40.
Definition IRQ_BIT : Z := 0x80.
Definition SCR_NS_BIT : Z := 0x1.
Definition SCR_FIQ_BIT : Z := 0x4.
Definition SCR_IRQ_BIT : Z := 0x2.
Definition SCTLR_MMU_BIT : Z := 0x1.
Definition SCTLR_DCACHE_BIT : Z := Z.shiftl 1 2.
Definition SCTLR_BRANCH_PRED_BIT : Z := Z.shiftl 1 11.
Definition SCTLR_ICACHE_BIT : Z := Z.shiftl 1 12.
Definition STACK_SIZE : Z := 8192.
Definition STACK_SIZE_SHIFT : Z := 12.

(** Registers are banked by mode: [Usr] holds r0-r14 of User and System mode. *)
Inductive bank : Type := Usr | Fiq | Irq | Svc | Mon | Abt | Und.

#[export] Instance bank_eq_dec : EqDecision bank.
Proof. solve_decision. Defined.

Definition mode_bank (m : mode) : bank :=
  match m with
  | USER_MODE | SYSTEM_MODE => Usr
  | FIQ_MODE => Fiq | IRQ_MODE => Irq | SUPERVISOR_MODE => Svc
  | MONITOR_MODE => Mon | ABORT_MODE => Abt | UNDEFINED_MODE => Und
  end.
Definition bank_eqb (a b : bank) : bool :=
  match a, b with
  | Usr, Usr | Fiq, Fiq | Irq, Irq | Svc, Svc | Mon, Mon | Abt, Abt | Und, Und => true
  | _, _ => false
  end.

(** The bank of register [n] in a mode. *)
Definition reg_bank (m : mode) (n : nat) : bank :=
  if (n <? 8)%nat then Usr
  else if (n <? 13)%nat then (match m with FIQ_MODE => Fiq | _ => Usr end)
  else mode_bank m.

(** ** CP15 *)

Inductive cp15_reg : Type :=
| CSSELR | SCTLR | ACTLR | TTBR0 | TTBR1 | TTBCR | DACR | DFSR | IFSR | DFAR | IFAR
| PAR | PRRR | NMRR | VBAR | FCSEIDR | CONTEXTIDR | TPIDRURW | TPIDRURO | TPIDRPRW
| NSACR | MVBAR | MPIDR | CBAR.

#[export] Instance cp15_reg_eq_dec : EqDecision cp15_reg.
Proof. solve_decision. Defined.

(** Registers with one copy for both worlds. *)
Definition cp15_common (r : cp15_reg) : bool :=
  match r with ACTLR | NSACR | MVBAR | MPIDR | CBAR => true | _ => false end.

(** ** The state *)

Record cpu : Type := Cpu {
  regs : bank -> nat -> Z;
  spsr : bank -> Z;
  cmode : mode;
  (** CPSR[31:5] *)
  cflags : Z;
  scr : Z;
  (** [cp15 ns r] *)
  cp15 : bool -> cp15_reg -> Z;
  pc : Z;
}.

Record machine (S : Type) : Type := Machine { cpu_of : cpu; mem : S }.
Arguments Machine {S}.
Arguments cpu_of {S}.
Arguments mem {S}.

(** Devices and memory are reached through the machine's bus. *)
Definition on_mem {S A} (f : M S A) : M (machine S) A := fun m =>
  match f (mem m) with
  | Ok a s => Ok a (Machine (cpu_of m) s)
  | Hang s => Hang (Machine (cpu_of m) s)
  | Undef => Undef
  | NoFuel => NoFuel
  end.

(** ** Register access *)
Definition set_regs (r : bank -> nat -> Z) (c : cpu) : cpu :=
  Cpu r (spsr c) (cmode c) (cflags c) (scr c) (cp15 c) (pc c).
Definition set_spsr (f : bank -> Z) (c : cpu) : cpu :=
  Cpu (regs c) f (cmode c) (cflags c) (scr c) (cp15 c) (pc c).
Definition set_mode (m : mode) (c : cpu) : cpu :=
  Cpu (regs c) (spsr c) m (cflags c) (scr c) (cp15 c) (pc c).
Definition set_flags (f : Z) (c : cpu) : cpu :=
  Cpu (regs c) (spsr c) (cmode c) f (scr c) (cp15 c) (pc c).
Definition set_scr (v : Z) (c : cpu) : cpu :=
  Cpu (regs c) (spsr c) (cmode c) (cflags c) v (cp15 c) (pc c).
Definition set_cp15 (f : bool -> cp15_reg -> Z) (c : cpu) : cpu :=
  Cpu (regs c) (spsr c) (cmode c) (cflags c) (scr c) f (pc c).
Definition set_pc (v : Z) (c : cpu) : cpu :=
  Cpu (regs c) (spsr c) (cmode c) (cflags c) (scr c) (cp15 c) v.

Definition upd_reg (b : bank) (n : nat) (v : Z) (f : bank -> nat -> Z) : bank -> nat -> Z :=
  fun b' n' => if bank_eqb b b' && (n =? n')%nat then v else f b' n'.
Definition upd_spsr (b : bank) (v : Z) (f : bank -> Z) : bank -> Z :=
  fun b' => if bank_eqb b b' then v else f b'.
Definition upd_cp15 (ns : bool) (r : cp15_reg) (v : Z) (f : bool -> cp15_reg -> Z)
  : bool -> cp15_reg -> Z :=
  fun ns' r' => if Bool.eqb ns ns' && bool_decide (r = r') then v else f ns' r'.

(** Register [n] as the current mode sees it. *)
Definition rget (n : nat) (c : cpu) : Z := regs c (reg_bank (cmode c) n) n.
Definition rset (n : nat) (v : Z) (c : cpu) : cpu :=
  set_regs (upd_reg (reg_bank (cmode c) n) n v (regs c)) c.
(** ... and as User mode sees it (the [^] forms of ldm and stm). *)
Definition uget (n : nat) (c : cpu) : Z := regs c Usr n.
Definition uset (n : nat) (v : Z) (c : cpu) : cpu := set_regs (upd_reg Usr n v (regs c)) c.

(** Is the processor (SCR.NS) set to the non-secure world? *)
Definition ns_bit (c : cpu) : bool := Z.testbit (scr c) 0.
Definition cp15_get (r : cp15_reg) (c : cpu) : Z :=
  cp15 c (if cp15_common r then false else ns_bit c) r.
Definition cp15_set (r : cp15_reg) (v : Z) (c : cpu) : cpu :=
  set_cp15 (upd_cp15 (if cp15_common r then false else ns_bit c) r v (cp15 c)) c.

(** The whole CPSR. *)
Definition cpsr (c : cpu) : Z := Z.lor (cflags c) (mode_bits (cmode c)).
Definition set_cpsr (v : Z) (c : cpu) : option cpu :=
  match decode_mode v with
  | Some m => Some (set_mode m (set_flags (Z.land v 0xFFFFFFE0) c))
  | None => None
  end.

(** ** Memory *)
Section words.
Context {S : Type} `{Bus S}.

Fixpoint store_multiple (a : Z) (vs : list Z) : M S unit :=
  match vs with
  | [] => mret tt
  | v :: vs' => write32 (u32 a) v ;; store_multiple (a + 4) vs'
  end.
Fixpoint load_multiple (a : Z) (n : nat) : M S (list Z) :=
  match n with
  | O => mret []
  | Datatypes.S n' =>
      v ← read32 (u32 a);
      vs ← load_multiple (a + 4) n';
      mret (v :: vs)
  end.

(** The memory after a store, the words a load finds. *)
Fixpoint store_words (a : Z) (vs : list Z) (s : S) : S :=
  match vs with
  | [] => s
  | v :: vs' => store_words (a + 4) vs' (bus_wr (u32 a) (u32 v) s)
  end.
Fixpoint load_words (a : Z) (n : nat) (s : S) : list Z :=
  match n with
  | O => []
  | Datatypes.S n' => peek (u32 a) s :: load_words (a + 4) n' s
  end.
End words.

(** ** Instructions *)
Section instructions.
Context {S : Type} `{Bus S}.
(** What [mrs rX, spsr] gives in System mode, which has no SPSR. *)
Variable sys_spsr : cpu -> Z.
#[local] Abbreviation AM := (M (machine S)).

Definition on_cpu (f : cpu -> cpu) : AM unit :=
  modify (fun m => Machine (f (cpu_of m)) (mem m)).
Definition from_cpu {A} (f : cpu -> A) : AM A := fun m => Ok (f (cpu_of m)) m.

Definition rd (n : nat) : AM Z := from_cpu (rget n).
Definition wr (n : nat) (v : Z) : AM unit := on_cpu (rset n v).

Definition mov_imm (d : nat) (i : Z) : AM unit := wr d i.
Definition mov (d n : nat) : AM unit := v ← rd n; wr d v.
Definition add_imm (d n : nat) (i : Z) : AM unit := v ← rd n; wr d (add32 v i).
Definition sub_imm (d n : nat) (i : Z) : AM unit := v ← rd n; wr d (sub32 v i).
Definition orr_imm (d n : nat) (i : Z) : AM unit := v ← rd n; wr d (Z.lor v i).
Definition bic_imm (d n : nat) (i : Z) : AM unit := v ← rd n; wr d (bic32 v i).
Definition orr (d n k : nat) : AM unit := v ← rd n; w ← rd k; wr d (Z.lor v w).
(** [add d, n, k, lsl #sh] *)
Definition add_lsl (d n k : nat) (sh : Z) : AM unit :=
  v ← rd n; w ← rd k; wr d (add32 v (shl32 w sh)).

(** [ldr d, [n, #i]] and [str d, [n, #i]] *)
Definition ldr (d n : nat) (i : Z) : AM unit :=
  a ← rd n; v ← on_mem (read32 (add32 a i)); wr d v.
Definition str (d n : nat) (i : Z) : AM unit :=
  a ← rd n; v ← rd d; on_mem (write32 (add32 a i) v).

(** [ldr d, [n], #i] and [str d, [n], #i] *)
Definition ldr_post (d n : nat) (i : Z) : AM unit :=
  a ← rd n; v ← on_mem (read32 a); wr n (add32 a i) ;; wr d v.
Definition str_post (d n : nat) (i : Z) : AM unit :=
  a ← rd n; v ← rd d; on_mem (write32 a v) ;; wr n (add32 a i).

(** The values of a register list. *)
Definition rget_list (l : list nat) (c : cpu) : list Z := (fun n => rget n c) <$> l.
Fixpoint rset_list (l : list nat) (vs : list Z) (c : cpu) : cpu :=
  match l, vs with
  | n :: l', v :: vs' => rset_list l' vs' (rset n v c)
  | _, _ => c
  end.
Definition uget_list (l : list nat) (c : cpu) : list Z := (fun n => uget n c) <$> l.
Fixpoint uset_list (l : list nat) (vs : list Z) (c : cpu) : cpu :=
  match l, vs with
  | n :: l', v :: vs' => uset_list l' vs' (uset n v c)
  | _, _ => c
  end.

Definition stm_at (a : Z) (vs : list Z) : AM unit := on_mem (store_multiple a vs).
Definition ldm_at (a : Z) (n : nat) : AM (list Z) := on_mem (load_multiple a n).

(** [stmia b, l], [stmia b!, l] *)
Definition stmia (b : nat) (l : list nat) : AM unit :=
  a ← rd b; vs ← from_cpu (rget_list l); stm_at a vs.
Definition stmia_wb (b : nat) (l : list nat) : AM unit :=
  a ← rd b; vs ← from_cpu (rget_list l); stm_at a vs ;; wr b (add32 a (4 * Z.of_nat (length l))).
(** [ldmia b, l], [ldmia b!, l] *)
Definition ldmia (b : nat) (l : list nat) : AM unit :=
  a ← rd b; vs ← ldm_at a (length l); on_cpu (rset_list l vs).
Definition ldmia_wb (b : nat) (l : list nat) : AM unit :=
  a ← rd b; vs ← ldm_at a (length l); wr b (add32 a (4 * Z.of_nat (length l))) ;;
  on_cpu (rset_list l vs).
(** [stmfd b, l] (that is, [stmdb]) without write-back *)
Definition stmfd (b : nat) (l : list nat) : AM unit :=
  a ← rd b; vs ← from_cpu (rget_list l); stm_at (sub32 a (4 * Z.of_nat (length l))) vs.
(** [push l], [pop l] *)
Definition push (l : list nat) : AM unit :=
  a ← rd 13; vs ← from_cpu (rget_list l);
  let a' := sub32 a (4 * Z.of_nat (length l)) in
  stm_at a' vs ;; wr 13 a'.
Definition pop (l : list nat) : AM unit := ldmia_wb 13 l.
(** [stmfd b, l^] and [ldmfd b, l^]: the User mode registers *)
Definition stmfd_user (b : nat) (l : list nat) : AM unit :=
  a ← rd b; vs ← from_cpu (uget_list l); stm_at (sub32 a (4 * Z.of_nat (length l))) vs.
Definition ldmfd_user (b : nat) (l : list nat) : AM unit :=
  a ← rd b; vs ← ldm_at a (length l); on_cpu (uset_list l vs).

(** [mrs d, spsr] *)
Definition mrs_spsr (d : nat) : AM unit :=
  v ← from_cpu (fun c => match mode_bank (cmode c) with
                         | Usr => sys_spsr c
                         | b => spsr c b
                         end);
  wr d v.
(** [msr spsr_cxsf, n] writes all four fields; there is nothing to write in
    System mode. *)
Definition write_spsr_all (v : Z) (c : cpu) : cpu :=
  match mode_bank (cmode c) with
  | Usr => c
  | b => set_spsr (upd_spsr b v (spsr c)) c
  end.
Definition write_spsr (mask v : Z) (c : cpu) : cpu :=
  match mode_bank (cmode c) with
  | Usr => c
  | b => set_spsr (upd_spsr b (Z.lor (bic32 (spsr c b) mask) (Z.land v mask)) (spsr c)) c
  end.
Definition msr_spsr_cxsf (n : nat) : AM unit := v ← rd n; on_cpu (write_spsr_all v).
(** [msr spsr, n]: the assembler's default fields are flags and control. *)
Definition msr_spsr (n : nat) : AM unit := v ← rd n; on_cpu (write_spsr 0xFF0000FF v).

(** [cps #mode] *)
Definition cps (m : mode) : AM unit := on_cpu (set_mode m).
(** [msr cpsr_c, #v]: bits 7 to 0 *)
Definition msr_cpsr_c (m : mode) (bits : Z) : AM unit :=
  on_cpu (fun c => set_mode m (set_flags (Z.lor (bic32 (cflags c) 0xFF) bits) c)).

(** [mrc] and [mcr] *)
Definition mrc (d : nat) (r : cp15_reg) : AM unit := v ← from_cpu (cp15_get r); wr d v.
Definition mcr (d : nat) (r : cp15_reg) : AM unit := v ← rd d; on_cpu (cp15_set r v).
Definition mrc_scr (d : nat) : AM unit := v ← from_cpu scr; wr d v.
Definition mcr_scr (d : nat) : AM unit := v ← rd d; on_cpu (set_scr v).

(** Branch to a register: the mode stays. *)
Definition bx (n : nat) : AM unit := v ← rd n; on_cpu (set_pc v).

(** Exception return to [v]: CPSR from the SPSR of the current mode; an
    undefined mode number is UNPREDICTABLE. *)
Definition eret (v : Z) : AM unit := fun m =>
  let c := cpu_of m in
  match set_cpsr (spsr c (mode_bank (cmode c))) c with
  | Some c' => Ok tt (Machine (set_pc v c') (mem m))
  | None => Undef
  end.
(** [movs pc, lr] *)
Definition movs_pc_lr : AM unit := v ← rd 14; eret v.
(** [ldmfd sp!, {l, pc}^] *)
Definition ldmfd_eret (l : list nat) : AM unit :=
  pop l ;;
  a ← rd 13; v ← on_mem (read32 a);
  wr 13 (add32 a 4) ;; eret v.

(** ** Exception entry into Monitor mode

    [off] is what the exception adds to the address of the instruction
    executing or about to execute.  A, I and F are masked; J, T, E and the IT
    bits are cleared (SCTLR.EE and SCTLR.TE are 0). *)
Definition enter_monitor (off : Z) : AM unit := on_cpu (fun c =>
  let c1 := set_spsr (upd_spsr Mon (cpsr c) (spsr c)) c in
  let c2 := set_mode MONITOR_MODE (set_flags (Z.lor (bic32 (cflags c1) 0x0700FE20) 0x1C0) c1) in
  rset 14 (add32 (pc c) off) c2).
End instructions.

(** ** Running the assembly symbolically *)
Section runs.
Context {S : Type} `{Bus S}.

Lemma store_multiple_run a vs (s : S) : store_multiple a vs s = Ok tt (store_words a vs s).
Proof.
  revert a s. induction vs as [|v vs IH]; intros a s; [done|].
  cbn [store_multiple store_words]. run_access. apply IH.
Qed.

(** Addresses [a, a + 4 n) behave as memory and do not wrap around. *)
Definition ram_at (Ram : Z -> Prop) (a : Z) (n : Z) : Prop :=
  0 <= a /\ a + 4 * n <= 2 ^ 32 /\ forall i, 0 <= i < n -> Ram (a + 4 * i).

Lemma ram_at_word Ram a n i : ram_at Ram a n -> 0 <= i < n -> Ram (a + 4 * i).
Proof. intros (_ & _ & Hr). apply Hr. Qed.

Lemma load_multiple_run Ram `{!Storage S Ram} a n (s : S) :
  ram_at Ram a (Z.of_nat n) -> load_multiple a n s = Ok (load_words a n s) s.
Proof.
  revert a s. induction n as [|n IH]; intros a s (H0 & H1 & Hr); [done|].
  cbn [load_multiple load_words]. run_access.
  assert (after_rd (u32 a) s = s) as ->.
  { apply storage_rd. rewrite u32_small by (unfold is_u32; lia).
    replace a with (a + 4 * 0) by lia. apply Hr. lia. }
  rewrite (bind_ok _ _ _ _ _ (IH (a + 4) s ltac:(split_and!; [lia|lia|
    intros i Hi; replace (a + 4 + 4 * i) with (a + 4 * (i + 1)) by lia; apply Hr; lia]))).
  done.
Qed.

Lemma ram_at_sub Ram a n b k :
  ram_at Ram a n -> a <= b -> b + 4 * k <= a + 4 * n -> (b - a) mod 4 = 0 -> ram_at Ram b k.
Proof.
  intros (H0 & H1 & Hr) Hb Hk Hm. split_and!; [lia|lia|]. intros i Hi.
  replace (b + 4 * i) with (a + 4 * ((b - a) / 4 + i)) by (Z.div_mod_to_equations; lia).
  apply Hr. Z.div_mod_to_equations; lia.
Qed.

(** What memory holds after a block store. *)
Lemma peek_store_words_out Ram `{!Storage S Ram} a vs x (s : S) :
  Ram x -> 0 <= a -> a + 4 * Z.of_nat (length vs) <= 2 ^ 32 ->
  x < a \/ a + 4 * Z.of_nat (length vs) <= x ->
  peek x (store_words a vs s) = peek x s.
Proof.
  intros Hx. revert a s. induction vs as [|v vs IH]; intros a s Ha Hn Ho; [done|].
  cbn [store_words length] in *. rewrite IH by lia. apply storage_wr_ne; [done|].
  rewrite u32_small by (unfold is_u32; lia). lia.
Qed.

Lemma peek_store_words_in Ram `{!Storage S Ram} a vs i (s : S) :
  ram_at Ram a (Z.of_nat (length vs)) -> (i < length vs)%nat ->
  peek (a + 4 * Z.of_nat i) (store_words a vs s) = u32 (nth i vs 0).
Proof.
  revert a i s. induction vs as [|v vs IH]; intros a i s (H0 & H1 & Hr) Hi; cbn in Hi; [lia|].
  cbn [length] in *. cbn [store_words]. destruct i as [|i].
  - rewrite (peek_store_words_out Ram); [|apply Hr; lia|lia|lia|lia].
    replace (a + 4 * Z.of_nat 0) with a by lia.
    rewrite (u32_small a) by (unfold is_u32; lia).
    apply storage_wr_eq; [|apply u32_is_u32]. replace a with (a + 4 * 0) by lia. apply Hr. lia.
  - replace (a + 4 * Z.of_nat (Datatypes.S i)) with (a + 4 + 4 * Z.of_nat i) by lia.
    rewrite IH; [done| |lia]. split_and!; [lia|lia|]. intros j Hj.
    replace (a + 4 + 4 * j) with (a + 4 * (j + 1)) by lia. apply Hr. lia.
Qed.

Lemma from_cpu_run {A B} (g : cpu -> A) (f : A -> M (machine S) B) c s v :
  g c = v -> (from_cpu g ≫= f) (Machine c s) = f v (Machine c s).
Proof. by intros <-. Qed.

Lemma on_cpu_run {B} g (f : unit -> M (machine S) B) c s c' :
  g c = c' -> (on_cpu g ≫= f) (Machine c s) = f tt (Machine c' s).
Proof. by intros <-. Qed.

Lemma on_mem_run {A B} (m : M S A) (f : A -> M (machine S) B) c s a s' :
  m s = Ok a s' -> (on_mem m ≫= f) (Machine c s) = f a (Machine c s').
Proof. intros E. unfold on_mem, mbind, M_bind. cbn. by rewrite E. Qed.

Lemma eret_run {B} v (f : unit -> M (machine S) B) c s w md :
  spsr c (mode_bank (cmode c)) = w -> decode_mode w = Some md ->
  (eret v ≫= f) (Machine c s) =
    f tt (Machine (set_pc v (set_mode md (set_flags (Z.land w 0xFFFFFFE0) c))) s).
Proof.
  intros <- Hd. unfold eret, mbind, M_bind, set_cpsr. cbn [cpu_of mem]. by rewrite Hd.
Qed.

Lemma stm_at_run {B} a vs (f : unit -> M (machine S) B) c s :
  (stm_at a vs ≫= f) (Machine c s) = f tt (Machine c (store_words a vs s)).
Proof. apply on_mem_run, store_multiple_run. Qed.

Lemma ldm_at_run Ram `{!Storage S Ram} {B} a n (f : list Z -> M (machine S) B) c s :
  ram_at Ram a (Z.of_nat n) ->
  (ldm_at a n ≫= f) (Machine c s) = f (load_words a n s) (Machine c s).
Proof. intros. by apply on_mem_run, (load_multiple_run Ram). Qed.
End runs.

Global Typeclasses Opaque stm_at ldm_at from_cpu on_cpu on_mem.
#[global] Opaque stm_at ldm_at.

Lemma upd_reg_eq b n v f : upd_reg b n v f b n = v.
Proof. unfold upd_reg. by destruct b; cbn; rewrite Nat.eqb_refl. Qed.

Lemma upd_reg_ne b n v f b' n' : (b, n) <> (b', n') -> upd_reg b n v f b' n' = f b' n'.
Proof.
  intros Hne. unfold upd_reg.
  destruct b, b'; cbn; try done; destruct (Nat.eqb_spec n n'); subst; done.
Qed.

(** Decides a lookup in an explicit register file. *)
Ltac reg_lookup :=
  repeat match goal with
  | |- context [upd_reg ?b ?n ?v ?f ?b' ?n'] =>
      let E := fresh in
      destruct (decide ((b, n) = (b', n'))) as [E|E];
      [injection E as <- <-; rewrite (upd_reg_eq b n v f)
      |rewrite (upd_reg_ne b n v f b' n' E)]
  end.

(** Evaluates an expression over an explicit CPU state. *)
Ltac cpu_eval t :=
  eval cbv beta iota zeta delta
    [rget rset uget uset rget_list rset_list uget_list uset_list set_regs set_spsr set_mode
     set_flags set_scr set_cp15 set_pc regs spsr cmode cflags scr cp15 pc reg_bank mode_bank
     bank_eqb Nat.ltb Nat.leb Nat.eqb andb cp15_get cp15_set cp15_common write_spsr write_spsr_all
     fmap list_fmap ns_bit] in t.
Ltac cpu_val t :=
  let t := eval cbv beta iota zeta delta
    [rget rset uget uset rget_list uget_list regs spsr cmode cflags scr cp15 pc reg_bank
     mode_bank upd_reg upd_spsr bank_eqb Nat.ltb Nat.leb Nat.eqb andb cp15_get cp15_common
     fmap list_fmap] in t in t.

Create HintDb arm_db.
#[export] Hint Unfold rd wr mov_imm mov add_imm sub_imm orr_imm bic_imm orr add_lsl ldr str
  ldr_post str_post stmia stmia_wb ldmia ldmia_wb stmfd push pop stmfd_user ldmfd_user mrs_spsr
  msr_spsr_cxsf msr_spsr cps msr_cpsr_c mrc mcr mrc_scr mcr_scr bx movs_pc_lr ldmfd_eret
  : arm_db.

Lemma add32_small a b : 0 <= a + b < 2 ^ 32 -> add32 a b = a + b.
Proof. intros. unfold add32, u32. apply Z.mod_small. lia. Qed.
Lemma sub32_small a b : 0 <= a - b < 2 ^ 32 -> sub32 a b = a - b.
Proof. intros. unfold sub32, u32. apply Z.mod_small. lia. Qed.

Section peeks.
Context {S : Type} `{Bus S}.

(** The words of memory from [a] on. *)
Fixpoint peek_words (a : Z) (n : nat) (s : S) : list Z :=
  match n with
  | O => []
  | Datatypes.S n' => peek a s :: peek_words (a + 4) n' s
  end.

Lemma load_words_peek Ram a n (s : S) :
  ram_at Ram a (Z.of_nat n) -> load_words a n s = peek_words a n s.
Proof.
  revert a. induction n as [|n IH]; intros a (H0 & H1 & Hr); [done|].
  cbn. rewrite u32_small by (unfold is_u32; lia). f_equal. apply IH.
  split_and!; [lia|lia|]. intros i Hi.
  replace (a + 4 + 4 * i) with (a + 4 * (i + 1)) by lia. apply Hr. lia.
Qed.

Lemma ldm_run Ram `{!Storage S Ram} {B} a n (f : list Z -> M (machine S) B) c s :
  ram_at Ram a (Z.of_nat n) ->
  (ldm_at a n ≫= f) (Machine c s) = f (peek_words a n s) (Machine c s).
Proof.
  intros Hr. by rewrite (ldm_at_run Ram), (load_words_peek Ram) by done.
Qed.

Lemma length_peek_words a n (s : S) : length (peek_words a n s) = n.
Proof. revert a. induction n; intros; cbn; auto. Qed.

Lemma peek_words_lookup a n i (s : S) :
  (i < n)%nat -> peek_words a n s !! i = Some (peek (a + 4 * Z.of_nat i) s).
Proof.
  revert a i. induction n as [|n IH]; intros a [|i] Hi; try lia; cbn [peek_words lookup list_lookup].
  - by rewrite Z.add_0_r.
  - rewrite IH by lia. do 2 f_equal. lia.
Qed.

Lemma peek_words_u32 a n (s : S) : u32 <$> peek_words a n s = peek_words a n s.
Proof.
  revert a. induction n as [|n IH]; intros a; cbn; [done|].
  by rewrite IH, u32_small by apply peek_u32.
Qed.

(** Words outside a block store are kept; those of the block are its values. *)
Lemma peek_words_store_out Ram `{!Storage S Ram} a n b vs (s : S) :
  ram_at Ram a (Z.of_nat n) -> ram_at Ram b (Z.of_nat (length vs)) ->
  a + 4 * Z.of_nat n <= b \/ b + 4 * Z.of_nat (length vs) <= a ->
  peek_words a n (store_words b vs s) = peek_words a n s.
Proof.
  intros (A0 & A1 & Ar) (B0 & B1 & Br) Ho. apply list_eq. intros i.
  destruct (decide (i < n)%nat).
  - rewrite !peek_words_lookup by done. f_equal. apply (peek_store_words_out Ram);
      [apply Ar; lia|lia|lia|lia].
  - by rewrite !lookup_ge_None_2 by (rewrite length_peek_words; lia).
Qed.

Lemma peek_words_store_in Ram `{!Storage S Ram} a vs (s : S) :
  ram_at Ram a (Z.of_nat (length vs)) ->
  peek_words a (length vs) (store_words a vs s) = u32 <$> vs.
Proof.
  intros Hr. apply list_eq. intros i. destruct (decide (i < length vs)%nat) as [Hi|Hi].
  - rewrite peek_words_lookup, (peek_store_words_in Ram), list_lookup_fmap by done.
    rewrite (nth_lookup_Some vs i 0 (vs !!! i)); [|by apply list_lookup_lookup_total_lt].
    by rewrite (list_lookup_lookup_total_lt vs i).
  - rewrite !lookup_ge_None_2; [done|rewrite length_fmap; lia|rewrite length_peek_words; lia].
Qed.

Lemma peek_words_app a n k (s : S) :
  peek_words a (n + k) s = peek_words a n s ++ peek_words (a + 4 * Z.of_nat n) k s.
Proof.
  revert a. induction n as [|n IH]; intros a; cbn [Nat.add peek_words app];
    [by rewrite Z.add_0_r|]. rewrite IH. do 3 f_equal. lia.
Qed.

Lemma store_words_app a l1 l2 (s : S) :
  store_words a (l1 ++ l2) s = store_words (a + 4 * Z.of_nat (length l1)) l2 (store_words a l1 s).
Proof.
  revert a s. induction l1 as [|v l1 IH]; intros a s; cbn [app store_words length];
    [by rewrite Z.add_0_r|]. rewrite IH. f_equal. lia.
Qed.
End peeks.

(** A block loaded from inside a known one. *)
Lemma peek_words_slice {S} `{Bus S} a n (s : S) W o k :
  peek_words a n s = W -> (o + k <= n)%nat ->
  peek_words (a + 4 * Z.of_nat o) k s = take k (drop o W).
Proof.
  intros <- Hn. replace n with (o + (k + (n - o - k)))%nat by lia.
  rewrite peek_words_app, drop_app_length' by (by rewrite length_peek_words).
  by rewrite peek_words_app, take_app_length' by (by rewrite length_peek_words).
Qed.

Lemma peek_words_prefix {S} `{Bus S} a n (s : S) W k :
  peek_words a n s = W -> (k <= n)%nat -> peek_words a k s = take k W.
Proof.
  intros HW Hk. rewrite <- (Z.add_0_r a). by apply (peek_words_slice a n s W 0 k).
Qed.

Lemma add32_shift a b c d :
  b + c = d -> 0 <= a + d < 2 ^ 32 -> add32 (a + b) c = a + d.
Proof. intros <- ?. rewrite add32_small; lia. Qed.
Lemma sub32_shift a b c d :
  b = d + c -> 0 <= a + d < 2 ^ 32 -> sub32 (a + b) c = a + d.
Proof. intros -> ?. rewrite sub32_small; lia. Qed.
Lemma sub32_cancel a b : 0 <= a < 2 ^ 32 -> sub32 (a + b) b = a.
Proof. intros. rewrite sub32_small; lia. Qed.

(** Addresses in the form [base + constant]. *)
Ltac norm_addr :=
  repeat match goal with
  | |- context [4 * Z.of_nat ?n] =>
      let v := eval vm_compute in (4 * Z.of_nat n) in change (4 * Z.of_nat n) with v
  | |- context [sub32 (?a + ?b) ?b] => rewrite (sub32_cancel a b) by lia
  | |- context [sub32 (?a + Zpos ?b) (Zpos ?c)] =>
      let d := eval vm_compute in (Zpos b - Zpos c) in
      rewrite (sub32_shift a (Zpos b) (Zpos c) d eq_refl) by lia
  | |- context [add32 (?a + Zpos ?b) (Zpos ?c)] =>
      let d := eval vm_compute in (Zpos b + Zpos c) in
      rewrite (add32_shift a (Zpos b) (Zpos c) d eq_refl) by lia
  | |- context [add32 ?a (Zpos ?c)] => rewrite (add32_small a (Zpos c)) by lia
  | |- context [add32 ?a 0] => rewrite (add32_small a 0), Z.add_0_r by lia
  end.

(** Proves that a block lies in a larger one. *)
Ltac ram :=
  match goal with
  | H : ram_at ?Ram ?a ?n |- ram_at ?Ram ?b ?k =>
      apply (ram_at_sub Ram a n b k H); [lia|lia|Z.div_mod_to_equations; lia]
  end.

(** One step of the head instruction; [Ram] is the set of addresses that loads may read. *)
Ltac istep Ram :=
  match goal with
  | |- context [((?m ≫= ?f) ≫= ?g) (Machine ?c ?s)] => rewrite (bind_assoc m f g (Machine c s))
  | |- context [(mret ?a ≫= ?f) (Machine ?c ?s)] => rewrite (bind_ret a f (Machine c s))
  | |- context [(from_cpu ?g ≫= ?f) (Machine ?c ?s)] =>
      let v := cpu_val (g c) in rewrite (from_cpu_run g f c s v eq_refl)
  | |- context [(on_cpu ?g ≫= ?f) (Machine ?c ?s)] =>
      let c' := cpu_eval (g c) in rewrite (on_cpu_run g f c s c' eq_refl)
  | |- context [(stm_at ?a ?vs ≫= ?f) (Machine ?c ?s)] => rewrite (stm_at_run a vs f c s)
  | |- context [(ldm_at ?a ?n ≫= ?f) (Machine ?c ?s)] =>
      rewrite (ldm_run Ram a n f c s) by ram
  | |- context [(on_mem (read32 ?a) ≫= ?f) (Machine ?c ?s)] =>
      rewrite (on_mem_run _ f c s _ _ (read32_run a s))
  | |- context [(on_mem (write32 ?a ?v) ≫= ?f) (Machine ?c ?s)] =>
      rewrite (on_mem_run _ f c s _ _ (write32_run a v s))
  end.

(** A block read from memory: unaffected by the stores to other blocks, and a
    part of the block that [HW] gives the contents of. *)
Ltac read_block Ram HW :=
  repeat match goal with
  | |- context [peek_words ?a ?n (store_words ?a ?vs ?s)] =>
      rewrite (peek_words_store_in Ram a vs s : _ ->
                 peek_words a n (store_words a vs s) = u32 <$> vs) by
        (cbn [length]; ram);
      cbn [fmap list_fmap]
  | |- context [peek_words ?a ?n (store_words ?b ?vs ?s)] =>
      rewrite (peek_words_store_out Ram a n b vs s) by
        (cbn [length]; first [ram | lia])
  end;
  match type of HW with peek_words ?base ?n ?s = ?W =>
    repeat match goal with
    | |- context [peek_words base ?k s] =>
        rewrite (peek_words_prefix base n s W k HW) by lia
    | |- context [peek_words (base + Zpos ?o) ?k s] =>
        let o' := eval vm_compute in (Z.to_nat (Zpos o / 4)) in
        change (base + Zpos o) with (base + 4 * Z.of_nat o');
        rewrite (peek_words_slice base n s W o' k HW) by lia
    end
  end; cbn [take drop].
