(* ===== verification/Cp15.v ===== *)
(** * The CP15 context of a world ([arch/armv7/cpu_cp15_switch.S])

    The coprocessor registers that are banked by SCR.NS are written once, from
    the guest's [struct cp15_regs], when the non-secure guest is created. *)
From S2P Require Import Prelude Bus Arm.

Local Open Scope Z_scope.

(** The registers in the order of [struct cp15_regs] and of the macros. *)
Definition cp15_regs : list cp15_reg :=
  [CSSELR; SCTLR; ACTLR; TTBR0; TTBR1; TTBCR; DACR; DFSR; IFSR; DFAR; IFAR; PAR;
   PRRR; NMRR; VBAR; FCSEIDR; CONTEXTIDR; TPIDRURW; TPIDRURO; TPIDRPRW].

Section cp15.
Context {S : Type} `{Bus S}.
#[local] Abbreviation AM := (M (machine S)).

Definition scr_nsbit_set (rt : nat) : AM unit :=
  mrc_scr rt ;; orr_imm rt rt 1 ;; mcr_scr rt.
Definition scr_nsbit_clear (rt : nat) : AM unit :=
  mrc_scr rt ;; bic_imm rt rt 1 ;; mcr_scr rt.

Fixpoint each (l : list cp15_reg) (op : cp15_reg -> AM unit) : AM unit :=
  match l with
  | [] => mret tt
  | r :: l' => op r ;; each l' op
  end.

(** [mrc p15, ..., r2, ...; str r2, [r0], #4] for every register *)
Definition save_cp15_context : AM unit :=
  each cp15_regs (fun r => mrc 2 r ;; str_post 2 0 4).
(** [ldr r2, [r0], #4; mcr p15, ..., r2, ...] for every register *)
Definition restore_cp15_context : AM unit :=
  each cp15_regs (fun r => ldr_post 2 0 4 ;; mcr 2 r).

Definition cp15_restore : AM unit :=
  scr_nsbit_set 2 ;; restore_cp15_context ;; scr_nsbit_clear 2 ;; bx 14.
End cp15.

(** ** Runs *)
Section cp15_runs.
Context {S : Type} `{Bus S}.
Variable Ram : Z -> Prop.
Context `{!Storage S Ram}.

(** The values of a world's coprocessor registers. *)
Definition cp15_view (ns : bool) (CP : bool -> cp15_reg -> Z) (r : cp15_reg) : Z :=
  CP (if cp15_common r then false else ns) r.

Definition cp15_words (ns : bool) (CP : bool -> cp15_reg -> Z) (l : list cp15_reg) : list Z :=
  cp15_view ns CP <$> l.

(** Loading the registers of [l] with [vs], in order. *)
Fixpoint cp15_load (ns : bool) (l : list cp15_reg) (vs : list Z)
    (CP : bool -> cp15_reg -> Z) : bool -> cp15_reg -> Z :=
  match l, vs with
  | r :: l', v :: vs' =>
      cp15_load ns l' vs' (upd_cp15 (if cp15_common r then false else ns) r v CP)
  | _, _ => CP
  end.

Lemma upd_cp15_lookup ns r v CP ns' r' :
  upd_cp15 ns r v CP ns' r' =
  if decide ((ns, r) = (ns', r')) then v else CP ns' r'.
Proof.
  unfold upd_cp15. destruct (decide _) as [[= <- <-]|Hne].
  - by rewrite eqb_reflx, bool_decide_true by done.
  - destruct (Bool.eqb ns ns') eqn:E; [|done]. apply eqb_prop in E as ->.
    by rewrite bool_decide_false by congruence.
Qed.

Lemma cp15_load_other ns l vs CP ns' r :
  (r ∉ l \/ ns' <> (if cp15_common r then false else ns)) ->
  cp15_load ns l vs CP ns' r = CP ns' r.
Proof.
  revert vs CP. induction l as [|r0 l IH]; intros [|v vs] CP Hr; try done. cbn.
  rewrite IH.
  - rewrite upd_cp15_lookup. destruct (decide _) as [[= <- <-]|]; [|done].
    exfalso. destruct Hr as [Hr|Hr]; [|done]. apply Hr. left.
  - destruct Hr as [Hr|Hr]; [left|by right]. intros ?. apply Hr. by right.
Qed.

Lemma cp15_load_in ns l vs CP i r v :
  NoDup l -> l !! i = Some r -> vs !! i = Some v ->
  cp15_view ns (cp15_load ns l vs CP) r = v.
Proof.
  revert vs CP i. induction l as [|r0 l IH]; intros [|v0 vs] CP [|i] Hnd Hl Hv; try done;
    apply NoDup_cons in Hnd as [Hn Hnd]; cbn in *.
  - simplify_eq. unfold cp15_view. rewrite cp15_load_other by (by left).
    by rewrite upd_cp15_lookup, decide_True.
  - by eapply IH.
Qed.

(** [R'] is [R] but for r0 and r2. *)
Definition r0_r2_only (R R' : bank -> nat -> Z) : Prop :=
  forall b n, (b, n) <> (Usr, 0%nat) -> (b, n) <> (Usr, 2%nat) -> R' b n = R b n.

Lemma restore_list_run {B} (f : unit -> M (machine S) B) l R SP md F SC CP PC s a :
  R Usr 0%nat = a -> ram_at Ram a (Z.of_nat (length l)) -> a + 4 * Z.of_nat (length l) < 2 ^ 32 ->
  exists R',
    (each l (fun r => ldr_post 2 0 4 ;; mcr 2 r) ≫= f) (Machine (Cpu R SP md F SC CP PC) s) =
      f tt (Machine (Cpu R' SP md F SC
                       (cp15_load (Z.testbit SC 0) l (peek_words a (length l) s) CP) PC) s) /\
    r0_r2_only R R'.
Proof.
  revert R CP a f. induction l as [|r l IH]; intros R CP a f Ha Hr Hlt.
  { by exists R. }
  cbn [each length peek_words cp15_load] in *.
  autounfold with arm_db. destruct (id Hr) as (? & ? & Hram).
  assert (Hra : Ram a) by (replace a with (a + 4 * 0) by lia; apply Hram; lia).
  repeat (istep Ram; rewrite ?Ha; norm_addr).
  rewrite storage_rd by done.
  match goal with |- context [Machine (Cpu ?R1 _ _ _ _ ?CP1 _) _] =>
    destruct (IH R1 CP1 (a + 4) f) as (R' & E & HR); [done|ram|lia|] end.
  exists R'. split; [exact E|].
  intros b n Hb0 Hb2. rewrite HR by done. by rewrite !upd_reg_ne by congruence.
Qed.

Lemma save_list_run {B} (f : unit -> M (machine S) B) l R SP md F SC CP PC s a :
  R Usr 0%nat = a -> ram_at Ram a (Z.of_nat (length l)) -> a + 4 * Z.of_nat (length l) < 2 ^ 32 ->
  exists R',
    (each l (fun r => mrc 2 r ;; str_post 2 0 4) ≫= f) (Machine (Cpu R SP md F SC CP PC) s) =
      f tt (Machine (Cpu R' SP md F SC CP PC)
              (store_words a (cp15_words (Z.testbit SC 0) CP l) s)) /\
    r0_r2_only R R'.
Proof.
  revert R a f s. induction l as [|r l IH]; intros R a f s Ha Hr Hlt.
  { by exists R. }
  unfold cp15_words in *. cbn [each length fmap list_fmap store_words] in *.
  autounfold with arm_db. destruct (id Hr) as (? & ? & _).
  repeat (istep Ram; rewrite ?Ha; norm_addr).
  match goal with |- context [Machine (Cpu ?R1 _ _ _ _ _ _) ?s1] =>
    destruct (IH R1 (a + 4) f s1) as (R' & E & HR); [done|ram|lia|] end.
  exists R'. split; [rewrite (u32_small a) by (unfold is_u32; lia); exact E|].
  intros b n Hb0 Hb2. rewrite HR by done. by rewrite !upd_reg_ne by congruence.
Qed.

Lemma cp15_restore_run R SP md F SC CP PC s a :
  is_u32 SC -> R Usr 0%nat = a -> ram_at Ram a 20 -> a + 80 < 2 ^ 32 ->
  exists R',
    cp15_restore (Machine (Cpu R SP md F SC CP PC) s) =
      Ok tt (Machine (Cpu R' SP md F (bic32 SC 1) (cp15_load true cp15_regs (peek_words a 20 s) CP)
                       (R (mode_bank md) 14%nat)) s) /\
    r0_r2_only R R'.
Proof.
  intros HSC Ha Hr Hlt. rewrite <- (bind_ret_r cp15_restore).
  unfold cp15_restore, scr_nsbit_set, scr_nsbit_clear, restore_cp15_context.
  autounfold with arm_db. repeat istep Ram.
  idtac.
  match goal with |- context [(_ ≫= ?f) (Machine (Cpu ?R1 _ _ _ ?SC1 _ _) _)] =>
    destruct (restore_list_run f cp15_regs R1 SP md F SC1 CP PC s a) as (R2 & E & HR) end;
    [done|done|done|].
  autounfold with arm_db in E. rewrite E. repeat istep Ram.
  assert (Hns : Z.testbit (Z.lor SC 1) 0 = true) by (rewrite Z.lor_spec; apply orb_true_r).
  assert (Hbic : bic32 (Z.lor SC 1) 1 = bic32 SC 1).
  { unfold bic32. rewrite Z.land_lor_distr_l. change (Z.land 1 (not32 1)) with 0.
    apply Z.lor_0_r. }
  eexists. split.
  - rewrite Hns, Hbic. do 3 f_equal. by destruct md; cbn; rewrite HR by done.
  - intros b n Hb0 Hb2. rewrite !upd_reg_ne, HR, !upd_reg_ne by congruence. done.
Qed.
End cp15_runs.

Lemma cp15_regs_nodup : NoDup cp15_regs.
Proof. by apply (bool_decide_unpack _). Qed.

(** *** Properties *)

(** Creating the guest loads its coprocessor registers and nothing else.
    [cp15_restore] returns to its caller with SCR.NS clear; the non-secure view
    of the twenty registers holds the twenty words of the context, in the
    order of [struct cp15_regs]; the secure world's banked registers, all
    processor registers but r0 and r2, and memory are as before. *)
Theorem cp15_restore_loads {S} `{Bus S} (Ram : Z -> Prop) `{!Storage S Ram}
    (c : cpu) (s : S) (a : Z) :
  is_u32 (scr c) -> regs c Usr 0%nat = a -> ram_at Ram a 20 -> a + 80 < 2 ^ 32 ->
  exists c',
    cp15_restore (Machine c s) = Ok tt (Machine c' s) /\
    scr c' = bic32 (scr c) 1 /\ pc c' = regs c (mode_bank (cmode c)) 14%nat /\
    cmode c' = cmode c /\ cflags c' = cflags c /\ r0_r2_only (regs c) (regs c') /\
    (forall i r, cp15_regs !! i = Some r ->
       cp15_view true (cp15 c') r = peek (a + 4 * Z.of_nat i) s) /\
    (forall r, cp15_common r = false -> cp15 c' false r = cp15 c false r).
Proof.
  intros HSC Ha Hr Hlt. destruct c as [R SP md F SC CP PC]. cbn [scr regs cp15] in *.
  destruct (cp15_restore_run Ram R SP md F SC CP PC s a HSC Ha Hr Hlt) as (R' & E & HR).
  eexists. split; [exact E|]. cbn [scr pc regs cmode cflags cp15]. split_and!; try done.
  - intros i r Hi. assert (Hlt' : (i < 20)%nat) by (by apply lookup_lt_Some in Hi).
    apply (cp15_load_in true cp15_regs _ _ i); [apply cp15_regs_nodup|done|].
    by apply peek_words_lookup.
  - intros r Hc. apply cp15_load_other. right. by rewrite Hc.
Qed.

(** C34: save and restore are inverse.  The context [save_cp15_context] stores in
    the non-secure world, restored later by [cp15_restore] into any machine
    whose memory still holds it, gives the non-secure world the values the
    registers had when they were saved. *)
Theorem cp15_save_restore {S} `{Bus S} (Ram : Z -> Prop) `{!Storage S Ram}
    (c : cpu) (s : S) (a : Z) :
  ns_bit c = true -> (forall r, is_u32 (cp15_view true (cp15 c) r)) ->
  regs c Usr 0%nat = a -> ram_at Ram a 20 -> a + 80 < 2 ^ 32 ->
  exists c1 s1,
    save_cp15_context (Machine c s) = Ok tt (Machine c1 s1) /\
    (forall x, Ram x -> x < a \/ a + 80 <= x -> peek x s1 = peek x s) /\
    (forall c2 s2,
     is_u32 (scr c2) -> regs c2 Usr 0%nat = a ->
     peek_words a 20 s2 = peek_words a 20 s1 ->
     exists c3,
       cp15_restore (Machine c2 s2) = Ok tt (Machine c3 s2) /\
       forall r, r ∈ cp15_regs -> cp15_view true (cp15 c3) r = cp15_view true (cp15 c) r).
Proof.
  intros Hns Hu Ha Hr Hlt. destruct c as [R SP md F SC CP PC].
  unfold ns_bit in Hns. cbn [scr regs cp15] in *.
  destruct (save_list_run Ram mret cp15_regs R SP md F SC CP PC s a Ha Hr Hlt) as (R1 & E1 & _).
  rewrite bind_ret_r in E1. do 2 eexists. split; [exact E1|]. destruct (id Hr) as (H0 & H1 & _).
  split; [intros x Hx Ho; by apply (peek_store_words_out Ram)|].
  intros [R2 SP2 md2 F2 SC2 CP2 PC2] s2 HSC Ha2 HW. cbn [scr regs] in *.
  destruct (cp15_restore_run Ram R2 SP2 md2 F2 SC2 CP2 PC2 s2 a HSC Ha2 Hr Hlt) as (R3 & E3 & _).
  eexists. split; [exact E3|]. intros r [i Hi]%list_elem_of_lookup. cbn [cp15].
  apply (cp15_load_in true cp15_regs _ _ i); [apply cp15_regs_nodup|done|].
  rewrite HW. change 20%nat with (length (cp15_words (Z.testbit SC 0) CP cp15_regs)).
  rewrite (peek_words_store_in Ram), Hns by done. unfold cp15_words.
  rewrite !list_lookup_fmap, Hi. cbn. by rewrite u32_small.
Qed.

(** A non-secure world whose registers hold their own index. *)
Definition cp15_demo (scr : Z) : cpu :=
  Cpu (fun b n => match b, n with Usr, 0%nat => 0x1000 | _, _ => 0 end) (fun _ => 0)
    SUPERVISOR_MODE 0x1C0 scr
    (fun ns r => match r with SCTLR => if ns then 0x00C50078 else 0x00C5187D
                            | TPIDRPRW => if ns then 0 else 0x1000 | _ => 7 end) 0.
Definition cp15_demo_ram (a : Z) : Prop := 0 <= a < 0x100000.

Lemma cp15_demo_block : ram_at cp15_demo_ram 0x1000 20.
Proof. unfold ram_at, cp15_demo_ram. split_and!; [lia..|]. intros. lia. Qed.

Lemma cp15_restore_loads_witness :
  exists c', cp15_restore (Machine (cp15_demo 0) (<[0x1004 := 0x00C50078]> (∅ : regfile))) =
      Ok tt (Machine c' (<[0x1004 := 0x00C50078]> ∅)) /\
    cp15 c' true SCTLR = 0x00C50078 /\ cp15 c' false SCTLR = 0x00C5187D.
Proof.
  destruct (cp15_restore_loads cp15_demo_ram (cp15_demo 0)
              (<[0x1004 := 0x00C50078]> (∅ : regfile)) 0x1000 ltac:(done) eq_refl cp15_demo_block
              ltac:(lia)) as (c' & E & _ & _ & _ & _ & _ & Hns & Hs).
  exists c'. exact (conj E (conj (Hns 1%nat SCTLR eq_refl) (Hs SCTLR eq_refl))).
Defined.

Lemma cp15_save_restore_witness :
  exists c1 s1 c3,
    save_cp15_context (Machine (cp15_demo 1) (∅ : regfile)) = Ok tt (Machine c1 s1) /\
    cp15_restore (Machine (cp15_demo 0) s1) = Ok tt (Machine c3 s1) /\
    cp15_view true (cp15 c3) SCTLR = 0x00C50078.
Proof.
  assert (HSC : is_u32 (scr (cp15_demo 0))) by done.
  assert (Hu : forall r, is_u32 (cp15_view true (cp15 (cp15_demo 1)) r)) by (by intros []).
  destruct (cp15_save_restore cp15_demo_ram (cp15_demo 1) (∅ : regfile) 0x1000
              eq_refl Hu eq_refl cp15_demo_block ltac:(done)) as (c1 & s1 & E & _ & H3).
  assert (Ha : regs (cp15_demo 0) Usr 0%nat = 0x1000) by reflexivity.
  pose proof (H3 (cp15_demo 0) s1 HSC Ha (eq_refl (peek_words 0x1000 20 s1))) as (c3 & E3 & Hr).
  exists c1, s1, c3. split; [exact E|]. split; [exact E3|].
  apply (Hr SCTLR). by apply (bool_decide_unpack _).
Defined.
