(* ===== verification/Monitor.v ===== *)
(** * The monitor: world switch ([arch/armv7/cpu_monitor.S])

    Secure and non-secure world share the processor.  The secure world gives it
    up with the SCHED system call; a fast interrupt brings it back.  The
    non-secure world's registers live in its [tzmachine] structure, the secure
    world's in a frame on the monitor stack. *)
From S2P Require Import Prelude Bus Arm.

Local Open Scope Z_scope.

(** ** Constants ([asm-offsets.h], [ltzvisor_syscall_asm.h]) *)
Definition ASM_ARCH_REGS_OFFSET : Z := 0.
Definition ASM_R4_OFFSET : Z := 16.
Definition ASM_GIC_INT_ID : Z := 12.
Definition LTZVISOR_SCHED_SYSCALL : Z := 0x0ffffff1.
Definition LTZVISOR_READ_SYSCALL : Z := u32 (-30).
Definition LTZVISOR_WRITE_SYSCALL : Z := u32 (-31).

Section monitor.
Context {S : Type} `{Bus S}.
(** What System mode reads as its SPSR; what a C function leaves in the
    registers the procedure call standard lets it change. *)
Variable sys_spsr : cpu -> Z.
Variable clobbered : nat -> cpu -> Z.
(** Address of the variable [interrupt]. *)
Variable interrupt_addr : Z.
(** The C functions the monitor calls, on the memory of the machine. *)
Variable fiq_handler : Z -> M S unit.
Variable interrupt_clear : Z -> Z -> M S unit.
Variable board_handler : Z -> Z -> Z -> Z -> M S Z.
#[local] Abbreviation AM := (M (machine S)).
#[local] Abbreviation mrs := (mrs_spsr sys_spsr).

Definition clobber : AM unit := on_cpu (fun c =>
  rset_list [0; 1; 2; 3; 12; 14]%nat
    ((fun n => clobbered n c) <$> [0; 1; 2; 3; 12; 14]%nat) c).

(** [bl f] for the three functions. *)
Definition bl_fiq_handler : AM unit :=
  a0 ← rd 0; on_mem (fiq_handler a0) ;; clobber.
Definition bl_interrupt_clear : AM unit :=
  a0 ← rd 0; a1 ← rd 1; on_mem (interrupt_clear a0 a1) ;; clobber.
Definition bl_board_handler : AM unit :=
  a0 ← rd 0; a1 ← rd 1; a2 ← rd 2; a3 ← rd 3;
  v ← on_mem (board_handler a0 a1 a2 a3); clobber ;; wr 0 v.

Definition SCR_NS_SET : AM unit :=
  push [0%nat] ;;
  mrc_scr 0 ;;
  orr_imm 0 0 SCR_NS_BIT ;;
  orr_imm 0 0 SCR_FIQ_BIT ;;
  bic_imm 0 0 SCR_IRQ_BIT ;;
  mcr_scr 0 ;;
  pop [0%nat].

Definition SCR_NS_CLEAR : AM unit :=
  push [0%nat] ;;
  mrc_scr 0 ;;
  bic_imm 0 0 SCR_NS_BIT ;;
  bic_imm 0 0 SCR_FIQ_BIT ;;
  orr_imm 0 0 SCR_IRQ_BIT ;;
  mcr_scr 0 ;;
  pop [0%nat].

Definition GET_NS_WORLD_CONTEXT : AM unit :=
  mrc 0 TPIDRPRW ;;
  add_imm 0 0 ASM_ARCH_REGS_OFFSET.

(** Saves SPSR, r13 and lr of one mode. *)
Definition save_mode (m : mode) : AM unit :=
  cps m ;; mrs 1 ;; stmia_wb 0 [1; 13; 14]%nat.

Definition WORLD_CONTEXT_SAVE : AM unit :=
  mov 4 0 ;;
  pop [0; 1; 2; 3]%nat ;;
  stmia 4 [0; 1; 2; 3]%nat ;;
  mov 3 4 ;;
  add_imm 4 4 ASM_R4_OFFSET ;;
  mov 0 4 ;;
  pop [4; 14]%nat ;;
  stmia_wb 0 [4; 5; 6; 7; 8; 9; 10; 11; 12]%nat ;;
  mrs 1 ;;
  stmia_wb 0 [1; 14]%nat ;;
  save_mode SUPERVISOR_MODE ;;
  save_mode SYSTEM_MODE ;;
  save_mode ABORT_MODE ;;
  save_mode UNDEFINED_MODE ;;
  save_mode IRQ_MODE ;;
  cps MONITOR_MODE.

(** Restores SPSR, r13 and lr of one mode. *)
Definition restore_mode (m : mode) : AM unit :=
  cps m ;; ldmia_wb 0 [1; 13; 14]%nat ;; msr_spsr_cxsf 1.

Definition WORLD_CONTEXT_RESTORE : AM unit :=
  mov 4 0 ;;
  ldmia_wb 4 [0; 1; 2; 3]%nat ;;
  push [0; 1]%nat ;;
  mov 0 4 ;;
  ldmia_wb 0 [4; 5; 6; 7; 8; 9; 10; 11; 12]%nat ;;
  ldmia_wb 0 [1; 14]%nat ;;
  msr_spsr_cxsf 1 ;;
  restore_mode SUPERVISOR_MODE ;;
  restore_mode SYSTEM_MODE ;;
  restore_mode ABORT_MODE ;;
  restore_mode UNDEFINED_MODE ;;
  restore_mode IRQ_MODE ;;
  cps MONITOR_MODE ;;
  pop [0; 1]%nat.

Definition exception_return_arg : AM unit :=
  pop [1%nat] ;;
  msr_spsr 1 ;;
  push [1%nat] ;;
  mov_imm 1 0 ;;
  pop [1%nat] ;;
  ldmfd_eret [1; 2; 3; 4; 5; 6; 7; 8; 9; 10; 11; 12]%nat.

Definition call_c_function_arg (func : AM unit) : AM unit :=
  push [1; 2; 3; 4; 5; 6; 7; 8; 9; 10; 11; 12; 14]%nat ;;
  mrs 4 ;;
  push [4%nat] ;;
  func.

Definition board_smc : AM unit :=
  call_c_function_arg bl_board_handler ;;
  exception_return_arg.

Definition r0_r14 : list nat := [0; 1; 2; 3; 4; 5; 6; 7; 8; 9; 10; 11; 12; 13; 14]%nat.

(** Pushes the secure world's frame on the monitor stack. *)
Definition push_secure_frame : AM unit :=
  stmfd_user 13 r0_r14 ;;
  sub_imm 13 13 (15 * 4) ;;
  mrs 0 ;;
  stmfd 13 [0; 14]%nat ;;
  sub_imm 13 13 (2 * 4) ;;
  mov 0 13 ;;
  cps FIQ_MODE ;;
  stmfd 0 [8; 9; 10; 11; 12; 13]%nat ;;
  sub_imm 0 0 (6 * 4) ;;
  mrs 1 ;;
  stmfd 0 [1; 14]%nat ;;
  sub_imm 0 0 (2 * 4) ;;
  cps MONITOR_MODE ;;
  mov 13 0.

Definition mon_scheduler : AM unit :=
  push_secure_frame ;;
  GET_NS_WORLD_CONTEXT ;;
  WORLD_CONTEXT_RESTORE ;;
  SCR_NS_SET ;;
  movs_pc_lr.

Definition mon_smc_handler : AM unit :=
  r0 ← rd 0;
  if s32 r0 <? 0 then board_smc
  else if r0 =? LTZVISOR_SCHED_SYSCALL then mon_scheduler
  else bx 14.

(** Stacks the registers the handler uses. *)
Definition fiq_entry : AM unit :=
  sub_imm 14 14 4 ;;
  push [4; 14]%nat ;;
  push [0; 1; 2; 3]%nat.

(** Acknowledges the interrupt and records its number. *)
Definition ack_fiq : AM unit :=
  mrc 0 CBAR ;;
  add_imm 0 0 0x0100 ;;
  ldr 1 0 ASM_GIC_INT_ID ;;
  mov_imm 2 interrupt_addr ;;
  str 1 2 0 ;;
  ldr 0 0 0x0C.

Definition handle_fiq : AM unit :=
  mov_imm 2 interrupt_addr ;;
  ldr 0 2 0 ;;
  bl_fiq_handler ;;
  mov_imm 2 interrupt_addr ;;
  ldr 0 2 0 ;;
  mov_imm 1 0 ;;
  bl_interrupt_clear.

(** Pops the secure world's frame and returns to it. *)
Definition pop_secure_frame : AM unit :=
  pop [1; 2]%nat ;;
  mov 0 13 ;;
  cps FIQ_MODE ;;
  msr_spsr 1 ;;
  mov 14 2 ;;
  ldmia 0 [8; 9; 10; 11; 12; 13]%nat ;;
  add_imm 0 0 (6 * 4) ;;
  cps MONITOR_MODE ;;
  mov 13 0 ;;
  pop [0; 1]%nat ;;
  msr_spsr 0 ;;
  mov 14 1 ;;
  ldmfd_user 13 r0_r14 ;;
  add_imm 13 13 (15 * 4) ;;
  movs_pc_lr.

Definition mon_fiq_handler : AM unit :=
  fiq_entry ;;
  ack_fiq ;;
  SCR_NS_CLEAR ;;
  GET_NS_WORLD_CONTEXT ;;
  WORLD_CONTEXT_SAVE ;;
  handle_fiq ;;
  pop_secure_frame.
End monitor.
