(* ===== verification/WorldSwitch.v ===== *)
(** * The world switch preserves both worlds

    Proofs about [Monitor.v]: what the context of the non-secure world and the
    frame of the secure world hold after a switch, and that switching back
    gives each world its processor state again. *)
From S2P Require Import Prelude Bus Arm Monitor.

Local Open Scope Z_scope.

(** ** What a context holds

    The thirty words of [struct core_regs], in order, as they describe a
    processor stopped in the monitor: the User registers, the monitor's SPSR
    and return address, and SPSR, r13 and r14 of the other modes.  System mode
    has no SPSR; [sys] stands for the word stored in its place. *)
Definition core_words (sys : Z) (c : cpu) : list Z :=
  ((fun n => regs c Usr n) <$> [0; 1; 2; 3; 4; 5; 6; 7; 8; 9; 10; 11; 12]%nat) ++
  [spsr c Mon; regs c Mon 14%nat;
   spsr c Svc; regs c Svc 13%nat; regs c Svc 14%nat;
   sys; regs c Usr 13%nat; regs c Usr 14%nat;
   spsr c Abt; regs c Abt 13%nat; regs c Abt 14%nat;
   spsr c Und; regs c Und 13%nat; regs c Und 14%nat;
   spsr c Irq; regs c Irq 13%nat; regs c Irq 14%nat].
Definition core_size : nat := 30.

Tactic Notation "split_words" ident(W) integer(n) :=
  do n (destruct W as [|? W]; [done|]); destruct W; [|done].

(** Runs straight-line code: [base] rewrites the two base registers. *)
Ltac run_asm Ram H1 H2 HW :=
  repeat (istep Ram; rewrite ?H1, ?H2; norm_addr; try read_block Ram HW).

Section proofs.
Context {S : Type} `{Bus S}.
Variable sys_spsr : cpu -> Z.
Variable Ram : Z -> Prop.
Context `{!Storage S Ram}.

Lemma restore_run {B} (f : unit -> M (machine S) B) R SP F SC CP PC s ctx sp W :
  R Usr 0%nat = ctx -> R Mon 13%nat = sp + 8 ->
  ram_at Ram ctx 30 -> ram_at Ram sp 2 -> sp + 8 < 2 ^ 32 ->
  ctx + 120 <= sp \/ sp + 8 <= ctx ->
  peek_words ctx 30 s = W ->
  exists R' SP',
    (WORLD_CONTEXT_RESTORE ≫= f) (Machine (Cpu R SP MONITOR_MODE F SC CP PC) s) =
      f tt (Machine (Cpu R' SP' MONITOR_MODE F SC CP PC) (store_words sp (take 2 W) s)) /\
    core_words (nth 18 W 0) (Cpu R' SP' MONITOR_MODE F SC CP PC) = W /\
    R' Mon 13%nat = sp + 8 /\ (forall n, R' Fiq n = R Fiq n) /\ SP' Fiq = SP Fiq.
Proof.
  intros Hctx Hsp Rctx Rsp Hsp2 Hdis HW.
  assert (Hu : u32 <$> W = W) by (by rewrite <- HW, peek_words_u32).
  unfold WORLD_CONTEXT_RESTORE, restore_mode. autounfold with arm_db. cbn [length].
  destruct (id Rctx) as (? & ? & _), (id Rsp) as (? & ? & _).
  assert (Hl : length W = 30%nat) by (by rewrite <- HW, length_peek_words).
  split_words W 30. run_asm Ram Hctx Hsp HW.
  do 2 eexists. split; [reflexivity|]. split; [|by split_and!].
  cbn [fmap list_fmap] in Hu. inversion Hu.
  cbv beta iota delta [core_words fmap list_fmap app regs spsr upd_reg upd_spsr bank_eqb
    Nat.eqb andb nth]. congruence.
Qed.

(** The registers a handler finds when it has pushed r4 and lr, then r0-r3. *)
Definition with_stacked (V : list Z) (R : bank -> nat -> Z) : bank -> nat -> Z :=
  fun b n => match b with
             | Usr => if (n <? 5)%nat then nth n V 0 else R Usr n
             | Mon => if (n =? 14)%nat then nth 5 V 0 else R Mon n
             | _ => R b n
             end.

(** The value read as System mode's SPSR is arbitrary: forget how it arose. *)
Ltac hide_sys :=
  try match goal with
  | |- context [sys_spsr ?c] =>
      let y := fresh "sys" in set (y := sys_spsr c); clearbody y
  end.

Lemma save_run {B} (f : unit -> M (machine S) B) R SP F SC CP PC s ctx sp V :
  R Usr 0%nat = ctx -> R Mon 13%nat = sp ->
  ram_at Ram ctx 30 -> ram_at Ram sp 6 -> sp + 24 < 2 ^ 32 -> ctx + 120 < 2 ^ 32 ->
  ctx + 120 <= sp \/ sp + 24 <= ctx ->
  peek_words sp 6 s = V ->
  exists R' sys,
    (WORLD_CONTEXT_SAVE sys_spsr ≫= f) (Machine (Cpu R SP MONITOR_MODE F SC CP PC) s) =
      f tt (Machine (Cpu R' SP MONITOR_MODE F SC CP PC)
        (store_words ctx (core_words sys (Cpu (with_stacked V R) SP MONITOR_MODE F SC CP PC)) s)) /\
    R' Mon 13%nat = sp + 24 /\ (forall n, R' Fiq n = R Fiq n) /\
    (forall n, (5 <= n)%nat -> R' Usr n = R Usr n) /\
    (forall n, R' Svc n = R Svc n /\ R' Abt n = R Abt n /\ R' Und n = R Und n /\ R' Irq n = R Irq n).
Proof.
  intros Hctx Hsp Rctx Rsp Hsp2 Hctx2 Hdis HW.
  unfold WORLD_CONTEXT_SAVE, save_mode. autounfold with arm_db. cbn [length].
  destruct (id Rctx) as (? & ? & _), (id Rsp) as (? & ? & _).
  assert (Hl : length V = 6%nat) by (by rewrite <- HW, length_peek_words).
  split_words V 6. unfold ASM_R4_OFFSET.
  repeat (istep Ram; hide_sys; rewrite ?Hctx, ?Hsp; norm_addr; try read_block Ram HW).
  eexists _, sys. split; [refine (f_equal (fun m => f tt (Machine _ m)) _)|].
  2: { split; [reflexivity|]. split_and!; try done; intros [|[|[|[|[|n]]]]] Hn; done || lia. }
  cbv beta iota delta [core_words with_stacked fmap list_fmap app regs spsr Nat.ltb Nat.leb
    Nat.eqb nth].
  cbn [store_words]. rewrite <- !Z.add_assoc. reflexivity.
Qed.


(** Two memories that agree on [Ram]. *)
Definition keeps (s s' : S) : Prop := forall x, Ram x -> peek x s' = peek x s.

Lemma keeps_words a n s s' :
  keeps s s' -> ram_at Ram a (Z.of_nat n) -> peek_words a n s' = peek_words a n s.
Proof.
  intros Hk (_ & _ & Hr). apply list_eq. intros i. destruct (decide (i < n)%nat).
  - rewrite !peek_words_lookup by done. f_equal. apply Hk, Hr. lia.
  - by rewrite !lookup_ge_None_2 by (rewrite length_peek_words; lia).
Qed.

(** SCR as the two macros leave it. *)
Definition scr_to_ns (v : Z) : Z := bic32 (Z.lor (Z.lor v SCR_NS_BIT) SCR_FIQ_BIT) SCR_IRQ_BIT.
Definition scr_to_s (v : Z) : Z := Z.lor (bic32 (bic32 v SCR_NS_BIT) SCR_FIQ_BIT) SCR_IRQ_BIT.

(** Only r0, which goes through the stack, may differ, and only by wrapping. *)
Definition r0_stacked (R R' : bank -> nat -> Z) : Prop :=
  R' Usr 0%nat = u32 (R Usr 0%nat) /\
  forall b n, (b, n) <> (Usr, 0%nat) -> R' b n = R b n.

Lemma SCR_NS_SET_run {B} (f : unit -> M (machine S) B) R SP F SC CP PC s sp :
  R Mon 13%nat = sp + 4 -> ram_at Ram sp 1 -> sp + 4 < 2 ^ 32 ->
  exists R',
    (SCR_NS_SET ≫= f) (Machine (Cpu R SP MONITOR_MODE F SC CP PC) s) =
      f tt (Machine (Cpu R' SP MONITOR_MODE F (scr_to_ns SC) CP PC)
              (store_words sp [R Usr 0%nat] s)) /\
    r0_stacked R R'.
Proof.
  intros Hsp Rsp Hsp2. unfold SCR_NS_SET. autounfold with arm_db. cbn [length].
  destruct (id Rsp) as (? & ? & _). pose proof (eq_refl (peek_words sp 1 s)) as HW.
  repeat (istep Ram; rewrite ?Hsp; norm_addr; try read_block Ram HW).
  eexists. split; [reflexivity|]. split; [done|].
  intros b n Hb. reg_lookup; congruence.
Qed.

Lemma SCR_NS_CLEAR_run {B} (f : unit -> M (machine S) B) R SP F SC CP PC s sp :
  R Mon 13%nat = sp + 4 -> ram_at Ram sp 1 -> sp + 4 < 2 ^ 32 ->
  exists R',
    (SCR_NS_CLEAR ≫= f) (Machine (Cpu R SP MONITOR_MODE F SC CP PC) s) =
      f tt (Machine (Cpu R' SP MONITOR_MODE F (scr_to_s SC) CP PC)
              (store_words sp [R Usr 0%nat] s)) /\
    r0_stacked R R'.
Proof.
  intros Hsp Rsp Hsp2. unfold SCR_NS_CLEAR. autounfold with arm_db. cbn [length].
  destruct (id Rsp) as (? & ? & _). pose proof (eq_refl (peek_words sp 1 s)) as HW.
  repeat (istep Ram; rewrite ?Hsp; norm_addr; try read_block Ram HW).
  eexists. split; [reflexivity|]. split; [done|].
  intros b n Hb. reg_lookup; congruence.
Qed.
End proofs.

(** ** The secure world's frame

    Twenty-five words on the monitor stack, lowest address first. *)
Definition frame_words (c : cpu) : list Z :=
  [spsr c Fiq; regs c Fiq 14%nat] ++ ((fun n => regs c Fiq n) <$> [8; 9; 10; 11; 12; 13]%nat) ++
  [spsr c Mon; regs c Mon 14%nat] ++ ((fun n => regs c Usr n) <$> r0_r14).
Definition frame_size : nat := 25.

Section frame.
Context {S : Type} `{Bus S}.
Variable sys_spsr : cpu -> Z.
Variable Ram : Z -> Prop.
Context `{!Storage S Ram}.

(** [s'] is [s] with the block [vs] written at [a]. *)
Definition block_written (a : Z) (vs : list Z) (s s' : S) : Prop :=
  peek_words a (length vs) s' = u32 <$> vs /\
  forall x, Ram x -> x < a \/ a + 4 * Z.of_nat (length vs) <= x -> peek x s' = peek x s.

Lemma block_store a vs (s : S) :
  ram_at Ram a (Z.of_nat (length vs)) -> block_written a vs s (store_words a vs s).
Proof.
  intros Hr. split; [by apply (peek_words_store_in Ram)|].
  intros x Hx Ho. destruct Hr as (? & ? & _). by apply (peek_store_words_out Ram).
Qed.

Lemma block_written_words a vs s s' b n :
  block_written a vs s s' -> ram_at Ram b (Z.of_nat n) ->
  b + 4 * Z.of_nat n <= a \/ a + 4 * Z.of_nat (length vs) <= b ->
  peek_words b n s' = peek_words b n s.
Proof.
  intros [_ Hk] (_ & _ & Hr) Ho. apply list_eq. intros i. destruct (decide (i < n)%nat).
  - rewrite !peek_words_lookup by done. f_equal. apply Hk; [apply Hr|]; lia.
  - by rewrite !lookup_ge_None_2 by (rewrite length_peek_words; lia).
Qed.

Lemma block_written_below a l1 l2 b s s1 :
  block_written b l2 s s1 -> b = a + 4 * Z.of_nat (length l1) ->
  ram_at Ram a (Z.of_nat (length (l1 ++ l2))) ->
  block_written a (l1 ++ l2) s (store_words a l1 s1).
Proof.
  intros [H1 K1] -> Hr. rewrite length_app in Hr.
  assert (R1 : ram_at Ram a (Z.of_nat (length l1))) by (eapply ram_at_sub; [exact Hr|..]; lia || Z.div_mod_to_equations; lia).
  assert (R2 : ram_at Ram (a + 4 * Z.of_nat (length l1)) (Z.of_nat (length l2)))
    by (eapply ram_at_sub; [exact Hr|..]; lia || Z.div_mod_to_equations; lia).
  split; rewrite length_app.
  - rewrite peek_words_app, fmap_app. f_equal; [by apply (peek_words_store_in Ram)|].
    by rewrite (peek_words_store_out Ram) by (done || lia).
  - intros x Hx Ho. destruct R1 as (? & ? & _).
    rewrite (peek_store_words_out Ram) by (done || lia). apply K1; [done|lia].
Qed.

(** Stores to [Ram] keep [Inv]. *)
Definition stores_keep (Inv : S -> Prop) : Prop :=
  forall a v s, Ram a -> Inv s -> Inv (bus_wr a v s).

Lemma store_words_keep Inv a vs (s : S) :
  stores_keep Inv -> ram_at Ram a (Z.of_nat (length vs)) -> Inv s -> Inv (store_words a vs s).
Proof.
  intros HI. revert a s. induction vs as [|v vs IH]; intros a s (H0 & H1 & Hr) Hs; [done|].
  cbn [store_words length] in *. apply IH.
  - split_and!; [lia|lia|]. intros i Hi.
    replace (a + 4 + 4 * i) with (a + 4 * (i + 1)) by lia. apply Hr. lia.
  - apply HI; [|done]. rewrite u32_small by (unfold is_u32; lia).
    replace a with (a + 4 * 0) by lia. apply Hr. lia.
Qed.

Lemma push_frame_run {B} (f : unit -> M (machine S) B) R SP F SC CP PC s fp :
  R Mon 13%nat = fp + 100 ->
  ram_at Ram fp 25 -> fp + 100 < 2 ^ 32 ->
  exists R' s',
    (push_secure_frame sys_spsr ≫= f) (Machine (Cpu R SP MONITOR_MODE F SC CP PC) s) =
      f tt (Machine (Cpu R' SP MONITOR_MODE F SC CP PC) s') /\
    R' Mon 13%nat = fp /\
    (forall b n, b <> Usr -> (b, n) <> (Mon, 13%nat) -> R' b n = R b n) /\
    block_written fp (frame_words (Cpu R SP MONITOR_MODE F SC CP PC)) s s' /\
    forall Inv, stores_keep Inv -> Inv s -> Inv s'.
Proof.
  intros Hsp Rsp Hsp2. unfold push_secure_frame. autounfold with arm_db. unfold r0_r14. cbn [length].
  destruct (id Rsp) as (? & ? & _).
  change (15 * 4) with 60. change (2 * 4) with 8. change (6 * 4) with 24.
  repeat (istep Ram; rewrite ?Hsp; norm_addr).
  do 2 eexists. split; [reflexivity|]. split; [done|].
  split; [intros b n Hb Hn; reg_lookup; congruence|]. split.
  2: { intros Inv HI Hs. repeat (apply (store_words_keep Inv _ _ _ HI); [cbn; ram|]). done. }
  unfold frame_words, r0_r14.
  apply (block_written_below fp _ _ (fp + 8)); [|cbn; lia|cbn; ram].
  apply (block_written_below (fp + 8) _ _ (fp + 32)); [|cbn; lia|cbn; ram].
  apply (block_written_below (fp + 32) _ _ (fp + 40)); [|cbn; lia|cbn; ram].
  apply block_store. cbn. ram.
Qed.

(** SPSR fields [msr spsr, rX] does not write keep their value. *)
Definition spsr_fc (old v : Z) : Z := Z.lor (bic32 old 0xFF0000FF) (Z.land v 0xFF0000FF).

Lemma pop_frame_run {B} (f : unit -> M (machine S) B) R SP F SC CP PC s fp W md :
  R Mon 13%nat = fp -> ram_at Ram fp 25 -> fp + 100 < 2 ^ 32 ->
  peek_words fp 25 s = W ->
  decode_mode (spsr_fc (SP Mon) (nth 8 W 0)) = Some md ->
  exists R' SP',
    (pop_secure_frame ≫= f) (Machine (Cpu R SP MONITOR_MODE F SC CP PC) s) =
      f tt (Machine (Cpu R' SP' md (Z.land (spsr_fc (SP Mon) (nth 8 W 0)) 0xFFFFFFE0)
                       SC CP (nth 9 W 0)) s) /\
    R' Mon 13%nat = fp + 100 /\
    (forall n, (n < 15)%nat -> R' Usr n = nth (10 + n) W 0) /\
    (forall n, (8 <= n <= 13)%nat -> R' Fiq n = nth (n - 6) W 0) /\ R' Fiq 14%nat = nth 1 W 0 /\
    SP' Fiq = spsr_fc (SP Fiq) (nth 0 W 0) /\
    (forall b n, b = Svc \/ b = Abt \/ b = Und \/ b = Irq -> R' b n = R b n /\ SP' b = SP b).
Proof.
  intros Hsp Rsp Hsp2 HW Hmd. unfold pop_secure_frame. autounfold with arm_db. unfold r0_r14. cbn [length].
  destruct (id Rsp) as (? & ? & _).
  assert (Hl : length W = 25%nat) by (by rewrite <- HW, length_peek_words).
  split_words W 25.
  change (15 * 4) with 60. change (2 * 4) with 8. change (6 * 4) with 24.
  repeat (istep Ram; rewrite ?Hsp; norm_addr; try read_block Ram HW).
  cbn [nth] in *.
  match type of Hmd with decode_mode ?w = _ =>
    rewrite (eret_run _ f _ _ w md) by
      (first [exact Hmd | unfold spsr_fc; cbn [cmode mode_bank spsr]; unfold upd_spsr;
                          cbn [bank_eqb]; reflexivity])
  end.
  do 2 eexists. split; [reflexivity|]. split; [done|].
  split_and!; try done.
  - intros n Hn. do 15 (destruct n as [|n]; [reflexivity|]). lia.
  - intros n Hn. do 8 (destruct n as [|n]; [lia|]). do 6 (destruct n as [|n]; [reflexivity|]). lia.
  - intros b n [-> | [-> | [-> | ->]]]; done.
Qed.
End frame.

(** ** Taking a fast interrupt in the non-secure world *)

(** Registers of the modes whose banks the handlers do not touch. *)
Definition other_mode (b : bank) : Prop := b = Svc \/ b = Abt \/ b = Und \/ b = Irq.

(** The words of a context only depend on these registers. *)
Lemma core_words_ext sys R1 R2 SP F1 F2 SC1 SC2 CP PC1 PC2 m1 m2 :
  (forall n, (n < 15)%nat -> u32 (R1 Usr n) = u32 (R2 Usr n)) ->
  u32 (R1 Mon 14%nat) = u32 (R2 Mon 14%nat) ->
  (forall b n, other_mode b -> R1 b n = R2 b n) ->
  u32 <$> core_words sys (Cpu R1 SP m1 F1 SC1 CP PC1) =
  u32 <$> core_words sys (Cpu R2 SP m2 F2 SC2 CP PC2).
Proof.
  intros Hu Hm Hb. unfold core_words. cbn [fmap list_fmap app regs spsr].
  rewrite !Hu by lia. unfold other_mode in Hb.
  rewrite Hm, !(Hb Svc), !(Hb Abt), !(Hb Und), !(Hb Irq) by tauto. done.
Qed.

(** What the handlers' devices promise: an invariant of the hardware that
    stores to memory and the read of the acknowledge register keep. *)
Record platform_inv {S} `{Bus S} (Ram : Z -> Prop) (iar : Z) (Inv : S -> Prop) : Prop := {
  inv_store : forall a v s, Ram a -> Inv s -> Inv (bus_wr a v s);
  inv_iar : forall s, Inv s -> Inv (after_rd iar s);
}.

Section fiq.
Context {S : Type} `{Bus S}.
Variable Ram : Z -> Prop.
Context `{!Storage S Ram}.

Lemma inv_store_words iar Inv a vs (s : S) :
  platform_inv Ram iar Inv -> ram_at Ram a (Z.of_nat (length vs)) ->
  Inv s -> Inv (store_words a vs s).
Proof.
  intros HI. apply store_words_keep. intros b v s'. apply (inv_store _ _ _ HI).
Qed.

Lemma fiq_entry_run {B} (f : unit -> M (machine S) B) R SP F SC CP PC s sp :
  R Mon 13%nat = sp + 24 -> ram_at Ram sp 6 -> sp + 24 < 2 ^ 32 ->
  exists R' s',
    (fiq_entry ≫= f) (Machine (Cpu R SP MONITOR_MODE F SC CP PC) s) =
      f tt (Machine (Cpu R' SP MONITOR_MODE F SC CP PC) s') /\
    R' Mon 13%nat = sp /\
    (forall b n, (b, n) <> (Mon, 13%nat) -> (b, n) <> (Mon, 14%nat) -> R' b n = R b n) /\
    block_written Ram sp
      (((fun n => R Usr n) <$> [0; 1; 2; 3; 4]%nat) ++ [sub32 (R Mon 14%nat) 4]) s s' /\
    forall iar Inv, platform_inv Ram iar Inv -> Inv s -> Inv s'.
Proof.
  intros Hsp Rsp Hsp2. unfold fiq_entry. autounfold with arm_db. cbn [length].
  destruct (id Rsp) as (? & ? & _).
  repeat (istep Ram; rewrite ?Hsp; norm_addr).
  do 2 eexists. split; [reflexivity|]. split; [done|]. split_and!.
  - intros b n ? ?. reg_lookup; congruence.
  - change (fmap _ [0; 1; 2; 3; 4]%nat ++ ?l) with
      ([R Usr 0; R Usr 1; R Usr 2; R Usr 3]%nat ++ [R Usr 4%nat; sub32 (R Mon 14%nat) 4]).
    apply (block_written_below Ram sp _ _ (sp + 16)); [|cbn; lia|cbn; ram].
    apply block_store; [done|]. cbn. ram.
  - intros iar Inv HI Hs.
    apply (inv_store_words _ _ _ _ _ HI); [cbn; ram|].
    apply (inv_store_words _ _ _ _ _ HI); [cbn; ram|done].
Qed.

(** The interrupt acknowledge register, as the monitor computes its address. *)
Definition iar_addr (CP : bool -> cp15_reg -> Z) : Z :=
  add32 (add32 (CP false CBAR) 0x0100) ASM_GIC_INT_ID.

Variable interrupt_addr : Z.

Lemma ack_run {B} (f : unit -> M (machine S) B) R SP F SC CP PC s :
  Ram interrupt_addr -> is_u32 interrupt_addr ->
  exists R' s',
    (ack_fiq interrupt_addr ≫= f) (Machine (Cpu R SP MONITOR_MODE F SC CP PC) s) =
      f tt (Machine (Cpu R' SP MONITOR_MODE F SC CP PC) s') /\
    (forall b n, (b, n) <> (Usr, 0%nat) -> (b, n) <> (Usr, 1%nat) -> (b, n) <> (Usr, 2%nat) ->
       R' b n = R b n) /\
    peek interrupt_addr s' = peek (iar_addr CP) s /\
    (forall x, Ram x -> x <> interrupt_addr -> peek x s' = peek x s) /\
    forall Inv, platform_inv Ram (iar_addr CP) Inv -> Inv s -> Inv s'.
Proof.
  intros HI HIu. unfold ack_fiq. autounfold with arm_db.
  repeat istep Ram. do 2 eexists. split; [reflexivity|]. split_and!.
  - intros b n ? ? ?. reg_lookup; congruence.
  - rewrite storage_rd_ne by done. replace (add32 interrupt_addr 0) with interrupt_addr
      by (unfold add32; by rewrite Z.add_0_r, u32_small).
    rewrite storage_wr_eq by (done || apply u32_is_u32).
    by rewrite u32_small by apply peek_u32.
  - intros x Hx Hne. rewrite storage_rd_ne by done.
    replace (add32 interrupt_addr 0) with interrupt_addr
      by (unfold add32; by rewrite Z.add_0_r, u32_small).
    rewrite storage_wr_ne by (done || congruence). by apply storage_rd_ne.
  - intros Inv HV Hs. apply (inv_iar _ _ _ HV), (inv_store _ _ _ HV), (inv_iar _ _ _ HV), Hs.
    replace (add32 interrupt_addr 0) with interrupt_addr
      by (unfold add32; by rewrite Z.add_0_r, u32_small). done.
Qed.

(** The registers the handlers' calls may change. *)
Definition caller_saved (b : bank) (n : nat) : Prop :=
  (b = Usr /\ ((n < 4)%nat \/ n = 12%nat)) \/ (b = Mon /\ n = 14%nat).

Definition callee_kept (R R' : bank -> nat -> Z) : Prop :=
  forall b n, ~ caller_saved b n -> R' b n = R b n.

Lemma other_mode_kept R R' b n : callee_kept R R' -> other_mode b -> R' b n = R b n.
Proof. intros Hk Hb. apply Hk. unfold caller_saved. by destruct Hb as [->|[->|[->| ->]]]; intros [[]|[]]. Qed.

Lemma mon_sp_kept R R' : callee_kept R R' -> R' Mon 13%nat = R Mon 13%nat.
Proof. intros Hk. apply Hk. intros [[]|[]]; done. Qed.

Lemma callee_kept_trans R1 R2 R3 :
  callee_kept R1 R2 -> callee_kept R2 R3 -> callee_kept R1 R3.
Proof. intros H1 H2 b n Hn. by rewrite H2, H1. Qed.

Variable clobbered : nat -> cpu -> Z.

Lemma clobber_run {B} (f : unit -> M (machine S) B) R SP F SC CP PC s :
  exists R',
    (clobber clobbered ≫= f) (Machine (Cpu R SP MONITOR_MODE F SC CP PC) s) =
      f tt (Machine (Cpu R' SP MONITOR_MODE F SC CP PC) s) /\ callee_kept R R'.
Proof.
  eexists. split; [unfold clobber; by erewrite on_cpu_run|].
  cbn [fmap list_fmap rset_list]. intros b n Hn. unfold caller_saved in Hn.
  cbn [set_regs regs]. unfold rset. cbn [set_regs regs cmode reg_bank Nat.ltb Nat.leb mode_bank].
  reg_lookup; try done; exfalso; apply Hn; by auto with lia.
Qed.

Ltac run_clobber R1 HR1 :=
  match goal with
  | |- context [(clobber clobbered ≫= ?g) (Machine (Cpu ?r ?sp _ ?f ?sc ?cp ?pc) ?s)] =>
      let E := fresh in
      destruct (clobber_run g r sp f sc cp pc s) as (R1 & E & HR1); rewrite E; clear E
  end.

Variable fiq_handler : Z -> M S unit.
Variable interrupt_clear : Z -> Z -> M S unit.

Lemma handle_run {B} (f : unit -> M (machine S) B) R SP F SC CP PC s v (Inv : S -> Prop) :
  Ram interrupt_addr -> is_u32 interrupt_addr -> peek interrupt_addr s = v -> Inv s ->
  (forall s, Inv s -> exists s', fiq_handler v s = Ok tt s' /\ keeps Ram s s' /\ Inv s') ->
  (forall s, Inv s -> exists s', interrupt_clear v 0 s = Ok tt s' /\ keeps Ram s s' /\ Inv s') ->
  exists R' s',
    (handle_fiq clobbered interrupt_addr fiq_handler interrupt_clear ≫= f)
      (Machine (Cpu R SP MONITOR_MODE F SC CP PC) s) =
      f tt (Machine (Cpu R' SP MONITOR_MODE F SC CP PC) s') /\
    callee_kept R R' /\ keeps Ram s s' /\ Inv s'.
Proof.
  intros HI HIu Hv HV Hfiq Hclr. unfold handle_fiq, bl_fiq_handler, bl_interrupt_clear.
  destruct (Hfiq s HV) as (s1 & E1 & K1 & V1), (Hclr s1 V1) as (s2 & E2 & K2 & V2).
  assert (Hia : add32 interrupt_addr 0 = interrupt_addr)
    by (unfold add32; by rewrite Z.add_0_r, u32_small).
  autounfold with arm_db. repeat istep Ram.
  rewrite Hia, storage_rd, Hv, (on_mem_run _ _ _ _ _ _ E1) by done.
  run_clobber R1 HR1. repeat istep Ram.
  rewrite Hia, storage_rd, (K1 _ HI), Hv, (on_mem_run _ _ _ _ _ _ E2) by done.
  run_clobber R2 HR2.
  do 2 eexists. split; [reflexivity|]. split; [|split; [|done]].
  - eapply callee_kept_trans; [|exact HR2]. intros b n Hn. unfold caller_saved in Hn.
    reg_lookup; try (exfalso; apply Hn; by auto with lia).
    rewrite HR1 by done. reg_lookup; try done; exfalso; apply Hn; by auto with lia.
  - intros x Hx. by rewrite K2, K1.
Qed.
End fiq.

(** ** Memory layout

    [ctx] is the non-secure world's context, the 128 bytes from [sp] the
    monitor stack: 28 for the handlers, 100 for the secure world's frame. *)
Record layout (Ram : Z -> Prop) (ctx sp : Z) : Prop := {
  ctx_ram : ram_at Ram ctx 30;
  ctx_top : ctx + 120 < 2 ^ 32;
  stack_ram : ram_at Ram sp 32;
  stack_top : sp + 128 < 2 ^ 32;
  apart : ctx + 120 <= sp \/ sp + 128 <= ctx;
}.

Ltac open_layout Hl :=
  destruct Hl as [Rctx Hctx2 Rstk Hstk2 Hap];
  destruct (id Rctx) as (? & ? & _), (id Rstk) as (? & ? & _).

Ltac head_assoc :=
  repeat match goal with
  | |- context [((?m ≫= ?f) ≫= ?g) (Machine ?c ?s)] => rewrite (bind_assoc m f g (Machine c s))
  end.
Ltac with_run k :=
  head_assoc;
  match goal with
  | |- context [(_ ≫= ?f) (Machine (Cpu ?R ?SP _ ?F ?SC ?CP ?PC) ?s)] => k f R SP F SC CP PC s
  end.

Section switches.
Context {S : Type} `{Bus S}.
Variable sys_spsr : cpu -> Z.
Variable Ram : Z -> Prop.
Context `{!Storage S Ram}.

Lemma core_words_eq sys R1 R2 SP F1 F2 SC1 SC2 CP PC1 PC2 m1 m2 :
  (forall b n, R1 b n = R2 b n) ->
  core_words sys (Cpu R1 SP m1 F1 SC1 CP PC1) = core_words sys (Cpu R2 SP m2 F2 SC2 CP PC2).
Proof. intros Hb. unfold core_words. cbn [fmap list_fmap app regs spsr]. by rewrite !Hb. Qed.

Lemma core_words_nth sys c W k :
  core_words sys c = W -> nth k W 0 = nth k (core_words sys c) 0.
Proof. by intros ->. Qed.

Lemma r0_stacked_id R R' : r0_stacked R R' -> is_u32 (R Usr 0%nat) -> forall b n, R' b n = R b n.
Proof.
  intros [H0 Hne] Hu b n. destruct (decide ((b, n) = (Usr, 0%nat))) as [[= -> ->]|]; [|by apply Hne].
  by rewrite H0, u32_small.
Qed.

Lemma peek_words_is_u32 a n k (s : S) : is_u32 (nth k (peek_words a n s) 0).
Proof.
  destruct (decide (k < n)%nat).
  - erewrite nth_lookup_Some; [apply peek_u32|]. by apply peek_words_lookup.
  - rewrite nth_overflow by (rewrite length_peek_words; lia). by unfold is_u32.
Qed.

Lemma mon_scheduler_run R SP F SC CP PC s ctx sp W md :
  layout Ram ctx sp -> R Mon 13%nat = sp + 128 ->
  CP (Z.testbit SC 0) TPIDRPRW = ctx -> peek_words ctx 30 s = W ->
  decode_mode (nth 13 W 0) = Some md ->
  exists R' SP' s',
    let c' := Cpu R' SP' md (Z.land (nth 13 W 0) 0xFFFFFFE0) (scr_to_ns SC) CP (nth 14 W 0) in
    mon_scheduler sys_spsr (Machine (Cpu R SP MONITOR_MODE F SC CP PC) s) = Ok tt (Machine c' s') /\
    core_words (nth 18 W 0) c' = W /\
    R' Mon 13%nat = sp + 28 /\ (forall n, R' Fiq n = R Fiq n) /\ SP' Fiq = SP Fiq /\
    peek_words (sp + 28) 25 s' = u32 <$> frame_words (Cpu R SP MONITOR_MODE F SC CP PC) /\
    (forall x, Ram x -> x < sp \/ sp + 128 <= x -> peek x s' = peek x s) /\
    forall Inv, stores_keep Ram Inv -> Inv s -> Inv s'.
Proof.
  intros Hl Hsp Hctx HW Hmd. open_layout Hl. cbv zeta.
  rewrite <- (bind_ret_r (mon_scheduler sys_spsr)). unfold mon_scheduler.
  with_run ltac:(fun f R SP F SC CP PC s =>
    destruct (push_frame_run sys_spsr Ram f R SP F SC CP PC s (sp + 28))
      as (R1 & s1 & E1 & Hsp1 & Hb1 & B1 & V1); [lia|ram|lia|rewrite E1; clear E1]).
  assert (HW1 : peek_words ctx 30 s1 = W)
    by (rewrite <- HW; apply (block_written_words Ram _ _ _ _ _ _ B1); [ram|cbn; lia]).
  unfold GET_NS_WORLD_CONTEXT, ASM_ARCH_REGS_OFFSET. autounfold with arm_db.
  repeat istep Ram. unfold ns_bit. cbn [scr]. rewrite Hctx. norm_addr.
  with_run ltac:(fun f R SP F SC CP PC s =>
    destruct (restore_run Ram f R SP F SC CP PC s ctx (sp + 20) W)
      as (R2 & SP2 & E2 & Hcore & Hsp2 & Hfiq & Hspf);
      [done|rewrite !upd_reg_ne by done; lia|ram|ram|lia|lia|done|rewrite E2; clear E2]).
  with_run ltac:(fun f R SP F SC CP PC s =>
    destruct (SCR_NS_SET_run Ram f R SP F SC CP PC s (sp + 24))
      as (R3 & E3 & HR3); [lia|ram|lia|rewrite E3; clear E3]).
  repeat istep Ram.
  assert (HWu : forall k, is_u32 (nth k W 0)) by (intros k; rewrite <- HW; apply peek_words_is_u32).
  pose proof (core_words_nth _ _ _ 0 Hcore) as HW0. cbn in HW0.
  pose proof (core_words_nth _ _ _ 13 Hcore) as HW13. cbn in HW13.
  pose proof (core_words_nth _ _ _ 14 Hcore) as HW14. cbn in HW14.
  assert (HR : forall b n, R3 b n = R2 b n) by (apply r0_stacked_id; [done|rewrite <- HW0; apply HWu]).
  rewrite (eret_run _ mret _ _ (nth 13 W 0) md) by (first [exact Hmd | symmetry; exact HW13]).
  assert (Hlen : length (take 2 W) = 2%nat)
    by (by rewrite <- HW, length_take, length_peek_words).
  exists R3, SP2. eexists. split; [rewrite HR, <- HW14; reflexivity|].
  split_and!.
  - etransitivity; [apply core_words_eq, HR|exact Hcore].
  - rewrite HR, Hsp2. lia.
  - intros n. rewrite HR, Hfiq, !upd_reg_ne by done. by apply Hb1.
  - done.
  - destruct B1 as [B1 _]. cbn [length frame_words] in B1. rewrite <- B1.
    rewrite !(peek_words_store_out Ram); rewrite ?Hlen; cbn [length];
      first [done | ram | lia].
  - intros x Hx Ho.
    rewrite !(peek_store_words_out Ram) by (rewrite ?Hlen; cbn; done || lia).
    destruct B1 as [_ B1]. apply B1; [done|cbn; lia].
  - intros Inv HI Hs.
    apply (store_words_keep Ram Inv _ _ _ HI); [cbn; ram|].
    apply (store_words_keep Ram Inv _ _ _ HI); [rewrite Hlen; ram|by apply V1].
Qed.
End switches.

Section fiq_switch.
Context {S : Type} `{Bus S}.
Variable sys_spsr : cpu -> Z.
Variable clobbered : nat -> cpu -> Z.
Variable interrupt_addr : Z.
Variable fiq_handler : Z -> M S unit.
Variable interrupt_clear : Z -> Z -> M S unit.
Variable Ram : Z -> Prop.
Context `{!Storage S Ram}.
Variable iar : Z.
Variable Inv : S -> Prop.

Variable irq_ok : Z -> Prop.

(** What the switch needs of the C functions: on an interrupt the controller
    delivers they return and leave memory alone. *)
Record handlers_ok : Prop := {
  inv_ok : platform_inv Ram iar Inv;
  iar_ok : forall s, Inv s -> irq_ok (peek iar s);
  fiq_handler_ok : forall v s, irq_ok v -> Inv s ->
    exists s', fiq_handler v s = Ok tt s' /\ keeps Ram s s' /\ Inv s';
  interrupt_clear_ok : forall v s, irq_ok v -> Inv s ->
    exists s', interrupt_clear v 0 s = Ok tt s' /\ keeps Ram s s' /\ Inv s';
}.
Record interrupt_var (ctx sp : Z) : Prop := {
  ia_ram : Ram interrupt_addr;
  ia_u32 : is_u32 interrupt_addr;
  ia_stack : interrupt_addr < sp \/ sp + 128 <= interrupt_addr;
  ia_ctx : interrupt_addr < ctx \/ ctx + 120 <= interrupt_addr;
}.

Lemma scr_to_s_ns v : Z.testbit (scr_to_s v) 0 = false.
Proof.
  unfold scr_to_s, bic32. autorewrite with bits_db.
  by destruct (Z.testbit v 0).
Qed.

Lemma keeps_except_words ia a n (s s' : S) :
  (forall x, Ram x -> x <> ia -> peek x s' = peek x s) ->
  ram_at Ram a (Z.of_nat n) -> ia < a \/ a + 4 * Z.of_nat n <= ia ->
  peek_words a n s' = peek_words a n s.
Proof.
  intros Hk (_ & _ & Hr) Ho. apply list_eq. intros i. destruct (decide (i < n)%nat).
  - rewrite !peek_words_lookup by done. f_equal. apply Hk; [apply Hr|]; lia.
  - by rewrite !lookup_ge_None_2 by (rewrite length_peek_words; lia).
Qed.

Lemma mon_fiq_handler_run R SP F SC CP PC s ctx sp W md :
  layout Ram ctx sp -> interrupt_var ctx sp -> handlers_ok -> iar_addr CP = iar -> Inv s ->
  R Mon 13%nat = sp + 28 -> CP false TPIDRPRW = ctx ->
  peek_words (sp + 28) 25 s = W ->
  decode_mode (spsr_fc (SP Mon) (nth 8 W 0)) = Some md ->
  exists R' SP' s' sys,
    mon_fiq_handler sys_spsr clobbered interrupt_addr fiq_handler interrupt_clear
        (Machine (Cpu R SP MONITOR_MODE F SC CP PC) s) =
      Ok tt (Machine (Cpu R' SP' md (Z.land (spsr_fc (SP Mon) (nth 8 W 0)) 0xFFFFFFE0)
                        (scr_to_s SC) CP (nth 9 W 0)) s') /\
    (R' Mon 13%nat = sp + 128 /\
     (forall n, (n < 15)%nat -> R' Usr n = nth (10 + n) W 0) /\
     (forall n, (8 <= n <= 13)%nat -> R' Fiq n = nth (n - 6) W 0) /\ R' Fiq 14%nat = nth 1 W 0 /\
     SP' Fiq = spsr_fc (SP Fiq) (nth 0 W 0)) /\
    (forall b n, other_mode b -> R' b n = R b n /\ SP' b = SP b) /\
    peek_words ctx 30 s' =
      u32 <$> core_words sys (Cpu (upd_reg Mon 14 (sub32 (R Mon 14%nat) 4) R) SP
                                MONITOR_MODE F SC CP PC) /\
    Inv s'.
Proof.
  intros Hl [HI HIu HIs HIc] [HV Hirq Hfiq Hclr] <- Hs Hsp Hctx HW Hmd. open_layout Hl.
  rewrite <- (bind_ret_r (mon_fiq_handler _ _ _ _ _)). unfold mon_fiq_handler.
  with_run ltac:(fun f r sp' fl sc cp pc' m =>
    destruct (fiq_entry_run Ram f r sp' fl sc cp pc' m (sp + 4))
      as (R1 & s1 & E1 & Hsp1 & HR1 & B1 & V1); [lia|ram|lia|rewrite E1; clear E1]);
  specialize (V1 _ _ HV Hs).
  with_run ltac:(fun f r sp' fl sc cp pc' m =>
    destruct (ack_run Ram interrupt_addr f r sp' fl sc cp pc' m)
      as (R2 & s2 & E2 & HR2 & Hv & K2 & V2); [done|done|rewrite E2; clear E2]);
  specialize (V2 _ HV V1).
  with_run ltac:(fun f r sp' fl sc cp pc' m =>
    destruct (SCR_NS_CLEAR_run Ram f r sp' fl sc cp pc' m sp)
      as (R3 & E3 & HR3); [rewrite HR2, Hsp1 by done; lia|ram|lia|rewrite E3; clear E3]).
  unfold GET_NS_WORLD_CONTEXT, ASM_ARCH_REGS_OFFSET. autounfold with arm_db.
  repeat istep Ram. unfold ns_bit. cbn [scr]. rewrite scr_to_s_ns, Hctx. norm_addr.
  set (V := (fun n => R Usr n) <$> [0; 1; 2; 3; 4]%nat) in *.
  assert (HPV : peek_words (sp + 4) 6 (store_words sp [R2 Usr 0%nat] s2) =
               u32 <$> (V ++ [sub32 (R Mon 14%nat) 4])).
  { rewrite (peek_words_store_out Ram) by (cbn [length]; first [ram | lia]).
    rewrite (keeps_except_words interrupt_addr _ _ s1 s2) by (done || ram || lia). apply B1. }
  with_run ltac:(fun f r sp' fl sc cp pc' m =>
    destruct (save_run sys_spsr Ram f r sp' fl sc cp pc' m ctx (sp + 4)
                (u32 <$> V ++ [sub32 (R Mon 14%nat) 4]))
      as (R4 & sys & E4 & Hsp4 & Hfiq4 & Husr4 & Hbank4);
      [done|rewrite !upd_reg_ne by done; rewrite (proj2 HR3), HR2 by done; done
      |ram|ram|lia|lia|lia|exact HPV|rewrite E4; clear E4]).
  match goal with |- context [store_words ctx ?l (store_words sp ?l' s2)] =>
    set (CW := l) in *; set (s4 := store_words ctx CW (store_words sp l' s2)) end.
  assert (HCW : length CW = 30%nat) by done.
  assert (Hv4 : peek interrupt_addr s4 = peek (iar_addr CP) s1).
  { subst s4. rewrite !(peek_store_words_out Ram) by (rewrite ?HCW; cbn [length]; done || lia).
    exact Hv. }
  assert (V4 : Inv s4).
  { apply (inv_store_words Ram _ _ _ _ _ HV); [rewrite HCW; ram|].
    apply (inv_store_words Ram _ _ _ _ _ HV); [cbn; ram|done]. }
  with_run ltac:(fun f r sp' fl sc cp pc' m =>
    destruct (handle_run Ram interrupt_addr clobbered fiq_handler interrupt_clear
                f r sp' fl sc cp pc' m (peek (iar_addr CP) s1) Inv)
      as (R5 & s5 & E5 & HR5 & K5 & V5);
      [done|done|exact Hv4|exact V4|intros; apply Hfiq; auto
      |intros; apply Hclr; auto|rewrite E5; clear E5]).
  assert (HW5 : peek_words (sp + 28) 25 s5 = W).
  { rewrite (keeps_words Ram _ _ _ _ K5) by ram. subst s4.
    rewrite !(peek_words_store_out Ram) by
      (rewrite ?HCW; cbn [length]; first [done | ram | lia]).
    rewrite (keeps_except_words interrupt_addr _ _ s1 s2) by (done || ram || lia).
    rewrite <- HW. apply (block_written_words Ram _ _ _ _ _ _ B1); [ram|cbn; lia]. }
  with_run ltac:(fun f r sp' fl sc cp pc' m =>
    destruct (pop_frame_run Ram f r sp' fl sc cp pc' m (sp + 28) W md)
      as (R6 & SP6 & E6 & Hsp6 & Husr6 & Hfiq6 & Hlr6 & Hsf6 & Hb6);
      [rewrite (mon_sp_kept _ _ HR5); lia
      |ram|lia|done|done|rewrite E6; clear E6]).
  exists R6, SP6, s5, sys. split; [reflexivity|]. split; [split_and!; try done; lia|].
  assert (H23 : forall b n, b <> Usr -> R3 b n = R2 b n) by (intros; apply HR3; congruence).
  assert (Hother : forall b n, other_mode b -> upd_reg Usr 0 ctx (upd_reg Usr 0 ctx R3) b n = R b n).
  { intros b n Hb. assert (b <> Usr /\ b <> Mon) as [? ?] by (by destruct Hb as [->|[->|[->| ->]]]).
    by rewrite !upd_reg_ne, H23, HR2, HR1 by congruence. }
  split; [|split; [|done]].
  - intros b n Hb. destruct (Hb6 b n Hb) as [-> ->]. split; [|done].
    rewrite (other_mode_kept _ _ _ _ HR5) by done. rewrite <- (Hother b n Hb).
    destruct (Hbank4 n) as (? & ? & ? & ?). by destruct Hb as [->|[->|[->| ->]]].
  - rewrite (keeps_words Ram _ _ _ _ K5) by ram. subst s4.
    rewrite <- HCW, (peek_words_store_in Ram) by (rewrite HCW; ram).
    apply core_words_ext; [|by cbn; rewrite u32_idem|].
    + intros n Hn. rewrite (upd_reg_ne Mon 14) by done. unfold with_stacked.
      destruct (Nat.ltb_spec n 5) as [Hn5|Hn5].
      * subst V. do 5 (destruct n as [|n]; [by cbn; rewrite u32_idem|]). lia.
      * rewrite !upd_reg_ne by (intros [= <-]; lia).
        rewrite (proj2 HR3), HR2, HR1 by (intros [= ->]; lia). done.
    + intros b n Hb. rewrite (upd_reg_ne Mon 14) by (by destruct Hb as [->|[->|[->| ->]]]).
      rewrite <- (Hother b n Hb). by destruct Hb as [->|[->|[->| ->]]].
Qed.
End fiq_switch.
