(* ===== verification/Handlers.v ===== *)
(** * The monitor's C handlers on the zedboard

    [mon_fiq_handler] calls [fiq_handler] and [interrupt_clear] of
    [drivers/gic.c].  For every interrupt the controller can deliver they
    return, and they touch device registers only: the memory that holds the
    worlds' contexts is theirs to keep ([handlers_ok] of [WorldSwitch.v]). *)
From S2P Require Import Prelude Bus Ttc Spi Gic Arm Monitor WorldSwitch.

Local Open Scope Z_scope.

(** What a device of the board promises: the addresses [Ram] are memory and
    below the devices, and the acknowledge register answers with the number of
    an implemented interrupt, whatever else is read and written. *)
Record board_device {B} `{Bus B} (Ram : Z -> Prop) (iar : Z) (D : B -> Prop) : Prop := {
  bd_storage : Storage B Ram;
  bd_low : forall a, Ram a -> a < 0xE0000000;
  bd_iar : 0xF8F00100 <= iar < 0xF8F00110;
  bd_write : forall a v d, a <> iar -> D d -> D (bus_wr a v d);
  bd_read : forall a d, D d -> D (after_rd a d);
  bd_irq : forall d, D d -> 0 <= peek iar d < 96;
}.

Section stays.
Context {B : Type} `{Bus B}.
Variable Ram : Z -> Prop.
Variable iar : Z.
Variable D : B -> Prop.
Hypothesis HB : board_device Ram iar D.

(** The operation returns, keeps the device's promise and leaves memory alone. *)
Definition stays {A} (m : M (spi_world B) A) : Prop :=
  forall w, D (dev w) ->
    exists a w', m w = Ok a w' /\ D (dev w') /\ keeps Ram w w'.

Lemma stays_bind {A C} (m : M (spi_world B) A) (f : A -> M (spi_world B) C) :
  stays m -> (forall a, stays (f a)) -> stays (m ≫= f).
Proof.
  intros Hm Hf w Hw. destruct (Hm w Hw) as (a & w1 & E1 & H1 & K1).
  destruct (Hf a w1 H1) as (c & w2 & E2 & H2 & K2).
  exists c, w2. split_and!; [by rewrite (bind_ok _ _ _ _ _ E1)|done|].
  intros x Hx. by rewrite K2, K1.
Qed.

Lemma stays_ret {A} (a : A) : stays (mret a).
Proof. intros w Hw. by exists a, w. Qed.

Lemma stays_when c (m : M (spi_world B) unit) : stays m -> stays (when c m).
Proof. intros. destruct c; [done|apply stays_ret]. Qed.

Lemma stays_for lo n (body : Z -> M (spi_world B) unit) :
  (forall i, stays (body i)) -> stays (for_range lo n body).
Proof.
  intros Hb. revert lo. induction n as [|n IH]; intros lo; cbn; [apply stays_ret|].
  by apply stays_bind.
Qed.

Lemma stays_read a : stays (read32 a).
Proof.
  intros w Hw. rewrite read32_run. do 2 eexists. split; [done|].
  rewrite spi_world_after_rd. split; [by apply (bd_read _ _ _ HB)|].
  intros x Hx. rewrite !spi_world_peek. cbn. by apply (bd_storage _ _ _ HB).
Qed.

Lemma stays_write a v : a <> iar -> 0xE0000000 <= a -> stays (write32 a v).
Proof.
  intros Ha Hd w Hw. rewrite write32_run. do 2 eexists. split; [done|].
  split; [by apply (bd_write _ _ _ HB)|].
  intros x Hx. rewrite !spi_world_peek. cbn. apply (bd_storage _ _ _ HB); [done|].
  apply (bd_low _ _ _ HB) in Hx. lia.
Qed.

Lemma stays_modify (g : spi_world B -> spi_world B) :
  (forall w, dev (g w) = dev w) -> stays (modify g).
Proof.
  intros Hg w Hw. exists tt, (g w). split; [done|]. rewrite Hg. split; [done|].
  intros x _. by rewrite !spi_world_peek, Hg.
Qed.

Lemma stays_get {A} (f : spi_world B -> M (spi_world B) A) :
  (forall w, stays (f w)) -> stays (get ≫= f).
Proof. intros Hf w Hw. rewrite bind_get. by apply Hf. Qed.

Lemma spi_not_iar r : spi_addr r <> iar /\ 0xE0000000 <= spi_addr r.
Proof.
  pose proof (bd_iar _ _ _ HB). unfold spi_addr, SPI1_BASE_ADDR. destruct r; lia.
Qed.

Lemma stays_ld_spi r : stays (ld (spi_at r)).
Proof. rewrite spi_at_eq. apply stays_read. Qed.

Lemma stays_st_spi r v : stays (st (spi_at r) v).
Proof. rewrite spi_at_eq. apply stays_write; apply spi_not_iar. Qed.

Lemma stays_or_spi r v : stays (st_or (spi_at r) v).
Proof.
  rewrite spi_at_eq. cbn [st_or]. rewrite or32_eq.
  apply stays_bind; [apply stays_read|]. intros. apply stays_write; apply spi_not_iar.
Qed.

Lemma stays_rx_entry : stays rx_entry.
Proof.
  unfold rx_entry. apply stays_bind; [apply stays_ld_spi|]. intros read.
  apply stays_get. intros w. cbn zeta. apply stays_when, stays_bind;
    [unfold set_byte|intros _; unfold set_head]; by apply stays_modify.
Qed.

Lemma stays_spi_irq irq : stays (SPI_1_irq_handler irq).
Proof.
  unfold SPI_1_irq_handler, clear_status.
  repeat match goal with
  | |- stays rx_entry => apply stays_rx_entry
  | |- stays (for_range _ _ _) => apply stays_for; intros ?
  | |- stays (when _ _) => apply stays_when
  | |- stays (ld _) => apply stays_ld_spi
  | |- stays (st _ _) => apply stays_st_spi
  | |- stays (st_or _ _) => apply stays_or_spi
  | |- stays (_ ≫= _) => apply stays_bind; [|intros ?]
  end.
Qed.

Lemma stays_fiq_handler cfg irq : 0 <= irq < 96 -> stays (fiq_handler cfg irq).
Proof.
  intros Hi. unfold fiq_handler, ttc_interrupt_clear. rewrite fiq_handlers_lookup by done.
  destruct (ttc_of_interrupt irq) as [[t k]|] eqn:E.
  - apply ttc_of_interrupt_range in E as [Ht Hk]. rewrite ttc_at_eq by done.
    repeat first [apply stays_bind; [|intros ?] | apply stays_ret | apply stays_read].
  - destruct (irq =? SPI_1_INTERRUPT); [apply stays_spi_irq|apply stays_ret].
Qed.

Lemma stays_interrupt_clear irq target : stays (interrupt_clear irq target).
Proof.
  unfold interrupt_clear. rewrite cpu_inter_eq.
  pose proof (bd_iar _ _ _ HB).
  apply stays_write; unfold cpu_addr, MPIC_BASE; cbn; lia.
Qed.

(** The handlers keep the promise the world switch needs. *)
Lemma gic_handlers_ok cfg :
  handlers_ok (fiq_handler cfg) interrupt_clear Ram iar (fun w => D (dev w))
    (fun irq => 0 <= irq < 96).
Proof.
  constructor.
  - constructor.
    + intros a v w Ha Hw. apply (bd_write _ _ _ HB); [|done].
      apply (bd_low _ _ _ HB) in Ha. pose proof (bd_iar _ _ _ HB). lia.
    + intros w Hw. rewrite spi_world_after_rd. by apply (bd_read _ _ _ HB).
  - intros w Hw. rewrite spi_world_peek. by apply (bd_irq _ _ _ HB).
  - intros irq w Hi Hw. destruct (stays_fiq_handler cfg irq Hi w Hw) as ([] & w' & ? & ? & ?).
    by exists w'.
  - intros irq w Hi Hw. destruct (stays_interrupt_clear irq 0 w Hw) as ([] & w' & ? & ? & ?).
    by exists w'.
Qed.
End stays.

(** Memory below 1 MB and an interrupt waiting satisfy all of this. *)
Definition demo_ram (a : Z) : Prop := 0 <= a < 0x100000.
Definition demo_iar : Z := 0xF8F0010C.
Definition demo_irq (d : regfile) : Prop := 0 <= peek demo_iar d < 96.

Lemma demo_device : board_device demo_ram demo_iar demo_irq.
Proof.
  constructor; [apply _|unfold demo_ram, demo_iar, demo_irq..].
  - lia.
  - lia.
  - intros a v d Ha Hd. unfold peek in *. cbn. by rewrite lookup_insert_ne by done.
  - done.
  - done.
Qed.
