(* ===== verification/Worlds.v ===== *)
(** * What the two worlds can rely on

    The properties of the world switch: the non-secure world is resumed
    exactly where it was interrupted; the secure world gets its frame back;
    and what the switch does not protect. *)
From S2P Require Import Prelude Bus Ttc Spi Gic Arm Monitor WorldSwitch Handlers.

Local Open Scope Z_scope.

(** A processor state whose registers are words and whose CPSR has the mode in
    its low five bits only. *)
Record cpu_ok (c : cpu) : Prop := {
  ok_regs : forall b n, is_u32 (regs c b n);
  ok_spsr : forall b, is_u32 (spsr c b);
  ok_flags : is_u32 (cflags c);
  ok_low : forall i, 0 <= i < 5 -> Z.testbit (cflags c) i = false;
  ok_pc : is_u32 (pc c);
}.

(** Two states that the software of one world cannot tell apart: the User
    registers, the banked registers of SVC, ABT, UND and IRQ, CPSR and PC. *)
Definition same_world (c c' : cpu) : Prop :=
  (forall n, (n < 15)%nat -> regs c' Usr n = regs c Usr n) /\
  (forall b, other_mode b ->
     regs c' b 13%nat = regs c b 13%nat /\ regs c' b 14%nat = regs c b 14%nat /\
     spsr c' b = spsr c b) /\
  cmode c' = cmode c /\ cflags c' = cflags c /\ pc c' = pc c.

(** The state in which the monitor's handlers start. *)
Definition in_monitor (c : cpu) : cpu :=
  let c1 := set_spsr (upd_spsr Mon (cpsr c) (spsr c)) c in
  let c2 := set_mode MONITOR_MODE (set_flags (Z.lor (bic32 (cflags c1) 0x0700FE20) 0x1C0) c1) in
  rset 14 (add32 (pc c) 4) c2.

Lemma enter_monitor_run {S} `{Bus S} c (s : S) :
  enter_monitor 4 (Machine c s) = Ok tt (Machine (in_monitor c) s).
Proof. done. Qed.

(** *** CPSR *)
Lemma mode_bits_small m : 0 <= mode_bits m < 32.
Proof. by destruct m. Qed.

Lemma cpsr_parts c :
  cpu_ok c -> decode_mode (cpsr c) = Some (cmode c) /\ Z.land (cpsr c) 0xFFFFFFE0 = cflags c.
Proof.
  intros [_ _ Hf Hl _]. unfold cpsr.
  assert (E1 : Z.land (Z.lor (cflags c) (mode_bits (cmode c))) 0x1F = mode_bits (cmode c)).
  { change 0x1F with (Z.ones 5). rewrite Z.land_lor_distr_l.
    assert (Z.land (cflags c) (Z.ones 5) = 0) as ->.
    { apply Z.bits_inj'. intros i Hi. rewrite Z.land_spec, ones_testbit, Z.testbit_0_l by lia.
      destruct (Z.ltb_spec i 5); [by rewrite Hl by lia|apply andb_false_r]. }
    rewrite Z.lor_0_l, Z.land_ones by lia. apply Z.mod_small, mode_bits_small. }
  split.
  - unfold decode_mode. rewrite E1. by destruct (cmode c).
  - change 0xFFFFFFE0 with (Z.shiftl (Z.ones 27) 5). apply Z.bits_inj'. intros i Hi.
    rewrite Z.land_spec, Z.lor_spec, Z.shiftl_spec by done.
    assert (Hm : 5 <= i -> Z.testbit (mode_bits (cmode c)) i = false).
    { intros. rewrite <- (Z.mod_small (mode_bits (cmode c)) (2 ^ 5)) by apply mode_bits_small.
      apply Z.mod_pow2_bits_high. lia. }
    destruct (Z.ltb_spec i 5).
    + rewrite Hl, (Z.testbit_neg_r _ (i - 5)) by lia. by rewrite andb_false_r.
    + rewrite Hm, orb_false_r, ones_testbit by lia.
      destruct (Z.ltb_spec (i - 5) 27); [by rewrite andb_true_r|].
      by rewrite u32_testbit_high by (done || lia).
Qed.

Lemma cpsr_u32 c : cpu_ok c -> is_u32 (cpsr c).
Proof.
  intros Hc. unfold cpsr. apply is_u32_lor; [apply Hc|].
  pose proof (mode_bits_small (cmode c)). unfold is_u32. lia.
Qed.

Lemma pc_through_lr p : is_u32 p -> sub32 (add32 p 4) 4 = p.
Proof.
  unfold is_u32, sub32, add32, u32. intros. rewrite Zminus_mod_idemp_l.
  replace (p + 4 - 4) with p by lia. by apply Z.mod_small.
Qed.

Lemma in_monitor_eq c :
  in_monitor c =
  Cpu (upd_reg Mon 14 (add32 (pc c) 4) (regs c)) (upd_spsr Mon (cpsr c) (spsr c)) MONITOR_MODE
    (Z.lor (bic32 (cflags c) 0x0700FE20) 0x1C0) (scr c) (cp15 c) (pc c).
Proof. done. Qed.

(** The words of a context of a stopped world are those of its registers. *)
Definition stopped (c : cpu) : cpu :=
  Cpu (upd_reg Mon 14 (pc c) (regs c)) (upd_spsr Mon (cpsr c) (spsr c)) MONITOR_MODE
    (cflags c) (scr c) (cp15 c) (pc c).

Lemma core_words_stopped sys c :
  cpu_ok c -> u32 <$> core_words sys (stopped c) = core_words (u32 sys) (stopped c).
Proof.
  intros Hc. unfold core_words, stopped.
  cbv beta iota delta [fmap list_fmap app regs spsr upd_reg upd_spsr bank_eqb Nat.eqb andb].
  generalize (u32 sys). intros sys'.
  rewrite !u32_small by (apply Hc || by apply cpsr_u32). done.
Qed.

(** Restoring the context of a stopped world gives a state the world cannot
    tell from the one it was stopped in. *)
Lemma context_same_world sys sys' c c' md s p :
  cpu_ok c -> core_words sys' c' = core_words sys (stopped c) ->
  c' = Cpu (regs c') (spsr c') md (Z.land (nth 13 (core_words sys (stopped c)) 0) 0xFFFFFFE0) s p
         (nth 14 (core_words sys (stopped c)) 0) ->
  decode_mode (nth 13 (core_words sys (stopped c)) 0) = Some md ->
  same_world c c'.
Proof.
  intros Hc Hw Hc' Hmd. destruct (cpsr_parts c Hc) as [Hd Hf].
  change (decode_mode (cpsr c) = Some md) in Hmd. rewrite Hd in Hmd. injection Hmd as Hmd.
  unfold core_words, stopped in Hw.
  cbv beta iota delta [fmap list_fmap app regs spsr upd_reg upd_spsr bank_eqb Nat.eqb andb] in Hw.
  injection Hw as Hw. split_and!.
  - intros n Hn. do 15 (destruct n as [|n]; [done|]). lia.
  - intros b [->|[->|[->| ->]]]; done.
  - by rewrite Hc'.
  - rewrite Hc', <- Hf. done.
  - by rewrite Hc'.
Qed.

Lemma scr_to_ns_ns v : Z.testbit (scr_to_ns v) 0 = true.
Proof. unfold scr_to_ns, bic32. autorewrite with bits_db. by destruct (Z.testbit v 0). Qed.

(** The fields [msr spsr, rX] writes and those it leaves alone. *)
Lemma spsr_fc_fields old v :
  is_u32 old -> is_u32 v ->
  Z.land (spsr_fc old v) 0xFF0000FF = Z.land v 0xFF0000FF /\
  Z.land (spsr_fc old v) 0x00FFFF00 = Z.land old 0x00FFFF00.
Proof.
  intros Ho Hv. unfold spsr_fc, bic32. rewrite !Z.land_lor_distr_l, <- !Z.land_assoc.
  change (Z.land (not32 0xFF0000FF) 0xFF0000FF) with 0.
  change (Z.land 0xFF0000FF 0xFF0000FF) with 0xFF0000FF.
  change (Z.land (not32 0xFF0000FF) 0x00FFFF00) with 0x00FFFF00.
  change (Z.land 0xFF0000FF 0x00FFFF00) with 0.
  by rewrite !Z.land_0_r, Z.lor_0_l, Z.lor_0_r.
Qed.

Lemma decode_mode_land v m : Z.land m 0x1F = 0x1F -> decode_mode (Z.land v m) = decode_mode v.
Proof. intros Hm. unfold decode_mode. by rewrite <- Z.land_assoc, Hm. Qed.

Lemma spsr_fc_mode old v :
  is_u32 old -> is_u32 v -> decode_mode (spsr_fc old v) = decode_mode v.
Proof.
  intros Ho Hv. destruct (spsr_fc_fields old v Ho Hv) as [Hf _].
  by rewrite <- (decode_mode_land _ 0xFF0000FF), Hf, decode_mode_land.
Qed.

(** *** A call of the board's handler *)
Section board.
Context {S : Type} `{Bus S}.
Variable sys_spsr : cpu -> Z.
Variable clobbered : nat -> cpu -> Z.
Variable board_handler : Z -> Z -> Z -> Z -> M S Z.
Variable Ram : Z -> Prop.
Context `{!Storage S Ram}.

(** The words on the monitor stack that a board call needs back. *)
Definition in_block (stk x : Z) : Prop := Ram x /\ stk <= x < stk + 56.

Lemma board_smc_run R SP F SC CP PC s stk md :
  (forall b n, is_u32 (R b n)) -> is_u32 (SP Mon) -> decode_mode (SP Mon) = Some md ->
  ram_at Ram stk 14 -> stk + 56 < 2 ^ 32 -> R Mon 13%nat = stk + 56 ->
  (forall s1, exists v s', board_handler (R Usr 0%nat) (R Usr 1%nat) (R Usr 2%nat) (R Usr 3%nat) s1 =
     Ok v s' /\ keeps (in_block stk) s1 s') ->
  exists R' SP' s1 s2 s' v,
    board_smc sys_spsr clobbered board_handler (Machine (Cpu R SP MONITOR_MODE F SC CP PC) s) =
      Ok tt (Machine (Cpu R' SP' md (Z.land (SP Mon) 0xFFFFFFE0) SC CP (R Mon 14%nat)) s') /\
    (forall x, Ram x -> x < stk \/ stk + 56 <= x -> peek x s1 = peek x s) /\
    board_handler (R Usr 0%nat) (R Usr 1%nat) (R Usr 2%nat) (R Usr 3%nat) s1 = Ok v s2 /\
    (forall x, Ram x -> x < stk \/ stk + 56 <= x -> peek x s' = peek x s2) /\
    R' Usr 0%nat = v /\ (forall n, (1 <= n < 15)%nat -> R' Usr n = R Usr n) /\
    R' Mon 13%nat = stk + 56 /\
    (forall b n, b <> Usr -> b <> Mon -> R' b n = R b n) /\ (forall b, b <> Mon -> SP' b = SP b).
Proof.
  intros Hu Hspsr Hmd Rstk Htop Hsp Hb.
  rewrite <- (bind_ret_r (board_smc _ _ _)).
  unfold board_smc, call_c_function_arg, exception_return_arg, bl_board_handler.
  autounfold with arm_db. cbn [length].
  destruct (id Rstk) as (? & ? & _).
  repeat (istep Ram; rewrite ?Hsp; norm_addr).
  match goal with |- context [on_mem (board_handler _ _ _ _) ≫= _] => idtac end.
  match goal with |- context [Machine _ (store_words stk ?l (store_words (stk + 4) ?l' s))] =>
    set (W := l ++ l'); set (s1 := store_words stk l (store_words (stk + 4) l' s));
    assert (B1 : block_written Ram stk W s s1)
      by (apply (block_written_below Ram stk _ _ (stk + 4));
          [apply block_store; [done|cbn; ram]|cbn; lia|cbn; ram])
  end.
  destruct (Hb s1) as (v & s2 & E & K). rewrite (on_mem_run _ _ _ _ _ _ E).
  assert (HW : peek_words stk 14 s2 = W).
  { rewrite (keeps_words (in_block stk) _ _ _ _ K) by
      (split_and!; [lia|lia|intros i Hi; split; [by apply (ram_at_word Ram stk 14)|lia]]). destruct B1 as [B1 _].
    cbn [length W app] in B1. rewrite B1. unfold W. cbn [app fmap list_fmap].
    by rewrite !u32_small by done. }
  head_assoc. with_run ltac:(fun f r sp' fl sc cp pc' m =>
    destruct (clobber_run clobbered f r sp' fl sc cp pc' m) as (R1 & E1 & K1);
      rewrite E1; clear E1).
  pose proof (mon_sp_kept _ _ K1) as Hsp1. rewrite upd_reg_eq in Hsp1.
  unfold W in HW. cbn [app] in HW.
  do 45 (istep Ram; rewrite ?Hsp1; norm_addr; try read_block Ram HW).
  assert (H52 : Ram (stk + 52)) by (apply (proj2 (proj2 Rstk) 13); lia).
  rewrite storage_rd by done.
  assert (Hpc : peek (stk + 52) (store_words stk [SP Mon] s2) = R Mon 14%nat).
  { pose proof (peek_words_slice stk 14 s2 _ 13 1 HW ltac:(lia)) as Hp. cbn in Hp.
    injection Hp as Hp. rewrite (peek_store_words_out Ram) by (cbn [length]; done || lia). exact Hp. }
  assert (Hfc : Z.lor (bic32 (SP Mon) 0xFF0000FF) (Z.land (SP Mon) 0xFF0000FF) = SP Mon).
  { unfold bic32. bitwise; [by destruct (Z.testbit (SP Mon) i), (Z.testbit 0xFF0000FF i)|].
    by rewrite (u32_testbit_high (SP Mon)) by done. }
  rewrite Hpc, Hfc. rewrite (eret_run _ mret _ _ (SP Mon) md) by done.
  do 6 eexists. split; [reflexivity|]. split_and!.
  - intros x Hx Ho. by apply B1.
  - exact E.
  - intros x Hx Ho. apply (peek_store_words_out Ram); cbn [length]; done || lia.
  - done.
  - intros n Hn. destruct (decide (n = 13 \/ n = 14)%nat) as [Hn'|Hn'].
    + transitivity (R1 Usr n); [by destruct Hn' as [->| ->]|].
      rewrite K1 by (intros [[_ [?|?]]|[? _]]; [lia|lia|done]). by destruct Hn' as [->| ->].
    + do 13 (destruct n as [|n]; [first [lia | reflexivity]|]). lia.
  - done.
  - intros b n Hu' Hm. transitivity (R1 b n); [by destruct b|].
    rewrite K1 by (intros [[? _]|[? _]]; done). by destruct b.
  - intros b Hm. by destruct b.
Qed.
End board.

Section worlds.
Context {S : Type} `{Bus S}.
Variable sys_spsr : cpu -> Z.
Variable clobbered : nat -> cpu -> Z.
Variable interrupt_addr : Z.
Variable fiq_handler : Z -> M S unit.
Variable interrupt_clear : Z -> Z -> M S unit.
Variable board_handler : Z -> Z -> Z -> Z -> M S Z.
Variable Ram : Z -> Prop.
Context `{!Storage S Ram}.
Variable iar : Z.
Variable Inv : S -> Prop.
Variable irq_ok : Z -> Prop.
Variables ctx sp : Z.

#[local] Abbreviation fiq := (mon_fiq_handler sys_spsr clobbered interrupt_addr fiq_handler interrupt_clear).
#[local] Abbreviation smc := (mon_smc_handler sys_spsr clobbered board_handler).
#[local] Abbreviation handlers_ok :=
  (handlers_ok fiq_handler interrupt_clear Ram iar Inv irq_ok).

(** The non-secure world runs: its context is registered and the monitor stack
    holds the secure world's frame. *)
Record ns_running (c : cpu) (s : S) : Prop := {
  nsr_iar : iar_addr (cp15 c) = iar;
  nsr_inv : Inv s;
  nsr_sp : regs c Mon 13%nat = sp + 28;
  nsr_ctx : cp15 c false TPIDRPRW = ctx;
}.

(** The secure world asks for the non-secure world to be scheduled. *)
Record s_yields (c : cpu) : Prop := {
  sy_sp : regs c Mon 13%nat = sp + 128;
  sy_ctx : cp15 c (ns_bit c) TPIDRPRW = ctx;
  sy_call : regs c Usr 0%nat = LTZVISOR_SCHED_SYSCALL;
}.

Lemma smc_sched c (s : S) :
  regs c Usr 0%nat = LTZVISOR_SCHED_SYSCALL ->
  smc (Machine (in_monitor c) s) = mon_scheduler sys_spsr (Machine (in_monitor c) s).
Proof.
  intros H0. unfold mon_smc_handler, rd.
  rewrite (from_cpu_run _ _ (in_monitor c) s LTZVISOR_SCHED_SYSCALL); [done|].
  by rewrite <- H0.
Qed.

(** The frame word that gives the secure world its CPSR back. *)
Definition secure_cpsr (c : cpu) (s : S) : Z :=
  spsr_fc (cpsr c) (nth 8 (peek_words (sp + 28) 25 s) 0).

(** C1: the world switch is invisible to the non-secure world.  When a fast
    interrupt stops it, the monitor enters the secure world with SCR.NS clear
    and its stack popped; and whatever the secure world then does - short of
    overwriting the saved context - the non-secure world is resumed, after the
    next SCHED call, with the same r0-r14, the same banked registers and SPSRs
    of SVC, ABT, UND and IRQ, the same CPSR and at the same instruction. *)
Theorem ns_world_preserved (c0 : cpu) (s0 : S) (md : mode) :
  layout Ram ctx sp -> interrupt_var interrupt_addr Ram ctx sp -> handlers_ok ->
  cpu_ok c0 -> ns_running c0 s0 -> decode_mode (secure_cpsr c0 s0) = Some md ->
  exists c1 s1,
    fiq (Machine (in_monitor c0) s0) = Ok tt (Machine c1 s1) /\
    cmode c1 = md /\ ns_bit c1 = false /\ regs c1 Mon 13%nat = sp + 128 /\
    forall c2 s2,
      s_yields c2 -> peek_words ctx 30 s2 = peek_words ctx 30 s1 ->
      exists c3 s3,
        smc (Machine (in_monitor c2) s2) = Ok tt (Machine c3 s3) /\
        same_world c0 c3 /\ ns_bit c3 = true /\ regs c3 Mon 13%nat = sp + 28.
Proof.
  intros Hl Hi Hh Hc [Hiar Hs Hsp Hctx] Hmd. rewrite in_monitor_eq.
  match goal with |- context [Machine (Cpu ?R ?SP _ ?F ?SC ?CP ?PC) ?s] =>
    destruct (mon_fiq_handler_run sys_spsr clobbered interrupt_addr fiq_handler interrupt_clear
                Ram iar Inv irq_ok R SP F SC CP PC s ctx sp _ md
                Hl Hi Hh Hiar Hs Hsp Hctx eq_refl Hmd)
      as (R1 & SP1 & s1 & sys & E1 & (Hsp1 & _) & _ & HW & _) end.
  do 2 eexists. split; [exact E1|]. split_and!; [done|apply scr_to_s_ns|done|].
  intros c2 s2 [Hsp2 Hctx2 H0] HW2. rewrite smc_sched by done.
  rewrite upd_reg_eq, pc_through_lr in HW by apply Hc.
  assert (HW3 : peek_words ctx 30 s2 = core_words (u32 sys) (stopped c0)).
  { rewrite HW2, HW, <- (core_words_stopped _ _ Hc). apply core_words_ext; [done..|].
    intros b n Hb. by rewrite !upd_reg_ne by (destruct Hb as [->|[->|[->| ->]]]; done). }
  destruct (cpsr_parts c0 Hc) as [Hd _].
  destruct (mon_scheduler_run sys_spsr Ram (regs (in_monitor c2)) (spsr (in_monitor c2))
              (cflags (in_monitor c2)) (scr c2) (cp15 c2) (pc c2) s2 ctx sp _ (cmode c0)
              Hl Hsp2 Hctx2 HW3 Hd) as (R3 & SP3 & s3 & E3 & Hcore & Hsp3 & _).
  do 2 eexists. split; [exact E3|]. split_and!; [|apply scr_to_ns_ns|exact Hsp3].
  eapply context_same_world; [exact Hc|exact Hcore|reflexivity|exact Hd].
Qed.

Lemma secure_round_run (c2 : cpu) (s2 : S) (md : mode) :
  layout Ram ctx sp -> interrupt_var interrupt_addr Ram ctx sp -> handlers_ok ->
  cpu_ok c2 -> s_yields c2 -> decode_mode (nth 13 (peek_words ctx 30 s2) 0) = Some md ->
  exists c3 s3,
    smc (Machine (in_monitor c2) s2) = Ok tt (Machine c3 s3) /\
    (cmode c3 = md /\ ns_bit c3 = true) /\
    (forall Inv', stores_keep Ram Inv' -> Inv' s2 -> Inv' s3) /\
    forall c4 s4,
      cpu_ok c4 -> ns_running c4 s4 ->
      peek_words (sp + 28) 25 s4 = peek_words (sp + 28) 25 s3 ->
      exists c5 s5,
        fiq (Machine (in_monitor c4) s4) = Ok tt (Machine c5 s5) /\
        (forall n, (n < 15)%nat -> regs c5 Usr n = regs c2 Usr n) /\
        (forall n, (8 <= n < 15)%nat -> regs c5 Fiq n = regs c2 Fiq n) /\
        cmode c5 = cmode c2 /\ pc c5 = add32 (pc c2) 4 /\
        Z.land (cflags c5) 0xFF0000E0 = Z.land (cflags c2) 0xFF0000E0 /\
        Z.land (cflags c5) 0x00FFFF00 = Z.land (cflags c4) 0x00FFFF00 /\
        (regs c5 Mon 13%nat = sp + 128 /\ ns_bit c5 = false) /\
        (cp15 c5 = cp15 c4 /\
         Z.land (spsr c5 Fiq) 0xFF0000FF = Z.land (spsr c2 Fiq) 0xFF0000FF /\
         Z.land (spsr c5 Fiq) 0x00FFFF00 = Z.land (spsr c4 Fiq) 0x00FFFF00 /\
         forall b n, other_mode b -> regs c5 b n = regs c4 b n /\ spsr c5 b = spsr c4 b) /\ Inv s5.
Proof.
  intros Hl Hi Hh Hc2 [Hsp2 Hctx2 H0] Hmd. rewrite smc_sched by done.
  destruct (mon_scheduler_run sys_spsr Ram (regs (in_monitor c2)) (spsr (in_monitor c2))
              (cflags (in_monitor c2)) (scr c2) (cp15 c2) (pc c2) s2 ctx sp _ md
              Hl Hsp2 Hctx2 eq_refl Hmd) as (R3 & SP3 & s3 & E3 & _ & _ & _ & _ & HW3 & _ & HV3).
  do 2 eexists. split; [exact E3|]. split; [split; [done|apply scr_to_ns_ns]|]. split; [exact HV3|].
  intros c4 s4 Hc4 [Hiar Hs Hsp Hctx] HW4. rewrite HW3 in HW4.
  pose proof (cpsr_u32 _ Hc2) as Hu2. pose proof (cpsr_u32 _ Hc4) as Hu4.
  assert (Hd : decode_mode (spsr_fc (cpsr c4) (u32 (cpsr c2))) = Some (cmode c2)).
  { rewrite spsr_fc_mode, u32_small by auto with word_db. by apply cpsr_parts. }
  rewrite in_monitor_eq.
  match goal with |- context [Machine (Cpu ?R ?SP _ ?F ?SC ?CP ?PC) ?s] =>
    destruct (mon_fiq_handler_run sys_spsr clobbered interrupt_addr fiq_handler interrupt_clear
                Ram iar Inv irq_ok R SP F SC CP PC s ctx sp _ (cmode c2)
                Hl Hi Hh Hiar Hs Hsp Hctx HW4 Hd)
      as (R5 & SP5 & s5 & sys & E5 & (Hsp5 & Husr & Hfiq & Hlr & Hsf) & Hbank & _ & HV5) end.
  destruct (spsr_fc_fields _ _ Hu4 Hu2) as [F1 F2].
  destruct (cpsr_parts c2 Hc2) as [_ G2], (cpsr_parts c4 Hc4) as [_ G4].
  destruct (spsr_fc_fields (spsr c4 Fiq) (spsr c2 Fiq)) as [G5 G6]; [apply (ok_spsr _ Hc4)|apply (ok_spsr _ Hc2)|].
  assert (Ef : SP5 Fiq = spsr_fc (spsr c4 Fiq) (spsr c2 Fiq)).
  { rewrite Hsf. cbn. by rewrite (u32_small (spsr c2 Fiq)) by apply (ok_spsr _ Hc2). }
  assert (Hb : forall b n, other_mode b -> R5 b n = regs c4 b n /\ SP5 b = spsr c4 b).
  { intros b n Hb. destruct (Hbank b n Hb) as [E F]. rewrite E, F. split.
    - by rewrite upd_reg_ne by (by destruct Hb as [->|[->|[->| ->]]]).
    - unfold upd_spsr. by destruct Hb as [->|[->|[->| ->]]]. }
  do 2 eexists. split; [exact E5|]. cbn [regs cmode cflags pc scr cp15 spsr]. rewrite Ef.
  split_and!; [| |done| | | |done|apply scr_to_s_ns|done|exact G5|exact G6|exact Hb|done].
  - intros n Hn. rewrite Husr by done.
    do 15 (destruct n as [|n]; [apply u32_small, Hc2|]). lia.
  - intros n Hn. destruct (decide (n = 14%nat)) as [->|]; [rewrite Hlr; apply u32_small, Hc2|].
    rewrite Hfiq by lia. do 8 (destruct n as [|n]; [lia|]).
    do 6 (destruct n as [|n]; [apply u32_small, Hc2|]). lia.
  - cbn. by rewrite (u32_small (add32 _ _)) by apply u32_is_u32.
  - cbn. rewrite (u32_small (cpsr c2)) by done. rewrite <- G2.
    change (upd_spsr Mon (cpsr c4) (spsr c4) Mon) with (cpsr c4). rewrite <- !Z.land_assoc.
    change (Z.land 0xFFFFFFE0 0xFF0000E0) with (Z.land 0xFF0000FF 0xFFFFFFE0).
    by rewrite Z.land_assoc, F1, <- Z.land_assoc.
  - cbn. rewrite (u32_small (cpsr c2)) by done. rewrite <- G4.
    change (upd_spsr Mon (cpsr c4) (spsr c4) Mon) with (cpsr c4). rewrite <- !Z.land_assoc.
    change (Z.land 0xFFFFFFE0 0x00FFFF00) with 0x00FFFF00. done.
Qed.

(** C2: what the secure world has when it resumes.  After SCHED and whatever the
    non-secure world does - short of overwriting the frame on the monitor
    stack - the fast interrupt returns to the instruction after the SMC, in the
    mode of the call and the secure world, with the User registers r0-r14 and
    the FIQ registers r8-r14 of the call and a balanced monitor stack.  Of CPSR
    and of the SPSR of FIQ mode only the fields [msr spsr, rX] writes are the
    secure world's: bits 8-23 (GE, IT, E, A) are those the non-secure world
    had.  The registers r13, r14 and SPSR of Supervisor, Abort, Undefined and
    IRQ mode are not in the frame and are the non-secure world's too, so a
    secure guest that calls from Supervisor mode gets another stack pointer and
    link register back; the coprocessor registers are as that world left them. *)
Theorem secure_world_round_trip (c2 : cpu) (s2 : S) (md : mode) :
  layout Ram ctx sp -> interrupt_var interrupt_addr Ram ctx sp -> handlers_ok ->
  cpu_ok c2 -> s_yields c2 -> decode_mode (nth 13 (peek_words ctx 30 s2) 0) = Some md ->
  exists c3 s3,
    smc (Machine (in_monitor c2) s2) = Ok tt (Machine c3 s3) /\
    cmode c3 = md /\ ns_bit c3 = true /\
    forall c4 s4,
      cpu_ok c4 -> ns_running c4 s4 ->
      peek_words (sp + 28) 25 s4 = peek_words (sp + 28) 25 s3 ->
      exists c5 s5,
        fiq (Machine (in_monitor c4) s4) = Ok tt (Machine c5 s5) /\
        (forall n, (n < 15)%nat -> regs c5 Usr n = regs c2 Usr n) /\
        (forall n, (8 <= n < 15)%nat -> regs c5 Fiq n = regs c2 Fiq n) /\
        cmode c5 = cmode c2 /\ pc c5 = add32 (pc c2) 4 /\
        Z.land (cflags c5) 0xFF0000E0 = Z.land (cflags c2) 0xFF0000E0 /\
        Z.land (cflags c5) 0x00FFFF00 = Z.land (cflags c4) 0x00FFFF00 /\
        Z.land (spsr c5 Fiq) 0xFF0000FF = Z.land (spsr c2 Fiq) 0xFF0000FF /\
        Z.land (spsr c5 Fiq) 0x00FFFF00 = Z.land (spsr c4 Fiq) 0x00FFFF00 /\
        regs c5 Mon 13%nat = sp + 128 /\ ns_bit c5 = false /\ cp15 c5 = cp15 c4 /\
        (forall b n, other_mode b -> regs c5 b n = regs c4 b n /\ spsr c5 b = spsr c4 b).
Proof.
  intros Hl Hi Hh Hc Hy Hmd.
  destruct (secure_round_run c2 s2 md Hl Hi Hh Hc Hy Hmd) as (c3 & s3 & E3 & [Hm Hns] & _ & H5).
  exists c3, s3. split_and!; try done. intros c4 s4 Hc4 Hr HW.
  destruct (H5 c4 s4 Hc4 Hr HW) as (c5 & s5 & ? & ? & ? & ? & ? & ? & ? & [? ?] & (? & ? & ? & ?) & _).
  by exists c5, s5.
Qed.

(** C19: the SVC, ABT, UND and IRQ registers and SPSRs are not part of the secure
    world's frame: the fast interrupt returns to the secure world with the ones
    the non-secure world had. *)
Theorem secure_banks_replaced (c0 : cpu) (s0 : S) (md : mode) :
  layout Ram ctx sp -> interrupt_var interrupt_addr Ram ctx sp -> handlers_ok ->
  ns_running c0 s0 -> decode_mode (secure_cpsr c0 s0) = Some md ->
  exists c1 s1,
    fiq (Machine (in_monitor c0) s0) = Ok tt (Machine c1 s1) /\
    forall b n, other_mode b -> regs c1 b n = regs c0 b n /\ spsr c1 b = spsr c0 b.
Proof.
  intros Hl Hi Hh [Hiar Hs Hsp Hctx] Hmd. rewrite in_monitor_eq.
  match goal with |- context [Machine (Cpu ?R ?SP _ ?F ?SC ?CP ?PC) ?s] =>
    destruct (mon_fiq_handler_run sys_spsr clobbered interrupt_addr fiq_handler interrupt_clear
                Ram iar Inv irq_ok R SP F SC CP PC s ctx sp _ md
                Hl Hi Hh Hiar Hs Hsp Hctx eq_refl Hmd)
      as (R1 & SP1 & s1 & sys & E1 & _ & Hb & _) end.
  do 2 eexists. split; [exact E1|]. intros b n Hn. destruct (Hb b n Hn) as [E F].
  cbn [regs spsr]. rewrite E, F. rewrite upd_reg_ne by (by destruct Hn as [->|[->|[->| ->]]]).
  by destruct Hn as [->|[->|[->| ->]]].
Qed.

(** The FIQ registers are not part of the non-secure world's context: SCHED
    resumes it with the secure world's r8-r14 and SPSR of FIQ mode in place. *)
Theorem secure_fiq_bank_visible (c2 : cpu) (s2 : S) (md : mode) :
  layout Ram ctx sp -> s_yields c2 ->
  decode_mode (nth 13 (peek_words ctx 30 s2) 0) = Some md ->
  exists c3 s3,
    smc (Machine (in_monitor c2) s2) = Ok tt (Machine c3 s3) /\
    cmode c3 = md /\ ns_bit c3 = true /\
    (forall n, regs c3 Fiq n = regs c2 Fiq n) /\ spsr c3 Fiq = spsr c2 Fiq.
Proof.
  intros Hl [Hsp2 Hctx2 H0] Hmd. rewrite smc_sched by done.
  destruct (mon_scheduler_run sys_spsr Ram (regs (in_monitor c2)) (spsr (in_monitor c2))
              (cflags (in_monitor c2)) (scr c2) (cp15 c2) (pc c2) s2 ctx sp _ md
              Hl Hsp2 Hctx2 eq_refl Hmd) as (R3 & SP3 & s3 & E3 & _ & _ & Hf & Hsf & _).
  do 2 eexists. split; [exact E3|]. by split_and!; [|apply scr_to_ns_ns| |].
Qed.

(** An SMC whose number is neither negative nor SCHED ends in [bx lr]: the
    handler goes back to the caller without leaving Monitor mode. *)
Theorem smc_unknown_stays_in_monitor (c : cpu) (s : S) :
  0 <= regs c Usr 0%nat < 2 ^ 31 -> regs c Usr 0%nat <> LTZVISOR_SCHED_SYSCALL ->
  smc (Machine (in_monitor c) s) =
    Ok tt (Machine (set_pc (add32 (pc c) 4) (in_monitor c)) s) /\
  cmode (set_pc (add32 (pc c) 4) (in_monitor c)) = MONITOR_MODE.
Proof.
  intros Hr Hne. split; [|done]. unfold mon_smc_handler, rd.
  rewrite (from_cpu_run _ _ (in_monitor c) s (regs c Usr 0%nat)) by done.
  unfold s32. rewrite u32_small by (unfold is_u32; lia).
  destruct (Z.ltb_spec (regs c Usr 0%nat) (2 ^ 31)); [|lia].
  destruct (Z.ltb_spec (regs c Usr 0%nat) 0); [lia|].
  by destruct (Z.eqb_spec (regs c Usr 0%nat) LTZVISOR_SCHED_SYSCALL).
Qed.

Lemma board_call_run (c : cpu) (s : S) (stk : Z) :
  cpu_ok c -> ram_at Ram stk 14 -> stk + 56 < 2 ^ 32 -> regs c Mon 13%nat = stk + 56 ->
  2 ^ 31 <= regs c Usr 0%nat ->
  (forall s1, exists v s', board_handler (regs c Usr 0%nat) (regs c Usr 1%nat)
     (regs c Usr 2%nat) (regs c Usr 3%nat) s1 = Ok v s' /\ keeps (in_block Ram stk) s1 s') ->
  exists c' s1 s2 s' v,
    smc (Machine (in_monitor c) s) = Ok tt (Machine c' s') /\
    (forall x, Ram x -> x < stk \/ stk + 56 <= x -> peek x s1 = peek x s) /\
    board_handler (regs c Usr 0%nat) (regs c Usr 1%nat)
     (regs c Usr 2%nat) (regs c Usr 3%nat) s1 = Ok v s2 /\
    (forall x, Ram x -> x < stk \/ stk + 56 <= x -> peek x s' = peek x s2) /\
    regs c' Usr 0%nat = v /\ (forall n, (1 <= n < 15)%nat -> regs c' Usr n = regs c Usr n) /\
    regs c' Mon 13%nat = stk + 56 /\
    cmode c' = cmode c /\ cflags c' = cflags c /\ pc c' = add32 (pc c) 4 /\
    scr c' = scr c /\ cp15 c' = cp15 c /\
    (forall b n, b <> Usr -> b <> Mon -> regs c' b n = regs c b n) /\
    (forall b, b <> Mon -> spsr c' b = spsr c b).
Proof.
  intros Hc Rstk Htop Hsp Hr Hb. destruct (cpsr_parts c Hc) as [Hmd Hfl].
  pose proof (ok_regs _ Hc Usr 0%nat) as Hu0.
  unfold mon_smc_handler, rd.
  rewrite (from_cpu_run _ _ (in_monitor c) s (regs c Usr 0%nat)) by done.
  unfold s32. rewrite u32_small by done. unfold is_u32 in Hu0.
  destruct (Z.ltb_spec (regs c Usr 0%nat) (2 ^ 31)); [lia|].
  destruct (Z.ltb_spec (regs c Usr 0%nat - 2 ^ 32) 0); [|lia].
  destruct (board_smc_run sys_spsr clobbered board_handler Ram
              (regs (in_monitor c)) (spsr (in_monitor c)) (cflags (in_monitor c)) (scr c)
              (cp15 c) (pc c) s stk (cmode c))
    as (R' & SP' & s1 & s2 & s' & v & E & K & Eb & K' & Hv & Hn & Hsp' & Hbank & Hspsr); try done.
  - intros b n. rewrite in_monitor_eq. cbn [regs]. reg_lookup; [apply u32_is_u32|apply Hc].
  - by apply cpsr_u32.
  - eexists _, s1, s2, s', v. split; [exact E|]. cbn [scr cp15 regs spsr]. split_and!; try done.
    + intros b n Hu Hm. rewrite Hbank, in_monitor_eq by done. cbn [regs]. by destruct b.
    + intros b Hm. rewrite Hspsr, in_monitor_eq by done. cbn [spsr]. by destruct b.
Qed.

(** C7: an SMC with a negative number calls the board's handler with r0-r3 and
    returns its result in r0, in the world it came from.  Everything else of the
    caller's processor is as before: r1-r14, the banked registers and SPSRs of
    every mode but Monitor, SCR and with it the world, the coprocessor
    registers, mode and flags; so is the monitor stack pointer.  Memory other
    than the monitor stack changes as the handler changes it, and execution
    continues after the SMC. *)
Theorem smc_board_call (c : cpu) (s : S) (stk : Z) :
  cpu_ok c -> ram_at Ram stk 14 -> stk + 56 < 2 ^ 32 -> regs c Mon 13%nat = stk + 56 ->
  2 ^ 31 <= regs c Usr 0%nat ->
  (forall s1, exists v s', board_handler (regs c Usr 0%nat) (regs c Usr 1%nat)
     (regs c Usr 2%nat) (regs c Usr 3%nat) s1 = Ok v s' /\ keeps (in_block Ram stk) s1 s') ->
  exists c' s1 s2 s' v,
    smc (Machine (in_monitor c) s) = Ok tt (Machine c' s') /\
    (forall x, Ram x -> x < stk \/ stk + 56 <= x -> peek x s1 = peek x s) /\
    board_handler (regs c Usr 0%nat) (regs c Usr 1%nat)
     (regs c Usr 2%nat) (regs c Usr 3%nat) s1 = Ok v s2 /\
    (forall x, Ram x -> x < stk \/ stk + 56 <= x -> peek x s' = peek x s2) /\
    regs c' Usr 0%nat = v /\ (forall n, (1 <= n < 15)%nat -> regs c' Usr n = regs c Usr n) /\
    regs c' Mon 13%nat = stk + 56 /\
    cmode c' = cmode c /\ cflags c' = cflags c /\ pc c' = add32 (pc c) 4 /\
    scr c' = scr c /\ cp15 c' = cp15 c /\
    (forall b n, b <> Usr -> b <> Mon -> regs c' b n = regs c b n) /\
    (forall b, b <> Mon -> spsr c' b = spsr c b).
Proof. apply board_call_run. Qed.
End worlds.

(** ** A run on the zedboard

    The context at 0x1000, the monitor stack from 0x2000 to 0x2080, the
    variable [interrupt] at 0x3000; the interrupt controller delivers number
    42, TTC0's first timer. *)
Definition demo_ctx : Z := 0x1000.
Definition demo_sp : Z := 0x2000.
Definition demo_int : Z := 0x3000.

Definition demo_cpu (ns : bool) (mon_sp : Z) : cpu := {|
  regs b n := match b, n with
              | Mon, 13%nat => mon_sp
              | Usr, 0%nat => LTZVISOR_SCHED_SYSCALL
              | _, _ => u32 (16 * Z.of_nat n)
              end;
  spsr b := match b with Fiq => 0x1F | _ => 0x10 end;
  cmode := SUPERVISOR_MODE; cflags := 0x600001C0;
  scr := if ns then 0x5 else 0x2;
  cp15 b r := match r with
              | TPIDRPRW => if b then 0 else demo_ctx
              | CBAR => 0xF8F00000
              | _ => 0
              end;
  pc := 0x100;
|}.

(** The secure frame's SPSR and return address, the context's SPSR and return
    address, the acknowledge register. *)
Definition demo_mem : spi_world regfile :=
  SpiWorld (<[demo_sp + 28 + 32 := 0x20000113]> (<[demo_sp + 28 + 36 := 0x8000]>
    (<[demo_ctx + 52 := 0x20000113]> (<[demo_ctx + 56 := 0x9000]>
      (<[demo_iar := 42]> ∅))))) [] 0 0.

Definition demo_fiq : M (machine (spi_world regfile)) unit :=
  mon_fiq_handler (fun _ => 0) (fun _ _ => 0) demo_int (fiq_handler zedboard_ttc) interrupt_clear.
Definition demo_smc : M (machine (spi_world regfile)) unit :=
  mon_smc_handler (fun _ => 0) (fun _ _ => 0) (fun _ _ _ _ => mret TRUE).

Lemma demo_cpu_ok ns p : is_u32 p -> cpu_ok (demo_cpu ns p).
Proof.
  intros Hp. constructor; cbn.
  - intros b n. destruct b; do 14 (destruct n as [|n]; [first [done | apply u32_is_u32]|]);
      apply u32_is_u32.
  - intros b. by destruct b.
  - done.
  - intros i Hi. assert (i = 0 \/ i = 1 \/ i = 2 \/ i = 3 \/ i = 4) as Hc by lia.
    by destruct Hc as [->|[->|[->|[->| ->]]]].
  - done.
Qed.

Definition demo_ns_ok := demo_cpu_ok true (demo_sp + 28) ltac:(done).
Definition demo_s_ok := demo_cpu_ok false (demo_sp + 128) ltac:(done).

Lemma demo_layout : layout demo_ram demo_ctx demo_sp.
Proof.
  constructor; unfold ram_at, demo_ram, demo_ctx, demo_sp; [| |..]; try lia;
    split_and!; try lia; intros; lia.
Qed.

Lemma demo_interrupt_var : interrupt_var demo_int demo_ram demo_ctx demo_sp.
Proof. constructor; unfold is_u32, demo_ram, demo_int, demo_ctx, demo_sp; lia. Qed.

Lemma demo_ns_running p :
  p = demo_sp + 28 ->
  ns_running demo_iar (fun w => demo_irq (dev w)) demo_ctx demo_sp (demo_cpu true p) demo_mem.
Proof. intros ->. by constructor. Qed.

Lemma demo_yields : s_yields demo_ctx demo_sp (demo_cpu false (demo_sp + 128)).
Proof. by constructor. Qed.

Lemma demo_ctx_mode :
  decode_mode (nth 13 (peek_words demo_ctx 30 demo_mem) 0) = Some SUPERVISOR_MODE.
Proof. reflexivity. Qed.

#[local] Abbreviation demo_handlers := (gic_handlers_ok demo_ram demo_iar demo_irq demo_device zedboard_ttc).

Lemma ns_world_preserved_witness :
  exists c1 w1 c3 w3,
    demo_fiq (Machine (in_monitor (demo_cpu true (demo_sp + 28))) demo_mem) =
      Ok tt (Machine c1 w1) /\ cmode c1 = SUPERVISOR_MODE /\
    demo_smc (Machine (in_monitor (demo_cpu false (demo_sp + 128))) w1) = Ok tt (Machine c3 w3) /\
    same_world (demo_cpu true (demo_sp + 28)) c3.
Proof.
  destruct (ns_world_preserved (fun _ => 0) (fun _ _ => 0) demo_int (fiq_handler zedboard_ttc)
              interrupt_clear (fun _ _ _ _ => mret TRUE) demo_ram demo_iar
              (fun w => demo_irq (dev w)) (fun irq => 0 <= irq < 96) demo_ctx demo_sp
              (demo_cpu true (demo_sp + 28)) demo_mem SUPERVISOR_MODE
              demo_layout demo_interrupt_var demo_handlers demo_ns_ok
              (demo_ns_running _ eq_refl) eq_refl) as (c1 & w1 & E1 & Hm & _ & _ & H2).
  destruct (H2 _ _ demo_yields eq_refl) as (c3 & w3 & E3 & Hsame & _).
  exists c1, w1, c3, w3. exact (conj E1 (conj Hm (conj E3 Hsame))).
Defined.

Definition final_memory {S A} (r : res (machine S) A) : option S :=
  match r with Ok _ (Machine _ w) => Some w | _ => None end.

Lemma secure_world_round_trip_witness :
  exists c3 w3 c5 w5,
    demo_smc (Machine (in_monitor (demo_cpu false (demo_sp + 128))) demo_mem) =
      Ok tt (Machine c3 w3) /\ cmode c3 = SUPERVISOR_MODE /\
    demo_fiq (Machine (in_monitor (demo_cpu true (demo_sp + 28))) w3) = Ok tt (Machine c5 w5) /\
    regs c5 Usr 0%nat = LTZVISOR_SCHED_SYSCALL /\ regs c5 Fiq 9%nat = 144 /\ pc c5 = 0x104 /\
    ns_bit c5 = false /\ regs c5 Svc 13%nat = 208.
Proof.
  destruct (secure_world_round_trip (fun _ => 0) (fun _ _ => 0) demo_int
              (fiq_handler zedboard_ttc)
              interrupt_clear (fun _ _ _ _ => mret TRUE) demo_ram demo_iar
              (fun w => demo_irq (dev w)) (fun irq => 0 <= irq < 96) demo_ctx demo_sp
              (demo_cpu false (demo_sp + 128)) demo_mem SUPERVISOR_MODE
              demo_layout demo_interrupt_var demo_handlers demo_s_ok
              demo_yields eq_refl) as (c3 & w3 & E3 & Hm & _ & H4).
  assert (Ew : final_memory (demo_smc (Machine (in_monitor (demo_cpu false (demo_sp + 128))) demo_mem)) = Some w3)
    by exact (f_equal final_memory E3).
  vm_compute in Ew. injection Ew as Ew.
  destruct (H4 (demo_cpu true (demo_sp + 28)) w3 demo_ns_ok) as
    (c5 & w5 & E5 & Hu & Hf & _ & Hpc & _ & _ & _ & _ & _ & Hns & _ & Hb).
  - constructor; [reflexivity|rewrite <- Ew; clear; by vm_compute|reflexivity|reflexivity].
  - reflexivity.
  - exists c3, w3, c5, w5.
    exact (conj E3 (conj Hm (conj E5 (conj (Hu 0%nat ltac:(lia)) (conj (Hf 9%nat ltac:(lia))
      (conj Hpc (conj Hns (proj1 (Hb Svc 13%nat (or_introl eq_refl)))))))))).
Defined.

Lemma secure_banks_replaced_witness :
  exists c1 w1,
    demo_fiq (Machine (in_monitor (demo_cpu true (demo_sp + 28))) demo_mem) =
      Ok tt (Machine c1 w1) /\
    forall b n, other_mode b ->
      regs c1 b n = regs (demo_cpu true (demo_sp + 28)) b n /\ spsr c1 b = 0x10.
Proof.
  destruct (secure_banks_replaced (fun _ => 0) (fun _ _ => 0) demo_int
              (fiq_handler zedboard_ttc) interrupt_clear demo_ram demo_iar
              (fun w => demo_irq (dev w)) (fun irq => 0 <= irq < 96) demo_ctx demo_sp
              (demo_cpu true (demo_sp + 28)) demo_mem SUPERVISOR_MODE
              demo_layout demo_interrupt_var demo_handlers
              (demo_ns_running _ eq_refl) eq_refl) as (c1 & w1 & E1 & Hb).
  exists c1, w1. split; [exact E1|]. intros b n Hn. destruct (Hb b n Hn) as [H1 ->].
  split; [exact H1|]. by destruct Hn as [->|[->|[->| ->]]].
Defined.

Lemma secure_fiq_bank_visible_witness :
  exists c3 w3,
    demo_smc (Machine (in_monitor (demo_cpu false (demo_sp + 128))) demo_mem) =
      Ok tt (Machine c3 w3) /\ ns_bit c3 = true /\ regs c3 Fiq 9%nat = 144.
Proof.
  destruct (secure_fiq_bank_visible (S := spi_world regfile) (fun _ => 0) (fun _ _ => 0) (fun _ _ _ _ => mret TRUE)
              demo_ram demo_ctx demo_sp
              (demo_cpu false (demo_sp + 128)) demo_mem SUPERVISOR_MODE
              demo_layout demo_yields demo_ctx_mode) as (c3 & w3 & E3 & _ & Hns & Hf & _).
  exists c3, w3. exact (conj E3 (conj Hns (Hf 9%nat))).
Defined.

(** An SMC with r0 = 1 from the non-secure world. *)
Definition demo_call (r0 : Z) : cpu :=
  set_regs (upd_reg Usr 0 r0 (regs (demo_cpu true (demo_sp + 128)))) (demo_cpu true (demo_sp + 128)).

Lemma smc_unknown_stays_in_monitor_witness :
  exists c', demo_smc (Machine (in_monitor (demo_call 1)) demo_mem) = Ok tt (Machine c' demo_mem) /\
    cmode c' = MONITOR_MODE /\ pc c' = 0x104.
Proof.
  destruct (smc_unknown_stays_in_monitor (S := spi_world regfile) (fun _ => 0) (fun _ _ => 0) (fun _ _ _ _ => mret TRUE)
              (demo_call 1) demo_mem) as [E Hm]; [cbn; lia|done|].
  eexists. exact (conj E (conj Hm eq_refl)).
Defined.

Lemma smc_board_call_witness :
  exists c' w', demo_smc (Machine (in_monitor (demo_call LTZVISOR_READ_SYSCALL)) demo_mem) =
      Ok tt (Machine c' w') /\ regs c' Usr 0%nat = TRUE /\ regs c' Usr 12%nat = 192 /\
    ns_bit c' = true /\ regs c' Svc 13%nat = 208.
Proof.
  destruct (smc_board_call (S := spi_world regfile) (fun _ => 0) (fun _ _ => 0) (fun _ _ _ _ => mret TRUE)
              demo_ram (demo_call LTZVISOR_READ_SYSCALL) demo_mem (demo_sp + 72))
    as (c' & s1 & s2 & w' & v & E & _ & Ev & _ & Hv & Hr & _ & _ & _ & _ & Hscr & _ & Hb & _).
  - destruct (demo_cpu_ok true (demo_sp + 128) ltac:(done)) as [Hr Hs Hf Hl Hp].
    constructor; try done. intros b n. cbn [demo_call set_regs regs].
    reg_lookup; [done|apply Hr].
  - unfold ram_at, demo_ram, demo_sp. split_and!; [lia..|]. intros. lia.
  - done.
  - done.
  - by apply Z.leb_le.
  - intros s1. by exists TRUE, s1.
  - exists c', w'. injection Ev as Ev _. rewrite <- Ev in Hv.
    assert (Hns : ns_bit c' = true) by (unfold ns_bit; by rewrite Hscr).
    exact (conj E (conj Hv (conj (Hr 12%nat ltac:(lia)) (conj Hns (Hb Svc 13%nat ltac:(done) ltac:(done)))))).
Defined.
