(* ===== verification/Entry.v ===== *)
(** * Boot ([arch/armv7/cpu_entry.S])

    From the reset vector to [ltzvisor_main]: one processor goes on, the
    control registers and the stacks of the modes are set up, and the bss is
    cleared.  Cache, branch predictor and TLB maintenance operations read
    their register and change nothing that is modelled. *)
From S2P Require Import Prelude Bus Arm Cp15.

Local Open Scope Z_scope.

Definition NSACR_REG_VAL : Z := 0x60C00.

(** The addresses the linker assigns. *)
Record symbols : Type := Symbols {
  secure_vector_table : Z; monitor_vector_table : Z;
  fiq_stack : Z; abort_stack : Z; undefined_stack : Z; user_stack : Z; monitor_stack : Z;
  SW_BSS_START : Z; SW_BSS_END : Z;
}.

Section entry.
Context {S : Type} `{Bus S}.
Variable sym : symbols.
#[local] Abbreviation AM := (M (machine S)).

Definition get_cpu_id : AM unit :=
  mrc 0 MPIDR ;; v ← rd 0; wr 0 (Z.land v 0x03).

(** One turn of the loop: [true] when it branches out. *)
Definition bss_step : AM bool :=
  a ← rd 1; b ← rd 2;
  if s32 b <? s32 a then mret true
  else str_post 0 1 4 ;; mret false.
Fixpoint bss_loop (fuel : nat) : AM unit :=
  match fuel with
  | O => no_fuel
  | Datatypes.S f => out ← bss_step; if (out : bool) then mret tt else bss_loop f
  end.
Definition c_environment_init (fuel : nat) : AM unit :=
  mov_imm 1 (SW_BSS_START sym) ;;
  mov_imm 2 (SW_BSS_END sym) ;;
  mov_imm 0 0 ;;
  bss_loop fuel.

Definition setup_CPU : AM unit :=
  mrc 1 SCTLR ;;
  bic_imm 1 1 0x10000000 ;;
  bic_imm 1 1 0x00002000 ;;
  mcr 1 SCTLR ;;
  mrc 1 NSACR ;;
  mov_imm 2 NSACR_REG_VAL ;;
  orr 1 1 2 ;;
  mcr 1 NSACR ;;
  mrc_scr 1 ;;
  bic_imm 1 1 SCR_FIQ_BIT ;;
  mcr_scr 1 ;;
  mrc 0 ACTLR ;;
  mov_imm 0 0x00 ;;
  mcr 0 ACTLR ;;
  mov_imm 0 (secure_vector_table sym) ;;
  mcr 0 VBAR ;;
  mov_imm 0 (monitor_vector_table sym) ;;
  mcr 0 MVBAR.

(** The stack of one mode. *)
Definition setup_stack (m : mode) (stack : Z) : AM unit :=
  msr_cpsr_c m (Z.lor IRQ_BIT FIQ_BIT) ;;
  mov_imm 1 stack ;;
  add_lsl 1 1 0 STACK_SIZE_SHIFT ;;
  add_imm 13 1 STACK_SIZE.
Definition setup_stacks : AM unit :=
  get_cpu_id ;;
  setup_stack FIQ_MODE (fiq_stack sym) ;;
  setup_stack ABORT_MODE (abort_stack sym) ;;
  setup_stack UNDEFINED_MODE (undefined_stack sym) ;;
  setup_stack SYSTEM_MODE (user_stack sym) ;;
  setup_stack MONITOR_MODE (monitor_stack sym).

(** Instruction cache, branch predictor and TLB operations. *)
Definition mcr_maintenance (n : nat) : AM unit := _ ← rd n; mret tt.
Definition init_vmemory : AM unit :=
  mrc 1 SCTLR ;;
  bic_imm 1 1 SCTLR_MMU_BIT ;;
  mcr 1 SCTLR ;;
  mrc 1 SCTLR ;;
  bic_imm 1 1 SCTLR_DCACHE_BIT ;;
  bic_imm 1 1 SCTLR_ICACHE_BIT ;;
  mcr 1 SCTLR ;;
  mov_imm 1 0 ;;
  mcr_maintenance 1 ;;
  mov_imm 1 0 ;;
  mcr_maintenance 1 ;;
  mov_imm 1 0 ;;
  mcr_maintenance 1.

Definition stuck_loop : AM unit := hang.

(** [main] is [ltzvisor_main]. *)
Definition reset_handler (fuel : nat) (main : AM unit) : AM unit :=
  get_cpu_id ;;
  r0 ← rd 0;
  if negb (r0 =? 0) then stuck_loop
  else
    setup_CPU ;;
    setup_stacks ;;
    init_vmemory ;;
    c_environment_init fuel ;;
    main ;;
    hang.
End entry.

(** ** Runs *)
Section entry_runs.
Context {S : Type} `{Bus S}.

(** [r0 & 3 = 0] once the processor's number has been read. *)
Ltac cp15_lookup := rewrite ?upd_cp15_lookup; cbn [cp15_get].
Ltac run := repeat istep (fun _ : Z => True).

Lemma setup_CPU_run {B} sym (f : unit -> M (machine S) B) R SP md F SC CP PC s :
  Z.testbit SC 0 = false ->
  exists R' CP',
    (setup_CPU sym ≫= f) (Machine (Cpu R SP md F SC CP PC) s) =
      f tt (Machine (Cpu R' SP md F (bic32 SC SCR_FIQ_BIT) CP' PC) s) /\
    CP' false VBAR = secure_vector_table sym /\ CP' false MVBAR = monitor_vector_table sym /\
    CP' false SCTLR = bic32 (bic32 (CP false SCTLR) 0x10000000) 0x2000 /\
    CP' false NSACR = Z.lor (CP false NSACR) NSACR_REG_VAL /\
    CP' false MPIDR = CP false MPIDR.
Proof.
  intros Hns. assert (Hns' : Z.testbit (bic32 SC SCR_FIQ_BIT) 0 = false).
  { unfold bic32. by rewrite Z.land_spec, Hns. }
  unfold setup_CPU. autounfold with arm_db. run. rewrite Hns, Hns'.
  do 2 eexists. split; [reflexivity|]. rewrite !upd_cp15_lookup. done.
Qed.

Lemma init_vmemory_run {B} (f : unit -> M (machine S) B) R SP md F SC CP PC s :
  Z.testbit SC 0 = false ->
  exists R' CP',
    (init_vmemory ≫= f) (Machine (Cpu R SP md F SC CP PC) s) =
      f tt (Machine (Cpu R' SP md F SC CP' PC) s) /\
    CP' false SCTLR = bic32 (bic32 (bic32 (CP false SCTLR) SCTLR_MMU_BIT) SCTLR_DCACHE_BIT)
      SCTLR_ICACHE_BIT /\
    (forall r, r <> SCTLR -> CP' false r = CP false r) /\
    (forall b, R' b 13%nat = R b 13%nat).
Proof.
  intros Hns. unfold init_vmemory, mcr_maintenance. autounfold with arm_db. run. rewrite Hns.
  do 2 eexists. split; [reflexivity|]. rewrite !upd_cp15_lookup. split; [done|]. split.
  - intros r Hr. rewrite !upd_cp15_lookup. repeat (destruct (decide _); [congruence|]). done.
  - intros b. by rewrite !upd_reg_ne by (intros [=]).
Qed.

Lemma setup_stack_run {B} (f : unit -> M (machine S) B) m stack R SP md F SC CP PC s :
  R Usr 0%nat = 0 -> is_u32 stack ->
  exists R',
    (setup_stack m stack ≫= f) (Machine (Cpu R SP md F SC CP PC) s) =
      f tt (Machine (Cpu R' SP m (Z.lor (bic32 F 0xFF) 0xC0) SC CP PC) s) /\
    R' (mode_bank m) 13%nat = add32 stack STACK_SIZE /\ R' Usr 0%nat = 0 /\
    forall b, b <> mode_bank m -> R' b 13%nat = R b 13%nat.
Proof.
  intros H0 Hs. unfold setup_stack. autounfold with arm_db. run. rewrite H0.
  assert (Hadd : add32 stack (shl32 0 STACK_SIZE_SHIFT) = stack).
  { unfold add32. change (shl32 0 STACK_SIZE_SHIFT) with 0. by rewrite Z.add_0_r, u32_small. }
  change (Z.lor IRQ_BIT FIQ_BIT) with 0xC0. rewrite Hadd.
  eexists. split; [reflexivity|]. fold (mode_bank m). split_and!.
  - by rewrite upd_reg_eq.
  - by rewrite !upd_reg_ne by (intros [=]).
  - intros b Hb. by rewrite !upd_reg_ne by congruence.
Qed.

Ltac next_stack H0 := repeat rewrite bind_assoc;
  match type of H0 with ?R Usr 0%nat = 0 =>
  match goal with
  | |- context [(setup_stack ?m ?a ≫= ?f) (Machine (Cpu R ?SP ?md ?F ?SC ?CP ?PC) ?s)] =>
      let R' := fresh "R" in let E := fresh in let Hs := fresh "Hs" in
      let H0' := fresh "H0" in let Hk := fresh "Hk" in
      destruct (setup_stack_run f m a R SP md F SC CP PC s H0) as (R' & E & Hs & H0' & Hk);
      [set_solver|rewrite E; clear E; cbn [mode_bank] in *; try next_stack H0']
  end end.

Lemma setup_stacks_run {B} sym (f : unit -> M (machine S) B) R SP md F SC CP PC s :
  Z.land (CP false MPIDR) 3 = 0 ->
  (forall a, a ∈ [fiq_stack sym; abort_stack sym; undefined_stack sym; user_stack sym;
    monitor_stack sym] -> is_u32 a) ->
  exists R' F',
    (setup_stacks sym ≫= f) (Machine (Cpu R SP md F SC CP PC) s) =
      f tt (Machine (Cpu R' SP MONITOR_MODE F' SC CP PC) s) /\ Z.land F' 0xE0 = 0xC0 /\
    forall a b, (a, b) ∈ [(fiq_stack sym, Fiq); (abort_stack sym, Abt);
      (undefined_stack sym, Und); (user_stack sym, Usr); (monitor_stack sym, Mon)] ->
      R' b 13%nat = add32 a STACK_SIZE.
Proof.
  intros Hid Hu. unfold setup_stacks, get_cpu_id, mrc, rd, wr. run. rewrite Hid.
  assert (H0 : upd_reg Usr 0 0 (upd_reg Usr 0 (CP false MPIDR) R) Usr 0%nat = 0) by done.
  revert H0. generalize (upd_reg Usr 0 0 (upd_reg Usr 0 (CP false MPIDR) R)). clear R. intros R H0.
  next_stack H0. do 2 eexists. split; [reflexivity|]. split.
  - rewrite Z.land_lor_distr_l. unfold bic32. rewrite <- Z.land_assoc.
    change (Z.land (not32 255) 224) with 0. by rewrite Z.land_0_r.
  - intros a b Hab. rewrite !elem_of_cons, elem_of_nil in Hab.
    destruct Hab as [[= -> ->]|[[= -> ->]|[[= -> ->]|[[= -> ->]|[[= -> ->]|[]]]]]];
      rewrite ?Hk3, ?Hk2, ?Hk1, ?Hk0 by done; done.
Qed.
(** The loop stores zeros from [a] up to and including [b]. *)
Lemma bss_loop_run n fuel R SP md F SC CP PC (s : S) a b :
  R Usr 1%nat = a -> R Usr 2%nat = b -> R Usr 0%nat = 0 ->
  0 <= a -> 0 <= b < 2 ^ 31 - 4 -> b < a + 4 * Z.of_nat n -> a + 4 * Z.of_nat n <= b + 4 ->
  (n < fuel)%nat ->
  exists R',
    bss_loop fuel (Machine (Cpu R SP md F SC CP PC) s) =
      Ok tt (Machine (Cpu R' SP md F SC CP PC) (store_words a (replicate n 0) s)) /\
    forall b' n', (b', n') <> (Usr, 1%nat) -> R' b' n' = R b' n'.
Proof.
  revert fuel R s a. induction n as [|n IH]; intros [|fuel] R s a Ha Hb H0 Ha0 Hb31 Hend Hlast Hf;
    try lia; cbn [bss_loop replicate store_words];
    unfold bss_step; autounfold with arm_db; repeat istep (fun _ : Z => True);
    rewrite Ha, Hb; unfold s32; rewrite !u32_small by (unfold is_u32; lia);
    destruct (Z.ltb_spec b (2 ^ 31)), (Z.ltb_spec a (2 ^ 31)); try lia;
    destruct (Z.ltb_spec b a); try lia.
  - rewrite bind_ret. by exists R.
  - repeat istep (fun _ : Z => True). rewrite H0, ?Ha.
    destruct (IH fuel (upd_reg Usr 1 (add32 a 4) R) (bus_wr a (u32 0) s) (add32 a 4))
      as (R' & E & HR); rewrite ?add32_small by lia; try done; try lia.
    exists R'. rewrite add32_small in E by lia. split; [exact E|].
    intros b' n' Hn. by rewrite HR, upd_reg_ne by congruence.
Qed.

(** ** Properties *)

(** The state in which [ltzvisor_main] is called. *)
Record booted (sym : symbols) (c0 c : cpu) : Prop := {
  bt_mode : cmode c = MONITOR_MODE;
  bt_masked : Z.land (cflags c) 0xE0 = 0xC0;
  bt_stacks : forall m b, (m, b) ∈ [(fiq_stack sym, Fiq); (abort_stack sym, Abt);
      (undefined_stack sym, Und); (user_stack sym, Usr); (monitor_stack sym, Mon)] ->
    regs c b 13%nat = add32 m STACK_SIZE;
  bt_vectors : cp15_get VBAR c = secure_vector_table sym /\ cp15_get MVBAR c = monitor_vector_table sym;
  bt_sctlr : cp15_get SCTLR c =
    bic32 (bic32 (bic32 (bic32 (bic32 (cp15_get SCTLR c0) 0x10000000) 0x2000)
      SCTLR_MMU_BIT) SCTLR_DCACHE_BIT) SCTLR_ICACHE_BIT;
  bt_nsacr : cp15_get NSACR c = Z.lor (cp15_get NSACR c0) NSACR_REG_VAL;
  bt_scr : scr c = bic32 (scr c0) SCR_FIQ_BIT;
}.

Record symbols_ok (sym : symbols) : Prop := {
  so_stack : forall a, a ∈ [fiq_stack sym; abort_stack sym; undefined_stack sym; user_stack sym;
    monitor_stack sym] -> is_u32 a;
  so_bss : 0 <= SW_BSS_START sym <= SW_BSS_END sym;
  so_end : SW_BSS_END sym < 2 ^ 31 - 4;
}.

(** Words the loop clears: from [SW_BSS_START] to the one at [SW_BSS_END] or
    just below. *)
Definition bss_words (sym : symbols) : nat :=
  Z.to_nat ((SW_BSS_END sym - SW_BSS_START sym) / 4 + 1).

(** C35: the boot code brings processor 0, and only it, to [ltzvisor_main]: in
    Monitor mode with both interrupts masked, each mode's stack pointer at the
    end of its stack, both vector tables installed, MMU and caches off in
    SCTLR, and the bss cleared - to the word that starts at [SW_BSS_END]
    inclusive, one more than the linker gives it. *)
Theorem reset_boots_cpu0 sym fuel (main : M (machine S) unit) c0 (s : S) :
  symbols_ok sym -> Z.land (cp15 c0 false MPIDR) 3 = 0 -> ns_bit c0 = false ->
  (bss_words sym < fuel)%nat ->
  exists c,
    reset_handler sym fuel main (Machine c0 s) =
      (main ;; hang) (Machine c (store_words (SW_BSS_START sym) (replicate (bss_words sym) 0) s)) /\
    booted sym c0 c.
Proof.
  intros [Hst Hbss Hend] Hid Hns Hf. destruct c0 as [R SP md F SC CP PC].
  unfold ns_bit in Hns. cbn [scr cp15] in *.
  assert (Hns' : Z.testbit (bic32 SC SCR_FIQ_BIT) 0 = false)
    by (unfold bic32; by rewrite Z.land_spec, Hns).
  unfold reset_handler, get_cpu_id. unfold mrc at 1, rd at 1 2, wr at 1 2. run. rewrite Hid. cbn [Z.eqb negb].
  match goal with |- context [(setup_CPU sym ≫= ?f) (Machine (Cpu ?R1 _ _ _ _ _ _) _)] =>
    destruct (setup_CPU_run sym f R1 SP md F SC CP PC s Hns)
      as (R2 & CP2 & E2 & Hv & Hm & Hsc & Hn & Hid2); rewrite E2; clear E2 end.
  rewrite <- Hid2 in Hid.
  match goal with |- context [(setup_stacks sym ≫= ?f) _] =>
    destruct (setup_stacks_run sym f R2 SP md F (bic32 SC SCR_FIQ_BIT) CP2 PC s Hid Hst)
      as (R3 & F3 & E3 & HF & Hstk); rewrite E3; clear E3 end.
  match goal with |- context [(init_vmemory ≫= ?f) _] =>
    destruct (init_vmemory_run f R3 SP MONITOR_MODE F3 (bic32 SC SCR_FIQ_BIT) CP2 PC s Hns')
      as (R4 & CP4 & E4 & Hsc4 & Hcp4 & Hk4); rewrite E4; clear E4 end.
  unfold c_environment_init, mov_imm, wr. run. unfold bss_words.
  match goal with |- context [bss_loop fuel ≫= ?f] =>
    match goal with |- context [Machine (Cpu ?R5 _ _ _ _ _ _) _] =>
    destruct (bss_loop_run (bss_words sym) fuel R5 SP MONITOR_MODE F3 (bic32 SC SCR_FIQ_BIT) CP4 PC
                s (SW_BSS_START sym) (SW_BSS_END sym)) as (R6 & E6 & HR6) end end;
    [done|done|done|lia|lia|unfold bss_words; Z.div_mod_to_equations; lia
    |unfold bss_words; Z.div_mod_to_equations; lia|done|].
  rewrite (bind_ok _ _ _ _ _ E6). eexists. split; [reflexivity|].
  assert (Hcp : forall r, r <> SCTLR -> cp15_get r (Cpu R6 SP MONITOR_MODE F3 (bic32 SC SCR_FIQ_BIT) CP4 PC) = CP2 false r).
  { intros r Hr. unfold cp15_get, ns_bit. cbn [cp15 scr]. rewrite Hns'.
    rewrite <- Hcp4 by done. by destruct (cp15_common r). }
  constructor; try done.
  - intros a b Hab. cbn [regs]. rewrite HR6 by done. rewrite !upd_reg_ne by done.
    rewrite Hk4. by apply Hstk.
  - by rewrite !Hcp.
  - unfold cp15_get, ns_bit. cbn [cp15 scr cp15_common]. by rewrite Hns', Hns, Hsc4, Hsc.
  - rewrite Hcp by done. exact Hn.
Qed.

(** Every other processor stays in the loop at the reset vector and never
    touches memory. *)
Theorem reset_parks_others sym fuel (main : M (machine S) unit) c0 (s : S) :
  Z.land (cp15 c0 false MPIDR) 3 <> 0 ->
  exists c, reset_handler sym fuel main (Machine c0 s) = Hang (Machine c s).
Proof.
  intros Hid. destruct c0 as [R SP md F SC CP PC]. cbn [cp15] in Hid.
  unfold reset_handler, get_cpu_id. unfold mrc at 1, rd at 1 2, wr at 1 2. run.
  rewrite (proj2 (Z.eqb_neq _ _) Hid). by eexists.
Qed.
End entry_runs.

Definition entry_demo_symbols : symbols :=
  Symbols 0x100 0x140 0x2000 0x4000 0x6000 0x8000 0xA000 0x10000 0x10010.
Definition entry_demo_cpu (id : Z) : cpu :=
  Cpu (fun _ _ => 0) (fun _ => 0) SUPERVISOR_MODE 0 0
    (fun _ r => match r with MPIDR => 0x80000000 + id | SCTLR => 0x00C52078 | _ => 0 end) 0.

Lemma entry_demo_ok : symbols_ok entry_demo_symbols.
Proof.
  constructor; cbn; [|lia..]. intros a Ha. rewrite !elem_of_cons, elem_of_nil in Ha.
  unfold is_u32. destruct Ha as [->|[->|[->|[->|[->|[]]]]]]; lia.
Qed.

Lemma reset_boots_cpu0_witness :
  exists c, reset_handler entry_demo_symbols 10 (mret tt) (Machine (entry_demo_cpu 0) (∅ : regfile)) =
      Hang (Machine c (store_words 0x10000 [0; 0; 0; 0; 0] ∅)) /\
    regs c Mon 13%nat = 0xA000 + 8192.
Proof.
  destruct (reset_boots_cpu0 entry_demo_symbols 10 (mret tt) (entry_demo_cpu 0) (∅ : regfile)
              entry_demo_ok eq_refl eq_refl ltac:(vm_compute; lia)) as (c & E & Hb).
  exists c. split; [exact E|]. 
  refine (bt_stacks _ _ _ Hb 0xA000 Mon _). apply (bool_decide_unpack _). by vm_compute.
Defined.

Lemma reset_parks_others_witness :
  exists c, reset_handler entry_demo_symbols 10 (mret tt) (Machine (entry_demo_cpu 1) (∅ : regfile)) =
    Hang (Machine c ∅).
Proof. 
  apply (reset_parks_others entry_demo_symbols 10 (mret tt) (entry_demo_cpu 1)).
  vm_compute. discriminate.
Defined.
