(* ===== verification/Cache.v ===== *)
(** * Cache maintenance ([arch/armv7/cpu_cache.S])

    The cache maintenance operations act on state the rest of the model does
    not have; here they are recorded in the order they are made. *)
From S2P Require Import Prelude Bus Arm.

Local Open Scope Z_scope.

(** ** Geometry ([platform_asm.h]) *)
Definition CACHE_LEVEL1_SET : Z := 1.
Definition CACHE_LEVEL2_SET : Z := 0.
Definition MAX_L1_CACHE_WAYS : Z := 3.
Definition MAX_L1_SETS : Z := 255.
Definition MAX_L1_LINE_LEN : Z := 5.
Definition MAX_L2_CACHE_WAYS : Z := 0.
Definition MAX_L2_SETS : Z := 0.
Definition MAX_L2_LINE_LEN : Z := 0.

(** ** Maintenance operations

    With the word written: invalidate, or clean and invalidate, a line of the
    data cache by set and way; invalidate the instruction cache, the branch
    predictor, the TLB whole, by address and by ASID. *)
Inductive maintenance : Type :=
| DCISW (v : Z) | DCCISW (v : Z) | ICIALLU (v : Z) | BPIALL (v : Z)
| TLBIALLIS (v : Z) | TLBIMVAIS (v : Z) | TLBIASIDIS (v : Z).

Record cached (S : Type) : Type := Cached { c_mem : S; c_ops : list maintenance }.
Arguments Cached {S}.
Arguments c_mem {S}.
Arguments c_ops {S}.

#[export] Instance cached_bus {S} `{Bus S} : Bus (cached S) := {
  bus_rd a w := let '(v, s) := bus_rd a (c_mem w) in (v, Cached s (c_ops w));
  bus_wr a v w := Cached (bus_wr a v (c_mem w)) (c_ops w);
}.

Lemma cached_peek {S} `{Bus S} a (w : cached S) : peek a w = peek a (c_mem w).
Proof. unfold peek. cbn. by destruct (bus_rd a (c_mem w)). Qed.

Lemma cached_after_rd {S} `{Bus S} a (w : cached S) :
  after_rd a w = Cached (after_rd a (c_mem w)) (c_ops w).
Proof. unfold after_rd. cbn. by destruct (bus_rd a (c_mem w)). Qed.

#[export] Instance cached_storage {S} `{Bus S} P : Storage S P -> Storage (cached S) P.
Proof.
  intros [Hrd]. constructor; intros; rewrite ?cached_peek, ?cached_after_rd; cbn; auto.
  rewrite Hrd by done. by destruct s.
Qed.

(** ** Operations *)
Section cache.
Context {S : Type} `{Bus S}.
#[local] Abbreviation AM := (M (machine (cached S))).

(** [mcr p15, ...] of a maintenance operation, with register [n]. *)
Definition mcr_op (op : Z -> maintenance) (n : nat) : AM unit :=
  v ← rd n; on_mem (modify (fun w => Cached (c_mem w) (c_ops w ++ [op v]))).
(** [orr d, n, k, lsl s] with the shift in a register *)
Definition orr_lsl (d n k s : nat) : AM unit :=
  v ← rd n; w ← rd k; sh ← rd s; wr d (Z.lor v (shl32 w (Z.land sh 0xFF))).
(** [clz d, n] *)
Definition clz (d n : nat) : AM unit :=
  v ← rd n; wr d (if v =? 0 then 32 else 31 - Z.log2 v).
(** [subs n, n, #1; bge]: [true] when the branch is taken. *)
Definition subs_bge (n : nat) : AM bool :=
  v ← rd n; wr n (sub32 v 1) ;; mret (1 <=? s32 v).

Definition r0_r12_lr : list nat := [0; 1; 2; 3; 4; 5; 6; 7; 8; 9; 10; 11; 12; 14]%nat.

Definition enable_l1_cache : AM unit :=
  push r0_r12_lr ;;
  mrc 0 SCTLR ;;
  orr_imm 1 1 SCTLR_ICACHE_BIT ;;
  orr_imm 1 1 SCTLR_DCACHE_BIT ;;
  mcr 1 SCTLR ;;
  pop r0_r12_lr.

Definition icache_inv_all : AM unit :=
  push r0_r12_lr ;;
  mov_imm 0 0 ;;
  mcr_op ICIALLU 0 ;;
  pop r0_r12_lr.

(** One line: set r4, way r9. *)
Definition set_way : AM unit :=
  orr_lsl 11 0 9 3 ;;
  orr_lsl 11 11 4 1 ;;
  r5 ← rd 5;
  if r5 =? 1 then mcr_op DCISW 11 else mcr_op DCCISW 11.

Fixpoint way_loop (fuel : nat) : AM unit :=
  match fuel with
  | O => no_fuel
  | Datatypes.S f =>
      set_way ;;
      more ← subs_bge 9;
      if (more : bool) then way_loop f else mret tt
  end.
Fixpoint data_cache_clean_invalidate_set_way (fuel : nat) : AM unit :=
  match fuel with
  | O => no_fuel
  | Datatypes.S f =>
      mov 9 2 ;;
      way_loop fuel ;;
      more ← subs_bge 4;
      if (more : bool) then data_cache_clean_invalidate_set_way f else mret tt
  end.

(** One level: CSSELR, then its geometry. *)
Definition clean_level (fuel : nat) (sel line ways sets : Z) : AM unit :=
  mov_imm 0 sel ;;
  mcr 0 CSSELR ;;
  mov_imm 1 line ;;
  mov_imm 2 ways ;;
  clz 3 2 ;;
  mov_imm 4 sets ;;
  data_cache_clean_invalidate_set_way fuel.

Definition data_cache_clean_invalidate_all (fuel : nat) : AM unit :=
  push r0_r12_lr ;;
  mov 5 0 ;;
  (if CACHE_LEVEL1_SET =? 1 then
     clean_level fuel 0 MAX_L1_LINE_LEN MAX_L1_CACHE_WAYS MAX_L1_SETS ;;
     if CACHE_LEVEL2_SET =? 1 then
       clean_level fuel 2 MAX_L2_LINE_LEN MAX_L2_CACHE_WAYS MAX_L2_SETS
     else mov_imm 0 CACHE_LEVEL2_SET
   else mov_imm 0 CACHE_LEVEL1_SET) ;;
  mov_imm 0 0 ;;
  mcr 10 CSSELR ;;
  pop r0_r12_lr.

Definition flush_all_translation_table_entries : AM unit := mcr_op TLBIALLIS 0 ;; mcr_op BPIALL 0.
Definition inv_translation_table_by_va_asid : AM unit := mcr_op TLBIMVAIS 0 ;; mcr_op BPIALL 0.
Definition inv_translation_table_by_asid : AM unit := mcr_op TLBIASIDIS 0 ;; mcr_op BPIALL 0.

Definition flush_icache_and_dcache (fuel : nat) : AM unit :=
  push r0_r12_lr ;;
  mov_imm 0 0 ;;
  data_cache_clean_invalidate_all fuel ;;
  mov_imm 0 0 ;;
  mcr_op ICIALLU 0 ;;
  pop r0_r12_lr.
End cache.

(** ** Runs *)

(** [n, n-1, ..., 0] *)
Fixpoint downto (n : nat) : list Z :=
  Z.of_nat n :: match n with O => [] | Datatypes.S k => downto k end.

Lemma elem_of_downto n z : z ∈ downto n <-> 0 <= z <= Z.of_nat n.
Proof.
  induction n as [|n IH]; cbn [downto]; rewrite elem_of_cons.
  - rewrite elem_of_nil. cbn. lia.
  - rewrite IH. lia.
Qed.

Lemma length_downto n : length (downto n) = S n.
Proof. induction n as [|n IH]; [done|]. cbn [downto length]. by rewrite IH. Qed.

Lemma downto_nodup n : NoDup (downto n).
Proof.
  induction n as [|n IH]; cbn [downto]; constructor; try done; [by apply not_elem_of_nil|constructor|].
  rewrite elem_of_downto. lia.
Qed.

(** The word that names a line: level, way and set. *)
Definition line_word (level z l set way : Z) : Z :=
  Z.lor (Z.lor level (shl32 way (Z.land z 0xFF))) (shl32 set (Z.land l 0xFF)).
Definition line_op (r5 : Z) : Z -> maintenance := if r5 =? 1 then DCISW else DCCISW.

(** The lines of one set; of sets [m] down to 0. *)
Definition set_lines (level z l : Z) (n : nat) (set : Z) : list Z :=
  line_word level z l set <$> downto n.
Definition all_lines (level z l : Z) (n m : nat) : list Z :=
  downto m ≫= set_lines level z l n.

(** Only the registers of a list change. *)
Definition listed (b : bank) (n : nat) (l : list (bank * nat)) : bool :=
  existsb (fun p => bank_eqb b p.1 && (n =? p.2)%nat) l.
Definition only (l : list (bank * nat)) (R R' : bank -> nat -> Z) : Prop :=
  forall b n, listed b n l = false -> R' b n = R b n.

Lemma only_trans l R1 R2 R3 : only l R1 R2 -> only l R2 R3 -> only l R1 R3.
Proof. intros H1 H2 b n Hn. by rewrite H2, H1. Qed.

Lemma listed_upd b n b' n' : listed b' n' [(b, n)] = false -> (b, n) <> (b', n').
Proof. intros Hl [= <- <-]. cbn in Hl. rewrite Nat.eqb_refl in Hl. by destruct b. Qed.

Lemma only_upd b n v R : only [(b, n)] R (upd_reg b n v R).
Proof. intros b' n' Hn. by apply upd_reg_ne, listed_upd. Qed.

Lemma only_incl l l' R R' :
  forallb (fun p => listed p.1 p.2 l') l = true -> only l R R' -> only l' R R'.
Proof.
  intros Hl Ho b n Hn. apply Ho. unfold listed. apply not_true_is_false.
  intros ([b' n'] & Hin & Hb)%existsb_exists. rewrite forallb_forall in Hl. specialize (Hl _ Hin).
  cbn [fst snd] in *. apply andb_true_iff in Hb as [Eb En%Nat.eqb_eq]. subst n'.
  assert (b = b') as <- by (by destruct b, b'). congruence.
Qed.

(** Explicit updates. *)
Ltac only_upds :=
  lazymatch goal with
  | |- only _ _ (upd_reg ?b ?n ?v ?R0) =>
      apply (only_trans _ _ R0); [only_upds|apply (only_incl [(b, n)]); [reflexivity|apply only_upd]]
  | |- only _ ?R ?R => intros ? ? ?; reflexivity
  end.

Section cache_runs.
Context {S : Type} `{Bus S}.
Variables (SP : bank -> Z) (F SC : Z) (CP : bool -> cp15_reg -> Z) (PC : Z).
#[local] Abbreviation at_ R s ops := (Machine (Cpu R SP MONITOR_MODE F SC CP PC) (Cached (s : S) ops)).

Lemma mcr_op_run {B} op n v (f : unit -> M (machine (cached S)) B) R s ops :
  R (reg_bank MONITOR_MODE n) n = v ->
  (mcr_op op n ≫= f) (at_ R s ops) = f tt (at_ R s (ops ++ [op v])).
Proof. by intros <-. Qed.

#[local] Abbreviation scratch := [(Usr, 9%nat); (Usr, 11%nat)].

Lemma set_way_run {B} (f : unit -> M (machine (cached S)) B) R s ops :
  exists R',
    (set_way ≫= f) (at_ R s ops) =
      f tt (at_ R' s (ops ++ [line_op (R Usr 5%nat)
        (line_word (R Usr 0%nat) (R Usr 3%nat) (R Usr 1%nat) (R Usr 4%nat) (R Usr 9%nat))])) /\
    only [(Usr, 11%nat)] R R'.
Proof.
  unfold set_way, orr_lsl. autounfold with arm_db. repeat istep (fun _ : Z => True).
  eexists. split.
  - unfold line_op.
    destruct (_ =? 1); (rewrite (mcr_op_run _ 11 _ _ _ _ _ eq_refl); cbn [reg_bank]; reflexivity).
  - eapply only_trans; apply only_upd.
Qed.

Lemma subs_bge_run {B} n k (f : bool -> M (machine (cached S)) B) R s ops :
  (n < 13)%nat -> R Usr n = Z.of_nat k -> Z.of_nat k < 2 ^ 31 ->
  exists R',
    (subs_bge n ≫= f) (at_ R s ops) = f (match k with O => false | _ => true end) (at_ R' s ops) /\
    only [(Usr, n)] R R' /\ (forall k', k = Datatypes.S k' -> R' Usr n = Z.of_nat k').
Proof.
  intros Hn Hk Hb. unfold subs_bge, rd, wr.
  assert (Hbank : reg_bank MONITOR_MODE n = Usr).
  { unfold reg_bank. destruct (Nat.ltb_spec n 8), (Nat.ltb_spec n 13); try lia; done. }
  rewrite bind_assoc, (from_cpu_run _ _ _ _ (Z.of_nat k)) by (unfold rget; cbn [cmode regs]; by rewrite Hbank).
  rewrite bind_assoc. unfold on_cpu at 1. rewrite bind_modify, bind_ret.
  cbn [cpu_of mem]. unfold rset. cbn [cmode regs set_regs]. rewrite Hbank.
  exists (upd_reg Usr n (sub32 (Z.of_nat k) 1) R). split; [|split].
  - unfold s32. rewrite u32_small by (unfold is_u32; lia).
    destruct (Z.ltb_spec (Z.of_nat k) (2 ^ 31)); [|lia].
    destruct k as [|k]; [done|]. by destruct (Z.leb_spec 1 (Z.of_nat (Datatypes.S k))); [|lia].
  - apply only_upd.
  - intros k' ->. rewrite upd_reg_eq, sub32_small by lia. lia.
Qed.

(** The ways of one set. *)
Lemma way_loop_run {B} n fuel (f : unit -> M (machine (cached S)) B) R s ops :
  R Usr 9%nat = Z.of_nat n -> Z.of_nat n < 2 ^ 31 -> (n < fuel)%nat ->
  exists R',
    (way_loop fuel ≫= f) (at_ R s ops) =
      f tt (at_ R' s (ops ++ (line_op (R Usr 5%nat) <$>
        set_lines (R Usr 0%nat) (R Usr 3%nat) (R Usr 1%nat) n (R Usr 4%nat)))) /\
    only scratch R R'.
Proof.
  revert fuel R ops. induction n as [|n IH]; intros [|fuel] R ops Hw Hb Hf; try lia;
    cbn [way_loop]; rewrite bind_assoc;
    match goal with |- context [(set_way ≫= ?k) _] =>
      destruct (set_way_run k R s ops) as (R1 & E1 & K1); rewrite E1; clear E1 end;
    rewrite bind_assoc;
    match goal with |- context [(subs_bge 9 ≫= ?k) (Machine _ (Cached _ ?o))] =>
      destruct (subs_bge_run 9 _ k R1 s o ltac:(lia) (eq_trans (K1 Usr 9%nat eq_refl) Hw) ltac:(lia))
        as (R2 & E2 & K2 & H2); rewrite E2; clear E2 end;
    (assert (K12 : only scratch R R2) by
      (eapply only_trans; [refine (only_incl _ _ _ _ _ K1); reflexivity|refine (only_incl _ _ _ _ _ K2); reflexivity])).
  - rewrite bind_ret. exists R2. split; [|done]. by rewrite Hw.
  - specialize (H2 n eq_refl).
    destruct (IH fuel R2 (ops ++ [line_op (R Usr 5%nat) (line_word (R Usr 0%nat) (R Usr 3%nat)
      (R Usr 1%nat) (R Usr 4%nat) (R Usr 9%nat))]) H2 ltac:(lia) ltac:(lia)) as (R3 & E3 & K3).
    rewrite E3. exists R3. split; [|by eapply only_trans].
    rewrite !(K12 Usr) by reflexivity. rewrite Hw. unfold set_lines. cbn [downto fmap list_fmap].
    by rewrite <- app_assoc.
Qed.

(** All sets. *)
Lemma set_way_loops_run {B} n m fuel (f : unit -> M (machine (cached S)) B) R s ops :
  R Usr 4%nat = Z.of_nat m -> Z.of_nat m < 2 ^ 31 -> (m < fuel)%nat ->
  R Usr 2%nat = Z.of_nat n -> Z.of_nat n < 2 ^ 31 -> (n + m < fuel)%nat ->
  exists R',
    (data_cache_clean_invalidate_set_way fuel ≫= f) (at_ R s ops) =
      f tt (at_ R' s (ops ++ (line_op (R Usr 5%nat) <$>
        all_lines (R Usr 0%nat) (R Usr 3%nat) (R Usr 1%nat) n m))) /\
    only ((Usr, 4%nat) :: scratch) R R'.
Proof.
  revert fuel R ops. induction m as [|m IH]; intros [|fuel] R ops Hs Hbs Hfs Hw Hbw Hf; try lia;
    cbn [data_cache_clean_invalidate_set_way]; unfold mov, rd, wr;
    repeat istep (fun _ : Z => True);
    (match goal with |- context [(way_loop ?fu ≫= ?k) (Machine (Cpu ?R0 _ _ _ _ _ _) _)] =>
      destruct (way_loop_run n fu k R0 s ops Hw Hbw ltac:(lia)) as (R1 & E1 & K1);
      rewrite E1; clear E1; assert (K01 : only scratch R R1) by
        (eapply only_trans; [apply (only_incl [(Usr, 9%nat)]); [done|apply only_upd]|exact K1]) end);
    rewrite bind_assoc;
    match goal with |- context [(subs_bge 4 ≫= ?k) (Machine _ (Cached _ ?o))] =>
      destruct (subs_bge_run 4 _ k R1 s o ltac:(lia) (eq_trans (K01 Usr 4%nat eq_refl) Hs) ltac:(lia))
        as (R2 & E2 & K2 & H2); rewrite E2; clear E2 end;
    (assert (K12 : only ((Usr, 4%nat) :: scratch) R R2) by
      (eapply only_trans; [refine (only_incl _ _ _ _ _ K01); reflexivity|refine (only_incl _ _ _ _ _ K2); reflexivity])).
  - rewrite bind_ret. exists R2. split; [|done]. rewrite !upd_reg_ne by done. rewrite Hs.
    unfold all_lines. cbn [downto mbind list_bind]. by rewrite app_nil_r.
  - specialize (H2 m eq_refl).
    match goal with |- context [Cached _ ?o] =>
      destruct (IH fuel R2 o H2 ltac:(lia) ltac:(lia) ltac:(rewrite (K12 Usr 2%nat) by reflexivity; done)
                  Hbw ltac:(lia)) as (R3 & E3 & K3) end.
    rewrite E3. exists R3. split; [|by eapply only_trans].
    rewrite !(K12 Usr) by reflexivity. rewrite !upd_reg_ne by done. rewrite Hs.
    unfold all_lines. cbn [downto mbind list_bind]. by rewrite fmap_app, <- app_assoc.
Qed.
End cache_runs.

(** The lines of the first-level cache. *)
Definition l1_lines : list Z := all_lines 0 30 MAX_L1_LINE_LEN 3 255.

Lemma l1_lines_all :
  length l1_lines = 1024%nat /\ NoDup l1_lines /\
  forall set way, 0 <= set < 256 -> 0 <= way < 4 ->
    Z.lor (Z.shiftl way 30) (Z.shiftl set 5) ∈ l1_lines.
Proof.
  split; [by vm_compute|]. split; [by apply (bool_decide_unpack _); vm_compute|].
  intros set way Hs Hw. unfold l1_lines, all_lines. apply list_elem_of_bind.
  exists set. split; [|by apply elem_of_downto; lia].
  unfold set_lines. apply list_elem_of_fmap. exists way. split; [|apply elem_of_downto; lia].
  unfold line_word. change (Z.land 30 0xFF) with 30. change (Z.land MAX_L1_LINE_LEN 0xFF) with 5.
  rewrite Z.lor_0_l. unfold shl32. rewrite !u32_small; [done|..];
    unfold is_u32; rewrite Z.shiftl_mul_pow2 by lia; change (2 ^ 5) with 32; change (2 ^ 30) with 1073741824; lia.
Qed.

Lemma store_words_cached {S} `{Bus S} a vs (s : S) ops :
  store_words a vs (Cached s ops) = Cached (store_words a vs s) ops.
Proof. revert a s. induction vs as [|v vs IH]; intros a s; [done|]. cbn. apply IH. Qed.

Lemma peek_words_cached {S} `{Bus S} a n (s : S) ops :
  peek_words a n (Cached s ops) = peek_words a n s.
Proof.
  revert a. induction n as [|n IH]; intros a; [done|]. cbn. by rewrite IH, cached_peek.
Qed.

(** The block that was pushed is popped. *)
Ltac unstack Ram Hstk :=
  match goal with
  | |- context [peek_words ?a ?n (Cached (store_words ?a ?vs ?s) ?o)] =>
      rewrite (peek_words_cached a n (store_words a vs s) o), (peek_words_store_in Ram a vs s :
        _ -> peek_words a n (store_words a vs s) = u32 <$> vs) by exact Hstk;
      cbn [fmap list_fmap]
  end.

(** The registers after a routine that saves and restores them all. *)
Definition restored (R R' : bank -> nat -> Z) : Prop :=
  (forall n, (n < 13)%nat -> R' Usr n = u32 (R Usr n)) /\
  R' Mon 13%nat = R Mon 13%nat /\ R' Mon 14%nat = u32 (R Mon 14%nat).

Definition level_regs : list (bank * nat) :=
  [(Usr, 0); (Usr, 1); (Usr, 2); (Usr, 3); (Usr, 4); (Usr, 9); (Usr, 11)]%nat.

Section routines.
Context {S : Type} `{Bus S}.
Variable Ram : Z -> Prop.
Context `{!Storage S Ram}.
Variable stk : Z.
Hypothesis Hstk : ram_at Ram stk 14.
Hypothesis Htop : stk + 56 < 2 ^ 32.

Lemma clean_level_run {B} n m fuel sel line (f : unit -> M (machine (cached S)) B)
    R SP F SC CP PC s ops :
  Z.of_nat n < 2 ^ 31 -> Z.of_nat m < 2 ^ 31 -> (n + m < fuel)%nat ->
  exists R',
    (clean_level fuel sel line (Z.of_nat n) (Z.of_nat m) ≫= f)
      (Machine (Cpu R SP MONITOR_MODE F SC CP PC) (Cached s ops)) =
      f tt (Machine (Cpu R' SP MONITOR_MODE F SC (upd_cp15 (Z.testbit SC 0) CSSELR sel CP) PC)
        (Cached s (ops ++ (line_op (R Usr 5%nat) <$>
           all_lines sel (if Z.of_nat n =? 0 then 32 else 31 - Z.log2 (Z.of_nat n)) line n m)))) /\
    only level_regs R R'.
Proof.
  intros Hn Hm Hf. unfold clean_level, clz. autounfold with arm_db.
  repeat istep (fun _ : Z => True).
  match goal with |- context [(data_cache_clean_invalidate_set_way fuel ≫= ?k)
      (Machine (Cpu ?R0 ?SP0 _ ?F0 ?SC0 ?CP0 ?PC0) _)] =>
    destruct (set_way_loops_run SP0 F0 SC0 CP0 PC0 n m fuel k R0 s ops eq_refl Hm ltac:(lia) eq_refl Hn Hf)
      as (R1 & E1 & K1); rewrite E1; clear E1 end.
  exists R1. split; [reflexivity|].
  eapply only_trans; [|refine (only_incl _ _ _ _ _ K1); reflexivity]. only_upds.
Qed.

Lemma dcache_all_run R SP F SC CP PC s ops fuel :
  R Mon 13%nat = stk + 56 -> (258 < fuel)%nat ->
  exists R' s',
    data_cache_clean_invalidate_all fuel
      (Machine (Cpu R SP MONITOR_MODE F SC CP PC) (Cached s ops)) =
      Ok tt (Machine (Cpu R' SP MONITOR_MODE F SC
               (upd_cp15 (Z.testbit SC 0) CSSELR (R Usr 10%nat) (upd_cp15 (Z.testbit SC 0) CSSELR 0 CP)) PC)
        (Cached s' (ops ++ (line_op (R Usr 0%nat) <$> l1_lines)))) /\
    restored R R' /\
    forall x, Ram x -> x < stk \/ stk + 56 <= x -> peek x s' = peek x s.
Proof.
  intros Hsp Hf. rewrite <- (bind_ret_r (data_cache_clean_invalidate_all fuel)).
  unfold data_cache_clean_invalidate_all. change (CACHE_LEVEL1_SET =? 1) with true.
  change (CACHE_LEVEL2_SET =? 1) with false. cbv iota.
  autounfold with arm_db. unfold r0_r12_lr. cbn [length].
  destruct (id Hstk) as (? & ? & _).
  repeat (istep Ram; rewrite ?Hsp; norm_addr). rewrite store_words_cached.
  match goal with |- context [(clean_level fuel ?sel ?line ?ways ?sets ≫= ?k)
      (Machine (Cpu ?R0 ?SP0 _ ?F0 ?SC0 ?CP0 ?PC0) (Cached ?s0 ?o0))] =>
    destruct (clean_level_run 3 255 fuel sel line k R0 SP0 F0 SC0 CP0 PC0 s0 o0 ltac:(lia) ltac:(lia) ltac:(lia))
      as (R1 & E1 & K1) end.
  change (Z.of_nat 3) with MAX_L1_CACHE_WAYS in E1. change (Z.of_nat 255) with MAX_L1_SETS in E1.
  rewrite E1; clear E1.
  assert (H13 : R1 Mon 13%nat = stk) by (by rewrite K1).
  assert (H10 : R1 Usr 10%nat = R Usr 10%nat) by (by rewrite K1).
  repeat (istep Ram; rewrite ?H13, ?H10; norm_addr;
    try unstack Ram Hstk).
  do 2 eexists. split; [reflexivity|]. split; [|intros x Hx Ho; apply (peek_store_words_out Ram); cbn; done || lia].
  split_and!; [|exact (eq_sym Hsp)|done].
  intros n Hn. do 13 (destruct n as [|n]; [reflexivity|]). lia.
Qed.
End routines.

(** C36: cleaning the data cache terminates and reaches every line.  The nested
    loops over ways and sets make one maintenance operation for each of the
    256 sets and 4 ways of the first-level cache, none twice: an invalidation
    if r0 is 1, a clean and invalidation otherwise.  The registers and the
    memory other than the stack are as before; CSSELR is left with whatever
    the caller had in r10. *)
Theorem data_cache_every_line {S} `{Bus S} (Ram : Z -> Prop) (stk : Z) (R : bank -> nat -> Z)
    (SP : bank -> Z) (F SC : Z) (CP : bool -> cp15_reg -> Z) (PC : Z) (s : S)
    (ops : list maintenance) (fuel : nat) :
  Storage S Ram -> ram_at Ram stk 14 -> stk + 56 < 2 ^ 32 -> R Mon 13%nat = stk + 56 ->
  (258 < fuel)%nat ->
  exists c' s' lines,
    data_cache_clean_invalidate_all fuel
      (Machine (Cpu R SP MONITOR_MODE F SC CP PC) (Cached s ops)) =
      Ok tt (Machine c' (Cached s' (ops ++ ((if R Usr 0%nat =? 1 then DCISW else DCCISW) <$> lines)))) /\
    length lines = 1024%nat /\ NoDup lines /\
    (forall set way, 0 <= set < 256 -> 0 <= way < 4 ->
       Z.lor (Z.shiftl way 30) (Z.shiftl set 5) ∈ lines) /\
    restored R (regs c') /\ cp15_get CSSELR c' = R Usr 10%nat /\
    (forall x, Ram x -> x < stk \/ stk + 56 <= x -> peek x s' = peek x s).
Proof.
  intros HS Hstk Htop Hsp Hf.
  destruct (dcache_all_run Ram stk Hstk Htop R SP F SC CP PC s ops fuel Hsp Hf) as (R' & s' & E & HR & HM).
  destruct l1_lines_all as (H1 & H2 & H3).
  do 2 eexists. exists l1_lines. split; [exact E|]. split_and!; try done.
  unfold cp15_get, ns_bit. cbn [cp15 scr cp15_common]. unfold upd_cp15 at 1.
  by rewrite eqb_reflx, bool_decide_true.
Qed.

Definition cache_cpu : cpu :=
  Cpu (fun b n => match b, n with Mon, 13%nat => 0x2038 | _, _ => 0 end)
    (fun _ => 0) MONITOR_MODE 0x1C0 0 (fun _ _ => 0) 0.

Lemma data_cache_every_line_witness :
  exists c' s' lines,
    data_cache_clean_invalidate_all 259 (Machine cache_cpu (Cached (∅ : regfile) [])) =
      Ok tt (Machine c' (Cached s' (DCCISW <$> lines))) /\ length lines = 1024%nat.
Proof.
  destruct (data_cache_every_line (fun _ => True) 0x2000 (regs cache_cpu) (fun _ => 0) 0x1C0 0
              (fun _ _ => 0) 0 (∅ : regfile) [] 259 _) as (c' & s' & lines & E & Hl & _);
    [unfold ram_at; split_and!; done || lia|lia|done|lia|].
  exists c', s', lines. exact (conj E Hl).
Defined.

(** [enable_l1_cache] reads SCTLR into r0 but sets the cache bits of r1 and
    writes that: SCTLR becomes the caller's r1 with two bits set. *)
Lemma enable_l1_cache_stale {S} `{Bus S} (Ram : Z -> Prop) (stk : Z) R SP F SC CP PC (w : cached S) :
  Storage S Ram -> ram_at Ram stk 14 -> stk + 56 < 2 ^ 32 -> R Mon 13%nat = stk + 56 ->
  exists R' w',
    enable_l1_cache (Machine (Cpu R SP MONITOR_MODE F SC CP PC) w) =
      Ok tt (Machine (Cpu R' SP MONITOR_MODE F SC
        (upd_cp15 (Z.testbit SC 0) SCTLR (Z.lor (Z.lor (R Usr 1%nat) 0x1000) 4) CP) PC) w') /\
    restored R R'.
Proof.
  intros HS Hstk Htop Hsp. rewrite <- (bind_ret_r enable_l1_cache). unfold enable_l1_cache.
  autounfold with arm_db. unfold r0_r12_lr. cbn [length].
  destruct w as [s ops]. destruct (id Hstk) as (? & ? & _).
  repeat (istep Ram; rewrite ?Hsp, ?store_words_cached; norm_addr;
    try unstack Ram Hstk).
  do 2 eexists. split; [reflexivity|].
  split_and!; [|exact (eq_sym Hsp)|done].
  intros n Hn. do 13 (destruct n as [|n]; [reflexivity|]). lia.
Qed.
