(* ===== verification/Mmu.v ===== *)
(** * The translation table ([arch/armv7/translation_table.S])

    The first-level table the assembler builds: one word for each megabyte of
    the address space. *)
From S2P Require Import Prelude.

Local Open Scope Z_scope.

(** ** The table

    [.rept n .word SECT + flags; .set SECT, SECT + 0x100000 .endr] *)
Definition rept (sect n flags : Z) : list Z := (fun k => 0x100000 * (sect + k) + flags) <$> seqZ 0 n.

(** The repeated words in order, with the assembler's count of DDR sections.
    [cpu_defines.h], which the file includes, defines [USE_AMP]: the first
    megabyte is cached by this processor only. *)
Definition FIRST : Z := 0x14de6.
Definition DDR : Z := 0x15de6.
Definition UNASSIGNED : Z := 0x0.
Definition FPGA : Z := 0xc02.
Definition DEVICE : Z := 0xc06.
Definition SRAM : Z := 0xc0e.
Definition QSPI : Z := 0xc0a.
Definition OCM : Z := 0x4c0e.
Definition UNDEF_REG (ddr_reg : Z) : Z := 0x3FF - ddr_reg.
Definition mmu_sections (ddr_reg : Z) : list (Z * Z) :=
  [ (1, FIRST); (ddr_reg, DDR); (UNDEF_REG ddr_reg, UNASSIGNED); (0x0400, FPGA); (0x0400, FPGA);
    (0x0200, UNASSIGNED); (0x003, DEVICE); (0x0D, UNASSIGNED); (0x0010, DEVICE);
    (0x0020, DEVICE); (0x0020, SRAM); (0x0120, UNASSIGNED); (0x0010, DEVICE);
    (0x0030, UNASSIGNED); (0x0020, QSPI); (0x001F, UNASSIGNED); (1, OCM) ].

Fixpoint mmu_words (sect : Z) (l : list (Z * Z)) : list Z :=
  match l with
  | [] => []
  | (n, flags) :: l' => rept sect n flags ++ mmu_words (sect + n) l'
  end.
Definition MMUTable (ddr_reg : Z) : list Z := mmu_words 0 (mmu_sections ddr_reg).

(** [XPAR_PS7_DDR_0_S_AXI_BASEADDR] is not defined here: the header that
    defines it is commented out. *)
Definition DDR_REG : Z := 0.

(** ** Translation

    A first-level lookup: bits 1 and 0 of the word tell a section from a fault. *)
Definition translate (table : list Z) (va : Z) : option Z :=
  match table !! Z.to_nat (va / 0x100000) with
  | Some d => if Z.land d 3 =? 2 then Some (Z.lor (Z.land d 0xFFF00000) (Z.land va 0xFFFFF)) else None
  | None => None
  end.

(** The regions of the header's table: attributes by address. *)
Definition region (ddr_reg va : Z) : Z :=
  if va <? 0x100000 then FIRST
  else if va <? 0x100000 * (1 + ddr_reg) then DDR
  else if va <? 0x40000000 then UNASSIGNED
  else if va <? 0xC0000000 then FPGA
  else if va <? 0xE0000000 then UNASSIGNED
  else if va <? 0xE0300000 then DEVICE
  else if va <? 0xE1000000 then UNASSIGNED
  else if va <? 0xE4000000 then DEVICE
  else if va <? 0xE6000000 then SRAM
  else if va <? 0xF8000000 then UNASSIGNED
  else if va <? 0xF9000000 then DEVICE
  else if va <? 0xFC000000 then UNASSIGNED
  else if va <? 0xFE000000 then QSPI
  else if va <? 0xFFF00000 then UNASSIGNED
  else OCM.

(** The flags of a section. *)
Fixpoint section_flags (l : list (Z * Z)) (i : Z) : Z :=
  match l with
  | [] => 0
  | (n, flags) :: l' => if i <? n then flags else section_flags l' (i - n)
  end.
Definition total (l : list (Z * Z)) : Z := foldr (fun p t => p.1 + t) 0 l.

Lemma length_rept sect n flags : length (rept sect n flags) = Z.to_nat n.
Proof. unfold rept. by rewrite length_fmap, length_seqZ. Qed.

Lemma total_nonneg l : Forall (fun p => 0 <= p.1) l -> 0 <= total l.
Proof. induction 1 as [|p l Hp Hl IH]; cbn [total foldr] in *; [done|]. unfold total in IH. lia. Qed.

Lemma length_mmu_words l sect :
  Forall (fun p => 0 <= p.1) l -> length (mmu_words sect l) = Z.to_nat (total l).
Proof.
  intros Hl. revert sect. induction Hl as [|[n flags] l Hn Hl IH]; intros sect; [done|].
  cbn [mmu_words total foldr fst] in *. fold (total l).
  pose proof (total_nonneg l Hl). rewrite length_app, length_rept, IH. lia.
Qed.

Lemma mmu_words_lookup l sect i :
  Forall (fun p => 0 <= p.1) l -> 0 <= i < total l ->
  mmu_words sect l !! Z.to_nat i = Some (0x100000 * (sect + i) + section_flags l i).
Proof.
  intros Hl. revert sect i. induction Hl as [|[n flags] l Hn Hl IH]; intros sect i Hi; [cbn in Hi; lia|].
  cbn [mmu_words total foldr fst section_flags] in *. fold (total l) in *.
  destruct (Z.ltb_spec i n).
  - rewrite lookup_app_l by (rewrite length_rept; lia). unfold rept.
    rewrite list_lookup_fmap, lookup_seqZ_lt by lia. cbn. do 2 f_equal. lia.
  - rewrite lookup_app_r by (rewrite length_rept; lia). rewrite length_rept.
    replace (Z.to_nat i - Z.to_nat n)%nat with (Z.to_nat (i - n)) by lia.
    rewrite IH by lia. do 2 f_equal. lia.
Qed.

Lemma mmu_sections_ok ddr_reg :
  0 <= ddr_reg <= 0x3FF ->
  Forall (fun p => 0 <= p.1) (mmu_sections ddr_reg) /\ total (mmu_sections ddr_reg) = 4096.
Proof.
  intros Hd. unfold mmu_sections, UNDEF_REG. split; [repeat constructor; cbn; lia|]. cbn. lia.
Qed.

Lemma section_flags_region ddr_reg i va :
  0 <= ddr_reg <= 0x3FF -> i = va / 0x100000 -> 0 <= va < 2 ^ 32 ->
  section_flags (mmu_sections ddr_reg) i = region ddr_reg va.
Proof.
  intros Hd Hi Hv. assert (Hb : 0x100000 * i <= va < 0x100000 * (i + 1)) by (Z.div_mod_to_equations; lia).
  clear Hi. unfold mmu_sections, UNDEF_REG, region. cbn [section_flags].
  repeat match goal with |- context [if ?a <? ?b then _ else _] => destruct (Z.ltb_spec a b) end;
    try done; exfalso; lia.
Qed.

(** A word with the flags of a region is a section exactly when it is assigned. *)
Lemma region_flags ddr_reg va :
  0 <= region ddr_reg va < 2 ^ 20 /\
  (Z.land (region ddr_reg va) 3 =? 2) = negb (region ddr_reg va =? UNASSIGNED).
Proof. unfold region. repeat case_match; by vm_compute. Qed.

Lemma section_word sect flags va :
  0 <= sect < 4096 -> 0 <= flags < 2 ^ 20 ->
  Z.land (0x100000 * sect + flags) 3 = Z.land flags 3 /\
  Z.lor (Z.land (0x100000 * sect + flags) 0xFFF00000) (Z.land va 0xFFFFF) =
    0x100000 * sect + va mod 0x100000.
Proof.
  intros Hs Hf. change 3 with (Z.ones 2). change 0xFFFFF with (Z.ones 20).
  change 0xFFF00000 with (Z.shiftl (Z.ones 12) 20). rewrite !Z.land_ones by lia.
  change (2 ^ 2) with 4. change (2 ^ 20) with 1048576 in *.
  split; [Z.div_mod_to_equations; lia|].
  assert (E : Z.land (1048576 * sect + flags) (Z.shiftl (Z.ones 12) 20) = Z.shiftl sect 20).
  { apply Z.bits_inj'. intros k Hk. rewrite Z.land_spec, !Z.shiftl_spec by done.
    destruct (Z.ltb_spec k 20).
    - rewrite (Z.testbit_neg_r (Z.ones 12)), (Z.testbit_neg_r sect) by lia. apply andb_false_r.
    - rewrite <- (Z.mod_small sect (2 ^ 12)) at 2 by lia. rewrite <- Z.land_ones, Z.land_spec by lia.
      f_equal. replace k with (k - 20 + 20) at 1 by lia. rewrite <- Z.shiftr_spec by lia. f_equal.
      rewrite Z.shiftr_div_pow2 by lia. change (2 ^ 20) with 1048576. Z.div_mod_to_equations. lia. }
  assert (Hd : Z.land (Z.shiftl sect 20) (va mod 1048576) = 0).
  { change 1048576 with (2 ^ 20). apply Z.bits_inj'. intros k Hk.
    rewrite Z.land_spec, Z.shiftl_spec, Z.testbit_0_l by done.
    destruct (Z.ltb_spec k 20); [by rewrite (Z.testbit_neg_r sect) by lia|].
    rewrite (Z.mod_pow2_bits_high va) by lia. apply andb_false_r. }
  rewrite E, <- Z.lxor_lor, <- Z.add_nocarry_lxor by done.
  rewrite Z.shiftl_mul_pow2 by lia. change (2 ^ 20) with 1048576. lia.
Qed.

(** C37: the table maps the address space as its header says.  It has 4096
    words; for every address the word found for it has the attributes of the
    address's region, and translates the address to itself if the region is
    assigned and faults if it is not.  The first megabyte has attributes of its
    own; the DDR region is the [ddr_reg] megabytes after it. *)
Theorem mmu_table_regions (ddr_reg va : Z) :
  0 <= ddr_reg <= 0x3FF -> 0 <= va < 2 ^ 32 ->
  length (MMUTable ddr_reg) = 4096%nat /\
  (exists d, MMUTable ddr_reg !! Z.to_nat (va / 0x100000) = Some d /\
    d mod 0x100000 = region ddr_reg va) /\
  translate (MMUTable ddr_reg) va =
    if region ddr_reg va =? UNASSIGNED then None else Some va.
Proof.
  intros Hd Hv. destruct (mmu_sections_ok ddr_reg Hd) as [Hl Ht].
  assert (Hi : 0 <= va / 0x100000 < 4096) by (Z.div_mod_to_equations; lia).
  assert (E : MMUTable ddr_reg !! Z.to_nat (va / 0x100000) =
    Some (0x100000 * (va / 0x100000) + region ddr_reg va)).
  { unfold MMUTable. rewrite mmu_words_lookup by (done || lia).
    by rewrite (section_flags_region _ _ va) by (done || lia). }
  destruct (region_flags ddr_reg va) as [Hr Hb].
  destruct (section_word (va / 0x100000) (region ddr_reg va) va Hi Hr) as [H3 Hw].
  split; [unfold MMUTable; by rewrite length_mmu_words, Ht|]. split.
  - eexists. split; [exact E|]. change (2 ^ 20) with 0x100000 in Hr.
    rewrite Z.mul_comm, Z.add_comm, Z_mod_plus_full. by apply Z.mod_small.
  - unfold translate. rewrite E, H3, Hb, Hw. destruct (_ =? UNASSIGNED); cbn [negb]; [done|].
    f_equal. Z.div_mod_to_equations. lia.
Qed.

Lemma mmu_table_regions_witness :
  translate (MMUTable DDR_REG) 0xE0001000 = Some 0xE0001000 /\
  translate (MMUTable 0x1FF) 0x100000 = Some 0x100000 /\
  exists d, MMUTable DDR_REG !! 0%nat = Some d /\ d mod 0x100000 = 0x14de6.
Proof.
  destruct (mmu_table_regions DDR_REG 0xE0001000) as (_ & _ & E1); [unfold DDR_REG; lia|lia|].
  destruct (mmu_table_regions 0x1FF 0x100000) as (_ & _ & E2); [lia|lia|].
  destruct (mmu_table_regions DDR_REG 0x1000) as (_ & E3 & _); [unfold DDR_REG; lia|lia|].
  exact (conj E1 (conj E2 E3)).
Defined.

(** As it is built the table leaves the DDR memory above the first megabyte
    unassigned. *)
Lemma ddr_unassigned va :
  0x100000 <= va < 0x40000000 -> translate (MMUTable DDR_REG) va = None.
Proof.
  intros Hv. unfold translate, MMUTable.
  assert (Hi : 0 <= va / 0x100000 < 4096) by (Z.div_mod_to_equations; lia).
  destruct (mmu_sections_ok DDR_REG ltac:(unfold DDR_REG; lia)) as [Hl Ht].
  rewrite mmu_words_lookup, Z.add_0_l by (done || lia).
  rewrite (section_flags_region _ _ va) by (unfold DDR_REG; done || lia).
  destruct (region_flags DDR_REG va) as [Hr Hb].
  destruct (section_word (va / 0x100000) (region DDR_REG va) va Hi Hr) as [-> _]. rewrite Hb.
  unfold region, DDR_REG. destruct (Z.ltb_spec va 0x100000); [lia|].
  destruct (Z.ltb_spec va (0x100000 * (1 + 0))); [lia|].
  by destruct (Z.ltb_spec va 0x40000000); [|lia].
Qed.
