(* ===== verification/CString.v ===== *)
(** * Strings and blocks of memory ([lib/string.c])

    Byte-addressed memory, the functions of [string.c] on it, and what they
    promise.  The word-wise [memcpy] is the byte-wise one. *)
From S2P Require Import Prelude.

Local Open Scope Z_scope.

(** ** Memory *)
Definition bytes : Type := gmap Z Z.
Definition byte_at (a : Z) (m : bytes) : Z := default 0 ((m : gmap Z Z) !! a).
#[local] Abbreviation BM := (M bytes).

Definition load8 (a : Z) : BM Z := fun m => Ok (u8 (byte_at a m)) m.
Definition store8 (a v : Z) : BM unit := modify (fun m => <[a := u8 v]> (m : gmap Z Z)).
(** A little-endian word. *)
Definition load32 (a : Z) : BM Z :=
  b0 ← load8 a; b1 ← load8 (a + 1); b2 ← load8 (a + 2); b3 ← load8 (a + 3);
  mret (b0 + Z.shiftl b1 8 + Z.shiftl b2 16 + Z.shiftl b3 24).
Definition store32 (a v : Z) : BM unit :=
  store8 a v ;; store8 (a + 1) (Z.shiftr v 8) ;;
  store8 (a + 2) (Z.shiftr v 16) ;; store8 (a + 3) (Z.shiftr v 24).

(** ** The functions *)

(** [dst[i] = src[i]] while [i < count]; used for the tail of the word-wise
    copy, where the pointers have moved, and for the generic copy. *)
Fixpoint copy_bytes (fuel : nat) (i dst src count : Z) : BM unit :=
  match fuel with
  | O => no_fuel
  | S f =>
      if u32 i <? count then
        v ← load8 src; store8 dst v ;; copy_bytes f (i + 1) (dst + 1) (src + 1) count
      else mret tt
  end.

Fixpoint copy_words (fuel : nat) (i dst src count : Z) : BM (Z * Z * Z) :=
  match fuel with
  | O => no_fuel
  | S f =>
      if u32 i <? count then
        if sub32 count 1 <? u32 (i + 3) then mret (i, dst, src)
        else
          v ← load32 src; store32 dst v ;; copy_words f (i + 4) (dst + 4) (src + 4) count
      else mret (i, dst, src)
  end.

Definition memcpy (dst src count : Z) : BM Z :=
  let fuel := S (Z.to_nat count) in
  (if (Z.land src 3 =? 0) && (Z.land dst 3 =? 0) then
     '(i, d, s) ← copy_words fuel 0 dst src count;
     when (u32 i <=? sub32 count 1) (copy_bytes fuel i d s count)
   else copy_bytes fuel 0 dst src count) ;;
  mret dst.

(** [while (count--) { *d = c; d++; }] *)
Fixpoint memset_loop (count : nat) (d c : Z) : BM unit :=
  match count with
  | O => mret tt
  | S n => store8 d c ;; memset_loop n (d + 1) c
  end.
Definition memset (dest c count : Z) : BM Z :=
  memset_loop (Z.to_nat count) dest c ;; mret dest.

(** [for (; *p; ++p);] *)
Fixpoint find_end (fuel : nat) (p : Z) : BM Z :=
  match fuel with
  | O => no_fuel
  | S f => v ← load8 p; if v =? 0 then mret p else find_end f (p + 1)
  end.

(** The loop of [strcpy]: copies up to and including the terminator. *)
Fixpoint copy_string (fuel : nat) (dest src : Z) : BM unit :=
  match fuel with
  | O => no_fuel
  | S f =>
      v ← load8 src; store8 dest v ;;
      if v =? 0 then mret tt else copy_string f (dest + 1) (src + 1)
  end.

Definition strcat (fuel : nat) (dest src : Z) : BM Z :=
  e ← find_end fuel dest; copy_string fuel e src ;; mret dest.
Definition strlen (fuel : nat) (s : Z) : BM Z :=
  sc ← find_end fuel s; mret (u32 (sc - s)).
Definition strcpy (fuel : nat) (dest src : Z) : BM Z :=
  copy_string fuel dest src ;; mret dest.

(** [for (str = s; *str != 0 && n--; ++str);] *)
Fixpoint strnlen_loop (n : nat) (str : Z) : BM Z :=
  v ← load8 str;
  if v =? 0 then mret str
  else match n with O => mret str | S n' => strnlen_loop n' (str + 1) end.
Definition strnlen (s n : Z) : BM Z :=
  str ← strnlen_loop (Z.to_nat n) s; mret (u32 (str - s)).

(** ** Runs *)
Lemma byte_at_store a v m x :
  byte_at x (<[a := v]> (m : gmap Z Z)) = if decide (a = x) then v else byte_at x m.
Proof.
  unfold byte_at. destruct (decide (a = x)) as [->|];
    [by rewrite lookup_insert_eq|by rewrite lookup_insert_ne].
Qed.

Lemma load8_run {A} a (f : Z -> BM A) m : (load8 a ≫= f) m = f (u8 (byte_at a m)) m.
Proof. done. Qed.
Lemma store8_run {A} a v (f : unit -> BM A) m :
  (store8 a v ≫= f) m = f tt (<[a := u8 v]> (m : gmap Z Z)).
Proof. done. Qed.

Lemma u8_u8 v : u8 (u8 v) = u8 v.
Proof. unfold u8. by rewrite Z.mod_mod. Qed.

(** Bytes of memory are bytes. *)
Definition bytes_ok (m : bytes) : Prop := forall x, is_u8 (byte_at x m).

Lemma bytes_ok_u8 m x : bytes_ok m -> u8 (byte_at x m) = byte_at x m.
Proof. intros Hm. unfold u8. apply Z.mod_small, Hm. Qed.
Lemma bytes_ok_store m a v : bytes_ok m -> bytes_ok (<[a := u8 v]> (m : gmap Z Z)).
Proof.
  intros Hm x. rewrite byte_at_store. destruct (decide _); [|apply Hm].
  unfold is_u8, u8. apply Z.mod_pos_bound. lia.
Qed.

(** [m'] is [m] after copying [n] bytes from [src] to [dst]. *)
Definition copied (dst src n : Z) (m m' : bytes) : Prop :=
  bytes_ok m' /\
  forall x, byte_at x m' = if decide (dst <= x < dst + n) then byte_at (src + (x - dst)) m
                           else byte_at x m.

(** A forward copy reads each byte before it is overwritten. *)
Definition forward_safe (dst src n : Z) : Prop := dst <= src \/ src + n <= dst.

Lemma copied_step dst src n m m1 m2 k :
  bytes_ok m -> 0 <= k <= n -> forward_safe dst src n ->
  copied dst src k m m1 -> copied (dst + k) (src + k) (n - k) m1 m2 -> copied dst src n m m2.
Proof.
  intros Hm Hk Hs [H1 E1] [H2 E2]. split; [done|]. intros x. rewrite E2.
  destruct (decide (dst <= x < dst + n)), (decide (dst + k <= x < dst + k + (n - k))); try lia;
    rewrite E1.
  - replace (src + k + (x - (dst + k))) with (src + (x - dst)) by lia.
    destruct (decide _); [|done]. destruct Hs; lia.
  - destruct (decide _); [done|lia].
  - destruct (decide _); [lia|done].
Qed.

Lemma copy_bytes_run {A} n fuel i dst src count (f : unit -> BM A) m :
  bytes_ok m -> 0 <= i -> count < 2 ^ 31 -> Z.of_nat n = count - i -> (n < fuel)%nat ->
  forward_safe dst src (count - i) ->
  exists m', (copy_bytes fuel i dst src count ≫= f) m = f tt m' /\
    copied dst src (count - i) m m'.
Proof.
  revert fuel i dst src m. induction n as [|n IH]; intros [|fuel] i dst src m Hm Hi Hc Hn Hf Hs;
    try lia; cbn [copy_bytes]; rewrite (u32_small i) by (unfold is_u32; lia);
    destruct (Z.ltb_spec i count); try lia.
  - exists m. split; [done|]. split; [done|]. intros x. destruct (decide _); [lia|done].
  - rewrite bind_assoc, load8_run, bind_assoc, store8_run, u8_u8, bytes_ok_u8 by done.
    destruct (IH fuel (i + 1) (dst + 1) (src + 1) (<[dst := byte_at src m]> (m : gmap Z Z)))
      as (m' & E & Hcp); try lia.
    { rewrite <- (bytes_ok_u8 m src) by done. by apply bytes_ok_store. }
    { unfold forward_safe in *. lia. }
    exists m'. split; [exact E|].
    apply (copied_step _ _ _ m (<[dst := byte_at src m]> (m : gmap Z Z)) _ 1); try done; try lia.
    + split; [rewrite <- (bytes_ok_u8 m src) by done; by apply bytes_ok_store|].
      intros x. rewrite byte_at_store. destruct (decide (dst = x)) as [<-|], (decide _); try lia.
      f_equal. lia.
    + by replace (count - i - 1) with (count - (i + 1)) by lia.
Qed.

Lemma bytes_ok_insert a v m : is_u8 v -> bytes_ok m -> bytes_ok (<[a := v]> (m : gmap Z Z)).
Proof.
  intros Hv Hm. rewrite <- (Z.mod_small v (2 ^ 8)) by done. by apply bytes_ok_store.
Qed.

Lemma word_bytes b0 b1 b2 b3 :
  is_u8 b0 -> is_u8 b1 -> is_u8 b2 -> is_u8 b3 ->
  let v := b0 + Z.shiftl b1 8 + Z.shiftl b2 16 + Z.shiftl b3 24 in
  u8 v = b0 /\ u8 (Z.shiftr v 8) = b1 /\ u8 (Z.shiftr v 16) = b2 /\ u8 (Z.shiftr v 24) = b3.
Proof.
  cbv zeta. unfold is_u8, u8. intros. rewrite !Z.shiftl_mul_pow2, !Z.shiftr_div_pow2 by lia.
  change (2 ^ 8) with 256 in *. change (2 ^ 16) with 65536. change (2 ^ 24) with 16777216.
  split_and!; Z.div_mod_to_equations; lia.
Qed.

Lemma word_copied dst src m :
  bytes_ok m ->
  exists v m', load32 src m = Ok v m /\ store32 dst v m = Ok tt m' /\ copied dst src 4 m m'.
Proof.
  intros Hm. unfold load32, store32. rewrite !load8_run, !bytes_ok_u8 by done.
  destruct (word_bytes (byte_at src m) (byte_at (src + 1) m) (byte_at (src + 2) m)
              (byte_at (src + 3) m)) as (E0 & E1 & E2 & E3); [apply Hm..|].
  do 2 eexists. split; [reflexivity|]. split; [reflexivity|].
  rewrite E0, E1, E2, E3. split.
  - repeat (apply bytes_ok_insert; [apply Hm|]). done.
  - intros x. rewrite !byte_at_store.
    repeat (destruct (decide (_ = x)) as [<-|]);
      destruct (decide _); try lia; f_equal; lia.
Qed.

Lemma copied_refl dst src m : bytes_ok m -> copied dst src 0 m m.
Proof. intros Hm. split; [done|]. intros x. destruct (decide _); [lia|done]. Qed.

(** The word loop stops after the last whole word. *)
Lemma copy_words_run {A} n fuel i dst src count (f : Z * Z * Z -> BM A) m :
  bytes_ok m -> 0 <= i <= count -> count < 2 ^ 31 -> n = Z.to_nat ((count - i) / 4) ->
  (n < fuel)%nat -> forward_safe dst src (count - i) ->
  exists m', let k := 4 * ((count - i) / 4) in
    (copy_words fuel i dst src count ≫= f) m = f (i + k, dst + k, src + k) m' /\
    copied dst src k m m'.
Proof.
  revert fuel i dst src m. induction n as [|n IH]; intros [|fuel] i dst src m Hm Hi Hc Hn Hf Hs;
    try lia; cbn [copy_words]; unfold sub32; rewrite (u32_small i) by (unfold is_u32; lia);
    (assert (Hk : 0 <= (count - i) / 4) by (Z.div_mod_to_equations; lia)).
  - assert ((count - i) / 4 = 0) as -> by lia. cbv zeta. rewrite Z.mul_0_r, !Z.add_0_r.
    exists m. split; [|by apply copied_refl].
    destruct (Z.ltb_spec i count); [|done].
    rewrite !u32_small by (unfold is_u32; lia).
    destruct (Z.ltb_spec (count - 1) (i + 3)); [done|]. Z.div_mod_to_equations; lia.
  - destruct (Z.ltb_spec i count); [|Z.div_mod_to_equations; lia].
    rewrite !u32_small by (unfold is_u32; lia).
    destruct (Z.ltb_spec (count - 1) (i + 3)); [Z.div_mod_to_equations; lia|].
    destruct (word_copied dst src m Hm) as (v & m1 & E1 & E2 & C1).
    rewrite bind_assoc, (bind_ok _ _ _ _ _ E1), bind_assoc, (bind_ok _ _ _ _ _ E2).
    assert (Hdiv : (count - (i + 4)) / 4 = (count - i) / 4 - 1) by (Z.div_mod_to_equations; lia).
    destruct (IH fuel (i + 4) (dst + 4) (src + 4) m1) as (m' & E & C); try lia; [apply C1| |].
    { unfold forward_safe in *. lia. }
    cbv zeta in *. rewrite Hdiv in *. exists m'. split.
    + rewrite E. do 2 f_equal; [f_equal|]; lia.
    + apply (copied_step _ _ _ m m1 _ 4); try done; try lia.
      * unfold forward_safe in *. Z.div_mod_to_equations; lia.
      * by replace (4 * ((count - i) / 4) - 4) with (4 * ((count - i) / 4 - 1)) by lia.
Qed.

(** *** Properties *)

Lemma memcpy_run (dst src count : Z) (m : bytes) :
  bytes_ok m -> 0 <= count < 2 ^ 31 -> forward_safe dst src count ->
  exists m', memcpy dst src count m = Ok dst m' /\ copied dst src count m m'.
Proof.
  intros Hm Hc Hs. unfold memcpy. destruct (_ && _).
  - destruct (copy_words_run (Z.to_nat (count / 4)) (S (Z.to_nat count)) 0 dst src count
      (fun '(i, d, s) => when (u32 i <=? sub32 count 1) (copy_bytes (S (Z.to_nat count)) i d s count))
      m) as (m1 & E1 & C1); try done; try (Z.div_mod_to_equations; lia).
    { by rewrite Z.sub_0_r. }
    cbv zeta in *. rewrite Z.sub_0_r, Z.add_0_l in *.
    set (k := 4 * (count / 4)) in *.
    assert (Hk : 0 <= k <= count) by (subst k; Z.div_mod_to_equations; lia).
    destruct (copy_bytes_run (Z.to_nat (count - k)) (S (Z.to_nat count)) k (dst + k) (src + k) count
                mret m1) as (m2 & E2 & C2); try lia; [apply C1|unfold forward_safe in *; lia|].
    rewrite bind_ret_r in E2. exists m2. split; [|by apply (copied_step _ _ _ m m1 m2 k)].
    unfold when in E1. rewrite u32_small in E1 by (unfold is_u32; lia).
    destruct (Z.leb_spec k (sub32 count 1)) as [Hle|Hgt].
    + rewrite E2 in E1. by rewrite (bind_ok _ _ _ _ _ E1).
    + assert (k = count).
      { unfold sub32 in Hgt. destruct (decide (count = 0)) as [->|]; [lia|].
        rewrite u32_small in Hgt by (unfold is_u32; lia). lia. }
      cbn [copy_bytes] in E2. rewrite u32_small in E2 by (unfold is_u32; lia).
      destruct (Z.ltb_spec k count); [lia|]. injection E2 as <-.
      by rewrite (bind_ok _ _ _ _ _ E1).
  - destruct (copy_bytes_run (Z.to_nat count) (S (Z.to_nat count)) 0 dst src count
                (fun _ => mret dst) m) as (m' & E & C); rewrite ?Z.sub_0_r in *; try done; try lia.
    by exists m'.
Qed.

(** C38: [memcpy] copies.  For any alignment of its arguments - the word-wise and
    the byte-wise loop alike - and any size an [int] can count, it returns
    [dst] with the [count] bytes of [src] copied and every other byte
    unchanged, provided a forward copy does not overwrite what it has yet to
    read. *)
Theorem memcpy_copies (dst src count : Z) (m : bytes) :
  bytes_ok m -> 0 <= count < 2 ^ 31 -> forward_safe dst src count ->
  exists m', memcpy dst src count m = Ok dst m' /\ copied dst src count m m'.
Proof. apply memcpy_run. Qed.

Lemma memset_loop_run n d c m :
  bytes_ok m ->
  exists m', memset_loop n d c m = Ok tt m' /\ bytes_ok m' /\
    forall x, byte_at x m' = if decide (d <= x < d + Z.of_nat n) then u8 c else byte_at x m.
Proof.
  revert d m. induction n as [|n IH]; intros d m Hm; cbn [memset_loop].
  - exists m. split_and!; try done. intros x. destruct (decide _); [lia|done].
  - rewrite store8_run. destruct (IH (d + 1) (<[d := u8 c]> (m : gmap Z Z))) as (m' & E & Hok & Hx);
      [by apply bytes_ok_store|].
    exists m'. split_and!; try done. intros x. rewrite Hx, byte_at_store.
    destruct (decide (d = x)) as [<-|]; repeat destruct (decide _); try lia; done.
Qed.

(** [memset] fills exactly [count] bytes with the low byte of [c]. *)
Lemma memset_fills (dest c count : Z) (m : bytes) :
  bytes_ok m -> 0 <= count ->
  exists m', memset dest c count m = Ok dest m' /\ bytes_ok m' /\
    forall x, byte_at x m' = if decide (dest <= x < dest + count) then u8 c else byte_at x m.
Proof.
  intros Hm Hc. destruct (memset_loop_run (Z.to_nat count) dest c m Hm) as (m' & E & Hok & Hx).
  exists m'. unfold memset. rewrite (bind_ok _ _ _ _ _ E). split_and!; try done.
  intros x. rewrite Hx. by rewrite Z2Nat.id.
Qed.

(** The bytes of a C string: its characters, then the terminator. *)
Definition string_at (a : Z) (l : list Z) (m : bytes) : Prop :=
  Forall (fun v => v <> 0) l /\
  forall i : nat, (i <= length l)%nat -> byte_at (a + Z.of_nat i) m = nth i l 0.

Lemma string_at_nz a v l m : string_at a (v :: l) m -> v <> 0.
Proof. intros [Hz _]. by inversion_clear Hz. Qed.

Lemma string_at_tail a v l m : string_at a (v :: l) m -> string_at (a + 1) l m.
Proof.
  intros [Hz Hl]. inversion_clear Hz. split; [done|]. intros i Hi.
  specialize (Hl (S i) ltac:(cbn; lia)). cbn in Hl. rewrite <- Hl. f_equal. lia.
Qed.

Lemma string_at_head a l m : string_at a l m -> byte_at a m = nth 0 l 0.
Proof. intros [_ Hl]. rewrite <- (Hl 0%nat) by lia. f_equal. lia. Qed.

Lemma find_end_run l fuel p m :
  bytes_ok m -> string_at p l m -> (length l < fuel)%nat ->
  find_end fuel p m = Ok (p + Z.of_nat (length l)) m.
Proof.
  revert fuel p. induction l as [|v l IH]; intros [|fuel] p Hm Hl Hf; cbn in Hf; try lia;
    cbn [find_end]; rewrite load8_run, bytes_ok_u8, (string_at_head _ _ _ Hl) by done; cbn [nth].
  - cbn. by rewrite Z.add_0_r.
  - destruct (Z.eqb_spec v 0) as [->|]; [by apply string_at_nz in Hl|].
    rewrite (IH fuel (p + 1)); [f_equal; cbn; lia|done|by eapply string_at_tail|lia].
Qed.

Lemma copied_one dst src m : bytes_ok m -> copied dst src 1 m (<[dst := byte_at src m]> (m : gmap Z Z)).
Proof.
  intros Hm. split; [by apply bytes_ok_insert; [apply Hm|]|].
  intros x. rewrite byte_at_store. destruct (decide (dst = x)) as [<-|], (decide _); try lia.
  f_equal. lia.
Qed.

Lemma copy_string_run l fuel dst src m :
  bytes_ok m -> string_at src l m -> (length l < fuel)%nat ->
  forward_safe dst src (Z.of_nat (length l) + 1) ->
  exists m', copy_string fuel dst src m = Ok tt m' /\
    copied dst src (Z.of_nat (length l) + 1) m m'.
Proof.
  revert fuel dst src m. induction l as [|v l IH]; intros [|fuel] dst src m Hm Hl Hf Hs;
    cbn [length] in *; try lia; cbn [copy_string]; rewrite load8_run, store8_run, u8_u8, bytes_ok_u8 by done;
    pose proof (string_at_head _ _ _ Hl) as Hv; cbn [nth] in Hv; rewrite Hv.
  - cbn [Z.eqb]. exists (<[dst := 0]> (m : gmap Z Z)). split; [done|].
    rewrite <- Hv. by apply copied_one.
  - destruct (Z.eqb_spec v 0) as [->|Hv0]; [by apply string_at_nz in Hl|].
    pose proof (copied_one dst src m Hm) as C1. rewrite Hv in C1.
    destruct (IH fuel (dst + 1) (src + 1) (<[dst := v]> (m : gmap Z Z))) as (m' & E & C2).
    { apply C1. }
    { apply string_at_tail in Hl as [Hz Hl]. split; [done|]. intros i Hi. rewrite <- Hl by done.
      rewrite byte_at_store. destruct (decide _); [|done]. unfold forward_safe in Hs. lia. }
    { lia. }
    { unfold forward_safe in *. lia. }
    exists m'. split; [done|].
    apply (copied_step _ _ _ m (<[dst := v]> (m : gmap Z Z)) _ 1); try done; try lia.
    by replace (Z.of_nat (S (length l)) + 1 - 1) with (Z.of_nat (length l) + 1) by lia.
Qed.

(** [strlen] is the number of characters before the terminator. *)
Lemma strlen_length (fuel : nat) (s : Z) (l : list Z) (m : bytes) :
  bytes_ok m -> string_at s l m -> (length l < fuel)%nat -> Z.of_nat (length l) < 2 ^ 32 ->
  strlen fuel s m = Ok (Z.of_nat (length l)) m.
Proof.
  intros Hm Hl Hf Hlt. unfold strlen. rewrite (bind_ok _ _ _ _ _ (find_end_run l fuel s m Hm Hl Hf)).
  unfold mret, M_ret. f_equal. rewrite u32_small by (unfold is_u32; lia). lia.
Qed.

Lemma strnlen_loop_run l n s m :
  bytes_ok m -> string_at s l m ->
  strnlen_loop n s m = Ok (s + Z.of_nat (length l `min` n)) m.
Proof.
  revert n s. induction l as [|v l IH]; intros n s Hm Hl; destruct n as [|n]; cbn [strnlen_loop];
    rewrite load8_run, bytes_ok_u8, (string_at_head _ _ _ Hl) by done; cbn [nth].
  - cbn. by rewrite Z.add_0_r.
  - cbn. by rewrite Z.add_0_r.
  - destruct (Z.eqb_spec v 0) as [->|]; [by apply string_at_nz in Hl|].
    rewrite Nat.min_0_r. cbn. by rewrite Z.add_0_r.
  - destruct (Z.eqb_spec v 0) as [->|]; [by apply string_at_nz in Hl|].
    rewrite IH; [f_equal; cbn [length Nat.min]; lia|done|by eapply string_at_tail].
Qed.

(** [strnlen] is the smaller of the string's length and the bound. *)
Lemma strnlen_length (s n : Z) (l : list Z) (m : bytes) :
  bytes_ok m -> string_at s l m -> 0 <= n < 2 ^ 32 ->
  strnlen s n m = Ok (Z.min (Z.of_nat (length l)) n) m.
Proof.
  intros Hm Hl Hn. unfold strnlen.
  rewrite (bind_ok _ _ _ _ _ (strnlen_loop_run l (Z.to_nat n) s m Hm Hl)).
  unfold mret, M_ret. f_equal. rewrite u32_small by (unfold is_u32; lia). lia.
Qed.

(** [strcat] leaves the two strings, one after the other, at [dest]. *)
Lemma strcat_concatenates (fuel : nat) (dest src : Z) (l1 l2 : list Z) (m : bytes) :
  bytes_ok m -> string_at dest l1 m -> string_at src l2 m ->
  (length l1 < fuel)%nat -> (length l2 < fuel)%nat ->
  src + Z.of_nat (length l2) < dest \/ dest + Z.of_nat (length l1 + length l2) < src ->
  exists m', strcat fuel dest src m = Ok dest m' /\ string_at dest (l1 ++ l2) m' /\
    forall x, x < dest \/ dest + Z.of_nat (length l1 + length l2) < x -> byte_at x m' = byte_at x m.
Proof.
  intros Hm H1 H2 Hf1 Hf2 Hd. unfold strcat.
  rewrite (bind_ok _ _ _ _ _ (find_end_run l1 fuel dest m Hm H1 Hf1)).
  destruct (copy_string_run l2 fuel (dest + Z.of_nat (length l1)) src m Hm H2 Hf2) as (m' & E & C).
  { unfold forward_safe. lia. }
  exists m'. rewrite (bind_ok _ _ _ _ _ E). split; [done|]. destruct C as [_ C]. split.
  - split; [apply Forall_app; split; [apply H1|apply H2]|]. intros i Hi. rewrite length_app in Hi.
    rewrite C. destruct (decide _).
    + rewrite app_nth2 by lia. rewrite <- (proj2 H2) by lia. f_equal. lia.
    + rewrite app_nth1 by lia. apply H1. lia.
  - intros x Hx. rewrite C. destruct (decide _); [lia|done].
Qed.

(** [strcpy] leaves a copy of the string at [dest]. *)
Lemma strcpy_copies (fuel : nat) (dest src : Z) (l : list Z) (m : bytes) :
  bytes_ok m -> string_at src l m -> (length l < fuel)%nat ->
  forward_safe dest src (Z.of_nat (length l) + 1) ->
  exists m', strcpy fuel dest src m = Ok dest m' /\ string_at dest l m' /\
    copied dest src (Z.of_nat (length l) + 1) m m'.
Proof.
  intros Hm Hl Hf Hs. destruct (copy_string_run l fuel dest src m Hm Hl Hf Hs) as (m' & E & C).
  exists m'. unfold strcpy. rewrite (bind_ok _ _ _ _ _ E). split_and!; [done| |done].
  split; [apply Hl|]. intros i Hi. destruct C as [_ C]. rewrite C.
  destruct (decide _); [|lia]. rewrite <- (proj2 Hl) by done. f_equal. lia.
Qed.

(** A memory with the string "ltz" at 0x100 and "visor" at 0x203. *)
Definition string_demo : bytes :=
  list_to_map (zip [0x100; 0x101; 0x102; 0x203; 0x204; 0x205; 0x206; 0x207]
                 [108; 116; 122; 118; 105; 115; 111; 114]).

Lemma bytes_ok_map (m : bytes) :
  bool_decide (map_Forall (fun _ v => 0 <= v < 256) (m : gmap Z Z)) = true -> bytes_ok m.
Proof.
  intros Hm%bool_decide_eq_true_1 x. unfold byte_at.
  destruct ((m : gmap Z Z) !! x) as [v|] eqn:E; [|by unfold is_u8]. exact (Hm x v E).
Qed.

Lemma string_demo_ok : bytes_ok string_demo.
Proof. apply bytes_ok_map. by vm_compute. Qed.

Lemma string_at_demo a l :
  forallb (fun v => negb (v =? 0)) l = true ->
  forallb (fun i => byte_at (a + Z.of_nat i) string_demo =? nth i l 0) (seq 0 (S (length l))) = true ->
  string_at a l string_demo.
Proof.
  intros Hz Hl. split.
  - apply Forall_forall. intros v Hv%list_elem_of_In.
    rewrite forallb_forall in Hz. apply Hz in Hv. by destruct (Z.eqb_spec v 0).
  - intros i Hi. rewrite forallb_forall in Hl. apply Z.eqb_eq, Hl, in_seq. lia.
Qed.

Lemma string_demo_ltz : string_at 0x100 [108; 116; 122] string_demo.
Proof. by apply string_at_demo; vm_compute. Qed.
Lemma string_demo_visor : string_at 0x203 [118; 105; 115; 111; 114] string_demo.
Proof. by apply string_at_demo; vm_compute. Qed.

Lemma memcpy_copies_witness :
  exists m', memcpy 0x300 0x100 3 string_demo = Ok 0x300 m' /\ byte_at 0x302 m' = 122.
Proof.
  destruct (memcpy_copies 0x300 0x100 3 string_demo string_demo_ok) as (m' & E & _ & C);
    [lia|unfold forward_safe; lia|].
  exists m'. exact (conj E (C 0x302)).
Defined.

Lemma memset_fills_witness :
  exists m', memset 0x100 0x100 2 string_demo = Ok 0x100 m' /\ byte_at 0x101 m' = 0.
Proof.
  destruct (memset_fills 0x100 0x100 2 string_demo string_demo_ok) as (m' & E & _ & C); [lia|].
  exists m'. exact (conj E (C 0x101)).
Defined.

Lemma strlen_length_witness : strlen 10 0x203 string_demo = Ok 5 string_demo.
Proof. apply (strlen_length 10 0x203 [118; 105; 115; 111; 114] _ string_demo_ok string_demo_visor); cbn; lia. Defined.

Lemma strnlen_length_witness : strnlen 0x203 2 string_demo = Ok 2 string_demo.
Proof. apply (strnlen_length 0x203 2 [118; 105; 115; 111; 114] _ string_demo_ok string_demo_visor); lia. Defined.

Lemma strcpy_copies_witness :
  exists m', strcpy 10 0x400 0x100 string_demo = Ok 0x400 m' /\ string_at 0x400 [108; 116; 122] m'.
Proof.
  destruct (strcpy_copies 10 0x400 0x100 [108; 116; 122] _ string_demo_ok string_demo_ltz)
    as (m' & E & Hs & _); [cbn; lia|unfold forward_safe; cbn; lia|].
  exists m'. exact (conj E Hs).
Defined.

Lemma strcat_concatenates_witness :
  exists m', strcat 10 0x100 0x203 string_demo = Ok 0x100 m' /\
    string_at 0x100 [108; 116; 122; 118; 105; 115; 111; 114] m'.
Proof.
  destruct (strcat_concatenates 10 0x100 0x203 [108; 116; 122] [118; 105; 115; 111; 114] _
              string_demo_ok string_demo_ltz string_demo_visor) as (m' & E & Hs & _);
    [cbn; lia..|].
  exists m'. exact (conj E Hs).
Defined.
