(* ===== verification/Uart.v ===== *)
(** * The serial port ([boards/*/zynq_uart.c], [ns_guest/src/zynq_uart.c])

    The boards program 115200 baud from two constants; the guest's driver
    searches for divisors.  Sending waits for room in the transmit FIFO. *)
From S2P Require Import Prelude Bus.

Local Open Scope Z_scope.

(** ** Constants ([zynq_uart.h]) *)
Definition UART_CONTROL_STPBRK : Z := Z.shiftl 1 8.
Definition UART_CONTROL_TXDIS : Z := Z.shiftl 1 5.
Definition UART_CONTROL_TXEN : Z := Z.shiftl 1 4.
Definition UART_CONTROL_RXDIS : Z := Z.shiftl 1 3.
Definition UART_CONTROL_RXEN : Z := Z.shiftl 1 2.
Definition UART_CONTROL_TXRES : Z := Z.shiftl 1 1.
Definition UART_CONTROL_RXRES : Z := Z.shiftl 1 0.
Definition UART_MODE_CHMODE_N : Z := Z.shiftl 0 8.
Definition UART_MODE_NBSTOP_1 : Z := Z.shiftl 0 6.
Definition UART_MODE_PAR_NP : Z := Z.shiftl 4 3.
Definition UART_MODE_CHRL_8 : Z := Z.shiftl 0 1.
Definition UART_MODE_CHRL_REF : Z := Z.shiftl 0 0.
Definition UART_ISR_EN_RTRIG : Z := Z.shiftl 1 0.
Definition UART_RX_TIMEOUT_DIS : Z := 0.
Definition UART_CH_STATUS_RTRIG : Z := Z.shiftl 1 0.
Definition UART_CH_STATUS_TFUL : Z := Z.shiftl 1 4.
Definition UART_BAUD_RATE : Z := 115200.
Definition UART_FREQ_CLK : Z := 50000000.
Definition UART_MAX_ERROR : Z := 5.
Definition UART_RX_TRIGGER_LVL : Z := 1.
Definition UART_BDIV_115200 : Z := 5.
Definition UART_CD_115200 : Z := 72.
Definition UART_BASE_0 : Z := 0xE0000000.
Definition UART_BASE_1 : Z := 0xE0001000.

Inductive uart_reg : Type :=
| control | uart_mode | isr_en | isr_dis | isr_mask | isr_status | br_gen | rx_timeout
| rx_fifo_trig | modem_ctrl | modem_status | ch_status | tx_rx_fifo | br_div | flow_ctrl_dl
| tx_fifo_trig.

#[export] Instance uart_reg_eq_dec : EqDecision uart_reg.
Proof. solve_decision. Defined.

Definition Uart_Zynq : list (option uart_reg * Z) :=
  [(Some control, 1); (Some uart_mode, 1); (Some isr_en, 1); (Some isr_dis, 1);
   (Some isr_mask, 1); (Some isr_status, 1); (Some br_gen, 1); (Some rx_timeout, 1);
   (Some rx_fifo_trig, 1); (Some modem_ctrl, 1); (Some modem_status, 1); (Some ch_status, 1);
   (Some tx_rx_fifo, 1); (Some br_div, 1); (Some flow_ctrl_dl, 1); (None, 2);
   (Some tx_fifo_trig, 1)].

(** [Ptr_Uart[uart_id]] *)
Definition Ptr_Uart (uart_id : Z) : option Z :=
  if uart_id =? 0 then Some UART_BASE_0
  else if uart_id =? 1 then Some UART_BASE_1 else None.
(** [ptr_uart->r] *)
Definition uart_at (uart_id : Z) (r : uart_reg) : option Z :=
  match Ptr_Uart uart_id with
  | Some base => reg_addr Uart_Zynq base r 0
  | None => None
  end.

(** ** Operations *)
Section uart.
Context {S : Type} `{Bus S}.

Definition uart_enable (uart_id : Z) : M S unit :=
  _ ← ld (uart_at uart_id control);
  st (uart_at uart_id control)
    (Z.lor (Z.lor (Z.lor (Z.lor UART_CONTROL_STPBRK UART_CONTROL_TXEN) UART_CONTROL_RXEN)
              UART_CONTROL_RXRES) UART_CONTROL_TXRES).

Definition uart_disable (uart_id : Z) : M S unit :=
  _ ← ld (uart_at uart_id control);
  st (uart_at uart_id control)
    (Z.lor (Z.lor UART_CONTROL_STPBRK UART_CONTROL_TXDIS) UART_CONTROL_RXDIS).

(** The stores that program a pair of divisors. *)
Definition program_baud (uart_id cd_calc bdiv : Z) : M S unit :=
  st (uart_at uart_id control) (Z.lor UART_CONTROL_RXDIS UART_CONTROL_TXDIS) ;;
  st (uart_at uart_id br_gen) cd_calc ;;
  st (uart_at uart_id br_div) bdiv ;;
  st (uart_at uart_id control) (Z.lor UART_CONTROL_TXRES UART_CONTROL_RXRES) ;;
  st (uart_at uart_id control) (Z.lor UART_CONTROL_TXEN UART_CONTROL_RXEN).

Definition uart_set_baud_rate (uart_id baud_rate : Z) : M S Z :=
  program_baud uart_id UART_CD_115200 UART_BDIV_115200 ;; mret TRUE.

Definition uart_init (uart_id : Z) : M S Z :=
  ret ← uart_set_baud_rate uart_id UART_BAUD_RATE;
  if ret =? FALSE then mret FALSE
  else
    st (uart_at uart_id rx_fifo_trig) UART_RX_TRIGGER_LVL ;;
    st (uart_at uart_id rx_timeout) UART_RX_TIMEOUT_DIS ;;
    st (uart_at uart_id isr_status) 0xFFFFFFFF ;;
    st (uart_at uart_id isr_en) UART_ISR_EN_RTRIG ;;
    st_or (uart_at uart_id control)
      (Z.lor (Z.lor UART_CONTROL_STPBRK UART_CONTROL_RXRES) UART_CONTROL_TXRES) ;;
    mret TRUE.

(** [while (!(char)(ch_status & RTRIG));] of the zedboard and the guest. *)
Definition uart_getc (fuel : nat) (uart_id : Z) : M S Z :=
  while_fuel fuel
    (v ← ld (uart_at uart_id ch_status);
     mret (Z.land v UART_CH_STATUS_RTRIG =? 0)) (mret tt) ;;
  ld (uart_at uart_id tx_rx_fifo).

(** [while (!ch_status & RTRIG);] of the other boards: [!] binds tighter. *)
Definition zybo_uart_getc (fuel : nat) (uart_id : Z) : M S Z :=
  while_fuel fuel
    (v ← ld (uart_at uart_id ch_status);
     mret (negb (Z.land (if v =? 0 then 1 else 0) UART_CH_STATUS_RTRIG =? 0))) (mret tt) ;;
  ld (uart_at uart_id tx_rx_fifo).

(** [c] is an [int8_t]. *)
Definition uart_putc (fuel : nat) (uart_id c : Z) : M S unit :=
  while_fuel fuel
    (v ← ld (uart_at uart_id ch_status);
     mret (negb (Z.land v UART_CH_STATUS_TFUL =? 0))) (mret tt) ;;
  st (uart_at uart_id tx_rx_fifo) (u32 c).

(** The characters of [s], up to the terminator. *)
Fixpoint uart_puts (fuel : nat) (uart_id : Z) (s : list Z) : M S unit :=
  match s with
  | [] => mret tt
  | c :: s' => if c =? 0 then mret tt else uart_putc fuel uart_id c ;; uart_puts fuel uart_id s'
  end.

(** ** The guest's search for divisors *)

(** One value of [bdiv]: the divisor [cd_calc] and whether the error is small
    enough; [None] is a division by zero.  [cd_calc] and [error_calc] are
    [uint16_t]. *)
Definition baud_try (sel_clk baud_rate bdiv : Z) : option (Z * bool) :=
  let d := mul32 baud_rate (bdiv + 1) in
  if d =? 0 then None
  else
    let cd_calc := u16 (sel_clk / d) in
    let e := cd_calc * (bdiv + 1) in
    if e =? 0 then None
    else
      let baud_rate_calc := sel_clk / e in
      let error_calc := u16 (if baud_rate_calc <? baud_rate then baud_rate - baud_rate_calc
                             else baud_rate_calc - baud_rate) in
      Some (cd_calc, error_calc * 1000 / baud_rate <? UART_MAX_ERROR).

(** [for (bdiv = 4; bdiv < 255; bdiv++)]: [inl] is a division by zero,
    [inr None] no acceptable value. *)
Fixpoint baud_search (fuel : nat) (sel_clk baud_rate bdiv : Z) : unit + option (Z * Z) :=
  match fuel with
  | O => inr None
  | Datatypes.S f =>
      match baud_try sel_clk baud_rate bdiv with
      | None => inl tt
      | Some (cd_calc, true) => inr (Some (cd_calc, bdiv))
      | Some (cd_calc, false) => baud_search f sel_clk baud_rate (bdiv + 1)
      end
  end.
Definition find_baud (sel_clk baud_rate : Z) : unit + option (Z * Z) :=
  baud_search 251 sel_clk baud_rate 4.

Definition guest_uart_set_baud_rate (uart_id baud_rate : Z) : M S Z :=
  let baud_rate := if baud_rate =? 0 then UART_BAUD_RATE else baud_rate in
  match find_baud UART_FREQ_CLK baud_rate with
  | inl _ => undef
  | inr None => mret 0
  | inr (Some (cd_calc, bdiv)) => program_baud uart_id cd_calc bdiv ;; mret 1
  end.

Definition guest_uart_init (uart_id : Z) : M S Z :=
  match find_baud UART_FREQ_CLK UART_BAUD_RATE with
  | inl _ => undef
  | inr None => mret 0
  | inr (Some (cd_calc, bdiv)) =>
      st (uart_at uart_id uart_mode)
        (Z.lor (Z.lor (Z.lor (Z.lor UART_MODE_CHRL_REF UART_MODE_CHRL_8) UART_MODE_PAR_NP)
                  UART_MODE_NBSTOP_1) UART_MODE_CHMODE_N) ;;
      program_baud uart_id cd_calc bdiv ;;
      st (uart_at uart_id rx_fifo_trig) UART_RX_TRIGGER_LVL ;;
      st (uart_at uart_id rx_timeout) UART_RX_TIMEOUT_DIS ;;
      st (uart_at uart_id isr_status) 0xFFFFFFFF ;;
      st (uart_at uart_id isr_en) UART_ISR_EN_RTRIG ;;
      st (uart_at uart_id control)
        (Z.lor (Z.lor (Z.lor (Z.lor UART_CONTROL_STPBRK UART_CONTROL_TXEN) UART_CONTROL_RXEN)
                  UART_CONTROL_RXRES) UART_CONTROL_TXRES) ;;
      mret 1
  end.
End uart.

(** ** The other copies of the driver *)
Section copies.
Context {S : Type} `{Bus S}.
Definition zybo_uart_init : Z -> M S Z := uart_init.
Definition zybo_uart_enable : Z -> M S unit := uart_enable.
Definition zybo_uart_disable : Z -> M S unit := uart_disable.
Definition zybo_uart_set_baud_rate : Z -> Z -> M S Z := uart_set_baud_rate.
Definition zybo_uart_putc : nat -> Z -> Z -> M S unit := uart_putc.
Definition zybo_uart_puts : nat -> Z -> list Z -> M S unit := uart_puts.
Definition zc702_uart_init : Z -> M S Z := uart_init.
Definition zc702_uart_enable : Z -> M S unit := uart_enable.
Definition zc702_uart_disable : Z -> M S unit := uart_disable.
Definition zc702_uart_set_baud_rate : Z -> Z -> M S Z := uart_set_baud_rate.
Definition zc702_uart_getc : nat -> Z -> M S Z := zybo_uart_getc.
Definition zc702_uart_putc : nat -> Z -> Z -> M S unit := uart_putc.
Definition zc702_uart_puts : nat -> Z -> list Z -> M S unit := uart_puts.
Definition zynq_uart_init : Z -> M S Z := uart_init.
Definition zynq_uart_enable : Z -> M S unit := uart_enable.
Definition zynq_uart_disable : Z -> M S unit := uart_disable.
Definition zynq_uart_set_baud_rate : Z -> Z -> M S Z := uart_set_baud_rate.
Definition zynq_uart_getc : nat -> Z -> M S Z := zybo_uart_getc.
Definition zynq_uart_putc : nat -> Z -> Z -> M S unit := uart_putc.
Definition zynq_uart_puts : nat -> Z -> list Z -> M S unit := uart_puts.
Definition guest_uart_enable : Z -> M S unit := uart_enable.
Definition guest_uart_disable : Z -> M S unit := uart_disable.
Definition guest_uart_getc : nat -> Z -> M S Z := uart_getc.
Definition guest_uart_putc : nat -> Z -> Z -> M S unit := uart_putc.
Definition guest_uart_puts : nat -> Z -> list Z -> M S unit := uart_puts.
End copies.

(** ** Properties *)
Definition uart_addr (uart_id off : Z) : Z :=
  (if uart_id =? 0 then UART_BASE_0 else UART_BASE_1) + off.

Lemma uart_at_eq uart_id r :
  0 <= uart_id <= 1 ->
  uart_at uart_id r = Some (uart_addr uart_id
    match r with
    | control => 0x00 | uart_mode => 0x04 | isr_en => 0x08 | isr_dis => 0x0C | isr_mask => 0x10
    | isr_status => 0x14 | br_gen => 0x18 | rx_timeout => 0x1C | rx_fifo_trig => 0x20
    | modem_ctrl => 0x24 | modem_status => 0x28 | ch_status => 0x2C | tx_rx_fifo => 0x30
    | br_div => 0x34 | flow_ctrl_dl => 0x38 | tx_fifo_trig => 0x44
    end).
Proof. intros. assert (uart_id = 0 \/ uart_id = 1) as [-> | ->] by lia; by destruct r. Qed.

(** The stores of [program_baud]. *)
Definition baud_spec (uart_id cd bdiv : Z) : list access :=
  [Wr (uart_addr uart_id 0) 0x28; Wr (uart_addr uart_id 0x18) cd;
   Wr (uart_addr uart_id 0x34) bdiv; Wr (uart_addr uart_id 0) 0x03;
   Wr (uart_addr uart_id 0) 0x14].

(** What is sent for a string: for each character any number of polls that find
    the transmit FIFO full, one that does not, and the store. *)
Inductive sent (uart_id : Z) : list Z -> list access -> Prop :=
| sent_nil : sent uart_id [] []
| sent_char c s v polls log :
    Forall (fun a => exists w, a = Rd (uart_addr uart_id 0x2C) w /\ Z.testbit w 4 = true) polls ->
    Z.testbit v 4 = false -> sent uart_id s log ->
    sent uart_id (c :: s)
      (polls ++ [Rd (uart_addr uart_id 0x2C) v; Wr (uart_addr uart_id 0x30) (u32 c)] ++ log).

Section runs.
Context {S : Type} `{Bus S}.

(** The FIFO has room after fewer than [n] polls. *)
Fixpoint room_within (n : nat) (uart_id : Z) (s : S) : Prop :=
  match n with
  | O => False
  | Datatypes.S n' =>
      Z.testbit (peek (uart_addr uart_id 0x2C) s) 4 = false \/
      room_within n' uart_id (after_rd (uart_addr uart_id 0x2C) s)
  end.

Lemma tful_bit v : (Z.land v UART_CH_STATUS_TFUL =? 0) = negb (Z.testbit v 4).
Proof. change UART_CH_STATUS_TFUL with (2 ^ 4). by apply land_pow2_eqb. Qed.

Lemma program_baud_run uart_id cd bdiv (s : S) log :
  0 <= uart_id <= 1 -> is_u32 cd -> is_u32 bdiv ->
  exists s', program_baud uart_id cd bdiv (Traced s log) =
    Ok tt (Traced s' (log ++ baud_spec uart_id cd bdiv)).
Proof.
  intros Hid Hcd Hb. unfold program_baud. rewrite !uart_at_eq by done. cbn [st].
  repeat run_access. rewrite <- !app_assoc, !u32_small by done. cbn [app]. by eexists.
Qed.

Lemma uart_putc_run fuel uart_id c (s : S) log :
  0 <= uart_id <= 1 -> room_within fuel uart_id s ->
  exists s' new, uart_putc fuel uart_id c (Traced s log) = Ok tt (Traced s' (log ++ new)) /\
    sent uart_id [c] new.
Proof.
  intros Hid. unfold uart_putc. rewrite !uart_at_eq by done. cbn [ld st].
  revert s log. induction fuel as [|fuel IH]; intros s log Hr; [done|].
  cbn [while_fuel]. repeat run_access. rewrite tful_bit, negb_involutive.
  destruct (Z.testbit (peek _ s) 4) eqn:Eb.
  - destruct Hr as [Hr|Hr]; [by rewrite Hr in Eb|]. repeat run_access.
    destruct (IH _ (log ++ [Rd (uart_addr uart_id 0x2C) (peek (uart_addr uart_id 0x2C) s)]) Hr)
      as (s' & new & E & Hs).
    exists s', (Rd (uart_addr uart_id 0x2C) (peek (uart_addr uart_id 0x2C) s) :: new).
    split; [by rewrite E, <- app_assoc|]. inversion Hs as [|? ? v polls log' Hp Hv Hlog]; subst.
    change (Rd ?a ?b :: ?l ++ ?k) with ((Rd a b :: l) ++ k).
    constructor; [|done..]. constructor; [by eexists|done].
  - repeat run_access. rewrite u32_idem. do 2 eexists.
    rewrite <- app_assoc. split; [reflexivity|].
    by apply (sent_char _ _ _ _ [] []); [constructor| |constructor].
Qed.

Lemma sent_app uart_id l1 l2 log1 log2 :
  sent uart_id l1 log1 -> sent uart_id l2 log2 -> sent uart_id (l1 ++ l2) (log1 ++ log2).
Proof.
  intros H1 H2. induction H1 as [|c l v polls log Hp Hv Hs IH]; [done|].
  rewrite <- !app_assoc. by constructor.
Qed.
End runs.

(** The UART of a device that stands in front of another. *)
Lemma room_through {S B} `{Bus S} `{Bus B} (f : S -> B) n uart_id :
  let a := uart_addr uart_id 0x2C in
  (forall s, peek a s = peek a (f s)) -> (forall s, f (after_rd a s) = after_rd a (f s)) ->
  forall s, room_within n uart_id (f s) -> room_within n uart_id s.
Proof.
  intros a Hp Ha. induction n as [|n IH]; intros s; [done|]. cbn [room_within]. subst a. rewrite Hp.
  intros [Hr|Hr]; [by left|right]. apply IH. by rewrite Ha.
Qed.


Lemma uart_puts_run {S} `{Bus S} (fuel : nat) (uart_id : Z) (s : list Z) (d : S)
    (log : list access) :
  0 <= uart_id <= 1 -> Forall (fun c => c <> 0) s ->
  (forall d : S, room_within fuel uart_id d) ->
  exists d' new, uart_puts fuel uart_id s (Traced d log) = Ok tt (Traced d' (log ++ new)) /\
    sent uart_id s new.
Proof.
  intros Hid Hs Hroom. revert d log. induction s as [|c s IH]; intros d log; cbn [uart_puts].
  { exists d, []. rewrite app_nil_r. split; [done|constructor]. }
  inversion_clear Hs as [|? ? Hc Hs']. destruct (Z.eqb_spec c 0); [done|].
  destruct (uart_putc_run fuel uart_id c d log Hid (Hroom d)) as (d1 & n1 & E1 & H1).
  rewrite (bind_ok _ _ _ _ _ E1).
  destruct (IH Hs' d1 (log ++ n1)) as (d2 & n2 & E2 & H2).
  exists d2, (n1 ++ n2). rewrite E2, <- app_assoc. split; [done|]. by apply (sent_app _ [c]).
Qed.

(** On any bus: the state after is the replay of accesses to the UART. *)
Definition uart_accesses (uart_id : Z) (l : list access) : Prop :=
  Forall (fun c => match c with Rd a _ | Wr a _ =>
    a = uart_addr uart_id 0x2C \/ a = uart_addr uart_id 0x30 end) l.

Section plain_runs.
Context {S : Type} `{Bus S}.

Lemma uart_putc_replay fuel uart_id c (s : S) :
  0 <= uart_id <= 1 -> room_within fuel uart_id s ->
  exists l, uart_putc fuel uart_id c s = Ok tt (replay l s) /\ uart_accesses uart_id l.
Proof.
  intros Hid. unfold uart_putc. rewrite !uart_at_eq by done. cbn [ld st].
  revert s. induction fuel as [|fuel IH]; intros s Hr; [done|].
  cbn [while_fuel]. repeat run_access. rewrite tful_bit, negb_involutive.
  destruct (Z.testbit (peek _ s) 4) eqn:Eb.
  - destruct Hr as [Hr|Hr]; [by rewrite Hr in Eb|]. repeat run_access.
    destruct (IH _ Hr) as (l & E & Hl).
    exists (Rd (uart_addr uart_id 0x2C) (peek (uart_addr uart_id 0x2C) s) :: l).
    split; [exact E|]. constructor; [by left|done].
  - repeat run_access. rewrite u32_idem.
    exists [Rd (uart_addr uart_id 0x2C) (peek (uart_addr uart_id 0x2C) s);
            Wr (uart_addr uart_id 0x30) (u32 c)].
    split; [reflexivity|]. constructor; [by left|]. constructor; [by right|constructor].
Qed.

Lemma uart_puts_replay fuel uart_id s (d : S) :
  0 <= uart_id <= 1 -> (forall d : S, room_within fuel uart_id d) ->
  exists l, uart_puts fuel uart_id s d = Ok tt (replay l d) /\ uart_accesses uart_id l.
Proof.
  intros Hid Hroom. revert d. induction s as [|c s IH]; intros d; cbn [uart_puts].
  { exists []. split; [done|constructor]. }
  destruct (c =? 0); [exists []; split; [done|constructor]|].
  destruct (uart_putc_replay fuel uart_id c d Hid (Hroom d)) as (l1 & E1 & H1).
  rewrite (bind_ok _ _ _ _ _ E1). destruct (IH (replay l1 d)) as (l2 & E2 & H2).
  exists (l1 ++ l2). rewrite E2, replay_app. split; [done|]. by apply Forall_app.
Qed.
End plain_runs.

#[export] Instance traces_uart_putc {S} `{Bus S} fuel uart_id c :
  Traces (uart_putc fuel uart_id c : M (traced S) unit).
Proof. unfold uart_putc. apply _. Qed.

#[export] Instance traces_uart_puts {S} `{Bus S} fuel uart_id s :
  Traces (uart_puts fuel uart_id s : M (traced S) unit).
Proof. induction s; cbn; apply _. Qed.

#[export] Instance traces_uart_init {S} `{Bus S} uart_id :
  Traces (uart_init uart_id : M (traced S) Z).
Proof. unfold uart_init, uart_set_baud_rate, program_baud. apply _. Qed.

(** C39: a string is sent whole, in order and without overrunning the transmit
    FIFO.  On a UART whose FIFO gets room within [fuel] polls, [uart_puts]
    returns, and its accesses are, for each character, polls that find the FIFO
    full, one that does not, and the store of that character. *)
Theorem uart_puts_sends {S} `{Bus S} (fuel : nat) (uart_id : Z) (s : list Z) (d : S)
    (log : list access) :
  0 <= uart_id <= 1 -> Forall (fun c => c <> 0) s ->
  (forall d : S, room_within fuel uart_id d) ->
  exists d' new, uart_puts fuel uart_id s (Traced d log) = Ok tt (Traced d' (log ++ new)) /\
    sent uart_id s new.
Proof. apply uart_puts_run. Qed.

(** The accesses of [uart_init], where the control register reads as [v]. *)
Definition init_spec (uart_id v : Z) : list access :=
  baud_spec uart_id 72 5 ++
  [Wr (uart_addr uart_id 0x20) 1; Wr (uart_addr uart_id 0x1C) 0;
   Wr (uart_addr uart_id 0x14) 0xFFFFFFFF; Wr (uart_addr uart_id 0x08) 1;
   Rd (uart_addr uart_id 0) v; Wr (uart_addr uart_id 0) (u32 (Z.lor v 0x103))].

Lemma uart_init_run {S} `{Bus S} (uart_id : Z) (d : S) (log : list access) :
  0 <= uart_id <= 1 ->
  exists d' v, uart_init uart_id (Traced d log) = Ok TRUE (Traced d' (log ++ init_spec uart_id v)).
Proof.
  intros Hid. unfold uart_init, uart_set_baud_rate, init_spec.
  destruct (program_baud_run uart_id UART_CD_115200 UART_BDIV_115200 d log Hid) as (d1 & E);
    [done..|]. rewrite bind_assoc, (bind_ok _ _ _ _ _ E), bind_ret. cbn [Z.eqb].
  change (TRUE =? FALSE) with false. cbv iota.
  rewrite !uart_at_eq by done. cbn [st st_or]. repeat run_access.
  rewrite <- !app_assoc. do 2 eexists. reflexivity.
Qed.

(** *** The divisor search *)
Lemma baud_try_ok baud bdiv :
  153 <= baud < 65536 -> 4 <= bdiv < 255 ->
  let cd := UART_FREQ_CLK / (baud * (bdiv + 1)) in
  let rate := UART_FREQ_CLK / (cd * (bdiv + 1)) in
  1 <= cd < 65536 /\
  baud_try UART_FREQ_CLK baud bdiv = Some (cd, Z.abs (rate - baud) * 1000 / baud <? UART_MAX_ERROR).
Proof.
  intros Hb Hd cd rate. unfold UART_FREQ_CLK in *.
  assert (Hm : 0 < baud * (bdiv + 1) <= 65535 * 255) by nia.
  assert (Hm5 : 153 * 5 <= baud * (bdiv + 1)) by nia.
  assert (Hcd : 1 <= cd < 65536).
  { subst cd. split.
    - apply Z.div_le_lower_bound; lia.
    - apply Z.div_lt_upper_bound; lia. }
  split; [done|]. unfold baud_try, mul32. rewrite (u32_small (baud * (bdiv + 1))) by (unfold is_u32; lia).
  destruct (Z.eqb_spec (baud * (bdiv + 1)) 0); [lia|]. cbv zeta. fold cd.
  assert (u16 cd = cd) as -> by (unfold u16; apply Z.mod_small; lia).
  assert (He : 0 < cd * (bdiv + 1)) by nia.
  destruct (Z.eqb_spec (cd * (bdiv + 1)) 0); [lia|]. fold rate.
  assert (Hlt : 50000000 < (cd + 1) * (baud * (bdiv + 1))).
  { subst cd. pose proof (Z.mul_succ_div_gt 50000000 (baud * (bdiv + 1)) ltac:(lia)). lia. }
  assert (Hrate : 0 <= rate < 2 * baud).
  { subst rate. split; [apply Z.div_pos; lia|]. apply Z.div_lt_upper_bound; nia. }
  do 4 f_equal. unfold u16. rewrite Z.mod_small; destruct (Z.ltb_spec rate baud); lia.
Qed.

Lemma baud_search_ok fuel baud bdiv :
  153 <= baud < 65536 -> 4 <= bdiv -> bdiv + Z.of_nat fuel <= 255 ->
  match baud_search fuel UART_FREQ_CLK baud bdiv with
  | inl _ => False
  | inr None => True
  | inr (Some (cd, b)) =>
      4 <= b < 255 /\ 1 <= cd < 65536 /\
      Z.abs (UART_FREQ_CLK / (cd * (b + 1)) - baud) * 1000 / baud < UART_MAX_ERROR
  end.
Proof.
  intros Hb. revert bdiv. induction fuel as [|fuel IH]; intros bdiv Hd Hf; [done|].
  cbn [baud_search]. destruct (baud_try_ok baud bdiv Hb) as [Hcd E]; [lia|].
  cbv zeta in *. rewrite E. destruct (Z.ltb_spec (Z.abs (UART_FREQ_CLK /
    (UART_FREQ_CLK / (baud * (bdiv + 1)) * (bdiv + 1)) - baud) * 1000 / baud) UART_MAX_ERROR).
  - split_and!; [lia..|done].
  - apply IH; lia.
Qed.

(** The guest's driver programs a rate it can reach to within 0.5%.  For
    every rate from 153 to 65535 it either reports failure without touching the
    device or programs divisors in range whose rate is off by less than 5 per
    mille; it never divides by zero. *)
Theorem guest_baud_rate {S} `{Bus S} (uart_id baud : Z) (d : S) :
  0 <= uart_id <= 1 -> 153 <= baud < 65536 ->
  guest_uart_set_baud_rate uart_id baud (Traced d []) = Ok 0 (Traced d []) \/
  exists d' cd bdiv,
    guest_uart_set_baud_rate uart_id baud (Traced d []) =
      Ok 1 (Traced d' (baud_spec uart_id cd bdiv)) /\
    4 <= bdiv < 255 /\ 1 <= cd < 65536 /\
    Z.abs (UART_FREQ_CLK / (cd * (bdiv + 1)) - baud) * 1000 / baud < UART_MAX_ERROR.
Proof.
  intros Hid Hb. unfold guest_uart_set_baud_rate, find_baud.
  destruct (Z.eqb_spec baud 0); [lia|].
  pose proof (baud_search_ok 251 baud 4 Hb ltac:(lia) ltac:(lia)) as Hs.
  destruct (baud_search 251 UART_FREQ_CLK baud 4) as [|[[cd b]|]]; [done| |by left]. right.
  destruct Hs as (H1 & H2 & H3).
  destruct (program_baud_run uart_id cd b d [] Hid) as (d' & E); [unfold is_u32; lia..|].
  exists d', cd, b. by rewrite (bind_ok _ _ _ _ _ E).
Qed.

(** The boards' constants are the divisors the search finds for 115200. *)
Lemma static_divisors :
  find_baud UART_FREQ_CLK UART_BAUD_RATE = inr (Some (UART_CD_115200, UART_BDIV_115200)).
Proof. vm_compute. reflexivity. Qed.

(** The error is kept in sixteen bits: 9 Mbaud is accepted with divisors
    that give 10 Mbaud; and 20 Mbaud divides by zero. *)
Lemma baud_error_truncated :
  (exists n, find_baud UART_FREQ_CLK 9000000 = inr (Some (1, n)) /\
     UART_FREQ_CLK / (1 * (n + 1)) = 10000000) /\
  find_baud UART_FREQ_CLK 20000000 = inl tt.
Proof. split; [exists 4|]; vm_compute; done. Qed.

(** Reading a character waits for a status that, on the boards other than
    the zedboard, is the wrong one: [!status & RTRIG] is true only when no
    status bit at all is set, so the driver reads an empty FIFO when, say, the
    REMPTY bit alone is set. *)
Lemma zybo_getc_ignores_empty {S} `{Bus S} (fuel : nat) (uart_id : Z) (d : S) :
  0 <= uart_id <= 1 -> (0 < fuel)%nat -> peek (uart_addr uart_id 0x2C) d <> 0 ->
  exists d' v,
    zybo_uart_getc fuel uart_id (Traced d []) =
      Ok v (Traced d' [Rd (uart_addr uart_id 0x2C) (peek (uart_addr uart_id 0x2C) d);
                       Rd (uart_addr uart_id 0x30) v]).
Proof.
  intros Hid Hf Hp. unfold zybo_uart_getc. rewrite !uart_at_eq by done. cbn [ld].
  destruct fuel as [|fuel]; [lia|]. cbn [while_fuel]. repeat run_access.
  destruct (Z.eqb_spec (peek (uart_addr uart_id 44) d) 0); [done|].
  change (negb (Z.land 0 UART_CH_STATUS_RTRIG =? 0)) with false. cbv iota.
  repeat run_access. do 2 eexists. reflexivity.
Qed.

(** *** Examples *)

(** A UART that answers every other poll with a full FIFO. *)
Record slow_dev : Type := SlowDev { busy : bool }.
#[export] Instance slow_dev_bus : Bus slow_dev := {
  bus_rd a d := (if busy d then 0x10 else 0x08, SlowDev (negb (busy d)));
  bus_wr a v d := d;
}.

Lemma slow_dev_room id (d : slow_dev) : room_within 2 id d.
Proof. destruct d as [[]]; cbn; [right; by left|by left]. Qed.

Lemma uart_puts_sends_witness :
  exists d' new, uart_puts 2 1 [72; 105] (Traced (SlowDev true) []) = Ok tt (Traced d' new) /\
    sent 1 [72; 105] new.
Proof.
  refine (uart_puts_sends 2 1 [72; 105] (SlowDev true) [] _ _ (slow_dev_room 1)); [lia|].
  by repeat constructor.
Defined.

Lemma guest_baud_rate_witness :
  exists v d', guest_uart_set_baud_rate 1 9600 (Traced (∅ : regfile) []) = Ok v d'.
Proof.
  destruct (guest_baud_rate 1 9600 (∅ : regfile)) as [E|(d' & cd & b & E & _)]; [lia..| |];
    do 2 eexists; exact E.
Defined.

(** Only REMPTY is set. *)
Definition getc_demo : regfile := <[0xE000102C := 0x2]> (∅ : gmap Z Z).

Lemma zybo_getc_ignores_empty_witness :
  exists d' v, zybo_uart_getc 1 1 (Traced getc_demo []) =
    Ok v (Traced d' [Rd (uart_addr 1 0x2C) (peek (uart_addr 1 0x2C) getc_demo);
                     Rd (uart_addr 1 0x30) v]).
Proof. apply (zybo_getc_ignores_empty 1 1 getc_demo); [lia|lia|done]. Defined.
