(* ===== verification/Printk.v ===== *)
(** * Formatted output ([lib/printk.c], [ns_guest/src/printk.c])

    [vsprintk] expands a format into a buffer, [printk] sends the buffer to
    UART 1.  The expansion is a function of the format and the arguments; what
    C leaves undefined (a format that ends in [%], a buffer overflow, the
    negation of the smallest integer) has no result. *)
From Stdlib Require Import Ascii String.
From S2P Require Import Prelude Bus Uart.

Local Open Scope Z_scope.

(** The characters of a literal. *)
Definition chars (s : string) : list Z := (fun c => Z.of_nat (nat_of_ascii c)) <$> list_ascii_of_string s.

Definition PRINT_TEXT_LEN : Z := 0x100.

(** An argument of the variable list. *)
Inductive va : Type :=
| VInt (v : Z)
| VStr (s : list Z).

(** What differs between the two copies: the guest compares the position of a
    hexadecimal digit as an [int], and its [case 'u'] does not fall through. *)
Record variant : Type := Variant { signed_position : bool; u_falls_through : bool }.
Definition ltzvisor_printk : variant := Variant false true.
Definition guest_printk : variant := Variant true false.

(** *** Numbers *)
Definition hex_char (b : Z) : Z := if b <=? 9 then b + 0x30 else b - 10 + 0x61.

(** The loop of [case 'x'], [n] turns left of eight. *)
Fixpoint hex_loop (v : variant) (zero_padding number : Z) (keep_zeros : bool) (n : nat) : list Z :=
  match n with
  | O => []
  | S n' =>
      let i := 8 - Z.of_nat n in
      let byte := Z.land (shr32 number (32 - (i + 1) * 4)) 0xF in
      let keep_zeros := keep_zeros || negb (byte =? 0) in
      let limit := sub32 7 (sub32 zero_padding 1) in
      let late := if signed_position v then s32 limit <=? i else limit <=? i in
      (if keep_zeros || late then [hex_char byte] else []) ++
      hex_loop v zero_padding number keep_zeros n'
  end.

(** [while (number >= divisor) { number -= divisor; ++quotient; }] *)
Fixpoint div_loop (fuel : nat) (number divisor quotient : Z) : Z * Z :=
  match fuel with
  | O => (number, quotient)
  | S f =>
      if divisor <=? number then div_loop f (number - divisor) divisor (quotient + 1)
      else (number, quotient)
  end.
(** [new_div_val *= 10] while [j < 8]. *)
Definition next_divisor (i : Z) : Z := 10 ^ (8 - i).

(** The loop of [case 'd'], [n] turns left of nine; the remainder is the last
    digit. *)
Fixpoint dec_loop (zero_padding number divisor : Z) (keep_zeros : bool) (n : nat) : list Z :=
  match n with
  | O => [number + 0x30]
  | S n' =>
      let i := 9 - Z.of_nat n in
      let '(number, quotient) := div_loop 10 number divisor 0 in
      let keep_zeros := keep_zeros || negb (quotient =? 0) in
      (if keep_zeros || (sub32 8 (sub32 zero_padding 1) <? i) then [quotient + 0x30] else []) ++
      dec_loop zero_padding number (next_divisor i) keep_zeros n'
  end.
Definition print_unsigned (zero_padding number : Z) : list Z :=
  dec_loop zero_padding number 1000000000 false 9.
(** [-(signed_num_32)] overflows for the smallest integer. *)
Definition print_signed (zero_padding number : Z) : option (list Z) :=
  let n := s32 number in
  if n =? - 2 ^ 31 then None
  else Some (if n <? 0 then 0x2d :: print_unsigned zero_padding (- n)
             else print_unsigned zero_padding n).

(** The loop of [case 'o'], [n] turns left of ten. *)
Fixpoint oct_loop (zero_padding number : Z) (keep_zeros : bool) (n : nat) : list Z :=
  match n with
  | O => []
  | S n' =>
      let i := 10 - Z.of_nat n in
      let byte := Z.land (shr32 number (32 - (i + 1) * 3)) 0x7 in
      let keep_zeros := keep_zeros || negb (byte =? 0) in
      (if keep_zeros || (sub32 9 (sub32 zero_padding 1) <=? i) then [byte + 0x30] else []) ++
      oct_loop zero_padding number keep_zeros n'
  end.
Definition print_octal (zero_padding number : Z) : list Z :=
  let byte := Z.land (shr32 number 30) 0x3 in
  let keep_zeros := negb (byte =? 0) in
  (if keep_zeros || (10 <? zero_padding) then [byte + 0x30] else []) ++
  oct_loop zero_padding (shl32 number 2) keep_zeros 10.

(** *** The format *)

(** One conversion: the characters it appends, the arguments left and the
    length counted for strings. *)
Definition convert (v : variant) (f zero_padding : Z) (args : list va) (len : Z)
  : option (list Z * list va * Z) :=
  if f =? 120 (* x *) then
    match args with
    | VInt n :: args' => Some (hex_loop v zero_padding (u32 n) false 8, args', len)
    | _ => None
    end
  else if f =? 117 (* u *) then
    if u_falls_through v then
      match args with
      | VInt n :: args' => Some (print_unsigned zero_padding (u32 n), args', len)
      | _ => None
      end
    else Some ([], args, len)
  else if (f =? 105) || (f =? 100) (* i, d *) then
    match args with
    | VInt n :: args' =>
        match print_signed zero_padding n with
        | Some l => Some (l, args', len)
        | None => None
        end
    | _ => None
    end
  else if f =? 111 (* o *) then
    match args with
    | VInt n :: args' => Some (print_octal zero_padding (u32 n), args', len)
    | _ => None
    end
  else if f =? 115 (* s *) then
    match args with
    | VStr l :: args' =>
        let copied := take (Z.to_nat (PRINT_TEXT_LEN - len)) l in
        Some (copied, args', len + Z.of_nat (length copied))
    | _ => None
    end
  else if f =? 99 (* c *) then
    match args with
    | VInt c :: args' => Some ([u8 c], args', len)
    | _ => None
    end
  else if f =? 37 (* % *) then Some ([37], args, len)
  else if f =? 9 then Some ([37; 9], args, len)
  else if f =? 10 then Some ([37; 13; 10], args, len)
  else Some ([], args, len).

(** [*fmt], 0 at the terminator. *)
Definition here (fmt : list Z) : Z := match fmt with c :: _ => c | [] => 0 end.
(** [++fmt]; past the terminator there is nothing to point to. *)
Definition advance (fmt : list Z) : option (list Z) :=
  match fmt with _ :: fmt' => Some fmt' | [] => None end.

(** After a percent sign: zero padding, a length modifier. *)
Definition directive (fmt : list Z) : option (Z * list Z) :=
  match
    (if here fmt =? 48 then
       match advance fmt with
       | Some fmt1 => match advance fmt1 with
                      | Some fmt2 => Some (sub32 (here fmt1) 0x30, fmt2)
                      | None => None
                      end
       | None => None
       end
     else Some (1, fmt))
  with
  | Some (zero_padding, fmt) =>
      if here fmt =? 108 then
        match advance fmt with Some fmt' => Some (zero_padding, fmt') | None => None end
      else Some (zero_padding, fmt)
  | None => None
  end.

(** The line end or tab a turn of the loop may close with. *)
Definition closing (c : Z) : list Z :=
  if c =? 10 then [13; 10] else if c =? 9 then [9] else [].

Fixpoint vsprintk (v : variant) (fuel : nat) (fmt : list Z) (args : list va) (len : Z)
  : option (list Z) :=
  match fuel, fmt with
  | O, _ => None
  | _, [] => Some []
  | S f, c :: rest =>
      if c =? 37 then
        match directive rest with
        | None => None
        | Some (zero_padding, cur) =>
            match convert v (here cur) zero_padding args len, advance cur with
            | Some (out, args', len'), Some next =>
                match vsprintk v f next args' len' with
                | Some out' => Some (out ++ closing (here cur) ++ out')
                | None => None
                end
            | _, _ => None
            end
        end
      else
        match vsprintk v f rest args len with
        | Some out' => Some ((if (c =? 10) || (c =? 9) then closing c else [c]) ++ out')
        | None => None
        end
  end.

(** A character as an [int8_t]. *)
Definition s8 (c : Z) : Z := if u8 c <? 128 then u8 c else u8 c - 256.

(** The text up to the terminator: [strnlen] of the buffer. *)
Fixpoint text_length (l : list Z) : Z :=
  match l with
  | [] => 0
  | c :: l' => if c =? 0 then 0 else 1 + text_length l'
  end.

Section printk.
Context {S : Type} `{Bus S}.
Variable v : variant.
(** Polls of the UART; what [strnlen] finds in the uninitialised buffer. *)
Variable fuel : nat.
Variable len : Z.

Definition printk (fmt : list Z) (args : list va) : M S Z :=
  match vsprintk v (Datatypes.S (length fmt)) fmt args len with
  | None => undef
  | Some out =>
      if 256 <=? Z.of_nat (length out) then undef
      else uart_puts fuel 1 (s8 <$> out) ;; mret (text_length out)
  end.
End printk.

Example print_demo :
  vsprintk ltzvisor_printk 40 (chars "a: 0x%x %d" ++ [10; 9]) [VInt 0x8000; VInt (-12)] 0 =
    Some (chars "a: 0x8000 -12" ++ [13; 10; 9]).
Proof. vm_compute. reflexivity. Qed.

(** ** Reading numbers back *)
Definition digits_value (b : Z) (l : list Z) : Z := fold_left (fun a d => a * b + d) l 0.

Lemma digits_value_acc b l a :
  fold_left (fun a d => a * b + d) l a = a * b ^ Z.of_nat (length l) + digits_value b l.
Proof.
  unfold digits_value. revert a. induction l as [|d l IH]; intros a; [cbn; lia|].
  cbn [fold_left length]. rewrite IH, (IH (0 * b + d)).
  rewrite Nat2Z.inj_succ, Z.pow_succ_r by lia. ring.
Qed.

Lemma digits_value_cons b d l : digits_value b (d :: l) = d * b ^ Z.of_nat (length l) + digits_value b l.
Proof. unfold digits_value at 1. cbn [fold_left]. rewrite digits_value_acc. ring. Qed.

(** The [m] digits of a number without the leading zeros, but for the last. *)
Fixpoint plain_digits (b : Z) (m : nat) (keep : bool) (n : Z) : list Z :=
  match m with
  | O => []
  | S k =>
      let d := n / b ^ Z.of_nat k in
      let keep := keep || negb (d =? 0) in
      (if keep || (k =? 0)%nat then [d] else []) ++ plain_digits b k keep (n mod b ^ Z.of_nat k)
  end.

Lemma plain_digits_keep b m n :
  2 <= b -> length (plain_digits b m true n) = m.
Proof. intros Hb. revert n. induction m as [|m IH]; intros n; cbn; [done|]. by rewrite IH. Qed.

Lemma plain_digits_value b m keep n :
  2 <= b -> 0 <= n < b ^ Z.of_nat m -> digits_value b (plain_digits b m keep n) = n.
Proof.
  intros Hb. revert keep n. induction m as [|m IH]; intros keep n Hn.
  { cbn in *. lia. }
  cbn [plain_digits]. rewrite Nat2Z.inj_succ, Z.pow_succ_r in Hn by lia.
  assert (Hp : 0 < b ^ Z.of_nat m) by (apply Z.pow_pos_nonneg; lia).
  pose proof (Z.mod_pos_bound n _ Hp) as Hm. pose proof (Z.div_mod n (b ^ Z.of_nat m) ltac:(lia)).
  destruct (Z.eqb_spec (n / b ^ Z.of_nat m) 0) as [E|E]; destruct keep; cbn [negb orb];
    try (cbn [app]; rewrite digits_value_cons, IH, plain_digits_keep by done; lia).
  destruct (Nat.eqb_spec m 0) as [->|]; cbn [app].
  - rewrite E. cbn in *. lia.
  - rewrite IH by done. lia.
Qed.

(** No leading zero: as long as the number needs. *)
Lemma plain_digits_minimal b m n :
  2 <= b -> 0 <= n < b ^ Z.of_nat m -> (0 < m)%nat ->
  let l := plain_digits b m false n in
  (0 < length l)%nat /\ ((1 < length l)%nat -> b ^ Z.of_nat (length l - 1) <= n).
Proof.
  intros Hb. revert n. induction m as [|m IH]; intros n Hn Hm; [lia|]. clear Hm. cbv zeta.
  cbn [plain_digits]. rewrite Nat2Z.inj_succ, Z.pow_succ_r in Hn by lia.
  assert (Hp : 0 < b ^ Z.of_nat m) by (apply Z.pow_pos_nonneg; lia).
  pose proof (Z.mod_pos_bound n _ Hp) as Hmb. pose proof (Z.div_mod n (b ^ Z.of_nat m) ltac:(lia)) as Hdm.
  destruct (Z.eqb_spec (n / b ^ Z.of_nat m) 0) as [E|E]; cbn [negb orb].
  - destruct (Nat.eqb_spec m 0) as [->|Hm]; cbn [app length]; [cbn; lia|].
    destruct (IH (n mod b ^ Z.of_nat m) Hmb ltac:(lia)) as [H1 H2]. split; [done|].
    intros Hl. specialize (H2 Hl). lia.
  - cbn [app length]. rewrite plain_digits_keep by done.
    assert (0 <= n / b ^ Z.of_nat m) by (apply Z.div_pos; lia).
    split; [lia|]. intros _. replace (S m - 1)%nat with m by lia. nia.
Qed.

(** *** The loops print plain digits *)
Lemma digit_split n p b :
  0 < p -> 0 < b -> n mod (p * b) / p = (n / p) mod b /\ (n mod (p * b)) mod p = n mod p.
Proof.
  intros Hp Hb. rewrite Z.rem_mul_r by lia. pose proof (Z.mod_pos_bound n p Hp).
  split.
  - symmetry. apply Z.div_unique with (n mod p); lia.
  - rewrite Z.mul_comm, Z_mod_plus_full. by apply Z.mod_mod; lia.
Qed.

Lemma hex_loop_digits v n m keep :
  (m <= 8)%nat ->
  hex_loop v 1 n keep m = hex_char <$> plain_digits 16 m keep (n mod 16 ^ Z.of_nat m).
Proof.
  revert keep. induction m as [|m IH]; intros keep Hm; [done|].
  cbn [hex_loop plain_digits].
  replace (32 - (8 - Z.of_nat (S m) + 1) * 4) with (4 * Z.of_nat m) by lia.
  assert (Hp : 0 < 16 ^ Z.of_nat m) by (apply Z.pow_pos_nonneg; lia).
  rewrite (Nat2Z.inj_succ m), Z.pow_succ_r, (Z.mul_comm 16) by lia.
  destruct (digit_split n (16 ^ Z.of_nat m) 16 Hp ltac:(lia)) as [-> ->].
  assert (Hd : Z.land (shr32 n (4 * Z.of_nat m)) 15 = (n / 16 ^ Z.of_nat m) mod 16).
  { unfold shr32. change 15 with (Z.ones 4). rewrite Z.land_ones, Z.shiftr_div_pow2 by lia.
    by rewrite Z.pow_mul_r by lia. }
  rewrite Hd, IH, fmap_app by lia. f_equal.
  change (sub32 7 (sub32 1 1)) with 7. change (s32 7) with 7.
  replace (7 <=? 8 - Z.succ (Z.of_nat m)) with (m =? 0)%nat
    by (destruct (Nat.eqb_spec m 0), (Z.leb_spec 7 (8 - Z.succ (Z.of_nat m))); lia).
  by destruct (signed_position v), (_ || (m =? 0)%nat).
Qed.

Lemma div_loop_run fuel n d q :
  0 < d -> 0 <= n < Z.of_nat fuel * d ->
  div_loop fuel n d q = (n mod d, q + n / d).
Proof.
  revert n q. induction fuel as [|fuel IH]; intros n q Hd Hn; [lia|]. cbn [div_loop].
  destruct (Z.leb_spec d n).
  - rewrite IH by lia. replace n with (n - d + 1 * d) at 3 4 by lia.
    rewrite Z_mod_plus_full, Z.div_add by lia. f_equal. lia.
  - rewrite Z.mod_small, Z.div_small by lia. by rewrite Z.add_0_r.
Qed.

Lemma dec_loop_digits m keep n :
  (m <= 9)%nat -> 0 <= n < 10 ^ Z.of_nat (S m) ->
  dec_loop 1 n (10 ^ Z.of_nat m) keep m = (fun d => d + 0x30) <$> plain_digits 10 (S m) keep n.
Proof.
  revert keep n. induction m as [|m IH]; intros keep n Hm Hn.
  { cbn [dec_loop plain_digits]. cbn in Hn. rewrite Z.div_1_r, orb_true_r. done. }
  cbn [dec_loop]. remember (S m) as m1 eqn:Em. cbn [plain_digits]. subst m1.
  assert (Hp : 0 < 10 ^ Z.of_nat (S m)) by (apply Z.pow_pos_nonneg; lia).
  rewrite div_loop_run; [|done|rewrite (Nat2Z.inj_succ (S m)), Z.pow_succ_r in Hn by lia; lia].
  rewrite Z.add_0_l. replace (next_divisor (9 - Z.of_nat (S m))) with (10 ^ Z.of_nat m)
    by (unfold next_divisor; f_equal; lia).
  rewrite IH by (first [lia | apply Z.mod_pos_bound; lia]). rewrite fmap_app. f_equal.
  change (sub32 8 (sub32 1 1)) with 8.
  destruct (Z.ltb_spec 8 (9 - Z.of_nat (S m))); [lia|].
  change (S m =? 0)%nat with false. by destruct (keep || _).
Qed.

(** *** Properties *)

(** The value of a hexadecimal digit. *)
Definition hex_value (c : Z) : Z := if c <? 0x3A then c - 0x30 else c - 0x61 + 10.

Lemma hex_char_value d : 0 <= d < 16 -> hex_value (hex_char d) = d.
Proof.
  intros. unfold hex_value, hex_char. destruct (Z.leb_spec d 9).
  - destruct (Z.ltb_spec (d + 48) 58); lia.
  - destruct (Z.ltb_spec (d - 10 + 97) 58); lia.
Qed.

Lemma plain_digits_range b m keep n d :
  2 <= b -> 0 <= n < b ^ Z.of_nat m -> d ∈ plain_digits b m keep n -> 0 <= d < b.
Proof.
  intros Hb. revert keep n. induction m as [|m IH]; intros keep n Hn; cbn [plain_digits].
  { by intros ?%elem_of_nil. }
  rewrite Nat2Z.inj_succ, Z.pow_succ_r in Hn by lia.
  assert (Hp : 0 < b ^ Z.of_nat m) by (apply Z.pow_pos_nonneg; lia).
  intros [Hd|Hd]%elem_of_app.
  - destruct (_ || _); [|by apply elem_of_nil in Hd]. apply list_elem_of_singleton in Hd as ->.
    split; [apply Z.div_pos; lia|]. apply Z.div_lt_upper_bound; lia.
  - eapply IH; [|exact Hd]. by apply Z.mod_pos_bound.
Qed.

(** [%x] round trips.  It prints the digits of the argument in base sixteen:
    read back they give the word, and there is no leading zero. *)
Theorem print_hex_value (v : variant) (n : Z) (len : Z) :
  is_u32 n ->
  exists out, vsprintk v 3 (chars "%x") [VInt n] len = Some out /\
    digits_value 16 (hex_value <$> out) = n /\
    (0 < length out)%nat /\ ((1 < length out)%nat -> 16 ^ Z.of_nat (length out - 1) <= n).
Proof.
  intros Hn. exists (hex_loop v 1 n false 8).
  rewrite (hex_loop_digits v n 8) by lia.
  assert (n mod 16 ^ Z.of_nat 8 = n) as -> by (apply Z.mod_small; unfold is_u32 in Hn; cbn in *; lia).
  assert (Hb : 0 <= n < 16 ^ Z.of_nat 8) by (unfold is_u32 in Hn; cbn in *; lia).
  split; [|split].
  - rewrite <- (Z.mod_small n (16 ^ Z.of_nat 8)) at 2 by done.
    rewrite <- (hex_loop_digits v n 8) by lia. change (chars "%x") with [37; 120].
    cbn -[hex_loop u32]. by rewrite u32_small, app_nil_r by done.
  - rewrite <- list_fmap_compose.
    replace ((hex_value ∘ hex_char) <$> plain_digits 16 8 false n) with (plain_digits 16 8 false n).
    + by apply plain_digits_value.
    + rewrite <- (list_fmap_id (plain_digits 16 8 false n)) at 1. apply list_fmap_ext.
      intros i d Hd. cbn. symmetry. apply hex_char_value.
      by eapply (plain_digits_range 16 8), list_elem_of_lookup_2.
  - rewrite length_fmap. by apply plain_digits_minimal; [lia|done|lia].
Qed.

(** What a signed decimal numeral says. *)
Definition decimal_value (l : list Z) : Z :=
  match l with
  | c :: l' =>
      if c =? 0x2d then - digits_value 10 ((fun c => c - 0x30) <$> l')
      else digits_value 10 ((fun c => c - 0x30) <$> l)
  | [] => 0
  end.

Lemma print_unsigned_value n :
  is_u32 n ->
  digits_value 10 ((fun c => c - 0x30) <$> print_unsigned 1 n) = n /\
  exists c l, print_unsigned 1 n = c :: l /\ 0x30 <= c.
Proof.
  intros Hn. unfold print_unsigned. change 1000000000 with (10 ^ Z.of_nat 9).
  assert (Hb : 0 <= n < 10 ^ Z.of_nat 10) by (unfold is_u32 in Hn; cbn in *; lia).
  rewrite dec_loop_digits by (lia || done). split.
  - rewrite <- list_fmap_compose.
    replace (_ <$> plain_digits 10 10 false n) with (plain_digits 10 10 false n).
    + apply plain_digits_value; [lia|done].
    + rewrite <- (list_fmap_id (plain_digits 10 10 false n)) at 1. apply list_fmap_ext.
      intros i d Hd. cbn. lia.
  - destruct (plain_digits_minimal 10 10 n) as [Hl _]; [lia|done|lia|].
    pose proof (plain_digits_range 10 10 false n) as Hr.
    destruct (plain_digits 10 10 false n) as [|d l]; [cbn in Hl; lia|].
    exists (d + 48), ((fun d => d + 48) <$> l). split; [done|].
    specialize (Hr d ltac:(lia) Hb ltac:(left)). lia.
Qed.

(** C40: [%d] round trips: read back, the text is the signed value of the
    argument - every value but the smallest, whose negation overflows. *)
Theorem print_decimal_value (v : variant) (n : Z) (len : Z) :
  - 2 ^ 31 < n < 2 ^ 31 ->
  exists out, vsprintk v 3 (chars "%d") [VInt n] len = Some out /\ decimal_value out = n.
Proof.
  intros Hn. assert (Hs : s32 n = n).
  { unfold s32, u32. destruct (Z.ltb_spec (n mod 2 ^ 32) (2 ^ 31)); Z.div_mod_to_equations; lia. }
  set (out := if n <? 0 then 0x2d :: print_unsigned 1 (- n) else print_unsigned 1 n).
  exists out. split.
  - change (chars "%d") with [37; 100]. cbn -[print_signed]. unfold print_signed. rewrite Hs.
    destruct (Z.eqb_spec n (- 2 ^ 31)); [lia|]. subst out. by destruct (n <? 0); rewrite app_nil_r.
  - subst out. destruct (Z.ltb_spec n 0).
    + unfold decimal_value. change (45 =? 45) with true. cbv iota.
      destruct (print_unsigned_value (- n)) as [-> _]; [unfold is_u32|]; lia.
    + destruct (print_unsigned_value n) as [Hv (c & l & E & Hc)]; [unfold is_u32; lia|].
      rewrite E in *. unfold decimal_value. by destruct (Z.eqb_spec c 45); [lia|].
Qed.

#[export] Instance traces_printk {S} `{Bus S} v fuel len fmt args :
  Traces (printk v fuel len fmt args : M (traced S) Z).
Proof. unfold printk. destruct (vsprintk _ _ _ _ _); apply _. Qed.

(** Plain characters. *)
Definition is_text (c : Z) : bool := (0 <? c) && (c <? 128).

(** Formats of text, [%s], [%x] and [%d], with the strings they expect, and the
    characters they can expand to. *)
Fixpoint fmt_bound (n : nat) (fmt : list Z) (args : list va) : option nat :=
  match n, fmt with
  | O, _ => None
  | _, [] => Some O
  | Datatypes.S n', c :: rest =>
      if c =? 37 then
        match rest, args with
        | f :: rest', VStr l :: args' =>
            if (f =? 115) && forallb is_text l then
              b ← fmt_bound n' rest' args'; Some (length l + b)%nat
            else None
        | f :: rest', VInt z :: args' =>
            if f =? 120 then b ← fmt_bound n' rest' args'; Some (8 + b)%nat
            else if (f =? 100) && negb (s32 z =? - 2 ^ 31) then
              b ← fmt_bound n' rest' args'; Some (11 + b)%nat
            else None
        | _, _ => None
        end
      else if is_text c then b ← fmt_bound n' rest args; Some (2 + b)%nat
      else None
  end.

Lemma hex_loop_text v z n keep m :
  forallb is_text (hex_loop v z n keep m) = true /\ (length (hex_loop v z n keep m) <= m)%nat.
Proof.
  revert keep. induction m as [|m IH]; intros keep; [done|]. cbn [hex_loop].
  set (b := Z.land _ 15). assert (Hb : 0 <= b < 16).
  { subst b. change 15 with (Z.ones 4). rewrite Z.land_ones by lia. by apply Z.mod_pos_bound. }
  destruct (IH (keep || negb (b =? 0))) as [H1 H2].
  rewrite forallb_app, length_app, H1. match goal with |- context [if ?x then [hex_char b] else []] => destruct x end;
    cbn [forallb length]; [|cbn; split; [done|lia]].
  split; [|cbn; lia]. unfold is_text, hex_char. rewrite !andb_true_r.
  destruct (Z.leb_spec b 9); apply andb_true_iff; split; apply Z.ltb_lt; lia.
Qed.

Lemma plain_digits_length b m keep n : (length (plain_digits b m keep n) <= m)%nat.
Proof.
  revert keep n. induction m as [|m IH]; intros keep n; cbn [plain_digits]; [done|].
  rewrite length_app. specialize (IH (keep || negb (n / b ^ Z.of_nat m =? 0)) (n mod b ^ Z.of_nat m)).
  destruct (_ || (m =? 0)%nat); cbn [length]; lia.
Qed.

Lemma print_signed_text z :
  s32 z <> - 2 ^ 31 ->
  exists out, print_signed 1 z = Some out /\ forallb is_text out = true /\ (length out <= 11)%nat.
Proof.
  assert (Hu : forall n, is_u32 n ->
    forallb is_text (print_unsigned 1 n) = true /\ (length (print_unsigned 1 n) <= 10)%nat).
  { intros n Hn. unfold print_unsigned. change 1000000000 with (10 ^ Z.of_nat 9).
    assert (Hb : 0 <= n < 10 ^ Z.of_nat 10) by (unfold is_u32 in Hn; cbn in *; lia).
    rewrite dec_loop_digits by (lia || done). rewrite length_fmap.
    split; [|apply plain_digits_length]. apply forallb_forall. intros c Hc.
    apply in_map_iff in Hc as (d & <- & Hd%list_elem_of_In).
    apply plain_digits_range in Hd; [|lia|done]. unfold is_text. lia. }
  assert (Hz : - 2 ^ 31 <= s32 z < 2 ^ 31).
  { unfold s32, u32. destruct (Z.ltb_spec (z mod 2 ^ 32) (2 ^ 31)); Z.div_mod_to_equations; lia. }
  intros Hne. unfold print_signed. destruct (Z.eqb_spec (s32 z) (- 2 ^ 31)); [done|].
  eexists. split; [reflexivity|]. destruct (Z.ltb_spec (s32 z) 0).
  - destruct (Hu (- s32 z)) as [H1 H2]; [unfold is_u32; lia|]. cbn [forallb length]. rewrite H1.
    split; [done|lia].
  - destruct (Hu (s32 z)) as [H1 H2]; [unfold is_u32; lia|]. split; [done|lia].
Qed.

Lemma forallb_take {A} (f : A -> bool) n l : forallb f l = true -> forallb f (take n l) = true.
Proof.
  revert n. induction l as [|x l IH]; intros [|n] Hl; cbn in *; try done.
  apply andb_true_iff in Hl as [-> Hl]. by rewrite IH.
Qed.

Lemma vsprintk_text v n fmt args b len :
  fmt_bound n fmt args = Some b ->
  exists out, vsprintk v n fmt args len = Some out /\ forallb is_text out = true /\
    (length out <= b)%nat.
Proof.
  revert fmt args b len. induction n as [|n IH]; intros [|c rest] args b len Hb; try done.
  { injection Hb as <-. by exists []. }
  cbn [fmt_bound] in Hb. cbn [vsprintk]. destruct (c =? 37).
  - destruct rest as [|f rest]; [done|]. destruct args as [|[x|l] args]; [done|..].
    + destruct (Z.eqb_spec f 120) as [->|].
      2: { destruct (Z.eqb_spec f 100) as [->|]; [|done]. cbn [andb] in Hb.
        destruct (Z.eqb_spec (s32 x) (- 2 ^ 31)) as [|Hx]; [done|]. cbn [negb] in Hb.
        destruct (fmt_bound n rest args) as [b'|] eqn:E; [|done]. injection Hb as <-.
        destruct (IH _ _ _ len E) as (out & E' & H1 & H2).
        destruct (print_signed_text x Hx) as (ds & Ed & H3 & H4). unfold directive.
        cbn -[print_signed]. rewrite Ed, E'. eexists. split; [reflexivity|].
        rewrite forallb_app, length_app, H3, H1. split; [done|lia]. }
      destruct (fmt_bound n rest args) as [b'|] eqn:E; [|done]. injection Hb as <-.
      destruct (IH _ _ _ len E) as (out & E' & H1 & H2). unfold directive.
      cbn -[hex_loop u32]. rewrite E'. eexists. split; [reflexivity|].
      destruct (hex_loop_text v 1 (u32 x) false 8) as [H3 H4].
      rewrite forallb_app, length_app, H3, H1. split; [done|lia].
    + destruct (Z.eqb_spec f 115) as [->|]; [|done]. cbn [andb] in Hb.
      destruct (forallb is_text l) eqn:El; [|done].
      destruct (fmt_bound n rest args) as [b'|] eqn:E; [|done]. injection Hb as <-.
      unfold directive. cbn -[take Z.to_nat PRINT_TEXT_LEN].
      set (k := Z.to_nat _).
      destruct (IH _ _ _ (len + Z.of_nat (length (take k l))) E) as (out & E' & H1 & H2).
      rewrite E'. eexists. split; [reflexivity|].
      rewrite forallb_app, length_app, forallb_take, H1, length_take by done. split; [done|lia].
  - destruct (is_text c) eqn:Ec; [|done].
    destruct (fmt_bound n rest args) as [b'|] eqn:E; [|done]. injection Hb as <-.
    destruct (IH _ _ _ len E) as (out & E' & H1 & H2). rewrite E'.
    eexists. split; [reflexivity|]. rewrite forallb_app, length_app, H1. unfold closing.
    destruct (c =? 10), (c =? 9); cbn; rewrite ?Ec; (split; [done|lia]).
Qed.

(** What is sent is the expansion of the format. *)
Lemma printk_does {S} `{Bus S} v fuel len fmt args out :
  vsprintk v (Datatypes.S (length fmt)) fmt args len = Some out -> (length out < 256)%nat ->
  forallb is_text out = true -> (forall d : S, room_within fuel 1 d) ->
  does (printk v fuel len fmt args : M (traced S) Z) (Z.of_nat (length out)) (sent 1 out).
Proof.
  intros Hv Hl Ht Hroom. apply does_intro; [apply _|]. intros d log.
  assert (Ht' : Forall (fun c => 0 < c < 128) out).
  { apply Forall_forall. intros c Hc%list_elem_of_In. rewrite forallb_forall in Ht.
    specialize (Ht c Hc). unfold is_text in Ht. lia. }
  assert (Hid : s8 <$> out = out).
  { clear -Ht'. induction Ht' as [|c s Hc Hs IH]; [done|]. cbn. rewrite IH. f_equal.
    unfold s8, u8. rewrite Z.mod_small by lia. by destruct (Z.ltb_spec c 128); [|lia]. }
  assert (Htl : text_length out = Z.of_nat (length out)).
  { clear -Ht'. induction Ht' as [|c s Hc Hs IH]; [done|]. cbn [text_length length].
    rewrite IH. destruct (Z.eqb_spec c 0); lia. }
  unfold printk. rewrite Hv. destruct (Z.leb_spec 256 (Z.of_nat (length out))); [lia|].
  rewrite Hid, Htl.
  destruct (uart_puts_run fuel 1 out d log ltac:(lia)) as (d' & new & E & Hsent); [|done|].
  { eapply Forall_impl; [exact Ht'|]. cbn. lia. }
  exists d', new. by rewrite (bind_ok _ _ _ _ _ E).
Qed.

(** Text is printed as it is: a format without percent signs, line ends or
    tabs reaches the UART character by character. *)
Theorem printk_text {S} `{Bus S} (v : variant) (fuel : nat) (len : Z) (s : list Z) (args : list va)
    (d : S) :
  Forall (fun c => 0 < c < 128 /\ c <> 37 /\ c <> 10 /\ c <> 9) s -> (length s < 256)%nat ->
  (forall d : S, room_within fuel 1 d) ->
  exists d' log, printk v fuel len s args (Traced d []) = Ok (Z.of_nat (length s)) (Traced d' log) /\
    sent 1 s log.
Proof.
  intros Hs Hl Hroom.
  assert (Hv : forall n, (length s < n)%nat -> vsprintk v n s args len = Some s).
  { clear Hl. induction Hs as [|c s (Hc & H1 & H2 & H3) Hs IH]; intros [|n] Hn; cbn in Hn; try lia; [done|].
    cbn [vsprintk]. rewrite (IH n) by lia.
    rewrite (proj2 (Z.eqb_neq c 37)), (proj2 (Z.eqb_neq c 10)), (proj2 (Z.eqb_neq c 9)) by done. done. }
  destruct (printk_does (S := S) v fuel len s args s) with d ([] : list access) as (log & E & Hsent);
    [by apply Hv; lia|done| |done|by eexists _, log].
  apply forallb_forall. intros c Hc%list_elem_of_In. rewrite Forall_forall in Hs.
  specialize (Hs c Hc). unfold is_text. lia.
Qed.

Lemma print_hex_value_witness :
  exists out, vsprintk ltzvisor_printk 3 (chars "%x") [VInt 0xBEEF] 0 = Some out /\
    digits_value 16 (hex_value <$> out) = 0xBEEF.
Proof.
  destruct (print_hex_value ltzvisor_printk 0xBEEF 0) as (out & E & Hv & _); [unfold is_u32; lia|].
  exists out. exact (conj E Hv).
Defined.

Lemma print_decimal_value_witness :
  exists out, vsprintk guest_printk 3 (chars "%d") [VInt (-1024)] 0 = Some out /\
    decimal_value out = -1024.
Proof. apply (print_decimal_value guest_printk (-1024) 0). lia. Defined.

Lemma printk_text_witness :
  exists d' log, printk ltzvisor_printk 2 0 [79; 75] [] (Traced (SlowDev true) []) =
    Ok 2 (Traced d' log) /\ sent 1 [79; 75] log.
Proof.
  apply (printk_text ltzvisor_printk 2 0 [79; 75] []); [|cbn; lia|exact (slow_dev_room 1)].
  repeat constructor; lia.
Defined.

(** The guest's [%u] prints nothing and leaves the argument to the next
    directive. *)
Example guest_unsigned_lost :
  vsprintk guest_printk 9 (chars "%u %d") [VInt 1; VInt 2] 0 = Some (chars " 1") /\
  vsprintk ltzvisor_printk 9 (chars "%u %d") [VInt 1; VInt 2] 0 = Some (chars "1 2").
Proof. vm_compute. done. Qed.
