(* ===== verification/Board.v ===== *)
(** * The boards ([boards/*/board.c], [boards/*/ltzvisor_hw.c])

    The TrustZone configuration of the Zynq, the initialisation of the
    hardware LTZVisor uses, and the system calls the boards handle.  The four
    boards differ in the segments of DDR memory and the interrupts they give to
    the non-secure world. *)
From Stdlib Require Import Ascii String.
From S2P Require Import Prelude Bus Ttc Spi Gic Arm Monitor WorldSwitch Handlers Worlds Uart Printk.

Local Open Scope Z_scope.

(** ** Registers ([board.h], UG1019) *)
Definition SECURITY_MOD2 : Z := 0xE0200000.
Definition SECURITY2_SDIO0 : Z := SECURITY_MOD2 + 0x8.
Definition SECURITY3_SDIO1 : Z := SECURITY_MOD2 + 0xC.
Definition SECURITY4_QSPI : Z := SECURITY_MOD2 + 0x10.
Definition SECURITY6_APBSL : Z := SECURITY_MOD2 + 0x18.
Definition SLCR_BASE : Z := 0xF8000000.
Definition TZ_OCM_RAM0 : Z := SLCR_BASE + 0x400.
Definition TZ_OCM_RAM1 : Z := SLCR_BASE + 0x404.
Definition TZ_OCM : Z := SLCR_BASE + 0x408.
Definition TZ_DDR_RAM : Z := SLCR_BASE + 0x430.
Definition TZ_DMA_NS : Z := SLCR_BASE + 0x440.
Definition TZ_DMA_IRQ_NS : Z := SLCR_BASE + 0x444.
Definition TZ_GEM : Z := SLCR_BASE + 0x450.
Definition SLCR_GEM0_RCLK_CTRL_ADDR : Z := SLCR_BASE + 0x138.
Definition SLCR_GEM0_CLK_CTRL_ADDR : Z := SLCR_BASE + 0x140.
Definition SECURITY_MOD3 : Z := 0xF8900000.
Definition SECURITY_APB : Z := SECURITY_MOD3 + 0x28.
Definition UART_1_INTERRUPT : Z := 82.
Definition SCUTIMER_INTERRUPT : Z := 29.
Definition GEM0_INTERRUPT : Z := 54.

(** ** Strings *)
Definition VERSION : list Z := chars "0.2.2".
Definition ARCH : list Z := chars "ARMv7-A".
Definition CPU : list Z := chars "Cortex-A9".
Definition PLATFORM : list Z := chars "Zynq-7000".
Definition NL_TAB : list Z := [10; 9].
Definition line (s : string) : list Z := chars s ++ NL_TAB.
Definition error_line (s : string) : list Z := chars s ++ [10; 13].
Definition rule : list Z := line "----------------------------------------------------------".

(** ** Operations *)
Section board.
Context {S : Type} `{Bus S}.
(** Turns of the polling loops of the UART and of the interrupt controller;
    what [printk] finds in its uninitialised buffer. *)
Variable polls acks : nat.
Variable stale : list Z -> Z.

Definition say (fmt : list Z) (args : list va) : M S unit :=
  _ ← printk ltzvisor_printk polls (stale fmt) fmt args; mret tt.

(** The part of [board_init] the boards share: the segments of DDR memory, the
    APB slaves, and what the zedboard adds. *)
Definition board_security (ddr apbsl : Z) (more : M S unit) : M S Z :=
  write32 SLCR_UNLOCK SLCR_UNLOCK_KEY ;;
  write32 TZ_OCM_RAM0 0xffffffff ;;
  write32 TZ_OCM_RAM1 0xffffffff ;;
  write32 TZ_OCM 0xffffffff ;;
  write32 TZ_DDR_RAM ddr ;;
  say (line "      * Memory security - OK  ") [] ;;
  write32 SECURITY2_SDIO0 0x1 ;;
  write32 SECURITY3_SDIO1 0x1 ;;
  write32 SECURITY4_QSPI 0x1 ;;
  write32 SECURITY6_APBSL apbsl ;;
  write32 TZ_DMA_NS 0x0 ;;
  write32 TZ_DMA_IRQ_NS 0x0 ;;
  write32 TZ_GEM 0x3 ;;
  more ;;
  write32 SECURITY_APB 0x3F ;;
  say (line "      * Devices security - OK  ") [] ;;
  write32 SLCR_LOCK SLCR_LOCK_KEY ;;
  mret TRUE.

Definition gem_clocks : M S unit :=
  write32 SLCR_GEM0_CLK_CTRL_ADDR 0x00500801 ;;
  write32 SLCR_GEM0_RCLK_CTRL_ADDR 0x00000001.

Definition board_init : M S Z := board_security 0x0000007f 0x00007dff gem_clocks.
Definition zybo_board_init : M S Z := board_security 0x0000007f 0x00007fff (mret tt).
Definition zc702_board_init : M S Z := board_security 0x00007fff 0x00007fff (mret tt).
Definition zynq_board_init : M S Z := board_security 0x00007fff 0x00007fff (mret tt).

(** The system calls; the same text on every board. *)
Definition board_handler (arg0 arg1 arg2 arg3 : Z) : M S Z :=
  if arg0 =? LTZVISOR_READ_SYSCALL then read32 arg1
  else if arg0 =? LTZVISOR_WRITE_SYSCALL then write32 arg1 arg2 ;; mret arg0
  else mret arg0.
Definition zybo_board_handler : Z -> Z -> Z -> Z -> M S Z := board_handler.
Definition zc702_board_handler : Z -> Z -> Z -> Z -> M S Z := board_handler.
Definition zynq_board_handler : Z -> Z -> Z -> Z -> M S Z := board_handler.

(** [interrupt_security_configall] and the calls that follow it. *)
Fixpoint config_each (l : list (Z * IntSecurity_TypeDef)) : M S unit :=
  match l with
  | [] => mret tt
  | (irq, sec) :: l' => interrupt_security_config irq sec ;; config_each l'
  end.
Definition security_setup (l : list (Z * IntSecurity_TypeDef)) : M S unit :=
  interrupt_security_configall ;; config_each l.

Definition zedboard_interrupts : list (Z * IntSecurity_TypeDef) :=
  [(UART_1_INTERRUPT, Int_NS); (TTC1_TTCx_2_INTERRUPT, Int_NS); (SPI_1_INTERRUPT, Int_S);
   (SCUTIMER_INTERRUPT, Int_NS); (GEM0_INTERRUPT, Int_NS); (TTC0_TTCx_2_INTERRUPT, Int_S)].
Definition zybo_interrupts : list (Z * IntSecurity_TypeDef) :=
  [(UART_1_INTERRUPT, Int_NS); (TTC1_TTCx_2_INTERRUPT, Int_S)].
Definition zc702_interrupts : list (Z * IntSecurity_TypeDef) :=
  [(UART_1_INTERRUPT, Int_NS); (TTC1_TTCx_2_INTERRUPT, Int_S)].
Definition zynq_interrupts : list (Z * IntSecurity_TypeDef) :=
  [(UART_1_INTERRUPT, Int_NS); (TTC0_TTCx_2_INTERRUPT, Int_S); (TTC1_TTCx_2_INTERRUPT, Int_NS)].

(** The part of [ltzvisor_hw_init] the boards share. *)
Definition hw_init_with (l : list (Z * IntSecurity_TypeDef)) (board_init : M S Z) : M S Z :=
  ret ← uart_init 1;
  if ret =? FALSE then mret ret
  else
  say (10 :: NL_TAB) [] ;;
  say rule [] ;;
  say (line "                 LTZVisor (version %s)        ") [VStr VERSION] ;;
  say rule [] ;;
  say (line " -> Arch (%s): CPU (%s) initialization ... ") [VStr ARCH; VStr CPU] ;;
  say (line " -> Arch (%s): GIC initialization ... ") [VStr ARCH] ;;
  ret ← interrupt_distributor_init;
  if ret =? FALSE then say (error_line "ERROR: GIC distributor init!") [] ;; mret ret
  else
  say (line "      * GIC distributor - OK  ") [] ;;
  ret ← interrupt_interface_init acks;
  if ret =? FALSE then say (error_line "ERROR: GIC interface init!") [] ;; mret ret
  else
  say (line "      * GIC interface - OK  ") [] ;;
  security_setup l ;;
  say (line "      * GIC security - OK  ") [] ;;
  say (line " -> Platform (%s): initialization ... ") [VStr PLATFORM] ;;
  ret ← board_init;
  if ret =? FALSE then say (error_line "ERROR: Platform init!") [] ;; mret ret
  else mret ret.

Definition ltzvisor_hw_init : M S Z := hw_init_with zedboard_interrupts board_init.
Definition zybo_ltzvisor_hw_init : M S Z := hw_init_with zybo_interrupts zybo_board_init.
Definition zc702_ltzvisor_hw_init : M S Z := hw_init_with zc702_interrupts zc702_board_init.
Definition zynq_ltzvisor_hw_init : M S Z := hw_init_with zynq_interrupts zynq_board_init.
End board.

(** ** Runs *)

(** All stores of a log go to addresses in [P]. *)
Definition writes_in (P : Z -> Prop) (l : list access) : Prop := forall a v, Wr a v ∈ l -> P a.

Lemma writes_in_app P l1 l2 : writes_in P l1 -> writes_in P l2 -> writes_in P (l1 ++ l2).
Proof. intros H1 H2 a v [?|?]%elem_of_app; eauto. Qed.

Lemma writes_in_mono (P Q : Z -> Prop) l :
  (forall a, P a -> Q a) -> writes_in P l -> writes_in Q l.
Proof. intros HPQ HP a v Hl. eauto. Qed.

(** The addresses a literal log stores to. *)
Definition stores (l : list access) : list Z :=
  omap (fun a => match a with Wr x _ => Some x | Rd _ _ => None end) l.

Lemma stores_writes_in P l : Forall P (stores l) -> writes_in P l.
Proof.
  intros Hl a v Ha. rewrite Forall_forall in Hl. apply Hl, list_elem_of_omap.
  by exists (Wr a v).
Qed.

Definition uart1 (a : Z) : Prop := 0xE0001000 <= a < 0xE0001048.

Lemma sent_writes s log : sent 1 s log -> writes_in uart1 log.
Proof.
  induction 1 as [|c s v polls log Hp _ _ IH]; [by intros a v ?%elem_of_nil|].
  intros a w [Ha|Ha]%elem_of_app.
  - rewrite Forall_forall in Hp. by destruct (Hp _ Ha) as (? & ? & _).
  - cbn [app] in Ha. apply elem_of_cons in Ha as [[=]|[[= -> ->]|Ha]%elem_of_cons]; [|by eapply IH].
    by unfold uart1.
Qed.

(** The UART gets room within [polls] polls; the interrupt controller has fewer
    than [acks] interrupts to acknowledge. *)
Record boot_device (B : Type) `{Bus B} (polls acks : nat) : Prop := {
  bo_room : forall d : B, room_within polls 1 d;
  bo_pending : forall d : B, exists vs, gic_pending vs d /\ (length vs < acks)%nat;
}.

(** The messages fit the buffer. *)
Definition fits (fmt : list Z) (args : list va) : bool :=
  match fmt_bound (Datatypes.S (length fmt)) fmt args with
  | Some b => (b <? 256)%nat
  | None => false
  end.

Lemma say_room {S} `{Bus S} (polls : nat) (stale : list Z -> Z) fmt args (s : S) :
  (forall d : S, room_within polls 1 d) ->
  fits fmt args = true ->
  exists l, say polls stale fmt args s = Ok tt (replay l s) /\ uart_accesses 1 l.
Proof.
  intros Hroom. unfold fits. destruct (fmt_bound _ fmt args) as [b|] eqn:E; [|done]. intros Hb%Nat.ltb_lt.
  destruct (vsprintk_text ltzvisor_printk _ _ _ _ (stale fmt) E) as (out & Ev & Ht & Hl).
  unfold say, printk. rewrite Ev. destruct (Z.leb_spec 256 (Z.of_nat (length out))); [lia|].
  destruct (uart_puts_replay polls 1 (s8 <$> out) s ltac:(lia) Hroom) as (l & Eu & Hu).
  exists l. split; [|done]. by rewrite bind_assoc, (bind_ok _ _ _ _ _ Eu).
Qed.

Section runs.
Context {S : Type} `{Bus S}.
Variable polls acks : nat.
Variable stale : list Z -> Z.
Hypothesis HB : boot_device S polls acks.
#[local] Abbreviation saying := (say (S := traced S) polls stale).

(** The log of a message. *)
Definition prints (fmt : list Z) (args : list va) (log : list access) : Prop :=
  exists out, vsprintk ltzvisor_printk (Datatypes.S (length fmt)) fmt args (stale fmt) = Some out /\
    sent 1 out log.

#[export] Instance traces_say fmt args : Traces (saying fmt args).
Proof. unfold say. apply _. Qed.

Lemma say_does fmt args : fits fmt args = true -> does (saying fmt args) tt (prints fmt args).
Proof.
  unfold fits. destruct (fmt_bound _ fmt args) as [b|] eqn:E; [|done]. intros Hb%Nat.ltb_lt.
  destruct (vsprintk_text ltzvisor_printk _ _ _ _ (stale fmt) E) as (out & Ev & Ht & Hl).
  assert (Hd := printk_does (S := S) ltzvisor_printk polls (stale fmt) fmt args out Ev ltac:(lia) Ht (bo_room _ _ _ HB)).
  eapply does_weaken; [exact (does_bind _ _ _ _ _ _ Hd (does_ret tt))|].
  intros l (l1 & l2 & -> & H1 & <-). rewrite app_nil_r. by exists out.
Qed.

Lemma say_replay fmt args (s : S) :
  fits fmt args = true ->
  exists l, say polls stale fmt args s = Ok tt (replay l s) /\ uart_accesses 1 l.
Proof. apply say_room, HB. Qed.

Lemma prints_writes fmt args l : prints fmt args l -> writes_in uart1 l.
Proof. intros (out & _ & Hs). by eapply sent_writes. Qed.

Lemma replay_keep P `{!Storage S P} a l (s : S) :
  P a -> writes_in (fun x => x <> a) l -> peek a (replay l s) = peek a s.
Proof.
  intros Ha. revert s. induction l as [|[x v|x v] l IH]; intros s Hl; [done|..];
    change (replay (?c :: l) s) with (replay l (replay1 s c)); rewrite IH by
      (intros y w Hy; apply (Hl y w); by right).
  - by apply storage_rd_ne.
  - apply storage_wr_ne; [done|]. apply (Hl x v). left.
Qed.
End runs.

(** ** The TrustZone configuration *)
Inductive board : Type := Zedboard | Zybo | Zc702 | Zynq.

(** What each board's [board_init] is to leave in the security registers: the
    on-chip memory and the first segments of the DDR memory are non-secure, the
    DMA controller is secure, the other slaves are non-secure. *)
Definition memory_config (b : board) : list (Z * Z) :=
  [(0xF8000400, 0xFFFFFFFF); (0xF8000404, 0xFFFFFFFF); (0xF8000408, 0xFFFFFFFF);
   (0xF8000430, match b with Zedboard | Zybo => 0x7F | _ => 0x7FFF end)].
Definition device_config (b : board) : list (Z * Z) :=
  [(0xE0200008, 1); (0xE020000C, 1); (0xE0200010, 1);
   (0xE0200018, match b with Zedboard => 0x7DFF | _ => 0x7FFF end);
   (0xF8000440, 0); (0xF8000444, 0); (0xF8000450, 3)] ++
  match b with Zedboard => [(0xF8000140, 0x00500801); (0xF8000138, 1)] | _ => [] end ++
  [(0xF8900028, 0x3F)].
Definition board_config (b : board) : list (Z * Z) := memory_config b ++ device_config b.

(** A store of each pair. *)
Definition wrs (l : list (Z * Z)) : list access := (fun p => Wr p.1 p.2) <$> l.

Definition on_board {A} (b : board) (zed zyb zc zyn : A) : A :=
  match b with Zedboard => zed | Zybo => zyb | Zc702 => zc | Zynq => zyn end.

(** The SLCR ignores stores while it is locked; the addresses in [Reg] are
    registers that keep what is stored in them. *)
Definition in_slcr (a : Z) : Prop := 0xF8000000 <= a < 0xF8001000.
Record slcr {B} `{Bus B} (locked : B -> bool) (Reg : Z -> Prop) : Prop := {
  sl_unlock : forall d, locked (bus_wr 0xF8000008 0xDF0D d) = false;
  sl_lock : forall d, locked (bus_wr 0xF8000004 0x767B d) = true;
  sl_write : forall a v d, a <> 0xF8000008 -> a <> 0xF8000004 -> locked (bus_wr a v d) = locked d;
  sl_read : forall a d, locked (after_rd a d) = locked d;
  sl_store : forall a v d, Reg a -> is_u32 v -> (in_slcr a -> locked d = false) ->
    peek a (bus_wr a v d) = v;
  sl_keep : forall a a' v d, Reg a -> a' <> a -> peek a (bus_wr a' v d) = peek a d;
  sl_peek : forall a a' d, Reg a -> peek a (after_rd a' d) = peek a d;
}.

Lemma chop_exactly l1 l2 Q l : chop (exactly l1) (chop (exactly l2) Q) l -> chop (exactly (l1 ++ l2)) Q l.
Proof.
  intros (? & ? & -> & <- & (? & l3 & -> & <- & HQ)). exists (l1 ++ l2), l3. by rewrite app_assoc.
Qed.

Section slcr_runs.
Context {S : Type} `{Bus S}.
Variable polls acks : nat.
Variable stale : list Z -> Z.
Hypothesis HB : boot_device S polls acks.

Definition board_init_of (b : board) : M (traced S) Z :=
  on_board b (board_init polls stale) (zybo_board_init polls stale)
    (zc702_board_init polls stale) (zynq_board_init polls stale).

Definition board_log (b : board) : list access -> Prop :=
  chop (exactly (Wr 0xF8000008 0xDF0D :: wrs (memory_config b)))
  (chop (prints stale (line "      * Memory security - OK  ") [])
  (chop (exactly (wrs (device_config b)))
  (chop (prints stale (line "      * Devices security - OK  ") [])
  (chop (exactly [Wr 0xF8000004 0x767B]) (exactly []))))).

Ltac write_steps :=
  repeat first
    [ refine (does_write_then _ _ _ _ _ _ _)
    | apply does_chop_nil ].

Lemma board_security_does ddr apbsl more lm :
  does more tt (exactly lm) -> is_u32 ddr -> is_u32 apbsl ->
  does (board_security polls stale ddr apbsl more : M (traced S) Z) TRUE
    (chop (exactly (Wr 0xF8000008 0xDF0D ::
       wrs [(0xF8000400, 0xFFFFFFFF); (0xF8000404, 0xFFFFFFFF); (0xF8000408, 0xFFFFFFFF);
            (0xF8000430, ddr)]))
    (chop (prints stale (line "      * Memory security - OK  ") [])
    (chop (exactly ((wrs [(0xE0200008, 1); (0xE020000C, 1); (0xE0200010, 1); (0xE0200018, apbsl);
       (0xF8000440, 0); (0xF8000444, 0); (0xF8000450, 3)] ++ lm) ++ [Wr 0xF8900028 0x3F]))
    (chop (prints stale (line "      * Devices security - OK  ") [])
    (chop (exactly [Wr 0xF8000004 0x767B]) (exactly [])))))).
Proof.
  intros Hm Hd Ha. unfold board_security.
  eapply does_weaken.
  { do 5 refine (does_write_then _ _ _ _ _ _ _). apply does_chop_nil.
    apply does_bind with tt; [apply (say_does polls acks); [exact HB|vm_compute; reflexivity]|].
    do 7 refine (does_write_then _ _ _ _ _ _ _). apply does_chop_nil.
    apply does_bind with tt; [exact Hm|].
    refine (does_write_then _ _ _ _ _ _ _). apply does_chop_nil.
    apply does_bind with tt; [apply (say_does polls acks); [exact HB|vm_compute; reflexivity]|].
    refine (does_write_then _ _ _ _ _ _ _). apply does_chop_nil. apply does_ret. }
  intros l (l1 & ? & -> & <- & (l2 & ? & -> & H2 & (l3 & ? & -> & <- & (l4 & ? & -> & <- & (l5 & l6 & -> & <- & Hl))))).
  rewrite (u32_small ddr Hd), (u32_small apbsl Ha).
  do 2 eexists. split; [reflexivity|]. split; [reflexivity|].
  do 2 eexists. split; [reflexivity|]. split; [exact H2|].
  exists (wrs [(0xE0200008, 1); (0xE020000C, 1); (0xE0200010, 1); (0xE0200018, apbsl);
       (0xF8000440, 0); (0xF8000444, 0); (0xF8000450, 3)] ++ lm ++ [Wr 0xF8900028 0x3F]).
  exists l6. split; [by rewrite <- !app_assoc|]. by rewrite app_assoc.
Qed.

Lemma board_init_does b : does (board_init_of b) TRUE (board_log b).
Proof.
  assert (Hu : forall v, (0 <=? v) && (v <? 2 ^ 32) = true -> is_u32 v) by (unfold is_u32; lia).
  unfold board_log, memory_config, device_config.
  unfold board_init_of, board_init, zybo_board_init, zc702_board_init, zynq_board_init.
  destruct b; cbn [on_board app].
  - apply (board_security_does 0x7F 0x7DFF gem_clocks
      [Wr 0xF8000140 0x00500801; Wr 0xF8000138 1]); [|by apply Hu..].
    intros s log. eexists. split; [|reflexivity]. unfold gem_clocks. repeat run_access.
    by rewrite <- app_assoc.
  - apply (board_security_does 0x7F 0x7FFF (mret tt) []); [apply does_ret|by apply Hu..].
  - apply (board_security_does 0x7FFF 0x7FFF (mret tt) []); [apply does_ret|by apply Hu..].
  - apply (board_security_does 0x7FFF 0x7FFF (mret tt) []); [apply does_ret|by apply Hu..].
Qed.

(** *** The registers after a log *)
Variable locked : S -> bool.
Variable Reg : Z -> Prop.
Hypothesis HL : slcr locked Reg.

Lemma replay_cons c l (s : S) : replay (c :: l) s = replay l (replay1 s c).
Proof. done. Qed.

Lemma slcr_keeps l (s : S) a :
  Reg a -> writes_in (fun x => x <> a) l -> peek a (replay l s) = peek a s.
Proof.
  intros Ha. revert s. induction l as [|[x v|x v] l IH]; intros s Hl; [done|..];
    rewrite replay_cons, IH by (intros y w Hy; apply (Hl y w); by right).
  - by apply (sl_peek _ _ HL).
  - apply (sl_keep _ _ HL); [done|]. apply (Hl x v). left.
Qed.

Lemma slcr_lock_keeps l (s : S) :
  writes_in (fun x => x <> 0xF8000008 /\ x <> 0xF8000004) l -> locked (replay l s) = locked s.
Proof.
  revert s. induction l as [|[x v|x v] l IH]; intros s Hl; [done|..];
    rewrite replay_cons, IH by (intros y w Hy; apply (Hl y w); by right).
  - by apply (sl_read _ _ HL).
  - destruct (Hl x v) as [? ?]; [left|]. by apply (sl_write _ _ HL).
Qed.

Lemma wrs_stores l : stores (wrs l) = l.*1.
Proof. induction l as [|[a v] l IH]; [done|]. cbn. by rewrite <- IH. Qed.

Lemma wrs_writes P l : Forall P l.*1 -> writes_in P (wrs l).
Proof. intros. apply stores_writes_in. by rewrite wrs_stores. Qed.

Lemma slcr_configured l (s : S) a v :
  NoDup l.*1 -> Forall (fun x => Reg x /\ x <> 0xF8000008 /\ x <> 0xF8000004) l.*1 ->
  Forall is_u32 l.*2 -> locked s = false -> (a, v) ∈ l -> peek a (replay (wrs l) s) = v.
Proof.
  revert s. induction l as [|[x w] l IH]; intros s Hnd HR Hu Hk Hin; [by apply elem_of_nil in Hin|].
  cbn [fmap list_fmap fst snd] in *. apply NoDup_cons in Hnd as [Hx Hnd].
  inversion_clear HR as [|? ? (Hr & H1 & H2) HR']. inversion_clear Hu as [|? ? Hw Hu'].
  change (wrs ((x, w) :: l)) with (Wr x w :: wrs l). rewrite replay_cons. cbn [replay1].
  apply elem_of_cons in Hin as [[= -> ->]|Hin].
  - rewrite slcr_keeps; [by apply (sl_store _ _ HL)|done|].
    apply wrs_writes, Forall_forall. intros y Hy ->. done.
  - apply IH; try done. by rewrite (sl_write _ _ HL).
Qed.
Definition key_or_config (b : board) (a : Z) : Prop :=
  uart1 a \/ a = 0xF8000008 \/ a = 0xF8000004 \/ a ∈ (board_config b).*1.

Lemma board_config_ok b :
  NoDup (board_config b).*1 /\ Forall is_u32 (board_config b).*2 /\
  Forall (fun a => 0xE0200000 <= a < 0xF8F00000 /\ a <> 0xF8000008 /\ a <> 0xF8000004)
    (board_config b).*1.
Proof.
  assert (Hf : forall (f : Z -> bool) (P : Z -> Prop) l,
    (forall x, f x = true -> P x) -> forallb f l = true -> Forall P l).
  { intros f P l HfP Hl. rewrite forallb_forall in Hl. apply Forall_forall.
    intros x Hx%list_elem_of_In. auto. }
  split_and!.
  - destruct b; apply (bool_decide_unpack _); vm_compute; exact I.
  - apply (Hf (fun x => (0 <=? x) && (x <? 2 ^ 32))); [unfold is_u32; lia|].
    by destruct b.
  - apply (Hf (fun a => (0xE0200000 <=? a) && (a <? 0xF8F00000) && negb (a =? 0xF8000008) &&
      negb (a =? 0xF8000004))); [lia|]. by destruct b.
Qed.

Lemma board_log_final b new (s : S) :
  (forall a, a ∈ (board_config b).*1 -> Reg a) -> board_log b new ->
  locked (replay new s) = true /\
  (forall a v, (a, v) ∈ board_config b -> peek a (replay new s) = v) /\
  writes_in (key_or_config b) new.
Proof.
  intros HR (? & ? & -> & E1 & (l2 & ? & -> & H2 & (? & ? & -> & E3 & (l4 & ? & -> & H4 &
    (? & ? & -> & E5 & E6))))).
  unfold exactly in E1, E3, E5, E6. subst.
  destruct (board_config_ok b) as (Hnd & Hu & Hok).
  unfold board_config in Hnd, Hu, Hok, HR. rewrite fmap_app in *.
  apply NoDup_app in Hnd as (Hnm & Hd & Hnd). apply Forall_app in Hu as [Hum Hud].
  pose proof (prints_writes _ _ _ _ H2) as W2. pose proof (prints_writes _ _ _ _ H4) as W4.
  assert (Hreg : forall l : list (Z * Z), (forall a, a ∈ l.*1 -> a ∈ (memory_config b).*1 ++ (device_config b).*1) ->
    Forall (fun x => Reg x /\ x <> 0xF8000008 /\ x <> 0xF8000004) l.*1).
  { intros l Hl. apply Forall_forall. intros a Ha%Hl. split; [by apply HR|].
    rewrite Forall_forall in Hok. by apply Hok. }
  assert (Hm := Hreg (memory_config b) ltac:(intros; apply elem_of_app; by left)).
  assert (Hdv := Hreg (device_config b) ltac:(intros; apply elem_of_app; by right)).
  assert (Hne : forall l, writes_in uart1 l -> forall a, a ∈ (memory_config b).*1 ++ (device_config b).*1 ->
    writes_in (fun x => x <> a) l).
  { intros l Hl a Ha y w Hx%Hl ->. rewrite Forall_forall in Hok. apply Hok in Ha.
    unfold uart1 in Hx. lia. }
  assert (Hk : forall l, writes_in uart1 l ->
    writes_in (fun x => x <> 0xF8000008 /\ x <> 0xF8000004) l).
  { intros l Hl y w Hx%Hl. unfold uart1 in Hx. lia. }
  set (s1 := replay1 s (Wr 0xF8000008 0xDF0D)).
  set (s2 := replay (wrs (memory_config b)) s1). set (s3 := replay l2 s2).
  set (s4 := replay (wrs (device_config b)) s3). set (s5 := replay l4 s4).
  rewrite app_nil_r. cbn [app]. rewrite replay_cons, !replay_app. fold s1 s2 s3 s4 s5.
  change (replay [?c] s5) with (replay1 s5 c).
  assert (K1 : locked s1 = false) by apply (sl_unlock _ _ HL).
  assert (Hlk : forall l : list (Z * Z), Forall (fun x => Reg x /\ x <> 0xF8000008 /\ x <> 0xF8000004) l.*1 ->
    writes_in (fun x => x <> 0xF8000008 /\ x <> 0xF8000004) (wrs l)).
  { intros l Hl. apply wrs_writes. eapply Forall_impl; [exact Hl|]. cbn. tauto. }
  assert (K3 : locked s3 = false).
  { subst s3 s2. rewrite !slcr_lock_keeps by auto. done. }
  split_and!.
  - apply (sl_lock _ _ HL).
  - intros a v Hin. cbn [replay1].
    assert (Ha : a ∈ (memory_config b).*1 ++ (device_config b).*1).
    { rewrite <- fmap_app. apply list_elem_of_fmap. by exists (a, v). }
    rewrite (sl_keep _ _ HL); [|by apply HR|].
    2: { rewrite Forall_forall in Hok. apply Hok in Ha. lia. }
    subst s5. rewrite slcr_keeps; [|by apply HR|by apply Hne].
    apply elem_of_app in Hin as [Hin|Hin].
    + subst s4 s3. rewrite slcr_keeps; [|by apply HR|].
      * rewrite slcr_keeps; [|by apply HR|by apply Hne]. subst s2. by apply slcr_configured.
      * apply wrs_writes, Forall_forall. intros y Hy ->. apply (Hd a); [|done].
        apply list_elem_of_fmap. by exists (a, v).
    + subst s4. by apply slcr_configured.
  - change (?c :: ?l) with ([c] ++ l).
    assert (Wc : forall l : list (Z * Z), (forall a, a ∈ l.*1 -> a ∈ (board_config b).*1) ->
      writes_in (key_or_config b) (wrs l)).
    { intros l Hl. apply wrs_writes, Forall_forall. intros a Ha%Hl. unfold key_or_config. tauto. }
    assert (Wu : forall l, writes_in uart1 l -> writes_in (key_or_config b) l).
    { intros l. apply writes_in_mono. unfold key_or_config. tauto. }
    repeat apply writes_in_app; auto.
    + apply stores_writes_in. apply Forall_cons_2; [unfold key_or_config; tauto|apply Forall_nil_2].
    + apply Wc. intros a Ha. unfold board_config. rewrite fmap_app. apply elem_of_app. by left.
    + apply Wc. intros a Ha. unfold board_config. rewrite fmap_app. apply elem_of_app. by right.
    + apply stores_writes_in. apply Forall_cons_2; [unfold key_or_config; tauto|apply Forall_nil_2].
Qed.
End slcr_runs.

(** ** The security of the interrupts *)
Definition isr_word (k : Z) : Z := dist_addr ICDISRx k.
Definition isr (a : Z) : Prop := exists k, 0 <= k < 3 /\ a = isr_word k.

(** Is interrupt [j] in the non-secure group? *)
Definition isr_bit {S} `{Bus S} (j : Z) (s : S) : bool :=
  Z.testbit (peek (isr_word (j / 32)) s) (j mod 32).

(** The last entry for [j]. *)
Fixpoint configured (l : list (Z * IntSecurity_TypeDef)) (j : Z) (b : bool) : bool :=
  match l with
  | [] => b
  | (irq, sec) :: l' => configured l' j (if j =? irq then bool_decide (sec = Int_NS) else b)
  end.

Definition interrupts_of (b : board) : list (Z * IntSecurity_TypeDef) :=
  on_board b zedboard_interrupts zybo_interrupts zc702_interrupts zynq_interrupts.

(** The shared interrupts that stay in the secure world: those of the SPI
    controller and of the secure tick. *)
Definition secure_interrupts (b : board) : list Z :=
  match b with
  | Zedboard => [43; 81]
  | Zybo | Zc702 => [70]
  | Zynq => [43]
  end.

Section interrupts.
Context {S : Type} `{Bus S}.
Context `{!Storage S isr}.

Lemma isr_word_isr k : 0 <= k < 3 -> isr (isr_word k).
Proof. by exists k. Qed.

Lemma isr_word_inj k k' : isr_word k = isr_word k' -> k = k'.
Proof. unfold isr_word, dist_addr. lia. Qed.

Lemma div32 j : 0 <= j < 96 -> 0 <= j / 32 < 3.
Proof. intros. Z.div_mod_to_equations; lia. Qed.

Lemma isr_bit_write j k v (s : S) :
  0 <= j < 96 -> 0 <= k < 3 -> is_u32 v ->
  isr_bit j (bus_wr (isr_word k) v s) = if j / 32 =? k then Z.testbit v (j mod 32) else isr_bit j s.
Proof.
  intros Hj Hk Hv. unfold isr_bit. pose proof (div32 j Hj). destruct (Z.eqb_spec (j / 32) k) as [->|Hne].
  - rewrite storage_wr_eq; [done|by apply isr_word_isr|done].
  - rewrite storage_wr_ne; [done|by apply isr_word_isr|]. intros E. by apply isr_word_inj in E.
Qed.

Lemma config_run irq sec (s : S) log :
  0 <= irq < 96 ->
  exists new,
    interrupt_security_config irq sec (Traced s log) = Ok tt (Traced (replay new s) (log ++ new)) /\
    (forall j, 0 <= j < 96 ->
       isr_bit j (replay new s) = if j =? irq then bool_decide (sec = Int_NS) else isr_bit j s) /\
    writes_in isr new.
Proof.
  intros Hi. pose proof (div32 irq Hi) as Hk. unfold interrupt_security_config.
  rewrite (int_dist_eq ICDISRx (irq / 32)) by (cbn; lia). fold (isr_word (irq / 32)).
  set (a := isr_word (irq / 32)). cbn [ld st]. cbv zeta.
  set (n := irq mod 32). assert (Hn : 0 <= n < 32) by (by apply Z.mod_pos_bound).
  repeat run_access. set (old := peek a s). assert (Hold : is_u32 old) by apply peek_u32.
  set (v := if decide (sec = Int_NS) then _ else _).
  assert (Hv : is_u32 v) by (subst v; destruct (decide _); auto with word_db).
  assert (Hbits : forall j, 0 <= j ->
    Z.testbit v j = if j =? n then bool_decide (sec = Int_NS) else Z.testbit old j).
  { intros j Hj. subst v. destruct (decide (sec = Int_NS)) as [Hs|Hs];
      [rewrite bool_decide_true by done; apply bit_set_testbit
      |rewrite bool_decide_false by done; apply bit_clear_testbit]; done || lia. }
  exists [Rd a old; Wr a v]. rewrite u32_small, <- app_assoc by done. split; [done|]. split.
  - intros j Hj. cbn [replay fold_left replay1].
    rewrite storage_rd by (by apply isr_word_isr). subst a. rewrite isr_bit_write by done.
    destruct (Z.eqb_spec (j / 32) (irq / 32)) as [E|E].
    + rewrite Hbits by (apply Z.mod_pos_bound; lia). unfold isr_bit. rewrite E. fold old. subst n.
      destruct (Z.eqb_spec (j mod 32) (irq mod 32)), (Z.eqb_spec j irq); try done;
        subst; Z.div_mod_to_equations; lia.
    + destruct (Z.eqb_spec j irq); [by subst|done].
  - apply stores_writes_in. apply Forall_cons_2; [by apply isr_word_isr|apply Forall_nil_2].
Qed.

Lemma config_each_run l (s : S) log :
  Forall (fun p => 0 <= p.1 < 96) l ->
  exists new,
    config_each l (Traced s log) = Ok tt (Traced (replay new s) (log ++ new)) /\
    (forall j, 0 <= j < 96 -> isr_bit j (replay new s) = configured l j (isr_bit j s)) /\
    writes_in isr new.
Proof.
  revert s log. induction l as [|[irq sec] l IH]; intros s log Hl; cbn [config_each].
  { exists []. rewrite app_nil_r. split_and!; [done|done|]. by intros a v ?%elem_of_nil. }
  inversion_clear Hl as [|? ? Hi Hl'].
  destruct (config_run irq sec s log Hi) as (n1 & E1 & B1 & W1).
  destruct (IH (replay n1 s) (log ++ n1) Hl') as (n2 & E2 & B2 & W2).
  exists (n1 ++ n2). rewrite (bind_ok _ _ _ _ _ E1), E2, <- app_assoc, replay_app.
  split_and!; [done| |by apply writes_in_app].
  intros j Hj. by rewrite B2, B1.
Qed.

Lemma security_setup_run l (s : S) log :
  Forall (fun p => 0 <= p.1 < 96) l ->
  exists new,
    security_setup l (Traced s log) = Ok tt (Traced (replay new s) (log ++ new)) /\
    (forall j, 32 <= j < 96 -> isr_bit j (replay new s) = configured l j true) /\
    writes_in isr new.
Proof.
  intros Hl. unfold security_setup, interrupt_security_configall, dist_fill.
  change (Z.to_nat (GIC_NUM_REGISTERS - 1)) with 2%nat. cbn [for_range].
  rewrite !int_dist_eq by (cbn; lia). cbn [st].
  change (dist_addr ICDISRx ?k) with (isr_word k). change (1 + 1) with 2.
  repeat rewrite bind_assoc. repeat run_access.
  change (u32 0xFFFFFFFF) with 0xFFFFFFFF.
  destruct (config_each_run l (bus_wr (isr_word 2) 0xFFFFFFFF (bus_wr (isr_word 1) 0xFFFFFFFF s))
    ((log ++ [Wr (isr_word 1) 0xFFFFFFFF]) ++ [Wr (isr_word 2) 0xFFFFFFFF]) Hl) as (n & E & B & W).
  exists ([Wr (isr_word 1) 0xFFFFFFFF; Wr (isr_word 2) 0xFFFFFFFF] ++ n).
  rewrite E, <- !app_assoc. split; [done|]. split.
  - intros j Hj. rewrite replay_app. cbn [replay fold_left replay1].
    rewrite B by lia. f_equal. rewrite !isr_bit_write by (done || lia || (unfold is_u32; lia)).
    assert (Hone : Z.testbit 0xFFFFFFFF (j mod 32) = true).
    { change 0xFFFFFFFF with (Z.ones 32). pose proof (Z.mod_pos_bound j 32).
      by rewrite Z.ones_spec_low by lia. }
    rewrite Hone. destruct (Z.eqb_spec (j / 32) 2), (Z.eqb_spec (j / 32) 1); try done.
    Z.div_mod_to_equations; lia.
  - apply writes_in_app; [|done]. apply stores_writes_in.
    apply Forall_cons_2; [by apply isr_word_isr|]. apply Forall_cons_2; [by apply isr_word_isr|].
    apply Forall_nil_2.
Qed.
End interrupts.

Lemma interrupts_configured b j :
  32 <= j < 96 -> configured (interrupts_of b) j true = negb (bool_decide (j ∈ secure_interrupts b)).
Proof.
  intros Hj. cut (forallb (fun j => bool_decide (configured (interrupts_of b) j true =
    negb (bool_decide (j ∈ secure_interrupts b)))) (seqZ 32 64) = true).
  - rewrite forallb_forall. intros Hf. eapply bool_decide_eq_true_1, Hf.
    apply list_elem_of_In, elem_of_seqZ. lia.
  - destruct b; vm_compute; reflexivity.
Qed.

(** ** Initialising the hardware *)
Section hw_init.
Context {S : Type} `{Bus S}.
Variable polls acks : nat.
Variable stale : list Z -> Z.
Hypothesis HB : boot_device S polls acks.
Context `{!Storage S isr}.
Variable locked : S -> bool.
Variable Reg : Z -> Prop.
Hypothesis HL : slcr locked Reg.

Definition hw_init_of (b : board) : M (traced S) Z :=
  on_board b (ltzvisor_hw_init polls acks stale) (zybo_ltzvisor_hw_init polls acks stale)
    (zc702_ltzvisor_hw_init polls acks stale) (zynq_ltzvisor_hw_init polls acks stale).

Lemma uart_init_does : does (uart_init 1 : M (traced S) Z) TRUE (writes_in uart1).
Proof.
  apply does_intro; [apply _|]. intros s log.
  destruct (uart_init_run 1 s log ltac:(lia)) as (s' & v & E). exists s', (init_spec 1 v).
  split; [exact E|]. apply stores_writes_in.
  change (stores (init_spec 1 v)) with
    [0xE0001000; 0xE0001018; 0xE0001034; 0xE0001000; 0xE0001000; 0xE0001020; 0xE000101C;
     0xE0001014; 0xE0001008; 0xE0001000].
  repeat (apply Forall_cons_2; [unfold uart1; lia|]). apply Forall_nil_2.
Qed.

Lemma interface_init_does :
  does (interrupt_interface_init acks : M (traced S) Z) TRUE (fun _ => True).
Proof.
  apply does_intro; [apply _|]. intros s log.
  destruct (interface_setup_run s log) as [s1 E1].
  destruct (bo_pending _ _ _ HB s1) as (vs & Hp & Hl).
  destruct (interface_init_run vs s acks log) as (s2 & last & ctl & E2); [|done|].
  - intros s1' log1 E. rewrite E1 in E. by injection E as <- _.
  - by eexists _, _.
Qed.

(** The identification the controller answers with is wrong. *)
Definition wrong_id (new : list access) : Prop :=
  exists a x v, Rd a x ∈ ids_spec /\ Rd a v ∈ new /\ v <> x.

Lemma distributor_init_does (s : S) log :
  exists new,
    (interrupt_distributor_init (Traced s log) = Ok FALSE (Traced (replay new s) (log ++ new)) /\
     stores new = [] /\ wrong_id new) \/
    interrupt_distributor_init (Traced s log) = Ok TRUE (Traced (replay new s) (log ++ new)).
Proof.
  pose proof (traces (m := interrupt_distributor_init (S := traced S)) s log) as Ht.
  destruct (distributor_init_run s log) as (s1 & new & [[E (k & a & x & v & Hk & Hv & Hn)]|(ctl & E & _)]);
    exists new; rewrite E in Ht; destruct Ht as (new' & [= -> En]); apply app_inv_head in En as <-.
  - left. split; [done|]. rewrite Hn. split.
    + unfold stores. rewrite omap_app. cbn [omap list_omap]. rewrite app_nil_r.
      assert (Hids : stores ids_spec = []) by reflexivity. unfold stores in Hids.
      rewrite <- (take_drop k ids_spec), omap_app in Hids. by apply app_eq_nil in Hids as [-> _].
    + exists a, x, v. split_and!; [by eapply list_elem_of_lookup_2| |done].
      apply elem_of_app. right. left.
  - by right.
Qed.

Lemma chop_writes P (A B : list access -> Prop) l :
  (forall l, A l -> writes_in P l) -> (forall l, B l -> writes_in P l) ->
  chop A B l -> writes_in P l.
Proof. intros HA HB' (l1 & l2 & -> & H1 & H2). apply writes_in_app; auto. Qed.

Lemma say_quiet fmt args :
  fits fmt args = true -> does (say polls stale fmt args : M (traced S) unit) tt (writes_in uart1).
Proof.
  intros Hf. eapply does_weaken; [by apply (say_does polls acks)|]. intros l. apply prints_writes.
Qed.

Ltac next m H :=
  match goal with
  | |- context [(m ≫= ?f) (Traced ?s ?l)] =>
      let n := fresh "n" in let E := fresh in let P := fresh "P" in
      destruct (H s l) as (n & E & P); rewrite (bind_ok _ f _ _ _ E); clear E
  end.
Ltac next_say :=
  match goal with
  | |- context [(say polls stale ?fmt ?args ≫= _) _] =>
      let D := fresh in
      assert (D := say_quiet fmt args ltac:(vm_compute; reflexivity));
      next (say polls stale fmt args : M (traced S) unit) D; clear D
  end.

Lemma isr_bit_keep j l (s : S) :
  0 <= j < 96 -> writes_in (fun x => ~ isr x) l -> isr_bit j (replay l s) = isr_bit j s.
Proof.
  intros Hj Hl. unfold isr_bit. assert (Hi : isr (isr_word (j / 32))) by (by apply isr_word_isr, div32).
  rewrite (replay_keep isr); [done|done|]. intros a v Ha%Hl ->. done.
Qed.

(** From the security of the interrupts on. *)
Lemma secure_run b (s : S) log :
  (forall a, a ∈ (board_config b).*1 -> Reg a) ->
  exists new,
    (security_setup (interrupts_of b) ;;
     say polls stale (line "      * GIC security - OK  ") [] ;;
     say polls stale (line " -> Platform (%s): initialization ... ") [VStr PLATFORM] ;;
     ret ← board_init_of polls stale b;
     if ret =? FALSE then say polls stale (error_line "ERROR: Platform init!") [] ;; mret ret
     else mret ret) (Traced s log) = Ok TRUE (Traced (replay new s) (log ++ new)) /\
    (forall irq, 32 <= irq < 96 ->
       isr_bit irq (replay new s) = negb (bool_decide (irq ∈ secure_interrupts b))) /\
    locked (replay new s) = true /\
    (forall a v, (a, v) ∈ board_config b -> peek a (replay new s) = v).
Proof.
  intros HR. assert (Hl : Forall (fun p => 0 <= p.1 < 96) (interrupts_of b)).
  { apply Forall_forall. intros p Hp%list_elem_of_In.
    assert (Hf : forallb (fun p => (0 <=? p.1) && (p.1 <? 96)) (interrupts_of b) = true)
      by (destruct b; vm_compute; reflexivity).
    rewrite forallb_forall in Hf. specialize (Hf p Hp). lia. }
  destruct (security_setup_run (interrupts_of b) s log Hl) as (n1 & E1 & B1 & _).
  rewrite (bind_ok _ _ _ _ _ E1). clear E1.
  assert (D2 := say_quiet (line "      * GIC security - OK  ") [] ltac:(vm_compute; reflexivity)).
  assert (D3 := say_quiet (line " -> Platform (%s): initialization ... ") [VStr PLATFORM]
    ltac:(vm_compute; reflexivity)).
  destruct (D2 (replay n1 s) (log ++ n1)) as (n2 & E2 & W2). rewrite (bind_ok _ _ _ _ _ E2). clear E2 D2.
  destruct (D3 (replay n2 (replay n1 s)) ((log ++ n1) ++ n2)) as (n3 & E3 & W3).
  rewrite (bind_ok _ _ _ _ _ E3). clear E3 D3.
  destruct (board_init_does polls acks stale HB b (replay n3 (replay n2 (replay n1 s)))
    (((log ++ n1) ++ n2) ++ n3)) as (n4 & E4 & P4).
  rewrite (bind_ok _ _ _ _ _ E4). clear E4. change (TRUE =? FALSE) with false. cbv iota.
  destruct (board_log_final stale locked Reg HL b n4
              (replay n3 (replay n2 (replay n1 s))) HR P4) as (HK & HC & W4).
  exists (n1 ++ n2 ++ n3 ++ n4). rewrite !replay_app, !app_assoc. split_and!; try done.
  intros irq Hi. destruct (board_config_ok b) as (_ & _ & Hok). rewrite Forall_forall in Hok.
  assert (Hq : forall l, writes_in uart1 l -> writes_in (fun x => ~ isr x) l).
  { intros l. apply writes_in_mono. unfold uart1, isr, isr_word, dist_addr, MPID_BASE. cbn.
    intros a Ha (k & Hk & ->). lia. }
  rewrite (isr_bit_keep irq n4), (isr_bit_keep irq n3), (isr_bit_keep irq n2), B1,
    interrupts_configured; [done|lia|lia|lia|by apply Hq|lia|by apply Hq|lia|].
  eapply writes_in_mono; [|exact W4]. unfold isr, isr_word, dist_addr, MPID_BASE. cbn.
  intros a Ha (k & Hk & ->). destruct Ha as [Ha|[Ha|[Ha|Ha%Hok]]]; unfold uart1 in *; lia.
Qed.

Lemma hw_init_run b (s : S) log :
  (forall a, a ∈ (board_config b).*1 -> Reg a) ->
  exists new,
    (hw_init_of b (Traced s log) = Ok FALSE (Traced (replay new s) (log ++ new)) /\
     writes_in uart1 new /\ wrong_id new) \/
    (hw_init_of b (Traced s log) = Ok TRUE (Traced (replay new s) (log ++ new)) /\
     (forall irq, 32 <= irq < 96 ->
        isr_bit irq (replay new s) = negb (bool_decide (irq ∈ secure_interrupts b))) /\
     locked (replay new s) = true /\
     (forall a v, (a, v) ∈ board_config b -> peek a (replay new s) = v)).
Proof.
  intros HR.
  assert (hw_init_of b = hw_init_with polls acks stale (interrupts_of b) (board_init_of polls stale b))
    as -> by (by destruct b).
  unfold hw_init_with. next (uart_init 1 : M (traced S) Z) uart_init_does.
  change (TRUE =? FALSE) with false. cbv iota. do 6 next_say.
  match goal with |- context [(interrupt_distributor_init ≫= _) (Traced ?s ?l)] =>
    destruct (distributor_init_does s l) as (nd & [(E & Hst & Hw)|E]) end;
    rewrite (bind_ok _ _ _ _ _ E); clear E.
  - change (FALSE =? FALSE) with true. cbv iota. next_say.
    exists (n ++ n0 ++ n1 ++ n2 ++ n3 ++ n4 ++ n5 ++ nd ++ n6). left.
    rewrite !replay_app, !app_assoc. split; [done|].
    rewrite <- !app_assoc. split.
    + assert (Hd : writes_in uart1 nd) by (apply stores_writes_in; rewrite Hst; apply Forall_nil_2).
      repeat (apply writes_in_app; [done|]). done.
    + destruct Hw as (a & x & v & Hx & Hv & Hne). exists a, x, v. split_and!; [done| |done].
      rewrite !elem_of_app. tauto.
  - change (TRUE =? FALSE) with false. cbv iota. next_say.
    next (interrupt_interface_init acks : M (traced S) Z) interface_init_does.
    change (TRUE =? FALSE) with false. cbv iota. next_say.
    match goal with |- context [(_ ≫= _) (Traced ?s ?l)] =>
      destruct (secure_run b s l HR) as (ns & E & Hs) end.
    exists (n ++ n0 ++ n1 ++ n2 ++ n3 ++ n4 ++ n5 ++ nd ++ n6 ++ n7 ++ n8 ++ ns). right.
    rewrite !replay_app. split; [|exact Hs].
    etransitivity; [exact E|]. by rewrite !app_assoc.
Qed.
End hw_init.

(** ** Properties *)
Section properties.
Context {S : Type} `{Bus S}.

(** C18: initialising the board leaves the TrustZone configuration of that board in
    place and the SLCR locked.  On hardware whose SLCR ignores stores while it
    is locked, every register of [board_config] holds its value afterwards, and
    nothing else is stored to but the keys and the UART. *)
Theorem board_init_configures (polls acks : nat) (stale : list Z -> Z) (b : board)
    (locked : S -> bool) (s : S) :
  boot_device S polls acks -> slcr locked (fun a => a ∈ (board_config b).*1) ->
  exists new,
    board_init_of polls stale b (Traced s []) = Ok TRUE (Traced (replay new s) new) /\
    locked (replay new s) = true /\
    (forall a v, (a, v) ∈ board_config b -> peek a (replay new s) = v) /\
    writes_in (key_or_config b) new.
Proof.
  intros HB HL. destruct (board_init_does polls acks stale HB b s []) as (new & E & P).
  exists new. split; [exact E|]. by apply (board_log_final stale locked _ HL b new s).
Qed.

(** C6: initialising the hardware either refuses a wrong interrupt controller -
    then it returns FALSE, having stored to nothing but the UART - or returns
    TRUE with the interrupts of the secure world, and no other shared
    interrupt, left in the secure group, the TrustZone configuration in place
    and the SLCR locked.  It always returns. *)
Theorem hw_init_secures (polls acks : nat) (stale : list Z -> Z) (b : board)
    `{!Storage S isr} (locked : S -> bool) (s : S) :
  boot_device S polls acks -> slcr locked (fun a => a ∈ (board_config b).*1) ->
  exists ret new,
    hw_init_of polls acks stale b (Traced s []) = Ok ret (Traced (replay new s) new) /\
    ((ret = FALSE /\ writes_in uart1 new /\ wrong_id new) \/
     (ret = TRUE /\
      (forall irq, 32 <= irq < 96 ->
         isr_bit irq (replay new s) = negb (bool_decide (irq ∈ secure_interrupts b))) /\
      locked (replay new s) = true /\
      (forall a v, (a, v) ∈ board_config b -> peek a (replay new s) = v))).
Proof.
  intros HB HL.
  destruct (hw_init_run polls acks stale HB locked _ HL b s []) as (new & [(E & ?)|(E & ?)]);
    [done| |]; [exists FALSE|exists TRUE]; exists new; (split; [exact E|tauto]).
Qed.

(** The board's system calls do not check their address.  Whichever world
    makes the call, READ returns the word at any address and WRITE stores r2 at
    any address, whichever world the memory belongs to; the rest of memory but
    for the monitor's stack is unchanged. *)
Theorem board_calls_unchecked (sys_spsr : cpu -> Z) (clobbered : nat -> cpu -> Z)
    (Ram : Z -> Prop) `{!Storage S Ram} (c : cpu) (s : S) (stk a : Z) :
  cpu_ok c ->
  ram_at Ram stk 14 -> stk + 56 < 2 ^ 32 -> regs c Mon 13%nat = stk + 56 ->
  regs c Usr 1%nat = a -> Ram a -> a < stk \/ stk + 56 <= a ->
  (regs c Usr 0%nat = LTZVISOR_READ_SYSCALL ->
   exists c' s',
     mon_smc_handler sys_spsr clobbered board_handler (Machine (in_monitor c) s) =
       Ok tt (Machine c' s') /\
     regs c' Usr 0%nat = peek a s /\ pc c' = add32 (pc c) 4 /\
     (forall x, Ram x -> x < stk \/ stk + 56 <= x -> peek x s' = peek x s)) /\
  (regs c Usr 0%nat = LTZVISOR_WRITE_SYSCALL ->
   exists c' s',
     mon_smc_handler sys_spsr clobbered board_handler (Machine (in_monitor c) s) =
       Ok tt (Machine c' s') /\
     peek a s' = regs c Usr 2%nat /\ pc c' = add32 (pc c) 4 /\
     (forall x, Ram x -> x <> a -> x < stk \/ stk + 56 <= x -> peek x s' = peek x s)).
Proof.
  intros Hc Rstk Htop Hsp Ha Hra Ho. split; intros H0.
  - destruct (board_call_run sys_spsr clobbered board_handler Ram c s stk Hc Rstk Htop Hsp)
      as (c' & s1 & s2 & s' & v & E & K1 & Eb & K2 & Hv & _ & _ & _ & _ & Hpc & _).
    { rewrite H0. by apply Z.leb_le. }
    { intros s1. rewrite H0, Ha. unfold board_handler. rewrite Z.eqb_refl, read32_run.
      do 2 eexists. split; [done|]. intros x [Hx _]. by rewrite storage_rd. }
    rewrite H0, Ha in Eb. unfold board_handler in Eb. rewrite Z.eqb_refl, read32_run in Eb.
    injection Eb as <- <-. exists c', s'. split_and!; [exact E|by rewrite Hv, K1|exact Hpc|].
    intros x Hx Hxo. by rewrite K2, storage_rd, K1.
  - assert (Hu2 : is_u32 (regs c Usr 2%nat)) by apply Hc.
    assert (Hne : (LTZVISOR_WRITE_SYSCALL =? LTZVISOR_READ_SYSCALL) = false) by reflexivity.
    destruct (board_call_run sys_spsr clobbered board_handler Ram c s stk Hc Rstk Htop Hsp)
      as (c' & s1 & s2 & s' & v & E & K1 & Eb & K2 & Hv & _ & _ & _ & _ & Hpc & _).
    { rewrite H0. by apply Z.leb_le. }
    { intros s1. rewrite H0, Ha. unfold board_handler. rewrite Hne, Z.eqb_refl. run_access.
      do 2 eexists. split; [done|]. intros x [Hx Hb]. apply storage_wr_ne; [done|lia]. }
    rewrite H0, Ha in Eb. unfold board_handler in Eb. rewrite Hne, Z.eqb_refl in Eb.
    rewrite (bind_ok _ _ _ _ _ (write32_run a (regs c Usr 2%nat) s1)) in Eb.
    injection Eb as <- <-. rewrite u32_small in K2 by done.
    exists c', s'. split_and!; [exact E| |exact Hpc|].
    + rewrite K2 by done. by apply storage_wr_eq.
    + intros x Hx Hxa Hxo. rewrite K2 by done. rewrite storage_wr_ne by (done || congruence).
      by apply K1.
Qed.
End properties.

(** ** A Zynq

    Registers with a lock in front of the SLCR, a UART that never fills up, a
    controller with the right identification and nothing pending. *)
Record zynq_dev : Type := ZynqDev { z_locked : bool; z_regs : regfile }.

Definition z_fixed (a : Z) : option Z :=
  snd <$> List.find (fun p => p.1 =? a)
    ((0xF8F0010C, 1023) :: (0xE000102C, 0) ::
     ((fun c => match c with Rd x v | Wr x v => (x, v) end) <$> ids_spec)).

#[export] Instance zynq_bus : Bus zynq_dev := {
  bus_rd a d := (match z_fixed a with Some v => v | None => default 0 ((z_regs d : gmap Z Z) !! a) end, d);
  bus_wr a v d := ZynqDev
    (if (a =? 0xF8000008) && (v =? 0xDF0D) then false
     else if (a =? 0xF8000004) && (v =? 0x767B) then true else z_locked d)
    (if z_locked d && (0xF8000000 <=? a) && (a <? 0xF8001000) then z_regs d
     else <[a := v]> (z_regs d : gmap Z Z));
}.

Lemma zynq_peek_ne a a' v d : a' <> a -> peek a (bus_wr a' v d) = peek a d.
Proof.
  intros Hne. unfold peek. cbn [bus_rd bus_wr zynq_bus fst snd z_regs z_locked].
  destruct (z_fixed a); [done|].
  destruct (z_locked d && _ && _); [done|]. by rewrite lookup_insert_ne by done.
Qed.

Lemma zynq_peek_eq a v d :
  z_fixed a = None -> is_u32 v -> (in_slcr a -> z_locked d = false) -> peek a (bus_wr a v d) = v.
Proof.
  intros Hf Hv Hl. unfold peek. cbn [bus_rd bus_wr zynq_bus fst snd z_regs z_locked]. rewrite Hf.
  destruct (z_locked d && (0xF8000000 <=? a) && (a <? 0xF8001000)) eqn:E.
  - unfold in_slcr in Hl. rewrite Hl in E by lia. discriminate E.
  - rewrite lookup_insert_eq. by apply u32_small.
Qed.

Lemma zynq_boot : boot_device zynq_dev 1 1.
Proof.
  constructor.
  - intros d. left. done.
  - intros d. exists []. split; [by apply pending_none|cbn; lia].
Qed.

Lemma zynq_isr : Storage zynq_dev isr.
Proof.
  assert (Hisr : forall a, isr a -> z_fixed a = None /\ ~ in_slcr a).
  { intros a (k & Hk & ->). assert (k = 0 \/ k = 1 \/ k = 2) as [->|[->| ->]] by lia;
      (split; [vm_compute; reflexivity|]); unfold in_slcr, isr_word, dist_addr, MPID_BASE; cbn; lia. }
  constructor; intros; try done.
  - destruct (Hisr a) as [Hf Hs]; [done|]. by apply zynq_peek_eq.
  - by apply zynq_peek_ne.
Qed.

Lemma zynq_slcr b : slcr z_locked (fun a => a ∈ (board_config b).*1).
Proof.
  constructor; try done.
  - intros a v d H1 H2. cbn [bus_rd bus_wr zynq_bus fst snd z_regs z_locked]. destruct (Z.eqb_spec a 0xF8000008), (Z.eqb_spec a 0xF8000004); done.
  - intros a v d Ha Hv Hl. apply zynq_peek_eq; [|done|done].
    assert (Hf : forallb (fun a => bool_decide (z_fixed a = None)) (board_config b).*1 = true)
      by (destruct b; vm_compute; reflexivity).
    rewrite forallb_forall in Hf. apply list_elem_of_In in Ha.
    by apply (bool_decide_eq_true_1 _ (Hf a Ha)).
  - intros a a' v d _ Hne. by apply zynq_peek_ne.
Qed.

Definition zynq_reset : zynq_dev := ZynqDev true ∅.

Lemma board_init_configures_witness :
  exists new, board_init_of 1 (fun _ => 0) Zedboard (Traced zynq_reset []) =
      Ok TRUE (Traced (replay new zynq_reset) new) /\
    peek 0xF8000430 (replay new zynq_reset) = 0x7F.
Proof.
  destruct (board_init_configures 1 1 (fun _ => 0) Zedboard z_locked zynq_reset zynq_boot
              (zynq_slcr Zedboard)) as (new & E & _ & HC & _).
  exists new. split; [exact E|]. apply HC. by apply (bool_decide_unpack _).
Defined.

Lemma hw_init_secures_witness :
  exists ret new, hw_init_of 1 1 (fun _ => 256) Zedboard (Traced zynq_reset []) =
      Ok ret (Traced (replay new zynq_reset) new) /\
    (ret = FALSE \/ isr_bit 43 (replay new zynq_reset) = false).
Proof.
  destruct (hw_init_secures (Storage0 := zynq_isr) 1 1 (fun _ => 256) Zedboard z_locked zynq_reset
              zynq_boot (zynq_slcr Zedboard)) as (ret & new & E & [(Hr & _)|(Hr & Hi & _)]);
    exists ret, new; (split; [exact E|]); [by left|right].
  refine (eq_trans (Hi 43 _) _); [lia|]. vm_compute. reflexivity.
Defined.

Lemma board_calls_unchecked_witness :
  exists c' s',
    mon_smc_handler (fun _ => 0) (fun _ _ => 0) board_handler
      (Machine (in_monitor (set_regs (upd_reg Usr 1 (demo_ctx + 56) (regs (demo_call LTZVISOR_READ_SYSCALL)))
         (demo_call LTZVISOR_READ_SYSCALL))) demo_mem) = Ok tt (Machine c' s') /\
    regs c' Usr 0%nat = 0x9000.
Proof.
  set (c := set_regs _ _).
  assert (Hok : cpu_ok c).
  { destruct (demo_cpu_ok true (demo_sp + 128) ltac:(done)) as [Hr Hs Hf Hl Hp].
    constructor; try done. intros b n. subst c. unfold demo_call. cbn [set_regs regs].
    reg_lookup; [done|done|apply Hr]. }
  destruct (board_calls_unchecked (S := spi_world regfile) (fun _ => 0) (fun _ _ => 0) demo_ram
              c demo_mem (demo_sp + 72) (demo_ctx + 56) Hok) as [HR _].
  - unfold ram_at, demo_ram, demo_sp. split_and!; [lia..|]. intros. lia.
  - done.
  - done.
  - done.
  - unfold demo_ram, demo_ctx. lia.
  - unfold demo_sp, demo_ctx. lia.
  - destruct (HR eq_refl) as (c' & s' & E & Hv & _). exists c', s'. exact (conj E Hv).
Defined.
