(* ===== verification/Soc.v ===== *)
(** * Memory and devices on one bus

    The C code sees memory as bytes ([CString.v]), the assembly as words; the
    devices are above the memory.  [soc] puts the two together: a word access
    below the devices is four bytes of memory, little-endian.  An unaligned
    word access faults on this machine and reaches neither. *)
From S2P Require Import Prelude Bus CString.

Local Open Scope Z_scope.

(** The devices of the Zynq start here (UG585). *)
Definition DEVICES : Z := 0xE0000000.

Record soc (B : Type) : Type := Soc { ram : bytes; io : B }.
Arguments Soc {B}.
Arguments ram {B}.
Arguments io {B}.

Definition word_at (a : Z) (m : bytes) : Z :=
  byte_at a m + Z.shiftl (byte_at (a + 1) m) 8 + Z.shiftl (byte_at (a + 2) m) 16 +
  Z.shiftl (byte_at (a + 3) m) 24.
Definition put_word (a v : Z) (m : bytes) : bytes :=
  <[a + 3 := u8 (Z.shiftr v 24)]> (<[a + 2 := u8 (Z.shiftr v 16)]>
    (<[a + 1 := u8 (Z.shiftr v 8)]> (<[a := u8 v]> (m : gmap Z Z)))).

Definition in_memory (a : Z) : bool := a <? DEVICES.
Definition aligned (a : Z) : bool := a mod 4 =? 0.

#[export] Instance soc_bus {B} `{Bus B} : Bus (soc B) := {
  bus_rd a w :=
    if in_memory a then (if aligned a then word_at a (ram w) else 0, w)
    else let '(v, d) := bus_rd a (io w) in (v, Soc (ram w) d);
  bus_wr a v w :=
    if in_memory a then (if aligned a then Soc (put_word a v (ram w)) (io w) else w)
    else Soc (ram w) (bus_wr a v (io w));
}.

(** Computations of the C code on memory. *)
Definition on_ram {B A} (f : M bytes A) : M (soc B) A := fun w =>
  match f (ram w) with
  | Ok a m => Ok a (Soc m (io w))
  | Hang m => Hang (Soc m (io w))
  | Undef => Undef
  | NoFuel => NoFuel
  end.

Lemma on_ram_run {B A C} (f : M bytes A) (g : A -> M (soc B) C) w a m :
  f (ram w) = Ok a m -> (on_ram f ≫= g) w = g a (Soc m (io w)).
Proof. intros E. unfold on_ram, mbind, M_bind. by rewrite E. Qed.

(** ** Words and bytes *)
Lemma load32_run a m : bytes_ok m -> load32 a m = Ok (word_at a m) m.
Proof. intros Hm. unfold load32. by rewrite !load8_run, !bytes_ok_u8 by done. Qed.

Lemma store32_run a v m : store32 a v m = Ok tt (put_word a v m).
Proof. done. Qed.

Lemma put_word_ok a v m : bytes_ok m -> bytes_ok (put_word a v m).
Proof. intros Hm. unfold put_word. by repeat apply bytes_ok_store. Qed.

Lemma byte_at_put_word a v m x :
  byte_at x (put_word a v m) =
  if decide (a <= x < a + 4) then u8 (Z.shiftr v (8 * (x - a))) else byte_at x m.
Proof.
  unfold put_word. rewrite !byte_at_store.
  repeat match goal with |- context [decide ?P] => destruct (decide P) end; subst; try lia; try done.
  - by replace (8 * (a + 3 - a)) with 24 by lia.
  - by replace (8 * (a + 2 - a)) with 16 by lia.
  - by replace (8 * (a + 1 - a)) with 8 by lia.
  - replace (8 * (x - x)) with 0 by lia. by rewrite Z.shiftr_0_r.
Qed.

Lemma word_of_bytes v :
  is_u32 v ->
  u8 v + Z.shiftl (u8 (Z.shiftr v 8)) 8 + Z.shiftl (u8 (Z.shiftr v 16)) 16 +
    Z.shiftl (u8 (Z.shiftr v 24)) 24 = v.
Proof.
  unfold is_u32, u8. intros. rewrite !Z.shiftl_mul_pow2, !Z.shiftr_div_pow2 by lia.
  change (2 ^ 8) with 256. change (2 ^ 16) with 65536. change (2 ^ 24) with 16777216.
  Z.div_mod_to_equations. lia.
Qed.

Lemma word_at_put_eq a v m : is_u32 v -> word_at a (put_word a v m) = v.
Proof.
  intros Hv. unfold word_at. rewrite !byte_at_put_word.
  repeat match goal with |- context [decide ?P] => destruct (decide P) end; try lia.
  replace (8 * (a - a)) with 0 by lia. replace (8 * (a + 1 - a)) with 8 by lia.
  replace (8 * (a + 2 - a)) with 16 by lia. replace (8 * (a + 3 - a)) with 24 by lia.
  rewrite Z.shiftr_0_r. by apply word_of_bytes.
Qed.

(** A word depends on its four bytes. *)
Lemma word_at_ext a m m' :
  (forall x, a <= x < a + 4 -> byte_at x m' = byte_at x m) -> word_at a m' = word_at a m.
Proof. intros Hx. unfold word_at. by rewrite !Hx by lia. Qed.

Lemma word_at_put_ne a b v m :
  b + 4 <= a \/ a + 4 <= b -> word_at a (put_word b v m) = word_at a m.
Proof.
  intros Hd. apply word_at_ext. intros x Hx. rewrite byte_at_put_word.
  destruct (decide _); [lia|done].
Qed.

Lemma word_at_u32 a m : bytes_ok m -> is_u32 (word_at a m).
Proof.
  intros Hm. unfold word_at. pose proof (Hm a). pose proof (Hm (a + 1)). pose proof (Hm (a + 2)).
  pose proof (Hm (a + 3)). unfold is_u8, is_u32 in *. rewrite !Z.shiftl_mul_pow2 by lia.
  change (2 ^ 8) with 256 in *. change (2 ^ 16) with 65536. change (2 ^ 24) with 16777216. lia.
Qed.

(** ** Memory stores *)
Definition soc_ram (a : Z) : Prop := 0 <= a < DEVICES /\ a mod 4 = 0.

Lemma soc_ram_bools a : soc_ram a -> in_memory a = true /\ aligned a = true.
Proof. unfold soc_ram, in_memory, aligned, DEVICES. lia. Qed.

Lemma peek_soc_ram {B} `{Bus B} a (w : soc B) :
  soc_ram a -> peek a w = u32 (word_at a (ram w)).
Proof. intros [Hm Ha]%soc_ram_bools. unfold peek. cbn. by rewrite Hm, Ha. Qed.

Lemma ram_bus_wr {B} `{Bus B} a v (w : soc B) :
  ram (bus_wr a v w) = if in_memory a && aligned a then put_word a v (ram w) else ram w.
Proof. cbn. by destruct (in_memory a), (aligned a). Qed.

Lemma ram_after_rd {B} `{Bus B} a (w : soc B) : ram (after_rd a w) = ram w.
Proof. unfold after_rd. cbn. destruct (in_memory a); [done|]. by destruct (bus_rd a (io w)). Qed.

#[export] Instance soc_storage {B} `{Bus B} : Storage (soc B) soc_ram.
Proof.
  constructor.
  - intros a w [Hm Ha]%soc_ram_bools. unfold after_rd. cbn. by rewrite Hm.
  - intros a v w Hr Hv. rewrite peek_soc_ram, ram_bus_wr by done.
    destruct (soc_ram_bools a Hr) as [-> ->]. cbn [andb]. by rewrite word_at_put_eq, u32_small.
  - intros a a' v w Hr Hne. rewrite !peek_soc_ram, ram_bus_wr by done.
    destruct (in_memory a' && aligned a') eqn:E; [|done].
    rewrite word_at_put_ne; [done|]. destruct Hr as [_ Hr].
    unfold aligned in E. Z.div_mod_to_equations; lia.
  - intros a a' w Hr. by rewrite !peek_soc_ram, ram_after_rd by done.
Qed.

(** The accesses of a log reach devices only: memory is as before. *)
Definition devices_only (l : list access) : Prop :=
  forall c, c ∈ l -> match c with Rd a _ | Wr a _ => DEVICES <= a end.

Lemma replay_ram {B} `{Bus B} l (w : soc B) : devices_only l -> ram (replay l w) = ram w.
Proof.
  revert w. induction l as [|c l IH]; intros w Hl; [done|].
  change (replay (c :: l) w) with (replay l (replay1 w c)). rewrite IH by (intros x Hx; apply Hl; by right).
  specialize (Hl c ltac:(left)). destruct c as [a v|a v]; cbn [replay1].
  - apply ram_after_rd.
  - rewrite ram_bus_wr. unfold in_memory. by destruct (Z.ltb_spec a DEVICES); [lia|].
Qed.
