(* ===== verification/Core.v ===== *)
(** * Creating and starting the guests ([core/ltzvisor.c], [core/ltzvisor_api.c])

    [ltzvisor_main] initialises the hardware, creates the non-secure guest -
    its [tzmachine] context, its coprocessor registers, its image in memory -
    and leaves Monitor mode for the secure guest. *)
From Stdlib Require Import Ascii String.
From S2P Require Import Prelude Bus CString Gic Arm Cp15 Monitor WorldSwitch.
From S2P Require Import Worlds Uart Printk Board Soc.

Local Open Scope Z_scope.

(** ** [tzmachine] ([ltzvisor.h], [cpu_vcpu.h]) *)
Inductive tz_field : Type :=
| core_r (n : nat) | spsr_mon | lr_mon | spsr_svc | r13_svc | lr_svc
| spsr_sys | r13_sys | lr_sys | spsr_abt | r13_abt | lr_abt
| spsr_undef | r13_undef | lr_undef | spsr_irq | r13_irq | lr_irq
| vcpu_cp15 (r : cp15_reg) | gic_icdiser | tz_name | tz_id | tz_booting.

#[export] Instance tz_field_eq_dec : EqDecision tz_field.
Proof. solve_decision. Defined.

Definition core_regs : list (option tz_field * Z) :=
  ((fun n => (Some (core_r n), 1)) <$> seq 0 13) ++
  ((fun f => (Some f, 1)) <$>
    [spsr_mon; lr_mon; spsr_svc; r13_svc; lr_svc; spsr_sys; r13_sys; lr_sys; spsr_abt; r13_abt;
     lr_abt; spsr_undef; r13_undef; lr_undef; spsr_irq; r13_irq; lr_irq]).
Definition cp15_block : list (option tz_field * Z) :=
  (fun r => (Some (vcpu_cp15 r), 1)) <$> cp15_regs.
(** [name] is thirty bytes, padded to eight words. *)
Definition tzmachine : list (option tz_field * Z) :=
  core_regs ++ cp15_block ++
  [(Some gic_icdiser, 4); (Some tz_name, 8); (Some tz_id, 1); (Some tz_booting, 1)].
Definition tz_off (f : tz_field) : Z := default 0 (fst <$> find_reg f tzmachine 0).
Definition sizeof_core_regs : Z := 4 * Z.of_nat (length core_regs).
Definition sizeof_cp15_regs : Z := 4 * Z.of_nat (length cp15_block).

(** ** [struct nsguest_conf_entry] ([ltzvisor_nsguest_config.h]) *)
Inductive gce_field : Type :=
| gce_name | gce_id | gce_trd_init | gce_trd_start | gce_trd_end | gce_trd_load
| gce_bin_start | gce_shared_mem | gce_bin_end | gce_bin_load.

#[export] Instance gce_field_eq_dec : EqDecision gce_field.
Proof. solve_decision. Defined.

Definition nsguest_conf_entry : list (option gce_field * Z) :=
  [(Some gce_name, 8); (Some gce_id, 1); (Some gce_trd_init, 1); (Some gce_trd_start, 1);
   (Some gce_trd_end, 1); (Some gce_trd_load, 1); (Some gce_bin_start, 1);
   (Some gce_shared_mem, 1); (Some gce_bin_end, 1); (Some gce_bin_load, 1)].
Definition gce_off (f : gce_field) : Z := default 0 (fst <$> find_reg f nsguest_conf_entry 0).

(** ** Operations *)
Section core.
Context {B : Type} `{Bus B}.
(** Bounds of the polling and string loops; what [printk] finds in its buffer;
    the addresses of [NS_Guest] and of the supervisor stack. *)
Variable polls acks name_fuel : nat.
Variable stale : list Z -> Z.
Variable NS_Guest supervisor_stack : Z.
#[local] Abbreviation CM := (M (machine (soc B))).

Definition c_ram {A} (f : M bytes A) : CM A := on_mem (on_ram f).
Definition c_say (fmt : list Z) (args : list va) : CM unit := on_mem (say polls stale fmt args).

(** [&NS_Guest.f]; [g->f] *)
Definition tz (f : tz_field) : Z := NS_Guest + tz_off f.
Definition gce (g : Z) (f : gce_field) : CM Z := c_ram (load32 (g + gce_off f)).
Definition set_tz (f : tz_field) (v : Z) : CM unit := c_ram (store32 (tz f) v).

(** [cpu_helper.c]: the argument is in r0. *)
Definition set_guest_context (addr : Z) : CM unit := wr 0 addr ;; mcr 0 TPIDRPRW.
Definition call_cp15_restore (addr : Z) : CM unit := wr 0 addr ;; cp15_restore.

Definition guest_attributes (g : Z) : CM unit :=
  set_tz tz_booting 1 ;;
  id ← gce g gce_id;
  set_tz tz_id id ;;
  _ ← c_ram (strcpy name_fuel (tz tz_name) (g + gce_off gce_name));
  c_say (line "      * NS_Guest attributes - OK  ") [].

Definition guest_core_registers (g : Z) : CM unit :=
  _ ← c_ram (memset (tz (core_r 0)) 0 sizeof_core_regs);
  bin_load ← gce g gce_bin_load;
  set_tz lr_mon bin_load ;;
  set_tz spsr_mon 0x193 ;;
  c_say (line "      * NS_Guest core registers - OK  ") [].

Definition guest_cp15_registers : CM unit :=
  _ ← c_ram (memset (tz (vcpu_cp15 CSSELR)) 0 sizeof_cp15_regs);
  set_tz (vcpu_cp15 SCTLR) 0x00c50078 ;;
  c_say (line "      * NS_Guest CP15 registers - OK  ") [] ;;
  set_tz (vcpu_cp15 ACTLR) 0x00000006 ;;
  c_say (line "      * NS_Guest L2 Cache - OK  ") [].

Definition load_guest (g : Z) : CM unit :=
  c_say (line "      * NS_Guest loading ...  ") [] ;;
  v ← gce g gce_bin_load;
  c_say (line "      * NS_Guest gce_bin_load: 0x%x ") [VInt v] ;;
  v ← gce g gce_bin_start;
  c_say (line "      * NS_Guest gce_bin_start: 0x%x ") [VInt v] ;;
  v ← gce g gce_bin_end;
  c_say (line "      * NS_Guest gce_bin_end: 0x%x ") [VInt v] ;;
  load ← gce g gce_bin_load; start ← gce g gce_bin_start; bin_end ← gce g gce_bin_end;
  _ ← c_ram (memcpy load start (sub32 bin_end start));
  trd_init ← gce g gce_trd_init;
  (if trd_init =? 0 then mret tt
   else
     load ← gce g gce_trd_load; start ← gce g gce_trd_start; trd_end ← gce g gce_trd_end;
     _ ← c_ram (memcpy load start (sub32 trd_end start));
     mret tt) ;;
  c_say (line "      * NS_Guest load - OK  ") [].

Definition ltzvisor_nsguest_create (g : Z) : CM Z :=
  guest_attributes g ;;
  guest_core_registers g ;;
  guest_cp15_registers ;;
  load_guest g ;;
  call_cp15_restore (tz (vcpu_cp15 CSSELR)) ;;
  set_guest_context NS_Guest ;;
  c_say (line "      * NS_Guest ready to run - OK  ") [] ;;
  mret TRUE.

Definition ltzvisor_nsguest_restart (g : Z) : CM Z := hang.
Definition ltzvisor_schedule : CM unit := hang.

Definition ltzvisor_init : CM Z := on_mem (ltzvisor_hw_init polls acks stale).

Definition LTZVISOR_MON_EXIT : CM unit :=
  msr_cpsr_c SUPERVISOR_MODE (Z.lor 0x80 0x40) ;;
  mov_imm 1 supervisor_stack ;;
  add_lsl 1 1 0 12 ;;
  add_imm 13 1 4096.

(** [main] is the secure guest's. *)
Definition ltzvisor_kickoff (main : CM unit) : CM unit :=
  LTZVISOR_MON_EXIT ;; main ;; hang.

Definition ltzvisor_main (config : Z) (main : CM unit) : CM unit :=
  ret ← ltzvisor_init;
  if ret =? FALSE then c_say (chars "ERROR: LTZVisor Init ... " ++ NL_TAB) [] ;; hang
  else
  c_say (line " -> Guests: NS_Guest creation ... ") [VStr ARCH] ;;
  ret ← ltzvisor_nsguest_create config;
  if ret =? FALSE then c_say (line "Error: LTZVisor NS_Guest Create") [] ;; hang
  else
  c_say (line " -> LTZVisor: kicking off ... ") [VStr ARCH] ;;
  c_say (line " -> LTZVisor: starting S_Guest ... ") [VStr ARCH] ;;
  c_say (chars "----------------------------------------------------------" ++ [10; 10; 9]) [] ;;
  ltzvisor_kickoff main ;;
  hang.

(** *** Exceptions in Monitor mode ([cpu_handlers.c]) *)
Definition mon_swi_handler : CM unit := c_say (error_line "LTZVisor: SWI Exception") [] ;; hang.
Definition mon_abort_handler : CM unit := c_say (error_line "LTZVisor: ABORT Exception") [] ;; hang.
Definition mon_irq_handler : CM unit := c_say (error_line "LTZVisor: IRQ Exception") [] ;; hang.
Definition mon_prefetch_handler : CM unit :=
  c_say (error_line "LTZVisor: PREFETCH Exception") [] ;; hang.
End core.

(** The offsets of [asm-offsets.h] are those of the structure. *)
Lemma asm_offsets :
  tz_off (core_r 0) = ASM_ARCH_REGS_OFFSET /\ tz_off (core_r 4) = ASM_R4_OFFSET /\
  tz_off spsr_mon = 52 /\ tz_off lr_mon = 56 /\ tz_off r13_sys = 76 /\
  tz_off (vcpu_cp15 SCTLR) = 124 /\ sizeof_core_regs = 120 /\ sizeof_cp15_regs = 80.
Proof. vm_compute. done. Qed.

(** ** Runs *)

(** [m'] is [m] but for the bytes from [a] to [b]. *)
Definition outside (a b : Z) (m m' : bytes) : Prop :=
  bytes_ok m' /\ forall x, x < a \/ b <= x -> byte_at x m' = byte_at x m.

Lemma outside_trans a b m m1 m2 : outside a b m m1 -> outside a b m1 m2 -> outside a b m m2.
Proof. intros [_ H1] [H2 H3]. split; [done|]. intros x Hx. by rewrite H3, H1. Qed.

Lemma outside_mono a b a' b' m m' : outside a b m m' -> a' <= a -> b <= b' -> outside a' b' m m'.
Proof. intros [H1 H2] ? ?. split; [done|]. intros x Hx. apply H2. lia. Qed.

Lemma outside_put a v m : bytes_ok m -> outside a (a + 4) m (put_word a v m).
Proof.
  intros Hm. split; [by apply put_word_ok|]. intros x Hx. rewrite byte_at_put_word.
  destruct (decide _); [lia|done].
Qed.

Lemma outside_word a b m m' x :
  outside a b m m' -> x + 4 <= a \/ b <= x -> word_at x m' = word_at x m.
Proof. intros [_ Ho] Hx. apply word_at_ext. intros y Hy. apply Ho. lia. Qed.

Lemma outside_string a b m m' x l :
  outside a b m m' -> x + Z.of_nat (length l) < a \/ b <= x -> string_at x l m -> string_at x l m'.
Proof. intros [_ Ho] Hx [Hz Hl]. split; [done|]. intros i Hi. rewrite Ho by lia. by apply Hl. Qed.

(** The [n] words from [a] on. *)
Definition words_at (a : Z) (n : nat) (m : bytes) : list Z :=
  (fun i => word_at (a + 4 * Z.of_nat i) m) <$> seq 0 n.

Lemma words_at_lookup a n m i :
  (i < n)%nat -> words_at a n m !! i = Some (word_at (a + 4 * Z.of_nat i) m).
Proof. intros Hi. unfold words_at. by rewrite list_lookup_fmap, lookup_seq_lt. Qed.

Lemma words_at_ext a n m m' :
  (forall i, (i < n)%nat -> word_at (a + 4 * Z.of_nat i) m' = word_at (a + 4 * Z.of_nat i) m) ->
  words_at a n m' = words_at a n m.
Proof.
  intros Hx. apply list_fmap_ext. intros i j [-> Hj]%lookup_seq. rewrite Nat.add_0_l. by apply Hx.
Qed.

Lemma words_at_outside a n m m' b c :
  outside b c m m' -> a + 4 * Z.of_nat n <= b \/ c <= a -> words_at a n m' = words_at a n m.
Proof. intros Ho Hd. apply words_at_ext. intros i Hi. apply (outside_word b c); [done|lia]. Qed.

Lemma words_at_put a n m i v :
  (i < n)%nat -> is_u32 v ->
  words_at a n (put_word (a + 4 * Z.of_nat i) v m) = <[i := v]> (words_at a n m).
Proof.
  intros Hi Hv. apply list_eq. intros j. destruct (decide (j < n)%nat) as [Hj|Hj].
  - rewrite words_at_lookup by done. destruct (decide (i = j)) as [<-|Hne].
    + rewrite list_lookup_insert_eq; [by rewrite word_at_put_eq|].
      unfold words_at. by rewrite length_fmap, length_seq.
    + rewrite list_lookup_insert_ne, words_at_lookup, word_at_put_ne by (done || lia). done.
  - rewrite !lookup_ge_None_2; [done|rewrite length_insert|];
      unfold words_at; rewrite length_fmap, length_seq; lia.
Qed.

Lemma memset_zero a n m :
  bytes_ok m ->
  exists m', memset a 0 (4 * Z.of_nat n) m = Ok a m' /\ words_at a n m' = replicate n 0 /\
    outside a (a + 4 * Z.of_nat n) m m'.
Proof.
  intros Hm. destruct (memset_loop_run (Z.to_nat (4 * Z.of_nat n)) a 0 m Hm) as (m' & E & Hok & Hx).
  rewrite Z2Nat.id in Hx by lia.
  exists m'. unfold memset. rewrite (bind_ok _ _ _ _ _ E). split; [done|]. split.
  - apply list_eq. intros i. destruct (decide (i < n)%nat) as [Hi|Hi].
    + rewrite words_at_lookup, lookup_replicate_2 by done. f_equal. unfold word_at. rewrite !Hx.
      repeat (destruct (decide _); [|lia]). done.
    + rewrite !lookup_ge_None_2; [done|rewrite length_replicate; lia|].
      unfold words_at. rewrite length_fmap, length_seq. lia.
  - split; [done|]. intros x Ho. rewrite Hx. destruct (decide _); [lia|done].
Qed.

Lemma words_at_peek {B} `{Bus B} a n m (d : B) :
  bytes_ok m -> 0 <= a -> a + 4 * Z.of_nat n <= DEVICES -> a mod 4 = 0 ->
  peek_words a n (Soc m d) = words_at a n m.
Proof.
  intros Hm Ha Hn Hal. apply list_eq. intros i. destruct (decide (i < n)%nat) as [Hi|Hi].
  - rewrite peek_words_lookup, words_at_lookup, peek_soc_ram; [|split; [lia|]|done..].
    + cbn [ram]. rewrite u32_small by (by apply word_at_u32). done.
    + Z.div_mod_to_equations. lia.
  - rewrite !lookup_ge_None_2; [done| |rewrite length_peek_words; lia].
    unfold words_at. rewrite length_fmap, length_seq. lia.
Qed.

Lemma soc_peek_device {B} `{Bus B} a (w : soc B) : DEVICES <= a -> peek a w = peek a (io w).
Proof.
  intros Ha. unfold peek. cbn. unfold in_memory. destruct (Z.ltb_spec a DEVICES); [lia|].
  by destruct (bus_rd a (io w)).
Qed.

Lemma soc_io_after_rd {B} `{Bus B} a (w : soc B) : DEVICES <= a -> io (after_rd a w) = after_rd a (io w).
Proof.
  intros Ha. unfold after_rd. cbn. unfold in_memory. destruct (Z.ltb_spec a DEVICES); [lia|].
  by destruct (bus_rd a (io w)).
Qed.

(** A board under a memory is a board. *)
Lemma soc_room {B} `{Bus B} n (w : soc B) : room_within n 1 (io w) -> room_within n 1 w.
Proof.
  apply (room_through io); intros; [by apply soc_peek_device|by apply soc_io_after_rd].
Qed.

Lemma soc_pending {B} `{Bus B} vs (w : soc B) : gic_pending vs (io w) -> gic_pending vs w.
Proof.
  intros Hp. remember (io w) as d eqn:E. revert w E. induction Hp as [d Hd|v vs d Hv Hne Hp IH]; intros w ->.
  - apply pending_none. by rewrite soc_peek_device by (vm_compute; discriminate).
  - apply pending_some; [by rewrite soc_peek_device by (vm_compute; discriminate)|done|].
    apply IH. unfold after_rd. cbn. by destruct (bus_rd _ (io w)).
Qed.

Lemma soc_boot {B} `{Bus B} polls acks : boot_device B polls acks -> boot_device (soc B) polls acks.
Proof.
  intros [Hr Hp]. constructor.
  - intros w. by apply soc_room.
  - intros w. destruct (Hp (io w)) as (vs & ? & ?). exists vs. split; [by apply soc_pending|done].
Qed.

Lemma uart_devices l : uart_accesses 1 l -> devices_only l.
Proof.
  intros Hl c Hc. unfold uart_accesses in Hl. rewrite Forall_forall in Hl. specialize (Hl c Hc).
  destruct c; destruct Hl as [-> | ->]; by vm_compute.
Qed.

Lemma replay_soc {B} `{Bus B} l m (d : B) :
  devices_only l -> replay l (Soc m d) = Soc m (replay l d).
Proof.
  revert d. induction l as [|c l IH]; intros d Hl; [done|].
  change (replay (c :: l) ?s) with (replay l (replay1 s c)). rewrite <- IH by (intros x Hx; apply Hl; by right).
  specialize (Hl c ltac:(left)). f_equal. unfold DEVICES in Hl.
  destruct c as [a v|a v]; unfold replay1, after_rd; cbn; unfold in_memory, DEVICES;
    destruct (Z.ltb_spec a 0xE0000000); try lia; [by destruct (bus_rd a d)|done].
Qed.

(** A message goes to the UART and leaves memory and processor alone. *)
Lemma c_say_replay {B} `{Bus B} (polls : nat) (stale : list Z -> Z) {C} fmt args
    (k : unit -> M (machine (soc B)) C) c m (d : B) :
  (forall d : B, room_within polls 1 d) -> fits fmt args = true ->
  exists l, uart_accesses 1 l /\
    (c_say polls stale fmt args ≫= k) (Machine c (Soc m d)) = k tt (Machine c (Soc m (replay l d))).
Proof.
  intros Hroom Hf.
  destruct (say_room polls stale fmt args (Soc m d)) as (l & E & Hl); [intros w; by apply soc_room|done|].
  exists l. split; [done|]. unfold c_say. rewrite (on_mem_run _ _ _ _ _ _ E).
  by rewrite replay_soc by (by apply uart_devices).
Qed.

Section core_runs.
Context {B : Type} `{Bus B}.
Variable polls acks name_fuel : nat.
Variable stale : list Z -> Z.
Variable ns : Z.
Hypothesis HB : boot_device B polls acks.
#[local] Abbreviation CM := (M (machine (soc B))).
#[local] Abbreviation saying := (c_say (B := B) polls stale).

Lemma c_ram_run {A C} (f : M bytes A) (k : A -> CM C) c m d a m' :
  f m = Ok a m' -> (c_ram f ≫= k) (Machine c (Soc m d)) = k a (Machine c (Soc m' d)).
Proof. intros E. unfold c_ram. apply on_mem_run. unfold on_ram. cbn. by rewrite E. Qed.

Lemma gce_run {C} g f (k : Z -> CM C) c m d :
  bytes_ok m ->
  (gce g f ≫= k) (Machine c (Soc m d)) = k (word_at (g + gce_off f) m) (Machine c (Soc m d)).
Proof. intros Hm. by apply c_ram_run, load32_run. Qed.

Lemma set_tz_run {C} f v (k : unit -> CM C) c m d :
  (set_tz ns f v ≫= k) (Machine c (Soc m d)) = k tt (Machine c (Soc (put_word (tz ns f) v m) d)).
Proof. by apply c_ram_run, store32_run. Qed.

Lemma c_say_run {C} fmt args (k : unit -> CM C) c m d :
  fits fmt args = true ->
  exists d', (saying fmt args ≫= k) (Machine c (Soc m d)) = k tt (Machine c (Soc m d')).
Proof.
  intros Hf. destruct (c_say_replay polls stale fmt args k c m d) as (l & _ & E);
    [apply HB|done|by eexists].
Qed.

(** *** The guest's configuration *)
Record guest_config (g : Z) (name : list Z) (m : bytes) : Prop := {
  gc_bytes : bytes_ok m;
  gc_struct : 0 <= ns /\ ns + 256 <= DEVICES /\ ns mod 4 = 0;
  gc_apart : g + 68 <= ns \/ ns + 256 <= g;
  gc_name : string_at g name m;
  gc_name_fits : (length name < 30)%nat /\ (length name < name_fuel)%nat;
  gc_no_disk : word_at (g + 36) m = 0;
}.

(** Where the image comes from and goes to. *)
Record guest_image (g start load size : Z) (m : bytes) : Prop := {
  gi_start : word_at (g + 52) m = start;
  gi_end : word_at (g + 60) m = start + size;
  gi_load : word_at (g + 64) m = load;
  gi_size : 0 <= size < 2 ^ 31;
  gi_source : start + size <= ns \/ ns + 256 <= start;
  gi_target : load + size <= ns \/ ns + 256 <= load;
  gi_conf : load + size <= g \/ g + 68 <= load;
  gi_forward : forward_safe load start size;
}.

(** The registers of a guest about to start at [load]. *)
Definition guest_core (load : Z) : list Z := replicate 13 0 ++ [0x193; load] ++ replicate 15 0.
Definition guest_cp15 : list Z := [0; 0x00c50078; 0x00000006] ++ replicate 17 0.

Lemma tz_offsets :
  tz ns (core_r 0) = ns + 4 * Z.of_nat 0 /\ tz ns spsr_mon = ns + 4 * Z.of_nat 13 /\
  tz ns lr_mon = ns + 4 * Z.of_nat 14 /\ tz ns (vcpu_cp15 CSSELR) = ns + 120 /\
  tz ns (vcpu_cp15 SCTLR) = ns + 120 + 4 * Z.of_nat 1 /\
  tz ns (vcpu_cp15 ACTLR) = ns + 120 + 4 * Z.of_nat 2 /\
  tz ns tz_name = ns + 216 /\ tz ns tz_id = ns + 248 /\ tz ns tz_booting = ns + 252.
Proof.
  assert (Ho : forall f o, tz_off f = o -> tz ns f = ns + o) by (by intros f o <-).
  split_and!; rewrite <- ?Z.add_assoc; apply Ho; vm_compute; reflexivity.
Qed.

Ltac offsets :=
  destruct tz_offsets as (O0 & O13 & O14 & Ocp & O1 & O2 & Oname & Oid & Oboot);
  rewrite ?O0, ?O13, ?O14, ?Ocp, ?O1, ?O2, ?Oname, ?Oid, ?Oboot.

(** Says a line of known text. *)
Ltac say_step :=
  match goal with
  | |- context [(saying ?fmt ?args ≫= ?k) (Machine ?c (Soc ?m ?d))] =>
      let d' := fresh "d" in let E := fresh in
      destruct (c_say_run fmt args k c m d eq_refl) as (d' & E); rewrite E; clear E
  end.

Lemma guest_attributes_run {C} g name (k : unit -> CM C) c m d :
  guest_config g name m ->
  exists m' d',
    (guest_attributes polls name_fuel stale ns g ≫= k) (Machine c (Soc m d)) =
      k tt (Machine c (Soc m' d')) /\
    outside (ns + 216) (ns + 256) m m' /\
    string_at (ns + 216) name m' /\ word_at (ns + 248) m' = word_at (g + 32) m /\
    word_at (ns + 252) m' = 1.
Proof.
  intros [Hm Hs Ha Hn [Hn30 Hnf] _]. unfold guest_attributes. rewrite !bind_assoc.
  rewrite set_tz_run, !bind_assoc. offsets.
  set (m1 := put_word (ns + 252) 1 m). assert (O1m : outside (ns + 216) (ns + 256) m m1)
    by (eapply outside_mono; [by apply outside_put|lia|lia]).
  rewrite gce_run by (by apply O1m). rewrite !bind_assoc, set_tz_run, !bind_assoc. rewrite ?Oid.
  change (gce_off gce_id) with 32. change (gce_off gce_name) with 0. rewrite Z.add_0_r.
  rewrite (outside_word _ _ _ _ _ O1m) by lia. set (id := word_at (g + 32) m).
  set (m2 := put_word (ns + 248) id m1). assert (O2m : outside (ns + 216) (ns + 256) m m2).
  { eapply outside_trans; [exact O1m|]. eapply outside_mono; [by apply outside_put, O1m|lia|lia]. }
  destruct (copy_string_run name name_fuel (ns + 216) g m2) as (m3 & E3 & [Hm3 C3]);
    [apply O2m|by eapply (outside_string _ _ m); [exact O2m|lia|]|done|unfold forward_safe; lia|].
  rewrite ?Oname. rewrite (c_ram_run _ _ c m2 d (ns + 216) m3) by (unfold strcpy; by rewrite (bind_ok _ _ _ _ _ E3)).
  rewrite ?bind_assoc. say_step. exists m3. eexists. split; [reflexivity|].
  assert (Hid : is_u32 id) by (by apply word_at_u32).
  split_and!.
  - split; [done|]. intros x Hx. rewrite C3. destruct (decide _); [lia|]. by apply O2m.
  - split; [apply Hn|]. intros i Hi. rewrite C3. destruct (decide _); [|lia].
    destruct (outside_string _ _ m m2 g name O2m) as [_ Hl]; [lia|done|].
    rewrite <- (Hl i) by done. f_equal. lia.
  - rewrite <- (word_at_put_eq (ns + 248) id m1) by done. apply word_at_ext. intros x Hx.
    rewrite C3. destruct (decide _); [lia|done].
  - assert (word_at (ns + 252) m2 = 1) as <-.
    { subst m2. rewrite word_at_put_ne by lia. by apply word_at_put_eq. }
    apply word_at_ext. intros x Hx. rewrite C3. destruct (decide _); [lia|done].
Qed.

Lemma guest_core_run {C} g (k : unit -> CM C) c m d :
  bytes_ok m -> g + 68 <= ns \/ ns + 256 <= g ->
  exists m' d',
    (guest_core_registers polls stale ns g ≫= k) (Machine c (Soc m d)) =
      k tt (Machine c (Soc m' d')) /\
    outside ns (ns + 120) m m' /\ words_at ns 30 m' = guest_core (word_at (g + 64) m).
Proof.
  intros Hm Ha. unfold guest_core_registers. rewrite !bind_assoc. offsets.
  destruct (memset_zero ns 30 m Hm) as (m1 & E1 & W1 & O1m).
  change (4 * Z.of_nat 30) with sizeof_core_regs in E1. rewrite Z.mul_0_r, Z.add_0_r.
  rewrite (c_ram_run _ _ c m d ns m1) by exact E1. rewrite !bind_assoc.
  change (4 * Z.of_nat 30) with 120 in O1m.
  rewrite gce_run by (by apply O1m). change (gce_off gce_bin_load) with 64.
  rewrite (outside_word _ _ _ _ _ O1m) by lia. rewrite !bind_assoc, set_tz_run, !bind_assoc, set_tz_run.
  rewrite ?O13, ?O14. say_step. do 2 eexists. split; [reflexivity|]. split.
  - eapply outside_trans; [exact O1m|]. eapply outside_trans;
      [|eapply outside_mono; [apply outside_put, put_word_ok, O1m|lia|lia]].
    eapply outside_mono; [apply outside_put, O1m|lia|lia].
  - rewrite !words_at_put by (lia || by (unfold is_u32; lia) || by apply word_at_u32).
    by rewrite W1.
Qed.

Lemma guest_cp15_run {C} (k : unit -> CM C) c m d :
  bytes_ok m ->
  exists m' d',
    (guest_cp15_registers polls stale ns ≫= k) (Machine c (Soc m d)) =
      k tt (Machine c (Soc m' d')) /\
    outside (ns + 120) (ns + 200) m m' /\ words_at (ns + 120) 20 m' = guest_cp15.
Proof.
  intros Hm. unfold guest_cp15_registers. rewrite !bind_assoc. offsets.
  destruct (memset_zero (ns + 120) 20 m Hm) as (m1 & E1 & W1 & O1m).
  change (4 * Z.of_nat 20) with sizeof_cp15_regs in E1.
  rewrite (c_ram_run _ _ c m d (ns + 120) m1) by exact E1. rewrite !bind_assoc.
  replace (ns + 120 + 4 * Z.of_nat 20) with (ns + 200) in O1m by lia.
  rewrite set_tz_run, !bind_assoc. rewrite ?O1. say_step. rewrite !bind_assoc, set_tz_run.
  rewrite ?O2. say_step. do 2 eexists. split; [reflexivity|]. split.
  - eapply outside_trans; [exact O1m|]. eapply outside_trans;
      [|eapply outside_mono; [apply outside_put, put_word_ok, O1m|lia|lia]].
    eapply outside_mono; [apply outside_put, O1m|lia|lia].
  - rewrite !words_at_put by (lia || by (unfold is_u32; lia)). by rewrite W1.
Qed.

Lemma load_guest_run {C} g start load size (k : unit -> CM C) c m d :
  bytes_ok m -> word_at (g + 36) m = 0 -> guest_image g start load size m ->
  exists m' d',
    (load_guest polls stale g ≫= k) (Machine c (Soc m d)) = k tt (Machine c (Soc m' d')) /\
    copied load start size m m'.
Proof.
  intros Hm Htrd [Hst He Hld Hsz Hsrc Htgt Hcf Hfw]. unfold load_guest. rewrite !bind_assoc.
  change (gce_off gce_bin_load) with 64. change (gce_off gce_bin_start) with 52.
  change (gce_off gce_bin_end) with 60. change (gce_off gce_trd_init) with 36.
  say_step. rewrite bind_assoc, gce_run by done. 
  do 2 (rewrite bind_assoc; say_step; rewrite bind_assoc, gce_run by done).
  rewrite bind_assoc; say_step.
  do 3 rewrite bind_assoc, gce_run by done.
  change (gce_off gce_bin_load) with 64. change (gce_off gce_bin_start) with 52.
  change (gce_off gce_bin_end) with 60. rewrite Hst, He, Hld.
  assert (Hsub : sub32 (start + size) start = size).
  { unfold sub32. rewrite u32_small; [lia|]. unfold is_u32. lia. }
  rewrite Hsub. destruct (memcpy_run load start size m Hm Hsz Hfw) as (m' & E & [Hm' Hc]).
  rewrite bind_assoc, (c_ram_run _ _ c m _ load m' E), bind_assoc, gce_run by done.
  assert (word_at (g + gce_off gce_trd_init) m' = 0) as ->.
  { change (gce_off gce_trd_init) with 36. rewrite <- Htrd. apply word_at_ext. intros x Hx.
    rewrite Hc. destruct (decide _); [lia|done]. }
  change (0 =? 0) with true. cbv iota. rewrite bind_assoc, bind_ret. say_step.
  by do 2 eexists.
Qed.

Lemma bic32_ns SC : Z.testbit (bic32 SC 1) 0 = false.
Proof. unfold bic32. rewrite Z.land_spec. change (Z.testbit (not32 1) 0) with false. apply andb_false_r. Qed.

(** Memory after the guest has been created. *)
Record guest_memory (g : Z) (name : list Z) (start load size : Z) (m m' : bytes) : Prop := {
  gm_bytes : bytes_ok m';
  gm_core : words_at ns 30 m' = guest_core load;
  gm_cp15 : words_at (ns + 120) 20 m' = guest_cp15;
  gm_name : string_at (ns + 216) name m';
  gm_id : word_at (ns + 248) m' = word_at (g + 32) m;
  gm_booting : word_at (ns + 252) m' = 1;
  gm_image : forall i, 0 <= i < size -> byte_at (load + i) m' = byte_at (start + i) m;
  gm_rest : forall x, x < ns \/ ns + 256 <= x -> x < load \/ load + size <= x ->
    byte_at x m' = byte_at x m;
}.

Lemma guest_context_built {C} g name start load size (k : unit -> CM C) c m d :
  guest_config g name m -> guest_image g start load size m ->
  exists m' d',
    (guest_attributes polls name_fuel stale ns g ≫= fun _ =>
     guest_core_registers polls stale ns g ≫= fun _ =>
     guest_cp15_registers polls stale ns ≫= fun _ =>
     load_guest polls stale g ≫= k) (Machine c (Soc m d)) = k tt (Machine c (Soc m' d')) /\
    guest_memory g name start load size m m'.
Proof.
  intros Hg Hi. pose proof (gc_struct _ _ _ Hg) as Hs. pose proof (gc_apart _ _ _ Hg) as Ha.
  destruct (guest_attributes_run g name (fun _ => guest_core_registers polls stale ns g ≫= fun _ =>
     guest_cp15_registers polls stale ns ≫= fun _ => load_guest polls stale g ≫= k) c m d Hg)
    as (m1 & d1 & E1 & A1 & N1 & I1 & B1). rewrite E1. clear E1.
  destruct (guest_core_run g (fun _ => guest_cp15_registers polls stale ns ≫= fun _ =>
     load_guest polls stale g ≫= k) c m1 d1 (proj1 A1) Ha) as (m2 & d2 & E2 & A2 & W2).
  rewrite E2. clear E2.
  destruct (guest_cp15_run (fun _ => load_guest polls stale g ≫= k) c m2 d2 (proj1 A2))
    as (m3 & d3 & E3 & A3 & W3). rewrite E3. clear E3.
  assert (A03 : outside ns (ns + 256) m m3).
  { eapply outside_trans; [eapply outside_mono; [exact A1|lia|lia]|].
    eapply outside_trans; [eapply outside_mono; [exact A2|lia|lia]|].
    eapply outside_mono; [exact A3|lia|lia]. }
  assert (Hw : forall o, 0 <= o <= 64 -> word_at (g + o) m3 = word_at (g + o) m).
  { intros o Ho. apply (outside_word ns (ns + 256)); [done|lia]. }
  destruct Hi as [Hst He Hld Hsz Hsrc Htgt Hcf Hfw].
  destruct (load_guest_run g start load size k c m3 d3 (proj1 A03)) as (m4 & d4 & E4 & [Hm4 C4]).
  { rewrite Hw by lia. apply Hg. }
  { constructor; try done; by rewrite Hw by lia. }
  exists m4, d4. split; [exact E4|].
  assert (K : forall x, x < load \/ load + size <= x -> byte_at x m4 = byte_at x m3).
  { intros x Hx. rewrite C4. destruct (decide _); [lia|done]. }
  assert (Kw : forall x, ns <= x -> x + 4 <= ns + 256 -> word_at x m4 = word_at x m3).
  { intros x H1 H2. apply word_at_ext. intros y Hy. apply K. lia. }
  constructor; try done.
  - rewrite (words_at_ext _ _ m3) by (intros i ?; apply Kw; lia).
    rewrite (words_at_outside _ _ m2 m3 _ _ A3) by lia. rewrite W2. f_equal.
    rewrite (outside_word _ _ _ _ _ A1) by lia. done.
  - rewrite (words_at_ext _ _ m3) by (intros i ?; apply Kw; lia). done.
  - assert (N3 : string_at (ns + 216) name m3).
    { eapply outside_string; [exact A3|lia|]. eapply outside_string; [exact A2|lia|done]. }
    split; [apply N3|]. intros i Hi. rewrite K; [by apply N3|].
    pose proof (gc_name_fits _ _ _ Hg). lia.
  - rewrite Kw, (outside_word _ _ _ _ _ A3), (outside_word _ _ _ _ _ A2) by lia. done.
  - rewrite Kw, (outside_word _ _ _ _ _ A3), (outside_word _ _ _ _ _ A2) by lia. done.
  - intros i Hi. rewrite C4. destruct (decide _); [|lia].
    replace (start + (load + i - load)) with (start + i) by lia. apply A03. lia.
  - intros x Hx Hxl. rewrite K by done. by apply A03.
Qed.

Lemma create_run g name start load size R SP md F SC CP PC m d :
  guest_config g name m -> guest_image g start load size m -> is_u32 SC ->
  exists R' PC' m' d',
    ltzvisor_nsguest_create polls name_fuel stale ns g (Machine (Cpu R SP md F SC CP PC) (Soc m d)) =
      Ok TRUE (Machine (Cpu R' SP md F (bic32 SC 1)
        (upd_cp15 false TPIDRPRW ns (cp15_load true cp15_regs guest_cp15 CP)) PC') (Soc m' d')) /\
    r0_r2_only R R' /\ guest_memory g name start load size m m'.
Proof.
  intros Hg Hi HSC. pose proof (gc_struct _ _ _ Hg) as Hs. unfold ltzvisor_nsguest_create.
  match goal with |- context [(guest_attributes _ _ _ _ _ ≫= fun _ => _ ≫= fun _ => _ ≫= fun _ => _ ≫= ?k) (Machine ?c _)] =>
    destruct (guest_context_built g name start load size k c m d Hg Hi) as (m1 & d1 & E1 & HM) end.
  rewrite E1. clear E1. unfold call_cp15_restore, set_guest_context, wr, mcr, rd.
  rewrite bind_assoc. rewrite (on_cpu_run _ _ _ _ _ eq_refl).
  destruct tz_offsets as (_ & _ & _ & Ocp & _).
  match goal with |- context [Machine (rset 0 ?a ?c) ?s] =>
    change (rset 0 a c) with (Cpu (upd_reg Usr 0 a R) SP md F SC CP PC) end.
  destruct (cp15_restore_run soc_ram (upd_reg Usr 0 (tz ns (vcpu_cp15 CSSELR)) R) SP md F SC CP PC
              (Soc m1 d1) (ns + 120)) as (R2 & E2 & HR2); [done|by rewrite upd_reg_eq|..].
  { split_and!; [lia|unfold DEVICES in *; lia|]. intros i Hi'. unfold soc_ram.
    split; [lia|]. Z.div_mod_to_equations; lia. }
  { unfold DEVICES in *. lia. }
  rewrite (bind_ok _ _ _ _ _ E2). clear E2.
  rewrite (words_at_peek (ns + 120) 20 m1 d1), (gm_cp15 _ _ _ _ _ _ _ HM);
    [|apply HM|lia|lia|Z.div_mod_to_equations; lia].
  rewrite bind_assoc, (on_cpu_run _ _ _ _ _ eq_refl), bind_assoc.
  erewrite (from_cpu_run _ _ _ _ _ eq_refl), (on_cpu_run _ _ _ _ _ eq_refl).
  say_step. unfold mret, M_ret.
  do 4 eexists. split; [|split; [|exact HM]].
  - unfold cp15_set, ns_bit. cbn [rset set_regs scr cp15]. rewrite bic32_ns.
    unfold rget, rset. cbn [set_regs set_cp15 regs spsr cmode cflags scr cp15 pc reg_bank Nat.ltb
      Nat.leb cp15_common].
    rewrite upd_reg_eq. reflexivity.
  - intros b n H1 H2. cbn [set_regs set_cp15 regs]. rewrite upd_reg_ne by congruence.
    rewrite HR2 by done. by rewrite upd_reg_ne by congruence.
Qed.
End core_runs.

(** ** Properties *)

(** C5: creating the guest makes it ready to run.  [ltzvisor_nsguest_create]
    returns TRUE; the context holds the registers of a guest about to start -
    [gce_bin_load] as its return address, Supervisor mode with interrupts
    masked but for FIQ, zeros elsewhere -, the image has been copied, no other
    byte of memory has changed, the non-secure coprocessor registers are the
    initial ones, and the secure TPIDRPRW points to the context. *)
Theorem nsguest_create_ready {B} `{Bus B} (polls acks name_fuel : nat) (stale : list Z -> Z)
    (ns g : Z) (name : list Z) (start load size : Z) (c : cpu) (m : bytes) (d : B) :
  boot_device B polls acks ->
  guest_config name_fuel ns g name m -> guest_image ns g start load size m -> is_u32 (scr c) ->
  exists c' m' d',
    ltzvisor_nsguest_create polls name_fuel stale ns g (Machine c (Soc m d)) =
      Ok TRUE (Machine c' (Soc m' d')) /\
    guest_memory ns g name start load size m m' /\
    (forall i r, cp15_regs !! i = Some r -> cp15_view true (cp15 c') r = nth i guest_cp15 0) /\
    cp15 c' false TPIDRPRW = ns /\ ns_bit c' = false /\
    cmode c' = cmode c /\ r0_r2_only (regs c) (regs c').
Proof.
  intros HB Hg Hi HSC. destruct c as [R SP md F SC CP PC]. cbn [scr regs cmode] in *.
  destruct (create_run polls acks name_fuel stale ns HB g name start load size R SP md F SC CP PC m d
              Hg Hi HSC) as (R' & PC' & m' & d' & E & HR & HM).
  do 3 eexists. split; [exact E|]. cbn [regs cmode cp15]. split_and!; try done.
  - intros i r Hr. assert (Hv : guest_cp15 !! i = Some (nth i guest_cp15 0)).
    { rewrite nth_lookup. destruct (lookup_lt_is_Some_2 guest_cp15 i) as [v ->]; [|done].
      by apply lookup_lt_Some in Hr. }
    unfold cp15_view at 1. rewrite upd_cp15_lookup.
    destruct (decide _) as [[= Hf Hr']|_].
    + subst r. done.
    + by apply (cp15_load_in true cp15_regs _ _ i r _ cp15_regs_nodup).
  - apply bic32_ns.
Qed.

(** C4: the first SCHED call after the guest was created enters the guest.
    Whatever the secure guest has done since, if the guest's context is as it
    was built and the monitor's stack is balanced, the call resumes at
    [gce_bin_load] in the non-secure world, in Supervisor mode with IRQ masked
    and FIQ enabled, with every register of that mode zero. *)
Theorem first_schedule_enters_guest {B} `{Bus B} (polls acks name_fuel : nat)
    (stale : list Z -> Z) (sys_spsr : cpu -> Z) (clobbered : nat -> cpu -> Z)
    (ns g sp : Z) (name : list Z) (start load size : Z) (c : cpu) (m : bytes) (d : B) :
  boot_device B polls acks ->
  guest_config name_fuel ns g name m -> guest_image ns g start load size m -> is_u32 (scr c) ->
  layout soc_ram ns sp ->
  exists c' m' d',
    ltzvisor_nsguest_create polls name_fuel stale ns g (Machine c (Soc m d)) =
      Ok TRUE (Machine c' (Soc m' d')) /\
    forall c2 (w2 : soc B),
      s_yields ns sp c2 -> peek_words ns 30 w2 = peek_words ns 30 (Soc m' d') ->
      exists c3 w3,
        mon_smc_handler sys_spsr clobbered board_handler (Machine (in_monitor c2) w2) =
          Ok tt (Machine c3 w3) /\
        ns_bit c3 = true /\ pc c3 = load /\ cmode c3 = SUPERVISOR_MODE /\
        Z.land (cflags c3) 0xC0 = 0x80 /\ (forall n, (n < 15)%nat -> rget n c3 = 0) /\
        (forall x, soc_ram x -> x < sp \/ sp + 128 <= x -> peek x w3 = peek x w2).
Proof.
  intros HB Hg Hi HSC Hl. destruct c as [R SP md F SC CP PC]. cbn [scr] in *.
  destruct (create_run polls acks name_fuel stale ns HB g name start load size R SP md F SC CP PC m d
              Hg Hi HSC) as (R' & PC' & m' & d' & E & HR & HM).
  do 3 eexists. split; [exact E|]. clear E. intros c2 w2 [Hsp Hctx H0] HW.
  pose proof (gc_struct _ _ _ _ _ Hg) as (Hs0 & Hs1 & Hs2).
  rewrite (words_at_peek ns 30 m' d'), (gm_core _ _ _ _ _ _ _ _ HM) in HW;
    [|apply HM|lia|lia|done].
  rewrite smc_sched by done.
  destruct (mon_scheduler_run sys_spsr soc_ram (regs (in_monitor c2)) (spsr (in_monitor c2))
              (cflags (in_monitor c2)) (scr c2) (cp15 c2) (pc c2) w2 ns sp (guest_core load)
              SUPERVISOR_MODE Hl Hsp Hctx HW eq_refl)
    as (R3 & SP3 & w3 & E3 & HC & _ & _ & _ & _ & HK & _).
  do 2 eexists. split; [exact E3|]. cbn [pc cmode cflags].
  split; [apply scr_to_ns_ns|]. split; [reflexivity|]. split; [reflexivity|].
  split; [reflexivity|]. split; [|exact HK].
  intros n Hn. unfold rget. cbn [regs cmode].
  unfold core_words, guest_core in HC. cbn [fmap list_fmap app replicate regs spsr nth] in HC.
  injection HC as HC.
  do 15 (destruct n as [|n]; [assumption|]). lia.
Qed.

Ltac say_next HB :=
  match goal with
  | |- context [(c_say ?p ?st ?fmt ?args ≫= ?k) (Machine ?c (Soc ?m ?d))] =>
      let d' := fresh "d" in let E := fresh in
      destruct (c_say_run p _ st HB fmt args k c m d ltac:(vm_compute; reflexivity)) as (d' & E);
      rewrite E; clear E
  end.

Lemma hang_after {S} (m : M S unit) (s : S) :
  (m ≫= fun _ => (hang : M S unit) ≫= fun _ => (hang : M S unit)) s =
  (m ≫= fun _ => (hang : M S unit)) s.
Proof. unfold mbind, M_bind. by destruct (m s). Qed.

(** C16: [ltzvisor_main] starts the guests only on initialised hardware.  If the
    hardware initialisation fails it stops for ever with the processor and
    memory as they were; if it succeeds, the guest is created and the secure
    guest's [main] is called, in Supervisor mode of the secure world with both
    interrupts masked and the non-secure guest's context in place. *)
Theorem main_starts_guests {B} `{Bus B} (polls acks name_fuel : nat) (stale : list Z -> Z)
    (ns stack g : Z) (name : list Z) (start load size : Z) (main : M (machine (soc B)) unit)
    (c : cpu) (w : soc B) (ret : Z) (m : bytes) (d : B) :
  boot_device B polls acks -> ltzvisor_hw_init polls acks stale w = Ok ret (Soc m d) ->
  (ret = FALSE ->
   exists d', ltzvisor_main polls acks name_fuel stale ns stack g main (Machine c w) =
     Hang (Machine c (Soc m d'))) /\
  (ret = TRUE -> guest_config name_fuel ns g name m -> guest_image ns g start load size m ->
   is_u32 (scr c) ->
   exists c' m' d',
     ltzvisor_main polls acks name_fuel stale ns stack g main (Machine c w) =
       (main ;; hang) (Machine c' (Soc m' d')) /\
     guest_memory ns g name start load size m m' /\ cp15 c' false TPIDRPRW = ns /\
     ns_bit c' = false /\ cmode c' = SUPERVISOR_MODE /\ Z.land (cflags c') 0xC0 = 0xC0).
Proof.
  intros HB Eh. unfold ltzvisor_main, ltzvisor_init. rewrite (on_mem_run _ _ _ _ _ _ Eh).
  split; intros ->.
  - change (FALSE =? FALSE) with true. cbv iota.
    say_next HB. by eexists.
  - change (TRUE =? FALSE) with false. cbv iota. intros Hg Hi HSC.
    destruct c as [R SP md F SC CP PC]. cbn [scr] in *.
    say_next HB.
    match goal with |- context [Machine _ (Soc m ?d1)] =>
      destruct (create_run polls acks name_fuel stale ns HB g name start load size R SP md F SC CP PC
                  m d1 Hg Hi HSC) as (R' & PC' & m' & d' & E & HR & HM) end.
    rewrite (bind_ok _ _ _ _ _ E). clear E. change (TRUE =? FALSE) with false. cbv iota.
    say_next HB.
    say_next HB.
    say_next HB.
    unfold ltzvisor_kickoff, LTZVISOR_MON_EXIT. autounfold with arm_db.
    repeat istep (fun _ : Z => True).
    rewrite hang_after. do 3 eexists. split; [reflexivity|]. split; [exact HM|].
    cbn [cp15 cmode cflags scr]. split; [done|]. split; [apply bic32_ns|]. split; [done|].
    rewrite Z.land_lor_distr_l. unfold bic32. rewrite <- Z.land_assoc.
    change (Z.land (not32 255) 192) with 0. by rewrite Z.land_0_r.
Qed.

(** ** A guest of eight bytes

    Its configuration is at 0x1000, its image at 0x3000, its context at 0x2000;
    it is loaded at 0x100000. *)
Definition boot_mem : bytes :=
  put_word 0x3000 0x04030201 (put_word 0x3004 0x08070605
    (put_word 0x1000 0x6D76 (put_word 0x1034 0x3000 (put_word 0x103C 0x3008
      (put_word 0x1040 0x100000 ∅))))).

Lemma boot_mem_ok : bytes_ok boot_mem.
Proof. unfold boot_mem. repeat apply put_word_ok. intros x. by vm_compute. Qed.

Lemma boot_config : guest_config 10 0x2000 0x1000 [118; 109] boot_mem.
Proof.
  constructor; [exact boot_mem_ok|unfold DEVICES; split_and!; [lia|lia|done]|lia| |cbn; lia|].
  - split; [repeat constructor; lia|]. intros [|[|[|i]]] Hi; cbn in Hi; try lia; vm_compute; reflexivity.
  - vm_compute. reflexivity.
Qed.

Lemma boot_image : guest_image 0x2000 0x1000 0x3000 0x100000 8 boot_mem.
Proof.
  constructor; try lia; try (vm_compute; reflexivity). unfold forward_safe. lia.
Qed.

Definition boot_cpu : cpu :=
  Cpu (fun _ _ => 0) (fun _ => 0) MONITOR_MODE 0x1C0 0 (fun _ _ => 0) 0.

Lemma nsguest_create_ready_witness :
  exists c' m' d',
    ltzvisor_nsguest_create 1 10 (fun _ => 0) 0x2000 0x1000 (Machine boot_cpu (Soc boot_mem zynq_reset)) =
      Ok TRUE (Machine c' (Soc m' d')) /\
    byte_at 0x100007 m' = 8 /\ cp15_view true (cp15 c') SCTLR = 0x00c50078.
Proof.
  assert (HSC : is_u32 (scr boot_cpu)) by (unfold is_u32; cbn; lia).
  destruct (nsguest_create_ready 1 1 10 (fun _ => 0) 0x2000 0x1000 [118; 109] 0x3000 0x100000 8
              boot_cpu boot_mem zynq_reset zynq_boot boot_config boot_image HSC)
    as (c' & m' & d' & E & HM & HC & _).
  exists c', m', d'. split; [exact E|]. split.
  - refine (eq_trans (gm_image _ _ _ _ _ _ _ _ HM 7 _) _); [lia|]. vm_compute. reflexivity.
  - exact (HC 1%nat SCTLR eq_refl).
Defined.

Lemma boot_layout : layout soc_ram 0x2000 0x8000.
Proof.
  constructor; unfold ram_at, soc_ram, DEVICES; try lia; split_and!; try lia; intros i Hi;
    split; try lia; Z.div_mod_to_equations; lia.
Qed.

(** The secure guest yields: the context pointer in its TPIDRPRW, the call
    number in r0. *)
Definition boot_yield : cpu :=
  Cpu (fun b n => match b, n with Mon, 13%nat => 0x8080 | Usr, 0%nat => LTZVISOR_SCHED_SYSCALL | _, _ => 7 end)
    (fun _ => 0) SUPERVISOR_MODE 0xC0 0 (fun _ r => match r with TPIDRPRW => 0x2000 | _ => 0 end) 0x40000.

Lemma first_schedule_enters_guest_witness :
  exists w2 c3 w3,
    mon_smc_handler (fun _ => 0) (fun _ _ => 0) board_handler
      (Machine (in_monitor boot_yield) (w2 : soc zynq_dev)) = Ok tt (Machine c3 w3) /\
    pc c3 = 0x100000 /\ ns_bit c3 = true.
Proof.
  assert (HSC : is_u32 (scr boot_cpu)) by (unfold is_u32; cbn; lia).
  destruct (first_schedule_enters_guest 1 1 10 (fun _ => 0) (fun _ => 0) (fun _ _ => 0)
              0x2000 0x1000 0x8000 [118; 109] 0x3000 0x100000 8
              boot_cpu boot_mem zynq_reset zynq_boot boot_config boot_image HSC boot_layout)
    as (c' & m' & d' & _ & H).
  destruct (H boot_yield (Soc m' d')) as (c3 & w3 & E & Hns & Hpc & _); [by constructor|done|].
  exists (Soc m' d'), c3, w3. exact (conj E (conj Hpc Hns)).
Defined.

Lemma hw_demo :
  exists d, ltzvisor_hw_init 1 1 (fun _ => 0) (Soc boot_mem zynq_reset) = Ok TRUE (Soc boot_mem d).
Proof. eexists. vm_compute. reflexivity. Qed.

Lemma main_starts_guests_witness :
  exists c' m' d',
    ltzvisor_main 1 1 10 (fun _ => 0) 0x2000 0x6000 0x1000 (mret tt)
      (Machine boot_cpu (Soc boot_mem zynq_reset)) = Hang (Machine c' (Soc m' d')) /\
    cmode c' = SUPERVISOR_MODE.
Proof.
  assert (HSC : is_u32 (scr boot_cpu)) by (unfold is_u32; cbn; lia).
  destruct hw_demo as [d Eh].
  destruct (main_starts_guests 1 1 10 (fun _ => 0) 0x2000 0x6000 0x1000 [118; 109] 0x3000 0x100000 8
              (mret tt) boot_cpu (Soc boot_mem zynq_reset) TRUE boot_mem d zynq_boot Eh) as [_ H].
  destruct (H eq_refl boot_config boot_image HSC) as (c' & m' & d' & E & _ & _ & _ & Hm & _).
  exists c', m', d'. exact (conj E Hm).
Defined.
