(* ===== verification/SGuest.v ===== *)
(** * The secure guest ([s_guest/BareApp])

    The bare application that runs in the secure world: it publishes the bytes
    the SPI controller received in a word of memory the non-secure world reads,
    one byte a turn, and yields in between. *)
From Stdlib Require Import Ascii String.
From S2P Require Import Prelude Bus CString Ttc Spi Gic Arm Monitor WorldSwitch.
From S2P Require Import Handlers Worlds Uart Printk Board Soc Core.

Local Open Scope Z_scope.

(** ** Hardware set-up ([portable/hw_zynq.c]) *)
Section hw_zynq.
Context {S : Type} `{Bus S}.
Variable cfg : ttc_cfg.

Definition hw_init : M S unit :=
  _ ← ttc_init cfg TTC0 TTCx_2 INTERVAL;
  interrupt_enable TTC0_TTCx_2_INTERRUPT TRUE ;;
  interrupt_target_set TTC0_TTCx_2_INTERRUPT 0 1 ;;
  _ ← interrupt_priority_set TTC0_TTCx_2_INTERRUPT 5;
  interrupt_enable SPI_1_INTERRUPT TRUE ;;
  interrupt_target_set SPI_1_INTERRUPT 0 1 ;;
  _ ← interrupt_priority_set SPI_1_INTERRUPT 4;
  mret tt.

Definition hw_init_2 : M S unit :=
  _ ← ttc_init cfg TTC1 TTCx_1 INTERVAL;
  interrupt_enable TTC1_TTCx_1_INTERRUPT TRUE ;;
  interrupt_target_set TTC1_TTCx_1_INTERRUPT 0 1 ;;
  _ ← interrupt_priority_set TTC1_TTCx_1_INTERRUPT 2;
  mret tt.

Definition tick_set (time : Z) : M S Z :=
  ret ← ttc_request cfg TTC0 TTCx_2 time;
  _ ← ttc_enable TTC0 TTCx_2;
  mret ret.

Definition tick_set_2 (time : Z) : M S Z :=
  ret ← ttc_request cfg TTC1 TTCx_1 time;
  _ ← ttc_enable TTC1 TTCx_1;
  mret ret.

Definition time_of_timer_1 : M S Z := read_ttc TTC1 TTCx_2.

(** [now = 0; while (now < 630) now = time_of_timer_1();] *)
Fixpoint wait_until_20ms (fuel : nat) (now : Z) : M S unit :=
  match fuel with
  | O => no_fuel
  | Datatypes.S f =>
      if now <? 630 then now ← time_of_timer_1; wait_until_20ms f now else mret tt
  end.
End hw_zynq.

(** ** Exceptions of the secure guest ([portable/s_isr.c], [portable/s_handlers.S])

    No handler is ever registered. *)
Definition sfiq_handlers {S} : list (option (Z -> M S unit)) :=
  replicate (Z.to_nat NO_OF_INTERRUPTS_IMPLEMENTED) None.

Definition sFIQ_handler {S} (handlers : list (option (Z -> M S unit))) (interrupt : Z) : M S unit :=
  match handlers !! Z.to_nat interrupt with
  | Some (Some h) => h interrupt
  | Some None => mret tt
  | None => undef
  end.

(** The address the guest shares with the non-secure world. *)
Definition sensor_data : Z := 0x100000 + 0x61A80.

(** ** The application ([blink.c]) *)
Section blink.
Context {B : Type} `{Bus B}.
Variable cfg : ttc_cfg.
Variable polls : nat.
Variable stale : list Z -> Z.
(** Address of the local variable [lsb]; the world call. *)
Variable lsb : Z.
#[local] Abbreviation SM := (M (machine (soc (spi_world B)))).
Variable smc : SM unit.

(** The drivers' operations, beside memory. *)
Definition on_io {A} (f : M (spi_world B) A) : M (soc (spi_world B)) A := fun w =>
  match f (io w) with
  | Ok a d => Ok a (Soc (ram w) d)
  | Hang d => Hang (Soc (ram w) d)
  | Undef => Undef
  | NoFuel => NoFuel
  end.
Definition c_io {A} (f : M (spi_world B) A) : SM A := on_mem (on_io f).

Definition YIELD : SM unit := mov_imm 0 0x0ffffff1 ;; smc.

(** [yield] of s_handlers.S. *)
Definition yield : SM unit := mov_imm 0 LTZVISOR_SCHED_SYSCALL ;; smc ;; bx 14.

(** [SPI1_ReadData(&v)] with [v] at [a]. *)
Definition read_data (a : Z) : SM Z :=
  '(ret, data) ← c_io SPI1_ReadData;
  match data with Some v => c_ram (store8 a v) | None => mret tt end ;;
  mret ret.

Definition main_init : SM unit :=
  c_say polls stale (chars "Secure guest running, address %x" ++ [10]) [VInt sensor_data] ;;
  c_io (hw_init cfg) ;;
  _ ← c_io (tick_set cfg 1000000);
  c_io SPI_1_Reset ;;
  c_io SPI_1_ClockEnable ;;
  c_io SPI_1_SignalRoute ;;
  c_io SPI_1_Config ;;
  c_io SPI_1_Enable ;;
  c_ram (store8 lsb 0).

(** One turn of the endless loop.  The counter [i] is never read. *)
Definition main_turn : SM unit :=
  _ ← c_io (SPI1_SendData 0xbc);
  _ ← read_data lsb;
  _ ← c_ram (memcpy sensor_data lsb 1);
  v ← c_ram (load32 sensor_data);
  c_say polls stale (chars "value %d" ++ [10]) [VInt v] ;;
  YIELD.

(** [while (1)]: the state after any number of turns. *)
Fixpoint main_turns (n : nat) : SM unit :=
  match n with
  | O => mret tt
  | Datatypes.S n' => main_turn ;; main_turns n'
  end.
Definition main (turns : nat) : SM unit := main_init ;; main_turns turns.

(** [test], which nothing calls; [recv] is a local of its own. *)
Definition test (recv : Z) : SM unit :=
  _ ← c_io (SPI1_SendData 0xbc);
  _ ← read_data recv;
  YIELD.
End blink.

(** ** Runs *)
Section turns.
Context {B : Type} `{Bus B}.
Variable polls : nat.
Variable stale : list Z -> Z.
Variable lsb : Z.
Hypothesis Hroom : forall d : B, room_within polls 1 d.
#[local] Abbreviation TW := (spi_world (traced B)).
#[local] Abbreviation SM := (M (machine (soc TW))).

Lemma spi_room (w : TW) : room_within polls 1 w.
Proof.
  apply (room_through (fun w : TW => tr_state (dev w))); [| |apply Hroom].
  - intros s. rewrite spi_world_peek. unfold peek. cbn. by destruct (bus_rd _ (tr_state (dev s))).
  - intros s. rewrite spi_world_after_rd. unfold after_rd. cbn.
    by destruct (bus_rd _ (tr_state (dev s))).
Qed.

Lemma c_io_run {A C} (f : M TW A) (k : A -> SM C) c m d a d' :
  f d = Ok a d' -> (c_io f ≫= k) (Machine c (Soc m d)) = k a (Machine c (Soc m d')).
Proof. intros E. unfold c_io. apply on_mem_run. unfold on_io. cbn. by rewrite E. Qed.

(** A driver operation that leaves the ring alone; a message. *)
Lemma quiet_io_run {A C} (f : M TW A) (k : A -> SM C) c m d :
  quiet f ->
  exists a d', (c_io f ≫= k) (Machine c (Soc m d)) = k a (Machine c (Soc m d')) /\ same_ring d d'.
Proof.
  intros Hf. destruct (Hf d) as (a & d' & E & S). exists a, d'. split; [|done].
  by apply c_io_run.
Qed.

Lemma say_same_ring {C} fmt args (k : unit -> SM C) c m d :
  fits fmt args = true ->
  exists d', (c_say polls stale fmt args ≫= k) (Machine c (Soc m d)) =
    k tt (Machine c (Soc m d')) /\ same_ring d d'.
Proof.
  intros Hf. destruct (c_say_replay polls stale fmt args k c m d spi_room Hf) as (l & Hl & E).
  exists (replay l d). split; [exact E|]. apply replay_same_ring. intros x Hx.
  unfold uart_accesses in Hl. rewrite Forall_forall in Hl. specialize (Hl x Hx).
  by destruct x; destruct Hl as [-> | ->]; vm_compute.
Qed.

(** *** One turn *)

(** The state in which the guest calls the monitor. *)
Definition with_call (c : cpu) : cpu := rset 0 LTZVISOR_SCHED_SYSCALL c.

(** [m'] is [m] but for the byte [v] at [lsb] and in the shared word. *)
Definition byte_published (v : Z) (m m' : bytes) : Prop :=
  bytes_ok m' /\ byte_at sensor_data m' = v /\ byte_at lsb m' = v /\
  forall x, x <> sensor_data -> x <> lsb -> byte_at x m' = byte_at x m.

(** [d'] continues [d] without taking a byte from the FIFO, its ring holds [q]. *)
Definition ring_now (q : list Z) (d d' : TW) : Prop :=
  ring_ok d' /\ ring d' = q /\
  exists new, tr_log (dev d') = tr_log (dev d) ++ new /\ rxd_bytes new = [].

(** The byte a turn publishes. *)
Definition next_byte (last : Z) (q : list Z) : Z := u8 (hd last q).

Lemma ring_now_same d d1 d2 q : ring_now q d d1 -> same_ring d1 d2 -> ring_now q d d2.
Proof.
  intros (Hok & Hq & n & Hl & Hn) S. destruct (same_ring_eq _ _ S) as [Hr Hok'].
  destruct S as (e & n' & -> & L & E). split; [auto|]. split; [congruence|].
  exists (n ++ n'). cbn. split; [by rewrite L, Hl, app_assoc|].
  unfold rxd_bytes in *. by rewrite omap_app, Hn, E.
Qed.

Lemma read_data_run {C} (k : Z -> SM C) c m d d1 :
  bytes_ok m -> ring_ok d -> same_ring d d1 ->
  exists r m' d2,
    (read_data lsb ≫= k) (Machine c (Soc m d1)) = k r (Machine c (Soc m' d2)) /\
    bytes_ok m' /\ byte_at lsb m' = next_byte (byte_at lsb m) (ring d) /\
    (forall x, x <> lsb -> byte_at x m' = byte_at x m) /\ ring_now (tail (ring d)) d d2.
Proof.
  intros Hm Hok S. destruct (same_ring_eq _ _ S) as [Hr Hok1].
  destruct (SPI1_ReadData_run d1 (Hok1 Hok)) as (d2 & n & E & Hok2 & Hr2 & Hl & Hn).
  rewrite Hr in *.
  assert (Hd : ring_now (tail (ring d)) d d2).
  { split; [done|]. split; [done|]. destruct S as (e & n' & -> & L & E'). exists (n' ++ n). cbn in Hl.
    split; [by rewrite Hl, L, app_assoc|]. unfold rxd_bytes in *. by rewrite omap_app, E', Hn. }
  unfold read_data, next_byte. destruct (ring d) as [|v q]; rewrite bind_assoc, (c_io_run _ _ c m d1 _ _ E); cbv iota; cbn [hd].
  - exists 0, m, d2. rewrite bytes_ok_u8 by done. done.
  - exists 1, (<[lsb := u8 v]> (m : gmap Z Z)), d2. split_and!; [|by apply bytes_ok_store| | |done].
    + by rewrite bind_assoc, (c_ram_run _ _ c m d2 tt (<[lsb := u8 v]> (m : gmap Z Z))).
    + rewrite byte_at_store. by destruct (decide _).
    + intros x Hx. rewrite byte_at_store. destruct (decide _); congruence.
Qed.

Lemma quiet_send data : quiet (B := B) (SPI1_SendData data).
Proof. unfold SPI1_SendData. repeat queues_step. Qed.

(** A word whose top byte is not 0x80 is not the smallest integer. *)
Lemma word_not_min a m :
  bytes_ok m -> byte_at (a + 3) m <> 0x80 -> s32 (word_at a m) <> - 2 ^ 31.
Proof.
  intros Hm Hb. assert (Hu := word_at_u32 a m Hm). unfold s32. rewrite u32_small by done.
  unfold is_u32 in Hu. destruct (Z.ltb_spec (word_at a m) (2 ^ 31)); [lia|].
  intros E. apply Hb. unfold word_at in *.
  pose proof (Hm a). pose proof (Hm (a + 1)). pose proof (Hm (a + 2)). pose proof (Hm (a + 3)).
  unfold is_u8 in *. rewrite !Z.shiftl_mul_pow2 in * by lia.
  change (2 ^ 8) with 256 in *. change (2 ^ 16) with 65536 in *. change (2 ^ 24) with 16777216 in *.
  lia.
Qed.

Lemma publish_run {C} (k : Z -> SM C) c m (d : TW) :
  bytes_ok m ->
  exists m',
    (c_ram (memcpy sensor_data lsb 1) ≫= k) (Machine c (Soc m d)) =
      k sensor_data (Machine c (Soc m' d)) /\ bytes_ok m' /\
    byte_at sensor_data m' = byte_at lsb m /\
    forall x, x <> sensor_data -> byte_at x m' = byte_at x m.
Proof.
  intros Hm. destruct (memcpy_run sensor_data lsb 1 m Hm) as (m' & E & Hm' & Hx);
    [lia|unfold forward_safe; lia|].
  exists m'. split; [by apply c_ram_run|]. split; [done|]. split.
  - rewrite Hx. destruct (decide _); [|lia]. f_equal. lia.
  - intros x Hne. rewrite Hx. destruct (decide _); [lia|done].
Qed.

Lemma main_turn_run (smc : SM unit) c m d :
  bytes_ok m -> ring_ok d -> lsb < sensor_data \/ sensor_data + 4 <= lsb ->
  byte_at (sensor_data + 3) m <> 0x80 ->
  exists m' d',
    main_turn polls stale lsb smc (Machine c (Soc m d)) = smc (Machine (with_call c) (Soc m' d')) /\
    byte_published (next_byte (byte_at lsb m) (ring d)) m m' /\ ring_now (tail (ring d)) d d'.
Proof.
  intros Hm Hok Hlsb Htop. unfold main_turn.
  match goal with |- context [(c_io (SPI1_SendData ?v) ≫= ?k) _] =>
    destruct (quiet_io_run (SPI1_SendData v) k c m d (quiet_send v)) as (a & d1 & E & S1);
    rewrite E; clear E end.
  match goal with |- context [(read_data lsb ≫= ?k) _] =>
    destruct (read_data_run k c m d d1 Hm Hok S1) as (r & m1 & d2 & E & Hm1 & Hv & Hk1 & Hd2);
    rewrite E; clear E end.
  match goal with |- context [(c_ram (memcpy _ _ _) ≫= ?k) _] =>
    destruct (publish_run k c m1 d2 Hm1) as (m2 & E & Hm2 & Hp & Hk2); rewrite E; clear E end.
  rewrite (c_ram_run _ _ c m2 d2 (word_at sensor_data m2) m2) by (by apply load32_run).
  assert (Hmin : s32 (word_at sensor_data m2) <> - 2 ^ 31).
  { apply word_not_min; [done|]. rewrite Hk2, Hk1 by lia. done. }
  match goal with |- context [(c_say _ _ ?f ?l ≫= ?k) _] =>
    destruct (say_same_ring f l k c m2 d2) as (d3 & E & S3); [|rewrite E; clear E] end.
  { unfold fits. cbn -[s32 Z.pow]. by destruct (Z.eqb_spec (s32 (word_at sensor_data m2)) (- 2 ^ 31)). }
  exists m2, d3. split; [reflexivity|]. split; [|by eapply ring_now_same].
  split; [done|]. split; [by rewrite Hp|]. split; [rewrite Hk2 by lia; done|].
  intros x Hx Hl. by rewrite Hk2, Hk1.
Qed.
End turns.

(** ** A turn, the non-secure world, the next turn *)
Section rounds.
Context {B : Type} `{Bus B}.
Variable cfg : ttc_cfg.
Variables lsb ctx sp interrupt_addr iar : Z.
Variable D : B -> Prop.
#[local] Abbreviation TW := (spi_world (traced B)).

(** The words the world switch uses. *)
Definition switch_word (a : Z) : Prop :=
  soc_ram a /\ (ctx <= a < ctx + 120 \/ sp <= a < sp + 128 \/ a = interrupt_addr).

#[export] Instance switch_storage : Storage (soc TW) switch_word.
Proof. apply (Storage_mono soc_ram); [by intros a []|apply _]. Qed.

Lemma switch_layout : layout soc_ram ctx sp -> layout switch_word ctx sp.
Proof.
  intros [(C0 & C1 & C) ? (S0 & S1 & S2) ? ?].
  constructor; try done; unfold ram_at; split_and!; try done; intros i Hi;
    (split; [by auto|lia]).
Qed.

Lemma switch_interrupt : interrupt_var interrupt_addr soc_ram ctx sp ->
  interrupt_var interrupt_addr switch_word ctx sp.
Proof. intros [? ? ? ?]. constructor; try done. split; [done|]. auto. Qed.

(** A byte the switch leaves alone. *)
Definition spared (x : Z) : Prop := forall a, switch_word a -> x < a \/ a + 4 <= x.

(** While the guest waits: the devices keep their promise, the ring grows by
    what the SPI controller delivers, [lsb] keeps its value. *)
Definition waiting (d0 : TW) (v : Z) (w : soc TW) : Prop :=
  D (tr_state (dev (io w))) /\ queued d0 (io w) /\ bytes_ok (ram w) /\ byte_at lsb (ram w) = v.

Hypothesis HD : board_device (fun _ => False) iar D.
Hypothesis Hlsb : spared lsb.

Lemma traced_device : board_device (B := traced B) (fun _ => False) iar (fun t => D (tr_state t)).
Proof.
  destruct HD as [_ _ Hiar Hw Hr Hi]. constructor; try done.
  - intros a v d Hne Hd. by apply Hw.
  - intros a d Hd. specialize (Hr a (tr_state d) Hd). unfold after_rd in *. cbn.
    by destruct (bus_rd a (tr_state d)).
  - intros d Hd. specialize (Hi _ Hd). unfold peek in *. cbn.
    by destruct (bus_rd iar (tr_state d)).
Qed.

Lemma waiting_stores d0 v : stores_keep switch_word (waiting d0 v).
Proof.
  intros a x w Ha (? & ? & Hok & Hv). unfold waiting. rewrite ram_bus_wr.
  destruct (soc_ram_bools a (proj1 Ha)) as [Em Ea]. cbn. rewrite Em, Ea. cbn.
  split_and!; [done|done|by apply put_word_ok|]. rewrite byte_at_put_word.
  destruct (decide _); [|done]. destruct (Hlsb a Ha); lia.
Qed.

Lemma waiting_reads d0 v w : waiting d0 v w -> waiting d0 v (after_rd iar w).
Proof.
  pose proof (bd_iar _ _ _ HD) as Hiar.
  intros (Hd & Hq & Hok & Hv). unfold waiting. rewrite ram_after_rd.
  rewrite (soc_io_after_rd iar w) by (unfold DEVICES; lia).
  rewrite spi_world_after_rd. split_and!; [|..|done|done].
  - cbn. by apply (bd_read _ _ _ traced_device).
  - apply (queued_trans _ _ _ Hq). rewrite <- spi_world_after_rd.
    apply same_ring_queued; [apply Hq|].
    destruct (quiet_read iar ltac:(unfold RXD; lia) (io w)) as (x & w' & E & S).
    rewrite read32_run in E. by apply ok_inj in E as [_ <-].
Qed.

Lemma waiting_run (f : M TW unit) d0 v w :
  stays (fun _ => False) (fun t => D (tr_state t)) f -> queues f -> waiting d0 v w ->
  exists w', on_io f w = Ok tt w' /\ keeps switch_word w w' /\ waiting d0 v w'.
Proof.
  intros Hs Hf (Hd & Hq & Hok & Hv). destruct (Hs (io w) Hd) as ([] & d' & E & Hd' & _).
  destruct (Hf (io w) (proj1 Hq)) as (u & d2 & E2 & Hq2).
  rewrite E in E2. apply ok_inj in E2 as [_ <-].
  exists (Soc (ram w) d'). unfold on_io. rewrite E. split; [done|]. split.
  - intros x [Hx _]. by rewrite !peek_soc_ram.
  - split_and!; try done. by eapply queued_trans.
Qed.

Lemma queues_fiq irq : 0 <= irq < 96 -> queues (B := B) (fiq_handler cfg irq).
Proof.
  intros Hi. unfold fiq_handler, ttc_interrupt_clear, SPI_1_irq_handler, clear_status.
  rewrite fiq_handlers_lookup by done.
  destruct (ttc_of_interrupt irq) as [[t k]|] eqn:E.
  - apply ttc_of_interrupt_range in E as [Ht Hk]. rewrite ttc_at_eq by done. cbn [ld].
    repeat queues_step. apply queues_quiet, quiet_read.
    unfold RXD, ttc_base, TTC0_BASE, TTC1_BASE, ttc_off. destruct (t =? 0); lia.
  - destruct (irq =? SPI_1_INTERRUPT); [|apply queues_ret]. repeat queues_step.
Qed.

Lemma queues_clear irq target : queues (B := B) (interrupt_clear irq target).
Proof.
  unfold interrupt_clear. rewrite cpu_inter_eq. cbn [st]. apply queues_quiet, quiet_write.
Qed.

(** The handlers run beside the guest's memory. *)
Lemma waiting_handlers d0 v :
  handlers_ok (fun irq => on_io (fiq_handler cfg irq)) (fun irq t => on_io (interrupt_clear irq t))
    switch_word iar (waiting d0 v) (fun irq => 0 <= irq < 96).
Proof.
  constructor.
  - constructor; [apply waiting_stores|intros; by apply waiting_reads].
  - intros w (Hd & _). pose proof (bd_iar _ _ _ HD).
    rewrite soc_peek_device by (unfold DEVICES; lia). rewrite spi_world_peek.
    by apply (bd_irq _ _ _ traced_device).
  - intros irq w Hi Hw. apply waiting_run; [by apply (stays_fiq_handler _ _ _ traced_device)|
      by apply queues_fiq|done].
  - intros irq w Hi Hw. apply waiting_run; [by apply (stays_interrupt_clear _ _ _ traced_device)|
      by apply queues_clear|done].
Qed.
End rounds.

(** *** The round *)
Section round.
Context {B : Type} `{Bus B}.
Variable cfg : ttc_cfg.
Variables lsb ctx sp interrupt_addr iar : Z.
Variable polls : nat.
Variable stale : list Z -> Z.
Variable sys_spsr : cpu -> Z.
Variable clobbered : nat -> cpu -> Z.
Variable board_handler : Z -> Z -> Z -> Z -> M (soc (spi_world (traced B))) Z.
Variable D : B -> Prop.
#[local] Abbreviation TW := (spi_world (traced B)).

(** What the rest of the system promises: memory for the switch, apart from
    the guest's variable and the shared word; the board's devices. *)
Record system : Prop := {
  sys_layout : layout soc_ram ctx sp;
  sys_interrupt : interrupt_var interrupt_addr soc_ram ctx sp;
  sys_lsb : spared ctx sp interrupt_addr lsb;
  sys_shared : spared ctx sp interrupt_addr sensor_data;
  sys_apart : lsb < sensor_data \/ sensor_data + 4 <= lsb;
  sys_device : board_device (fun _ => False) iar D;
  sys_room : forall d : B, room_within polls 1 d;
}.

(** The guest at the top of its loop. *)
Record turning (c : cpu) (w : soc TW) : Prop := {
  tn_cpu : cpu_ok c;
  tn_sp : regs c Mon 13%nat = sp + 128;
  tn_ctx : cp15 c (ns_bit c) TPIDRPRW = ctx;
  tn_bytes : bytes_ok (ram w);
  tn_ring : ring_ok (io w);
  tn_top : byte_at (sensor_data + 3) (ram w) <> 0x80;
}.

(** The non-secure world ran from [w] to [w']: it left the monitor's frame and
    the secure guest's memory and driver alone. *)
Record ns_ran (w : soc TW) (c' : cpu) (w' : soc TW) : Prop := {
  nr_cpu : cpu_ok c';
  nr_iar : iar_addr (cp15 c') = iar;
  nr_sp : regs c' Mon 13%nat = sp + 28;
  nr_ctx : cp15 c' false TPIDRPRW = ctx;
  nr_frame : peek_words (sp + 28) 25 w' = peek_words (sp + 28) 25 w;
  nr_bytes : bytes_ok (ram w');
  nr_lsb : byte_at lsb (ram w') = byte_at lsb (ram w);
  nr_ring : same_ring (io w) (io w');
  nr_device : D (tr_state (dev (io w')));
}.

#[local] Abbreviation turn smc := (main_turn (B := traced B) polls stale lsb smc).
#[local] Abbreviation smc_handler := (mon_smc_handler sys_spsr clobbered board_handler).
#[local] Abbreviation fiq := (mon_fiq_handler sys_spsr clobbered interrupt_addr
  (fun irq => on_io (fiq_handler cfg irq)) (fun irq t => on_io (interrupt_clear irq t))).

Lemma with_call_ok c : cpu_ok c -> cpu_ok (with_call c).
Proof.
  intros [Hr Hs Hf Hl Hp]. constructor; try done. intros b n. unfold with_call, rset.
  cbn [set_regs regs]. reg_lookup; [done|apply Hr].
Qed.

Lemma with_call_regs c :
  regs (with_call c) Usr 0%nat = LTZVISOR_SCHED_SYSCALL /\
  (forall b n, (b, n) <> (Usr, 0%nat) -> regs (with_call c) b n = regs c b n).
Proof.
  split.
  - unfold with_call, rset. cbn [set_regs regs].
    change (reg_bank (cmode c) 0) with Usr. apply upd_reg_eq.
  - intros b n Hn. unfold with_call, rset. cbn [set_regs regs].
    change (reg_bank (cmode c) 0) with Usr. by apply upd_reg_ne.
Qed.

Lemma published_word a v m m' :
  system -> switch_word ctx sp interrupt_addr a -> byte_published lsb v m m' ->
  word_at a m' = word_at a m.
Proof.
  intros Hsys Ha (_ & _ & _ & Hx). apply word_at_ext. intros x Hr.
  apply Hx; intros ->; [destruct (sys_shared Hsys a Ha)|destruct (sys_lsb Hsys a Ha)]; lia.
Qed.

Lemma context_mode m m2 d2 v md :
  system -> byte_published lsb v m m2 -> decode_mode (word_at (ctx + 52) m) = Some md ->
  decode_mode (nth 13 (peek_words ctx 30 (Soc m2 (d2 : TW))) 0) = Some md.
Proof.
  intros Hsys Hp Hmd.
  assert (Hw : switch_word ctx sp interrupt_addr (ctx + 4 * 13)).
  { destruct (sys_layout Hsys) as [(? & ? & C) _ _ _ _]. split; [apply C|]; lia. }
  rewrite (nth_lookup_Some _ _ _ _ (peek_words_lookup ctx 30 13 (Soc m2 d2) ltac:(lia))).
  rewrite peek_soc_ram by apply Hw. cbn [ram]. change (Z.of_nat 13) with 13.
  rewrite (published_word _ _ m m2 Hsys Hw Hp), u32_small; [done|].
  rewrite <- (published_word _ _ m m2 Hsys Hw Hp). by apply word_at_u32, Hp.
Qed.

(** C3: a byte the SPI controller receives while the non-secure world runs
    reaches the word the worlds share.  A turn of the secure guest publishes
    the oldest queued byte, or the last one again, and calls the monitor with
    the SCHED number; the monitor enters the non-secure world; when a fast
    interrupt stops that world - whatever it did, short of the monitor's frame
    and the secure guest's memory and driver - the guest continues after its
    call with its registers, and its next turn publishes the head of what was
    queued followed by what the controller delivered, at most 127 bytes. *)
Theorem received_byte_published (smc : M (machine (soc TW)) unit) (c : cpu) (m : bytes) (d : TW)
    (md : mode) :
  system -> turning c (Soc m d) -> decode_mode (word_at (ctx + 52) m) = Some md ->
  exists m2 d2 c3 w3,
    turn smc (Machine c (Soc m d)) = smc (Machine (with_call c) (Soc m2 d2)) /\
    byte_at sensor_data m2 = next_byte (byte_at lsb m) (ring d) /\
    smc_handler (Machine (in_monitor (with_call c)) (Soc m2 d2)) = Ok tt (Machine c3 w3) /\
    cmode c3 = md /\ ns_bit c3 = true /\ bytes_ok (ram w3) /\
    forall c4 w4, ns_ran w3 c4 w4 ->
      exists c5 m5 d5 new,
        fiq (Machine (in_monitor c4) w4) = Ok tt (Machine c5 (Soc m5 d5)) /\
        pc c5 = add32 (pc c) 4 /\ cmode c5 = cmode c /\ ns_bit c5 = false /\
        (forall n, (1 <= n < 15)%nat -> regs c5 Usr n = regs c Usr n) /\
        tr_log (dev d5) = tr_log (dev d) ++ new /\
        (byte_at (sensor_data + 3) m5 <> 0x80 ->
         exists m6 d6,
           turn smc (Machine c5 (Soc m5 d5)) = smc (Machine (with_call c5) (Soc m6 d6)) /\
           byte_at sensor_data m6 =
             next_byte (byte_at sensor_data m2) (take 127 (tail (ring d) ++ rxd_bytes new))).
Proof.
  intros Hsys [Hc Hsp Hctx Hm Hok Htop] Hmd. cbn [ram io] in *.
  destruct (main_turn_run polls stale lsb (sys_room Hsys) smc c m d Hm Hok (sys_apart Hsys) Htop)
    as (m2 & d2 & E & Hp & Hok2 & Hr2 & n2 & L2 & N2).
  destruct (with_call_regs c) as [H0 Hne]. set (v := byte_at lsb m2).
  pose proof (switch_layout ctx sp interrupt_addr (sys_layout Hsys)) as Hl.
  pose proof (switch_interrupt ctx sp interrupt_addr (sys_interrupt Hsys)) as Hi.
  pose proof (waiting_handlers cfg lsb ctx sp interrupt_addr iar D (sys_device Hsys) (sys_lsb Hsys)
                d2 v) as Hh.
  assert (Hy : s_yields ctx sp (with_call c)) by (constructor; [by rewrite Hne|done|done]).
  destruct (secure_round_run sys_spsr clobbered interrupt_addr _ _ board_handler _ iar _ _ ctx sp
              (with_call c) (Soc m2 d2) md Hl Hi Hh (with_call_ok c Hc) Hy
              (context_mode m m2 d2 _ md Hsys Hp Hmd))
    as (c3 & w3 & E3 & [Hm3 Hns3] & HV & H5).
  exists m2, d2, c3, w3. split; [exact E|]. split; [apply Hp|]. split; [exact E3|].
  split; [exact Hm3|]. split; [exact Hns3|].
  assert (H3 : io w3 = d2 /\ byte_at lsb (ram w3) = v /\ bytes_ok (ram w3)).
  { refine (HV (fun w => io w = d2 /\ byte_at lsb (ram w) = v /\ bytes_ok (ram w)) _
              (conj eq_refl (conj eq_refl (proj1 Hp)))).
    intros a x w Ha (Hio & Hv & Hmw). destruct (soc_ram_bools a (proj1 Ha)) as [Em Ea].
    rewrite ram_bus_wr. cbn. rewrite Em, Ea. cbn. split; [done|].
    split; [|by apply put_word_ok]. rewrite byte_at_put_word.
    destruct (decide _); [|done]. destruct (sys_lsb Hsys a Ha); lia. }
  destruct H3 as (Hio3 & Hv3 & Hm3'). split; [exact Hm3'|].
  intros c4 [m4 d4] [Hc4 Hiar Hsp4 Hctx4 Hfr Hm4 Hv4 Hr4 HD4].
  cbn [ram io] in *. rewrite Hio3 in Hr4. rewrite Hv3 in Hv4.
  destruct (H5 c4 (Soc m4 d4)) as (c5 & [m5 d5] & E5 & Hu & _ & Hm5 & Hpc & _ & _ & [_ Hns5] & _ & HI);
    [done| |done|].
  { constructor; [exact Hiar| |exact Hsp4|exact Hctx4].
    exact (conj HD4 (conj (same_ring_queued _ _ Hok2 Hr4) (conj Hm4 Hv4))). }
  destruct HI as (_ & (Hok5 & n5 & L5 & R5) & Hm5' & Hv5). cbn [ram io] in *.
  exists c5, m5, d5, (n2 ++ n5). split; [exact E5|].
  split; [exact Hpc|]. split; [exact Hm5|]. split; [exact Hns5|]. split; [|split].
  - intros n Hn. rewrite Hu, Hne by (lia || (intros [= ->]; lia)). done.
  - by rewrite L5, L2, app_assoc.
  - intros Ht5.
    destruct (main_turn_run polls stale lsb (sys_room Hsys) smc c5 m5 d5 Hm5' Hok5 (sys_apart Hsys) Ht5)
      as (m6 & d6 & E6 & Hp6 & _).
    exists m6, d6. split; [exact E6|].
    destruct Hp6 as (_ & -> & _), Hp as (_ & -> & Hl2 & _).
    rewrite Hv5, R5, Hr2. subst v. rewrite Hl2. unfold rxd_bytes in *. by rewrite omap_app, N2.
Qed.
End round.

(** ** A run

    A controller that delivers the bytes 21 to 26, its interrupt pending and the
    UART idle.  The layout of [Worlds.v]; [lsb] at 0x4000; the ring holds 9. *)
Record spi_dev : Type := SpiDev { sd_rx : list Z }.
#[export] Instance spi_dev_bus : Bus spi_dev := {
  bus_rd a d :=
    if a =? RXD then (hd 0 (sd_rx d), SpiDev (tl (sd_rx d)))
    else if a =? spi_addr sr_register then (0x10, d)
    else if a =? demo_iar then (SPI_1_INTERRUPT, d) else (0, d);
  bus_wr a v d := d;
}.

Definition demo_lsb : Z := 0x4000.
Definition demo_guest_mem : bytes :=
  put_word (demo_ctx + 52) 0x193 (put_word (demo_ctx + 56) 0x100000 ∅).
Definition demo_ring : spi_world (traced spi_dev) :=
  SpiWorld (Traced (SpiDev [21; 22; 23; 24; 25; 26]) []) (<[5%nat := 9]> (replicate 256 0)) 6 5.

Lemma demo_system : system demo_lsb demo_ctx demo_sp demo_int demo_iar 1 (fun _ : spi_dev => True).
Proof.
  constructor.
  - constructor; unfold ram_at, soc_ram, DEVICES, demo_ctx, demo_sp; try lia; split_and!; try lia;
      intros i Hi; split; try lia; Z.div_mod_to_equations; lia.
  - constructor; unfold is_u32, soc_ram, DEVICES, demo_int, demo_ctx, demo_sp; try lia.
    by split.
  - intros a [_ Ha]. unfold demo_lsb, demo_ctx, demo_sp, demo_int in *. lia.
  - intros a [_ Ha]. unfold sensor_data, demo_ctx, demo_sp, demo_int in *. lia.
  - left. unfold demo_lsb, sensor_data. lia.
  - by constructor.
  - intros d. left. by vm_compute.
Qed.

Definition demo_turn : M (machine (soc (spi_world (traced spi_dev)))) unit :=
  main_turn 1 (fun _ => 0) demo_lsb (mret tt).
Definition demo_schedule : M (machine (soc (spi_world (traced spi_dev)))) unit :=
  mon_smc_handler (fun _ => 0) (fun _ _ => 0) (fun _ _ _ _ => mret TRUE).
Definition demo_interrupt : M (machine (soc (spi_world (traced spi_dev)))) unit :=
  mon_fiq_handler (fun _ => 0) (fun _ _ => 0) demo_int
    (fun irq => on_io (fiq_handler zedboard_ttc irq)) (fun irq t => on_io (interrupt_clear irq t)).

Lemma demo_turning :
  turning demo_ctx demo_sp (demo_cpu false (demo_sp + 128)) (Soc demo_guest_mem demo_ring).
Proof.
  constructor; [exact demo_s_ok|done|done| |by vm_compute..].
  - unfold demo_guest_mem. cbn [ram]. repeat apply put_word_ok. intros x. by vm_compute.
Qed.

(** The queued 9 first; 21 arrives while the non-secure world runs. *)
Example round_publishes :
  match demo_turn (Machine (demo_cpu false (demo_sp + 128)) (Soc demo_guest_mem demo_ring)) with
  | Ok _ (Machine c2 w2) =>
      byte_at sensor_data (ram w2) = 9 /\
      match demo_schedule (Machine (in_monitor c2) w2) with
      | Ok _ (Machine c3 w3) =>
          match demo_interrupt (Machine (in_monitor (demo_cpu true (demo_sp + 28))) w3) with
          | Ok _ (Machine c5 w5) =>
              match demo_turn (Machine c5 w5) with
              | Ok _ (Machine c6 w6) => byte_at sensor_data (ram w6) = 21
              | _ => False
              end
          | _ => False
          end
      | _ => False
      end
  | _ => False
  end.
Proof. vm_compute. done. Qed.

Lemma received_byte_published_witness :
  exists m2 d2 c3 w3 c5 m5 d5 new,
    demo_turn (Machine (demo_cpu false (demo_sp + 128)) (Soc demo_guest_mem demo_ring)) =
      Ok tt (Machine (with_call (demo_cpu false (demo_sp + 128))) (Soc m2 d2)) /\
    byte_at sensor_data m2 = 9 /\
    demo_schedule (Machine (in_monitor (with_call (demo_cpu false (demo_sp + 128)))) (Soc m2 d2)) =
      Ok tt (Machine c3 w3) /\
    demo_interrupt (Machine (in_monitor (demo_cpu true (demo_sp + 28))) w3) =
      Ok tt (Machine c5 (Soc m5 d5)) /\
    pc c5 = 0x104 /\ tr_log (dev d5) = new.
Proof.
  destruct (received_byte_published zedboard_ttc demo_lsb demo_ctx demo_sp demo_int demo_iar 1
              (fun _ => 0) (fun _ => 0) (fun _ _ => 0) (fun _ _ _ _ => mret TRUE) (fun _ => True)
              (mret tt) (demo_cpu false (demo_sp + 128)) demo_guest_mem demo_ring SUPERVISOR_MODE
              demo_system demo_turning eq_refl)
    as (m2 & d2 & c3 & w3 & E & Hb & E3 & _ & _ & Hm3 & H5).
  destruct (H5 (demo_cpu true (demo_sp + 28)) w3) as (c5 & m5 & d5 & new & E5 & Hpc & _ & _ & _ & Hl & _).
  { refine (Build_ns_ran _ _ _ _ _ w3 _ w3 demo_ns_ok eq_refl eq_refl eq_refl eq_refl Hm3 eq_refl _ I).
    apply same_ring_refl. }
  exists m2, d2, c3, w3, c5, m5, d5, new.
  exact (conj E (conj Hb (conj E3 (conj E5 (conj Hpc Hl))))).
Defined.

(** ** Starting the guest *)

(** Evaluates the addresses of the drivers' registers. *)
Ltac reg_eval :=
  repeat match goal with
  | |- context [ttc_at ?t ?r ?k] =>
      let v := eval vm_compute in (ttc_at t r k) in change (ttc_at t r k) with v
  | |- context [int_dist ?r ?i] =>
      let v := eval vm_compute in (int_dist r i) in change (int_dist r i) with v
  end; cbn [ld st st_or].

(** What the start does to the devices: a register is stored to, or some of
    its bits are cleared and others set, in one load and one store. *)
Inductive setting : Type := Put (a v : Z) | Update (a clear set : Z).
Fixpoint follows (l : list setting) (log : list access) : Prop :=
  match l, log with
  | [], [] => True
  | Put a v :: l', Wr b w :: log' => b = a /\ w = v /\ follows l' log'
  | Update a clear set :: l', Rd b x :: Wr b' w :: log' =>
      b = a /\ b' = a /\ w = Z.lor (Z.ldiff x clear) set /\ follows l' log'
  | _, _ => False
  end.

(** The second timer of TTC0 in interval mode, off; its interrupt and the SPI
    controller's enabled for processor 0, of priorities 5 and 4. *)
Definition hw_init_settings (cfg : ttc_cfg) : list setting :=
  let timer := ttc_addr TTC0 TTCx_2 in
  [ Put (timer cnt_cntrl) 0x21; Update (timer clk_cntrl) 1 0; Put (timer cnt_cntrl) 0x33;
    Put (timer interv_cnt) (TTC_INT_VALUE cfg); Put (timer interrupt_en) 1;
    Put (dist_addr ICDISERx 1) (2 ^ 11); Update (dist_addr ICDIPTRx 10) 0 (2 ^ 24);
    Update (dist_addr ICDIPRx 10) 0xF0000000 0x50000000;
    Put (dist_addr ICDISERx 2) (2 ^ 17); Update (dist_addr ICDIPTRx 20) 0 (2 ^ 8);
    Update (dist_addr ICDIPRx 20) 0xF000 0x4000 ].
(** The timer asked for one second, and started. *)
Definition requested (cfg : ttc_cfg) (log : list access) : Prop :=
  exists c clk, log = snd (request_spec cfg TTC0 TTCx_2 1000000 c clk).
Definition enable_settings : list setting := [Update (ttc_addr TTC0 TTCx_2 cnt_cntrl) 1 0x10].
(** The SPI controller: reset, clock, pins, configuration, interrupt. *)
Definition pin_settings (pin sel io : Z) : list setting :=
  [Put pin MIO_RESET_VAL; Put pin sel; Update pin 0 io].
Definition reset_settings : list setting :=
  [Put SLCR_UNLOCK SLCR_UNLOCK_KEY; Update SPI_RST_CTRL 0 0xA; Put SPI_RST_CTRL 0; Put SLCR_LOCK SLCR_LOCK_KEY].
Definition clock_settings : list setting :=
  [ Put SLCR_UNLOCK SLCR_UNLOCK_KEY; Update APER_CLK_CTRL 0 (2 ^ 15); Put SPI_CLK_CTRL 0x3F03; Put SPI_CLK_CTRL 0;
    Update SPI_CLK_CTRL 0 0x2800; Update SPI_CLK_CTRL 0 2; Put SLCR_LOCK SLCR_LOCK_KEY ].
Definition route_settings : list setting :=
  Put SLCR_UNLOCK SLCR_UNLOCK_KEY ::
  pin_settings MIO_10 0x1EA0 0x2000 ++ pin_settings MIO_11 0x1EA1 0x2000 ++
  pin_settings MIO_12 0x1EA0 0x2000 ++ pin_settings MIO_13 0x1EA0 0x3000 ++ [Put SLCR_LOCK SLCR_LOCK_KEY].
Definition config_settings : list setting :=
  let cr := spi_addr cr_register in
  [ Put cr 0x20000; Put cr 0x115C00; Update cr 0 0; Update cr 0 8; Update cr 0 6; Update cr 0 1; Update cr 0 0x20000;
    Update cr 0 0; Put (spi_addr rx_thres_reg) 6; Put (spi_addr txwr_register) 1 ].
Definition spi_enable_settings : list setting :=
  [Update (spi_addr cr_register) 0 0x4000; Put (spi_addr ien_register) 0x20; Put (spi_addr er_register) 1].
Definition spi_settings : list setting :=
  reset_settings ++ clock_settings ++ route_settings ++ config_settings ++ spi_enable_settings.
Definition set_up (cfg : ttc_cfg) : list access -> Prop :=
  chop (follows (hw_init_settings cfg)) (chop (requested cfg) (follows (enable_settings ++ spi_settings))).

Lemma follows_app l1 l2 n1 n2 : follows l1 n1 -> follows l2 n2 -> follows (l1 ++ l2) (n1 ++ n2).
Proof.
  intros H1 H2. revert n1 H1. induction l1 as [|[a v|a clr v] l1 IH]; intros n1 H1; cbn in H1.
  - by destruct n1.
  - destruct n1 as [|[b x|b x] n1]; try done. destruct H1 as (-> & -> & H1). cbn. auto.
  - destruct n1 as [|[b x|b x] [|[b' x'|b' x'] n1]]; try done. destruct H1 as (-> & -> & -> & H1). cbn. auto.
Qed.

(** Nothing of it takes a byte from the receive FIFO. *)
Definition setting_addr (x : setting) : Z := match x with Put a _ | Update a _ _ => a end.
Lemma follows_rxd l n : RXD ∉ setting_addr <$> l -> follows l n -> rxd_bytes n = [].
Proof.
  revert n. induction l as [|[a v|a clr v] l IH]; intros n Hl H1; cbn in H1, Hl.
  - by destruct n.
  - apply not_elem_of_cons in Hl as [Ha Hl]. destruct n as [|[b x|b x] n]; try done.
    destruct H1 as (_ & _ & H1). exact (IH n Hl H1).
  - apply not_elem_of_cons in Hl as [Ha Hl]. destruct n as [|[b x|b x] [|[b' x'|b' x'] n]]; try done.
    destruct H1 as (-> & _ & _ & H1). unfold rxd_bytes in *.
    change (omap rxd_byte ([Rd a x] ++ n) = []). rewrite omap_app, (IH n Hl H1), app_nil_r. by apply rxd_bytes_other.
Qed.
Lemma set_up_rxd cfg n : board_ttc cfg -> set_up cfg n -> rxd_bytes n = [].
Proof.
  intros Hc (n1 & n23 & -> & H1 & n2 & n3 & -> & (c & clk & ->) & H3). unfold rxd_bytes. rewrite !omap_app.
  fold (rxd_bytes n1) (rxd_bytes n3) (rxd_bytes (snd (request_spec cfg TTC0 TTCx_2 1000000 c clk))).
  rewrite (follows_rxd (hw_init_settings cfg) n1), (follows_rxd (enable_settings ++ spi_settings) n3);
    [|apply (bool_decide_unpack _); by vm_compute|done|apply (bool_decide_unpack _); by vm_compute|done].
  rewrite app_nil_r. unfold request_spec.
  destruct (interval_spec cfg 1000000) as [[ps ticks]|]; [|reflexivity].
  destruct (Z.testbit c 1), (Z.testbit c 3); reflexivity.
Qed.

(** The accesses to the devices behind the ring are those of the log [P]; the
    ring is emptied or left as it is. *)
Section settings.
Context {B : Type} `{Bus B}.
#[local] Abbreviation TW := (spi_world (traced B)).
Definition logs {A} (m : M TW A) (P : list access -> Prop) (reset : bool) : Prop :=
  forall w, exists a d n,
    m w = Ok a (SpiWorld d (RX_BUFFER w) (if reset then 0 else RX_BUFFER_HEAD w)
                  (if reset then 0 else RX_BUFFER_TAIL w)) /\
    tr_log d = tr_log (dev w) ++ n /\ P n.

Lemma logs_bind {A C} (m : M TW A) (f : A -> M TW C) P Q r1 r2 :
  logs m P r1 -> (forall a, logs (f a) Q r2) -> logs (m ≫= f) (chop P Q) (r1 || r2).
Proof.
  intros Hm Hf w. destruct (Hm w) as (a & d & n & E & L & HP). rewrite (bind_ok _ _ _ _ _ E).
  match goal with |- context [f a ?w1] => destruct (Hf a w1) as (c & d2 & n2 & -> & L2 & HQ) end. cbn in *.
  exists c, d2, (n ++ n2). split; [by destruct r1, r2|]. split; [by rewrite L2, L, app_assoc|]. by exists n, n2.
Qed.
Lemma logs_weaken {A} (m : M TW A) P Q r : logs m P r -> (forall l, P l -> Q l) -> logs m Q r.
Proof. intros Hm HPQ w. destruct (Hm w) as (a & d & n & E & L & HP). exists a, d, n. auto. Qed.
Lemma logs_ret {A} (a : A) (P : list access -> Prop) : P [] -> logs (mret a) P false.
Proof. intros HP w. exists a, (dev w), []. rewrite app_nil_r. by destruct w. Qed.

Lemma logs_read {A} a (f : Z -> M TW A) P r :
  (forall x, is_u32 x -> logs (f x) (fun n => P (Rd a x :: n)) r) -> logs (read32 a ≫= f) P r.
Proof.
  intros Hf [[d l] b h t]. rewrite (bind_ok _ _ _ _ _ (read32_run a _)).
  rewrite spi_world_peek, spi_world_after_rd. cbn [dev RX_BUFFER RX_BUFFER_HEAD RX_BUFFER_TAIL].
  match goal with |- context [f ?x ?w1] => destruct (Hf x (peek_u32 _ _) w1) as (c & d2 & n & -> & L & HP) end.
  cbn [dev RX_BUFFER RX_BUFFER_HEAD RX_BUFFER_TAIL] in *. set (x := peek a (Traced d l)) in *.
  exists c, d2, (Rd a x :: n). split; [done|]. split; [|done].
  rewrite L. subst x. unfold after_rd, peek. cbn. destruct (bus_rd a d). cbn. by rewrite <- app_assoc.
Qed.
Lemma logs_write {A} a v (f : unit -> M TW A) P r :
  logs (f tt) (fun n => P (Wr a (u32 v) :: n)) r -> logs (write32 a v ≫= f) P r.
Proof.
  intros Hf [[d l] b h t]. rewrite (bind_ok _ _ _ _ _ (write32_run a v _)). cbn [dev bus_wr spi_world_bus].
  match goal with |- context [f tt ?w1] => destruct (Hf w1) as (c & d2 & n & -> & L & HP) end.
  cbn in *. exists c, d2, (Wr a (u32 v) :: n). split; [done|]. split; [by rewrite L, <- app_assoc|done].
Qed.

(** Settings one by one. *)
Lemma logs_put {A} a v x (f : unit -> M TW A) l r :
  u32 v = x -> logs (f tt) (follows l) r -> logs (write32 a v ≫= f) (follows (Put a x :: l)) r.
Proof. intros <- Hf. apply logs_write. eapply logs_weaken; [exact Hf|]. done. Qed.
(** Between the load and the store of an update. *)
Definition stored (a w : Z) (l : list setting) (n : list access) : Prop := exists n', n = Wr a w :: n' /\ follows l n'.
Lemma logs_update {A} a clr set (k : Z -> M TW A) l r :
  (forall x, is_u32 x -> logs (k x) (stored a (Z.lor (Z.ldiff x clr) set) l) r) ->
  logs (read32 a ≫= k) (follows (Update a clr set :: l)) r.
Proof.
  intros Hk. apply logs_read. intros x Hx. eapply logs_weaken; [by apply Hk|].
  by intros ? (n' & -> & Hn).
Qed.
Lemma logs_stored {A} a v w (f : unit -> M TW A) l r :
  u32 v = w -> logs (f tt) (follows l) r -> logs (write32 a v ≫= f) (stored a w l) r.
Proof. intros <- Hf. apply logs_write. eapply logs_weaken; [exact Hf|]. intros n Hn. by exists n. Qed.
Lemma logs_or {A} a v (f : unit -> M TW A) l r :
  is_u32 v -> logs (f tt) (follows l) r -> logs (or32 a v ≫= f) (follows (Update a 0 v :: l)) r.
Proof.
  intros Hv Hf. rewrite or32_eq.
  assert (Hu : logs (read32 a ≫= fun x => write32 a (Z.lor x v) ≫= f) (follows (Update a 0 v :: l)) r).
  { apply logs_update. intros x Hx. apply logs_stored; [|done]. rewrite Z.ldiff_0_r. apply u32_small. auto with word_db. }
  intros w. rewrite bind_assoc. apply Hu.
Qed.
Lemma logs_one {A} (m : M TW A) P r : logs (m ≫= mret) P r -> logs m P r.
Proof. intros Hm w. destruct (Hm w) as (a & d & n & E & H'). rewrite bind_ret_r in E. by exists a, d, n. Qed.
Lemma logs_reset {A C} (f : unit -> M TW A) (g : A -> M TW C) P r :
  logs (f tt ≫= g) P r -> logs (set_head 0 ≫= fun _ => (set_tail 0 ≫= f) ≫= g) P true.
Proof.
  intros Hf w. unfold set_head, set_tail. rewrite bind_modify, bind_assoc, bind_modify. cbn.
  match goal with |- context [(f tt ≫= g) ?w1] => destruct (Hf w1) as (c & d2 & n & -> & L & HP) end.
  cbn in *. exists c, d2, n. split; [by destruct r|done].
Qed.
Lemma logs_assoc {A C D} (m : M TW A) (f : A -> M TW C) (g : C -> M TW D) P r :
  logs (m ≫= fun x => f x ≫= g) P r -> logs ((m ≫= f) ≫= g) P r.
Proof. intros Hm w. rewrite bind_assoc. apply Hm. Qed.
Lemma logs_ret_then {A C} (a : A) (f : A -> M TW C) P r : logs (f a) P r -> logs (mret a ≫= f) P r.
Proof. done. Qed.
Lemma logs_app {A C} (m : M TW A) (f : A -> M TW C) l1 l2 r :
  logs m (follows l1) false -> (forall a, logs (f a) (follows l2) r) -> logs (m ≫= f) (follows (l1 ++ l2)) r.
Proof.
  intros Hm Hf. eapply logs_weaken; [exact (logs_bind _ _ _ _ _ _ Hm Hf)|].
  intros ? (n1 & n2 & -> & H1 & H2). by apply follows_app.
Qed.
End settings.

Lemma u32_update x clear set :
  is_u32 x -> is_u32 set -> u32 (Z.lor (Z.land x (not32 clear)) set) = Z.lor (Z.ldiff x clear) set.
Proof.
  intros Hx Hs. change (Z.land x (not32 clear)) with (bic32 x clear). rewrite bic32_ldiff by done.
  apply u32_small. auto with word_db.
Qed.
Lemma u32_clear x clear : is_u32 x -> u32 (bic32 x clear) = Z.lor (Z.ldiff x clear) 0.
Proof. intros Hx. rewrite bic32_ldiff, Z.lor_0_r by done. apply u32_small. auto with word_db. Qed.
Lemma u32_set x set : is_u32 x -> is_u32 set -> u32 (Z.lor x set) = Z.lor (Z.ldiff x 0) set.
Proof. intros. rewrite Z.ldiff_0_r. apply u32_small. auto with word_db. Qed.
Lemma u32_restart x : is_u32 x -> u32 (bic32 (Z.lor x 0x10) 1) = Z.lor (Z.ldiff x 1) 0x10.
Proof.
  intros Hx. rewrite bic32_ldiff, u32_small by auto with word_db.
  apply Z.bits_inj'. intros i Hi. rewrite Z.ldiff_spec, !Z.lor_spec, Z.ldiff_spec, andb_orb_distrib_l. f_equal.
  destruct (decide (i = 0)) as [->|]; [done|]. change 1 with (2 ^ 0). rewrite (Z.pow2_bits_false 0) by lia. apply andb_true_r.
Qed.

(** Runs settings against the list: addresses and values evaluate. *)
Ltac setting_value := solve [vm_compute; reflexivity | by vm_compute].
Ltac choose_branch :=
  match goal with |- context [if ?b then _ else _] =>
    let v := eval vm_compute in b in first [constr_eq v true | constr_eq v false]; change b with v; cbv iota end.
Ltac settle :=
  repeat first
    [ choose_branch
    | lazymatch goal with
      | |- logs ((_ ≫= _) ≫= _) _ _ => apply logs_assoc
      | |- logs (mret _ ≫= _) _ _ => apply logs_ret_then
      | |- logs (mret _) (follows []) _ => by apply logs_ret
      | |- logs (write32 _ _ ≫= _) (follows _) _ => eapply logs_put; [setting_value|]
      | |- logs (write32 _ _ ≫= _) (stored _ _ _) _ => apply logs_stored; [first
          [ by apply u32_clear | apply u32_update; [done|by vm_compute] | apply u32_set; [done|by vm_compute] | by apply u32_restart ]|]
      | |- logs (or32 _ _ ≫= _) _ _ => apply logs_or; [by vm_compute|]
      | |- logs (read32 _ ≫= _) _ _ => apply logs_update; intros ? ?
      | |- logs (set_head 0 ≫= _) _ _ => eapply logs_reset
      end ].

(** A replayed log on the devices behind the ring. *)
Lemma replay_logs {B} `{Bus B} l (w : spi_world (traced B)) :
  uart_accesses 1 l ->
  exists d n, replay l w = SpiWorld d (RX_BUFFER w) (RX_BUFFER_HEAD w) (RX_BUFFER_TAIL w) /\
    tr_log d = tr_log (dev w) ++ n /\ uart_accesses 1 n.
Proof.
  intros Hl. revert w. induction Hl as [|c l Hc Hl IH]; intros w.
  { exists (dev w), []. rewrite app_nil_r. split; [by destruct w|]. split; [done|constructor]. }
  change (replay (c :: l) w) with (replay l (replay1 w c)). destruct w as [[d lg] b h t].
  destruct (IH (replay1 (SpiWorld (Traced d lg) b h t) c)) as (d' & n & -> & L & Hn).
  destruct c as [a v|a v]; cbn [replay1] in *.
  - rewrite spi_world_after_rd in *. cbn [dev RX_BUFFER RX_BUFFER_HEAD RX_BUFFER_TAIL] in *.
    exists d', (Rd a (peek a d) :: n). split; [done|]. split; [|by constructor].
    rewrite L. unfold after_rd, peek. cbn. destruct (bus_rd a d). cbn. by rewrite <- app_assoc.
  - exists d', (Wr a v :: n). split; [done|]. split; [by rewrite L; cbn; rewrite <- app_assoc|by constructor].
Qed.
Lemma uart_rxd l : uart_accesses 1 l -> rxd_bytes l = [].
Proof.
  intros Hl. induction Hl as [|[a v|a v] l Ha Hl IH]; [done| |exact IH].
  unfold rxd_bytes in *. change (omap rxd_byte ([Rd a v] ++ l) = []). rewrite omap_app, IH, app_nil_r.
  apply rxd_bytes_other. destruct Ha as [-> | ->]; intros E; vm_compute in E; discriminate E.
Qed.

Section start.
Context {B : Type} `{Bus B}.
Variable cfg : ttc_cfg.
Hypothesis Hcfg : board_ttc cfg.
#[local] Abbreviation TW := (spi_world (traced B)).
Ltac list_eval :=
  match goal with |- logs _ (follows ?l) _ => let v := eval vm_compute in l in change l with v end.

Lemma logs_hw_init : logs (B := B) (hw_init cfg) (follows (hw_init_settings cfg)) false.
Proof.
  unfold hw_init, ttc_init, interrupt_enable, interrupt_target_set, interrupt_priority_set.
  destruct Hcfg as [-> | [-> | ->]]; list_eval; reg_eval; cbv zeta; settle.
Qed.

Ltac settled := list_eval; reg_eval; cbv zeta; settle.

Lemma logs_tick_set :
  logs (B := B) (tick_set cfg 1000000) (chop (requested cfg) (follows enable_settings)) false.
Proof.
  unfold tick_set. apply (logs_bind _ _ _ _ false false).
  - unfold requested, ttc_request, ttc_request_ticks, request_spec. rewrite (proj2 (ttc_good_args _ _)) by done.
    rewrite !ttc_at_eq by done. cbn [ld st]. cbv zeta.
    apply logs_read. intros c Hc. apply logs_write. do 2 choose_branch. apply logs_assoc, logs_read.
    intros clk Hclk. apply logs_assoc, logs_write, logs_ret_then.
    destruct (request_mode_bits c) as [-> ->]. rewrite !negb_involutive.
    change (prescale 12) with 23. change (Z.lor TTC_CNT_CNTRL_RST TTC_CNT_CNTRL_DIS) with 0x11.
    assert (E : interval_spec cfg 1000000 = Some (11, mul32 1000000 (ticks_long cfg) / 10000)).
    { unfold interval_spec. do 2 choose_branch. by rewrite (proj2 (interval_spec_mul32 cfg 1000000 Hcfg ltac:(lia))). }
    pose proof (interval_spec_bounds _ _ _ _ Hcfg E) as Hb.
    destruct (Z.testbit c 1) eqn:E1; [apply logs_write, logs_ret|destruct (Z.testbit c 3) eqn:E3; [apply logs_write, logs_ret|apply logs_ret]];
      exists c, clk; rewrite E, E1, ?E3; cbn [snd app]; unfold ttc_addr;
      rewrite !u32_small by first [unfold is_u32; lia | auto with word_db]; reflexivity.
  - intros ret. unfold ttc_enable. settled.
Qed.
Lemma logs_SPI_1_Reset : logs (B := B) SPI_1_Reset (follows reset_settings) false.
Proof. apply logs_one. unfold SPI_1_Reset, wait. settled. Qed.
Lemma logs_SPI_1_ClockEnable : logs (B := B) SPI_1_ClockEnable (follows clock_settings) false.
Proof. apply logs_one. unfold SPI_1_ClockEnable. settled. Qed.
Lemma logs_SPI_1_SignalRoute : logs (B := B) SPI_1_SignalRoute (follows route_settings) false.
Proof. apply logs_one. unfold SPI_1_SignalRoute, route_pin. settled. Qed.
Lemma logs_SPI_1_Config : logs (B := B) SPI_1_Config (follows config_settings) true.
Proof. apply logs_one. unfold SPI_1_Config. rewrite !spi_at_eq. settled. Qed.
Lemma logs_SPI_1_Enable : logs (B := B) SPI_1_Enable (follows spi_enable_settings) false.
Proof. apply logs_one. unfold SPI_1_Enable. rewrite !spi_at_eq. settled. Qed.

Variable polls : nat.
Variable stale : list Z -> Z.
Variable lsb : Z.
Hypothesis Hroom : forall d : B, room_within polls 1 d.

Lemma io_logs_run {A C} (f : M TW A) P r (k : A -> M (machine (soc TW)) C) c m (w : TW) :
  logs f P r ->
  exists a d n, (c_io f ≫= k) (Machine c (Soc m w)) =
      k a (Machine c (Soc m (SpiWorld d (RX_BUFFER w) (if r then 0 else RX_BUFFER_HEAD w)
                               (if r then 0 else RX_BUFFER_TAIL w)))) /\
    tr_log d = tr_log (dev w) ++ n /\ P n.
Proof.
  intros Hf. destruct (Hf w) as (a & d & n & E & H'). exists a, d, n. split; [|done]. by apply c_io_run.
Qed.
Ltac io_step Hq n L :=
  match goal with |- context [(c_io ?f ≫= ?k) (Machine ?c (Soc ?m ?d))] =>
    let d' := fresh "d" in let E := fresh in let L' := fresh "L" in
    destruct (io_logs_run f _ _ k c m d Hq) as (? & d' & n & E & L' & ?); rewrite E; clear E;
    cbn [RX_BUFFER RX_BUFFER_HEAD RX_BUFFER_TAIL dev] in *; rewrite L in L'; clear L; rename L' into L
  end.

Lemma main_init_run c m (d : TW) :
  exists d' l0 l1, main_init cfg polls stale lsb (Machine c (Soc m d)) =
      Ok tt (Machine c (Soc (<[lsb := 0]> (m : gmap Z Z)) (SpiWorld d' (RX_BUFFER d) 0 0))) /\
    tr_log d' = tr_log (dev d) ++ l0 ++ l1 /\ uart_accesses 1 l0 /\ set_up cfg l1.
Proof.
  unfold main_init.
  match goal with |- context [(c_say _ _ ?f ?args ≫= ?k) _] =>
    destruct (c_say_replay polls stale f args k c m d) as (l & Hl & E); [apply spi_room, Hroom|done|]; rewrite E; clear E end.
  destruct (replay_logs l d Hl) as (d1 & l0 & -> & L & H0).
  io_step logs_hw_init n1 L. io_step logs_tick_set n2 L. io_step logs_SPI_1_Reset n3 L.
  io_step logs_SPI_1_ClockEnable n4 L. io_step logs_SPI_1_SignalRoute n5 L.
  io_step logs_SPI_1_Config n6 L. io_step logs_SPI_1_Enable n7 L.
  match goal with H : chop (requested cfg) _ n2 |- _ => destruct H as (n8 & n9 & -> & ? & ?) end.
  eexists _, l0, (n1 ++ n8 ++ n9 ++ n3 ++ n4 ++ n5 ++ n6 ++ n7). split; [|split; [by rewrite L, <- !app_assoc|split; [done|]]].
  - rewrite <- (bind_ret_r (c_ram _)). by rewrite (c_ram_run _ _ c m _ tt (<[lsb := 0]> (m : gmap Z Z))).
  - exists n1, (n8 ++ n9 ++ n3 ++ n4 ++ n5 ++ n6 ++ n7). split; [done|]. split; [done|].
    exists n8, (n9 ++ n3 ++ n4 ++ n5 ++ n6 ++ n7). split; [done|]. split; [done|]. by repeat apply follows_app.
Qed.
End start.

(** C17: the secure guest starts with nothing published.  Whatever memory held
    and the devices answer, [main] prints its banner, sets up the hardware by
    exactly the accesses of [set_up] - the tick timer and the interrupts of
    timer and SPI controller, the timer's interval, the controller's reset,
    clocks, pins, configuration and interrupt, in that order - and empties the
    ring; its first turn writes 0 to the shared word and to [lsb] and nothing
    else, before it yields.  Up to there no byte has been taken from the receive
    FIFO. *)
Theorem main_first_turn {B} `{Bus B} (cfg : ttc_cfg) (polls : nat) (stale : list Z -> Z) (lsb : Z)
    (smc : M (machine (soc (spi_world (traced B)))) unit) (turns : nat) (c : cpu) (m : bytes)
    (d : spi_world (traced B)) :
  board_ttc cfg ->
  (forall d : B, room_within polls 1 d) -> lsb < sensor_data \/ sensor_data + 4 <= lsb ->
  bytes_ok m -> length (RX_BUFFER d) = 256%nat -> byte_at (sensor_data + 3) m <> 0x80 ->
  exists m' d' banner setting_log turn_log,
    main cfg polls stale lsb smc (S turns) (Machine c (Soc m d)) =
      (smc ;; main_turns polls stale lsb smc turns) (Machine (with_call c) (Soc m' d')) /\
    byte_published lsb 0 m m' /\ ring_ok d' /\ ring d' = [] /\
    tr_log (dev d') = tr_log (dev d) ++ banner ++ setting_log ++ turn_log /\
    uart_accesses 1 banner /\ set_up cfg setting_log /\
    rxd_bytes (banner ++ setting_log ++ turn_log) = [].
Proof.
  intros Hcfg Hroom Hap Hm Hlen Htop.
  destruct (main_init_run cfg Hcfg polls stale lsb Hroom c m d) as (e & l0 & l1 & E & L & H0 & H1).
  unfold main. rewrite (bind_ok _ _ _ _ _ E). cbn [main_turns].
  set (w := SpiWorld e (RX_BUFFER d) 0 0).
  assert (Hr : ring w = []) by done.
  assert (Hm0 : bytes_ok (<[lsb := 0]> (m : gmap Z Z))) by (by apply bytes_ok_insert).
  destruct (main_turn_run polls stale lsb Hroom smc c (<[lsb := 0]> (m : gmap Z Z)) w)
    as (m' & d' & E' & (Hm' & Hs & Hl & Hx) & Hok & Hq & l2 & L2 & H2); [done|by split_and!|done| |].
  { rewrite byte_at_store. destruct (decide _); [lia|done]. }
  assert (Hv : next_byte (byte_at lsb (<[lsb := 0]> (m : gmap Z Z))) (ring w) = 0).
  { rewrite Hr. unfold next_byte. cbn [hd]. rewrite byte_at_store. by destruct (decide _). }
  rewrite Hv in *. exists m', d', l0, l1, l2. split; [unfold mbind, M_bind; by rewrite E'|].
  split; [split_and!; try done; intros x ? ?; rewrite Hx, byte_at_store by done; by destruct (decide _)|].
  split; [done|]. split; [by rewrite Hq, Hr|]. split; [cbn in L2; by rewrite L2, L, <- !app_assoc|].
  split; [done|]. split; [done|]. unfold rxd_bytes in *. rewrite !omap_app.
  fold (rxd_bytes l0) (rxd_bytes l1). by rewrite uart_rxd, (set_up_rxd cfg), H2.
Qed.

Lemma main_first_turn_witness :
  exists m' d' banner l turn_log,
    main zedboard_ttc 1 (fun _ => 0) demo_lsb (mret tt) 1
      (Machine (demo_cpu false (demo_sp + 128)) (Soc demo_guest_mem demo_ring)) =
      Ok tt (Machine (with_call (demo_cpu false (demo_sp + 128))) (Soc m' d')) /\
    byte_at sensor_data m' = 0 /\ ring d' = [] /\
    tr_log (dev d') = banner ++ l ++ turn_log /\ set_up zedboard_ttc l /\
    rxd_bytes (banner ++ l ++ turn_log) = [].
Proof.
  destruct (main_first_turn zedboard_ttc 1 (fun _ => 0) demo_lsb (mret tt) 0
              (demo_cpu false (demo_sp + 128)) demo_guest_mem demo_ring)
    as (m' & d' & l0 & l1 & l2 & E & (_ & Hb & _) & _ & Hr & L & _ & H1 & H2).
  - by left.
  - exact (sys_room _ _ _ _ _ _ _ demo_system).
  - exact (sys_apart _ _ _ _ _ _ _ demo_system).
  - exact (tn_bytes _ _ _ _ demo_turning).
  - reflexivity.
  - exact (tn_top _ _ _ _ demo_turning).
  - exists m', d', l0, l1, l2. exact (conj E (conj Hb (conj Hr (conj L (conj H1 H2))))).
Defined.
