(* ===== verification/RtList.v ===== *)
(** * FreeRTOS lists ([ns_guest/lib/freertos/list.c], [inc/FreeRTOS/list.h])

    The doubly linked, circular lists the scheduler of the non-secure guest is
    built on.  Pointers are values of a type the code only compares for
    equality; an access through a pointer to nothing is undefined. *)
From S2P Require Import Prelude.

Local Open Scope Z_scope.

Definition portMAX_DELAY : Z := 0xffffffff.

Section structs.
Variables P L W : Type.

(** The three fields a list item shares with the end marker of a list
    ([MiniListItem_t]), and the two it has besides. *)
Record MiniListItem_t : Type := MiniListItem {
  xItemValue : Z; pxNext : P; pxPrevious : P
}.
Record ListItem_t : Type := ListItem { pvOwner : W; pxContainer : option L }.
(** [xListEnd] is a node of its own. *)
Record List_t : Type := ListT { uxNumberOfItems : Z; pxIndex : P }.
End structs.

Arguments MiniListItem {P}.
Arguments xItemValue {P}.
Arguments pxNext {P}.
Arguments pxPrevious {P}.
Arguments ListItem {L W}.
Arguments pvOwner {L W}.
Arguments pxContainer {L W}.
Arguments ListT {P}.
Arguments uxNumberOfItems {P}.
Arguments pxIndex {P}.

Section store.
Variables (P L W : Type).
Context `{Countable P} `{Countable L}.

Record lstore : Type := LStore {
  links : gmap P (MiniListItem_t P);
  items : gmap P (ListItem_t L W);
  lists : gmap L (List_t P)
}.
End store.
Arguments LStore {P L W _ _ _ _}.
Arguments links {P L W _ _ _ _}.
Arguments items {P L W _ _ _ _}.
Arguments lists {P L W _ _ _ _}.

(** ** Operations *)
Section list_c.
Context {P L W : Type} `{Countable P} `{Countable L}.
(** [&pxList->xListEnd] *)
Variable xListEnd : L -> P.
Abbreviation LM := (M (lstore P L W)).

(** Reading a node, and changing one field of it. *)
Definition ld_link (p : P) : LM (MiniListItem_t P) := fun s =>
  match links s !! p with Some x => Ok x s | None => Undef end.
Definition st_link (f : MiniListItem_t P -> MiniListItem_t P) (p : P) : LM unit := fun s =>
  match links s !! p with
  | Some _ => Ok tt (LStore (alter f p (links s)) (items s) (lists s))
  | None => Undef
  end.
Definition with_value (v : Z) (x : MiniListItem_t P) := MiniListItem v (pxNext x) (pxPrevious x).
Definition with_next (q : P) (x : MiniListItem_t P) :=
  MiniListItem (xItemValue x) q (pxPrevious x).
Definition with_previous (q : P) (x : MiniListItem_t P) :=
  MiniListItem (xItemValue x) (pxNext x) q.
Definition st_value (p : P) (v : Z) : LM unit := st_link (with_value v) p.
Definition st_next (p q : P) : LM unit := st_link (with_next q) p.
Definition st_previous (p q : P) : LM unit := st_link (with_previous q) p.
Definition ld_value (p : P) : LM Z := x ← ld_link p; mret (xItemValue x).
Definition ld_next (p : P) : LM P := x ← ld_link p; mret (pxNext x).
Definition ld_previous (p : P) : LM P := x ← ld_link p; mret (pxPrevious x).

Definition ld_item (p : P) : LM (ListItem_t L W) := fun s =>
  match items s !! p with Some x => Ok x s | None => Undef end.
Definition st_item (f : ListItem_t L W -> ListItem_t L W) (p : P) : LM unit := fun s =>
  match items s !! p with
  | Some _ => Ok tt (LStore (links s) (alter f p (items s)) (lists s))
  | None => Undef
  end.
Definition with_container (c : option L) (x : ListItem_t L W) := ListItem (pvOwner x) c.
Definition with_owner (o : W) (x : ListItem_t L W) := ListItem o (pxContainer x).
Definition st_container (p : P) (c : option L) : LM unit := st_item (with_container c) p.
Definition st_owner (p : P) (o : W) : LM unit := st_item (with_owner o) p.

Definition ld_list (l : L) : LM (List_t P) := fun s =>
  match lists s !! l with Some x => Ok x s | None => Undef end.
Definition st_list (f : List_t P -> List_t P) (l : L) : LM unit := fun s =>
  match lists s !! l with
  | Some _ => Ok tt (LStore (links s) (items s) (alter f l (lists s)))
  | None => Undef
  end.
Definition with_count (n : Z) (x : List_t P) := ListT n (pxIndex x).
Definition with_index (p : P) (x : List_t P) := ListT (uxNumberOfItems x) p.
Definition st_count (l : L) (n : Z) : LM unit := st_list (with_count n) l.
Definition st_index (l : L) (p : P) : LM unit := st_list (with_index p) l.

Definition vListInitialise (pxList : L) : LM unit :=
  st_index pxList (xListEnd pxList) ;;
  st_value (xListEnd pxList) portMAX_DELAY ;;
  st_next (xListEnd pxList) (xListEnd pxList) ;;
  st_previous (xListEnd pxList) (xListEnd pxList) ;;
  st_count pxList 0.

Definition vListInitialiseItem (pxItem : P) : LM unit := st_container pxItem None.

Definition vListInsertEnd (pxList : L) (pxNewListItem : P) : LM unit :=
  l ← ld_list pxList;
  let pxIdx := pxIndex l in
  st_next pxNewListItem pxIdx ;;
  p ← ld_previous pxIdx; st_previous pxNewListItem p ;;
  p ← ld_previous pxIdx; st_next p pxNewListItem ;;
  st_previous pxIdx pxNewListItem ;;
  st_container pxNewListItem (Some pxList) ;;
  l ← ld_list pxList; st_count pxList (add32 (uxNumberOfItems l) 1).

(** [for (it = &xListEnd; it->pxNext->xItemValue <= v; it = it->pxNext);] *)
Fixpoint find_position (fuel : nat) (pxIterator : P) (v : Z) : LM P :=
  match fuel with
  | 0%nat => no_fuel
  | S f =>
      n ← ld_next pxIterator; w ← ld_value n;
      if w <=? v then n ← ld_next pxIterator; find_position f n v else mret pxIterator
  end.

(** A walk through the list passes each node of the store at most once. *)
Definition vListInsert (pxList : L) (pxNewListItem : P) : LM unit :=
  v ← ld_value pxNewListItem;
  pxIterator ←
    (if v =? portMAX_DELAY then ld_previous (xListEnd pxList)
     else s ← get; find_position (S (size (links s))) (xListEnd pxList) v);
  n ← ld_next pxIterator; st_next pxNewListItem n ;;
  n ← ld_next pxNewListItem; st_previous n pxNewListItem ;;
  st_previous pxNewListItem pxIterator ;;
  st_next pxIterator pxNewListItem ;;
  st_container pxNewListItem (Some pxList) ;;
  l ← ld_list pxList; st_count pxList (add32 (uxNumberOfItems l) 1).

Definition uxListRemove (pxItemToRemove : P) : LM Z :=
  x ← ld_item pxItemToRemove;
  match pxContainer x with
  | None => undef
  | Some pxList =>
      n ← ld_next pxItemToRemove; p ← ld_previous pxItemToRemove; st_previous n p ;;
      p ← ld_previous pxItemToRemove; n ← ld_next pxItemToRemove; st_next p n ;;
      l ← ld_list pxList;
      when (bool_decide (pxIndex l = pxItemToRemove))
        (p ← ld_previous pxItemToRemove; st_index pxList p) ;;
      st_container pxItemToRemove None ;;
      l ← ld_list pxList; st_count pxList (sub32 (uxNumberOfItems l) 1) ;;
      l ← ld_list pxList; mret (uxNumberOfItems l)
  end.

(** *** The macros of [list.h] *)
Definition listGET_LIST_ITEM_OWNER (p : P) : LM W := x ← ld_item p; mret (pvOwner x).
Definition listLIST_ITEM_CONTAINER (p : P) : LM (option L) := x ← ld_item p; mret (pxContainer x).
Definition listIS_CONTAINED_WITHIN (l : L) (p : P) : LM bool :=
  x ← ld_item p; mret (bool_decide (pxContainer x = Some l)).
Definition listCURRENT_LIST_LENGTH (l : L) : LM Z := x ← ld_list l; mret (uxNumberOfItems x).
Definition listLIST_IS_EMPTY (l : L) : LM bool :=
  x ← ld_list l; mret (uxNumberOfItems x =? 0).
Definition listGET_ITEM_VALUE_OF_HEAD_ENTRY (l : L) : LM Z :=
  n ← ld_next (xListEnd l); ld_value n.
Definition listGET_OWNER_OF_HEAD_ENTRY (l : L) : LM W :=
  n ← ld_next (xListEnd l); listGET_LIST_ITEM_OWNER n.
Definition listGET_OWNER_OF_NEXT_ENTRY (pxList : L) : LM W :=
  l ← ld_list pxList; n ← ld_next (pxIndex l); st_index pxList n ;;
  l ← ld_list pxList;
  when (bool_decide (pxIndex l = xListEnd pxList))
    (n ← ld_next (pxIndex l); st_index pxList n) ;;
  l ← ld_list pxList; listGET_LIST_ITEM_OWNER (pxIndex l).
End list_c.

(** ** Runs

    What a node holds, as partial functions of the links. *)
Section runs.
Context {P L W : Type} `{Countable P} `{Countable L}.
Abbreviation nodes := (gmap P (MiniListItem_t P)).

Definition nx (k : nodes) (p : P) : option P := pxNext <$> k !! p.
Definition pv (k : nodes) (p : P) : option P := pxPrevious <$> k !! p.
Definition vl (k : nodes) (p : P) : option Z := xItemValue <$> k !! p.

Lemma nx_alter f (k : nodes) p q :
  nx (alter f p k) q = if decide (p = q) then pxNext <$> (f <$> k !! q) else nx k q.
Proof. unfold nx. rewrite lookup_alter. by destruct (decide (p = q)) as [->|]. Qed.
Lemma pv_alter f (k : nodes) p q :
  pv (alter f p k) q = if decide (p = q) then pxPrevious <$> (f <$> k !! q) else pv k q.
Proof. unfold pv. rewrite lookup_alter. by destruct (decide (p = q)) as [->|]. Qed.
Lemma vl_alter f (k : nodes) p q :
  vl (alter f p k) q = if decide (p = q) then xItemValue <$> (f <$> k !! q) else vl k q.
Proof. unfold vl. rewrite lookup_alter. by destruct (decide (p = q)) as [->|]. Qed.

Lemma nx_next a (k : nodes) p q : is_Some (k !! p) ->
  nx (alter (with_next a) p k) q = if decide (p = q) then Some a else nx k q.
Proof. intros [x E]. rewrite nx_alter. destruct (decide _) as [<-|]; [by rewrite E|done]. Qed.
Lemma pv_previous a (k : nodes) p q : is_Some (k !! p) ->
  pv (alter (with_previous a) p k) q = if decide (p = q) then Some a else pv k q.
Proof. intros [x E]. rewrite pv_alter. destruct (decide _) as [<-|]; [by rewrite E|done]. Qed.
Lemma nx_previous a (k : nodes) p q : nx (alter (with_previous a) p k) q = nx k q.
Proof. rewrite nx_alter. unfold nx. destruct (decide _) as [<-|]; [|done]. by destruct (k !! p). Qed.
Lemma pv_next a (k : nodes) p q : pv (alter (with_next a) p k) q = pv k q.
Proof. rewrite pv_alter. unfold pv. destruct (decide _) as [<-|]; [|done]. by destruct (k !! p). Qed.
Lemma vl_next a (k : nodes) p q : vl (alter (with_next a) p k) q = vl k q.
Proof. rewrite vl_alter. unfold vl. destruct (decide _) as [<-|]; [|done]. by destruct (k !! p). Qed.
Lemma vl_previous a (k : nodes) p q : vl (alter (with_previous a) p k) q = vl k q.
Proof. rewrite vl_alter. unfold vl. destruct (decide _) as [<-|]; [|done]. by destruct (k !! p). Qed.
Lemma nx_value a (k : nodes) p q : nx (alter (with_value a) p k) q = nx k q.
Proof. rewrite nx_alter. unfold nx. destruct (decide _) as [<-|]; [|done]. by destruct (k !! p). Qed.
Lemma pv_value a (k : nodes) p q : pv (alter (with_value a) p k) q = pv k q.
Proof. rewrite pv_alter. unfold pv. destruct (decide _) as [<-|]; [|done]. by destruct (k !! p). Qed.
Lemma vl_value a (k : nodes) p q : is_Some (k !! p) ->
  vl (alter (with_value a) p k) q = if decide (p = q) then Some a else vl k q.
Proof. intros [x E]. rewrite vl_alter. destruct (decide _) as [<-|]; [by rewrite E|done]. Qed.

Lemma alter_is_Some {A} (f : A -> A) (k : gmap P A) p q :
  is_Some (alter f p k !! q) <-> is_Some (k !! q).
Proof. rewrite lookup_alter. destruct (decide (p = q)) as [->|]; [|done]. by destruct (k !! q). Qed.
Lemma nx_is_Some (k : nodes) p q : nx k p = Some q -> is_Some (k !! p).
Proof. unfold nx. destruct (k !! p); [by eexists|done]. Qed.
Lemma pv_is_Some (k : nodes) p q : pv k p = Some q -> is_Some (k !! p).
Proof. unfold pv. destruct (k !! p); [by eexists|done]. Qed.
Lemma vl_is_Some (k : nodes) p v : vl k p = Some v -> is_Some (k !! p).
Proof. unfold vl. destruct (k !! p); [by eexists|done]. Qed.

Lemma ld_next_run {B} p q (f : P -> M (lstore P L W) B) k it ls :
  nx k p = Some q -> (ld_next p ≫= f) (LStore k it ls) = f q (LStore k it ls).
Proof.
  unfold nx, ld_next, ld_link. unfold mbind, M_bind, mret, M_ret. cbn [links]; destruct (k !! p); [|done]. cbn. congruence.
Qed.
Lemma ld_previous_run {B} p q (f : P -> M (lstore P L W) B) k it ls :
  pv k p = Some q -> (ld_previous p ≫= f) (LStore k it ls) = f q (LStore k it ls).
Proof.
  unfold pv, ld_previous, ld_link. unfold mbind, M_bind, mret, M_ret. cbn [links]; destruct (k !! p); [|done]. cbn. congruence.
Qed.
Lemma ld_value_run {B} p v (f : Z -> M (lstore P L W) B) k it ls :
  vl k p = Some v -> (ld_value p ≫= f) (LStore k it ls) = f v (LStore k it ls).
Proof.
  unfold vl, ld_value, ld_link. unfold mbind, M_bind, mret, M_ret. cbn [links]; destruct (k !! p); [|done]. cbn. congruence.
Qed.
Lemma st_link_run {B} g p (f : unit -> M (lstore P L W) B) k it ls :
  is_Some (k !! p) ->
  (st_link g p ≫= f) (LStore k it ls) = f tt (LStore (alter g p k) it ls).
Proof. intros [x E]. unfold st_link. unfold mbind, M_bind, mret, M_ret. cbn [links]. by rewrite E. Qed.
Lemma ld_item_run {B} p x (f : ListItem_t L W -> M (lstore P L W) B) k it ls :
  it !! p = Some x -> (ld_item p ≫= f) (LStore k it ls) = f x (LStore k it ls).
Proof. intros E. unfold ld_item. unfold mbind, M_bind, mret, M_ret. cbn [items lists]. by rewrite E. Qed.
Lemma st_item_run {B} g p (f : unit -> M (lstore P L W) B) k it ls :
  is_Some (it !! p) ->
  (st_item g p ≫= f) (LStore k it ls) = f tt (LStore k (alter g p it) ls).
Proof. intros [x E]. unfold st_item. unfold mbind, M_bind, mret, M_ret. cbn [items]. by rewrite E. Qed.
Lemma ld_list_run {B} l x (f : List_t P -> M (lstore P L W) B) k it ls :
  ls !! l = Some x -> (ld_list l ≫= f) (LStore k it ls) = f x (LStore k it ls).
Proof. intros E. unfold ld_list. unfold mbind, M_bind, mret, M_ret. cbn [items lists]. by rewrite E. Qed.
Lemma st_list_run {B} g l (f : unit -> M (lstore P L W) B) k it ls :
  is_Some (ls !! l) ->
  (st_list g l ≫= f) (LStore k it ls) = f tt (LStore k it (alter g l ls)).
Proof. intros [x E]. unfold st_list. unfold mbind, M_bind, mret, M_ret. cbn [lists]. by rewrite E. Qed.
Lemma st_list_end g l k it ls :
  is_Some (ls !! l) ->
  (st_list g l : M (lstore P L W) unit) (LStore k it ls) = Ok tt (LStore k it (alter g l ls)).
Proof. intros [x E]. unfold st_list. cbn [lists]. by rewrite E. Qed.
End runs.
Create Rewrite HintDb rt_links.
#[export] Hint Rewrite @nx_previous @pv_next @vl_next @vl_previous @nx_value @pv_value : rt_links.
#[export] Hint Rewrite @nx_next @pv_previous @vl_value using (rewrite ?alter_is_Some; done) : rt_links.

(** ** Rings

    A list is the cycle of its end marker and its items.  [path] follows a
    sequence of nodes; a ring is the path from the end marker to itself. *)
Section paths.
Context {P : Type} `{Countable P}.
Abbreviation nodes := (gmap P (MiniListItem_t P)).

Definition edge (k : nodes) (a b : P) : Prop := nx k a = Some b /\ pv k b = Some a.

Fixpoint path (k : nodes) (l : list P) : Prop :=
  match l with
  | a :: ((b :: _) as l') => edge k a b /\ path k l'
  | _ => True
  end.

Lemma path_cons k a b l : path k (a :: b :: l) <-> edge k a b /\ path k (b :: l).
Proof. done. Qed.

Lemma path_app k l1 a l2 : path k (l1 ++ a :: l2) <-> path k (l1 ++ [a]) /\ path k (a :: l2).
Proof.
  induction l1 as [|x [|y l1] IH]; cbn [app].
  - cbn [path]. tauto.
  - rewrite !path_cons. cbn [path]. tauto.
  - rewrite !path_cons. cbn [app] in IH. rewrite IH. tauto.
Qed.

Lemma path_mid k l1 a b l2 :
  path k (l1 ++ a :: b :: l2) <-> path k (l1 ++ [a]) /\ edge k a b /\ path k (b :: l2).
Proof. rewrite path_app, path_cons. done. Qed.

(** A path is as before when the successors of all but its last node and the
    predecessors of all but its first are. *)
Lemma path_frame k k' l1 b :
  (forall p, p ∈ l1 -> nx k' p = nx k p) ->
  (forall p, p ∈ tail (l1 ++ [b]) -> pv k' p = pv k p) ->
  path k (l1 ++ [b]) -> path k' (l1 ++ [b]).
Proof.
  induction l1 as [|x [|y l1] IH]; cbn [app tail]; intros Hn Hp Hk.
  - done.
  - destruct Hk as [[E1 E2] _]. split; [|done]. split; [rewrite Hn by left|rewrite Hp by left]; done.
  - apply path_cons in Hk as [[E1 E2] Hk]. apply path_cons. split.
    + split; [rewrite Hn by left|rewrite Hp by left]; done.
    + apply IH; [intros; apply Hn; by right|intros; apply Hp; by right|done].
Qed.

Lemma path_lookup k l1 a b l2 : path k (l1 ++ a :: b :: l2) -> edge k a b.
Proof. by intros (_ & He & _)%path_mid. Qed.

Lemma path_dom k l a : path k (a :: l ++ [a]) -> forall p, p ∈ a :: l -> is_Some (k !! p).
Proof.
  intros Hk p Hp. apply list_elem_of_split in Hp as (l1 & l2 & E).
  assert (exists b l3, a :: l ++ [a] = l1 ++ p :: b :: l3) as (b & l3 & E').
  { change (a :: l ++ [a]) with ((a :: l) ++ [a]). rewrite E, <- app_assoc.
    destruct l2 as [|b l2]; cbn; eauto. }
  rewrite E' in Hk. apply path_lookup in Hk as [Hn _]. by eapply nx_is_Some.
Qed.

(** The links after a new node was put between two adjacent ones. *)
Record spliced (k k' : nodes) (u it w : P) : Prop := {
  sp_dom : forall p, is_Some (k !! p) -> is_Some (k' !! p);
  sp_it : edge k' u it /\ edge k' it w;
  sp_nx : forall p, p <> it -> p <> u -> nx k' p = nx k p;
  sp_pv : forall p, p <> it -> p <> w -> pv k' p = pv k p;
  sp_vl : forall p, vl k' p = vl k p
}.

Lemma spliced_path k k' u it w l1 l2 :
  spliced k k' u it w ->
  NoDup (l1 ++ [u]) -> NoDup (w :: l2) -> it ∉ l1 ++ u :: w :: l2 ->
  w ∉ tail (l1 ++ [u]) -> u ∉ removelast (w :: l2) ->
  path k (l1 ++ u :: w :: l2) -> path k' (l1 ++ u :: it :: w :: l2).
Proof.
  intros [_ [E1 E2] Hn Hp _] N1 N2 Hit Hw Hu (K1 & _ & K2)%path_mid.
  apply path_mid. split; [|split; [done|]].
  - eapply path_frame; [| |exact K1]; intros p Hx.
    + apply Hn; [intros ->; set_solver|]. intros ->. by apply NoDup_app in N1 as (_ & N1 & _); eapply N1, list_elem_of_singleton.
    + apply Hp; [|by intros ->]. intros ->. apply Hit.
      destruct l1; cbn in Hx; set_solver.
  - apply path_cons. split; [done|].
    destruct (exists_last (l := w :: l2)) as (l3 & b & E); [done|]. rewrite E in K2 |- *.
    eapply path_frame; [| |exact K2]; intros p Hx.
    + apply Hn; [intros ->; apply Hit; rewrite E; set_solver|]. intros ->. apply Hu.
      by rewrite E, removelast_last.
    + apply Hp.
      * intros ->. rewrite <- E in Hx. cbn in Hx. apply Hit. set_solver.
      * intros ->. rewrite <- E in Hx. cbn in Hx. by apply NoDup_cons in N2 as [? _].
Qed.

(** The links after a node was taken from between its neighbours; its own
    pointers are left as they were. *)
Record unlinked (k k' : nodes) (u it w : P) : Prop := {
  un_dom : forall p, is_Some (k !! p) -> is_Some (k' !! p);
  un_edge : edge k' u w;
  un_nx : forall p, p <> u -> nx k' p = nx k p;
  un_pv : forall p, p <> w -> pv k' p = pv k p;
  un_vl : forall p, vl k' p = vl k p
}.

Lemma unlinked_path k k' u it w l1 l2 :
  unlinked k k' u it w ->
  NoDup (l1 ++ [u]) -> NoDup (w :: l2) ->
  w ∉ tail (l1 ++ [u]) -> u ∉ removelast (w :: l2) ->
  path k (l1 ++ u :: it :: w :: l2) -> path k' (l1 ++ u :: w :: l2).
Proof.
  intros [_ E1 Hn Hp _] N1 N2 Hw Hu (K1 & _ & [_ K2]%path_cons)%path_mid.
  apply path_mid. split; [|split; [done|]].
  - eapply path_frame; [| |exact K1]; intros p Hx.
    + apply Hn. intros ->. by apply NoDup_app in N1 as (_ & N1 & _); eapply N1, list_elem_of_singleton.
    + apply Hp. by intros ->.
  - destruct (exists_last (l := w :: l2)) as (l3 & b & E); [done|]. rewrite E in K2 |- *.
    eapply path_frame; [| |exact K2]; intros p Hx.
    + apply Hn. intros ->. apply Hu. by rewrite E, removelast_last.
    + apply Hp. intros ->. rewrite <- E in Hx. cbn in Hx. by apply NoDup_cons in N2 as [? _].
Qed.
End paths.
