(* ===== verification/RtRings.v ===== *)
(** * What the FreeRTOS lists hold

    Proofs about [RtList.v]: a listing gives the index and the items of every
    list, each operation is the operation on the listing, and the walk of
    [listGET_OWNER_OF_NEXT_ENTRY] comes by every item in turn. *)
From S2P Require Import Prelude RtList.
From Stdlib Require Import Sorting.Sorted.

Local Open Scope Z_scope.

Section rings.
Context {P L W : Type} `{Countable P} `{Countable L}.
Variable xListEnd : L -> P.
Context `{!Inj (=) (=) xListEnd}.

(** One list, with its index and its items in order. *)
Record is_ring (k : gmap P (MiniListItem_t P)) (e i : P) (xs : list P) : Prop := {
  ri_index : i ∈ e :: xs;
  ri_nodup : NoDup (e :: xs);
  ri_path : path k (e :: xs ++ [e]);
  ri_end : vl k e = Some portMAX_DELAY
}.

(** All lists at once: [G] gives the index and the items of each. *)
Abbreviation listing := (gmap L (P * list P)).
Record lists_ok (G : listing) (s : lstore P L W) : Prop := {
  lo_list : forall l i xs, G !! l = Some (i, xs) ->
    lists s !! l = Some (ListT (u32 (Z.of_nat (length xs))) i) /\
    is_ring (links s) (xListEnd l) i xs;
  lo_in : forall l i xs p, G !! l = Some (i, xs) -> p ∈ xs ->
    exists o, items s !! p = Some (ListItem o (Some l));
  lo_on : forall l p o, items s !! p = Some (ListItem o (Some l)) ->
    exists i xs, G !! l = Some (i, xs) /\ p ∈ xs;
  lo_end : forall l, items s !! xListEnd l = None;
  lo_dom : forall p, is_Some (items s !! p) -> is_Some (links s !! p)
}.

Lemma ring_cut (e : P) a b : e :: (a ++ b) ++ [e] = (e :: a) ++ b ++ [e].
Proof. cbn. by rewrite <- app_assoc. Qed.

(** Between [a] and [b] there are two nodes, the end marker included. *)
Lemma ring_gap (e : P) a b : exists l1 u w l2, e :: a = l1 ++ [u] /\ b ++ [e] = w :: l2.
Proof.
  destruct (exists_last (l := e :: a)) as (l1 & u & E1); [done|].
  destruct (b ++ [e]) as [|w l2] eqn:E2; [by destruct b|]. by exists l1, u, w, l2.
Qed.

Lemma ring_nodup (e : P) a b l1 u w l2 :
  e :: a = l1 ++ [u] -> b ++ [e] = w :: l2 -> NoDup (e :: a ++ b) ->
  NoDup (l1 ++ [u]) /\ NoDup (w :: l2) /\ w ∉ tail (l1 ++ [u]) /\ u ∉ removelast (w :: l2) /\
  u ∈ e :: a ++ b /\ w ∈ e :: a ++ b.
Proof.
  intros E1 E2 Hn. rewrite <- E1, <- E2. cbn [tail].
  rewrite removelast_last. apply NoDup_cons in Hn as [He (Na & Hab & Nb)%NoDup_app].
  split_and!.
  - apply NoDup_cons. set_solver.
  - apply NoDup_app. split_and!; [done|set_solver|apply NoDup_singleton].
  - intros Hw. destruct b as [|b0 b]; cbn in E2; injection E2 as <- E2; set_solver.
  - intros Hu. destruct (exists_last (l := e :: a)) as (l1' & u' & E1'); [done|].
    rewrite E1' in E1. apply app_inj_tail in E1 as [-> ->].
    assert (u ∈ e :: a) by (rewrite E1'; set_solver). set_solver.
  - assert (u ∈ e :: a) by (rewrite E1; set_solver). set_solver.
  - assert (w ∈ b ++ [e]) by (rewrite E2; set_solver). set_solver.
Qed.

Lemma ring_splice k k' e i a b it l1 u w l2 :
  is_ring k e i (a ++ b) -> it ∉ e :: a ++ b ->
  e :: a = l1 ++ [u] -> b ++ [e] = w :: l2 -> spliced k k' u it w ->
  is_ring k' e i (a ++ it :: b).
Proof.
  intros [Hi Hn Hp He] Hit E1 E2 Hs.
  destruct (ring_nodup e a b l1 u w l2 E1 E2 Hn) as (N1 & N2 & Hw & Hu & _).
  constructor.
  - set_solver.
  - change (e :: a ++ it :: b) with ((e :: a) ++ it :: b). rewrite <- Permutation_middle.
    by apply NoDup_cons.
  - rewrite ring_cut, E1, E2, <- app_assoc in Hp.
    rewrite ring_cut, E1. cbn [app]. rewrite E2, <- app_assoc.
    eapply spliced_path; [done..| |done|done|done].
    replace (l1 ++ u :: w :: l2) with ((e :: a) ++ b ++ [e]); [set_solver|].
    by rewrite E1, E2, <- app_assoc.
  - by rewrite (sp_vl _ _ _ _ _ Hs).
Qed.

Lemma ring_unlink k k' e i a b it l1 u w l2 i' :
  is_ring k e i (a ++ it :: b) -> i' ∈ e :: a ++ b ->
  e :: a = l1 ++ [u] -> b ++ [e] = w :: l2 -> unlinked k k' u it w ->
  is_ring k' e i' (a ++ b).
Proof.
  intros [Hi Hn Hp He] Hi' E1 E2 Hs.
  change (e :: a ++ it :: b) with ((e :: a) ++ it :: b) in Hn.
  rewrite <- Permutation_middle in Hn. apply NoDup_cons in Hn as [_ Hn].
  destruct (ring_nodup e a b l1 u w l2 E1 E2 Hn) as (N1 & N2 & Hw & Hu & _).
  constructor; [done..| |].
  - rewrite ring_cut, E1 in Hp. cbn [app] in Hp. rewrite E2, <- app_assoc in Hp.
    rewrite ring_cut, E1, E2, <- app_assoc. by eapply unlinked_path.
  - by rewrite (un_vl _ _ _ _ _ Hs).
Qed.

(** A ring is as before when its nodes are. *)
Lemma ring_frame k k' e i xs :
  (forall p, p ∈ e :: xs -> nx k' p = nx k p /\ pv k' p = pv k p) -> vl k' e = vl k e ->
  is_ring k e i xs -> is_ring k' e i xs.
Proof.
  intros Hk Hv [Hi Hn Hp He]. constructor; [done..| |by rewrite Hv].
  change (e :: xs ++ [e]) with ((e :: xs) ++ [e]) in *.
  eapply path_frame; [| |exact Hp]; intros p Hx; apply Hk; [done|]. cbn in Hx. set_solver.
Qed.

Lemma lists_ok_ends G s l l' i xs : lists_ok G s -> G !! l = Some (i, xs) -> xListEnd l' ∉ xs.
Proof.
  intros Hok Hl Hx. destruct (lo_in _ _ Hok _ _ _ _ Hl Hx) as [o E].
  by rewrite (lo_end _ _ Hok l') in E.
Qed.

Lemma lists_ok_disjoint G s l1 i1 xs1 l2 i2 xs2 p :
  lists_ok G s -> G !! l1 = Some (i1, xs1) -> G !! l2 = Some (i2, xs2) ->
  p ∈ xListEnd l1 :: xs1 -> p ∈ xListEnd l2 :: xs2 -> l1 = l2.
Proof.
  intros Hok H1 H2 [->|P1]%elem_of_cons [E|P2]%elem_of_cons.
  - by apply (inj xListEnd).
  - by destruct (lists_ok_ends _ _ _ l1 _ _ Hok H2).
  - subst. by destruct (lists_ok_ends _ _ _ l2 _ _ Hok H1).
  - destruct (lo_in _ _ Hok _ _ _ _ H1 P1) as [o1 E1].
    destruct (lo_in _ _ Hok _ _ _ _ H2 P2) as [o2 E2]. congruence.
Qed.

Lemma free_item G s l i xs it o :
  lists_ok G s -> G !! l = Some (i, xs) -> items s !! it = Some (ListItem o None) ->
  it ∉ xListEnd l :: xs.
Proof.
  intros Hok Hl Hit [->|Hx]%elem_of_cons.
  - by rewrite (lo_end _ _ Hok) in Hit.
  - destruct (lo_in _ _ Hok _ _ _ _ Hl Hx) as [? E]. congruence.
Qed.

(** The other lists do not notice a change of the nodes around [u] and [w]. *)
Lemma other_rings G s k' l i xs l' i' xs' (N : P -> Prop) :
  lists_ok G s -> G !! l = Some (i, xs) -> l' <> l -> G !! l' = Some (i', xs') ->
  (forall p, N p -> p ∈ xListEnd l :: xs \/ p ∉ xListEnd l' :: xs') ->
  (forall p, ~ N p -> nx k' p = nx (links s) p /\ pv k' p = pv (links s) p) ->
  (forall p, vl k' p = vl (links s) p) ->
  is_ring k' (xListEnd l') i' xs'.
Proof.
  intros Hok Hl Hne Hl' HN Hk Hv. destruct (lo_list _ _ Hok _ _ _ Hl') as [_ Hr].
  eapply ring_frame; [|by apply Hv|done]. intros p Hp. apply Hk. intros Hx.
  destruct (HN _ Hx) as [Hin|]; [|done]. by eapply Hne, lists_ok_disjoint.
Qed.

Lemma count_up n : add32 (u32 (Z.of_nat n)) 1 = u32 (Z.of_nat (S n)).
Proof. unfold add32, u32. rewrite Zplus_mod_idemp_l. f_equal. lia. Qed.
Lemma count_down n : sub32 (u32 (Z.of_nat (S n))) 1 = u32 (Z.of_nat n).
Proof. unfold sub32, u32. rewrite Zminus_mod_idemp_l. f_equal. lia. Qed.

Definition inserted (k' : gmap P (MiniListItem_t P)) (l : L) (it : P) (n : Z) (s : lstore P L W) :=
  LStore k' (alter (with_container (Some l)) it (items s)) (alter (with_count n) l (lists s)).

Lemma insert_ok G s l i a b it o u w l1 l2 k' :
  lists_ok G s -> G !! l = Some (i, a ++ b) -> items s !! it = Some (ListItem o None) ->
  xListEnd l :: a = l1 ++ [u] -> b ++ [xListEnd l] = w :: l2 ->
  spliced (links s) k' u it w ->
  lists_ok (<[l := (i, a ++ it :: b)]> G)
    (inserted k' l it (add32 (u32 (Z.of_nat (length (a ++ b)))) 1) s).
Proof.
  intros Hok Hl Hit E1 E2 Hs. pose proof (free_item _ _ _ _ _ _ _ Hok Hl Hit) as Hfree.
  destruct (lo_list _ _ Hok _ _ _ Hl) as [Ecount Hr].
  destruct (ring_nodup _ _ _ _ _ _ _ E1 E2 (ri_nodup _ _ _ _ Hr)) as (_ & _ & _ & _ & Hu & Hw).
  constructor; cbn [links items lists inserted].
  - intros l' i' xs'. destruct (decide (l' = l)) as [->|Hne].
    + rewrite lookup_insert_eq, lookup_alter_eq, Ecount. intros [= <- <-]. split.
      * cbn. unfold with_count. cbn. rewrite count_up, !length_app. cbn [length]. by rewrite Nat.add_succ_r.
      * by eapply ring_splice.
    + rewrite lookup_insert_ne, lookup_alter_ne by done. intros Hl'.
      split; [by apply (lo_list _ _ Hok)|].
      eapply (other_rings _ _ _ l _ _ _ _ _ (fun p => p = u \/ p = it \/ p = w)); try done.
      * intros p [-> |[-> | ->]]; [by left| |by left]. right. by eapply free_item.
      * intros p Hp. split; [apply (sp_nx _ _ _ _ _ Hs)|apply (sp_pv _ _ _ _ _ Hs)]; tauto.
      * apply (sp_vl _ _ _ _ _ Hs).
  - intros l' i' xs' p. destruct (decide (l' = l)) as [->|Hne].
    + rewrite lookup_insert_eq. intros [= <- <-] Hp. destruct (decide (p = it)) as [->|Hpi].
      * rewrite lookup_alter_eq, Hit. by exists o.
      * rewrite lookup_alter_ne by done. eapply (lo_in _ _ Hok); [done|set_solver].
    + rewrite lookup_insert_ne by done. intros Hl' Hp.
      destruct (decide (p = it)) as [->|Hpi].
      * destruct (lo_in _ _ Hok _ _ _ _ Hl' Hp). congruence.
      * rewrite lookup_alter_ne by done. by eapply (lo_in _ _ Hok).
  - intros l' p o'. destruct (decide (p = it)) as [->|Hpi].
    + rewrite lookup_alter_eq, Hit. intros [= _ <-]. exists i, (a ++ it :: b).
      rewrite lookup_insert_eq. split; [done|set_solver].
    + rewrite lookup_alter_ne by done. intros (i' & xs' & Hl' & Hp)%(lo_on _ _ Hok).
      destruct (decide (l' = l)) as [->|Hne].
      * exists i, (a ++ it :: b). rewrite lookup_insert_eq. split; [done|].
        rewrite Hl in Hl'. injection Hl' as <- <-. set_solver.
      * exists i', xs'. by rewrite lookup_insert_ne.
  - intros l'. rewrite lookup_alter_ne; [by apply (lo_end _ _ Hok)|].
    intros ->. by rewrite (lo_end _ _ Hok) in Hit.
  - intros p Hp%alter_is_Some. apply (sp_dom _ _ _ _ _ Hs), (lo_dom _ _ Hok), Hp.
Qed.

Lemma remove_ok G s l i i' a b it o u w l1 l2 k' ls' :
  lists_ok G s -> G !! l = Some (i, a ++ it :: b) -> items s !! it = Some (ListItem o (Some l)) ->
  i' ∈ xListEnd l :: a ++ b ->
  xListEnd l :: a = l1 ++ [u] -> b ++ [xListEnd l] = w :: l2 ->
  unlinked (links s) k' u it w ->
  ls' !! l = Some (ListT (u32 (Z.of_nat (length (a ++ b)))) i') ->
  (forall l', l' <> l -> ls' !! l' = lists s !! l') ->
  lists_ok (<[l := (i', a ++ b)]> G) (LStore k' (alter (with_container None) it (items s)) ls').
Proof.
  intros Hok Hl Hit Hi' E1 E2 Hs Hls Hls'.
  destruct (lo_list _ _ Hok _ _ _ Hl) as [_ Hr].
  assert (Hn : NoDup (xListEnd l :: a ++ b) /\ it ∉ a ++ b).
  { pose proof (ri_nodup _ _ _ _ Hr) as Hn.
    change (xListEnd l :: a ++ it :: b) with ((xListEnd l :: a) ++ it :: b) in Hn.
    rewrite <- Permutation_middle in Hn. apply NoDup_cons in Hn as [? ?]. cbn in *. set_solver. }
  destruct Hn as [Hn Hia].
  destruct (ring_nodup _ _ _ _ _ _ _ E1 E2 Hn) as (_ & _ & _ & _ & Hu & Hw).
  constructor; cbn [links items lists].
  - intros l' j xs'. destruct (decide (l' = l)) as [->|Hne].
    + rewrite lookup_insert_eq, Hls. intros [= <- <-]. split; [done|]. by eapply ring_unlink.
    + rewrite lookup_insert_ne, Hls' by done. intros Hl'.
      split; [by apply (lo_list _ _ Hok)|].
      eapply (other_rings _ _ _ l _ _ _ _ _ (fun p => p = u \/ p = w)); try done.
      * intros p [-> | ->]; left; set_solver.
      * intros p Hp. split; [apply (un_nx _ _ _ _ _ Hs)|apply (un_pv _ _ _ _ _ Hs)]; tauto.
      * apply (un_vl _ _ _ _ _ Hs).
  - intros l' j xs' p. destruct (decide (l' = l)) as [->|Hne].
    + rewrite lookup_insert_eq. intros [= <- <-] Hp.
      rewrite lookup_alter_ne by set_solver. eapply (lo_in _ _ Hok); [done|set_solver].
    + rewrite lookup_insert_ne by done. intros Hl' Hp.
      destruct (lo_in _ _ Hok _ _ _ _ Hl' Hp) as [o' E].
      rewrite lookup_alter_ne; [by exists o'|]. congruence.
  - intros l' p o'. destruct (decide (p = it)) as [->|Hpi].
    + rewrite lookup_alter_eq, Hit. done.
    + rewrite lookup_alter_ne by done. intros (j & xs' & Hl' & Hp)%(lo_on _ _ Hok).
      destruct (decide (l' = l)) as [->|Hne].
      * exists i', (a ++ b). rewrite lookup_insert_eq. split; [done|].
        rewrite Hl in Hl'. injection Hl' as <- <-. set_solver.
      * exists j, xs'. by rewrite lookup_insert_ne.
  - intros l'. rewrite lookup_alter_ne; [by apply (lo_end _ _ Hok)|].
    intros ->. by rewrite (lo_end _ _ Hok) in Hit.
  - intros p Hp%alter_is_Some. apply (un_dom _ _ _ _ _ Hs), (lo_dom _ _ Hok), Hp.
Qed.

(** The nodes around a gap: their links, and that they are in the store. *)
Lemma gap_nodes G s l i a b l1 u w l2 :
  lists_ok G s -> G !! l = Some (i, a ++ b) ->
  xListEnd l :: a = l1 ++ [u] -> b ++ [xListEnd l] = w :: l2 ->
  edge (links s) u w /\ u ∈ xListEnd l :: a ++ b /\ w ∈ xListEnd l :: a ++ b /\
  is_Some (links s !! u) /\ is_Some (links s !! w).
Proof.
  intros Hok Hl E1 E2. destruct (lo_list _ _ Hok _ _ _ Hl) as [_ [_ Hn Hp _]].
  destruct (ring_nodup _ _ _ _ _ _ _ E1 E2 Hn) as (_ & _ & _ & _ & Hu & Hw).
  pose proof (path_dom _ _ _ Hp) as Hd.
  split_and!; try done; try by apply Hd.
  rewrite ring_cut, E1, E2, <- app_assoc in Hp. by apply path_lookup in Hp.
Qed.

(** *** The abstract operations *)

(** Before the index, or at the end when the index is the end marker. *)
Fixpoint insert_before (i it : P) (xs : list P) : list P :=
  match xs with
  | [] => [it]
  | x :: xs' => if decide (x = i) then it :: xs else x :: insert_before i it xs'
  end.

(** After the items whose value is at most [v]. *)
Fixpoint insert_value (val : P -> option Z) (v : Z) (it : P) (xs : list P) : list P :=
  match xs with
  | [] => [it]
  | x :: xs' =>
      if from_option (fun w => w <=? v) false (val x) then x :: insert_value val v it xs' else it :: xs
  end.

Lemma before_split e i it xs :
  i ∈ e :: xs -> NoDup (e :: xs) ->
  exists a b l2, xs = a ++ b /\ insert_before i it xs = a ++ it :: b /\ b ++ [e] = i :: l2.
Proof.
  intros Hi [He _]%NoDup_cons. induction xs as [|x xs IH].
  - exists [], [], []. apply list_elem_of_singleton in Hi as ->. done.
  - cbn [insert_before]. destruct (decide (x = i)) as [->|Hx].
    + by exists [], (i :: xs), (xs ++ [e]).
    + destruct IH as (a & b & l2 & -> & -> & E); [set_solver..|]. by exists (x :: a), b, l2.
Qed.

(** What an operation leaves alone: the values, the owners and every node. *)
Definition same_data (s s' : lstore P L W) : Prop :=
  (forall p, vl (links s') p = vl (links s) p) /\
  (forall p, pvOwner <$> items s' !! p = pvOwner <$> items s !! p).

Lemma owner_alter c p q (it : gmap P (ListItem_t L W)) :
  pvOwner <$> alter (with_container c) p it !! q = pvOwner <$> it !! q.
Proof. rewrite lookup_alter. destruct (decide _) as [->|]; [|done]. by destruct (it !! q). Qed.

Ltac links_of := cbn [links items lists]; autorewrite with rt_links; cbn [links items lists].
Ltac node_cases :=
  repeat match goal with |- context [decide ?Q] => destruct (decide Q) end; try congruence; try tauto.

Lemma vListInsertEnd_run G s l i xs it o :
  lists_ok G s -> G !! l = Some (i, xs) -> items s !! it = Some (ListItem o None) ->
  exists s', vListInsertEnd l it s = Ok tt s' /\
    lists_ok (<[l := (i, insert_before i it xs)]> G) s' /\
    items s' = alter (with_container (Some l)) it (items s) /\
    (forall p, vl (links s') p = vl (links s) p).
Proof.
  intros Hok Hl Hit. destruct (lo_list _ _ Hok _ _ _ Hl) as [Hc Hr].
  destruct (before_split (xListEnd l) i it xs) as (a & b & l2 & -> & Ea & E2);
    [apply (ri_index _ _ _ _ Hr)|apply (ri_nodup _ _ _ _ Hr)|].
  destruct (exists_last (l := xListEnd l :: a)) as (l1 & u & E1); [done|].
  destruct (gap_nodes _ _ _ _ _ _ _ _ _ _ Hok Hl E1 E2) as ([Hn Hp] & Hu & Hw & Du & Dw).
  pose proof (free_item _ _ _ _ _ _ _ Hok Hl Hit) as Hfree.
  pose proof (lo_dom _ _ Hok it ltac:(by eexists)) as Di.
  assert (Hui : u <> it) by (intros ->; done). assert (Hwi : i <> it) by (intros ->; done).
  destruct s as [k its ls]. cbn [links items lists] in *.
  unfold vListInsertEnd. rewrite (ld_list_run _ _ _ _ _ _ Hc). cbn [pxIndex].
  unfold st_next, st_previous, st_container.
  rewrite st_link_run by done.
  rewrite (ld_previous_run _ u) by (links_of; done).
  rewrite st_link_run by (by rewrite alter_is_Some).
  rewrite (ld_previous_run _ u) by (links_of; node_cases).
  rewrite st_link_run by (by rewrite !alter_is_Some).
  rewrite st_link_run by (by rewrite !alter_is_Some).
  rewrite st_item_run by (by eexists).
  rewrite (ld_list_run _ _ _ _ _ _ Hc). cbn [uxNumberOfItems]. unfold st_count.
  rewrite st_list_end by (by eexists).
  eexists. split; [done|]. rewrite Ea. split; [|split; [done|intros p; by links_of]].
  apply (insert_ok G (LStore k its ls) l i a b it o u i l1 l2); try done.
  constructor; cbn [links].
  - intros p. by rewrite !alter_is_Some.
  - unfold edge. links_of. node_cases.
  - intros p ? ?. links_of. node_cases.
  - intros p ? ?. links_of. node_cases.
  - intros p. by links_of.
Qed.

Definition at_most (val : P -> option Z) (v : Z) (p : P) : Prop :=
  exists w, val p = Some w /\ w <= v.

Lemma value_split val v it xs :
  (forall p, p ∈ xs -> is_Some (val p)) ->
  exists a b, xs = a ++ b /\ insert_value val v it xs = a ++ it :: b /\
    Forall (at_most val v) a /\ forall p b', b = p :: b' -> exists w, val p = Some w /\ v < w.
Proof.
  induction xs as [|x xs IH]; intros Hd.
  - by exists [], [].
  - cbn [insert_value]. destruct (Hd x ltac:(set_solver)) as [w Ew]. rewrite Ew. cbn.
    destruct (Z.leb_spec w v).
    + destruct IH as (a & b & -> & -> & Ha & Hb); [set_solver|].
      exists (x :: a), b. split_and!; [done..| |done]. constructor; [by exists w|done].
    + exists [], (x :: xs). split_and!; [done..|]. intros p b' [= <- _]. by exists w.
Qed.

Lemma insert_value_all val v it xs :
  Forall (at_most val v) xs -> insert_value val v it xs = xs ++ [it].
Proof.
  induction 1 as [|x xs (w & E & Hw) _ IH]; [done|]. cbn. rewrite E. cbn.
  destruct (Z.leb_spec w v); [by rewrite IH|lia].
Qed.

Lemma find_position_run {B} (f : P -> M (lstore P L W) B) k its ls v a c w l1 u l2 w0 fuel :
  path k (c :: a ++ w :: l2) -> Forall (at_most (vl k) v) a -> vl k w = Some w0 -> v < w0 ->
  (length a < fuel)%nat -> c :: a = l1 ++ [u] ->
  (find_position fuel c v ≫= f) (LStore k its ls) = f u (LStore k its ls).
Proof.
  revert c l1 fuel. induction a as [|x a IH]; intros c l1 [|fuel] Hp Ha Hw Hv Hf E; try (cbn in Hf; lia).
  - destruct (app_inj_tail [] l1 c u E) as [_ <-]. apply path_cons in Hp as [[Hn _] _].
    cbn [find_position]. rewrite bind_assoc, (ld_next_run _ w) by done.
    rewrite bind_assoc, (ld_value_run _ w0) by done. destruct (Z.leb_spec w0 v); [lia|done].
  - apply path_cons in Hp as [[Hn _] Hp]. apply Forall_cons in Ha as [(wx & Ex & Hx) Ha].
    cbn [find_position]. rewrite bind_assoc, (ld_next_run _ x) by done.
    rewrite bind_assoc, (ld_value_run _ wx) by done. destruct (Z.leb_spec wx v); [|lia].
    rewrite bind_assoc, (ld_next_run _ x) by done.
    destruct l1 as [|c' l1]; [done|]. injection E as <- E. cbn in Hf.
    eapply IH; try done. lia.
Qed.

Lemma ring_size G s l i xs :
  lists_ok G s -> G !! l = Some (i, xs) -> (length xs <= size (links s))%nat.
Proof.
  intros Hok Hl. destruct (lo_list _ _ Hok _ _ _ Hl) as [_ Hr].
  pose proof (ri_nodup _ _ _ _ Hr) as [_ Hn]%NoDup_cons.
  pose proof (path_dom _ _ _ (ri_path _ _ _ _ Hr)) as Hd.
  rewrite <- size_dom, <- (size_list_to_set (C := gset P) xs) by done. apply subseteq_size.
  intros p Hp%elem_of_list_to_set. apply elem_of_dom, Hd. by right.
Qed.

(** The node a sorted insertion starts from. *)
Lemma insert_position_run {B} (f : P -> M (lstore P L W) B) G k its ls l i a b v l1 u :
  lists_ok G (LStore k its ls) -> G !! l = Some (i, a ++ b) -> v <= portMAX_DELAY ->
  Forall (at_most (vl k) v) a -> (forall p b', b = p :: b' -> exists w, vl k p = Some w /\ v < w) ->
  (forall p, p ∈ a ++ b -> at_most (vl k) portMAX_DELAY p) ->
  xListEnd l :: a = l1 ++ [u] ->
  ((if v =? portMAX_DELAY then ld_previous (xListEnd l)
    else s ← get; find_position (S (size (links s))) (xListEnd l) v) ≫= f) (LStore k its ls) =
  f u (LStore k its ls).
Proof.
  intros Hok Hl Hv Ha Hb Hmax E1.
  destruct (lo_list _ _ Hok _ _ _ Hl) as [_ [_ Hnd Hp He]]. cbn [links] in *.
  destruct (Z.eqb_spec v portMAX_DELAY) as [->|Hne].
  - assert (b = []) as ->.
    { destruct b as [|p b']; [done|]. destruct (Hb p b' eq_refl) as (w & Ew & Hw).
      destruct (Hmax p ltac:(set_solver)) as (w' & Ew' & Hw'). rewrite Ew in Ew'.
      injection Ew' as ->. lia. }
    rewrite ring_cut, E1 in Hp. cbn [app] in Hp. rewrite <- app_assoc in Hp.
    apply path_lookup in Hp as [_ Hp]. by rewrite (ld_previous_run _ u).
  - destruct (b ++ [xListEnd l]) as [|w l2] eqn:E2; [by destruct b|].
    assert (exists w0, vl k w = Some w0 /\ v < w0) as (w0 & Ew & Hw).
    { destruct b as [|p b']; injection E2 as <- _; [exists portMAX_DELAY; split; [done|lia]|].
      by eapply Hb. }
    rewrite bind_assoc, bind_get. cbn [links].
    rewrite ring_cut, E2 in Hp. eapply (find_position_run _ _ _ _ _ a _ w l1 u l2 w0); try done.
    pose proof (ring_size _ _ _ _ _ Hok Hl). cbn [links] in *. rewrite length_app in *. lia.
Qed.

Lemma vListInsert_run G s l i xs it o v :
  lists_ok G s -> G !! l = Some (i, xs) -> items s !! it = Some (ListItem o None) ->
  vl (links s) it = Some v -> v <= portMAX_DELAY ->
  (forall p, p ∈ xs -> at_most (vl (links s)) portMAX_DELAY p) ->
  exists s', vListInsert xListEnd l it s = Ok tt s' /\
    lists_ok (<[l := (i, insert_value (vl (links s)) v it xs)]> G) s' /\
    items s' = alter (with_container (Some l)) it (items s) /\
    (forall p, vl (links s') p = vl (links s) p).
Proof.
  intros Hok Hl Hit Ev Hv Hmax. destruct (lo_list _ _ Hok _ _ _ Hl) as [Hc Hr].
  destruct (value_split (vl (links s)) v it xs) as (a & b & -> & Ea & Ha & Hb);
    [intros p Hp; destruct (Hmax p Hp) as (w & -> & _); by eexists|].
  destruct (ring_gap (xListEnd l) a b) as (l1 & u & w & l2 & E1 & E2).
  destruct (gap_nodes _ _ _ _ _ _ _ _ _ _ Hok Hl E1 E2) as ([Hn Hp] & Hu & Hw & Du & Dw).
  pose proof (free_item _ _ _ _ _ _ _ Hok Hl Hit) as Hfree.
  pose proof (lo_dom _ _ Hok it ltac:(by eexists)) as Di.
  assert (Hui : u <> it) by (intros ->; done). assert (Hwi : w <> it) by (intros ->; done).
  destruct s as [k its ls]. cbn [links items lists] in *.
  unfold vListInsert. rewrite (ld_value_run _ v) by done.
  erewrite (insert_position_run _ G k its ls l i a b v l1 u) by done.
  rewrite (ld_next_run _ w) by done.
  unfold st_next, st_previous, st_container. rewrite st_link_run by done.
  rewrite (ld_next_run _ w) by (links_of; node_cases).
  rewrite st_link_run by (by rewrite alter_is_Some).
  rewrite st_link_run by (by rewrite !alter_is_Some).
  rewrite st_link_run by (by rewrite !alter_is_Some).
  rewrite st_item_run by (by eexists).
  rewrite (ld_list_run _ _ _ _ _ _ Hc). cbn [uxNumberOfItems]. unfold st_count.
  rewrite st_list_end by (by eexists).
  eexists. split; [done|]. rewrite Ea. split; [|split; [done|intros p; by links_of]].
  apply (insert_ok G (LStore k its ls) l i a b it o u w l1 l2); try done.
  constructor; cbn [links].
  - intros p. by rewrite !alter_is_Some.
  - unfold edge. links_of. node_cases.
  - intros p ? ?. links_of. node_cases.
  - intros p ? ?. links_of. node_cases.
  - intros p. by links_of.
Qed.

(** The item before one that is taken out. *)
Fixpoint item_before (e it : P) (xs : list P) : P :=
  match xs with
  | [] => e
  | x :: xs' => if decide (x = it) then e else item_before x it xs'
  end.

Lemma before_in_split e it a b l1 u :
  it ∉ a -> e :: a = l1 ++ [u] -> item_before e it (a ++ it :: b) = u.
Proof.
  revert e l1. induction a as [|x a IH]; intros e l1 Hit E.
  - destruct (app_inj_tail [] l1 e u E) as [_ <-]. cbn. by rewrite decide_True.
  - cbn. rewrite decide_False by set_solver. destruct l1 as [|? l1]; [done|].
    injection E as _ E. by apply (IH x l1); [set_solver|].
Qed.

Definition remove_item (it : P) (xs : list P) : list P := filter (fun p => p <> it) xs.
Definition index_after (e i it : P) (xs : list P) : P :=
  if decide (i = it) then item_before e it xs else i.

Lemma remove_item_notin it a : it ∉ a -> remove_item it a = a.
Proof.
  unfold remove_item. induction a as [|x a IH]; [done|]. intros Ha.
  rewrite filter_cons_True by set_solver. rewrite IH by set_solver. done.
Qed.

Lemma remove_item_split it a b :
  it ∉ a -> it ∉ b -> remove_item it (a ++ it :: b) = a ++ b.
Proof.
  intros Ha Hb. unfold remove_item. rewrite filter_app, filter_cons_False by tauto.
  fold (remove_item it a) (remove_item it b). by rewrite !remove_item_notin.
Qed.

Lemma alter_get {A} `{Countable K} (f : A -> A) (j : K) (m : gmap K A) x :
  m !! j = Some x -> alter f j m !! j = Some (f x).
Proof. intros E. by rewrite lookup_alter_eq, E. Qed.

Lemma uxListRemove_run G s l i xs it o :
  lists_ok G s -> G !! l = Some (i, xs) -> items s !! it = Some (ListItem o (Some l)) ->
  exists s', uxListRemove it s = Ok (u32 (Z.of_nat (length (remove_item it xs)))) s' /\
    lists_ok (<[l := (index_after (xListEnd l) i it xs, remove_item it xs)]> G) s' /\
    items s' = alter (with_container None) it (items s) /\
    (forall p, vl (links s') p = vl (links s) p).
Proof.
  intros Hok Hl Hit. destruct (lo_list _ _ Hok _ _ _ Hl) as [Hc Hr].
  destruct (lo_on _ _ Hok _ _ _ Hit) as (i' & xs' & Hl' & Hin). rewrite Hl in Hl'.
  injection Hl' as <- <-. apply list_elem_of_split in Hin as (a & b & ->).
  pose proof (ri_nodup _ _ _ _ Hr) as Hnd.
  assert (Hab : it ∉ a /\ it ∉ b /\ it <> xListEnd l).
  { apply NoDup_cons in Hnd as [He (_ & H1 & [H2 _]%NoDup_cons)%NoDup_app]. set_solver. }
  destruct Hab as (Ha & Hb & He).
  destruct (ring_gap (xListEnd l) a b) as (l1 & u & w & l2 & E1 & E2).
  assert (Eu : edge (links s) u it /\ edge (links s) it w).
  { pose proof (ri_path _ _ _ _ Hr) as Hp. rewrite ring_cut, E1 in Hp. cbn [app] in Hp.
    rewrite E2, <- app_assoc in Hp. apply path_mid in Hp as (_ & ? & [? _]%path_cons). done. }
  destruct Eu as [[N1 P1] [N2 P2]].
  assert (Du : is_Some (links s !! u)) by (by eapply nx_is_Some).
  assert (Dw : is_Some (links s !! w)) by (by eapply pv_is_Some).
  assert (Hu : u ∈ xListEnd l :: a ++ b)
    by (assert (u ∈ xListEnd l :: a) by (rewrite E1; set_solver); set_solver).
  assert (Hw : w ∈ xListEnd l :: a ++ b)
    by (assert (w ∈ b ++ [xListEnd l]) by (rewrite E2; set_solver); set_solver).
  assert (Hui : u <> it) by set_solver. assert (Hwi : w <> it) by set_solver.
  unfold index_after. rewrite (before_in_split _ _ _ _ _ _ Ha E1), (remove_item_split _ _ _ Ha Hb).
  destruct s as [k its ls]. cbn [links items lists] in *.
  unfold uxListRemove. rewrite (ld_item_run _ _ _ _ _ _ Hit). cbn [pxContainer].
  rewrite (ld_next_run _ w), (ld_previous_run _ u) by done.
  unfold st_next, st_previous, st_container. rewrite st_link_run by done.
  rewrite (ld_previous_run _ u) by (links_of; node_cases).
  rewrite (ld_next_run _ w) by (links_of; node_cases).
  rewrite st_link_run by (by rewrite alter_is_Some).
  rewrite (ld_list_run _ _ _ _ _ _ Hc). cbn [pxIndex].
  set (k' := alter (with_next w) u (alter (with_previous u) w k)).
  assert (Hun : unlinked k k' u it w).
  { unfold k'. constructor.
    - intros p. by rewrite !alter_is_Some.
    - unfold edge. links_of. node_cases.
    - intros p ?. links_of. node_cases.
    - intros p ?. links_of. node_cases.
    - intros p. by links_of. }
  assert (Hi' : (if decide (i = it) then u else i) ∈ xListEnd l :: a ++ b).
  { pose proof (ri_index _ _ _ _ Hr). destruct (decide (i = it)); [done|set_solver]. }
  assert (Hlen : sub32 (u32 (Z.of_nat (length (a ++ it :: b)))) 1 = u32 (Z.of_nat (length (a ++ b)))).
  { rewrite !length_app. cbn [length]. rewrite Nat.add_succ_r. apply count_down. }
  assert (Hpu : pv k' it = Some u) by (unfold k'; links_of; node_cases).
  unfold when, st_index, st_count. destruct (decide (i = it)) as [->|Hne].
  - rewrite bool_decide_true by done. rewrite bind_assoc, (ld_previous_run _ u) by done.
    rewrite st_list_run by (by eexists). rewrite st_item_run by (by eexists).
    erewrite ld_list_run by by apply alter_get.
    rewrite st_list_run by (rewrite alter_is_Some; by eexists).
    erewrite ld_list_run by by apply alter_get, alter_get. cbn [uxNumberOfItems with_index with_count].
    rewrite Hlen. eexists. split; [done|]. split; [|split; [done|apply Hun]].
    eapply (remove_ok G (LStore k its ls)); try done.
    + erewrite alter_get by by apply alter_get. done.
    + intros l' Hl'. by rewrite !lookup_alter_ne.
  - rewrite bool_decide_false, bind_ret by done. rewrite st_item_run by (by eexists).
    rewrite (ld_list_run _ _ _ _ _ _ Hc), st_list_run by (by eexists).
    erewrite ld_list_run by by apply alter_get. cbn [uxNumberOfItems with_index with_count].
    rewrite Hlen. eexists. split; [done|]. split; [|split; [done|apply Hun]].
    eapply (remove_ok G (LStore k its ls)); try done.
    + by rewrite (alter_get _ _ _ _ Hc).
    + intros l' Hl'. by rewrite !lookup_alter_ne.
Qed.

(** *** Round robin

    The order in which [listGET_OWNER_OF_NEXT_ENTRY] comes by the items: those
    after the index, then those up to it. *)
Fixpoint items_after (i : P) (xs : list P) : list P :=
  match xs with
  | [] => []
  | x :: xs' => if decide (x = i) then xs' else items_after i xs'
  end.
Fixpoint items_upto (i : P) (xs : list P) : list P :=
  match xs with
  | [] => []
  | x :: xs' => if decide (x = i) then [x] else x :: items_upto i xs'
  end.
Definition turn_order (i : P) (xs : list P) : list P := items_after i xs ++ items_upto i xs.

Lemma turn_order_split i a b : i ∉ a -> turn_order i (a ++ i :: b) = b ++ a ++ [i].
Proof.
  intros Ha. unfold turn_order. cut (items_after i (a ++ i :: b) = b /\ items_upto i (a ++ i :: b) = a ++ [i]).
  { by intros [-> ->]. }
  induction a as [|x a IH]; cbn; [by rewrite !decide_True|].
  rewrite !decide_False by set_solver. destruct IH as [-> ->]; [set_solver|done].
Qed.
Lemma turn_order_head x rest : turn_order x (x :: rest) = rest ++ [x].
Proof. apply (turn_order_split x [] rest). set_solver. Qed.
Lemma turn_order_end i xs : i ∉ xs -> turn_order i xs = xs.
Proof.
  intros Hi. unfold turn_order. cut (items_after i xs = [] /\ items_upto i xs = xs).
  { by intros [-> ->]. }
  induction xs as [|x xs IH]; [done|]. cbn. rewrite !decide_False by set_solver.
  destruct IH as [-> ->]; [set_solver|done].
Qed.

Lemma turn_order_insert_end i it xs :
  i ∉ xs -> turn_order i (insert_before i it xs) = turn_order i xs ++ [it] \/ it = i.
Proof.
  intros Hi. destruct (decide (it = i)) as [|Hne]; [by right|left].
  assert (insert_before i it xs = xs ++ [it]) as ->.
  { induction xs as [|x xs IH]; [done|]. cbn. rewrite decide_False by set_solver.
    by rewrite IH by set_solver. }
  rewrite !turn_order_end by set_solver. done.
Qed.
Lemma turn_order_insert i it a b :
  i ∉ a -> it <> i ->
  turn_order i (insert_before i it (a ++ i :: b)) = b ++ a ++ [it; i].
Proof.
  intros Ha Hne.
  assert (insert_before i it (a ++ i :: b) = (a ++ [it]) ++ i :: b) as ->.
  { induction a as [|x a IH]; cbn; [by rewrite decide_True|].
    rewrite decide_False by set_solver. by rewrite IH by set_solver. }
  rewrite turn_order_split by set_solver. by rewrite <- app_assoc.
Qed.

Lemma turn_order_perm i xs : turn_order i xs ≡ₚ xs.
Proof.
  destruct (decide (i ∈ xs)) as [Hi|Hi]; [|by rewrite turn_order_end].
  unfold turn_order. clear Hi. induction xs as [|x xs IH]; [done|]. cbn.
  destruct (decide (x = i)) as [->|]; [by rewrite Permutation_app_comm|].
  rewrite <- Permutation_middle. by constructor.
Qed.

(** Moving the index on does not change the links. *)
Lemma index_ok G s l i xs j :
  lists_ok G s -> G !! l = Some (i, xs) -> j ∈ xListEnd l :: xs ->
  lists_ok (<[l := (j, xs)]> G) (LStore (links s) (items s) (alter (with_index j) l (lists s))).
Proof.
  intros Hok Hl Hj. destruct (lo_list _ _ Hok _ _ _ Hl) as [Hc [Hi Hn Hp He]].
  constructor; cbn [links items lists].
  - intros l' i' xs'. destruct (decide (l' = l)) as [->|Hne].
    + rewrite lookup_insert_eq. intros [= <- <-]. rewrite (alter_get _ _ _ _ Hc). by split.
    + rewrite lookup_insert_ne, lookup_alter_ne by done. apply (lo_list _ _ Hok).
  - intros l' i' xs' p. destruct (decide (l' = l)) as [->|Hne].
    + rewrite lookup_insert_eq. intros [= <- <-]. by apply (lo_in _ _ Hok l i).
    + rewrite lookup_insert_ne by done. apply (lo_in _ _ Hok).
  - intros l' p o (i' & xs' & Hl' & Hx)%(lo_on _ _ Hok).
    destruct (decide (l' = l)) as [->|Hne].
    + exists j, xs'. rewrite lookup_insert_eq. rewrite Hl in Hl'. by injection Hl' as <- <-.
    + exists i', xs'. by rewrite lookup_insert_ne.
  - apply (lo_end _ _ Hok).
  - apply (lo_dom _ _ Hok).
Qed.

(** The item that comes next, and the order that is left. *)
Lemma turn_order_next i xs x rest e :
  i ∈ e :: xs -> NoDup (e :: xs) -> turn_order i xs = x :: rest ->
  turn_order x xs = rest ++ [x] /\ x ∈ xs /\
  ((exists l1 l2, e :: xs ++ [e] = l1 ++ i :: x :: l2) \/
   ((exists l1, e :: xs ++ [e] = l1 ++ [i; e]) /\ exists l2, xs = x :: l2)).
Proof.
  intros Hi Hn Ht. apply NoDup_cons in Hn as [He Hn].
  assert (Hx : x ∈ xs) by (rewrite <- (turn_order_perm i xs), Ht; set_solver).
  destruct (decide (i ∈ xs)) as [Hin|Hin].
  - apply list_elem_of_split in Hin as (a & b & ->).
    apply NoDup_app in Hn as (Na & Hab & Nb). apply NoDup_cons in Nb as [Hib Nb].
    assert (i ∉ a) by set_solver. rewrite turn_order_split in Ht by done.
    destruct b as [|y b]; cbn in Ht.
    + destruct a as [|y a]; injection Ht as -> <-.
      * split_and!; [apply turn_order_head|done|].
        right. split; [by exists [e]|by eexists].
      * apply NoDup_cons in Na as [? ?]. split_and!.
        -- apply (turn_order_head x (a ++ [i])).
        -- done.
        -- right. split; [|by eexists]. exists (e :: x :: a). cbn. by rewrite <- app_assoc.
    + injection Ht as -> <-. apply NoDup_cons in Nb as [Hxb Nb]. split_and!; [|done|].
      * replace (a ++ i :: x :: b) with ((a ++ [i]) ++ x :: b) by (by rewrite <- app_assoc).
        rewrite turn_order_split; [by rewrite <- !app_assoc|]. set_solver.
      * left. exists (e :: a), (b ++ [e]). cbn. by rewrite <- app_assoc.
  - assert (i = e) as -> by set_solver. rewrite turn_order_end in Ht by done. subst xs.
    apply NoDup_cons in Hn as [Hxr Hn]. split_and!; [|set_solver|].
    + apply turn_order_head.
    + left. by exists [], (rest ++ [e]).
Qed.

Lemma with_index_twice x y l (ls : gmap L (List_t P)) :
  alter (with_index x) l (alter (with_index y) l ls) = alter (with_index x) l ls.
Proof.
  apply map_eq. intros l'. rewrite !lookup_alter. destruct (decide (l = l')) as [<-|]; [rewrite decide_True by done|done].
  by destruct (ls !! l).
Qed.

Lemma next_entry_run G s l i xs x rest o :
  lists_ok G s -> G !! l = Some (i, xs) -> turn_order i xs = x :: rest ->
  items s !! x = Some (ListItem o (Some l)) ->
  listGET_OWNER_OF_NEXT_ENTRY xListEnd l s =
    Ok o (LStore (links s) (items s) (alter (with_index x) l (lists s))).
Proof.
  intros Hok Hl Ht Hx. destruct (lo_list _ _ Hok _ _ _ Hl) as [Hc [Hi Hn Hp He]].
  destruct (turn_order_next i xs x rest (xListEnd l) Hi Hn Ht) as (_ & Hin & Hcase).
  assert (Hxe : x <> xListEnd l) by (intros ->; by apply NoDup_cons in Hn as [? _]).
  destruct s as [k its ls]. cbn [links items lists] in *.
  unfold listGET_OWNER_OF_NEXT_ENTRY. rewrite (ld_list_run _ _ _ _ _ _ Hc). cbn [pxIndex].
  assert (Hown : forall ls', listGET_LIST_ITEM_OWNER x (LStore k its ls') = Ok o (LStore k its ls')).
  { intros ls'. unfold listGET_LIST_ITEM_OWNER. by rewrite (ld_item_run _ _ _ _ _ _ Hx). }
  unfold st_index.
  destruct Hcase as [(l1 & l2 & E)|[(l1 & E) (l2 & Ex)]]; rewrite E in Hp.
  - apply path_lookup in Hp as [Hnx _]. rewrite (ld_next_run _ x) by done.
    rewrite st_list_run by (by eexists). erewrite ld_list_run by by apply alter_get.
    cbn [pxIndex with_index]. rewrite bool_decide_false by done. unfold when. rewrite bind_ret.
    erewrite ld_list_run by by apply alter_get. cbn [pxIndex with_index]. apply Hown.
  - assert (Hnx : nx k (xListEnd l) = Some x).
    { rewrite <- E, Ex in Hp. by apply path_cons in Hp as [[? _] _]. }
    apply (path_lookup k l1 i (xListEnd l) []) in Hp as [Hne _].
    rewrite (ld_next_run _ (xListEnd l)) by done.
    rewrite st_list_run by (by eexists). erewrite ld_list_run by by apply alter_get.
    cbn [pxIndex with_index]. rewrite bool_decide_true by done. unfold when.
    rewrite bind_assoc, (ld_next_run _ x) by done.
    rewrite st_list_run by (rewrite alter_is_Some; by eexists).
    erewrite ld_list_run by by apply alter_get, alter_get. cbn [pxIndex with_index].
    by rewrite Hown, with_index_twice.
Qed.

(** *** Sorted lists *)
Definition le_value (val : P -> option Z) (p q : P) : Prop :=
  forall v w, val p = Some v -> val q = Some w -> v <= w.
Definition sorted_by (val : P -> option Z) : list P -> Prop := StronglySorted (le_value val).
Definition greater (val : P -> option Z) (v : Z) (p : P) : Prop :=
  exists w, val p = Some w /\ v < w.

(** In a sorted list the items after the place of insertion are greater: the
    new item comes after those of its own value. *)
Lemma insert_value_sorted val v it xs :
  sorted_by val xs -> val it = Some v -> (forall p, p ∈ xs -> is_Some (val p)) ->
  exists a b, xs = a ++ b /\ insert_value val v it xs = a ++ it :: b /\
    Forall (at_most val v) a /\ Forall (greater val v) b /\ sorted_by val (a ++ it :: b).
Proof.
  intros Hs Hv. induction Hs as [|x xs Hs IH Hx]; intros Hd.
  - exists [], []. split_and!; try done. repeat constructor.
  - destruct (Hd x ltac:(set_solver)) as [w Ew]. cbn [insert_value]. rewrite Ew. cbn [from_option].
    destruct (Z.leb_spec w v).
    + destruct IH as (a & b & -> & -> & Ha & Hb & Hsort); [set_solver|].
      exists (x :: a), b. split_and!; [done..| |done|].
      * constructor; [by exists w|done].
      * apply Forall_app in Hx as [Hxa Hxb]. constructor; [done|].
        apply Forall_app. split; [done|]. constructor; [|done].
        intros v1 v2. rewrite Ew, Hv. intros [= <-] [= <-]. done.
    + assert (Hb : Forall (greater val v) (x :: xs)).
      { constructor; [by exists w|]. apply Forall_forall. intros p Hp.
        rewrite Forall_forall in Hx. destruct (Hd p ltac:(set_solver)) as [wp Ep].
        exists wp. split; [done|]. specialize (Hx p Hp w wp Ew Ep). lia. }
      exists [], (x :: xs). split_and!; [done..| |constructor; [by constructor|]].
      * done.
      * eapply Forall_impl; [exact Hb|]. intros p (wp & Ep & Hp) v1 v2.
        rewrite Hv, Ep. intros [= <-] [= <-]. lia.
Qed.

Lemma sorted_by_ext val val' xs :
  (forall p, p ∈ xs -> val' p = val p) -> sorted_by val xs -> sorted_by val' xs.
Proof.
  intros He Hs. induction Hs as [|x xs Hs IH Hx]; [constructor|].
  constructor; [apply IH; set_solver|]. rewrite Forall_forall in *. intros q Hq v w.
  rewrite !He by set_solver. by apply Hx.
Qed.

Lemma sorted_by_remove val it xs : sorted_by val xs -> sorted_by val (remove_item it xs).
Proof.
  induction 1 as [|x xs Hs IH Hx]; [constructor|]. unfold remove_item.
  destruct (decide (x <> it)).
  - rewrite filter_cons_True by done. constructor; [done|].
    rewrite Forall_forall in *. intros q [_ Hq]%list_elem_of_filter. by apply Hx.
  - by rewrite filter_cons_False.
Qed.

(** *** Setting up *)
Lemma vListInitialise_run G s l :
  lists_ok G s -> G !! l = None -> is_Some (lists s !! l) -> is_Some (links s !! xListEnd l) ->
  exists s', vListInitialise xListEnd l s = Ok tt s' /\
    lists_ok (<[l := (xListEnd l, [])]> G) s' /\ items s' = items s /\
    (forall p, p <> xListEnd l -> vl (links s') p = vl (links s) p) /\
    (forall l', is_Some (lists s' !! l') <-> is_Some (lists s !! l')) /\
    (forall p, is_Some (links s' !! p) <-> is_Some (links s !! p)).
Proof.
  intros Hok Hl [x Hc] He. destruct s as [k its ls]. cbn [links items lists] in *.
  unfold vListInitialise, st_index, st_value, st_next, st_previous, st_count.
  rewrite st_list_run by (by eexists). rewrite !st_link_run by (by rewrite ?alter_is_Some).
  rewrite st_list_end by (rewrite alter_is_Some; by eexists).
  eexists. split; [done|]. cbn [links items lists].
  split; [|split; [done|split; [intros p Hp; autorewrite with rt_links; by rewrite decide_False|]]].
  2:{ split; [intros l'|intros p]; by rewrite !alter_is_Some. }
  constructor; cbn [links items lists].
  - intros l' i xs. destruct (decide (l' = l)) as [->|Hne].
    + rewrite lookup_insert_eq. intros [= <- <-].
      erewrite alter_get by by apply alter_get. split; [done|].
      constructor; [set_solver|apply NoDup_singleton| |].
      * split; [|done]. unfold edge. autorewrite with rt_links. by rewrite !decide_True.
      * autorewrite with rt_links. by rewrite decide_True.
    + rewrite lookup_insert_ne, !lookup_alter_ne by done. intros Hl'.
      destruct (lo_list _ _ Hok _ _ _ Hl') as [? Hr]. split; [done|].
      assert (Hp : forall p, p ∈ xListEnd l' :: xs -> p <> xListEnd l).
      { intros p Hp ->. apply elem_of_cons in Hp as [E|E]; [by apply (inj xListEnd) in E|].
        by destruct (lists_ok_ends _ _ _ l _ _ Hok Hl'). }
      eapply ring_frame; [| |exact Hr].
      * intros p Hx%Hp. cbn [links]. autorewrite with rt_links. by rewrite !decide_False by done.
      * cbn [links]. autorewrite with rt_links. rewrite decide_False; [done|]. intros E.
        apply (Hp (xListEnd l')); [by left|done].
  - intros l' i xs p. destruct (decide (l' = l)) as [->|Hne].
    + rewrite lookup_insert_eq. intros [= <- <-]. set_solver.
    + rewrite lookup_insert_ne by done. apply (lo_in _ _ Hok).
  - intros l' p o (i & xs & Hl' & Hx)%(lo_on _ _ Hok). exists i, xs.
    rewrite lookup_insert_ne; [done|]. intros <-. congruence.
  - apply (lo_end _ _ Hok).
  - intros p Hp. rewrite !alter_is_Some. by apply (lo_dom _ _ Hok).
Qed.

Lemma head_entry_run G s l i x xs o :
  lists_ok G s -> G !! l = Some (i, x :: xs) -> items s !! x = Some (ListItem o (Some l)) ->
  listGET_OWNER_OF_HEAD_ENTRY xListEnd l s = Ok o s.
Proof.
  intros Hok Hl Hx. destruct (lo_list _ _ Hok _ _ _ Hl) as [_ [_ _ Hp _]].
  apply path_cons in Hp as [[Hn _] _]. destruct s as [k its ls]. cbn [links items lists] in *.
  unfold listGET_OWNER_OF_HEAD_ENTRY. rewrite (ld_next_run _ x) by done.
  unfold listGET_LIST_ITEM_OWNER. by rewrite (ld_item_run _ _ _ _ _ _ Hx).
Qed.

Lemma list_empty_run G s l i xs :
  lists_ok G s -> G !! l = Some (i, xs) -> Z.of_nat (length xs) < 2 ^ 32 ->
  listLIST_IS_EMPTY l s = Ok (bool_decide (xs = [])) s.
Proof.
  intros Hok Hl Hlen. destruct (lo_list _ _ Hok _ _ _ Hl) as [Hc _]. destruct s as [k its ls].
  unfold listLIST_IS_EMPTY. rewrite (ld_list_run _ _ _ _ _ _ Hc). cbn [uxNumberOfItems].
  rewrite u32_small by (unfold is_u32; lia).
  unfold mret, M_ret. f_equal. destruct xs as [|p xs]; [done|].
  rewrite bool_decide_false by done. apply Z.eqb_neq. cbn [length] in *. lia.
Qed.

(** *** Properties *)

(** C27: inserting keeps a list well formed and in order.  From a sorted list
    [vListInsert] returns, puts the new item after every item of at most its
    own value and before the greater ones, and changes neither another list
    nor the value of any item. *)
Theorem vListInsert_keeps_order G s l i xs it o v :
  lists_ok G s -> G !! l = Some (i, xs) -> items s !! it = Some (ListItem o None) ->
  vl (links s) it = Some v -> v <= portMAX_DELAY ->
  (forall p, p ∈ xs -> at_most (vl (links s)) portMAX_DELAY p) -> sorted_by (vl (links s)) xs ->
  exists s' a b,
    vListInsert xListEnd l it s = Ok tt s' /\ xs = a ++ b /\
    Forall (at_most (vl (links s)) v) a /\ Forall (greater (vl (links s)) v) b /\
    lists_ok (<[l := (i, a ++ it :: b)]> G) s' /\ sorted_by (vl (links s')) (a ++ it :: b) /\
    (forall p, vl (links s') p = vl (links s) p).
Proof.
  intros Hok Hl Hit Hv Hmax Hxs Hs.
  destruct (vListInsert_run _ _ _ _ _ _ _ _ Hok Hl Hit Hv Hmax Hxs) as (s' & E & Hok' & _ & Hvl).
  destruct (insert_value_sorted (vl (links s)) v it xs) as (a & b & -> & Ei & Ha & Hb & Hs');
    [done|done|intros p Hp; destruct (Hxs p Hp) as (w & -> & _); by eexists|].
  exists s', a, b. rewrite Ei in Hok'. split_and!; try done. eapply (sorted_by_ext (vl (links s))); [intros p _; apply Hvl|done].
Qed.

(** An item put in order and taken out again leaves the lists as they
    were: their items, their indices, the values and the containers. *)
Theorem insert_remove_restores G s l i xs it o v :
  lists_ok G s -> G !! l = Some (i, xs) -> items s !! it = Some (ListItem o None) ->
  vl (links s) it = Some v -> v <= portMAX_DELAY ->
  (forall p, p ∈ xs -> at_most (vl (links s)) portMAX_DELAY p) ->
  exists s', (vListInsert xListEnd l it ;; uxListRemove it) s =
      Ok (u32 (Z.of_nat (length xs))) s' /\
    lists_ok G s' /\ items s' = items s /\ (forall p, vl (links s') p = vl (links s) p).
Proof.
  intros Hok Hl Hit Hv Hmax Hxs.
  pose proof (free_item _ _ _ _ _ _ _ Hok Hl Hit) as Hfree.
  destruct (vListInsert_run _ _ _ _ _ _ _ _ Hok Hl Hit Hv Hmax Hxs) as (s1 & E1 & Hok1 & Ei1 & Hvl1).
  destruct (value_split (vl (links s)) v it xs) as (a & b & -> & Ea & _);
    [intros p Hp; destruct (Hxs p Hp) as (w & -> & _); by eexists|]. rewrite Ea in Hok1.
  destruct (uxListRemove_run _ s1 l i (a ++ it :: b) it o Hok1) as (s2 & E2 & Hok2 & Ei2 & Hvl2).
  { apply lookup_insert_eq. } { by rewrite Ei1, (alter_get _ _ _ _ Hit). }
  assert (Hi : i <> it).
  { intros ->. apply Hfree. by destruct (lo_list _ _ Hok _ _ _ Hl) as [_ [? _ _ _]]. }
  unfold index_after in Hok2. rewrite decide_False in Hok2 by done.
  rewrite remove_item_split in E2, Hok2 by set_solver.
  exists s2. rewrite (bind_ok _ _ _ _ _ E1). split; [done|]. split_and!.
  - by rewrite insert_insert_eq, insert_id in Hok2.
  - rewrite Ei2, Ei1. apply map_eq. intros p. rewrite !lookup_alter.
    destruct (decide (it = p)) as [<-|]; [|done]. rewrite decide_True by done. by rewrite Hit.
  - intros p. by rewrite Hvl2, Hvl1.
Qed.

Fixpoint next_entries (l : L) (n : nat) : M (lstore P L W) (list W) :=
  match n with
  | O => mret []
  | S n' => o ← listGET_OWNER_OF_NEXT_ENTRY xListEnd l; os ← next_entries l n'; mret (o :: os)
  end.

(** Round robin.  As many calls of [listGET_OWNER_OF_NEXT_ENTRY] as [ts]
    has items return the owners of the next items in turn, each item once
    before any comes again, and only the index of the list has changed. *)
Theorem next_entries_round_robin G s l i xs ts rest (owner : P -> W) :
  lists_ok G s -> G !! l = Some (i, xs) -> turn_order i xs = ts ++ rest ->
  (forall p, p ∈ xs -> pvOwner <$> items s !! p = Some (owner p)) ->
  exists j s', next_entries l (length ts) s = Ok (owner <$> ts) s' /\
    lists_ok (<[l := (j, xs)]> G) s' /\ turn_order j xs = rest ++ ts /\
    j = default i (last ts) /\ links s' = links s /\ items s' = items s.
Proof.
  revert G s i rest. induction ts as [|x ts IH]; intros G s i rest Hok Hl Ht Ho.
  - exists i, s. rewrite app_nil_r. split_and!; try done. by rewrite insert_id.
  - destruct (lo_list _ _ Hok _ _ _ Hl) as [_ [Hi Hn _ _]].
    destruct (turn_order_next _ _ _ _ _ Hi Hn Ht) as (Ht' & Hx & _).
    destruct (lo_in _ _ Hok _ _ _ _ Hl Hx) as [o Ex].
    assert (o = owner x) as -> by (specialize (Ho x Hx); rewrite Ex in Ho; cbn in Ho; congruence).
    pose proof (index_ok _ _ _ _ _ x Hok Hl ltac:(by right)) as Hok1.
    rewrite <- app_assoc in Ht'.
    destruct (IH _ _ x (rest ++ [x]) Hok1) as (j & s' & E & Hok2 & Hj & Hlast & Hk & Hit).
    { apply lookup_insert_eq. } { done. } { done. }
    exists j, s'. cbn [length next_entries].
    rewrite (bind_ok _ _ _ _ _ (next_entry_run _ _ _ _ _ _ _ _ Hok Hl Ht Ex)).
    rewrite (bind_ok _ _ _ _ _ E). split_and!; try done.
    + by rewrite insert_insert_eq in Hok2.
    + by rewrite Hj, <- app_assoc.
    + rewrite Hlast, last_cons. by destruct (last ts).
Qed.
End rings.

(** ** Three items

    List 0 holds the items 1 and 2; item 3 is free. *)
Definition demo_lists : lstore (Z + Z) Z Z := LStore
  {[ inr 0 := MiniListItem portMAX_DELAY (inl 1) (inl 2);
     inl 1 := MiniListItem 5 (inl 2) (inr 0); inl 2 := MiniListItem 8 (inr 0) (inl 1);
     inl 3 := MiniListItem 5 (inl 0) (inl 0) ]}
  {[ inl 1 := ListItem 11 (Some 0); inl 2 := ListItem 12 (Some 0); inl 3 := ListItem 13 None ]}
  {[ 0 := ListT 2 (inl 2) ]}.
Definition demo_listing : gmap Z ((Z + Z) * list (Z + Z)) := {[ 0 := (inl 2, [inl 1; inl 2]) ]}.

Lemma demo_listing_at l i xs :
  demo_listing !! l = Some (i, xs) -> l = 0 /\ i = inl 2 /\ xs = [inl 1; inl 2].
Proof. unfold demo_listing. rewrite lookup_singleton_Some. naive_solver. Qed.

Lemma demo_items p x : items demo_lists !! p = Some x ->
  (p = inl 1 /\ x = ListItem 11 (Some 0)) \/ (p = inl 2 /\ x = ListItem 12 (Some 0)) \/
  (p = inl 3 /\ x = ListItem 13 None).
Proof.
  cbn [items demo_lists]. rewrite !lookup_insert_Some, lookup_singleton_Some. naive_solver.
Qed.

Lemma demo_lists_ok : lists_ok inr demo_listing demo_lists.
Proof.
  constructor.
  - intros l i xs (-> & -> & ->)%demo_listing_at. split; [done|].
    constructor; [set_solver|repeat constructor; set_solver|repeat split|done].
  - intros l i xs p (-> & -> & ->)%demo_listing_at. rewrite !elem_of_cons, elem_of_nil.
    intros [-> | [-> | []]]; by eexists.
  - intros l p o [[-> [= _ ->]]|[[-> [= _ ->]]|[_ [=]]]]%demo_items;
      exists (inl 2), [inl 1; inl 2]; (split; [done|set_solver]).
  - intros l. destruct (items demo_lists !! inr l) as [x|] eqn:E; [|done].
    apply demo_items in E. naive_solver.
  - intros p [x [[-> _]|[[-> _]|[-> _]]]%demo_items]; by eexists.
Qed.

Lemma vListInsert_keeps_order_witness :
  exists s' a b, vListInsert inr 0 (inl 3) demo_lists = Ok tt s' /\ [inl 1; inl 2] = a ++ b /\
    lists_ok inr (<[0 := (inl 2, a ++ inl 3 :: b)]> demo_listing) s' /\
    sorted_by (vl (links s')) (a ++ inl 3 :: b).
Proof.
  destruct (vListInsert_keeps_order inr demo_listing demo_lists 0 (inl 2) [inl 1; inl 2] (inl 3) 13 5)
    as (s' & a & b & E & Ex & _ & _ & Hok & Hs & _).
  - exact demo_lists_ok.
  - reflexivity.
  - reflexivity.
  - reflexivity.
  - unfold portMAX_DELAY. lia.
  - intros p. rewrite !elem_of_cons, elem_of_nil.
    intros [-> | [-> | []]]; eexists; (split; [reflexivity|vm_compute; discriminate]).
  - repeat constructor. intros v w E1 E2. vm_compute in E1, E2. injection E1 as <-.
    injection E2 as <-. discriminate.
  - exists s', a, b. done.
Defined.

Lemma insert_remove_restores_witness :
  exists s', (vListInsert inr 0 (inl 3) ;; uxListRemove (inl 3)) demo_lists = Ok (u32 2) s' /\
    lists_ok inr demo_listing s' /\ items s' = items demo_lists.
Proof.
  destruct (insert_remove_restores inr demo_listing demo_lists 0 (inl 2) [inl 1; inl 2] (inl 3) 13 5)
    as (s' & E & Hok & Hi & _).
  - exact demo_lists_ok.
  - reflexivity.
  - reflexivity.
  - reflexivity.
  - unfold portMAX_DELAY. lia.
  - intros p. rewrite !elem_of_cons, elem_of_nil.
    intros [-> | [-> | []]]; eexists; (split; [reflexivity|vm_compute; discriminate]).
  - exists s'. done.
Defined.

Lemma next_entries_round_robin_witness :
  exists s', next_entries inr 0 2 demo_lists = Ok [11; 12] s' /\
    lists_ok inr demo_listing s' /\ links s' = links demo_lists.
Proof.
  destruct (next_entries_round_robin inr demo_listing demo_lists 0 (inl 2) [inl 1; inl 2]
    [inl 1; inl 2] [] (fun p => match p with inl n => n + 10 | inr n => n end))
    as (j & s' & E & Hok & Hj & Hj' & Hk & Hi).
  - exact demo_lists_ok.
  - reflexivity.
  - vm_compute. reflexivity.
  - intros p. rewrite !elem_of_cons, elem_of_nil. intros [-> | [-> | []]]; reflexivity.
  - exists s'. split; [exact E|]. split; [|exact Hk].
    rewrite Hj' in Hok. exact Hok.
Defined.
