(* ===== verification/RtHeap.v ===== *)
(** * The FreeRTOS heap ([ns_guest/lib/freertos/heap_4.c])

    First fit over a list of free blocks in the order of their addresses;
    neighbours are merged when a block is freed. *)
From S2P Require Import Prelude.

Local Open Scope Z_scope.

(** ** Constants ([FreeRTOSConfig.h], [portmacro.h]) *)
Definition configTOTAL_HEAP_SIZE : Z := 2 * 2 * 2 * 2 * 65536 * 2 * 2.
Definition portBYTE_ALIGNMENT : Z := 8.
Definition portBYTE_ALIGNMENT_MASK : Z := 7.
(** [sizeof( BlockLink_t )] is two words. *)
Definition xHeapStructSize : Z := ((8 + (portBYTE_ALIGNMENT - 1)) .& ~! portBYTE_ALIGNMENT_MASK)%word.
Definition heapMINIMUM_BLOCK_SIZE : Z := (xHeapStructSize << 1)%word.

(** ** State

    The fields of the [BlockLink_t] structures by the address of the
    structure, and the globals of the file. *)
Record heap : Type := Heap {
  pxNextFreeBlock : gmap Z Z;
  xBlockSize : gmap Z Z;
  pxEnd : Z;
  xFreeBytesRemaining : Z;
  xMinimumEverFreeBytesRemaining : Z;
  xBlockAllocatedBit : Z
}.
Abbreviation HM := (M heap).

Definition set_next (a v : Z) (h : heap) : heap :=
  Heap (<[a := v]> (pxNextFreeBlock h)) (xBlockSize h) (pxEnd h) (xFreeBytesRemaining h)
    (xMinimumEverFreeBytesRemaining h) (xBlockAllocatedBit h).
Definition set_size (a v : Z) (h : heap) : heap :=
  Heap (pxNextFreeBlock h) (<[a := v]> (xBlockSize h)) (pxEnd h) (xFreeBytesRemaining h)
    (xMinimumEverFreeBytesRemaining h) (xBlockAllocatedBit h).
Definition set_end (v : Z) (h : heap) : heap :=
  Heap (pxNextFreeBlock h) (xBlockSize h) v (xFreeBytesRemaining h)
    (xMinimumEverFreeBytesRemaining h) (xBlockAllocatedBit h).
Definition set_free (v : Z) (h : heap) : heap :=
  Heap (pxNextFreeBlock h) (xBlockSize h) (pxEnd h) v (xMinimumEverFreeBytesRemaining h)
    (xBlockAllocatedBit h).
Definition set_minimum (v : Z) (h : heap) : heap :=
  Heap (pxNextFreeBlock h) (xBlockSize h) (pxEnd h) (xFreeBytesRemaining h) v
    (xBlockAllocatedBit h).
Definition set_bit (v : Z) (h : heap) : heap :=
  Heap (pxNextFreeBlock h) (xBlockSize h) (pxEnd h) (xFreeBytesRemaining h)
    (xMinimumEverFreeBytesRemaining h) v.

Section heap_4.
(** The addresses of [ucHeap] and [xStart]. *)
Variables ucHeap xStart : Z.

(** A structure can be put anywhere in the heap area. *)
Definition in_heap (a : Z) : bool :=
  (ucHeap <=? a) && (a + xHeapStructSize <=? ucHeap + configTOTAL_HEAP_SIZE) || (a =? xStart).

Definition ld_next_free (a : Z) : HM Z := fun h =>
  match pxNextFreeBlock h !! a with Some v => Ok v h | None => Undef end.
Definition ld_size (a : Z) : HM Z := fun h =>
  match xBlockSize h !! a with Some v => Ok v h | None => Undef end.
Definition st_next_free (a v : Z) : HM unit := fun h =>
  if in_heap a then Ok tt (set_next a v h) else Undef.
Definition st_size (a v : Z) : HM unit := fun h =>
  if in_heap a then Ok tt (set_size a v h) else Undef.

Definition prvHeapInit : HM unit :=
  let '(uxAddress, xTotalHeapSize) :=
    if (ucHeap .& portBYTE_ALIGNMENT_MASK)%word =? 0 then (ucHeap, configTOTAL_HEAP_SIZE)
    else
      let a := ((ucHeap + (portBYTE_ALIGNMENT - 1)) .& ~! portBYTE_ALIGNMENT_MASK)%word in
      (a, (configTOTAL_HEAP_SIZE - (a - ucHeap))%word) in
  let pucAlignedHeap := uxAddress in
  st_next_free xStart pucAlignedHeap ;;
  st_size xStart 0 ;;
  let uxAddress := ((pucAlignedHeap + xTotalHeapSize - xHeapStructSize) .& ~! portBYTE_ALIGNMENT_MASK)%word in
  modify (set_end uxAddress) ;;
  st_size uxAddress 0 ;;
  st_next_free uxAddress 0 ;;
  let pxFirstFreeBlock := pucAlignedHeap in
  st_size pxFirstFreeBlock (uxAddress - pxFirstFreeBlock)%word ;;
  st_next_free pxFirstFreeBlock uxAddress ;;
  s ← ld_size pxFirstFreeBlock; modify (set_minimum s) ;;
  s ← ld_size pxFirstFreeBlock; modify (set_free s) ;;
  modify (set_bit (1 << (4 * 8 - 1))%word).

(** [for (it = &xStart; it->pxNextFreeBlock < b; it = it->pxNextFreeBlock);] *)
Fixpoint find_block_before (fuel : nat) (pxIterator pxBlockToInsert : Z) : HM Z :=
  match fuel with
  | O => no_fuel
  | S f =>
      n ← ld_next_free pxIterator;
      if n <? pxBlockToInsert then n ← ld_next_free pxIterator; find_block_before f n pxBlockToInsert
      else mret pxIterator
  end.

(** The walk passes each block of the heap at most once. *)
Definition walk_fuel (h : heap) : nat := S (size (pxNextFreeBlock h)).

Definition prvInsertBlockIntoFreeList (pxBlockToInsert : Z) : HM unit :=
  h ← get;
  pxIterator ← find_block_before (walk_fuel h) xStart pxBlockToInsert;
  si ← ld_size pxIterator;
  pxBlockToInsert ←
    (if (pxIterator + si)%word =? pxBlockToInsert then
       si ← ld_size pxIterator; sb ← ld_size pxBlockToInsert;
       st_size pxIterator (si + sb)%word ;; mret pxIterator
     else mret pxBlockToInsert);
  sb ← ld_size pxBlockToInsert;
  n ← ld_next_free pxIterator;
  (if (pxBlockToInsert + sb)%word =? n then
     n ← ld_next_free pxIterator; h ← get;
     if negb (n =? pxEnd h) then
       sb ← ld_size pxBlockToInsert; n ← ld_next_free pxIterator; sn ← ld_size n;
       st_size pxBlockToInsert (sb + sn)%word ;;
       n ← ld_next_free pxIterator; nn ← ld_next_free n; st_next_free pxBlockToInsert nn
     else h ← get; st_next_free pxBlockToInsert (pxEnd h)
   else n ← ld_next_free pxIterator; st_next_free pxBlockToInsert n) ;;
  when (negb (pxIterator =? pxBlockToInsert)) (st_next_free pxIterator pxBlockToInsert).

(** [while (b->xBlockSize < wanted && b->pxNextFreeBlock != NULL)] *)
Fixpoint find_fit (fuel : nat) (pxPreviousBlock pxBlock xWantedSize : Z) : HM (Z * Z) :=
  match fuel with
  | O => no_fuel
  | S f =>
      s ← ld_size pxBlock;
      if s <? xWantedSize then
        n ← ld_next_free pxBlock;
        if negb (n =? 0) then
          n ← ld_next_free pxBlock; find_fit f pxBlock n xWantedSize
        else mret (pxPreviousBlock, pxBlock)
      else mret (pxPreviousBlock, pxBlock)
  end.

(** The size of the block for a request: room for the header, rounded up. *)
Definition block_size (xWantedSize : Z) : Z :=
  if 0 <? xWantedSize then
    let w := (xWantedSize + xHeapStructSize)%word in
    if negb ((w .& portBYTE_ALIGNMENT_MASK)%word =? 0) then
      (w + (portBYTE_ALIGNMENT - (w .& portBYTE_ALIGNMENT_MASK)))%word
    else w
  else xWantedSize.

(** [pvPortMalloc] between [vTaskSuspendAll] and [xTaskResumeAll]. *)
Definition malloc_locked (xWantedSize : Z) : HM Z :=
  h ← get;
  when (pxEnd h =? 0) prvHeapInit ;;
  h ← get;
  if (xWantedSize .& xBlockAllocatedBit h)%word =? 0 then
    let xWantedSize := block_size xWantedSize in
    if (0 <? xWantedSize) && (xWantedSize <=? xFreeBytesRemaining h) then
      first ← ld_next_free xStart;
      '(pxPreviousBlock, pxBlock) ← find_fit (walk_fuel h) xStart first xWantedSize;
      if negb (pxBlock =? pxEnd h) then
        n ← ld_next_free pxPreviousBlock;
        let pvReturn := (n + xHeapStructSize)%word in
        n ← ld_next_free pxBlock; st_next_free pxPreviousBlock n ;;
        s ← ld_size pxBlock;
        when (heapMINIMUM_BLOCK_SIZE <? (s - xWantedSize)%word)
          (let pxNewBlockLink := (pxBlock + xWantedSize)%word in
           s ← ld_size pxBlock; st_size pxNewBlockLink (s - xWantedSize)%word ;;
           st_size pxBlock xWantedSize ;;
           prvInsertBlockIntoFreeList pxNewBlockLink) ;;
        s ← ld_size pxBlock; h ← get; modify (set_free (xFreeBytesRemaining h - s)%word) ;;
        h ← get;
        when (xFreeBytesRemaining h <? xMinimumEverFreeBytesRemaining h)
          (modify (set_minimum (xFreeBytesRemaining h))) ;;
        s ← ld_size pxBlock; st_size pxBlock (s .| xBlockAllocatedBit h)%word ;;
        st_next_free pxBlock 0 ;;
        mret pvReturn
      else mret 0
    else mret 0
  else mret 0.

(** The body of [vPortFree]: what it does before it takes the lock, and what
    it does under the lock. *)
Definition free_check (pv : Z) : HM bool :=
  if negb (pv =? 0) then
    let pxLink := (pv - xHeapStructSize)%word in
    s ← ld_size pxLink; h ← get;
    if negb ((s .& xBlockAllocatedBit h)%word =? 0) then
      n ← ld_next_free pxLink;
      if n =? 0 then
        s ← ld_size pxLink; st_size pxLink (s .& ~! xBlockAllocatedBit h)%word ;; mret true
      else mret false
    else mret false
  else mret false.
Definition free_locked (pv : Z) : HM unit :=
  let pxLink := (pv - xHeapStructSize)%word in
  h ← get; s ← ld_size pxLink; modify (set_free (xFreeBytesRemaining h + s)%word) ;;
  prvInsertBlockIntoFreeList pxLink.

(** [vPortFree], but for the lock around the second part. *)
Definition release (pv : Z) : HM unit := allocated ← free_check pv; when allocated (free_locked pv).

Definition xPortGetFreeHeapSize : HM Z := h ← get; mret (xFreeBytesRemaining h).
Definition xPortGetMinimumEverFreeHeapSize : HM Z :=
  h ← get; mret (xMinimumEverFreeBytesRemaining h).
End heap_4.

(** ** Blocks

    The heap area, from its first aligned address to [pxEnd], is a sequence of
    blocks; the free ones are on the list. *)
Record block : Type := Block { b_addr : Z; b_size : Z; b_free : bool }.

Fixpoint tiles (a : Z) (bs : list block) (e : Z) : Prop :=
  match bs with
  | [] => a = e
  | b :: bs' => b_addr b = a /\ 8 <= b_size b /\ b_size b mod 8 = 0 /\ tiles (a + b_size b) bs' e
  end.

Definition free_addrs (bs : list block) : list Z := b_addr <$> filter (fun b => b_free b = true) bs.
Definition free_bytes (bs : list block) : Z :=
  foldr Z.add 0 (b_size <$> filter (fun b => b_free b = true) bs).

(** No two neighbours are free. *)
Fixpoint coalesced (bs : list block) : Prop :=
  match bs with
  | b :: ((c :: _) as bs') => (b_free b && b_free c = false) /\ coalesced bs'
  | _ => True
  end.

Lemma tiles_app a bs cs e : tiles a (bs ++ cs) e <-> exists m, tiles a bs m /\ tiles m cs e.
Proof.
  revert a. induction bs as [|b bs IH]; intros a; cbn [app tiles].
  - split; [by exists a|]. by intros (m & -> & ?).
  - rewrite IH. split.
    + intros (? & ? & ? & m & ? & ?). exists m. done.
    + intros (m & (? & ? & ? & ?) & ?). split_and!; try done. by exists m.
Qed.

Lemma tiles_le a bs e : tiles a bs e -> a <= e.
Proof.
  revert a. induction bs as [|b bs IH]; intros a; cbn; [intros ->; lia|].
  intros (_ & ? & _ & ?%IH). lia.
Qed.

Lemma tiles_in a bs e b :
  tiles a bs e -> b ∈ bs -> a <= b_addr b /\ b_addr b + b_size b <= e /\ 8 <= b_size b.
Proof.
  revert a. induction bs as [|c bs IH]; intros a; cbn; [by intros _ ?%elem_of_nil|].
  intros (<- & ? & _ & Ht) [-> | Hb]%elem_of_cons.
  - apply tiles_le in Ht. lia.
  - specialize (IH _ Ht Hb). lia.
Qed.

Lemma tiles_aligned a bs e b :
  tiles a bs e -> a mod 8 = 0 -> b ∈ bs -> b_addr b mod 8 = 0 /\ b_size b mod 8 = 0.
Proof.
  revert a. induction bs as [|c bs IH]; intros a; cbn; [by intros _ _ ?%elem_of_nil|].
  intros (<- & ? & Hs & Ht) Ha [-> | Hb]%elem_of_cons; [done|].
  eapply IH; [exact Ht| |done]. rewrite Z.add_mod, Ha, Hs by done. done.
Qed.

Lemma free_addrs_app bs cs : free_addrs (bs ++ cs) = free_addrs bs ++ free_addrs cs.
Proof. unfold free_addrs. by rewrite filter_app, fmap_app. Qed.
Lemma free_addrs_cons b bs :
  free_addrs (b :: bs) = if b_free b then b_addr b :: free_addrs bs else free_addrs bs.
Proof.
  unfold free_addrs. destruct (b_free b) eqn:E.
  - by rewrite filter_cons_True.
  - rewrite filter_cons_False; [done|]. by rewrite E.
Qed.
Lemma free_addrs_in x bs : x ∈ free_addrs bs <-> exists b, b ∈ bs /\ b_free b = true /\ b_addr b = x.
Proof.
  unfold free_addrs. rewrite list_elem_of_fmap. setoid_rewrite list_elem_of_filter. naive_solver.
Qed.

Lemma free_bytes_app bs cs : free_bytes (bs ++ cs) = free_bytes bs + free_bytes cs.
Proof.
  unfold free_bytes. rewrite filter_app, fmap_app, foldr_app.
  generalize (b_size <$> filter (fun b => b_free b = true) bs). intros l.
  induction l as [|x l IH]; cbn; [lia|]. rewrite IH. lia.
Qed.
Lemma free_bytes_cons b bs :
  free_bytes (b :: bs) = (if b_free b then b_size b else 0) + free_bytes bs.
Proof.
  unfold free_bytes. destruct (b_free b) eqn:E.
  - by rewrite filter_cons_True.
  - rewrite filter_cons_False; [done|]. by rewrite E.
Qed.
Lemma free_bytes_bounds a bs e : tiles a bs e -> 0 <= free_bytes bs <= e - a.
Proof.
  revert a. induction bs as [|b bs IH]; intros a; cbn [tiles].
  - intros ->. cbn. lia.
  - intros (_ & ? & _ & Ht). specialize (IH _ Ht). rewrite free_bytes_cons. destruct (b_free b); lia.
Qed.
Lemma free_bytes_in a bs e b :
  tiles a bs e -> b ∈ bs -> b_free b = true -> b_size b <= free_bytes bs.
Proof.
  intros Ht (l1 & l2 & ->)%list_elem_of_split Hb. rewrite free_bytes_app, free_bytes_cons, Hb.
  apply tiles_app in Ht as (m & H1 & H2). cbn in H2. destruct H2 as (_ & _ & _ & H2).
  pose proof (free_bytes_bounds _ _ _ H1). pose proof (free_bytes_bounds _ _ _ H2). lia.
Qed.

Lemma coalesced_cons b bs : coalesced (b :: bs) -> coalesced bs.
Proof. destruct bs; [done|]. by intros [_ ?]. Qed.
Lemma coalesced_app bs cs : coalesced (bs ++ cs) -> coalesced bs /\ coalesced cs.
Proof.
  induction bs as [|b [|c bs] IH]; intros Hc; [done|split; [done|]|].
  - by apply coalesced_cons in Hc.
  - destruct Hc as [? Hc]. apply IH in Hc as [??]. done.
Qed.
Lemma coalesced_mid bs b c cs :
  coalesced (bs ++ [b]) -> coalesced (c :: cs) -> b_free b && b_free c = false ->
  coalesced (bs ++ b :: c :: cs).
Proof.
  intros Hb Hc Hbc. induction bs as [|a [|d bs] IH]; [done|..].
  - destruct Hb as [Hab _]. split; [done|]. by split.
  - destruct Hb as [Hab Hb]. split; [done|]. by apply IH.
Qed.

(** ** The list of free blocks *)
Fixpoint lchain (next : gmap Z Z) (a : Z) (xs : list Z) (e : Z) : Prop :=
  match xs with
  | [] => next !! a = Some e
  | x :: xs' => next !! a = Some x /\ lchain next x xs' e
  end.

Lemma lchain_app next a xs x ys e :
  lchain next a (xs ++ x :: ys) e <-> lchain next a xs x /\ lchain next x ys e.
Proof. revert a. induction xs as [|y xs IH]; intros a; cbn; [done|]. rewrite IH. tauto. Qed.

Lemma lchain_frame next next' a xs e :
  (forall p, p ∈ a :: xs -> next' !! p = next !! p) -> lchain next a xs e -> lchain next' a xs e.
Proof.
  revert a. induction xs as [|x xs IH]; intros a Hf; cbn.
  - rewrite Hf by left. done.
  - rewrite Hf by left. intros [? ?]. split; [done|]. apply IH; [|done].
    intros p Hp. apply Hf. by right.
Qed.

(** The last node of the first part points to the first of the second. *)
Lemma lchain_link next a xs ys e l u w l2 :
  lchain next a (xs ++ ys) e -> a :: xs = l ++ [u] -> ys ++ [e] = w :: l2 ->
  next !! u = Some w /\ (w = e /\ ys = [] \/ exists ys', ys = w :: ys').
Proof.
  intros Hc E1 E2. split.
  - destruct xs as [|x0 xs0] using rev_ind.
    + destruct (app_inj_tail [] l a u E1) as [_ <-].
      destruct ys as [|y ys]; injection E2 as <- _; [done|]. by destruct Hc.
    + clear IHxs0. change (a :: xs0 ++ [x0]) with ((a :: xs0) ++ [x0]) in E1.
      apply app_inj_tail in E1 as [_ <-]. rewrite <- app_assoc in Hc. cbn in Hc.
      apply lchain_app in Hc as [_ Hc].
      destruct ys as [|y ys]; injection E2 as <- _; [done|]. by destruct Hc.
  - destruct ys as [|y ys]; injection E2 as <- _; [by left|right; by eexists].
Qed.

Lemma lchain_dom next a xs e p : lchain next a xs e -> p ∈ a :: xs -> is_Some (next !! p).
Proof.
  revert a. induction xs as [|x xs IH]; intros a; cbn.
  - intros ? ->%list_elem_of_singleton. by eexists.
  - intros [? ?] [-> | Hp]%elem_of_cons; [by eexists|]. by eapply IH.
Qed.

(** ** Runs *)
Section heap_runs.
Variables ucHeap xStart : Z.

Lemma ld_next_free_run {B} a v (f : Z -> HM B) h :
  pxNextFreeBlock h !! a = Some v -> (ld_next_free a ≫= f) h = f v h.
Proof. intros E. unfold ld_next_free, mbind, M_bind. by rewrite E. Qed.
Lemma ld_size_run {B} a v (f : Z -> HM B) h :
  xBlockSize h !! a = Some v -> (ld_size a ≫= f) h = f v h.
Proof. intros E. unfold ld_size, mbind, M_bind. by rewrite E. Qed.
Lemma st_next_free_run {B} a v (f : unit -> HM B) h :
  in_heap ucHeap xStart a = true -> (st_next_free ucHeap xStart a v ≫= f) h = f tt (set_next a v h).
Proof. intros E. unfold st_next_free, mbind, M_bind. by rewrite E. Qed.
Lemma st_size_run {B} a v (f : unit -> HM B) h :
  in_heap ucHeap xStart a = true -> (st_size ucHeap xStart a v ≫= f) h = f tt (set_size a v h).
Proof. intros E. unfold st_size, mbind, M_bind. by rewrite E. Qed.

(** Reads a size or a link whose value is known. *)
Ltac fields := cbn [set_next set_size pxNextFreeBlock xBlockSize];
  first [done | by rewrite lookup_insert_eq | by rewrite lookup_insert_ne].
Ltac lsize v := rewrite ?bind_assoc, (ld_size_run _ v) by fields.
Ltac lnext v := rewrite ?bind_assoc, (ld_next_free_run _ v) by fields.

Lemma find_block_before_run {B} (f : Z -> HM B) h a xs ys e b l u w l2 fuel :
  lchain (pxNextFreeBlock h) a (xs ++ ys) e -> (forall x, x ∈ xs -> x < b) ->
  a :: xs = l ++ [u] -> ys ++ [e] = w :: l2 -> b <= w -> (length xs < fuel)%nat ->
  (find_block_before fuel a b ≫= f) h = f u h.
Proof.
  revert a l fuel. induction xs as [|x xs IH]; intros a l [|fuel] Hc Hx E1 E2 Hw Hf;
    try (cbn in Hf; lia); cbn [find_block_before].
  - destruct (app_inj_tail [] l a u E1) as [_ <-].
    destruct (lchain_link _ a [] ys e [] a w l2 Hc eq_refl E2) as [Hn _].
    rewrite bind_assoc, (ld_next_free_run _ w) by done.
    destruct (Z.ltb_spec w b); [lia|done].
  - destruct Hc as [Hn Hc]. rewrite bind_assoc, (ld_next_free_run _ x) by done.
    destruct (Z.ltb_spec x b) as [_|Hge]; [|specialize (Hx x ltac:(left)); lia].
    rewrite bind_assoc, (ld_next_free_run _ x) by done.
    destruct l as [|a' l]; [done|]. injection E1 as <- E1. cbn in Hf.
    eapply (IH x l); try done; [|lia]. intros y Hy. apply Hx. by right.
Qed.

(** What an insertion does to the two fields: [it] is the node before the
    block [b] of size [sb], [w] the one after. *)
Definition inserted_block (it si b sb w : Z) (e : Z) (h : heap) : heap :=
  if it + si =? b then
    if b + sb =? w then
      if w =? e then set_next it e (set_size it (si + sb) h)
      else set_next it (default 0 (pxNextFreeBlock h !! w))
             (set_size it (si + sb + default 0 (xBlockSize h !! w)) (set_size it (si + sb) h))
    else set_next it w (set_size it (si + sb) h)
  else
    set_next it b
      (if b + sb =? w then
         if w =? e then set_next b e h
         else set_next b (default 0 (pxNextFreeBlock h !! w))
                (set_size b (sb + default 0 (xBlockSize h !! w)) h)
       else set_next b w h).

Lemma prvInsert_run {B} (f : unit -> HM B) h xs ys l it w l2 si b sb sn nn :
  lchain (pxNextFreeBlock h) xStart (xs ++ ys) (pxEnd h) ->
  (forall x, x ∈ xs -> x < b) -> xStart :: xs = l ++ [it] -> ys ++ [pxEnd h] = w :: l2 -> b < w ->
  (length xs < walk_fuel h)%nat ->
  xBlockSize h !! it = Some si -> xBlockSize h !! b = Some sb ->
  xBlockSize h !! w = Some sn -> pxNextFreeBlock h !! w = Some nn ->
  in_heap ucHeap xStart it = true -> in_heap ucHeap xStart b = true -> it <> b -> it <> w -> b <> w ->
  0 <= it -> 0 <= si -> it + si < 2 ^ 32 -> 0 <= b -> 0 <= sb -> b + sb < 2 ^ 32 ->
  0 <= sn -> si + sb + sn < 2 ^ 32 ->
  (prvInsertBlockIntoFreeList ucHeap xStart b ≫= f) h =
    f tt (inserted_block it si b sb w (pxEnd h) h).
Proof.
  intros Hc Hx E1 E2 Hbw Hfuel Hsi Hsb Hsn Hnn Iit Ib Nib Niw Nbw.
  intros Pit Psi Bit Pb Psb Bb Psn Bn.
  destruct (lchain_link _ _ _ _ _ _ _ _ _ Hc E1 E2) as [Hit _].
  unfold prvInsertBlockIntoFreeList. rewrite bind_assoc, bind_get, bind_assoc.
  rewrite (find_block_before_run _ h xStart xs ys (pxEnd h) b l it w l2) by (done || lia).
  unfold inserted_block. rewrite Hsn, Hnn. cbn [default from_option].
  unfold add32. lsize si. rewrite (u32_small (it + si)) by (unfold is_u32; lia). rewrite bind_assoc.
  destruct (Z.eqb_spec (it + si) b) as [Eb|Eb].
  - lsize si. lsize sb. rewrite (u32_small (si + sb)) by (unfold is_u32; lia).
    rewrite bind_assoc, st_size_run, bind_ret by done.
    lsize (si + sb). lnext w.
    rewrite (u32_small (it + (si + sb))) by (unfold is_u32; lia).
    replace (it + (si + sb)) with (b + sb) by lia. rewrite Z.eqb_refl. cbn [when negb].
    rewrite bind_assoc.
    destruct (Z.eqb_spec (b + sb) w) as [Ew|Ew].
    + lnext w. rewrite bind_assoc, bind_get.
      cbn [set_size pxEnd]. destruct (Z.eqb_spec w (pxEnd h)) as [Ee|Ee]; cbn [negb].
      * rewrite bind_assoc, bind_get, st_next_free_run by done. done.
      * lsize (si + sb). lnext w. lsize sn.
        rewrite (u32_small (si + sb + sn)) by (unfold is_u32; lia).
        rewrite bind_assoc, st_size_run by done. lnext w. lnext nn.
        rewrite st_next_free_run by done. done.
    + lnext w. rewrite st_next_free_run by done. done.
  - rewrite bind_ret. lsize sb. lnext w.
    rewrite (u32_small (b + sb)) by (unfold is_u32; lia). rewrite bind_assoc.
    destruct (Z.eqb_spec it b) as [|_]; [done|]. cbn [when negb].
    destruct (Z.eqb_spec (b + sb) w) as [Ew|Ew].
    + lnext w. rewrite bind_assoc, bind_get.
      destruct (Z.eqb_spec w (pxEnd h)) as [Ee|Ee]; cbn [negb].
      * rewrite bind_assoc, bind_get, st_next_free_run by done.
        rewrite st_next_free_run by done. done.
      * lsize sb. lnext w. lsize sn.
        rewrite (u32_small (sb + sn)) by (unfold is_u32; lia).
        rewrite bind_assoc, st_size_run by done. lnext w. lnext nn.
        rewrite st_next_free_run by done. rewrite st_next_free_run by done. done.
    + lnext w. rewrite st_next_free_run by done. rewrite st_next_free_run by done. done.
Qed.
End heap_runs.

(** ** Putting a block back

    The block is merged with a free neighbour before it and after it. *)
Definition merge (b c : block) : block := Block (b_addr b) (b_size b + b_size c) true.
Definition absorb (b : block) (q : list block) : list block :=
  match q with
  | c :: q' => if b_free c then merge b c :: q' else b :: q
  | [] => [b]
  end.
Definition join (p : list block) (b : block) (q : list block) : list block :=
  match last p with
  | Some c => if b_free c then removelast p ++ absorb (merge c b) q else p ++ absorb b q
  | None => absorb b q
  end.

Lemma join_nil b q : join [] b q = absorb b q.
Proof. done. Qed.
Lemma join_snoc p c b q :
  join (p ++ [c]) b q = if b_free c then p ++ absorb (merge c b) q else p ++ c :: absorb b q.
Proof.
  unfold join. rewrite last_snoc. destruct (b_free c); [by rewrite removelast_last|].
  by rewrite <- app_assoc.
Qed.

Lemma mod8_add a b : a mod 8 = 0 -> b mod 8 = 0 -> (a + b) mod 8 = 0.
Proof. intros Ha Hb. by rewrite Z.add_mod, Ha, Hb. Qed.

Lemma absorb_tiles a b q e : tiles a (b :: q) e -> tiles a (absorb b q) e.
Proof.
  destruct q as [|c q]; [done|]. cbn [absorb]. destruct (b_free c); [|done].
  cbn. intros (<- & ? & ? & _ & ? & ? & ?). split_and!; [done|lia|by apply mod8_add|].
  by rewrite Z.add_assoc.
Qed.
Lemma join_tiles a p b q e : tiles a (p ++ b :: q) e -> tiles a (join p b q) e.
Proof.
  destruct p as [|c p _] using rev_ind; [apply absorb_tiles|]. rewrite join_snoc.
  intros Ht. rewrite <- app_assoc in Ht. destruct (b_free c).
  - apply tiles_app in Ht as (m & Hp & <- & ? & ? & _ & ? & ? & Ht).
    apply tiles_app. exists (b_addr c). split; [done|]. apply absorb_tiles. cbn.
    split_and!; [done|lia|by apply mod8_add|]. by rewrite Z.add_assoc.
  - apply tiles_app in Ht as (m & Hp & <- & ? & ? & Ht).
    apply tiles_app. exists (b_addr c). split; [done|]. split_and!; try done. by apply absorb_tiles.
Qed.

Lemma absorb_coalesced b q : b_free b = true -> coalesced q -> coalesced (absorb b q).
Proof.
  intros Hb Hq. destruct q as [|c q]; [done|]. cbn [absorb]. destruct (b_free c) eqn:Ec.
  - destruct q as [|d q]; [done|]. destruct Hq as [Hcd ?]. split; [|done]. cbn. by rewrite Ec in Hcd.
  - split; [|done]. by rewrite Ec, andb_false_r.
Qed.
Lemma absorb_free b q : b_free b = true -> exists c q', absorb b q = c :: q' /\ b_free c = true.
Proof.
  intros Hb. destruct q as [|c q]; [by exists b, []|]. cbn. destruct (b_free c); eauto.
Qed.
Lemma join_coalesced p b q :
  b_free b = true -> coalesced p -> coalesced q -> coalesced (join p b q).
Proof.
  intros Hb Hp Hq. destruct p as [|c p _] using rev_ind; [by apply absorb_coalesced|].
  rewrite join_snoc. destruct (b_free c) eqn:Ec.
  - pose proof (absorb_coalesced (merge c b) q eq_refl Hq) as Ha.
    destruct (absorb_free (merge c b) q eq_refl) as (x & q' & E & Ex). rewrite E in *.
    destruct p as [|d p _] using rev_ind; [done|]. rewrite <- app_assoc in *. cbn [app] in *.
    apply coalesced_mid; [|done|].
    + replace (p ++ [d; c]) with ((p ++ [d]) ++ [c]) in Hp by (by rewrite <- app_assoc).
      by apply coalesced_app in Hp as [? _].
    + apply coalesced_app in Hp as [_ [Hdc _]]. by rewrite Ex, <- Ec.
  - pose proof (absorb_coalesced b q Hb Hq) as Ha.
    destruct (absorb_free b q Hb) as (x & q' & E & Ex). rewrite E in *.
    apply coalesced_mid; [done|done|]. by rewrite Ec.
Qed.

Lemma absorb_bytes b q : b_free b = true -> free_bytes (absorb b q) = b_size b + free_bytes q.
Proof.
  intros Hb. destruct q as [|c q]; [cbn [absorb]; by rewrite free_bytes_cons, Hb|]. cbn [absorb].
  destruct (b_free c) eqn:Ec; rewrite !free_bytes_cons, ?Ec, ?Hb; cbn; lia.
Qed.
Lemma join_bytes p b q :
  b_free b = true -> free_bytes (join p b q) = free_bytes p + b_size b + free_bytes q.
Proof.
  intros Hb. destruct p as [|c p _] using rev_ind; [rewrite join_nil, absorb_bytes by done; cbn; lia|].
  rewrite join_snoc, free_bytes_app. destruct (b_free c) eqn:Ec.
  - rewrite free_bytes_app, absorb_bytes, free_bytes_cons, Ec by done. cbn. lia.
  - rewrite free_bytes_app, !free_bytes_cons, Ec, absorb_bytes by done. cbn. lia.
Qed.

Lemma absorb_used b q c :
  b_free b = true -> b_free c = false -> c ∈ absorb b q <-> c ∈ q.
Proof.
  intros Hb Hc. destruct q as [|d q]; cbn.
  - rewrite list_elem_of_singleton, elem_of_nil. split; [|done]. intros ->. congruence.
  - destruct (b_free d) eqn:Ed; rewrite !elem_of_cons.
    + split; [intros [-> | ?]; [done|by right]|intros [-> | ?]; [congruence|by right]].
    + split; [intros [-> | ?]; [congruence|done]|by right].
Qed.
Lemma join_used p b q c :
  b_free b = true -> b_free c = false -> c ∈ join p b q <-> c ∈ p ++ q.
Proof.
  intros Hb Hc. destruct p as [|d p _] using rev_ind; [by apply absorb_used|].
  rewrite join_snoc, <- app_assoc. cbn [app]. destruct (b_free d) eqn:Ed.
  - rewrite !elem_of_app, elem_of_cons, absorb_used by done. split; [tauto|].
    intros [?|[-> | ?]]; [tauto|congruence|tauto].
  - by rewrite !elem_of_app, !elem_of_cons, absorb_used.
Qed.

(** Without free neighbours the block is put back as it is. *)
Lemma join_alone p b q :
  coalesced (p ++ [b]) -> coalesced (b :: q) -> b_free b = true -> join p b q = p ++ b :: q.
Proof.
  intros Hp Hq Hb.
  assert (absorb b q = b :: q) as Ea.
  { destruct q as [|c q]; [done|]. destruct Hq as [Hbc _]. rewrite Hb in Hbc. cbn in Hbc |- *.
    by rewrite Hbc. }
  destruct p as [|c p _] using rev_ind; [done|]. rewrite join_snoc, Ea, <- app_assoc. cbn [app].
  rewrite <- app_assoc in Hp. apply coalesced_app in Hp as [_ [Hcb _]].
  rewrite Hb, andb_true_r in Hcb. by rewrite Hcb.
Qed.

(** The addresses on the list afterwards. *)
Lemma absorb_addrs b q :
  b_free b = true ->
  free_addrs (absorb b q) =
    b_addr b :: (match q with c :: q' => free_addrs (if b_free c then q' else q) | [] => [] end).
Proof.
  intros Hb. destruct q as [|c q]; cbn [absorb]; [by rewrite free_addrs_cons, Hb|].
  destruct (b_free c); by rewrite free_addrs_cons, ?Hb.
Qed.

(** *** The chain *)
Definition starts (next : gmap Z Z) (t : Z) (ys : list Z) (e : Z) : Prop :=
  match ys with [] => t = e | y :: ys' => t = y /\ lchain next y ys' e end.

Lemma lchain_starts next a ys e : lchain next a ys e <-> exists t, next !! a = Some t /\ starts next t ys e.
Proof. destruct ys; cbn; naive_solver. Qed.

Lemma starts_frame next next' t ys e :
  (forall p, p ∈ ys -> next' !! p = next !! p) -> starts next t ys e -> starts next' t ys e.
Proof. destruct ys; [done|]. intros Hf [-> Hc]. split; [done|]. by eapply lchain_frame. Qed.

Lemma lchain_retarget next a xs z l it b :
  lchain next a xs z -> a :: xs = l ++ [it] -> NoDup (a :: xs) -> lchain (<[it := b]> next) a xs b.
Proof.
  revert a l. induction xs as [|x xs IH]; intros a l Hc E Hn.
  - destruct (app_inj_tail [] l a it E) as [_ <-]. apply lookup_insert_eq.
  - destruct l as [|a' l]; [done|]. injection E as <- E. destruct Hc as [Ha Hc].
    apply NoDup_cons in Hn as [Hna Hn]. split.
    + rewrite lookup_insert_ne; [done|]. intros ->. apply Hna. rewrite E. set_solver.
    + by apply (IH x l).
Qed.

Lemma lchain_prefix next a xs ys e : lchain next a (xs ++ ys) e -> exists z, lchain next a xs z.
Proof.
  destruct ys as [|y ys]; [rewrite app_nil_r; by exists e|]. intros [Hc _]%lchain_app. by exists y.
Qed.

(** A node is put in between, or the last node of the first part is made to
    point past the block it was merged with. *)
Lemma chain_put next a xs ys ys' e l it b t :
  lchain next a (xs ++ ys) e -> a :: xs = l ++ [it] -> NoDup (a :: xs) -> b ∉ a :: xs ->
  starts next t ys' e -> it ∉ ys' -> b ∉ ys' ->
  lchain (<[it := b]> (<[b := t]> next)) a (xs ++ b :: ys') e.
Proof.
  intros Hc E Hn Hb Hs Hit Hby. apply lchain_app. split.
  - apply lchain_prefix in Hc as [z Hc]. rewrite insert_insert_ne by (intros ->; apply Hb; rewrite E; set_solver).
    eapply lchain_frame; [|by eapply (lchain_retarget next)].
    intros p Hp. apply lookup_insert_ne. intros ->. done.
  - apply lchain_starts. exists t. split.
    + rewrite lookup_insert_ne, lookup_insert_eq; [done|]. intros ->. apply Hb. rewrite E. set_solver.
    + eapply starts_frame; [|exact Hs]. intros p Hp. rewrite !lookup_insert_ne; [done|..]; by intros ->.
Qed.

Lemma chain_skip next a xs it ys ys' e t :
  lchain next a ((xs ++ [it]) ++ ys) e -> NoDup (a :: xs ++ [it]) ->
  starts next t ys' e -> it ∉ ys' -> lchain (<[it := t]> next) a (xs ++ it :: ys') e.
Proof.
  intros Hc Hn Hs Hit. rewrite <- app_assoc in Hc. cbn in Hc. apply lchain_app in Hc as [Hc _].
  apply lchain_app. split.
  - eapply lchain_frame; [|exact Hc]. intros p Hp. apply lookup_insert_ne. intros <-.
    change (a :: xs ++ [it]) with ((a :: xs) ++ [it]) in Hn.
    apply NoDup_app in Hn as (_ & Hd & _). eapply Hd; [exact Hp|]. by left.
  - apply lchain_starts. exists t. split; [apply lookup_insert_eq|].
    eapply starts_frame; [|exact Hs]. intros p Hp. rewrite lookup_insert_ne; [done|]. by intros ->.
Qed.

Lemma free_addrs_range a bs e x : tiles a bs e -> x ∈ free_addrs bs -> a <= x < e.
Proof. intros Ht (b & Hb & _ & <-)%free_addrs_in. pose proof (tiles_in _ _ _ _ Ht Hb). lia. Qed.

Lemma free_addrs_nodup a bs e : tiles a bs e -> NoDup (free_addrs bs).
Proof.
  revert a. induction bs as [|b bs IH]; intros a; [intros _; constructor|].
  cbn [tiles]. intros (<- & Hs & _ & Ht). rewrite free_addrs_cons. destruct (b_free b); [|by eapply IH].
  apply NoDup_cons. split; [|by eapply IH]. intros Hx. pose proof (free_addrs_range _ _ _ _ Ht Hx). lia.
Qed.

(** ** The state of the heap *)
Section heap_state.
Variables ucHeap xStart : Z.

(** The free list and the headers of the blocks on it. *)
Record free_list_ok (bs : list block) (h : heap) : Prop := {
  fl_chain : lchain (pxNextFreeBlock h) xStart (free_addrs bs) (pxEnd h);
  fl_size : forall b, b ∈ bs -> b_free b = true -> xBlockSize h !! b_addr b = Some (b_size b);
  fl_start : xBlockSize h !! xStart = Some 0;
  fl_end : xBlockSize h !! pxEnd h = Some 0 /\ pxNextFreeBlock h !! pxEnd h = Some 0
}.

(** The area from [a0] to [e], inside [ucHeap]. *)
Record area (a0 e : Z) : Prop := {
  ar_low : 0 < ucHeap <= a0;
  ar_end : a0 <= e /\ e + 8 <= ucHeap + configTOTAL_HEAP_SIZE;
  ar_high : ucHeap + configTOTAL_HEAP_SIZE < 2 ^ 32;
  ar_aligned : a0 mod 8 = 0;
  ar_start : 0 <= xStart < 2 ^ 32 /\ (xStart + 8 <= ucHeap \/ ucHeap + configTOTAL_HEAP_SIZE <= xStart)
}.

Lemma area_in a0 e x : area a0 e -> a0 <= x -> x <= e -> in_heap ucHeap xStart x = true.
Proof. intros [? ? ? ? ?] ? ?. unfold in_heap. change xHeapStructSize with 8. lia. Qed.
Lemma area_start : in_heap ucHeap xStart xStart = true.
Proof. unfold in_heap. lia. Qed.

Ltac node_facts :=
  try apply area_start;
  try (match goal with H : forall b, b ∈ _ -> _ |- _ => apply H end; [set_solver|done]);
  try (eapply area_in; [eassumption|lia|lia]).

(** The node of the list before a block, the node after it. *)
Lemma node_before a0 e p m h l it :
  area a0 e -> pxEnd h = e -> tiles a0 p m -> m <= e ->
  (forall b, b ∈ p -> b_free b = true -> xBlockSize h !! b_addr b = Some (b_size b)) ->
  xBlockSize h !! xStart = Some 0 -> xStart :: free_addrs p = l ++ [it] ->
  exists si, xBlockSize h !! it = Some si /\ 0 <= si /\ 0 <= it /\ it + si < 2 ^ 32 /\
    in_heap ucHeap xStart it = true /\ it <> m /\
    (it = xStart /\ si = 0 \/ a0 <= it /\ 8 <= si /\ it + si <= m) /\
    match last p with
    | Some c => if b_free c then it = b_addr c /\ si = b_size c /\ it + si = m else it + si <> m
    | None => it + si <> m
    end.
Proof.
  intros Ha <- Ht Hm Hs H0 E. pose proof Ha as [? ? ? ? ?].
  destruct p as [|c p _] using rev_ind.
  - destruct (app_inj_tail [] l xStart it E) as [_ <-]. cbn in Ht. subst m. exists 0.
    split_and!; try done; try lia; node_facts. cbn [last]. lia.
  - rewrite last_snoc. apply tiles_app in Ht as (m1 & Hp & <- & Hc8 & _ & Hend). cbn [tiles] in Hend. subst m.
    rewrite free_addrs_app, free_addrs_cons in E. change (free_addrs []) with (@nil Z) in E. pose proof (tiles_le _ _ _ Hp).
    destruct (b_free c) eqn:Ec.
    + change (xStart :: free_addrs p ++ [b_addr c]) with ((xStart :: free_addrs p) ++ [b_addr c]) in E.
      apply app_inj_tail in E as [_ <-]. exists (b_size c).
      split_and!; try done; try lia; node_facts.
    + rewrite app_nil_r in E.
      destruct (free_addrs p) as [|x0 xs _] eqn:Ex using rev_ind.
      * destruct (app_inj_tail [] l xStart it E) as [_ <-]. exists 0.
        split_and!; try done; try lia. apply area_start.
      * change (xStart :: xs ++ [x0]) with ((xStart :: xs) ++ [x0]) in E.
        apply app_inj_tail in E as [_ <-].
        destruct (proj1 (free_addrs_in x0 p)) as (f & Hf & Ef & <-); [rewrite Ex; set_solver|].
        pose proof (tiles_in _ _ _ _ Hp Hf). exists (b_size f).
        split_and!; try done; try lia; node_facts.
Qed.

Lemma node_after a0 e q m h l2 w :
  area a0 e -> pxEnd h = e -> tiles m q e -> a0 <= m ->
  (forall b, b ∈ q -> b_free b = true -> xBlockSize h !! b_addr b = Some (b_size b)) ->
  xBlockSize h !! e = Some 0 -> free_addrs q ++ [e] = w :: l2 ->
  exists sn, xBlockSize h !! w = Some sn /\ 0 <= sn /\ m <= w <= e /\ w + sn <= e /\
    match q with
    | c :: q' => if b_free c then w = b_addr c /\ m = w /\ sn = b_size c /\ w <> e /\
                                  free_addrs q = w :: free_addrs q' else m <> w
    | [] => m = w /\ w = e
    end.
Proof.
  intros Ha <- Ht Hm Hs H0 E. destruct q as [|c q].
  - injection E as <- _. cbn in Ht. subst m. exists 0. split_and!; try done; lia.
  - cbn in Ht. destruct Ht as (<- & Hc8 & _ & Ht). pose proof (tiles_le _ _ _ Ht).
    rewrite free_addrs_cons in *. destruct (b_free c) eqn:Ec.
    + injection E as <- _. exists (b_size c). split_and!; try done; try lia. by apply Hs; [left|].
    + destruct (free_addrs q) as [|y ys] eqn:Ey; injection E as <- _.
      * exists 0. split_and!; try done; lia.
      * destruct (proj1 (free_addrs_in y q)) as (f & Hf & Ef & <-); [rewrite Ey; by left|].
        pose proof (tiles_in _ _ _ _ Ht Hf). exists (b_size f). split_and!; try lia. apply Hs; [by right|done].
Qed.

Lemma free_split_ranges a0 p b q e :
  tiles a0 (p ++ b :: q) e ->
  tiles a0 p (b_addr b) /\ tiles (b_addr b + b_size b) q e /\ 8 <= b_size b /\
  a0 <= b_addr b /\ b_addr b + b_size b <= e.
Proof.
  intros Ht. apply tiles_app in Ht as (m & Hp & Hb & ? & _ & Hq). subst m.
  pose proof (tiles_le _ _ _ Hp). pose proof (tiles_le _ _ _ Hq). done.
Qed.

Lemma start_not_free a0 bs h : area a0 (pxEnd h) -> tiles a0 bs (pxEnd h) ->
  xStart ∉ free_addrs bs /\ NoDup (xStart :: free_addrs bs).
Proof.
  intros [? ? ? ? ?] Ht.
  assert (xStart ∉ free_addrs bs).
  { intros Hx. pose proof (free_addrs_range _ _ _ _ Ht Hx). lia. }
  split; [done|]. apply NoDup_cons. split; [done|]. by eapply free_addrs_nodup.
Qed.

(** What an insertion leaves alone. *)
Definition same_globals (h h' : heap) : Prop :=
  pxEnd h' = pxEnd h /\ xFreeBytesRemaining h' = xFreeBytesRemaining h /\
  xMinimumEverFreeBytesRemaining h' = xMinimumEverFreeBytesRemaining h /\
  xBlockAllocatedBit h' = xBlockAllocatedBit h.
Definition headers_kept (A : Z -> Prop) (h h' : heap) : Prop :=
  forall a, ~ A a -> pxNextFreeBlock h' !! a = pxNextFreeBlock h !! a /\
                     xBlockSize h' !! a = xBlockSize h !! a.

Lemma inserted_block_globals it si b sb w e h : same_globals h (inserted_block it si b sb w e h).
Proof.
  unfold inserted_block.
  destruct (it + si =? b), (b + sb =? w), (w =? e); repeat split.
Qed.
Lemma inserted_block_kept it si b sb w e h :
  headers_kept (fun a => a = it \/ a = b) h (inserted_block it si b sb w e h).
Proof.
  intros a Ha. unfold inserted_block.
  destruct (it + si =? b), (b + sb =? w), (w =? e); cbn; rewrite !lookup_insert_ne by (intros <-; tauto); done.
Qed.
(** The rest of the list after the block was merged with a free one behind
    it: its first address [t], the addresses [ys]. *)
Definition after_absorb (q : list block) (w : Z) (h : heap) : Z * list Z * Z :=
  match q with
  | c :: q' => if b_free c then (default 0 (pxNextFreeBlock h !! w), free_addrs q', b_size c)
               else (w, free_addrs q, 0)
  | [] => (w, [], 0)
  end.

Lemma after_absorb_starts a0 xs m q h w l2 l it :
  area a0 (pxEnd h) -> tiles m q (pxEnd h) -> lchain (pxNextFreeBlock h) xStart (xs ++ free_addrs q) (pxEnd h) ->
  xStart :: xs = l ++ [it] -> free_addrs q ++ [pxEnd h] = w :: l2 ->
  starts (pxNextFreeBlock h) (after_absorb q w h).1.1 (after_absorb q w h).1.2 (pxEnd h) /\
  (forall x, x ∈ (after_absorb q w h).1.2 -> m <= x < pxEnd h).
Proof.
  intros Ha Ht Hc E1 E2. destruct (lchain_link _ _ _ _ _ _ _ _ _ Hc E1 E2) as [Hlink Hw].
  assert (Hin : forall x, x ∈ free_addrs q -> m <= x < pxEnd h)
    by (intros x; by apply free_addrs_range).
  assert (Hs : starts (pxNextFreeBlock h) w (free_addrs q) (pxEnd h)).
  { destruct Hw as [[-> ->]|[ys' E]]; [done|]. rewrite E in *. split; [done|].
    by apply lchain_app in Hc as [_ Hc]. }
  unfold after_absorb. destruct q as [|c q]; [done|]. destruct (b_free c) eqn:Ec; [|done].
  rewrite free_addrs_cons, Ec in Hs, Hin. destruct Hs as [-> Hs].
  apply lchain_starts in Hs as (t & E & Hs). cbn [fst snd]. rewrite E. split; [done|].
  intros x Hx. apply Hin. by right.
Qed.

Lemma absorb_after b q w h :
  b_free b = true ->
  free_addrs (absorb b q) = b_addr b :: (after_absorb q w h).1.2.
Proof.
  intros Hb. rewrite absorb_addrs by done. unfold after_absorb.
  destruct q as [|c q]; [done|]. by destruct (b_free c).
Qed.

Lemma absorb_sizes b q w h c :
  b_free b = true -> c ∈ absorb b q -> b_free c = true ->
  c = Block (b_addr b) (b_size b + (after_absorb q w h).2) true \/ c ∈ q.
Proof.
  intros Hb Hc Ec. unfold after_absorb. destruct q as [|d q]; cbn in Hc |- *.
  - apply list_elem_of_singleton in Hc as ->. left. destruct b; cbn in *. subst. f_equal. lia.
  - destruct (b_free d) eqn:Ed; cbn in Hc |- *; apply elem_of_cons in Hc as [-> | Hc].
    + left. done.
    + right. by right.
    + left. destruct b; cbn in *. subst. f_equal. lia.
    + by right.
Qed.

(** The fields after an insertion, in terms of the blocks behind. *)
Definition behind (q : list block) (b w e sn : Z) : Prop :=
  match q with
  | c :: q' => if b_free c then w = b_addr c /\ b = w /\ sn = b_size c /\
                 w <> e /\ free_addrs q = w :: free_addrs q' else b <> w
  | [] => b = w /\ w = e
  end.

Lemma inserted_apart it si b sb w e h q sn :
  xBlockSize h !! w = Some sn -> behind q (b + sb) w e sn -> it + si <> b ->
  xBlockSize h !! b = Some sb ->
  pxNextFreeBlock (inserted_block it si b sb w e h) =
    <[it := b]> (<[b := (after_absorb q w h).1.1]> (pxNextFreeBlock h)) /\
  xBlockSize (inserted_block it si b sb w e h) = <[b := sb + (after_absorb q w h).2]> (xBlockSize h).
Proof.
  intros Hsn Hq Hne Hsb. unfold inserted_block, after_absorb, behind in *. apply Z.eqb_neq in Hne as ->.
  assert (Hid : <[b := sb + 0]> (xBlockSize h) = xBlockSize h)
    by (rewrite Z.add_0_r; by apply insert_id).
  destruct q as [|c q].
  - destruct Hq as [-> ->]. rewrite !Z.eqb_refl. cbn. by rewrite Hid.
  - destruct (b_free c).
    + destruct Hq as (_ & -> & -> & Hwe & _). apply Z.eqb_neq in Hwe as ->. rewrite Z.eqb_refl.
      cbn. by rewrite Hsn.
    + apply Z.eqb_neq in Hq as ->. cbn. by rewrite Hid.
Qed.

Lemma inserted_merged it si b sb w e h q sn :
  xBlockSize h !! w = Some sn -> behind q (b + sb) w e sn -> it + si = b -> w <> it ->
  pxNextFreeBlock (inserted_block it si b sb w e h) =
    <[it := (after_absorb q w h).1.1]> (pxNextFreeBlock h) /\
  xBlockSize (inserted_block it si b sb w e h) =
    <[it := si + sb + (after_absorb q w h).2]> (xBlockSize h).
Proof.
  intros Hsn Hq Hne Hw. unfold inserted_block, after_absorb, behind in *. apply Z.eqb_eq in Hne as ->.
  destruct q as [|c q].
  - destruct Hq as [-> ->]. rewrite !Z.eqb_refl. cbn. by rewrite Z.add_0_r.
  - destruct (b_free c).
    + destruct Hq as (_ & -> & -> & Hwe & _). apply Z.eqb_neq in Hwe as ->. rewrite Z.eqb_refl.
      cbn. by rewrite Hsn, insert_insert_eq.
    + apply Z.eqb_neq in Hq as ->. cbn. by rewrite Z.add_0_r.
Qed.

(** Putting a block back gives the heap of the joined blocks. *)
Lemma insert_join {B} (f : unit -> HM B) a0 p b q h :
  area a0 (pxEnd h) -> tiles a0 (p ++ b :: q) (pxEnd h) -> b_free b = true ->
  free_list_ok (p ++ q) h -> xBlockSize h !! b_addr b = Some (b_size b) ->
  exists h', (prvInsertBlockIntoFreeList ucHeap xStart (b_addr b) ≫= f) h = f tt h' /\
    free_list_ok (join p b q) h' /\ same_globals h h' /\
    headers_kept (fun a => a = xStart \/ a ∈ free_addrs p \/ a = b_addr b) h h'.
Proof.
  intros Ha Ht Hb [Hc Hs H0 [He1 He2]] Hsb.
  destruct (free_split_ranges _ _ _ _ _ Ht) as (Tp & Tq & B8 & Lo & Hi).
  pose proof Ha as [? ? ? ? ?]. rewrite free_addrs_app in Hc.
  destruct (exists_last (l := xStart :: free_addrs p)) as (l & it & E1); [done|].
  destruct (free_addrs q ++ [pxEnd h]) as [|w l2] eqn:E2; [by destruct (free_addrs q)|].
  assert (Hsp : forall c, c ∈ p -> b_free c = true -> xBlockSize h !! b_addr c = Some (b_size c))
    by (intros c Hx; apply Hs; set_solver).
  assert (Hsq : forall c, c ∈ q -> b_free c = true -> xBlockSize h !! b_addr c = Some (b_size c))
    by (intros c Hx; apply Hs; set_solver).
  destruct (node_before a0 _ p (b_addr b) h l it Ha eq_refl Tp ltac:(lia) Hsp H0 E1)
    as (si & Esi & Psi & Pit & Bit & Iit & Nit & Rit & Hlast).
  destruct (node_after a0 _ q (b_addr b + b_size b) h l2 w Ha eq_refl Tq ltac:(lia) Hsq He1 E2)
    as (sn & Esn & Psn & Rw & Bw & Hafter).
  assert (Hwnn : exists nn, pxNextFreeBlock h !! w = Some nn).
  { destruct (lchain_link _ _ _ _ _ _ _ _ _ Hc E1 E2) as [_ [[-> _]|[ys' E]]]; [by eexists|].
    eapply lchain_dom; [exact Hc|]. rewrite E. set_solver. }
  destruct Hwnn as [nn Enn].
  assert (Nw : it <> w).
  { destruct Rit as [[-> ->]|?]; lia. }
  assert (Hfuel : (length (free_addrs p) < walk_fuel h)%nat).
  { unfold walk_fuel. apply Nat.lt_succ_r. rewrite <- size_dom.
    rewrite <- (size_list_to_set (C := gset Z) (free_addrs p)) by (by eapply free_addrs_nodup).
    apply subseteq_size. intros x Hx%elem_of_list_to_set. apply elem_of_dom.
    eapply lchain_dom; [exact Hc|]. set_solver. }
  assert (Hb_sum : si + b_size b + sn < 2 ^ 32).
  { destruct Rit as [[-> ->]|?]; lia. }
  eexists. split.
  { apply (prvInsert_run ucHeap xStart f h (free_addrs p) (free_addrs q) l it w l2 si (b_addr b)
             (b_size b) sn nn); try done; try lia.
    - intros x Hx. by pose proof (free_addrs_range _ _ _ _ Tp Hx) as [_ ?].
    - eapply area_in; [done|lia|lia]. }
  split; [|split; [apply inserted_block_globals|]].
  2:{ intros a Hna. apply inserted_block_kept. intros [-> | ->]; [|tauto].
      apply Hna. assert (it ∈ xStart :: free_addrs p) by (rewrite E1; set_solver). set_solver. }
  assert (Hnd : NoDup (xStart :: free_addrs p)).
  { apply NoDup_cons. split; [|by eapply free_addrs_nodup]. intros Hx.
    pose proof (free_addrs_range _ _ _ _ Tp Hx). lia. }
  assert (Hbp : b_addr b ∉ xStart :: free_addrs p).
  { intros [E|Hx]%elem_of_cons; [lia|]. pose proof (free_addrs_range _ _ _ _ Tp Hx). lia. }
  destruct (after_absorb_starts a0 _ _ q h w l2 l it Ha Tq Hc E1 E2) as [Hst Hrange].
  assert (Hbs : forall x, x ∈ p \/ x ∈ q -> b_addr x <> b_addr b).
  { intros x [Hx|Hx]; [pose proof (tiles_in _ _ _ _ Tp Hx)|pose proof (tiles_in _ _ _ _ Tq Hx)]; lia. }
  destruct (decide (it + si = b_addr b)) as [Em|Em].
  - assert (exists p' c, p = p' ++ [c] /\ b_free c = true /\ it = b_addr c /\ si = b_size c) as
      (p' & c & -> & Ec & -> & ->).
    { destruct p as [|c p' _] using rev_ind; [done|]. rewrite last_snoc in Hlast.
      destruct (b_free c) eqn:Ec; [|done]. destruct Hlast as (-> & -> & _). by exists p', c. }
    destruct (inserted_merged _ _ _ (b_size b) w (pxEnd h) h q sn Esn Hafter Em ltac:(done)) as [Fn Fs].
    rewrite join_snoc, Ec. rewrite free_addrs_app, free_addrs_cons, Ec in Hc, Hnd, E1.
    change (free_addrs []) with (@nil Z) in *.
    constructor.
    + rewrite Fn, (proj1 (inserted_block_globals _ _ _ _ _ _ _)), free_addrs_app.
      rewrite (absorb_after _ _ w h) by done.
      eapply chain_skip; [exact Hc|exact Hnd|exact Hst|].
      intros Hx%Hrange. cbn [merge b_addr] in Hx. lia.
    + intros d Hd Ed. rewrite Fs.
      assert (Hold : d ∈ p' ++ q -> xBlockSize h !! b_addr d = Some (b_size d))
        by (intros Hx; apply Hs; set_solver).
      apply elem_of_app in Hd as [Hd|Hd]; [|apply (absorb_sizes _ _ w h) in Hd as [-> | Hd]; [| |done..]].
      * rewrite lookup_insert_ne; [apply Hold; set_solver|].
        apply tiles_app in Tp as (m & Tp & <- & _). pose proof (tiles_in _ _ _ _ Tp Hd). lia.
      * cbn [b_addr b_size merge]. apply lookup_insert_eq.
      * rewrite lookup_insert_ne; [apply Hold; set_solver|].
        pose proof (tiles_in _ _ _ _ Tq Hd). lia.
    + rewrite Fs, lookup_insert_ne; [done|]. intros E. apply NoDup_cons in Hnd as [Hnd _]. set_solver.
    + rewrite (proj1 (inserted_block_globals _ _ _ _ _ _ _)), Fs, Fn.
      rewrite !lookup_insert_ne by lia. done.
  - assert (join p b q = p ++ absorb b q) as ->.
    { unfold join. destruct p as [|c p' _] using rev_ind; [done|]. rewrite last_snoc in *.
      destruct (b_free c); [|done]. tauto. }
    destruct (inserted_apart it si _ _ w (pxEnd h) h q sn Esn Hafter Em Hsb) as [Fn Fs].
    constructor.
    + rewrite Fn, (proj1 (inserted_block_globals _ _ _ _ _ _ _)), free_addrs_app.
      rewrite (absorb_after _ _ w h) by done.
      eapply chain_put; try done.
      * intros Hx%Hrange. destruct Rit as [[-> ->]|?]; lia.
      * intros Hx%Hrange. lia.
    + intros d Hd Ed. rewrite Fs.
      apply elem_of_app in Hd as [Hd|Hd]; [|apply (absorb_sizes _ _ w h) in Hd as [-> | Hd]; [| |done..]].
      * rewrite lookup_insert_ne; [apply Hs; set_solver|]. apply not_eq_sym, Hbs. by left.
      * cbn [b_addr b_size]. apply lookup_insert_eq.
      * rewrite lookup_insert_ne; [apply Hs; set_solver|]. apply not_eq_sym, Hbs. by right.
    + rewrite Fs, lookup_insert_ne; [done|]. set_solver.
    + rewrite (proj1 (inserted_block_globals _ _ _ _ _ _ _)), Fs, Fn.
      rewrite !lookup_insert_ne by lia. done.
Qed.

End heap_state.
