(* ===== verification/RtAlloc.v ===== *)
(** * The FreeRTOS heap: allocation and release

    [pvPortMalloc] and [vPortFree] against the partition of the heap area
    into blocks ([ns_guest/lib/freertos/heap_4.c]). *)
From S2P Require Import Prelude.
From S2P Require Import RtHeap.

Local Open Scope Z_scope.

Section heap_state.
Variables ucHeap xStart : Z.
Local Abbreviation area := (area ucHeap xStart).
Local Abbreviation free_list_ok := (free_list_ok xStart).

(** ** Allocation *)

(** First fit: the block is split when more than two headers are left. *)
Definition carve (w : Z) (b : block) : list block :=
  if heapMINIMUM_BLOCK_SIZE <? b_size b - w then
    [Block (b_addr b) w false; Block (b_addr b + w) (b_size b - w) true]
  else [Block (b_addr b) (b_size b) false].

Fixpoint first_fit (w : Z) (bs : list block) : option (Z * list block) :=
  match bs with
  | [] => None
  | b :: bs' =>
      if b_free b && (w <=? b_size b) then Some (b_addr b, carve w b ++ bs')
      else '(a, r) ← first_fit w bs'; Some (a, b :: r)
  end.

Definition allocate (xWantedSize : Z) (bs : list block) : option (Z * list block) :=
  if (0 <? xWantedSize) && (xWantedSize <? 2 ^ 31) then first_fit (block_size xWantedSize) bs else None.

Definition too_small (w : Z) (bs : list block) : Prop :=
  forall b, b ∈ bs -> b_free b = true -> b_size b < w.

Lemma first_fit_spec w bs :
  match first_fit w bs with
  | Some (a, bs') => exists p b q, bs = p ++ b :: q /\ b_free b = true /\ w <= b_size b /\
                       too_small w p /\ a = b_addr b /\ bs' = p ++ carve w b ++ q
  | None => too_small w bs
  end.
Proof.
  induction bs as [|b bs IH]; cbn [first_fit]; [by intros b ?%elem_of_nil|].
  destruct (b_free b && (w <=? b_size b)) eqn:E.
  - apply andb_true_iff in E as [Eb Ew]. exists [], b, bs. split_and!; try done; [lia|].
    by intros c ?%elem_of_nil.
  - assert (Hb : b_free b = true -> b_size b < w) by (intros Eb; rewrite Eb in E; cbn in E; lia).
    destruct (first_fit w bs) as [[a r]|]; cbn.
    + destruct IH as (p & c & q & -> & ? & ? & Hp & -> & ->). exists (b :: p), c, q.
      split_and!; try done. intros d [-> | Hd]%elem_of_cons; [done|by apply Hp].
    + intros d [-> | Hd]%elem_of_cons; [done|by apply IH].
Qed.

Lemma block_size_spec n : 0 < n < 2 ^ 31 ->
  n + 8 <= block_size n < n + 16 /\ block_size n mod 8 = 0.
Proof.
  intros Hn. unfold block_size, portBYTE_ALIGNMENT, portBYTE_ALIGNMENT_MASK.
  change xHeapStructSize with 8. destruct (Z.ltb_spec 0 n); [|lia].
  unfold add32, sub32. rewrite (u32_small (n + 8)) by (unfold is_u32; lia).
  change 7 with (Z.ones 3). rewrite Z.land_ones by done. change (2 ^ 3) with 8.
  pose proof (Z.mod_pos_bound (n + 8) 8). pose proof (Z.div_mod (n + 8) 8).
  destruct (Z.eqb_spec ((n + 8) mod 8) 0) as [E|E]; cbn [negb]; [lia|].
  rewrite (u32_small (8 - (n + 8) mod 8)) by (unfold is_u32; lia).
  rewrite (u32_small (n + 8 + (8 - (n + 8) mod 8))) by (unfold is_u32; lia).
  split; [lia|]. apply Z.mod_divide; [done|]. exists ((n + 8) / 8 + 1). lia.
Qed.

(** The search stops at the first node that is large enough or the last. *)
Lemma find_fit_run {B} (f : Z * Z -> HM B) h w ys : forall prev t b l u sb nb fuel,
  starts (pxNextFreeBlock h) t ys b ->
  (forall y, y ∈ ys -> y <> 0 /\ exists s, xBlockSize h !! y = Some s /\ s < w) ->
  b <> 0 -> xBlockSize h !! b = Some sb -> pxNextFreeBlock h !! b = Some nb -> (w <= sb \/ nb = 0) ->
  prev :: ys = l ++ [u] -> (length ys < fuel)%nat ->
  (find_fit fuel prev t w ≫= f) h = f (u, b) h.
Proof.
  induction ys as [|y ys IH]; intros prev t b l u sb nb [|fuel] Hs Hy Hb0 Hsb Hnb Hstop E Hf;
    try (cbn in Hf; lia); cbn [find_fit]; rewrite bind_assoc.
  - destruct (app_inj_tail [] l prev u E) as [_ <-]. cbn in Hs. subst t.
    rewrite (ld_size_run _ sb) by done. destruct (Z.ltb_spec sb w); [|done].
    rewrite bind_assoc, (ld_next_free_run _ nb) by done. destruct Hstop as [?| ->]; [lia|done].
  - destruct Hs as [-> Hs]. destruct (Hy y ltac:(left)) as (Hy0 & s & Es & Hsw).
    rewrite (ld_size_run _ s) by done. destruct (Z.ltb_spec s w); [|lia].
    apply lchain_starts in Hs as (n & En & Hs).
    rewrite bind_assoc, (ld_next_free_run _ n) by done.
    destruct l as [|? l]; [done|]. injection E as <- E.
    assert (n <> 0).
    { destruct ys as [|y2 ys]; [cbn in Hs; congruence|]. destruct Hs as [-> _]. apply Hy. right. left. }
    destruct (Z.eqb_spec n 0); [done|]. cbn [negb].
    rewrite bind_assoc, (ld_next_free_run _ n) by done. cbn in Hf.
    eapply (IH y n b l u sb nb); try done; [|lia]. intros z Hz. apply Hy. by right.
Qed.

(** Taking a block off the list. *)
Lemma unlink_block a0 p b q h l u :
  area a0 (pxEnd h) -> tiles a0 (p ++ b :: q) (pxEnd h) -> b_free b = true ->
  free_list_ok (p ++ b :: q) h -> xStart :: free_addrs p = l ++ [u] ->
  exists n, pxNextFreeBlock h !! b_addr b = Some n /\ free_list_ok (p ++ q) (set_next u n h).
Proof.
  intros Ha Ht Hb [Hc Hs H0 [He1 He2]] E.
  destruct (start_not_free _ _ _ _ _ Ha Ht) as [_ Hnd].
  rewrite free_addrs_app, free_addrs_cons, Hb in Hc, Hnd.
  apply lchain_app in Hc as [Hc1 Hc2]. apply lchain_starts in Hc2 as (n & En & Hs2).
  exists n. split; [done|]. constructor; cbn [set_next pxNextFreeBlock xBlockSize pxEnd].
  - rewrite free_addrs_app.
    change (NoDup ((xStart :: free_addrs p) ++ b_addr b :: free_addrs q)) in Hnd.
    apply NoDup_app in Hnd as (Hnp & Hd & _).
    assert (Hu : u ∈ xStart :: free_addrs p) by (rewrite E; set_solver).
    assert (Hfr : forall x, x ∈ free_addrs q -> x <> u)
      by (intros x Hx ->; eapply Hd; [exact Hu|by right]).
    assert (Hc1' : lchain (<[u := n]> (pxNextFreeBlock h)) xStart (free_addrs p) n)
      by by eapply (lchain_retarget _ _ _ _ l).
    destruct (free_addrs q) as [|y ys]; cbn in Hs2.
    + subst n. by rewrite app_nil_r.
    + destruct Hs2 as [-> Hs2]. apply lchain_app. split; [done|].
      eapply lchain_frame; [|exact Hs2]. intros x Hx. apply lookup_insert_ne. by apply not_eq_sym, Hfr.
  - intros c Hc' Ec. apply Hs; [set_solver|done].
  - done.
  - split; [done|]. rewrite lookup_insert_ne; [done|]. intros ->.
    destruct (free_split_ranges _ _ _ _ _ Ht) as (Tp & _ & ? & _ & ?). destruct Ha.
    assert (Hu : pxEnd h ∈ xStart :: free_addrs p) by (rewrite E; set_solver).
    apply elem_of_cons in Hu as [Hu|Hu]; [lia|]. pose proof (free_addrs_range _ _ _ _ Tp Hu). lia.
Qed.

(** ** The invariant *)
Definition ALLOCATED : Z := 2 ^ 31.

(** What is known of a heap whose area starts at [a0] and is cut into [bs]. *)
Record heap_ok (a0 : Z) (bs : list block) (h : heap) : Prop := {
  hp_area : area a0 (pxEnd h);
  hp_tiles : tiles a0 bs (pxEnd h);
  hp_coalesced : coalesced bs;
  hp_list : free_list_ok bs h;
  hp_used : forall b, b ∈ bs -> b_free b = false ->
    xBlockSize h !! b_addr b = Some (Z.lor (b_size b) ALLOCATED) /\
    pxNextFreeBlock h !! b_addr b = Some 0;
  hp_free : xFreeBytesRemaining h = free_bytes bs;
  hp_minimum : 0 <= xMinimumEverFreeBytesRemaining h <= free_bytes bs;
  hp_bit : xBlockAllocatedBit h = ALLOCATED
}.

(** The list only depends on the fields of its nodes. *)
Lemma free_list_frame bs h h' :
  pxEnd h' = pxEnd h ->
  (forall a, a ∈ xStart :: free_addrs bs \/ a = pxEnd h ->
     pxNextFreeBlock h' !! a = pxNextFreeBlock h !! a /\ xBlockSize h' !! a = xBlockSize h !! a) ->
  free_list_ok bs h -> free_list_ok bs h'.
Proof.
  intros Ee Hf [Hc Hs H0 [He1 He2]]. constructor; rewrite ?Ee.
  - eapply lchain_frame; [|exact Hc]. intros p Hp. apply Hf. by left.
  - intros b Hb Eb. assert (Hin : b_addr b ∈ free_addrs bs) by (apply free_addrs_in; by exists b).
    destruct (Hf (b_addr b)) as [_ ->]; [left; by right|]. by apply Hs.
  - rewrite (proj2 (Hf xStart ltac:(left; left))). done.
  - destruct (Hf (pxEnd h) ltac:(by right)) as [-> ->]. done.
Qed.

Lemma tiles_addr_inj a bs e b c :
  tiles a bs e -> b ∈ bs -> c ∈ bs -> b_addr b = b_addr c -> b = c.
Proof.
  revert a. induction bs as [|d bs IH]; intros a; [by intros _ ?%elem_of_nil|].
  cbn [tiles]. intros (<- & Hs & _ & Ht) [-> | Hb]%elem_of_cons [-> | Hc]%elem_of_cons E; [done|..].
  - pose proof (tiles_in _ _ _ _ Ht Hc). lia.
  - pose proof (tiles_in _ _ _ _ Ht Hb). lia.
  - by eapply IH.
Qed.

(** The areas of two blocks do not meet. *)
Lemma tiles_disjoint a bs e b c :
  tiles a bs e -> b ∈ bs -> c ∈ bs -> b <> c ->
  b_addr b + b_size b <= b_addr c \/ b_addr c + b_size c <= b_addr b.
Proof.
  revert a. induction bs as [|d bs IH]; intros a; [by intros _ ?%elem_of_nil|].
  cbn [tiles]. intros (<- & Hs & _ & Ht) [-> | Hb]%elem_of_cons [-> | Hc]%elem_of_cons E; [done|..].
  - pose proof (tiles_in _ _ _ _ Ht Hc). lia.
  - pose proof (tiles_in _ _ _ _ Ht Hb). lia.
  - by eapply IH.
Qed.

(** ** Initialisation *)
Definition align8 (a : Z) : Z := (a + 7) / 8 * 8.
Definition heap_first : Z := align8 ucHeap.
Definition heap_last : Z := (ucHeap + configTOTAL_HEAP_SIZE - 8) / 8 * 8.

(** Where the linker may put the heap and [xStart]. *)
Record layout_ok : Prop := {
  lay_heap : 0 < ucHeap /\ ucHeap + configTOTAL_HEAP_SIZE < 2 ^ 32;
  lay_start : 0 <= xStart < 2 ^ 32 /\ (xStart + 8 <= ucHeap \/ ucHeap + configTOTAL_HEAP_SIZE <= xStart)
}.

Lemma align8_bounds a : a <= align8 a < a + 8 /\ align8 a mod 8 = 0.
Proof.
  unfold align8. pose proof (Z.mod_pos_bound (a + 7) 8). pose proof (Z.div_mod (a + 7) 8).
  split; [lia|]. by rewrite Z.mod_mul.
Qed.

Lemma mask8 a : is_u32 a -> (a .& ~! portBYTE_ALIGNMENT_MASK)%word = a / 8 * 8.
Proof.
  intros Ha. unfold portBYTE_ALIGNMENT_MASK. change 7 with (Z.ones 3). change 8 with (2 ^ 3).
  rewrite <- (Z.shiftr_div_pow2 a 3), <- Z.shiftl_mul_pow2, <- Z.ldiff_ones_r by done.
  apply Z.bits_inj'. intros i Hi. autorewrite with bits_db. destruct (Z.ltb_spec i 32); [by split_positions|].
  rewrite u32_testbit_high by done. done.
Qed.

Lemma mask7 a : (a .& portBYTE_ALIGNMENT_MASK)%word = a mod 8.
Proof. unfold portBYTE_ALIGNMENT_MASK. change 7 with (Z.ones 3). by rewrite Z.land_ones. Qed.


Definition initial_heap (h : heap) : heap :=
  let len := heap_last - heap_first in
  Heap (<[heap_first := heap_last]> (<[heap_last := 0]> (<[xStart := heap_first]> (pxNextFreeBlock h))))
    (<[heap_first := len]> (<[heap_last := 0]> (<[xStart := 0]> (xBlockSize h))))
    heap_last len len ALLOCATED.

Lemma heap_bounds : layout_ok ->
  ucHeap <= heap_first < ucHeap + 8 /\ heap_first mod 8 = 0 /\ heap_last mod 8 = 0 /\
  ucHeap + configTOTAL_HEAP_SIZE - 16 < heap_last <= ucHeap + configTOTAL_HEAP_SIZE - 8.
Proof.
  intros [[? ?] _]. unfold heap_first, heap_last. destruct (align8_bounds ucHeap) as [? ?].
  rewrite Z.mod_mul by done. split_and!; try lia; try done;
    pose proof (Z.mod_pos_bound (ucHeap + configTOTAL_HEAP_SIZE - 8) 8);
    pose proof (Z.div_mod (ucHeap + configTOTAL_HEAP_SIZE - 8) 8); lia.
Qed.

Lemma prvHeapInit_run {B} (f : unit -> HM B) h :
  layout_ok -> (prvHeapInit ucHeap xStart ≫= f) h = f tt (initial_heap h).
Proof.
  intros Hl. destruct (heap_bounds Hl) as (B1 & A1 & A2 & B2). destruct Hl as [[L1 L2] [L3 L4]].
  assert (configTOTAL_HEAP_SIZE = 4194304) as Hsz by reflexivity.
  unfold prvHeapInit. rewrite mask7.
  set (p := if (ucHeap mod 8 =? 0) then _ else _).
  assert (Hp : p.1 = heap_first /\ is_u32 p.2 /\ p.1 + p.2 = ucHeap + configTOTAL_HEAP_SIZE).
  { subst p. destruct (Z.eqb_spec (ucHeap mod 8) 0) as [E|E]; cbn [fst snd].
    - assert (ucHeap = heap_first).
      { unfold heap_first in *. pose proof (Z.div_mod ucHeap 8). unfold align8 in *.
        replace (ucHeap + 7) with (7 + ucHeap / 8 * 8) by lia. rewrite Z.div_add by done. change (7 / 8) with 0. lia. }
      unfold is_u32. split_and!; lia.
    - assert (sub32 portBYTE_ALIGNMENT 1 = 7) as -> by reflexivity. unfold add32, sub32.
      rewrite (u32_small (ucHeap + 7)) by (unfold is_u32; lia).
      rewrite mask8 by (unfold is_u32; lia). fold (align8 ucHeap). fold heap_first.
      unfold sub32. rewrite (u32_small (heap_first - ucHeap)) by (unfold is_u32; lia).
      rewrite u32_small by (unfold is_u32; lia). split_and!; unfold is_u32; lia. }
  destruct p as [a t]. cbn [fst snd] in Hp. destruct Hp as (-> & Ht & Hsum).
  change xHeapStructSize with 8. unfold add32, sub32.
  rewrite (u32_small (heap_first + t)) by (unfold is_u32; lia). rewrite Hsum.
  rewrite (u32_small (ucHeap + configTOTAL_HEAP_SIZE - 8)) by (unfold is_u32; lia).
  rewrite mask8 by (unfold is_u32; lia). fold heap_last.
  assert (Hin : forall x, heap_first <= x <= heap_last -> in_heap ucHeap xStart x = true).
  { intros x Hx. unfold in_heap. change xHeapStructSize with 8. lia. }
  rewrite bind_assoc, st_next_free_run by apply area_start.
  rewrite bind_assoc, st_size_run by apply area_start.
  rewrite bind_assoc, bind_modify, bind_assoc, st_size_run by (apply Hin; lia).
  rewrite bind_assoc, st_next_free_run by (apply Hin; lia).
  rewrite (u32_small (heap_last - heap_first)) by (unfold is_u32; lia).
  rewrite bind_assoc, st_size_run by (apply Hin; lia).
  rewrite bind_assoc, st_next_free_run by (apply Hin; lia).
  rewrite bind_assoc, (ld_size_run _ (heap_last - heap_first)) by apply lookup_insert_eq.
  rewrite bind_assoc, bind_modify, bind_assoc.
  rewrite (ld_size_run _ (heap_last - heap_first)) by apply lookup_insert_eq.
  rewrite bind_assoc, bind_modify, bind_modify. reflexivity.
Qed.

(** The first block is the whole area. *)
Lemma initial_heap_ok h :
  layout_ok -> heap_ok heap_first [Block heap_first (heap_last - heap_first) true] (initial_heap h).
Proof.
  intros Hl. destruct (heap_bounds Hl) as (B1 & A1 & A2 & B2). destruct Hl as [[L1 L2] [L3 L4]].
  assert (configTOTAL_HEAP_SIZE = 4194304) as Hsz by reflexivity.
  constructor; cbn [initial_heap pxEnd xFreeBytesRemaining xMinimumEverFreeBytesRemaining xBlockAllocatedBit];
    try done.
  - constructor; try done; lia.
  - cbn. split_and!; try done; try lia. by rewrite Zminus_mod, A1, A2.
  - constructor; cbn [initial_heap pxEnd pxNextFreeBlock xBlockSize].
    + split; [|apply lookup_insert_eq].
      rewrite !lookup_insert_ne, lookup_insert_eq by (cbn [b_addr]; lia). done.
    + intros b ->%list_elem_of_singleton _. cbn. apply lookup_insert_eq.
    + rewrite !lookup_insert_ne, lookup_insert_eq by lia. done.
    + rewrite !(lookup_insert_ne _ heap_first), !lookup_insert_eq by lia. done.
  - intros b ->%list_elem_of_singleton. done.
  - rewrite free_bytes_cons. change (free_bytes []) with 0. cbn [b_free b_size]. lia.
  - rewrite free_bytes_cons. change (free_bytes []) with 0. cbn [b_free b_size]. lia.
Qed.

(** ** Carving a block *)
Definition taken (w : Z) (b : block) : Z :=
  if heapMINIMUM_BLOCK_SIZE <? b_size b - w then w else b_size b.
Definition rest (w : Z) (b : block) : list block :=
  if heapMINIMUM_BLOCK_SIZE <? b_size b - w then [Block (b_addr b + w) (b_size b - w) true] else [].

Lemma carve_eq w b : carve w b = Block (b_addr b) (taken w b) false :: rest w b.
Proof. unfold carve, taken, rest. by destruct (heapMINIMUM_BLOCK_SIZE <? b_size b - w). Qed.

Lemma carve_tiles a w b q e :
  8 <= w <= b_size b -> w mod 8 = 0 -> tiles a (b :: q) e -> tiles a (carve w b ++ q) e.
Proof.
  intros Hw Hm (<- & Hs & H8 & Ht). unfold carve. change heapMINIMUM_BLOCK_SIZE with 16.
  destruct (Z.ltb_spec 16 (b_size b - w)); cbn; [|done].
  split_and!; try done; try lia.
  - by rewrite Zminus_mod, H8, Hm.
  - by replace (b_addr b + w + (b_size b - w)) with (b_addr b + b_size b) by lia.
Qed.

Lemma carve_coalesced p w b q :
  b_free b = true -> coalesced (p ++ b :: q) -> coalesced (p ++ carve w b ++ q).
Proof.
  intros Hb Hc. rewrite carve_eq. cbn [app].
  assert (Hq : coalesced (rest w b ++ q)).
  { apply coalesced_app in Hc as [_ Hc]. unfold rest.
    destruct (heapMINIMUM_BLOCK_SIZE <? b_size b - w); [|by apply coalesced_cons in Hc].
    destruct q as [|c q]; [done|]. destruct Hc as [Hbc Hc]. rewrite Hb in Hbc. by split. }
  assert (Hq' : coalesced (Block (b_addr b) (taken w b) false :: rest w b ++ q))
    by (destruct (rest w b ++ q); done).
  destruct p as [|c p _] using rev_ind; [done|]. rewrite <- app_assoc in *. cbn [app] in *.
  apply coalesced_mid; [|done|apply andb_false_r].
  replace (p ++ c :: b :: q) with ((p ++ [c]) ++ b :: q) in Hc by (by rewrite <- app_assoc).
  by apply coalesced_app in Hc as [? _].
Qed.

Lemma carve_bytes p w b q :
  b_free b = true -> free_bytes (p ++ carve w b ++ q) = free_bytes (p ++ b :: q) - taken w b.
Proof.
  intros Hb. rewrite carve_eq. cbn [app]. rewrite !free_bytes_app, !free_bytes_cons, free_bytes_app, Hb.
  cbn [b_free]. unfold rest, taken. destruct (heapMINIMUM_BLOCK_SIZE <? b_size b - w).
  - rewrite free_bytes_cons. cbn [b_free b_size]. change (free_bytes []) with 0. lia.
  - change (free_bytes []) with 0. lia.
Qed.

(** A block in use is not on the list. *)
Lemma free_list_used p c q h :
  b_free c = false -> free_list_ok (p ++ q) h -> free_list_ok (p ++ c :: q) h.
Proof.
  intros Ec [Hc Hs H0 He]. constructor; try done.
  - by rewrite free_addrs_app, free_addrs_cons, Ec, <- free_addrs_app.
  - intros d [Hd|[-> |Hd]%elem_of_cons]%elem_of_app Ed; [|congruence|]; apply Hs; set_solver.
Qed.

Definition split_block (pxBlock xWantedSize : Z) : HM unit :=
  s ← ld_size pxBlock;
  when (heapMINIMUM_BLOCK_SIZE <? (s - xWantedSize)%word)
    (let pxNewBlockLink := (pxBlock + xWantedSize)%word in
     s ← ld_size pxBlock; st_size ucHeap xStart pxNewBlockLink (s - xWantedSize)%word ;;
     st_size ucHeap xStart pxBlock xWantedSize ;;
     prvInsertBlockIntoFreeList ucHeap xStart pxNewBlockLink).

Definition touched (p : list block) (b : block) (a : Z) : Prop :=
  a = xStart \/ a ∈ free_addrs p \/ b_addr b <= a < b_addr b + b_size b.

(** The two sizes are written inside the block that is split. *)
Lemma split_sizes_kept a0 p b q w h :
  area a0 (pxEnd h) -> tiles a0 (p ++ b :: q) (pxEnd h) -> 8 <= w < b_size b -> free_list_ok (p ++ q) h ->
  headers_kept (touched p b) h (set_size (b_addr b) w (set_size (b_addr b + w) (b_size b - w) h)) /\
  free_list_ok ((p ++ [Block (b_addr b) w false]) ++ q)
    (set_size (b_addr b) w (set_size (b_addr b + w) (b_size b - w) h)).
Proof.
  intros Ha Ht Hw Hl. destruct (free_split_ranges _ _ _ _ _ Ht) as (Tp & Tq & B8 & Lo & Hi).
  pose proof Ha as [? ? ? ? ?]. split.
  { intros a Hna. split; [done|]. unfold touched in Hna.
    cbn [set_size xBlockSize]. rewrite !lookup_insert_ne by lia. done. }
  rewrite <- app_assoc. apply free_list_used; [done|]. apply (free_list_frame _ h); [done| |done].
  intros a Hna. split; [done|]. cbn [set_size xBlockSize].
  rewrite free_addrs_app in Hna. rewrite !lookup_insert_ne; [done|..]; intros <-;
  destruct Hna as [[?|[Hx|Hx]%elem_of_app]%elem_of_cons|?]; try lia;
    try (pose proof (free_addrs_range _ _ _ _ Tp Hx); lia); pose proof (free_addrs_range _ _ _ _ Tq Hx); lia.
Qed.

Lemma split_block_run {B} (f : unit -> HM B) a0 p b q w h :
  area a0 (pxEnd h) -> tiles a0 (p ++ b :: q) (pxEnd h) -> coalesced (p ++ b :: q) ->
  b_free b = true -> 8 <= w <= b_size b -> w mod 8 = 0 ->
  free_list_ok (p ++ q) h -> xBlockSize h !! b_addr b = Some (b_size b) ->
  exists h', (split_block (b_addr b) w ≫= f) h = f tt h' /\
    free_list_ok (p ++ carve w b ++ q) h' /\ same_globals h h' /\ headers_kept (touched p b) h h' /\
    xBlockSize h' !! b_addr b = Some (taken w b).
Proof.
  intros Ha Ht Hco Hb Hw Hm Hl Hsb. pose proof Ha as [? ? ? ? ?].
  destruct (free_split_ranges _ _ _ _ _ Ht) as (Tp & Tq & B8 & Lo & Hi).
  unfold split_block. rewrite bind_assoc, (ld_size_run _ (b_size b)) by done.
  unfold sub32, add32. rewrite (u32_small (b_size b - w)) by (unfold is_u32; lia).
  unfold carve, taken. destruct (heapMINIMUM_BLOCK_SIZE <? b_size b - w) eqn:Esplit; cbn [when].
  2:{ exists h. rewrite bind_ret. split_and!; try done. by apply free_list_used. }
  change heapMINIMUM_BLOCK_SIZE with 16 in Esplit. apply Z.ltb_lt in Esplit.
  set (c := Block (b_addr b + w) (b_size b - w) true). set (u := Block (b_addr b) w false).
  rewrite (u32_small (b_addr b + w)) by (unfold is_u32; lia).
  rewrite bind_assoc, (ld_size_run _ (b_size b)) by done.
  rewrite (u32_small (b_size b - w)) by (unfold is_u32; lia).
  rewrite bind_assoc, st_size_run by (eapply area_in; [done|lia|lia]).
  rewrite bind_assoc, st_size_run by (eapply area_in; [done|lia|lia]).
  set (h2 := set_size _ _ (set_size _ _ h)).
  destruct (split_sizes_kept _ _ _ _ w _ Ha Ht ltac:(lia) Hl) as [Hkept Hl2]. fold u h2 in Hkept, Hl2.
  assert (Ht2 : tiles a0 ((p ++ [u]) ++ c :: q) (pxEnd h2)).
  { rewrite <- app_assoc. apply tiles_app in Ht as (m & Hp & Hbq). apply tiles_app. exists m.
    split; [done|]. apply (carve_tiles _ w) in Hbq; [|done|done]. unfold carve in Hbq.
    change heapMINIMUM_BLOCK_SIZE with 16 in Hbq. destruct (Z.ltb_spec 16 (b_size b - w)); [done|lia]. }
  destruct (insert_join ucHeap xStart f a0 (p ++ [u]) c q h2) as (h3 & Hrun & Hl3 & Hg & Hk);
    [done|done|done|done| |].
  { cbn [h2 c set_size xBlockSize b_addr b_size]. rewrite lookup_insert_ne, lookup_insert_eq by lia. done. }
  exists h3. split; [exact Hrun|].
  assert (Habs : absorb c q = c :: q).
  { destruct q as [|d q]; [done|]. apply coalesced_app in Hco as [_ [Hbd _]]. rewrite Hb in Hbd.
    cbn in Hbd |- *. by rewrite Hbd. }
  split_and!.
  - rewrite join_snoc in Hl3. cbn [b_free u] in Hl3. rewrite Habs in Hl3. done.
  - exact Hg.
  - intros a Hna. destruct (Hkept a Hna) as [<- <-]. apply Hk. unfold touched in Hna.
    rewrite free_addrs_app. cbn [b_addr c]. intros [?|[[?|?]%elem_of_app|?]]; try tauto; [|lia].
    change (free_addrs [u]) with (@nil Z) in *. set_solver.
  - destruct (Hk (b_addr b)) as [_ ->]; [|apply lookup_insert_eq].
    rewrite free_addrs_app. cbn [b_addr c]. intros [?|[[Hx|Hx]%elem_of_app|?]]; [lia| |set_solver|lia].
    pose proof (free_addrs_range _ _ _ _ Tp Hx). lia.
Qed.

(** ** [pvPortMalloc] *)
Definition whole_area : list block := [Block heap_first (heap_last - heap_first) true].

(** The blocks of a heap, initialised or not. *)
Definition heap_view (a0 : Z) (bs : list block) (h : heap) : Prop :=
  heap_ok a0 bs h \/ (pxEnd h = 0 /\ layout_ok /\ a0 = heap_first /\ bs = whole_area).

Lemma prepare_run {B} (f : HM B) a0 bs h :
  heap_view a0 bs h ->
  exists h1, (h ← get; when (pxEnd h =? 0) (prvHeapInit ucHeap xStart) ;; f) h = f h1 /\
    heap_ok a0 bs h1 /\
    xMinimumEverFreeBytesRemaining h1 =
      (if pxEnd h =? 0 then free_bytes bs else xMinimumEverFreeBytesRemaining h).
Proof.
  intros [Hok|(E & Hl & -> & ->)]; rewrite bind_get.
  - destruct Hok as [Ha ? ? ? ? ? ? ?]. pose proof Ha as [? ? ? ? ?].
    exists h. destruct (Z.eqb_spec (pxEnd h) 0); [lia|]. cbn [when]. rewrite bind_ret. done.
  - exists (initial_heap h). rewrite E. cbn [Z.eqb when]. rewrite prvHeapInit_run by done.
    split; [done|]. split; [by apply initial_heap_ok|].
    unfold whole_area. rewrite free_bytes_cons. cbn. lia.
Qed.

(** A search of the list ends within its fuel. *)
Lemma walk_fuel_enough a0 p q h :
  area a0 (pxEnd h) -> tiles a0 (p ++ q) (pxEnd h) -> free_list_ok (p ++ q) h ->
  (length (free_addrs p) < walk_fuel h)%nat.
Proof.
  intros Ha Ht [Hc _ _ _]. apply tiles_app in Ht as (m & Hp & _).
  unfold walk_fuel. apply Nat.lt_succ_r. rewrite <- size_dom.
  rewrite <- (size_list_to_set (C := gset Z) (free_addrs p)) by (by eapply free_addrs_nodup).
  apply subseteq_size. intros x Hx%elem_of_list_to_set. apply elem_of_dom.
  eapply lchain_dom; [exact Hc|]. rewrite free_addrs_app. set_solver.
Qed.

Lemma free_headers_small a0 p q w h :
  area a0 (pxEnd h) -> tiles a0 (p ++ q) (pxEnd h) -> free_list_ok (p ++ q) h -> too_small w p ->
  forall y, y ∈ free_addrs p -> y <> 0 /\ exists s, xBlockSize h !! y = Some s /\ s < w.
Proof.
  intros Ha Ht [_ Hs _ _] Hsmall y (b & Hb & Eb & <-)%free_addrs_in. destruct Ha.
  apply tiles_app in Ht as (m & Hp & _). pose proof (tiles_in _ _ _ _ Hp Hb). split; [lia|].
  exists (b_size b). split; [apply Hs; [set_solver|done]|by apply Hsmall].
Qed.

(** The search finds the block that first fit chooses, or the end marker. *)
Lemma search_run {B} (f : Z * Z -> HM B) a0 bs w h :
  heap_ok a0 bs h -> 0 < w ->
  match first_fit w bs with
  | Some (a, r) => exists p b q l u, bs = p ++ b :: q /\ b_free b = true /\ w <= b_size b /\
      a = b_addr b /\ r = p ++ carve w b ++ q /\
      xStart :: free_addrs p = l ++ [u] /\ pxNextFreeBlock h !! u = Some (b_addr b) /\
      (first ← ld_next_free xStart; find_fit (walk_fuel h) xStart first w ≫= f) h = f (u, b_addr b) h
  | None => exists u, (first ← ld_next_free xStart; find_fit (walk_fuel h) xStart first w ≫= f) h =
              f (u, pxEnd h) h
  end.
Proof.
  intros [Ha Ht Hco Hl Hu Hf Hm Hbit] Hw. pose proof (first_fit_spec w bs) as Hff.
  pose proof Ha as [? ? ? ? ?].
  destruct (first_fit w bs) as [[a r]|].
  - destruct Hff as (p & b & q & -> & Hb & Hwb & Hp & -> & ->). pose proof Hl as [Hc Hs H0 He].
    destruct (exists_last (l := xStart :: free_addrs p)) as (l & u & E1); [done|].
    rewrite free_addrs_app, free_addrs_cons, Hb in Hc. apply lchain_app in Hc as [Hc1 Hc2].
    destruct (free_split_ranges _ _ _ _ _ Ht) as (Tp & Tq & B8 & Lo & Hi).
    destruct (lchain_link (pxNextFreeBlock h) xStart (free_addrs p) [] (b_addr b) l u (b_addr b) []) as [Hlink _];
      [by rewrite app_nil_r|done|done|].
    apply lchain_starts in Hc1 as (t & Et & Hs1). apply lchain_starts in Hc2 as (nb & Enb & _).
    exists p, b, q, l, u. do 7 (split; [done|]). rewrite (ld_next_free_run _ t) by done.
    eapply (find_fit_run f h w (free_addrs p) xStart t (b_addr b) l u (b_size b) nb); try done.
    + by eapply free_headers_small.
    + lia.
    + apply Hs; [set_solver|done].
    + by left.
    + by eapply walk_fuel_enough.
  - rewrite <- (app_nil_r bs) in Ht, Hl. pose proof Hl as [Hc Hs H0 [He1 He2]].
    rewrite app_nil_r in Hc. apply lchain_starts in Hc as (t & Et & Hs1).
    destruct (exists_last (l := xStart :: free_addrs bs)) as (l & u & E1); [done|].
    exists u. rewrite (ld_next_free_run _ t) by done.
    eapply (find_fit_run f h w (free_addrs bs) xStart t (pxEnd h) l u 0 0); try done.
    + by eapply free_headers_small.
    + lia.
    + by right.
    + by eapply walk_fuel_enough.
Qed.

Definition lower_minimum (h : heap) : heap :=
  if xFreeBytesRemaining h <? xMinimumEverFreeBytesRemaining h then
    set_minimum (xFreeBytesRemaining h) h else h.
Definition hand_out (a s : Z) (h : heap) : heap :=
  set_next a 0 (set_size a (Z.lor s ALLOCATED)
    (lower_minimum (set_free (xFreeBytesRemaining h - s) h))).

Lemma hand_out_fields a s h :
  pxEnd (hand_out a s h) = pxEnd h /\
  xFreeBytesRemaining (hand_out a s h) = xFreeBytesRemaining h - s /\
  xMinimumEverFreeBytesRemaining (hand_out a s h) =
    Z.min (xMinimumEverFreeBytesRemaining h) (xFreeBytesRemaining h - s) /\
  xBlockAllocatedBit (hand_out a s h) = xBlockAllocatedBit h /\
  pxNextFreeBlock (hand_out a s h) = <[a := 0]> (pxNextFreeBlock h) /\
  xBlockSize (hand_out a s h) = <[a := Z.lor s ALLOCATED]> (xBlockSize h).
Proof.
  unfold hand_out, lower_minimum. cbn [set_free xFreeBytesRemaining xMinimumEverFreeBytesRemaining].
  destruct (Z.ltb_spec (xFreeBytesRemaining h - s) (xMinimumEverFreeBytesRemaining h));
    split_and!; try done; cbn; lia.
Qed.

Lemma carve_used p w b q c :
  c ∈ p ++ carve w b ++ q -> b_free c = false ->
  c = Block (b_addr b) (taken w b) false \/ c ∈ p \/ c ∈ q.
Proof.
  rewrite carve_eq. unfold rest. intros [?|Hc]%elem_of_app Ec; [tauto|]. cbn [app] in Hc.
  apply elem_of_cons in Hc as [?|[Hc|?]%elem_of_app]; [tauto| |tauto].
  destruct (heapMINIMUM_BLOCK_SIZE <? b_size b - w); [|by apply elem_of_nil in Hc].
  apply list_elem_of_singleton in Hc as ->. done.
Qed.

(** The state after the block is cut out of the list is as it should be. *)
Lemma hand_out_ok a0 p b q w h h3 l u n :
  heap_ok a0 (p ++ b :: q) h -> b_free b = true -> 8 <= w <= b_size b -> w mod 8 = 0 ->
  xStart :: free_addrs p = l ++ [u] ->
  free_list_ok (p ++ carve w b ++ q) h3 -> same_globals h h3 ->
  headers_kept (touched p b) (set_next u n h) h3 ->
  heap_ok a0 (p ++ carve w b ++ q) (hand_out (b_addr b) (taken w b) h3) /\
  xMinimumEverFreeBytesRemaining (hand_out (b_addr b) (taken w b) h3) =
    Z.min (xMinimumEverFreeBytesRemaining h) (free_bytes (p ++ carve w b ++ q)).
Proof.
  intros [Ha Ht Hco Hl Hu Hf Hm Hbit] Hb Hw Hmod E1 Hl3 (Ge & Gf & Gm & Gb) Hk.
  destruct (free_split_ranges _ _ _ _ _ Ht) as (Tp & Tq & B8 & Lo & Hi). pose proof Ha as [? ? ? ? ?].
  assert (Ht' : tiles a0 (p ++ carve w b ++ q) (pxEnd h)).
  { apply tiles_app in Ht as (m & Hp & Hbq). apply tiles_app. exists m. split; [done|].
    by apply carve_tiles. }
  pose proof (free_bytes_bounds _ _ _ Ht') as Hbnd. pose proof (carve_bytes p w b q Hb) as Hbytes.
  destruct (hand_out_fields (b_addr b) (taken w b) h3) as (Eend & Efree & Emin & Ebit & Enext & Esize).
  rewrite Gf, Hf, <- Hbytes in Efree, Emin. rewrite Ge in Eend. rewrite Gm in Emin. rewrite Gb in Ebit.
  split; [|done]. constructor; rewrite ?Eend, ?Efree, ?Emin, ?Ebit; try done.
  - by apply carve_coalesced.
  - apply (free_list_frame _ h3); [by rewrite Eend| |done].
    intros a Hna. rewrite Enext, Esize, Ge in *. rewrite !lookup_insert_ne; [done|..]; intros <-;
    (destruct Hna as [[?|Hx]%elem_of_cons|?]; [lia| |lia];
     apply free_addrs_in in Hx as (c & Hc & Ec & Eac);
     assert (E : c = Block (b_addr b) (taken w b) false) by
       (eapply (tiles_addr_inj _ _ _ _ _ Ht'); [done|rewrite carve_eq, elem_of_app; right; left|done]);
     subst c; done).
  - intros c Hc Ec. rewrite Enext, Esize.
    pose proof (carve_used _ _ _ _ _ Hc Ec) as Hin.
    destruct Hin as [-> |Hin]; [cbn [b_addr b_size]; by rewrite !lookup_insert_eq|].
    assert (Hr : b_addr c < b_addr b \/ b_addr b + b_size b <= b_addr c).
    { destruct Hin as [Hin|Hin]; [pose proof (tiles_in _ _ _ _ Tp Hin)|pose proof (tiles_in _ _ _ _ Tq Hin)]; lia. }
    assert (Hold : c ∈ p ++ b :: q) by (rewrite elem_of_app, elem_of_cons; tauto). pose proof (tiles_in _ _ _ _ Ht Hold).
    assert (Hnf : b_addr c ∉ xStart :: free_addrs p).
    { intros [?|Hx]%elem_of_cons; [lia|]. apply free_addrs_in in Hx as (d & Hd & Ed & Ead).
      assert (d = c) as -> by (eapply (tiles_addr_inj _ _ _ _ _ Ht); [rewrite elem_of_app; by left|done|done]). congruence. }
    rewrite !lookup_insert_ne by lia. destruct (Hk (b_addr c)) as [-> ->].
    { intros [E|[Hx|?]]; [apply Hnf; rewrite E; left|apply Hnf; by right|lia]. }
    cbn [set_next pxNextFreeBlock xBlockSize]. rewrite lookup_insert_ne; [by apply Hu|].
    intros ->. apply Hnf. rewrite E1, elem_of_app. right. left.
  - lia.
Qed.

Lemma size_below a0 bs e b : tiles a0 bs e -> area a0 e -> b ∈ bs -> 8 <= b_size b < 2 ^ 31.
Proof.
  intros Ht [? ? ? ? ?] Hb. pose proof (tiles_in _ _ _ _ Ht Hb).
  assert (configTOTAL_HEAP_SIZE = 4194304) by reflexivity. lia.
Qed.

Lemma take_block_run a0 p b q w l u h :
  heap_ok a0 (p ++ b :: q) h -> b_free b = true -> 8 <= w <= b_size b -> w mod 8 = 0 ->
  xStart :: free_addrs p = l ++ [u] -> pxNextFreeBlock h !! u = Some (b_addr b) ->
  exists h', (n ← ld_next_free u;
    let pvReturn := (n + xHeapStructSize)%word in
    n ← ld_next_free (b_addr b); st_next_free ucHeap xStart u n ;;
    s ← ld_size (b_addr b);
    when (heapMINIMUM_BLOCK_SIZE <? (s - w)%word)
      (let pxNewBlockLink := (b_addr b + w)%word in
       s ← ld_size (b_addr b); st_size ucHeap xStart pxNewBlockLink (s - w)%word ;;
       st_size ucHeap xStart (b_addr b) w ;;
       prvInsertBlockIntoFreeList ucHeap xStart pxNewBlockLink) ;;
    s ← ld_size (b_addr b); h ← get; modify (set_free (xFreeBytesRemaining h - s)%word) ;;
    h ← get;
    when (xFreeBytesRemaining h <? xMinimumEverFreeBytesRemaining h)
      (modify (set_minimum (xFreeBytesRemaining h))) ;;
    s ← ld_size (b_addr b); st_size ucHeap xStart (b_addr b) (s .| xBlockAllocatedBit h)%word ;;
    st_next_free ucHeap xStart (b_addr b) 0 ;;
    mret pvReturn) h = Ok (b_addr b + 8) h' /\
    heap_ok a0 (p ++ carve w b ++ q) h' /\
    xMinimumEverFreeBytesRemaining h' =
      Z.min (xMinimumEverFreeBytesRemaining h) (free_bytes (p ++ carve w b ++ q)).
Proof.
  intros Hok Hb Hw Hmod E1 Hlink. pose proof Hok as [Ha Ht Hco Hl Hu Hf Hm Hbit].
  destruct (free_split_ranges _ _ _ _ _ Ht) as (Tp & Tq & B8 & Lo & Hi). pose proof Ha as [? ? ? ? ?].
  destruct (unlink_block _ _ _ _ _ _ _ Ha Ht Hb Hl E1) as (n & En & Hl1).
  assert (Hin : b ∈ p ++ b :: q) by (rewrite elem_of_app; right; left).
  assert (Iu : in_heap ucHeap xStart u = true).
  { assert (Hu' : u ∈ xStart :: free_addrs p) by (rewrite E1, elem_of_app; right; left).
    apply elem_of_cons in Hu' as [-> |Hx]; [apply area_start|].
    pose proof (free_addrs_range _ _ _ _ Tp Hx). eapply area_in; [done|lia|lia]. }
  assert (Ib : in_heap ucHeap xStart (b_addr b) = true) by (eapply area_in; [done|lia|lia]).
  rewrite (ld_next_free_run _ (b_addr b)) by done. cbv zeta.
  rewrite (ld_next_free_run _ n) by done. rewrite st_next_free_run by done.
  change xHeapStructSize with 8. 
  assert (add32 (b_addr b) 8 = b_addr b + 8) as -> by (apply u32_small; unfold is_u32; lia).
  rewrite <- bind_assoc.
  match goal with |- context [(?m ≫= ?k) (set_next u n h)] =>
    destruct (split_block_run k a0 p b q w (set_next u n h)) as (h3 & Hrun & Hl3 & Hg & Hk & Hs3);
      try done; [by apply (fl_size _ _ _ Hl)|]; change m with (split_block (b_addr b) w); rewrite Hrun; clear Hrun
  end.
  destruct (hand_out_ok a0 p b q w h h3 l u n) as [Hok' Hmin]; try done.
  exists (hand_out (b_addr b) (taken w b) h3). split; [|done].
  pose proof Hg as (Ge & Gf & Gm & Gb). cbn [set_next pxEnd xFreeBytesRemaining xMinimumEverFreeBytesRemaining xBlockAllocatedBit] in Ge, Gf, Gm, Gb.
  assert (Htk : 0 <= taken w b <= b_size b) by (unfold taken; case_match; lia).
  pose proof (free_bytes_in _ _ _ _ Ht Hin Hb). pose proof (free_bytes_bounds _ _ _ Ht).
  rewrite (ld_size_run _ (taken w b)) by done. rewrite bind_get, bind_modify, bind_get.
  unfold sub32. rewrite u32_small by (unfold is_u32; lia).
  unfold hand_out, lower_minimum. cbn [set_free xFreeBytesRemaining xMinimumEverFreeBytesRemaining].
  assert (xBlockAllocatedBit (set_free (xFreeBytesRemaining h3 - taken w b) h3) = ALLOCATED) as ->
    by (cbn; congruence).
  destruct (xFreeBytesRemaining h3 - taken w b <? xMinimumEverFreeBytesRemaining h3); cbn [when];
    rewrite ?bind_modify, ?bind_ret; rewrite (ld_size_run _ (taken w b)) by done;
    rewrite st_size_run, st_next_free_run by done; done.
Qed.

Lemma malloc_run a0 bs n h :
  heap_view a0 bs h -> is_u32 n ->
  exists h', malloc_locked ucHeap xStart n h =
      Ok (match allocate n bs with Some (a, _) => a + 8 | None => 0 end) h' /\
    heap_ok a0 (match allocate n bs with Some (_, bs') => bs' | None => bs end) h' /\
    xMinimumEverFreeBytesRemaining h' =
      Z.min (if pxEnd h =? 0 then free_bytes bs else xMinimumEverFreeBytesRemaining h)
        (free_bytes (match allocate n bs with Some (_, bs') => bs' | None => bs end)).
Proof.
  intros Hv Hn. unfold malloc_locked.
  match goal with |- context [when _ _ ≫= fun _ => ?k] =>
    destruct (prepare_run k a0 bs h Hv) as (h1 & -> & Hok & Hmin) end.
  rewrite bind_get, (hp_bit _ _ _ Hok). unfold ALLOCATED. rewrite land_pow2_eqb by lia.
  rewrite <- Hmin. clear Hmin Hv h. pose proof Hok as [Ha Ht Hco Hl Hu Hf Hm Hbit].
  assert (Hnone : xMinimumEverFreeBytesRemaining h1 = Z.min (xMinimumEverFreeBytesRemaining h1) (free_bytes bs)) by lia.
  assert (Hbit31 : Z.testbit n 31 = negb (n <? 2 ^ 31)).
  { rewrite Z.testbit_eqb by lia. unfold is_u32 in Hn.
    destruct (Z.ltb_spec n (2 ^ 31)); [by rewrite Z.div_small by lia|].
    replace (n / 2 ^ 31) with 1; [done|]. apply (Z.div_unique _ _ _ (n - 2 ^ 31)); lia. }
  rewrite Hbit31, negb_involutive. unfold allocate.
  destruct (Z.ltb_spec n (2 ^ 31)) as [Hn31|]; [|rewrite andb_false_r; by exists h1].
  destruct (Z.ltb_spec 0 n) as [Hn0|]; cbn [andb].
  2:{ assert (n = 0) as -> by (unfold is_u32 in Hn; lia). by exists h1. }
  destruct (block_size_spec n ltac:(lia)) as [Hw Hmod]. set (w := block_size n) in *.
  destruct (Z.ltb_spec 0 w); [cbn [andb]|lia].
  destruct (Z.leb_spec w (xFreeBytesRemaining h1)) as [Hle|Hgt].
  - match goal with |- context [(ld_next_free xStart ≫= fun first => find_fit _ _ first _ ≫= ?k) h1] =>
      pose proof (search_run k a0 bs w h1 Hok ltac:(lia)) as Hsr end.
    destruct (first_fit w bs) as [[a r]|].
    + destruct Hsr as (p & b & q & l & u & -> & Hb & Hwb & -> & -> & E1 & Hlink & ->).
      destruct (Z.eqb_spec (b_addr b) (pxEnd h1)) as [E|_]; cbn [negb].
      { destruct (free_split_ranges _ _ _ _ _ Ht). lia. }
      apply (take_block_run a0 p b q w l u h1); first [done|lia].
    + destruct Hsr as (u & ->). rewrite Z.eqb_refl. by exists h1.
  - pose proof (first_fit_spec w bs) as Hff. destruct (first_fit w bs) as [[a r]|]; [|by exists h1].
    destruct Hff as (p & b & q & -> & Hb & Hwb & _).
    pose proof (free_bytes_in _ _ _ b Ht ltac:(rewrite elem_of_app; right; left) Hb). lia.
Qed.

(** ** [vPortFree] *)
Definition freed (b : block) : block := Block (b_addr b) (b_size b) true.
Local Abbreviation release := (release ucHeap xStart).

Lemma header_bit s : Z.land (Z.lor s ALLOCATED) ALLOCATED =? 0 = false.
Proof.
  unfold ALLOCATED. rewrite land_pow2_eqb, Z.lor_spec, pow2_testbit by lia.
  by rewrite orb_true_r.
Qed.
Lemma header_clear s : 0 <= s < 2 ^ 31 -> Z.land (Z.lor s ALLOCATED) (not32 ALLOCATED) = s.
Proof.
  intros Hs. unfold ALLOCATED. apply Z.bits_inj'. intros i Hi. autorewrite with bits_db.
  assert (Hhigh : 31 <= i -> Z.testbit s i = false).
  { intros ?. rewrite <- (Z.mod_small s (2 ^ 31)) by lia. apply Z.mod_pow2_bits_high; lia. }
  destruct (Z.ltb_spec i 32); [|rewrite andb_false_r, Hhigh by lia; done].
  destruct (Z.eqb_spec i 31) as [->|]; [by rewrite Hhigh by lia|].
  by rewrite orb_false_r, andb_true_r.
Qed.
Lemma free_bit_clear s : 0 <= s < 2 ^ 31 -> Z.land s ALLOCATED =? 0 = true.
Proof.
  intros Hs. unfold ALLOCATED. rewrite land_pow2_eqb by lia.
  rewrite <- (Z.mod_small s (2 ^ 31)) by lia. by rewrite Z.mod_pow2_bits_high by lia.
Qed.

Lemma free_list_without p c q h :
  b_free c = false -> free_list_ok (p ++ c :: q) h -> free_list_ok (p ++ q) h.
Proof.
  intros Ec [Hc Hs H0 He]. constructor; try done.
  - by rewrite free_addrs_app, free_addrs_cons, Ec, <- free_addrs_app in Hc.
  - intros d Hd Ed. apply Hs; [|done]. rewrite elem_of_app, elem_of_cons in *. tauto.
Qed.

(** The header of a block in use is not one of the list's nodes. *)
Lemma used_off_list a0 bs c e :
  area a0 e -> tiles a0 bs e -> c ∈ bs -> b_free c = false ->
  b_addr c ∉ xStart :: free_addrs bs /\ b_addr c <> e /\ in_heap ucHeap xStart (b_addr c) = true.
Proof.
  intros Ha Ht Hc Ec. pose proof (tiles_in _ _ _ _ Ht Hc). pose proof Ha as [? ? ? ? ?].
  split_and!; [|lia|eapply area_in; [done|lia|lia]].
  intros [?|Hx]%elem_of_cons; [lia|]. apply free_addrs_in in Hx as (d & Hd & Ed & E).
  assert (d = c) as -> by by eapply (tiles_addr_inj _ _ _ _ _ Ht). congruence.
Qed.

(** Up to the insertion: the header is cleared and the bytes counted. *)
Lemma release_steps a s h :
  xBlockSize h !! a = Some (Z.lor s ALLOCATED) -> pxNextFreeBlock h !! a = Some 0 ->
  xBlockAllocatedBit h = ALLOCATED -> in_heap ucHeap xStart a = true ->
  0 <= s < 2 ^ 31 -> 0 <= a < 2 ^ 32 - 8 -> 0 <= xFreeBytesRemaining h -> xFreeBytesRemaining h + s < 2 ^ 32 ->
  release (a + 8) h = prvInsertBlockIntoFreeList ucHeap xStart a
                        (set_free (xFreeBytesRemaining h + s) (set_size a s h)).
Proof.
  intros Hs Hn Hbit Ia Bs Ba Bf Bsum.
  unfold release, free_check, free_locked. change xHeapStructSize with 8.
  destruct (Z.eqb_spec (a + 8) 0); [lia|]. cbn [negb]. unfold sub32, add32.
  replace (a + 8 - 8) with a by lia. rewrite (u32_small a) by (unfold is_u32; lia).
  rewrite bind_assoc, (ld_size_run _ _ _ _ Hs), bind_assoc, bind_get, Hbit, header_bit. cbn [negb].
  rewrite bind_assoc, (ld_next_free_run _ _ _ _ Hn). cbn [Z.eqb].
  rewrite bind_assoc, (ld_size_run _ _ _ _ Hs), bind_assoc, header_clear by lia.
  rewrite st_size_run, bind_ret by done. cbn [when].
  rewrite bind_get, (ld_size_run _ s) by apply lookup_insert_eq.
  rewrite bind_modify. cbn [set_size xFreeBytesRemaining]. by rewrite u32_small by (unfold is_u32; lia).
Qed.

Lemma release_run a0 p b q h :
  heap_ok a0 (p ++ b :: q) h -> b_free b = false ->
  exists h', release (b_addr b + 8) h = Ok tt h' /\ heap_ok a0 (join p (freed b) q) h' /\
    xMinimumEverFreeBytesRemaining h' = xMinimumEverFreeBytesRemaining h.
Proof.
  intros [Ha Ht Hco Hl Hu Hf Hm Hbit] Hb. pose proof Ha as [? ? ? ? ?].
  destruct (free_split_ranges _ _ _ _ _ Ht) as (Tp & Tq & B8 & Lo & Hi).
  assert (Hin : b ∈ p ++ b :: q) by (rewrite elem_of_app; right; left).
  pose proof (size_below _ _ _ _ Ht Ha Hin) as Hsz.
  destruct (used_off_list _ _ _ _ Ha Ht Hin Hb) as (Hoff & Hend & Ib).
  destruct (Hu b Hin Hb) as [Hbs Hbn].
  pose proof (free_bytes_bounds _ _ _ Ht) as Hbnd.
  assert (Hsum : free_bytes (p ++ b :: q) = free_bytes p + free_bytes q)
    by (by rewrite free_bytes_app, free_bytes_cons, Hb).
  assert (Hroom : free_bytes p + b_size b + free_bytes q <= pxEnd h - a0).
  { pose proof (free_bytes_bounds _ _ _ Tp). pose proof (free_bytes_bounds _ _ _ Tq). lia. }
  set (h2 := set_free (free_bytes (p ++ b :: q) + b_size b) (set_size (b_addr b) (b_size b) h)).
  assert (Hl2 : free_list_ok (p ++ q) h2).
  { apply (free_list_frame _ h); [done| |by eapply free_list_without].
    intros a Hna. split; [done|]. cbn [h2 set_free set_size xBlockSize].
    rewrite lookup_insert_ne; [done|]. intros <-. destruct Hna as [Hna|?]; [|done]. apply Hoff.
    by rewrite free_addrs_app, free_addrs_cons, Hb, <- free_addrs_app. }
  assert (Ht2 : tiles a0 (p ++ freed b :: q) (pxEnd h2)).
  { apply tiles_app in Ht as (m & Hp & Hbq). apply tiles_app. by exists m. }
  destruct (insert_join ucHeap xStart mret a0 p (freed b) q h2) as (h3 & Hrun & Hl3 & Hg & Hk);
    [done|done|done|done|apply lookup_insert_eq|].
  exists h3. destruct Hg as (Ge & Gf & Gm & Gb). split; [|split; [|done]].
  - subst h2. rewrite <- Hf in *. rewrite (release_steps _ (b_size b)) by (done || lia). by rewrite bind_ret_r in Hrun.
  - constructor; rewrite ?Ge; try done.
    + by apply join_tiles.
    + apply coalesced_app in Hco as [Hp Hq%coalesced_cons]. by apply join_coalesced.
    + intros c Hc Ec. rewrite join_used in Hc by done.
      assert (Hc' : c ∈ p ++ b :: q) by (rewrite elem_of_app, elem_of_cons in *; tauto).
      destruct (used_off_list _ _ _ _ Ha Ht Hc' Ec) as (Hoffc & _ & _).
      assert (Hne : b_addr c <> b_addr b).
      { apply elem_of_app in Hc as [Hc|Hc];
          [pose proof (tiles_in _ _ _ _ Tp Hc)|pose proof (tiles_in _ _ _ _ Tq Hc)]; lia. }
      destruct (Hk (b_addr c)) as [-> ->].
      { intros [E|[?|?]]; [apply Hoffc; rewrite E; left| |done]. apply Hoffc. right.
        rewrite free_addrs_app, elem_of_app. by left. }
      cbn [h2 set_free set_size xBlockSize pxNextFreeBlock]. rewrite lookup_insert_ne by done. by apply Hu.
    + rewrite Gf, join_bytes by done. cbn. lia.
    + rewrite Gm, join_bytes by done. cbn. lia.
    + by rewrite Gb.
Qed.

(** ** What the heap promises *)

(** C20: [pvPortMalloc] does first fit: on the partition [bs] of the heap area
    it gives [allocate n bs], or NULL and the same partition when the request
    is 0, has its top bit set or fits no free block. The area is initialised on
    the first call. The partition stays well formed, free neighbours stay
    merged, the free bytes are counted and the minimum follows them. *)
Theorem malloc_first_fit a0 bs n h :
  heap_view a0 bs h -> is_u32 n ->
  let bs' := match allocate n bs with Some (_, r) => r | None => bs end in
  exists h', malloc_locked ucHeap xStart n h =
      Ok (match allocate n bs with Some (a, _) => a + 8 | None => 0 end) h' /\
    heap_ok a0 bs' h' /\ xFreeBytesRemaining h' = free_bytes bs' /\
    xMinimumEverFreeBytesRemaining h' =
      Z.min (if pxEnd h =? 0 then free_bytes bs else xMinimumEverFreeBytesRemaining h) (free_bytes bs').
Proof.
  intros Hv Hn bs'. destruct (malloc_run a0 bs n h Hv Hn) as (h' & Hrun & Hok & Hmin).
  exists h'. split_and!; try done. by apply (hp_free _ _ _ Hok).
Qed.

(** A block is given to the caller: it was free, it is large enough. *)
Lemma allocate_spec a0 bs e n a r :
  tiles a0 bs e -> a0 mod 8 = 0 -> coalesced bs -> allocate n bs = Some (a, r) ->
  exists p b q, bs = p ++ b :: q /\ b_free b = true /\ a = b_addr b /\
    r = p ++ Block a (taken (block_size n) b) false :: rest (block_size n) b ++ q /\
    n + 8 <= taken (block_size n) b <= b_size b /\ 8 <= block_size n <= b_size b /\ block_size n mod 8 = 0.
Proof.
  intros Ht Ha Hco. unfold allocate.
  destruct (Z.ltb_spec 0 n), (Z.ltb_spec n (2 ^ 31)); cbn [andb]; try done.
  destruct (block_size_spec n) as [Hw Hmod]; [lia|]. intros E.
  pose proof (first_fit_spec (block_size n) bs) as Hff. rewrite E in Hff.
  destruct Hff as (p & b & q & -> & Hb & Hwb & _ & -> & ->). rewrite carve_eq.
  exists p, b, q. split_and!; try done; try lia; unfold taken;
    destruct (heapMINIMUM_BLOCK_SIZE <? b_size b - block_size n); lia.
Qed.

Lemma heap_view_tiles a0 bs h :
  heap_view a0 bs h -> coalesced bs /\ exists e, tiles a0 bs e /\ a0 mod 8 = 0.
Proof.
  intros [[[? ? ? ? ?] ? ? ? ? ? ? ?]|(_ & Hl & -> & ->)]; [eauto|].
  destruct (initial_heap_ok h Hl) as [[? ? ? ? ?] ? ? ? ? ? ? ?]. eauto.
Qed.

(** Cutting a block and joining the piece again gives the block. *)
Lemma join_carved p b q w :
  coalesced (p ++ b :: q) -> b_free b = true ->
  join p (freed (Block (b_addr b) (taken w b) false)) (rest w b ++ q) = p ++ b :: q.
Proof.
  intros Hco Hb.
  assert (Hp : forall d, last p = Some d -> b_free d = false).
  { intros d Hd. destruct p as [|d' p _] using rev_ind; [done|]. rewrite last_snoc in Hd.
    injection Hd as ->. rewrite <- app_assoc in Hco. apply coalesced_app in Hco as [_ [Hdb _]].
    rewrite Hb, andb_true_r in Hdb. done. }
  assert (Habs : absorb (freed (Block (b_addr b) (taken w b) false)) (rest w b ++ q) = b :: q).
  { destruct b as [a s f]. cbn in Hb. subst f. unfold rest, taken, freed. cbn [b_addr b_size].
    destruct (heapMINIMUM_BLOCK_SIZE <? s - w).
    - cbn. unfold merge. cbn. by replace (w + (s - w)) with s by lia.
    - cbn [app]. destruct q as [|c q]; [done|]. apply coalesced_app in Hco as [_ [Hbc _]].
      cbn in Hbc |- *. by rewrite Hbc. }
  unfold join. rewrite Habs. destruct (last p) as [d|] eqn:Ed; [by rewrite (Hp d)|].
  by apply last_None in Ed as ->.
Qed.

(** Where an allocated area lies. *)
Lemma malloc_area_run a0 bs n h a r :
  heap_view a0 bs h -> is_u32 n -> allocate n bs = Some (a, r) ->
  exists h' s, malloc_locked ucHeap xStart n h = Ok (a + 8) h' /\ heap_ok a0 r h' /\ Block a s false ∈ r /\
    (a + 8) mod 8 = 0 /\ n <= s - 8 /\ 0 < ucHeap <= a /\ a + s <= ucHeap + configTOTAL_HEAP_SIZE - 8 /\
    ucHeap + configTOTAL_HEAP_SIZE < 2 ^ 32 /\
    (forall c, c ∈ bs -> b_free c = false -> c ∈ r /\ (a + s <= b_addr c \/ b_addr c + b_size c <= a)).
Proof.
  intros Hv Hn E. destruct (malloc_run a0 bs n h Hv Hn) as (h1 & Hrun & Hok & _). rewrite E in Hrun, Hok.
  destruct (heap_view_tiles _ _ _ Hv) as (Hco & e & Ht & Ha0).
  destruct (allocate_spec _ _ _ _ _ _ Ht Ha0 Hco E) as (p & b & q & -> & Hb & -> & -> & Hs & _).
  set (s := taken (block_size n) b) in *. set (c0 := Block (b_addr b) s false) in *.
  assert (Hc0 : c0 ∈ p ++ c0 :: rest (block_size n) b ++ q) by (rewrite elem_of_app; right; left).
  exists h1, s. pose proof Hok as [[? ? ? ? ?] Ht' _ _ _ _ _ _]. destruct (tiles_in _ _ _ _ Ht' Hc0) as (L & U & _).
  destruct (tiles_aligned _ _ _ _ Ht' ltac:(done) Hc0) as [Al _]. cbn [b_addr b_size c0] in L, U, Al.
  split; [done|]. split; [done|]. split; [exact Hc0|]. split; [by apply mod8_add|]. do 4 (split; [lia|]).
  intros c Hc Ec. assert (Hc' : c ∈ p ++ c0 :: rest (block_size n) b ++ q).
  { rewrite elem_of_app, elem_of_cons, elem_of_app. apply elem_of_app in Hc as [?|[-> |?]%elem_of_cons];
      [tauto|congruence|tauto]. }
  split; [done|]. assert (Hne : c <> b) by (intros ->; congruence).
  assert (Hb' : b ∈ p ++ b :: q) by (rewrite elem_of_app; right; left).
  pose proof (tiles_disjoint _ _ _ _ _ Ht Hc Hb' Hne). lia.
Qed.

(** C21: the memory [pvPortMalloc] gives is inside the heap, aligned to 8
    bytes, has room for the request, and meets no block in use: those stay as
    they are. *)
Theorem malloc_area_fresh a0 bs n h pv h' :
  heap_view a0 bs h -> is_u32 n -> malloc_locked ucHeap xStart n h = Ok pv h' -> pv <> 0 ->
  exists bs' s, heap_ok a0 bs' h' /\ Block (pv - 8) s false ∈ bs' /\ pv mod 8 = 0 /\ n <= s - 8 /\
    ucHeap + 8 <= pv /\ pv - 8 + s <= ucHeap + configTOTAL_HEAP_SIZE - 8 /\
    (forall c, c ∈ bs -> b_free c = false ->
       c ∈ bs' /\ (pv - 8 + s <= b_addr c \/ b_addr c + b_size c <= pv - 8)).
Proof.
  intros Hv Hn Hrun Hpv. destruct (allocate n bs) as [[a r]|] eqn:E.
  - destruct (malloc_area_run _ _ _ _ _ _ Hv Hn E) as (h1 & s & Hrun' & Hok & Hin & Hal & Hs & Hlo & Hhi & _ & Hap).
    rewrite Hrun in Hrun'. apply ok_inj in Hrun' as [-> <-].
    exists r, s. replace (a + 8 - 8) with a by lia. split_and!; try done. lia.
  - destruct (malloc_run a0 bs n h Hv Hn) as (h1 & Hrun' & _). rewrite E, Hrun in Hrun'.
    apply ok_inj in Hrun' as [-> _]. done.
Qed.

(** What was taken can be given back. *)
Lemma give_back_run a0 bs n h a r h1 :
  heap_view a0 bs h -> allocate n bs = Some (a, r) -> heap_ok a0 r h1 ->
  exists h2, release (a + 8) h1 = Ok tt h2 /\ heap_ok a0 bs h2.
Proof.
  intros Hv E Hok. destruct (heap_view_tiles _ _ _ Hv) as (Hco & e & Ht & Ha0).
  destruct (allocate_spec _ _ _ _ _ _ Ht Ha0 Hco E) as (p & b & q & -> & Hb & -> & -> & _).
  destruct (release_run _ _ _ _ _ Hok eq_refl) as (h2 & Hrel & Hok2 & _).
  rewrite join_carved in Hok2 by done. by exists h2.
Qed.

(** C22: [vPortFree] of a block in use puts it back: it is merged with the free
    blocks on either side, its bytes are counted as free again and no other
    block in use changes. *)
Theorem free_merges a0 p b q h :
  heap_ok a0 (p ++ b :: q) h -> b_free b = false ->
  exists h', release (b_addr b + 8) h = Ok tt h' /\ heap_ok a0 (join p (freed b) q) h' /\
    xFreeBytesRemaining h' = xFreeBytesRemaining h + b_size b /\
    xMinimumEverFreeBytesRemaining h' = xMinimumEverFreeBytesRemaining h /\
    (forall c, c ∈ p ++ q -> b_free c = false -> c ∈ join p (freed b) q).
Proof.
  intros Hok Hb. destruct (release_run a0 p b q h Hok Hb) as (h' & Hrun & Hok' & Hmin).
  exists h'. split_and!; try done.
  - rewrite (hp_free _ _ _ Hok'), (hp_free _ _ _ Hok), join_bytes, free_bytes_app, free_bytes_cons, Hb by done.
    cbn [freed b_size]. lia.
  - intros c Hc Ec. by apply join_used.
Qed.

(** [vPortFree] of NULL, or of a block that was freed before, changes
    nothing. *)
Theorem free_of_free_block a0 bs h pv :
  heap_ok a0 bs h -> (pv = 0 \/ exists b, b ∈ bs /\ b_free b = true /\ pv = b_addr b + 8) ->
  release pv h = Ok tt h.
Proof.
  intros [Ha Ht Hco Hl Hu Hf Hm Hbit] [-> |(b & Hb & Eb & ->)]; [done|].
  pose proof Ha as [? ? ? ? ?]. pose proof (tiles_in _ _ _ _ Ht Hb).
  pose proof (size_below _ _ _ _ Ht Ha Hb).
  unfold release, free_check. change xHeapStructSize with 8.
  destruct (Z.eqb_spec (b_addr b + 8) 0); [lia|]. cbn [negb]. unfold sub32.
  replace (b_addr b + 8 - 8) with (b_addr b) by lia. rewrite u32_small by (unfold is_u32; lia).
  rewrite bind_assoc, (ld_size_run _ (b_size b)) by by apply (fl_size _ _ _ Hl).
  rewrite bind_assoc, bind_get, Hbit, free_bit_clear by lia. done.
Qed.

(** C26: memory taken with [pvPortMalloc] and given back with [vPortFree]
    leaves the partition and the number of free bytes as they were. *)
Theorem malloc_then_free a0 bs n h pv h1 :
  heap_view a0 bs h -> is_u32 n -> malloc_locked ucHeap xStart n h = Ok pv h1 -> pv <> 0 ->
  exists h2, release pv h1 = Ok tt h2 /\ heap_ok a0 bs h2 /\ xFreeBytesRemaining h2 = free_bytes bs.
Proof.
  intros Hv Hn Hrun Hpv. destruct (malloc_run a0 bs n h Hv Hn) as (h1' & Hrun' & Hok & _).
  rewrite Hrun in Hrun'. apply ok_inj in Hrun' as [-> <-].
  destruct (allocate n bs) as [[a r]|] eqn:E; [|done].
  destruct (give_back_run _ _ _ _ _ _ _ Hv E Hok) as (h2 & Hrel & Hok2).
  exists h2. split_and!; [done|done|]. apply (hp_free _ _ _ Hok2).
Qed.
End heap_state.

(** ** A concrete heap, at an address that is not aligned *)
Definition ex_ucHeap : Z := 0x200004.
Definition ex_xStart : Z := 0x100000.
Definition ex_heap : heap := Heap ∅ ∅ 0 0 0 0.
Definition ex_blocks : list block := whole_area ex_ucHeap.

Lemma ex_layout : layout_ok ex_ucHeap ex_xStart.
Proof. unfold ex_ucHeap, ex_xStart. split; change configTOTAL_HEAP_SIZE with 4194304; lia. Qed.
Lemma ex_view : heap_view ex_ucHeap ex_xStart (heap_first ex_ucHeap) ex_blocks ex_heap.
Proof. right. split_and!; [done|apply ex_layout|done|done]. Qed.

Definition after {A} (r : res heap A) : heap := match r with Ok _ h => h | _ => ex_heap end.
Definition ex_h1 : heap := after (malloc_locked ex_ucHeap ex_xStart 100 ex_heap).
Definition ex_h2 : heap := after (malloc_locked ex_ucHeap ex_xStart 50 ex_h1).

Example ex_malloc : malloc_locked ex_ucHeap ex_xStart 100 ex_heap = Ok 0x200010 ex_h1.
Proof. vm_compute. reflexivity. Qed.
Example ex_malloc2 : malloc_locked ex_ucHeap ex_xStart 50 ex_h1 = Ok 0x200080 ex_h2.
Proof. vm_compute. reflexivity. Qed.

Definition ex_carved : list block :=
  [Block 0x200008 112 false; Block 0x200078 (heap_last ex_ucHeap - 0x200078) true].
Lemma ex_h1_ok : heap_ok ex_ucHeap ex_xStart (heap_first ex_ucHeap) ex_carved ex_h1.
Proof.
  destruct (malloc_run ex_ucHeap ex_xStart _ _ 100 _ ex_view) as (h' & E & Hok & _); [done|].
  rewrite ex_malloc in E. apply ok_inj in E as [_ ->]. exact Hok.
Qed.

Lemma malloc_first_fit_witness :
  exists h', malloc_locked ex_ucHeap ex_xStart 100 ex_heap = Ok 0x200010 h' /\
    heap_ok ex_ucHeap ex_xStart (heap_first ex_ucHeap) ex_carved h'.
Proof.
  destruct (malloc_first_fit ex_ucHeap ex_xStart _ _ 100 _ ex_view ltac:(done)) as (h' & E & Hok & _).
  exists h'. split; [exact E|exact Hok].
Defined.

Lemma malloc_area_fresh_witness :
  exists bs' s, Block 0x200008 s false ∈ bs' /\ 100 <= s - 8 /\
    heap_ok ex_ucHeap ex_xStart (heap_first ex_ucHeap) bs' ex_h1.
Proof.
  destruct (malloc_area_fresh ex_ucHeap ex_xStart _ _ 100 _ 0x200010 ex_h1 ex_view ltac:(done) ex_malloc ltac:(done))
    as (bs' & s & Hok & Hin & _ & Hs & _).
  exists bs', s. split; [exact Hin|]. split; [exact Hs|exact Hok].
Defined.

Lemma free_merges_witness :
  exists h', release ex_ucHeap ex_xStart 0x200010 ex_h1 = Ok tt h' /\
    heap_ok ex_ucHeap ex_xStart (heap_first ex_ucHeap) ex_blocks h'.
Proof.
  destruct (free_merges ex_ucHeap ex_xStart (heap_first ex_ucHeap) [] (Block 0x200008 112 false)
    [Block 0x200078 (heap_last ex_ucHeap - 0x200078) true] ex_h1 ex_h1_ok eq_refl) as (h' & E & Hok & _).
  exists h'. split; [exact E|exact Hok].
Defined.

Lemma free_of_free_block_witness :
  release ex_ucHeap ex_xStart 0x200080 ex_h1 = Ok tt ex_h1.
Proof.
  apply (free_of_free_block ex_ucHeap ex_xStart _ _ _ 0x200080 ex_h1_ok). right.
  exists (Block 0x200078 (heap_last ex_ucHeap - 0x200078) true).
  split; [right; left|split; reflexivity].
Defined.

Lemma malloc_then_free_witness :
  exists h2, release ex_ucHeap ex_xStart 0x200010 ex_h1 = Ok tt h2 /\
    heap_ok ex_ucHeap ex_xStart (heap_first ex_ucHeap) ex_blocks h2.
Proof.
  destruct (malloc_then_free ex_ucHeap ex_xStart _ _ 100 _ 0x200010 ex_h1 ex_view ltac:(done) ex_malloc ltac:(done))
    as (h2 & E & Hok & _).
  exists h2. split; [exact E|exact Hok].
Defined.
