(* ===== verification/RtTasks.v ===== *)
(** * The FreeRTOS scheduler ([ns_guest/lib/freertos/tasks.c])

    Tasks, the lists they move between, ticks, context switches, events,
    notifications and priority inheritance, over the lists of [RtList].  Each
    kernel function is one step: what an interrupt does inside one of them is a
    step of its own, before or after. *)
From S2P Require Import Prelude.
From S2P Require Import RtList.

Local Open Scope Z_scope.

(** ** Constants ([FreeRTOSConfig.h], [projdefs.h], [task.h], [tasks.c]) *)
Definition configMAX_PRIORITIES : Z := 8.
Definition pdFALSE : Z := 0.
Definition pdTRUE : Z := 1.
Definition tskIDLE_PRIORITY : Z := 0.
Definition taskEVENT_LIST_ITEM_VALUE_IN_USE : Z := 0x80000000.
Definition taskNOT_WAITING_NOTIFICATION : Z := 0.
Definition taskWAITING_NOTIFICATION : Z := 1.
Definition taskNOTIFICATION_RECEIVED : Z := 2.
Definition taskSCHEDULER_SUSPENDED : Z := 0.
Definition taskSCHEDULER_NOT_STARTED : Z := 1.
Definition taskSCHEDULER_RUNNING : Z := 2.
(** The pattern stacks are filled with. *)
Definition ulCheckValue : Z := 0xa5a5a5a5.

Inductive eTaskState : Type := eRunning | eReady | eBlocked | eSuspended | eDeleted | eInvalid.
Inductive eNotifyAction : Type :=
| eNoAction | eSetBits | eIncrement | eSetValueWithOverwrite | eSetValueWithoutOverwrite.

(** ** Lists and items

    A task handle is the address of its control block, 0 is NULL.  The lists
    are those of the file and the event lists of queues and event groups, by
    their address. *)
Inductive list_id : Type :=
| Ready (uxPriority : Z) | xDelayedTaskList1 | xDelayedTaskList2 | xPendingReadyList
| xTasksWaitingTermination | xSuspendedTaskList | EventList (a : Z).
Inductive node : Type := StateItem (t : Z) | EventItem (t : Z) | ListEnd (l : list_id).

#[export] Instance list_id_eq_dec : EqDecision list_id.
Proof. solve_decision. Defined.
#[export] Instance list_id_countable : Countable list_id.
Proof.
  refine (inj_countable'
    (fun l => match l with Ready p => (0, p) | xDelayedTaskList1 => (1, 0) | xDelayedTaskList2 => (2, 0)
      | xPendingReadyList => (3, 0) | xTasksWaitingTermination => (4, 0) | xSuspendedTaskList => (5, 0)
      | EventList a => (6, a) end)
    (fun '(k, a) => if k =? 0 then Ready a else if k =? 1 then xDelayedTaskList1
      else if k =? 2 then xDelayedTaskList2 else if k =? 3 then xPendingReadyList
      else if k =? 4 then xTasksWaitingTermination else if k =? 5 then xSuspendedTaskList
      else EventList a) _).
  by intros [].
Defined.
#[export] Instance node_eq_dec : EqDecision node.
Proof. solve_decision. Defined.
#[export] Instance node_countable : Countable node.
Proof.
  refine (inj_countable'
    (fun p => match p with StateItem t => inl (inl t) | EventItem t => inl (inr t) | ListEnd l => inr l end)
    (fun x => match x with inl (inl t) => StateItem t | inl (inr t) => EventItem t | inr l => ListEnd l end) _).
  by intros [].
Defined.
#[export] Instance ListEnd_inj : Inj (=) (=) ListEnd.
Proof. by intros ?? [=]. Qed.

(** ** State *)
Record TCB_t : Type := TCB {
  pxTopOfStack : Z;
  uxPriority : Z;
  pxStack : Z;
  pcTaskName : gmap Z Z;
  uxTCBNumber : Z;
  tcb_uxTaskNumber : Z;
  uxBasePriority : Z;
  uxMutexesHeld : Z;
  ulNotifiedValue : Z;
  ucNotifyState : Z
}.

Record kernel : Type := Kernel {
  store : lstore node list_id Z;
  tcbs : gmap Z TCB_t;
  (** The words of the stacks that were written. *)
  words : gmap Z Z;
  pxCurrentTCB : Z;
  pxDelayedTaskList : list_id;
  pxOverflowDelayedTaskList : list_id;
  uxDeletedTasksWaitingCleanUp : Z;
  uxCurrentNumberOfTasks : Z;
  xTickCount : Z;
  uxTopReadyPriority : Z;
  xSchedulerRunning : Z;
  uxPendedTicks : Z;
  xYieldPending : Z;
  xNumOfOverflows : Z;
  uxTaskNumber : Z;
  xNextTaskUnblockTime : Z;
  uxSchedulerSuspended : Z
}.
Abbreviation KM := (M kernel).

Definition set_store v (k : kernel) : kernel :=
  Kernel v (tcbs k) (words k) (pxCurrentTCB k) (pxDelayedTaskList k) (pxOverflowDelayedTaskList k)
    (uxDeletedTasksWaitingCleanUp k) (uxCurrentNumberOfTasks k) (xTickCount k) (uxTopReadyPriority k)
    (xSchedulerRunning k) (uxPendedTicks k) (xYieldPending k) (xNumOfOverflows k) (uxTaskNumber k)
    (xNextTaskUnblockTime k) (uxSchedulerSuspended k).
Definition set_tcbs v (k : kernel) : kernel :=
  Kernel (store k) v (words k) (pxCurrentTCB k) (pxDelayedTaskList k)
    (pxOverflowDelayedTaskList k) (uxDeletedTasksWaitingCleanUp k) (uxCurrentNumberOfTasks k)
    (xTickCount k) (uxTopReadyPriority k) (xSchedulerRunning k) (uxPendedTicks k)
    (xYieldPending k) (xNumOfOverflows k) (uxTaskNumber k) (xNextTaskUnblockTime k)
    (uxSchedulerSuspended k).
Definition set_words v (k : kernel) : kernel :=
  Kernel (store k) (tcbs k) v (pxCurrentTCB k) (pxDelayedTaskList k) (pxOverflowDelayedTaskList k)
    (uxDeletedTasksWaitingCleanUp k) (uxCurrentNumberOfTasks k) (xTickCount k)
    (uxTopReadyPriority k) (xSchedulerRunning k) (uxPendedTicks k) (xYieldPending k)
    (xNumOfOverflows k) (uxTaskNumber k) (xNextTaskUnblockTime k) (uxSchedulerSuspended k).
Definition set_current v (k : kernel) : kernel :=
  Kernel (store k) (tcbs k) (words k) v (pxDelayedTaskList k) (pxOverflowDelayedTaskList k)
    (uxDeletedTasksWaitingCleanUp k) (uxCurrentNumberOfTasks k) (xTickCount k)
    (uxTopReadyPriority k) (xSchedulerRunning k) (uxPendedTicks k) (xYieldPending k)
    (xNumOfOverflows k) (uxTaskNumber k) (xNextTaskUnblockTime k) (uxSchedulerSuspended k).
Definition set_delayed v (k : kernel) : kernel :=
  Kernel (store k) (tcbs k) (words k) (pxCurrentTCB k) v (pxOverflowDelayedTaskList k)
    (uxDeletedTasksWaitingCleanUp k) (uxCurrentNumberOfTasks k) (xTickCount k)
    (uxTopReadyPriority k) (xSchedulerRunning k) (uxPendedTicks k) (xYieldPending k)
    (xNumOfOverflows k) (uxTaskNumber k) (xNextTaskUnblockTime k) (uxSchedulerSuspended k).
Definition set_overflow v (k : kernel) : kernel :=
  Kernel (store k) (tcbs k) (words k) (pxCurrentTCB k) (pxDelayedTaskList k) v
    (uxDeletedTasksWaitingCleanUp k) (uxCurrentNumberOfTasks k) (xTickCount k)
    (uxTopReadyPriority k) (xSchedulerRunning k) (uxPendedTicks k) (xYieldPending k)
    (xNumOfOverflows k) (uxTaskNumber k) (xNextTaskUnblockTime k) (uxSchedulerSuspended k).
Definition set_deleted v (k : kernel) : kernel :=
  Kernel (store k) (tcbs k) (words k) (pxCurrentTCB k) (pxDelayedTaskList k)
    (pxOverflowDelayedTaskList k) v (uxCurrentNumberOfTasks k) (xTickCount k)
    (uxTopReadyPriority k) (xSchedulerRunning k) (uxPendedTicks k) (xYieldPending k)
    (xNumOfOverflows k) (uxTaskNumber k) (xNextTaskUnblockTime k) (uxSchedulerSuspended k).
Definition set_tasks v (k : kernel) : kernel :=
  Kernel (store k) (tcbs k) (words k) (pxCurrentTCB k) (pxDelayedTaskList k)
    (pxOverflowDelayedTaskList k) (uxDeletedTasksWaitingCleanUp k) v (xTickCount k)
    (uxTopReadyPriority k) (xSchedulerRunning k) (uxPendedTicks k) (xYieldPending k)
    (xNumOfOverflows k) (uxTaskNumber k) (xNextTaskUnblockTime k) (uxSchedulerSuspended k).
Definition set_tick v (k : kernel) : kernel :=
  Kernel (store k) (tcbs k) (words k) (pxCurrentTCB k) (pxDelayedTaskList k)
    (pxOverflowDelayedTaskList k) (uxDeletedTasksWaitingCleanUp k) (uxCurrentNumberOfTasks k) v
    (uxTopReadyPriority k) (xSchedulerRunning k) (uxPendedTicks k) (xYieldPending k)
    (xNumOfOverflows k) (uxTaskNumber k) (xNextTaskUnblockTime k) (uxSchedulerSuspended k).
Definition set_top v (k : kernel) : kernel :=
  Kernel (store k) (tcbs k) (words k) (pxCurrentTCB k) (pxDelayedTaskList k)
    (pxOverflowDelayedTaskList k) (uxDeletedTasksWaitingCleanUp k) (uxCurrentNumberOfTasks k)
    (xTickCount k) v (xSchedulerRunning k) (uxPendedTicks k) (xYieldPending k) (xNumOfOverflows k)
    (uxTaskNumber k) (xNextTaskUnblockTime k) (uxSchedulerSuspended k).
Definition set_running v (k : kernel) : kernel :=
  Kernel (store k) (tcbs k) (words k) (pxCurrentTCB k) (pxDelayedTaskList k)
    (pxOverflowDelayedTaskList k) (uxDeletedTasksWaitingCleanUp k) (uxCurrentNumberOfTasks k)
    (xTickCount k) (uxTopReadyPriority k) v (uxPendedTicks k) (xYieldPending k)
    (xNumOfOverflows k) (uxTaskNumber k) (xNextTaskUnblockTime k) (uxSchedulerSuspended k).
Definition set_pended v (k : kernel) : kernel :=
  Kernel (store k) (tcbs k) (words k) (pxCurrentTCB k) (pxDelayedTaskList k)
    (pxOverflowDelayedTaskList k) (uxDeletedTasksWaitingCleanUp k) (uxCurrentNumberOfTasks k)
    (xTickCount k) (uxTopReadyPriority k) (xSchedulerRunning k) v (xYieldPending k)
    (xNumOfOverflows k) (uxTaskNumber k) (xNextTaskUnblockTime k) (uxSchedulerSuspended k).
Definition set_yield v (k : kernel) : kernel :=
  Kernel (store k) (tcbs k) (words k) (pxCurrentTCB k) (pxDelayedTaskList k)
    (pxOverflowDelayedTaskList k) (uxDeletedTasksWaitingCleanUp k) (uxCurrentNumberOfTasks k)
    (xTickCount k) (uxTopReadyPriority k) (xSchedulerRunning k) (uxPendedTicks k) v
    (xNumOfOverflows k) (uxTaskNumber k) (xNextTaskUnblockTime k) (uxSchedulerSuspended k).
Definition set_overflows v (k : kernel) : kernel :=
  Kernel (store k) (tcbs k) (words k) (pxCurrentTCB k) (pxDelayedTaskList k)
    (pxOverflowDelayedTaskList k) (uxDeletedTasksWaitingCleanUp k) (uxCurrentNumberOfTasks k)
    (xTickCount k) (uxTopReadyPriority k) (xSchedulerRunning k) (uxPendedTicks k)
    (xYieldPending k) v (uxTaskNumber k) (xNextTaskUnblockTime k) (uxSchedulerSuspended k).
Definition set_number v (k : kernel) : kernel :=
  Kernel (store k) (tcbs k) (words k) (pxCurrentTCB k) (pxDelayedTaskList k)
    (pxOverflowDelayedTaskList k) (uxDeletedTasksWaitingCleanUp k) (uxCurrentNumberOfTasks k)
    (xTickCount k) (uxTopReadyPriority k) (xSchedulerRunning k) (uxPendedTicks k)
    (xYieldPending k) (xNumOfOverflows k) v (xNextTaskUnblockTime k) (uxSchedulerSuspended k).
Definition set_unblock v (k : kernel) : kernel :=
  Kernel (store k) (tcbs k) (words k) (pxCurrentTCB k) (pxDelayedTaskList k)
    (pxOverflowDelayedTaskList k) (uxDeletedTasksWaitingCleanUp k) (uxCurrentNumberOfTasks k)
    (xTickCount k) (uxTopReadyPriority k) (xSchedulerRunning k) (uxPendedTicks k)
    (xYieldPending k) (xNumOfOverflows k) (uxTaskNumber k) v (uxSchedulerSuspended k).
Definition set_suspended v (k : kernel) : kernel :=
  Kernel (store k) (tcbs k) (words k) (pxCurrentTCB k) (pxDelayedTaskList k)
    (pxOverflowDelayedTaskList k) (uxDeletedTasksWaitingCleanUp k) (uxCurrentNumberOfTasks k)
    (xTickCount k) (uxTopReadyPriority k) (xSchedulerRunning k) (uxPendedTicks k)
    (xYieldPending k) (xNumOfOverflows k) (uxTaskNumber k) (xNextTaskUnblockTime k) v.

(** A list operation on the store. *)
Definition on_lists {A} (m : M (lstore node list_id Z) A) : KM A := fun k =>
  match m (store k) with
  | Ok a s => Ok a (set_store s k)
  | Hang s => Hang (set_store s k)
  | Undef => Undef
  | NoFuel => NoFuel
  end.

Definition ld_tcb (t : Z) : KM TCB_t := fun k =>
  match tcbs k !! t with Some c => Ok c k | None => Undef end.
Definition st_tcb (f : TCB_t -> TCB_t) (t : Z) : KM unit := fun k =>
  match tcbs k !! t with Some _ => Ok tt (set_tcbs (alter f t (tcbs k)) k) | None => Undef end.

Definition with_top_of_stack v c := TCB v (uxPriority c) (pxStack c) (pcTaskName c) (uxTCBNumber c)
  (tcb_uxTaskNumber c) (uxBasePriority c) (uxMutexesHeld c) (ulNotifiedValue c) (ucNotifyState c).
Definition with_priority v c := TCB (pxTopOfStack c) v (pxStack c) (pcTaskName c) (uxTCBNumber c)
  (tcb_uxTaskNumber c) (uxBasePriority c) (uxMutexesHeld c) (ulNotifiedValue c) (ucNotifyState c).
Definition with_stack v c := TCB (pxTopOfStack c) (uxPriority c) v (pcTaskName c) (uxTCBNumber c)
  (tcb_uxTaskNumber c) (uxBasePriority c) (uxMutexesHeld c) (ulNotifiedValue c) (ucNotifyState c).
Definition with_name v c := TCB (pxTopOfStack c) (uxPriority c) (pxStack c) v (uxTCBNumber c)
  (tcb_uxTaskNumber c) (uxBasePriority c) (uxMutexesHeld c) (ulNotifiedValue c) (ucNotifyState c).
Definition with_number v c := TCB (pxTopOfStack c) (uxPriority c) (pxStack c) (pcTaskName c) v
  (tcb_uxTaskNumber c) (uxBasePriority c) (uxMutexesHeld c) (ulNotifiedValue c) (ucNotifyState c).
Definition with_task_number v c := TCB (pxTopOfStack c) (uxPriority c) (pxStack c) (pcTaskName c)
  (uxTCBNumber c) v (uxBasePriority c) (uxMutexesHeld c) (ulNotifiedValue c) (ucNotifyState c).
Definition with_base v c := TCB (pxTopOfStack c) (uxPriority c) (pxStack c) (pcTaskName c)
  (uxTCBNumber c) (tcb_uxTaskNumber c) v (uxMutexesHeld c) (ulNotifiedValue c) (ucNotifyState c).
Definition with_mutexes v c := TCB (pxTopOfStack c) (uxPriority c) (pxStack c) (pcTaskName c)
  (uxTCBNumber c) (tcb_uxTaskNumber c) (uxBasePriority c) v (ulNotifiedValue c) (ucNotifyState c).
Definition with_notified v c := TCB (pxTopOfStack c) (uxPriority c) (pxStack c) (pcTaskName c)
  (uxTCBNumber c) (tcb_uxTaskNumber c) (uxBasePriority c) (uxMutexesHeld c) v (ucNotifyState c).
Definition with_notify_state v c := TCB (pxTopOfStack c) (uxPriority c) (pxStack c) (pcTaskName c)
  (uxTCBNumber c) (tcb_uxTaskNumber c) (uxBasePriority c) (uxMutexesHeld c) (ulNotifiedValue c) v.

(** ** Ready lists *)
Definition portRECORD_READY_PRIORITY (p : Z) : KM unit :=
  k ← get; modify (set_top (uxTopReadyPriority k .| (1 << p))%word).
Definition portRESET_READY_PRIORITY (p : Z) : KM unit :=
  k ← get; modify (set_top (uxTopReadyPriority k .& ~! (1 << p))%word).
Definition taskRESET_READY_PRIORITY (p : Z) : KM unit :=
  n ← on_lists (listCURRENT_LIST_LENGTH (Ready p));
  when (n =? 0) (portRESET_READY_PRIORITY p).

Definition prvAddTaskToReadyList (t : Z) : KM unit :=
  c ← ld_tcb t; portRECORD_READY_PRIORITY (uxPriority c) ;;
  c ← ld_tcb t; on_lists (vListInsertEnd (Ready (uxPriority c)) (StateItem t)).

Definition prvGetTCBFromHandle (t : Z) : KM Z :=
  if t =? 0 then k ← get; mret (pxCurrentTCB k) else mret t.

(** [31 - __builtin_clz(x)]; the built-in is undefined at 0. *)
Definition portGET_HIGHEST_PRIORITY (x : Z) : KM Z := if x =? 0 then undef else mret (Z.log2 x).

Definition taskSELECT_HIGHEST_PRIORITY_TASK : KM unit :=
  k ← get; uxTopPriority ← portGET_HIGHEST_PRIORITY (uxTopReadyPriority k);
  t ← on_lists (listGET_OWNER_OF_NEXT_ENTRY ListEnd (Ready uxTopPriority));
  modify (set_current t).

Definition ld_word (a : Z) : KM Z := fun k =>
  match words k !! a with Some v => Ok v k | None => Undef end.

(** The hook prints the name of the task, masks interrupts and loops. *)
Definition vApplicationStackOverflowHook (xTask : Z) : KM unit := hang.
Definition taskCHECK_FOR_STACK_OVERFLOW : KM unit :=
  k ← get; c ← ld_tcb (pxCurrentTCB k);
  w0 ← ld_word (pxStack c);
  bad ←
    (if negb (w0 =? ulCheckValue) then mret true
     else w1 ← ld_word (pxStack c + 4);
     if negb (w1 =? ulCheckValue) then mret true
     else w2 ← ld_word (pxStack c + 8);
     if negb (w2 =? ulCheckValue) then mret true
     else w3 ← ld_word (pxStack c + 12); mret (negb (w3 =? ulCheckValue)));
  when bad (vApplicationStackOverflowHook (pxCurrentTCB k)).

Definition vTaskSwitchContext : KM unit :=
  k ← get;
  if negb (uxSchedulerSuspended k =? pdFALSE) then modify (set_yield pdTRUE)
  else modify (set_yield pdFALSE) ;; taskCHECK_FOR_STACK_OVERFLOW ;; taskSELECT_HIGHEST_PRIORITY_TASK.

(** [SWI 0]: [FreeRTOS_SWI_Handler] saves the context of the task, selects
    another and restores its context. *)
Definition portYIELD : KM unit := vTaskSwitchContext.

(** ** Delays *)
Definition prvResetNextTaskUnblockTime : KM unit :=
  k ← get;
  empty ← on_lists (listLIST_IS_EMPTY (pxDelayedTaskList k));
  if (empty : bool) then modify (set_unblock portMAX_DELAY)
  else
    t ← on_lists (listGET_OWNER_OF_HEAD_ENTRY ListEnd (pxDelayedTaskList k));
    v ← on_lists (ld_value (StateItem t)); modify (set_unblock v).

Definition prvAddCurrentTaskToDelayedList (xTicksToWait xCanBlockIndefinitely : Z) : KM unit :=
  k ← get;
  let xConstTickCount := xTickCount k in
  let t := pxCurrentTCB k in
  n ← on_lists (uxListRemove (StateItem t));
  when (n =? 0) (c ← ld_tcb t; portRESET_READY_PRIORITY (uxPriority c)) ;;
  if (xTicksToWait =? portMAX_DELAY) && negb (xCanBlockIndefinitely =? pdFALSE) then
    on_lists (vListInsertEnd xSuspendedTaskList (StateItem t))
  else
    let xTimeToWake := (xConstTickCount + xTicksToWait)%word in
    on_lists (st_value (StateItem t) xTimeToWake) ;;
    if xTimeToWake <? xConstTickCount then
      on_lists (vListInsert ListEnd (pxOverflowDelayedTaskList k) (StateItem t))
    else
      on_lists (vListInsert ListEnd (pxDelayedTaskList k) (StateItem t)) ;;
      k ← get; when (xTimeToWake <? xNextTaskUnblockTime k) (modify (set_unblock xTimeToWake)).

(** ** The tick *)
Definition taskSWITCH_DELAYED_LISTS : KM unit :=
  k ← get; modify (set_delayed (pxOverflowDelayedTaskList k)) ;;
  modify (set_overflow (pxDelayedTaskList k)) ;;
  k ← get; modify (set_overflows (xNumOfOverflows k + 1)%word) ;; prvResetNextTaskUnblockTime.

(** Off the delayed list and off the list of the event the task waits for. *)
Definition unblock_task (t : Z) : KM unit :=
  on_lists (uxListRemove (StateItem t)) ;;
  o ← on_lists (listLIST_ITEM_CONTAINER (EventItem t));
  when (negb (bool_decide (o = None))) (on_lists (uxListRemove (EventItem t)) ;; mret tt) ;;
  prvAddTaskToReadyList t.

(** The loop over the tasks whose time has come: whether a switch is wanted.
    Each round takes a task off the list. *)
Fixpoint unblock_tasks (fuel : nat) (xConstTickCount xSwitchRequired : Z) : KM Z :=
  match fuel with
  | O => no_fuel
  | S f =>
      k ← get;
      empty ← on_lists (listLIST_IS_EMPTY (pxDelayedTaskList k));
      if (empty : bool) then modify (set_unblock portMAX_DELAY) ;; mret xSwitchRequired
      else
        t ← on_lists (listGET_OWNER_OF_HEAD_ENTRY ListEnd (pxDelayedTaskList k));
        v ← on_lists (ld_value (StateItem t));
        if xConstTickCount <? v then modify (set_unblock v) ;; mret xSwitchRequired
        else
          unblock_task t ;;
          c ← ld_tcb t; k ← get; cur ← ld_tcb (pxCurrentTCB k);
          unblock_tasks f xConstTickCount
            (if uxPriority cur <=? uxPriority c then pdTRUE else xSwitchRequired)
  end.
Definition list_fuel (k : kernel) : nat := S (size (links (store k))).

Definition xTaskIncrementTick : KM Z :=
  k ← get;
  xSwitchRequired ←
    (if uxSchedulerSuspended k =? pdFALSE then
       let xConstTickCount := (xTickCount k + 1)%word in
       modify (set_tick xConstTickCount) ;;
       when (xConstTickCount =? 0) taskSWITCH_DELAYED_LISTS ;;
       k ← get;
       r ← (if xNextTaskUnblockTime k <=? xConstTickCount then
              unblock_tasks (list_fuel k) xConstTickCount pdFALSE
            else mret pdFALSE);
       k ← get; cur ← ld_tcb (pxCurrentTCB k);
       n ← on_lists (listCURRENT_LIST_LENGTH (Ready (uxPriority cur)));
       mret (if 1 <? n then pdTRUE else r)
     else modify (set_pended (uxPendedTicks k + 1)%word) ;; mret pdFALSE);
  k ← get; mret (if negb (xYieldPending k =? pdFALSE) then pdTRUE else xSwitchRequired).

(** [FreeRTOS_Tick_Handler] asks for a switch with [ulPortYieldRequired]; it
    is made when the interrupt, which is not nested, returns. *)
Definition FreeRTOS_Tick_Handler : KM unit :=
  r ← xTaskIncrementTick; when (negb (r =? pdFALSE)) vTaskSwitchContext.

(** ** Suspending the scheduler *)
Definition vTaskSuspendAll : KM unit :=
  k ← get; modify (set_suspended (uxSchedulerSuspended k + 1)%word).

(** The tasks an interrupt readied while the scheduler was suspended; gives
    the last one ([pxTCB]). *)
Fixpoint ready_pending (fuel : nat) (pxTCB : Z) : KM Z :=
  match fuel with
  | O => no_fuel
  | S f =>
      empty ← on_lists (listLIST_IS_EMPTY xPendingReadyList);
      if (empty : bool) then mret pxTCB
      else
        t ← on_lists (listGET_OWNER_OF_HEAD_ENTRY ListEnd xPendingReadyList);
        on_lists (uxListRemove (EventItem t)) ;;
        on_lists (uxListRemove (StateItem t)) ;;
        prvAddTaskToReadyList t ;;
        c ← ld_tcb t; k ← get; cur ← ld_tcb (pxCurrentTCB k);
        when (uxPriority cur <=? uxPriority c) (modify (set_yield pdTRUE)) ;;
        ready_pending f t
  end.

(** [do { ... } while( --uxPendedCounts > 0 )] *)
Fixpoint unwind_ticks (uxPendedCounts : nat) : KM unit :=
  match uxPendedCounts with
  | O => mret tt
  | S n =>
      r ← xTaskIncrementTick; when (negb (r =? pdFALSE)) (modify (set_yield pdTRUE)) ;; unwind_ticks n
  end.

Definition xTaskResumeAll : KM Z :=
  k ← get; modify (set_suspended (uxSchedulerSuspended k - 1)%word) ;;
  k ← get;
  if uxSchedulerSuspended k =? pdFALSE then
    if 0 <? uxCurrentNumberOfTasks k then
      pxTCB ← ready_pending (list_fuel k) 0;
      when (negb (pxTCB =? 0)) prvResetNextTaskUnblockTime ;;
      k ← get;
      when (0 <? uxPendedTicks k)
        (unwind_ticks (Z.to_nat (uxPendedTicks k)) ;; modify (set_pended 0)) ;;
      k ← get;
      if negb (xYieldPending k =? pdFALSE) then portYIELD ;; mret pdTRUE else mret pdFALSE
    else mret pdFALSE
  else mret pdFALSE.

Definition vTaskDelay (xTicksToDelay : Z) : KM unit :=
  xAlreadyYielded ←
    (if 0 <? xTicksToDelay then
       vTaskSuspendAll ;; prvAddCurrentTaskToDelayedList xTicksToDelay pdFALSE ;; xTaskResumeAll
     else mret pdFALSE);
  when (xAlreadyYielded =? pdFALSE) portYIELD.

(** Gives the new [*pxPreviousWakeTime]. *)
Definition vTaskDelayUntil (pxPreviousWakeTime xTimeIncrement : Z) : KM Z :=
  vTaskSuspendAll ;;
  k ← get;
  let xConstTickCount := xTickCount k in
  let xTimeToWake := (pxPreviousWakeTime + xTimeIncrement)%word in
  let xShouldDelay :=
    if xConstTickCount <? pxPreviousWakeTime then
      (xTimeToWake <? pxPreviousWakeTime) && (xConstTickCount <? xTimeToWake)
    else (xTimeToWake <? pxPreviousWakeTime) || (xConstTickCount <? xTimeToWake) in
  when xShouldDelay (prvAddCurrentTaskToDelayedList (xTimeToWake - xConstTickCount)%word pdFALSE) ;;
  xAlreadyYielded ← xTaskResumeAll;
  when (xAlreadyYielded =? pdFALSE) portYIELD ;;
  mret xTimeToWake.

(** ** State and priority of a task *)
Definition eTaskGetState (xTask : Z) : KM eTaskState :=
  k ← get;
  if xTask =? pxCurrentTCB k then mret eRunning
  else
    pxStateList ← on_lists (listLIST_ITEM_CONTAINER (StateItem xTask));
    if bool_decide (pxStateList = Some (pxDelayedTaskList k)) ||
       bool_decide (pxStateList = Some (pxOverflowDelayedTaskList k)) then mret eBlocked
    else if bool_decide (pxStateList = Some xSuspendedTaskList) then
      o ← on_lists (listLIST_ITEM_CONTAINER (EventItem xTask));
      if bool_decide (o = None) then
        c ← ld_tcb xTask;
        mret (if ucNotifyState c =? taskWAITING_NOTIFICATION then eBlocked else eSuspended)
      else mret eBlocked
    else if bool_decide (pxStateList = Some xTasksWaitingTermination) || bool_decide (pxStateList = None) then
      mret eDeleted
    else mret eReady.

Definition uxTaskPriorityGet (xTask : Z) : KM Z :=
  t ← prvGetTCBFromHandle xTask; c ← ld_tcb t; mret (uxPriority c).
Definition uxTaskPriorityGetFromISR (xTask : Z) : KM Z :=
  t ← prvGetTCBFromHandle xTask; c ← ld_tcb t; mret (uxPriority c).

(** The value of the event item stands for the priority unless it is in use. *)
Definition set_event_priority (t v : Z) : KM unit :=
  w ← on_lists (ld_value (EventItem t));
  when ((w .& taskEVENT_LIST_ITEM_VALUE_IN_USE)%word =? 0)
    (on_lists (st_value (EventItem t) (configMAX_PRIORITIES - v)%word)).

Definition vTaskPrioritySet (xTask uxNewPriority : Z) : KM unit :=
  let uxNewPriority :=
    if configMAX_PRIORITIES <=? uxNewPriority then (configMAX_PRIORITIES - 1)%word else uxNewPriority in
  t ← prvGetTCBFromHandle xTask;
  c ← ld_tcb t; k ← get;
  let uxCurrentBasePriority := uxBasePriority c in
  if negb (uxCurrentBasePriority =? uxNewPriority) then
    xYieldRequired ←
      (if uxCurrentBasePriority <? uxNewPriority then
         if negb (t =? pxCurrentTCB k) then
           cur ← ld_tcb (pxCurrentTCB k); mret (uxPriority cur <=? uxNewPriority)
         else mret false
       else mret (t =? pxCurrentTCB k));
    c ← ld_tcb t;
    let uxPriorityUsedOnEntry := uxPriority c in
    when (uxBasePriority c =? uxPriority c) (st_tcb (with_priority uxNewPriority) t) ;;
    st_tcb (with_base uxNewPriority) t ;;
    set_event_priority t uxNewPriority ;;
    inready ← on_lists (listIS_CONTAINED_WITHIN (Ready uxPriorityUsedOnEntry) (StateItem t));
    when inready
      (n ← on_lists (uxListRemove (StateItem t));
       when (n =? 0) (portRESET_READY_PRIORITY uxPriorityUsedOnEntry) ;;
       prvAddTaskToReadyList t) ;;
    when xYieldRequired portYIELD
  else mret tt.

(** ** Suspending a task *)
Definition vTaskSuspend (xTaskToSuspend : Z) : KM unit :=
  t ← prvGetTCBFromHandle xTaskToSuspend;
  n ← on_lists (uxListRemove (StateItem t));
  when (n =? 0) (c ← ld_tcb t; taskRESET_READY_PRIORITY (uxPriority c)) ;;
  o ← on_lists (listLIST_ITEM_CONTAINER (EventItem t));
  when (negb (bool_decide (o = None))) (on_lists (uxListRemove (EventItem t)) ;; mret tt) ;;
  on_lists (vListInsertEnd xSuspendedTaskList (StateItem t)) ;;
  c ← ld_tcb t;
  when (ucNotifyState c =? taskWAITING_NOTIFICATION)
    (st_tcb (with_notify_state taskNOT_WAITING_NOTIFICATION) t) ;;
  k ← get;
  when (negb (xSchedulerRunning k =? pdFALSE)) prvResetNextTaskUnblockTime ;;
  k ← get;
  if t =? pxCurrentTCB k then
    if negb (xSchedulerRunning k =? pdFALSE) then portYIELD
    else
      n ← on_lists (listCURRENT_LIST_LENGTH xSuspendedTaskList); k ← get;
      if n =? uxCurrentNumberOfTasks k then modify (set_current 0) else vTaskSwitchContext
  else mret tt.

Definition prvTaskIsTaskSuspended (xTask : Z) : KM bool :=
  s ← on_lists (listIS_CONTAINED_WITHIN xSuspendedTaskList (StateItem xTask));
  if (s : bool) then
    p ← on_lists (listIS_CONTAINED_WITHIN xPendingReadyList (EventItem xTask));
    if negb p then
      o ← on_lists (listLIST_ITEM_CONTAINER (EventItem xTask)); mret (bool_decide (o = None))
    else mret false
  else mret false.

Definition vTaskResume (xTaskToResume : Z) : KM unit :=
  k ← get;
  if negb (xTaskToResume =? pxCurrentTCB k) && negb (xTaskToResume =? 0) then
    s ← prvTaskIsTaskSuspended xTaskToResume;
    if (s : bool) then
      on_lists (uxListRemove (StateItem xTaskToResume)) ;;
      prvAddTaskToReadyList xTaskToResume ;;
      c ← ld_tcb xTaskToResume; k ← get; cur ← ld_tcb (pxCurrentTCB k);
      when (uxPriority cur <=? uxPriority c) portYIELD
    else mret tt
  else mret tt.

(** A task readied by an interrupt: at once, or pended while the scheduler is
    suspended. *)
Definition ready_or_pend (t : Z) : KM unit :=
  k ← get;
  if uxSchedulerSuspended k =? pdFALSE then
    on_lists (uxListRemove (StateItem t)) ;; prvAddTaskToReadyList t
  else on_lists (vListInsertEnd xPendingReadyList (EventItem t)).

Definition xTaskResumeFromISR (xTaskToResume : Z) : KM Z :=
  s ← prvTaskIsTaskSuspended xTaskToResume;
  if (s : bool) then
    k ← get;
    if uxSchedulerSuspended k =? pdFALSE then
      c ← ld_tcb xTaskToResume; cur ← ld_tcb (pxCurrentTCB k);
      on_lists (uxListRemove (StateItem xTaskToResume)) ;; prvAddTaskToReadyList xTaskToResume ;;
      mret (if uxPriority cur <=? uxPriority c then pdTRUE else pdFALSE)
    else on_lists (vListInsertEnd xPendingReadyList (EventItem xTaskToResume)) ;; mret pdFALSE
  else mret pdFALSE.

(** ** Waiting for events *)
Definition vTaskPlaceOnEventList (pxEventList : list_id) (xTicksToWait : Z) : KM unit :=
  k ← get; on_lists (vListInsert ListEnd pxEventList (EventItem (pxCurrentTCB k))) ;;
  prvAddCurrentTaskToDelayedList xTicksToWait pdTRUE.

Definition vTaskPlaceOnUnorderedEventList (pxEventList : list_id) (xItemValue xTicksToWait : Z) : KM unit :=
  k ← get;
  on_lists (st_value (EventItem (pxCurrentTCB k)) (xItemValue .| taskEVENT_LIST_ITEM_VALUE_IN_USE)%word) ;;
  on_lists (vListInsertEnd pxEventList (EventItem (pxCurrentTCB k))) ;;
  prvAddCurrentTaskToDelayedList xTicksToWait pdTRUE.

Definition vTaskPlaceOnEventListRestricted (pxEventList : list_id) (xTicksToWait xWaitIndefinitely : Z)
  : KM unit :=
  k ← get; on_lists (vListInsertEnd pxEventList (EventItem (pxCurrentTCB k))) ;;
  prvAddCurrentTaskToDelayedList
    (if negb (xWaitIndefinitely =? pdFALSE) then portMAX_DELAY else xTicksToWait) xWaitIndefinitely.

Definition xTaskRemoveFromEventList (pxEventList : list_id) : KM Z :=
  t ← on_lists (listGET_OWNER_OF_HEAD_ENTRY ListEnd pxEventList);
  on_lists (uxListRemove (EventItem t)) ;;
  ready_or_pend t ;;
  c ← ld_tcb t; k ← get; cur ← ld_tcb (pxCurrentTCB k);
  if uxPriority cur <? uxPriority c then modify (set_yield pdTRUE) ;; mret pdTRUE else mret pdFALSE.

Definition vTaskRemoveFromUnorderedEventList (pxEventListItem : node) (xItemValue : Z) : KM unit :=
  on_lists (st_value pxEventListItem (xItemValue .| taskEVENT_LIST_ITEM_VALUE_IN_USE)%word) ;;
  t ← on_lists (listGET_LIST_ITEM_OWNER pxEventListItem);
  on_lists (uxListRemove pxEventListItem) ;;
  on_lists (uxListRemove (StateItem t)) ;;
  prvAddTaskToReadyList t ;;
  c ← ld_tcb t; k ← get; cur ← ld_tcb (pxCurrentTCB k);
  when (uxPriority cur <? uxPriority c) (modify (set_yield pdTRUE)).

(** ** Time-outs *)
Record TimeOut_t : Type := TimeOut { xOverflowCount : Z; xTimeOnEntering : Z }.

Definition vTaskInternalSetTimeOutState : KM TimeOut_t :=
  k ← get; mret (TimeOut (xNumOfOverflows k) (xTickCount k)).
Definition vTaskSetTimeOutState : KM TimeOut_t :=
  k ← get; mret (TimeOut (xNumOfOverflows k) (xTickCount k)).

(** The result, the new [*pxTimeOut] and the new [*pxTicksToWait]. *)
Definition xTaskCheckForTimeOut (pxTimeOut : TimeOut_t) (pxTicksToWait : Z) : KM (Z * TimeOut_t * Z) :=
  k ← get;
  let xConstTickCount := xTickCount k in
  let xElapsedTime := (xConstTickCount - xTimeOnEntering pxTimeOut)%word in
  if pxTicksToWait =? portMAX_DELAY then mret (pdFALSE, pxTimeOut, pxTicksToWait)
  else if negb (xNumOfOverflows k =? xOverflowCount pxTimeOut) &&
          (xTimeOnEntering pxTimeOut <=? xConstTickCount) then mret (pdTRUE, pxTimeOut, pxTicksToWait)
  else if xElapsedTime <? pxTicksToWait then
    t ← vTaskInternalSetTimeOutState; mret (pdFALSE, t, (pxTicksToWait - xElapsedTime)%word)
  else mret (pdTRUE, pxTimeOut, 0).

Definition vTaskMissedYield : KM unit := modify (set_yield pdTRUE).

(** ** Queries *)
Definition xTaskGetTickCount : KM Z := k ← get; mret (xTickCount k).
Definition xTaskGetTickCountFromISR : KM Z := k ← get; mret (xTickCount k).
Definition uxTaskGetNumberOfTasks : KM Z := k ← get; mret (uxCurrentNumberOfTasks k).
Definition pcTaskGetName (xTaskToQuery : Z) : KM (gmap Z Z) :=
  t ← prvGetTCBFromHandle xTaskToQuery; c ← ld_tcb t; mret (pcTaskName c).
Definition uxTaskGetTaskNumber (xTask : Z) : KM Z :=
  if negb (xTask =? 0) then c ← ld_tcb xTask; mret (tcb_uxTaskNumber c) else mret 0.
Definition vTaskSetTaskNumber (xTask uxHandle : Z) : KM unit :=
  when (negb (xTask =? 0)) (st_tcb (with_task_number uxHandle) xTask).
Definition xTaskGetCurrentTaskHandle : KM Z := k ← get; mret (pxCurrentTCB k).
Definition xTaskGetSchedulerState : KM Z :=
  k ← get;
  if xSchedulerRunning k =? pdFALSE then mret taskSCHEDULER_NOT_STARTED
  else if uxSchedulerSuspended k =? pdFALSE then mret taskSCHEDULER_RUNNING
  else mret taskSCHEDULER_SUSPENDED.
Definition uxTaskResetEventItemValue : KM Z :=
  k ← get; v ← on_lists (ld_value (EventItem (pxCurrentTCB k)));
  c ← ld_tcb (pxCurrentTCB k);
  on_lists (st_value (EventItem (pxCurrentTCB k)) (configMAX_PRIORITIES - uxPriority c)%word) ;;
  mret v.
Definition pvTaskIncrementMutexHeldCount : KM Z :=
  k ← get;
  when (negb (pxCurrentTCB k =? 0))
    (c ← ld_tcb (pxCurrentTCB k); st_tcb (with_mutexes (uxMutexesHeld c + 1)%word) (pxCurrentTCB k)) ;;
  mret (pxCurrentTCB k).

(** ** Priority inheritance *)
Definition xTaskPriorityInherit (pxMutexHolder : Z) : KM Z :=
  if negb (pxMutexHolder =? 0) then
    c ← ld_tcb pxMutexHolder; k ← get; cur ← ld_tcb (pxCurrentTCB k);
    if uxPriority c <? uxPriority cur then
      set_event_priority pxMutexHolder (uxPriority cur) ;;
      inready ← on_lists (listIS_CONTAINED_WITHIN (Ready (uxPriority c)) (StateItem pxMutexHolder));
      (if (inready : bool) then
         n ← on_lists (uxListRemove (StateItem pxMutexHolder));
         when (n =? 0) (taskRESET_READY_PRIORITY (uxPriority c)) ;;
         st_tcb (with_priority (uxPriority cur)) pxMutexHolder ;;
         prvAddTaskToReadyList pxMutexHolder
       else st_tcb (with_priority (uxPriority cur)) pxMutexHolder) ;;
      mret pdTRUE
    else mret (if uxBasePriority c <? uxPriority cur then pdTRUE else pdFALSE)
  else mret pdFALSE.

Definition xTaskPriorityDisinherit (pxMutexHolder : Z) : KM Z :=
  if negb (pxMutexHolder =? 0) then
    c ← ld_tcb pxMutexHolder; st_tcb (with_mutexes (uxMutexesHeld c - 1)%word) pxMutexHolder ;;
    c ← ld_tcb pxMutexHolder;
    if negb (uxPriority c =? uxBasePriority c) && (uxMutexesHeld c =? 0) then
      n ← on_lists (uxListRemove (StateItem pxMutexHolder));
      when (n =? 0) (taskRESET_READY_PRIORITY (uxPriority c)) ;;
      st_tcb (with_priority (uxBasePriority c)) pxMutexHolder ;;
      on_lists (st_value (EventItem pxMutexHolder) (configMAX_PRIORITIES - uxBasePriority c)%word) ;;
      prvAddTaskToReadyList pxMutexHolder ;;
      mret pdTRUE
    else mret pdFALSE
  else mret pdFALSE.

(** The list that is tested for being empty is the one of the new priority. *)
Definition vTaskPriorityDisinheritAfterTimeout (pxMutexHolder uxHighestPriorityWaitingTask : Z) : KM unit :=
  if negb (pxMutexHolder =? 0) then
    c ← ld_tcb pxMutexHolder;
    let uxPriorityToUse :=
      if uxBasePriority c <? uxHighestPriorityWaitingTask then uxHighestPriorityWaitingTask
      else uxBasePriority c in
    if negb (uxPriority c =? uxPriorityToUse) && (uxMutexesHeld c =? 1) then
      let uxPriorityUsedOnEntry := uxPriority c in
      st_tcb (with_priority uxPriorityToUse) pxMutexHolder ;;
      set_event_priority pxMutexHolder uxPriorityToUse ;;
      inready ← on_lists (listIS_CONTAINED_WITHIN (Ready uxPriorityUsedOnEntry) (StateItem pxMutexHolder));
      when inready
        (n ← on_lists (uxListRemove (StateItem pxMutexHolder));
         when (n =? 0) (c ← ld_tcb pxMutexHolder; taskRESET_READY_PRIORITY (uxPriority c)) ;;
         prvAddTaskToReadyList pxMutexHolder)
    else mret tt
  else mret tt.

(** ** Notifications

    A function that blocks is in two parts, before and after the task is
    switched in again. *)
Definition ulTaskNotifyTake_wait (xTicksToWait : Z) : KM unit :=
  k ← get; c ← ld_tcb (pxCurrentTCB k);
  when (ulNotifiedValue c =? 0)
    (st_tcb (with_notify_state taskWAITING_NOTIFICATION) (pxCurrentTCB k) ;;
     when (0 <? xTicksToWait)
       (prvAddCurrentTaskToDelayedList xTicksToWait pdTRUE ;; portYIELD)).
Definition ulTaskNotifyTake_finish (xClearCountOnExit : Z) : KM Z :=
  k ← get; let t := pxCurrentTCB k in
  c ← ld_tcb t;
  let ulReturn := ulNotifiedValue c in
  when (negb (ulReturn =? 0))
    (if negb (xClearCountOnExit =? pdFALSE) then st_tcb (with_notified 0) t
     else st_tcb (with_notified (ulReturn - 1)%word) t) ;;
  st_tcb (with_notify_state taskNOT_WAITING_NOTIFICATION) t ;;
  mret ulReturn.

Definition xTaskNotifyWait_wait (ulBitsToClearOnEntry xTicksToWait : Z) : KM unit :=
  k ← get; let t := pxCurrentTCB k in
  c ← ld_tcb t;
  when (negb (ucNotifyState c =? taskNOTIFICATION_RECEIVED))
    (st_tcb (with_notified (ulNotifiedValue c .& ~! ulBitsToClearOnEntry)%word) t ;;
     st_tcb (with_notify_state taskWAITING_NOTIFICATION) t ;;
     when (0 <? xTicksToWait)
       (prvAddCurrentTaskToDelayedList xTicksToWait pdTRUE ;; portYIELD)).
(** The result and [*pulNotificationValue]. *)
Definition xTaskNotifyWait_finish (ulBitsToClearOnExit : Z) : KM (Z * Z) :=
  k ← get; let t := pxCurrentTCB k in
  c ← ld_tcb t;
  let pulNotificationValue := ulNotifiedValue c in
  xReturn ←
    (if negb (ucNotifyState c =? taskNOTIFICATION_RECEIVED) then mret pdFALSE
     else st_tcb (with_notified (ulNotifiedValue c .& ~! ulBitsToClearOnExit)%word) t ;; mret pdTRUE);
  st_tcb (with_notify_state taskNOT_WAITING_NOTIFICATION) t ;;
  mret (xReturn, pulNotificationValue).

(** The new value and whether it was taken. *)
Definition notified_value (eAction : eNotifyAction) (ucOriginalNotifyState ulOld ulValue : Z) : Z * Z :=
  match eAction with
  | eSetBits => ((ulOld .| ulValue)%word, pdTRUE)
  | eIncrement => ((ulOld + 1)%word, pdTRUE)
  | eSetValueWithOverwrite => (ulValue, pdTRUE)
  | eSetValueWithoutOverwrite =>
      if negb (ucOriginalNotifyState =? taskNOTIFICATION_RECEIVED) then (ulValue, pdTRUE)
      else (ulOld, pdFALSE)
  | eNoAction => (ulOld, pdTRUE)
  end.

(** What the three notifying functions share: gives the result, the previous
    value and the previous state. *)
Definition record_notification (t ulValue : Z) (eAction : eNotifyAction) : KM (Z * Z * Z) :=
  c ← ld_tcb t;
  let ucOriginalNotifyState := ucNotifyState c in
  st_tcb (with_notify_state taskNOTIFICATION_RECEIVED) t ;;
  let r := notified_value eAction ucOriginalNotifyState (ulNotifiedValue c) ulValue in
  st_tcb (with_notified r.1) t ;;
  mret (r.2, ulNotifiedValue c, ucOriginalNotifyState).

(** The result and [*pulPreviousNotificationValue]. *)
Definition xTaskGenericNotify (xTaskToNotify ulValue : Z) (eAction : eNotifyAction) : KM (Z * Z) :=
  '(xReturn, prev, ucOriginalNotifyState) ← record_notification xTaskToNotify ulValue eAction;
  when (ucOriginalNotifyState =? taskWAITING_NOTIFICATION)
    (on_lists (uxListRemove (StateItem xTaskToNotify)) ;;
     prvAddTaskToReadyList xTaskToNotify ;;
     c ← ld_tcb xTaskToNotify; k ← get; cur ← ld_tcb (pxCurrentTCB k);
     when (uxPriority cur <? uxPriority c) portYIELD) ;;
  mret (xReturn, prev).

(** The result, [*pulPreviousNotificationValue] and whether
    [*pxHigherPriorityTaskWoken] is set. *)
Definition xTaskGenericNotifyFromISR (xTaskToNotify ulValue : Z) (eAction : eNotifyAction)
  : KM (Z * Z * bool) :=
  '(xReturn, prev, ucOriginalNotifyState) ← record_notification xTaskToNotify ulValue eAction;
  woken ←
    (if ucOriginalNotifyState =? taskWAITING_NOTIFICATION then
       ready_or_pend xTaskToNotify ;;
       c ← ld_tcb xTaskToNotify; k ← get; cur ← ld_tcb (pxCurrentTCB k);
       if uxPriority cur <? uxPriority c then modify (set_yield pdTRUE) ;; mret true else mret false
     else mret false);
  mret (xReturn, prev, woken).

Definition vTaskNotifyGiveFromISR (xTaskToNotify : Z) : KM bool :=
  '(_, _, ucOriginalNotifyState) ← record_notification xTaskToNotify 0 eIncrement;
  if ucOriginalNotifyState =? taskWAITING_NOTIFICATION then
    ready_or_pend xTaskToNotify ;;
    c ← ld_tcb xTaskToNotify; k ← get; cur ← ld_tcb (pxCurrentTCB k);
    if uxPriority cur <? uxPriority c then modify (set_yield pdTRUE) ;; mret true else mret false
  else mret false.

Definition xTaskNotifyStateClear (xTask : Z) : KM Z :=
  t ← prvGetTCBFromHandle xTask; c ← ld_tcb t;
  if ucNotifyState c =? taskNOTIFICATION_RECEIVED then
    st_tcb (with_notify_state taskNOT_WAITING_NOTIFICATION) t ;; mret pdTRUE
  else mret pdFALSE.

(** ** Start of the lists *)
Definition prvInitialiseTaskLists : KM unit :=
  for_range 0 (Z.to_nat configMAX_PRIORITIES) (fun uxPriority => on_lists (vListInitialise ListEnd (Ready uxPriority))) ;;
  on_lists (vListInitialise ListEnd xDelayedTaskList1) ;;
  on_lists (vListInitialise ListEnd xDelayedTaskList2) ;;
  on_lists (vListInitialise ListEnd xPendingReadyList) ;;
  on_lists (vListInitialise ListEnd xTasksWaitingTermination) ;;
  on_lists (vListInitialise ListEnd xSuspendedTaskList) ;;
  modify (set_delayed xDelayedTaskList1) ;; modify (set_overflow xDelayedTaskList2).

Definition prvAddNewTaskToReadyList (pxNewTCB : Z) : KM unit :=
  k ← get; modify (set_tasks (uxCurrentNumberOfTasks k + 1)%word) ;;
  k ← get;
  (if pxCurrentTCB k =? 0 then
     modify (set_current pxNewTCB) ;;
     when (uxCurrentNumberOfTasks k =? 1) prvInitialiseTaskLists
   else
     when (xSchedulerRunning k =? pdFALSE)
       (cur ← ld_tcb (pxCurrentTCB k); c ← ld_tcb pxNewTCB;
        when (uxPriority cur <=? uxPriority c) (modify (set_current pxNewTCB)))) ;;
  k ← get; modify (set_number (uxTaskNumber k + 1)%word) ;;
  k ← get; st_tcb (with_number (uxTaskNumber k)) pxNewTCB ;;
  prvAddTaskToReadyList pxNewTCB ;;
  k ← get;
  when (negb (xSchedulerRunning k =? pdFALSE))
    (cur ← ld_tcb (pxCurrentTCB k); c ← ld_tcb pxNewTCB;
     when (uxPriority cur <? uxPriority c) portYIELD).
