(* ===== verification/RtSched.v ===== *)
(** * FreeRTOS: what the scheduler keeps true

    The invariant that ties the lists of [RtTasks] to tasks, priorities and
    ticks, and the runs of the operations on one list. *)
From S2P Require Import Prelude.
From S2P Require Import RtList.
From S2P Require Import RtRings.
From S2P Require Import RtTasks.

Local Open Scope Z_scope.

(** ** The invariant *)
Abbreviation listing := (gmap list_id (node * list node)).

Definition contents (G : listing) (l : list_id) : list node := from_option snd [] (G !! l).
Definition nonempty (G : listing) (l : list_id) : bool := negb (bool_decide (contents G l = [])).
Definition value (k : kernel) (p : node) : option Z := vl (links (store k)) p.

(** The items a list may hold. *)
Definition fits (k : kernel) (l : list_id) (p : node) : Prop :=
  match l, p with
  | Ready pr, StateItem t => exists c, tcbs k !! t = Some c /\ uxPriority c = pr
  | (xDelayedTaskList1 | xDelayedTaskList2 | xSuspendedTaskList | xTasksWaitingTermination), StateItem t =>
      is_Some (tcbs k !! t)
  | (xPendingReadyList | EventList _), EventItem t => is_Some (tcbs k !! t)
  | _, _ => False
  end.

Definition kernel_list (l : list_id) : Prop :=
  match l with Ready p => 0 <= p < configMAX_PRIORITIES | EventList _ => False | _ => True end.

(** A task's control block and its two list items. *)
Record task_ok (s : lstore node list_id Z) (t : Z) (c : TCB_t) : Prop := {
  to_handle : 0 < t;
  to_priority : 0 <= uxPriority c < configMAX_PRIORITIES;
  to_state : exists o v, items s !! StateItem t = Some (ListItem t o) /\
    vl (links s) (StateItem t) = Some v /\ is_u32 v;
  to_event : exists o v, items s !! EventItem t = Some (ListItem t o) /\
    vl (links s) (EventItem t) = Some v /\ is_u32 v
}.

(** The bit of a priority says whether its list holds a task.  Between taking
    a task off its list and clearing the bit, the priority [e] is excepted:
    its bit is still set. *)
Definition bit_ok (e : option Z) (G : listing) (top pr : Z) : Prop :=
  if decide (e = Some pr) then Z.testbit top pr = true
  else Z.testbit top pr = nonempty G (Ready pr).

Section horizon.
(** The time up to which no task is due: now, but for the middle of a tick. *)
Variable h : Z.

(** Waking times: later than now and not before [xNextTaskUnblockTime], in
    order; on the overflow list they are before now. *)
Definition due_after (k : kernel) (p : node) : Prop :=
  exists v, value k p = Some v /\ h < v /\ xNextTaskUnblockTime k <= v.
Definition due_after_wrap (k : kernel) (p : node) : Prop :=
  exists v, value k p = Some v /\ v < xTickCount k.

Record sched_but (e : option Z) (G : listing) (k : kernel) : Prop := {
  so_lists : lists_ok ListEnd G (store k);
  so_dom : forall l, kernel_list l -> is_Some (G !! l);
  so_fits : forall l p, p ∈ contents G l -> fits k l p;
  so_tasks : forall t c, tcbs k !! t = Some c -> task_ok (store k) t c;
  so_size : Z.of_nat (size (tcbs k)) < 2 ^ 32;
  so_top : 0 <= uxTopReadyPriority k < 2 ^ configMAX_PRIORITIES;
  so_bits : forall pr, 0 <= pr < configMAX_PRIORITIES -> bit_ok e G (uxTopReadyPriority k) pr;
  so_ids : pxDelayedTaskList k = xDelayedTaskList1 /\ pxOverflowDelayedTaskList k = xDelayedTaskList2 \/
           pxDelayedTaskList k = xDelayedTaskList2 /\ pxOverflowDelayedTaskList k = xDelayedTaskList1;
  so_ticks : is_u32 (xTickCount k) /\ is_u32 (xNextTaskUnblockTime k);
  so_delayed : Forall (due_after k) (contents G (pxDelayedTaskList k)) /\
               sorted_by (value k) (contents G (pxDelayedTaskList k));
  so_overflow : Forall (due_after_wrap k) (contents G (pxOverflowDelayedTaskList k)) /\
                sorted_by (value k) (contents G (pxOverflowDelayedTaskList k))
}.
Local Abbreviation sched_ok := (sched_but None).

(** Where the list operations put an item. *)
Definition taken (G : listing) (l : list_id) (p : node) : listing :=
  match G !! l with
  | Some (i, xs) => <[l := (index_after (ListEnd l) i p xs, remove_item p xs)]> G
  | None => G
  end.
Definition put_end (G : listing) (l : list_id) (p : node) : listing :=
  match G !! l with Some (i, xs) => <[l := (i, insert_before i p xs)]> G | None => G end.
Definition put_in_order (val : node -> option Z) (v : Z) (G : listing) (l : list_id) (p : node) : listing :=
  match G !! l with Some (i, xs) => <[l := (i, insert_value val v p xs)]> G | None => G end.

Lemma contents_insert G l l' i xs :
  contents (<[l := (i, xs)]> G) l' = if decide (l = l') then xs else contents G l'.
Proof.
  unfold contents. destruct (decide (l = l')) as [->|]; [by rewrite lookup_insert_eq|by rewrite lookup_insert_ne].
Qed.
Lemma nonempty_insert_ne G l l' x : l <> l' -> nonempty (<[l := x]> G) l' = nonempty G l'.
Proof. intros. unfold nonempty, contents. by rewrite lookup_insert_ne. Qed.

Lemma bind_ext {S A B} (m : M S A) (f g : A -> M S B) s :
  (forall a t, f a t = g a t) -> (m ≫= f) s = (m ≫= g) s.
Proof. intros E. unfold mbind, M_bind. destruct (m s); [apply E|done..]. Qed.

Section store_runs.
Context {A B : Type}.
Lemma on_lists_run (m : M (lstore node list_id Z) A) (f : A -> KM B) k a s :
  m (store k) = Ok a s -> (on_lists m ≫= f) k = f a (set_store s k).
Proof. intros E. unfold mbind, M_bind, on_lists. by rewrite E. Qed.
Lemma on_lists_end (m : M (lstore node list_id Z) A) k a s :
  m (store k) = Ok a s -> on_lists m k = Ok a (set_store s k).
Proof. intros E. unfold on_lists. by rewrite E. Qed.
Lemma on_lists_same (m : M (lstore node list_id Z) A) (f : A -> KM B) k a :
  m (store k) = Ok a (store k) -> (on_lists m ≫= f) k = f a k.
Proof. intros E. rewrite (on_lists_run _ _ _ _ _ E). by destruct k. Qed.
Lemma ld_tcb_run t c (f : TCB_t -> KM B) k : tcbs k !! t = Some c -> (ld_tcb t ≫= f) k = f c k.
Proof. intros E. unfold mbind, M_bind, ld_tcb. by rewrite E. Qed.
Lemma st_tcb_run g t (f : unit -> KM B) k :
  is_Some (tcbs k !! t) -> (st_tcb g t ≫= f) k = f tt (set_tcbs (alter g t (tcbs k)) k).
Proof. intros [c E]. unfold mbind, M_bind, st_tcb. by rewrite E. Qed.
End store_runs.

(** ** Facts of the invariant *)
Section facts.
Variables (e : option Z) (G : listing) (k : kernel).
Hypothesis Hok : sched_but e G k.

Lemma kernel_list_get l : kernel_list l -> exists i xs, G !! l = Some (i, xs) /\ contents G l = xs.
Proof.
  intros [[i xs] E]%(so_dom _ _ _ Hok). exists i, xs. split; [done|]. unfold contents. by rewrite E.
Qed.
Lemma contents_get l i xs : G !! l = Some (i, xs) -> contents G l = xs.
Proof. unfold contents. by intros ->. Qed.
Lemma contents_in l p : p ∈ contents G l -> exists i, G !! l = Some (i, contents G l).
Proof.
  unfold contents. destruct (G !! l) as [[i xs]|]; [by exists i|]. intros Hp. cbn in Hp. by apply elem_of_nil in Hp.
Qed.

(** A task is on at most one list with each of its items, the list its item
    names. *)
Lemma in_list l p : p ∈ contents G l -> exists o, items (store k) !! p = Some (ListItem o (Some l)).
Proof. intros Hp. destruct (contents_in _ _ Hp) as [i Hl]. by eapply (lo_in _ _ _ (so_lists _ _ _ Hok)). Qed.
Lemma on_list l p o : items (store k) !! p = Some (ListItem o (Some l)) -> p ∈ contents G l.
Proof.
  intros (i & xs & Hl & Hp)%(lo_on _ _ _ (so_lists _ _ _ Hok)). by rewrite (contents_get _ _ _ Hl).
Qed.
Lemma one_list l l' p : p ∈ contents G l -> p ∈ contents G l' -> l = l'.
Proof. intros [o E]%in_list [o' E']%in_list. congruence. Qed.

Definition task_of (p : node) : option Z :=
  match p with StateItem t | EventItem t => Some t | ListEnd _ => None end.
Lemma fits_task l p : fits k l p -> exists t, task_of p = Some t /\ is_Some (tcbs k !! t).
Proof.
  destruct l, p; cbn; try done; try (by eauto). intros (c & E & _). eauto.
Qed.
Lemma owner_is l p : p ∈ contents G l ->
  exists t, task_of p = Some t /\ is_Some (tcbs k !! t) /\ items (store k) !! p = Some (ListItem t (Some l)).
Proof.
  intros Hp. destruct (fits_task _ _ (so_fits _ _ _ Hok _ _ Hp)) as (t & Ht & c & Ec).
  exists t. split_and!; [done|by eexists|]. destruct (in_list _ _ Hp) as [o E].
  destruct (so_tasks _ _ _ Hok _ _ Ec) as [_ _ (o1 & v1 & E1 & _) (o2 & v2 & E2 & _)].
  destruct p; cbn in Ht; [injection Ht as ->|injection Ht as ->|done]; congruence.
Qed.
Lemma value_of l p : p ∈ contents G l -> exists v, value k p = Some v /\ is_u32 v.
Proof.
  intros Hp. destruct (fits_task _ _ (so_fits _ _ _ Hok _ _ Hp)) as (t & Ht & c & Ec).
  destruct (so_tasks _ _ _ Hok _ _ Ec) as [_ _ (o1 & v1 & _ & E1) (o2 & v2 & _ & E2)].
  destruct p; cbn in Ht; [injection Ht as ->|injection Ht as ->|done]; eauto.
Qed.
Lemma values_at_most l : forall p, p ∈ contents G l -> at_most (value k) portMAX_DELAY p.
Proof.
  intros p Hp. destruct (value_of _ _ Hp) as (v & E & Hv). exists v. split; [done|].
  unfold is_u32 in Hv. unfold portMAX_DELAY. lia.
Qed.

Lemma ring_nodup_contents l : NoDup (contents G l).
Proof.
  unfold contents. destruct (G !! l) as [[i xs]|] eqn:E; [|constructor].
  destruct (lo_list _ _ _ (so_lists _ _ _ Hok) _ _ _ E) as [_ [_ Hn _ _]]. by apply NoDup_cons in Hn as [_ ?].
Qed.
Lemma contents_length l : Z.of_nat (length (contents G l)) < 2 ^ 32.
Proof.
  pose proof (so_size _ _ _ Hok). cut (length (contents G l) <= size (tcbs k))%nat; [lia|].
  set (f := fun p => default 0 (task_of p)).
  assert (Hinj : forall p q, p ∈ contents G l -> q ∈ contents G l -> f p = f q -> p = q).
  { intros p q Hp Hq. pose proof (so_fits _ _ _ Hok _ _ Hp). pose proof (so_fits _ _ _ Hok _ _ Hq).
    destruct l, p, q; cbn in *; try done; by intros ->. }
  rewrite <- (length_fmap f), <- (size_dom (D := gset Z)).
  rewrite <- (size_list_to_set (C := gset Z) (f <$> contents G l)).
  - apply subseteq_size. intros t Ht%elem_of_list_to_set. apply list_elem_of_fmap in Ht as (p & -> & Hp).
    apply elem_of_dom. destruct (fits_task _ _ (so_fits _ _ _ Hok _ _ Hp)) as (t & Ht & ?).
    unfold f. by rewrite Ht.
  - pose proof (ring_nodup_contents l) as Hn. revert Hinj. induction Hn as [|p xs Hp Hn IH]; [constructor|].
    intros Hinj. cbn. constructor.
    + intros (q & E & Hq)%list_elem_of_fmap. apply Hp. rewrite (Hinj p q); [done|left|by right|done].
    + apply IH. intros a b Ha Hb. apply Hinj; by right.
Qed.

Lemma list_empty_ok {B} l (f : bool -> KM B) :
  kernel_list l -> (on_lists (listLIST_IS_EMPTY l) ≫= f) k = f (bool_decide (contents G l = [])) k.
Proof.
  intros (i & xs & El & <-)%kernel_list_get. apply on_lists_same.
  apply (list_empty_run ListEnd G _ _ i); [apply (so_lists _ _ _ Hok)|done|apply contents_length].
Qed.
Lemma head_entry_ok {B} l p xs t (f : Z -> KM B) :
  contents G l = p :: xs -> task_of p = Some t ->
  (on_lists (listGET_OWNER_OF_HEAD_ENTRY ListEnd l) ≫= f) k = f t k.
Proof.
  intros El Ht. assert (Hp : p ∈ contents G l) by (rewrite El; left).
  destruct (contents_in _ _ Hp) as [i Ei]. destruct (owner_is _ _ Hp) as (t' & Ht' & _ & Eo).
  rewrite Ht in Ht'. injection Ht' as <-. rewrite El in Ei. apply on_lists_same.
  by apply (head_entry_run ListEnd G _ _ i p xs t (so_lists _ _ _ Hok)).
Qed.
Lemma list_length_ok {B} l (f : Z -> KM B) :
  kernel_list l -> (on_lists (listCURRENT_LIST_LENGTH l) ≫= f) k = f (Z.of_nat (length (contents G l))) k.
Proof.
  intros (i & xs & El & <-)%kernel_list_get. apply on_lists_same.
  destruct (lo_list _ _ _ (so_lists _ _ _ Hok) _ _ _ El) as [Hc _]. destruct (store k) as [lk it ls].
  unfold listCURRENT_LIST_LENGTH. rewrite (ld_list_run _ _ _ _ _ _ Hc). cbn [uxNumberOfItems].
  pose proof (contents_length l). rewrite u32_small; [done|]. unfold is_u32. lia.
Qed.
Lemma value_run {B} p v (f : Z -> KM B) :
  value k p = Some v -> (on_lists (ld_value p) ≫= f) k = f v k.
Proof.
  unfold value. intros E. apply on_lists_same. destruct (store k) as [lk it ls]. cbn [links] in E.
  rewrite <- (bind_ret_r (ld_value p)). by rewrite (ld_value_run p v) by done.
Qed.
Lemma container_run {B} p t o (f : option list_id -> KM B) :
  items (store k) !! p = Some (ListItem t o) -> (on_lists (listLIST_ITEM_CONTAINER p) ≫= f) k = f o k.
Proof.
  intros E. apply on_lists_same. destruct (store k) as [lk it ls]. cbn [items] in E.
  unfold listLIST_ITEM_CONTAINER. by rewrite (ld_item_run _ _ _ _ _ _ E).
Qed.
Lemma contained_run {B} l p t o (f : bool -> KM B) :
  items (store k) !! p = Some (ListItem t o) ->
  (on_lists (listIS_CONTAINED_WITHIN l p) ≫= f) k = f (bool_decide (o = Some l)) k.
Proof.
  intros E. apply on_lists_same. destruct (store k) as [lk it ls]. cbn [items] in E.
  unfold listIS_CONTAINED_WITHIN. by rewrite (ld_item_run _ _ _ _ _ _ E).
Qed.
End facts.

(** ** One list changes *)
Lemma task_ok_frame s s' t c c' :
  uxPriority c' = uxPriority c \/ 0 <= uxPriority c' < configMAX_PRIORITIES ->
  (forall q, pvOwner <$> items s' !! q = pvOwner <$> items s !! q) ->
  (forall q v, task_of q = Some t -> vl (links s) q = Some v -> is_u32 v ->
     exists v', vl (links s') q = Some v' /\ is_u32 v') ->
  task_ok s t c -> task_ok s' t c'.
Proof.
  intros Hc Ho Hv [H1 H2 (o1 & v1 & E1 & V1 & U1) (o2 & v2 & E2 & V2 & U2)].
  assert (Hit : forall q o, items s !! q = Some (ListItem t o) ->
    exists o', items s' !! q = Some (ListItem t o')).
  { intros q o E. specialize (Ho q). rewrite E in Ho.
    destruct (items s' !! q) as [[w o']|]; [|done]. injection Ho as ->. by exists o'. }
  constructor; [done|by destruct Hc as [-> |?]|..].
  - destruct (Hit _ _ E1) as [o' ?]. destruct (Hv (StateItem t) v1) as (v' & ? & ?); [done..|]. eauto.
  - destruct (Hit _ _ E2) as [o' ?]. destruct (Hv (EventItem t) v2) as (v' & ? & ?); [done..|]. eauto.
Qed.

Lemma due_after_frame k k' p :
  value k' p = value k p ->
  xNextTaskUnblockTime k' <= xNextTaskUnblockTime k -> due_after k p -> due_after k' p.
Proof. intros Ev Hn (v & E & ? & ?). exists v. rewrite Ev. split_and!; [done..|lia]. Qed.

Lemma due_after_wrap_frame k k' p :
  value k' p = value k p -> xTickCount k' = xTickCount k -> due_after_wrap k p -> due_after_wrap k' p.
Proof. intros Ev Et (v & E & ?). exists v. rewrite Ev, Et. done. Qed.

Lemma sched_update e e' G k k' l i xs :
  sched_but e G k ->
  lists_ok ListEnd (<[l := (i, xs)]> G) (store k') ->
  (forall q, pvOwner <$> items (store k') !! q = pvOwner <$> items (store k) !! q) ->
  (forall q, value k' q = value k q) ->
  tcbs k' = tcbs k -> pxDelayedTaskList k' = pxDelayedTaskList k ->
  pxOverflowDelayedTaskList k' = pxOverflowDelayedTaskList k -> xTickCount k' = xTickCount k ->
  is_u32 (xNextTaskUnblockTime k') -> xNextTaskUnblockTime k' <= xNextTaskUnblockTime k ->
  0 <= uxTopReadyPriority k' < 2 ^ configMAX_PRIORITIES ->
  (forall q, q ∈ xs -> q ∈ contents G l \/ fits k l q) ->
  (forall pr, 0 <= pr < configMAX_PRIORITIES ->
     bit_ok e' (<[l := (i, xs)]> G) (uxTopReadyPriority k') pr) ->
  (l = pxDelayedTaskList k -> Forall (due_after k') xs /\ sorted_by (value k) xs) ->
  (l = pxOverflowDelayedTaskList k -> Forall (due_after_wrap k') xs /\ sorted_by (value k) xs) ->
  sched_but e' (<[l := (i, xs)]> G) k'.
Proof.
  intros Hok Hlists Hown Hval Et Ed Eo Ek Un Hn Utop Hxs Hbits Hdel Hovf.
  assert (Hsort : forall ys, sorted_by (value k) ys -> sorted_by (value k') ys)
    by (intros ys; apply (sorted_by_ext ListEnd); intros q _; apply Hval).
  pose proof Hok as [_ Hdom Hfits Htasks Hsize _ _ Hids [Utick _] [D1 D2] [O1 O2]].
  constructor; rewrite ?Et, ?Ed, ?Eo, ?Ek; try done.
  - intros l' Hl'. destruct (decide (l = l')) as [->|]; [rewrite lookup_insert_eq; by eexists|].
    rewrite lookup_insert_ne by done. by apply Hdom.
  - intros l' q. rewrite contents_insert. unfold fits. rewrite Et. fold (fits k l' q).
    destruct (decide (l = l')) as [<-|]; [|apply Hfits].
    intros [?|?]%Hxs; [by apply Hfits|done].
  - intros t c Ec. apply (task_ok_frame (store k) _ _ c); [by left|done| |by apply Htasks].
    intros q v _ E U. exists v. split; [|done]. by rewrite <- E; apply Hval.
  - rewrite contents_insert. destruct (decide _) as [E|]; [destruct (Hdel E); split; [done|by apply Hsort]|].
    split; [|by apply Hsort]. eapply Forall_impl; [exact D1|]. intros q. by apply due_after_frame.
  - rewrite contents_insert. destruct (decide _) as [E|]; [destruct (Hovf E); split; [done|by apply Hsort]|].
    split; [|by apply Hsort]. eapply Forall_impl; [exact O1|]. intros q. by apply due_after_wrap_frame.
Qed.

Lemma remove_item_in (p q : node) xs : q ∈ remove_item p xs <-> q <> p /\ q ∈ xs.
Proof. unfold remove_item. by rewrite list_elem_of_filter. Qed.
Lemma remove_item_length (p : node) xs : (length (remove_item p xs) <= length xs)%nat.
Proof. unfold remove_item. apply length_filter. Qed.

Lemma owner_container c p (it : gmap node (ListItem_t list_id Z)) q :
  pvOwner <$> alter (with_container c) p it !! q = pvOwner <$> it !! q.
Proof. apply owner_alter. Qed.

(** *** Taking an item off its list *)
Definition except (e : option Z) (l : list_id) : option Z := match l with Ready pr => Some pr | _ => e end.

Lemma remove_run e G k l p :
  sched_but e G k -> p ∈ contents G l -> e = None \/ except e l = e ->
  exists s', uxListRemove p (store k) = Ok (Z.of_nat (length (remove_item p (contents G l)))) s' /\
    sched_but (except e l) (taken G l p) (set_store s' k) /\
    items s' = alter (with_container None) p (items (store k)) /\
    (forall q, vl (links s') q = value k q).
Proof.
  intros Hok Hp He. destruct (contents_in _ _ _ Hp) as [i Ei]. destruct (in_list _ _ _ Hok _ _ Hp) as [o Eo].
  destruct (uxListRemove_run ListEnd G (store k) l i (contents G l) p o (so_lists _ _ _ Hok) Ei Eo)
    as (s' & E & Hl' & Ei' & Hv').
  pose proof (contents_length _ _ _ Hok l). pose proof (remove_item_length p (contents G l)).
  rewrite u32_small in E by (unfold is_u32; lia). exists s'. split_and!; [done| |done|done].
  unfold taken. rewrite Ei. apply (sched_update e _ G k); try done.
  - intros q. cbn [set_store store]. rewrite Ei'. apply owner_container.
  - by destruct (so_ticks _ _ _ Hok).
  - apply (so_top _ _ _ Hok).
  - intros q [_ Hq]%remove_item_in. by left.
  - intros pr Hpr. pose proof (so_bits _ _ _ Hok pr Hpr) as Hb. unfold bit_ok in *. cbn.
    destruct (decide (l = Ready pr)) as [->|Hne].
    + cbn [except] in *. rewrite decide_True by done.
      destruct (decide (e = Some pr)); [done|]. destruct He as [-> |?]; [|done].
      rewrite Hb. unfold nonempty. apply negb_true_iff, bool_decide_eq_false. intros E0. rewrite E0 in Hp.
      by apply elem_of_nil in Hp.
    + rewrite nonempty_insert_ne by done.
      destruct l as [p'| | | | | |]; cbn [except] in *; try exact Hb.
      assert (p' <> pr) by congruence. rewrite decide_False by congruence.
      destruct (decide (e = Some pr)) as [->|]; [|done]. destruct He as [?|?]; congruence.
  - intros ->. destruct (so_delayed _ _ _ Hok) as [D1 D2]. split; [|by apply sorted_by_remove].
    rewrite Forall_forall in *. intros q [_ Hq]%remove_item_in.
    apply (due_after_frame k); [apply Hv'|done|by apply D1].
  - intros ->. destruct (so_overflow _ _ _ Hok) as [D1 D2]. split; [|by apply sorted_by_remove].
    rewrite Forall_forall in *. intros q [_ Hq]%remove_item_in.
    apply (due_after_wrap_frame k); [apply Hv'|done|by apply D1].
Qed.

(** *** The ready bits *)
Lemma below_bits a n : 0 <= n ->
  0 <= a < 2 ^ n <-> 0 <= a /\ forall i, n <= i -> Z.testbit a i = false.
Proof.
  intros Hn. split.
  - intros Ha. split; [lia|]. intros i Hi. rewrite <- (Z.mod_small a (2 ^ n)) by lia.
    apply Z.mod_pow2_bits_high. lia.
  - intros [Ha Hb]. split; [done|]. assert (a = a mod 2 ^ n) as ->; [|apply Z.mod_pos_bound; lia].
    apply Z.bits_inj'. intros i Hi. destruct (Z.ltb_spec i n).
    + by rewrite Z.mod_pow2_bits_low by lia.
    + rewrite Z.mod_pow2_bits_high by lia. apply Hb. lia.
Qed.

Lemma clear_bit_testbit top pr i : 0 <= i < 32 ->
  Z.testbit (top .& ~! (1 << pr))%word i = Z.testbit top i && negb (i =? pr).
Proof.
  intros Hi. autorewrite with bits_db. rewrite (proj2 (Z.ltb_lt i 32)) by lia.
  pose proof (pow2_testbit 0 (i - pr) ltac:(done)) as E. change (2 ^ 0) with 1 in E. rewrite E.
  cbn [andb]. by destruct (Z.eqb_spec (i - pr) 0), (Z.eqb_spec i pr); try lia.
Qed.
Lemma set_bit_testbit top pr i : 0 <= i < 32 ->
  Z.testbit (top .| (1 << pr))%word i = Z.testbit top i || (i =? pr).
Proof.
  intros Hi. autorewrite with bits_db. rewrite (proj2 (Z.ltb_lt i 32)) by lia.
  pose proof (pow2_testbit 0 (i - pr) ltac:(done)) as E. change (2 ^ 0) with 1 in E. rewrite E.
  cbn [andb]. by destruct (Z.eqb_spec (i - pr) 0), (Z.eqb_spec i pr); try lia.
Qed.
Lemma clear_bit_bound top pr : 0 <= top < 2 ^ configMAX_PRIORITIES ->
  0 <= (top .& ~! (1 << pr))%word < 2 ^ configMAX_PRIORITIES.
Proof.
  rewrite !below_bits by done. intros [Ht Hb]. split; [apply Z.land_nonneg; by left|].
  intros i Hi. by rewrite Z.land_spec, Hb.
Qed.
Lemma set_bit_bound top pr : 0 <= top < 2 ^ configMAX_PRIORITIES -> 0 <= pr < configMAX_PRIORITIES ->
  0 <= (top .| (1 << pr))%word < 2 ^ configMAX_PRIORITIES.
Proof.
  rewrite !below_bits by done. unfold configMAX_PRIORITIES. intros [Ht Hb] Hp.
  split; [apply Z.lor_nonneg; split; [done|apply shl32_nonneg]|].
  intros i Hi. rewrite Z.lor_spec, Hb by done. unfold shl32. rewrite u32_testbit, Z.shiftl_spec by lia.
  pose proof (pow2_testbit 0 (i - pr) ltac:(done)) as E. change (2 ^ 0) with 1 in E. rewrite E.
  destruct (Z.eqb_spec (i - pr) 0); [lia|]. by rewrite andb_false_r.
Qed.

(** The bit of an empty priority is cleared. *)
Definition cleared (pr : Z) (k : kernel) : kernel := set_top (uxTopReadyPriority k .& ~! (1 << pr))%word k.
Lemma reset_ok pr e G k :
  sched_but e G k -> e = None \/ e = Some pr -> contents G (Ready pr) = [] -> 0 <= pr < configMAX_PRIORITIES ->
  sched_ok G (cleared pr k).
Proof.
  intros Hok He Hc Hpr. pose proof Hok as [? ? ? ? ? Ht Hb ? ? [D1 D2] [O1 O2]].
  constructor; cbn [cleared set_top store tcbs uxTopReadyPriority pxDelayedTaskList pxOverflowDelayedTaskList
    xTickCount xNextTaskUnblockTime]; try done.
  - by apply clear_bit_bound.
  - intros i Hi. specialize (Hb i Hi). unfold bit_ok in *. rewrite decide_False by done.
    rewrite clear_bit_testbit by (unfold configMAX_PRIORITIES in Hi; lia).
    destruct (Z.eqb_spec i pr) as [->|Hne].
    + rewrite andb_false_r. unfold nonempty. by rewrite Hc.
    + rewrite andb_true_r. destruct He as [-> | ->]; [done|]. by rewrite decide_False in Hb by congruence.
Qed.
Lemma reset_run {B} pr k (f : unit -> KM B) :
  (portRESET_READY_PRIORITY pr ≫= f) k = f tt (cleared pr k).
Proof. unfold portRESET_READY_PRIORITY. by rewrite bind_assoc, bind_get, bind_modify. Qed.

(** An exception whose list is not empty is none. *)
Lemma sched_but_nonempty pr G k : sched_but (Some pr) G k -> nonempty G (Ready pr) = true -> sched_ok G k.
Proof.
  intros [? ? ? ? ? ? Hb ? ? ? ?] Hne. constructor; try done. intros i Hi. specialize (Hb i Hi).
  unfold bit_ok in *. rewrite decide_False by done. destruct (decide (Some pr = Some i)) as [[= <-]|]; [|done].
  by rewrite Hne.
Qed.

(** *** Putting an item on a list *)
Lemma put_end_run e e' G k k' l t p :
  sched_but e G k -> is_Some (G !! l) -> items (store k) !! p = Some (ListItem t None) -> fits k l p ->
  l <> pxDelayedTaskList k -> l <> pxOverflowDelayedTaskList k ->
  (exists top, k' = set_top top k /\ 0 <= top < 2 ^ configMAX_PRIORITIES) ->
  (forall pr, 0 <= pr < configMAX_PRIORITIES -> bit_ok e' (put_end G l p) (uxTopReadyPriority k') pr) ->
  exists s', vListInsertEnd l p (store k') = Ok tt s' /\ sched_but e' (put_end G l p) (set_store s' k') /\
    items s' = alter (with_container (Some l)) p (items (store k)) /\ (forall q, vl (links s') q = value k q).
Proof.
  intros Hok [[i xs] Ei] Hit Hf Hd Ho (top & -> & Htop) Hbits.
  destruct (vListInsertEnd_run ListEnd G (store k) l i xs p t (so_lists _ _ _ Hok) Ei Hit) as (s' & E & Hl' & Ei' & Hv').
  exists s'. split_and!; [done| |done|done]. unfold put_end in *. rewrite Ei in *.
  apply (sched_update e _ G k); try done.
  - intros q. cbn [set_store store]. rewrite Ei'. apply owner_container.
  - by destruct (so_ticks _ _ _ Hok).
  - intros q Hq. rewrite (contents_get _ _ _ _ Ei). revert Hq. clear -Hf.
    induction xs as [|x xs IH]; cbn; [intros ->%list_elem_of_singleton; by right|].
    destruct (decide (x = i)).
    + intros [-> | ?]%elem_of_cons; [by right|by left].
    + intros [-> | Hq]%elem_of_cons; [left; left|]. destruct (IH Hq); [left; by right|by right].
Qed.

(** ** Runs that keep the invariant *)

(** The list an item is on. *)
Definition cont (k : kernel) (p : node) : option list_id := items (store k) !! p ≫= pxContainer.

Lemma cont_in e G k l p : sched_but e G k -> cont k p = Some l <-> p ∈ contents G l.
Proof.
  intros Hok. unfold cont. split.
  - destruct (items (store k) !! p) as [[o c]|] eqn:E; [|done]. cbn. intros ->. by apply (on_list _ _ _ Hok _ _ o).
  - intros Hp. destruct (in_list _ _ _ Hok _ _ Hp) as [o ->]. done.
Qed.
Lemma cont_item e G k t c p :
  sched_but e G k -> tcbs k !! t = Some c -> task_of p = Some t -> items (store k) !! p = Some (ListItem t (cont k p)).
Proof.
  intros Hok Ec Hp. destruct (so_tasks _ _ _ Hok _ _ Ec) as [_ _ (o1 & v1 & E1 & _) (o2 & v2 & E2 & _)].
  destruct p; cbn in Hp; [injection Hp as ->|injection Hp as ->|done]; unfold cont; [by rewrite E1|by rewrite E2].
Qed.
Lemma cont_alter c p q (k : kernel) s :
  items s = alter (with_container c) p (items (store k)) -> is_Some (items (store k) !! p) ->
  cont (set_store s k) q = if decide (p = q) then c else cont k q.
Proof.
  intros E [x Ex]. unfold cont. cbn. rewrite E, lookup_alter. destruct (decide (p = q)) as [<-|]; [by rewrite Ex|done].
Qed.
Lemma item_is_Some e G k t p :
  sched_but e G k -> is_Some (tcbs k !! t) -> task_of p = Some t -> is_Some (items (store k) !! p).
Proof. intros Hok [c Ec] Hp. rewrite (cont_item _ _ _ _ _ _ Hok Ec Hp). by eexists. Qed.

(** What the list operations of the scheduler leave alone. *)
Record same_tasks (k k' : kernel) : Prop := {
  st_tcbs : tcbs k' = tcbs k;
  st_words : words k' = words k;
  st_current : pxCurrentTCB k' = pxCurrentTCB k;
  st_delayed : pxDelayedTaskList k' = pxDelayedTaskList k;
  st_overflow : pxOverflowDelayedTaskList k' = pxOverflowDelayedTaskList k;
  st_tick : xTickCount k' = xTickCount k;
  st_counts : uxDeletedTasksWaitingCleanUp k' = uxDeletedTasksWaitingCleanUp k /\
    uxCurrentNumberOfTasks k' = uxCurrentNumberOfTasks k /\ uxTaskNumber k' = uxTaskNumber k /\
    xNumOfOverflows k' = xNumOfOverflows k;
  st_running : xSchedulerRunning k' = xSchedulerRunning k;
  st_pended : uxPendedTicks k' = uxPendedTicks k;
  st_suspended : uxSchedulerSuspended k' = uxSchedulerSuspended k
}.
Lemma same_tasks_refl k : same_tasks k k.
Proof. done. Qed.
Lemma same_tasks_trans k1 k2 k3 : same_tasks k1 k2 -> same_tasks k2 k3 -> same_tasks k1 k3.
Proof. intros [? ? ? ? ? ? (?&?&?&?) ? ? ?] [? ? ? ? ? ? (?&?&?&?) ? ? ?]. constructor; try split_and!; congruence. Qed.
Hint Resolve same_tasks_refl : core.

(** One step of a task: [p] moves to the list [c] (or to none); everything
    else, but for the store, the ready bits and the next unblock time, stays. *)
Record moved (p : node) (c : option list_id) (k k' : kernel) : Prop := {
  mv_same : same_tasks k k';
  mv_cont : forall q, cont k' q = if decide (p = q) then c else cont k q;
  mv_value : forall q, value k' q = value k q;
  mv_yield : xYieldPending k' = xYieldPending k;
  mv_unblock : xNextTaskUnblockTime k' = xNextTaskUnblockTime k
}.

Section task_runs.
Context {B : Type}.

Lemma take_run e G k l p (f : Z -> KM B) :
  sched_but e G k -> p ∈ contents G l -> e = None \/ except e l = e ->
  exists k', (on_lists (uxListRemove p) ≫= f) k = f (Z.of_nat (length (remove_item p (contents G l)))) k' /\
    sched_but (except e l) (taken G l p) k' /\ moved p None k k' /\ uxTopReadyPriority k' = uxTopReadyPriority k.
Proof.
  intros Hok Hp He. destruct (remove_run _ _ _ _ _ Hok Hp He) as (s' & E & Hok' & Ei & Hv).
  exists (set_store s' k). split; [by apply on_lists_run|]. split; [done|].
  destruct (in_list _ _ _ Hok _ _ Hp) as [o Eo]. split; [|done].
  constructor; try done. intros q. apply cont_alter; [done|by eexists].
Qed.

(** [p] is put at the end of a list that is neither a ready nor a delayed one. *)
Lemma put_run e G k l t p (f : unit -> KM B) :
  sched_but e G k -> is_Some (G !! l) -> is_Some (tcbs k !! t) -> task_of p = Some t -> cont k p = None ->
  fits k l p -> (forall pr, l <> Ready pr) -> l <> pxDelayedTaskList k -> l <> pxOverflowDelayedTaskList k ->
  exists k', (on_lists (vListInsertEnd l p) ≫= f) k = f tt k' /\
    sched_but e (put_end G l p) k' /\ moved p (Some l) k k'.
Proof.
  intros Hok Hl [c Ec] Hp Hc Hf Hr Hd Ho. pose proof (cont_item _ _ _ _ _ _ Hok Ec Hp) as Eit. rewrite Hc in Eit.
  destruct (put_end_run e e G k k l t p Hok Hl Eit Hf Hd Ho) as (s' & E & Hok' & Ei & Hv).
  - exists (uxTopReadyPriority k). split; [by destruct k|apply (so_top _ _ _ Hok)].
  - intros pr Hpr. pose proof (so_bits _ _ _ Hok pr Hpr) as Hb. unfold put_end.
    destruct Hl as [[i xs] ->]. unfold bit_ok in *. by rewrite nonempty_insert_ne by apply Hr.
  - exists (set_store s' k). split; [by apply on_lists_run|]. split; [done|].
    constructor; try done. intros q. apply cont_alter; [done|by eexists].
Qed.

(** [prvAddTaskToReadyList] of a task that is on no list. *)
Lemma add_ready_run e G k t c (f : unit -> KM B) :
  sched_but e G k -> tcbs k !! t = Some c -> cont k (StateItem t) = None ->
  e = None \/ e = Some (uxPriority c) ->
  exists k', (prvAddTaskToReadyList t ≫= f) k = f tt k' /\
    sched_ok (put_end G (Ready (uxPriority c)) (StateItem t)) k' /\
    moved (StateItem t) (Some (Ready (uxPriority c))) k k'.
Proof.
  intros Hok Ec Hc He. pose proof (cont_item _ _ _ _ _ (StateItem t) Hok Ec eq_refl) as Eit. rewrite Hc in Eit.
  pose proof (so_tasks _ _ _ Hok _ _ Ec) as [_ Hpr _ _].
  set (pr := uxPriority c) in *. set (top := (uxTopReadyPriority k .| (1 << pr))%word).
  destruct (put_end_run e None G k (set_top top k) (Ready pr) t (StateItem t) Hok) as (s' & E & Hok' & Ei & Hv);
    try done.
  - by apply (so_dom _ _ _ Hok).
  - by exists c.
  - by destruct (so_ids _ _ _ Hok) as [[-> _]|[-> _]].
  - by destruct (so_ids _ _ _ Hok) as [[_ ->]|[_ ->]].
  - exists top. split; [done|]. by apply set_bit_bound; [apply (so_top _ _ _ Hok)|].
  - intros i Hi. pose proof (so_bits _ _ _ Hok i Hi) as Hb. unfold bit_ok in *.
    cbn [set_top uxTopReadyPriority]. rewrite decide_False by done. subst top.
    rewrite set_bit_testbit by (unfold configMAX_PRIORITIES in Hi; lia).
    unfold put_end. destruct (so_dom _ _ _ Hok (Ready pr) Hpr) as [[j xs] ->].
    destruct (Z.eqb_spec i pr) as [->|Hne].
    + rewrite orb_true_r. unfold nonempty. rewrite contents_insert, decide_True by done.
      symmetry. apply negb_true_iff, bool_decide_eq_false. destruct xs as [|x xs]; [done|]. cbn [insert_before]. by destruct (decide (x = j)).
    + rewrite orb_false_r, nonempty_insert_ne by congruence. destruct He as [-> | ->]; [done|].
      by rewrite decide_False in Hb by congruence.
  - exists (set_store s' (set_top top k)). split.
    { unfold prvAddTaskToReadyList. rewrite bind_assoc, (ld_tcb_run _ _ _ _ Ec), bind_assoc.
      unfold portRECORD_READY_PRIORITY. rewrite bind_assoc, bind_get, bind_modify, bind_assoc.
      rewrite (ld_tcb_run _ c) by done. by apply on_lists_run. }
    split; [done|]. constructor; try done. intros q. apply (cont_alter _ _ _ (set_top top k)); [done|by eexists].
Qed.
End task_runs.

(** *** Times *)
Lemma set_unblock_ok e G k v :
  sched_but e G k -> is_u32 v ->
  (forall p, p ∈ contents G (pxDelayedTaskList k) -> exists w, value k p = Some w /\ v <= w) ->
  sched_but e G (set_unblock v k).
Proof.
  intros [? ? ? ? ? ? ? ? [? _] [D1 D2] ?] Hv Hmin. constructor; try done.
  split; [|done]. cbn [set_unblock pxDelayedTaskList]. rewrite Forall_forall in *.
  intros p Hp. destruct (D1 p Hp) as (w & E & Ht & _). destruct (Hmin p Hp) as (w' & E' & Hw).
  exists w. rewrite E in E'. injection E' as <-. done.
Qed.

Lemma head_least e G k p xs :
  sched_but e G k -> contents G (pxDelayedTaskList k) = p :: xs ->
  exists v, value k p = Some v /\ is_u32 v /\
    forall q, q ∈ p :: xs -> exists w, value k q = Some w /\ v <= w.
Proof.
  intros Hok E. assert (Hp : p ∈ contents G (pxDelayedTaskList k)) by (rewrite E; left).
  destruct (value_of _ _ _ Hok _ _ Hp) as (v & Ev & Uv). exists v. split_and!; [done|done|].
  destruct (so_delayed _ _ _ Hok) as [_ Hs]. rewrite E in Hs. apply Sorted.StronglySorted_inv in Hs as [_ Hle].
  intros q [-> |Hq]%elem_of_cons; [by exists v|].
  assert (Hq' : q ∈ contents G (pxDelayedTaskList k)) by (rewrite E; by right).
  destruct (value_of _ _ _ Hok _ _ Hq') as (w & Ew & _). exists w. split; [done|].
  rewrite Forall_forall in Hle. by apply (Hle q Hq).
Qed.

Lemma delayed_kernel_list e G k : sched_but e G k ->
  kernel_list (pxDelayedTaskList k) /\ kernel_list (pxOverflowDelayedTaskList k) /\
  (forall pr, Ready pr <> pxDelayedTaskList k /\ Ready pr <> pxOverflowDelayedTaskList k) /\
  pxDelayedTaskList k <> pxOverflowDelayedTaskList k.
Proof. intros Hok. by destruct (so_ids _ _ _ Hok) as [[-> ->]|[-> ->]]. Qed.

Lemma delayed_state e G k p : sched_but e G k -> p ∈ contents G (pxDelayedTaskList k) ->
  exists t c, p = StateItem t /\ tcbs k !! t = Some c.
Proof.
  intros Hok Hp%(so_fits _ _ _ Hok). destruct (so_ids _ _ _ Hok) as [[E _]|[E _]]; rewrite E in Hp;
  destruct p; cbn in Hp; try done; destruct Hp as [c ?]; eauto.
Qed.

(** The next unblock time: that of the first delayed task. *)
Definition first_wake (G : listing) (k : kernel) : Z :=
  match contents G (pxDelayedTaskList k) with
  | p :: _ => default portMAX_DELAY (value k p)
  | [] => portMAX_DELAY
  end.

Lemma reset_unblock_run {B} e G k (f : unit -> KM B) :
  sched_but e G k ->
  (prvResetNextTaskUnblockTime ≫= f) k = f tt (set_unblock (first_wake G k) k) /\
  sched_but e G (set_unblock (first_wake G k) k).
Proof.
  intros Hok. destruct (delayed_kernel_list _ _ _ Hok) as (Hk & _).
  unfold prvResetNextTaskUnblockTime, first_wake. rewrite bind_assoc, bind_get, bind_assoc.
  rewrite (list_empty_ok _ _ _ Hok) by done.
  destruct (contents G (pxDelayedTaskList k)) as [|p xs] eqn:E; cbn [bool_decide].
  - rewrite bool_decide_true by done. rewrite bind_modify. split; [done|].
    apply set_unblock_ok; [done|done|]. rewrite E. intros p Hp. by apply elem_of_nil in Hp.
  - rewrite bool_decide_false by done.
    destruct (delayed_state _ _ _ p Hok) as (t & c & -> & Ec); [rewrite E; left|].
    destruct (head_least _ _ _ _ _ Hok E) as (v & Ev & Uv & Hv).
    rewrite bind_assoc, (head_entry_ok _ _ _ Hok _ _ _ _ _ E eq_refl), bind_assoc.
    rewrite (value_run _ _ v) by done. rewrite bind_modify, Ev. split; [done|].
    apply set_unblock_ok; [done|done|]. by rewrite E.
Qed.

(** *** Setting the value of an item that is on no list *)
Record valued (p : node) (v : Z) (k k' : kernel) : Prop := {
  va_same : same_tasks k k';
  va_cont : forall q, cont k' q = cont k q;
  va_value : forall q, value k' q = if decide (p = q) then Some v else value k q;
  va_yield : xYieldPending k' = xYieldPending k;
  va_unblock : xNextTaskUnblockTime k' = xNextTaskUnblockTime k
}.

Lemma value_lists_ok G (s : lstore node list_id Z) p v :
  lists_ok ListEnd G s -> is_Some (items s !! p) ->
  lists_ok ListEnd G (LStore (alter (with_value v) p (links s)) (items s) (lists s)).
Proof.
  intros Hok Hp. pose proof Hok as [H1 H2 H3 H4 H5]. constructor; cbn [links items lists]; try done.
  - intros l i xs Hl. destruct (H1 l i xs Hl) as [Hc Hr]. split; [done|].
    apply (ring_frame ListEnd (links s)); [| |exact Hr].
    + intros q _. by autorewrite with rt_links.
    + rewrite vl_value by by apply H5. rewrite decide_False; [done|]. intros ->.
      rewrite H4 in Hp. by destruct Hp.
  - intros q Hq. apply alter_is_Some. by apply H5.
Qed.

Lemma sched_value e G k k' p :
  sched_but e G k -> lists_ok ListEnd G (store k') -> items (store k') = items (store k) ->
  (forall q, q <> p -> value k' q = value k q) -> (exists v, value k' p = Some v /\ is_u32 v) ->
  tcbs k' = tcbs k -> pxDelayedTaskList k' = pxDelayedTaskList k ->
  pxOverflowDelayedTaskList k' = pxOverflowDelayedTaskList k -> xTickCount k' = xTickCount k ->
  xNextTaskUnblockTime k' = xNextTaskUnblockTime k -> uxTopReadyPriority k' = uxTopReadyPriority k ->
  p ∉ contents G (pxDelayedTaskList k) -> p ∉ contents G (pxOverflowDelayedTaskList k) ->
  sched_but e G k'.
Proof.
  intros Hok Hl Ei Hv (v & Ev & Uv) Et Ed Eo Ek En Etop Hpd Hpo.
  pose proof Hok as [_ ? Hf Htk ? ? ? ? ? [D1 D2] [O1 O2]].
  assert (Hne : forall l q, p ∉ contents G l -> q ∈ contents G l -> q <> p) by (intros l q ? ? ->; done).
  constructor; rewrite ?Et, ?Ed, ?Eo, ?Ek, ?En, ?Etop; try done.
  - intros l q Hq. unfold fits. rewrite Et. by apply Hf.
  - intros t c Ec. apply (task_ok_frame (store k) _ _ c); [by left| | |by apply Htk].
    + intros q. by rewrite Ei.
    + intros q w Hq E U. destruct (decide (q = p)) as [->|Hqp]; [by exists v|].
      exists w. split; [|done]. rewrite <- E. by apply Hv.
  - split.
    + rewrite Forall_forall in *. intros q Hq.
      apply (due_after_frame k); [apply Hv; by apply (Hne _ _ Hpd)|lia|by apply D1].
    + apply (sorted_by_ext ListEnd (value k)); [|done]. intros q Hq. apply Hv. by apply (Hne _ _ Hpd).
  - split.
    + rewrite Forall_forall in *. intros q Hq.
      apply (due_after_wrap_frame k); [apply Hv; by apply (Hne _ _ Hpo)|done|by apply O1].
    + apply (sorted_by_ext ListEnd (value k)); [|done]. intros q Hq. apply Hv. by apply (Hne _ _ Hpo).
Qed.

Lemma set_value_run {B} e G k t c p v (f : unit -> KM B) :
  sched_but e G k -> tcbs k !! t = Some c -> task_of p = Some t -> is_u32 v ->
  p ∉ contents G (pxDelayedTaskList k) -> p ∉ contents G (pxOverflowDelayedTaskList k) ->
  exists k', (on_lists (st_value p v) ≫= f) k = f tt k' /\ sched_but e G k' /\ valued p v k k' /\
    uxTopReadyPriority k' = uxTopReadyPriority k.
Proof.
  intros Hok Ec Ht Hv Hpd Hpo. pose proof (cont_item _ _ _ _ _ _ Hok Ec Ht) as Eit.
  assert (His : is_Some (items (store k) !! p)) by (rewrite Eit; by eexists).
  pose proof (lo_dom _ _ _ (so_lists _ _ _ Hok) _ His) as [x Ex].
  set (s' := LStore (alter (with_value v) p (links (store k))) (items (store k)) (lists (store k))).
  exists (set_store s' k). split.
  { apply on_lists_run. unfold st_value, st_link. by rewrite Ex. }
  assert (Hval : forall q, vl (links s') q = if decide (p = q) then Some v else value k q)
    by (intros q; cbn [s' links]; rewrite vl_value; [done|by eexists]).
  split; [|split; [constructor; done|done]].
  apply (sched_value e G k _ p); try done.
  - by apply value_lists_ok; [apply (so_lists _ _ _ Hok)|].
  - intros q Hq. unfold value. cbn [set_store store]. rewrite Hval. by rewrite decide_False.
  - exists v. split; [|done]. unfold value. cbn [set_store store]. rewrite Hval. by rewrite decide_True.
Qed.

(** *** Putting an item in its place *)
Lemma put_in_order_in (val : node -> option Z) v p q xs :
  q ∈ insert_value val v p xs <-> q = p \/ q ∈ xs.
Proof.
  induction xs as [|x xs IH]; cbn; [rewrite list_elem_of_singleton, elem_of_nil; tauto|].
  destruct (from_option (fun w => w <=? v) false (val x)); rewrite !elem_of_cons; [rewrite IH|]; tauto.
Qed.

Lemma put_order_run e G k l t p v n :
  sched_but e G k -> is_Some (G !! l) -> items (store k) !! p = Some (ListItem t None) ->
  value k p = Some v -> is_u32 v -> fits k l p -> (forall pr, l <> Ready pr) ->
  (l = pxDelayedTaskList k -> h < v /\ n <= v) ->
  (l = pxOverflowDelayedTaskList k -> v < xTickCount k) ->
  is_u32 n -> n <= xNextTaskUnblockTime k ->
  exists s', vListInsert ListEnd l p (store k) = Ok tt s' /\
    sched_but e (put_in_order (value k) v G l p) (set_unblock n (set_store s' k)) /\
    items s' = alter (with_container (Some l)) p (items (store k)) /\ (forall q, vl (links s') q = value k q).
Proof.
  intros Hok [[i xs] Ei] Hit Ev Uv Hf Hr Hd Ho Un Hn.
  assert (Exs : contents G l = xs) by by eapply contents_get.
  destruct (vListInsert_run ListEnd G (store k) l i xs p t v (so_lists _ _ _ Hok) Ei Hit Ev) as (s' & E & Hl' & Ei' & Hv').
  { unfold is_u32 in Uv. unfold portMAX_DELAY. lia. }
  { rewrite <- Exs. apply (values_at_most _ _ _ Hok). }
  exists s'. split_and!; [done| |done|done]. unfold put_in_order. rewrite Ei.
  assert (Hsort : sorted_by (value k) xs -> sorted_by (value k) (insert_value (value k) v p xs)).
  { intros Hs. destruct (insert_value_sorted ListEnd (value k) v p xs Hs Ev) as (a & b & _ & -> & _ & _ & ?); [|done].
    intros q Hq. rewrite <- Exs in Hq. destruct (value_of _ _ _ Hok _ _ Hq) as (w & -> & _). by eexists. }
  apply (sched_update e _ G k); try done.
  - intros q. cbn [set_unblock set_store store]. rewrite Ei'. apply owner_container.
  - apply (so_top _ _ _ Hok).
  - intros q [-> |Hq]%put_in_order_in; [by right|left; by rewrite Exs].
  - intros pr Hpr. pose proof (so_bits _ _ _ Hok pr Hpr) as Hb. unfold bit_ok in *.
    by rewrite nonempty_insert_ne by apply Hr.
  - intros ->. destruct (so_delayed _ _ _ Hok) as [D1 D2]. rewrite Exs in D1, D2. split; [|by apply Hsort].
    rewrite Forall_forall in *. intros q [-> |Hq]%put_in_order_in.
    + destruct (Hd eq_refl). exists v. split; [|done]. unfold value. cbn. by rewrite Hv'.
    + apply (due_after_frame k); [apply Hv'|done|by apply D1].
  - intros ->. destruct (so_overflow _ _ _ Hok) as [D1 D2]. rewrite Exs in D1, D2. split; [|by apply Hsort].
    rewrite Forall_forall in *. intros q [-> |Hq]%put_in_order_in.
    + exists v. split; [|by apply Ho]. unfold value. cbn. by rewrite Hv'.
    + apply (due_after_wrap_frame k); [apply Hv'|done|by apply D1].
Qed.

(** *** Blocking the running task *)

(** Off its ready list, the bit cleared when it was the only one. *)
Definition unready (t : Z) : KM unit :=
  n ← on_lists (uxListRemove (StateItem t));
  when (n =? 0) (c ← ld_tcb t; portRESET_READY_PRIORITY (uxPriority c)).

Lemma unready_run {B} G k t c (f : unit -> KM B) :
  sched_ok G k -> tcbs k !! t = Some c -> cont k (StateItem t) = Some (Ready (uxPriority c)) ->
  exists k', (unready t ≫= f) k = f tt k' /\
    sched_ok (taken G (Ready (uxPriority c)) (StateItem t)) k' /\ moved (StateItem t) None k k'.
Proof.
  intros Hok Ec Hc. pose proof (so_tasks _ _ _ Hok _ _ Ec) as [_ Hpr _ _].
  apply (cont_in _ _ _ _ _ Hok) in Hc as Hin. unfold unready. rewrite bind_assoc.
  match goal with |- context [on_lists _ ≫= ?g] =>
    destruct (take_run None G k (Ready (uxPriority c)) (StateItem t) g Hok Hin) as (k1 & -> & Hok1 & Hm & _); [by left|]
  end. cbn [except] in Hok1.
  assert (Ec1 : tcbs k1 !! t = Some c) by by rewrite (st_tcbs _ _ (mv_same _ _ _ _ Hm)).
  destruct (contents_in _ _ _ Hin) as [i Ei].
  assert (Econt : contents (taken G (Ready (uxPriority c)) (StateItem t)) (Ready (uxPriority c)) =
    remove_item (StateItem t) (contents G (Ready (uxPriority c))))
    by (unfold taken; rewrite Ei, contents_insert, decide_True; done).
  destruct (remove_item (StateItem t) (contents G (Ready (uxPriority c)))) as [|q xs] eqn:Er.
  - change (Z.of_nat (length (@nil node)) =? 0) with true. cbn [when]. rewrite bind_assoc, (ld_tcb_run _ _ _ _ Ec1), reset_run.
    exists (cleared (uxPriority c) k1). split; [done|]. split; [by eapply reset_ok; [|by right|..]|].
    destruct Hm as [[] ? ? ? ?]. by constructor.
  - destruct (Z.eqb_spec (Z.of_nat (length (q :: xs))) 0) as [E|_]; [cbn [length] in E; lia|]. cbn [when]. rewrite bind_ret.
    exists k1. split; [done|]. split; [|done]. apply (sched_but_nonempty (uxPriority c)); [done|].
    unfold nonempty. by rewrite Econt.
Qed.

(** The list a task waits on for [n] ticks, and the time it wakes. *)
Definition wake_time (k : kernel) (n : Z) : Z := add32 (xTickCount k) n.
Definition wait_list (k : kernel) (n : Z) : list_id :=
  if wake_time k n <? xTickCount k then pxOverflowDelayedTaskList k else pxDelayedTaskList k.

Lemma wake_time_ne k n : is_u32 (xTickCount k) -> 0 < n < 2 ^ 32 -> wake_time k n <> xTickCount k.
Proof.
  unfold is_u32, wake_time, add32, u32. intros Hk Hn E.
  pose proof (Z.div_mod (xTickCount k + n) (2 ^ 32)). rewrite E in H.
  assert ((xTickCount k + n) / 2 ^ 32 = 0 \/ (xTickCount k + n) / 2 ^ 32 = 1) as [Hq|Hq]; [|lia..].
  assert (0 <= (xTickCount k + n) / 2 ^ 32 < 2); [|lia].
  split; [apply Z.div_pos; lia|apply Z.div_lt_upper_bound; lia].
Qed.

(** What blocking the running task does. *)
Record blocked (p : node) (l : list_id) (k k' : kernel) : Prop := {
  bl_same : same_tasks k k';
  bl_cont : forall q, cont k' q = if decide (p = q) then Some l else cont k q;
  bl_other : forall q, q <> p -> value k' q = value k q;
  bl_yield : xYieldPending k' = xYieldPending k
}.

Definition indefinitely (n b : Z) : bool := (n =? portMAX_DELAY) && negb (b =? pdFALSE).
Definition block_list (k : kernel) (n b : Z) : list_id :=
  if indefinitely n b then xSuspendedTaskList else wait_list k n.

Lemma wake_time_cases k n :
  is_u32 (xTickCount k) -> 0 < n < 2 ^ 32 ->
  is_u32 (wake_time k n) /\
  (wait_list k n = pxOverflowDelayedTaskList k /\ wake_time k n < xTickCount k \/
   wait_list k n = pxDelayedTaskList k /\ xTickCount k < wake_time k n).
Proof.
  intros Hk Hn. pose proof (wake_time_ne _ _ Hk Hn) as Hne. split; [apply u32_is_u32|].
  unfold wait_list. destruct (Z.ltb_spec (wake_time k n) (xTickCount k)); [by left|right]. split; [done|lia].
Qed.

(** The list insertion and the update of the next unblock time. *)
Lemma wait_run {B} G k t c n (f : unit -> KM B) :
  sched_ok G k -> h = xTickCount k -> tcbs k !! t = Some c -> cont k (StateItem t) = None ->
  0 < n < 2 ^ 32 -> value k (StateItem t) = Some (wake_time k n) ->
  exists k' G',
    ((if wake_time k n <? xTickCount k then
       on_lists (vListInsert ListEnd (pxOverflowDelayedTaskList k) (StateItem t))
     else
       on_lists (vListInsert ListEnd (pxDelayedTaskList k) (StateItem t)) ;;
       k' ← get; when (wake_time k n <? xNextTaskUnblockTime k') (modify (set_unblock (wake_time k n)))) ≫= f) k =
    f tt k' /\ sched_ok G' k' /\ blocked (StateItem t) (wait_list k n) k k' /\
    (forall q, value k' q = value k q).
Proof.
  intros Hok Hh Ec Hc Hn Hv. destruct (so_ticks _ _ _ Hok) as [Uk Un].
  destruct (wake_time_cases _ _ Uk Hn) as [Uw Hcase]. pose proof (delayed_kernel_list _ _ _ Hok) as (K1 & K2 & Hr & Hne).
  pose proof (cont_item _ _ _ _ _ (StateItem t) Hok Ec eq_refl) as Eit. rewrite Hc in Eit.
  assert (Hfit : fits k (wait_list k n) (StateItem t)).
  { unfold wait_list. case_match; destruct (so_ids _ _ _ Hok) as [[Ed Eo]|[Ed Eo]]; rewrite ?Ed, ?Eo; by eexists. }
  unfold wait_list in *. destruct (Z.ltb_spec (wake_time k n) (xTickCount k)) as [Hlt|Hge].
  - destruct (put_order_run None G k (pxOverflowDelayedTaskList k) t (StateItem t) (wake_time k n)
      (xNextTaskUnblockTime k) Hok) as (s' & E & Hok' & Ei & Hv'); try done; [by apply (so_dom _ _ _ Hok)|..].
    + intros pr. apply not_eq_sym, Hr.
    + exists (set_store s' k). eexists. split; [by apply on_lists_run|].
      split; [by destruct k|]. split; [|done]. constructor; try done; [|intros q _; apply Hv'].
      intros q. apply cont_alter; [done|by eexists].
  - destruct Hcase as [[? ?]|[_ Hgt]]; [lia|].
    destruct (put_order_run None G k (pxDelayedTaskList k) t (StateItem t) (wake_time k n)
      (Z.min (wake_time k n) (xNextTaskUnblockTime k)) Hok) as (s' & E & Hok' & Ei & Hv');
      try done; [by apply (so_dom _ _ _ Hok)|..].
    + intros pr. apply not_eq_sym, Hr.
    + lia.
    + unfold is_u32 in *. lia.
    + lia.
    + exists (set_unblock (Z.min (wake_time k n) (xNextTaskUnblockTime k)) (set_store s' k)). eexists.
      split; [|split; [exact Hok'|]].
      * rewrite bind_assoc, (on_lists_run _ _ _ _ _ E), bind_assoc, bind_get.
        cbn [set_store xNextTaskUnblockTime].
        destruct (Z.ltb_spec (wake_time k n) (xNextTaskUnblockTime k)); cbn [when].
        -- rewrite bind_modify. by rewrite Z.min_l by lia.
        -- rewrite bind_ret, Z.min_r by lia. by destruct k.
      * split; [|done]. constructor; try done; [|intros q _; apply Hv']. intros q.
        apply (cont_alter (Some (pxDelayedTaskList k)) (StateItem t) q k); [done|by eexists].
Qed.

Lemma block_current_run {B} G k c n b (f : unit -> KM B) :
  sched_ok G k -> h = xTickCount k -> tcbs k !! pxCurrentTCB k = Some c ->
  cont k (StateItem (pxCurrentTCB k)) = Some (Ready (uxPriority c)) -> 0 < n < 2 ^ 32 ->
  exists k' G', (prvAddCurrentTaskToDelayedList n b ≫= f) k = f tt k' /\ sched_ok G' k' /\
    blocked (StateItem (pxCurrentTCB k)) (block_list k n b) k k' /\
    (indefinitely n b = false -> value k' (StateItem (pxCurrentTCB k)) = Some (wake_time k n)).
Proof.
  intros Hok Hh Ec Hc Hn. set (t := pxCurrentTCB k) in *.
  unfold prvAddCurrentTaskToDelayedList. rewrite bind_assoc, bind_get. fold t.
  set (rest := fun _ : unit => if (n =? portMAX_DELAY) && negb (b =? pdFALSE) then _ else _).
  assert (Hrun : forall g k0, ((on_lists (uxListRemove (StateItem t)) ≫= (fun m =>
    when (m =? 0) (c0 ← ld_tcb t; portRESET_READY_PRIORITY (uxPriority c0)) ≫= rest)) ≫= (g : unit -> KM B)) k0 =
    (unready t ≫= fun u => rest u ≫= g) k0).
  { intros g k0. unfold unready. rewrite !bind_assoc. apply bind_ext. intros m k2. apply bind_assoc. }
  rewrite Hrun. clear Hrun.
  destruct (unready_run G k t c (fun u => rest u ≫= f) Hok Ec Hc) as (k1 & -> & Hok1 & Hm).
  destruct Hm as [Hs Hcont Hval Hy Hu]. destruct Hs as [S1 S2 S3 S4 S5 S6 S7 S8 S9 S10].
  assert (Ec1 : tcbs k1 !! t = Some c) by by rewrite S1.
  assert (Hc1 : cont k1 (StateItem t) = None) by (rewrite Hcont; by rewrite decide_True).
  assert (Hout : forall l, StateItem t ∉ contents (taken G (Ready (uxPriority c)) (StateItem t)) l).
  { intros l Hin. apply (cont_in _ _ _ _ _ Hok1) in Hin. congruence. }
  unfold rest, block_list. fold (indefinitely n b). destruct (indefinitely n b).
  - destruct (put_run None _ k1 xSuspendedTaskList t (StateItem t) f Hok1) as (k2 & -> & Hok2 & Hm2); try done.
    + by apply (so_dom _ _ _ Hok1).
    + by eexists.
    + by destruct (so_ids _ _ _ Hok1) as [[-> _]|[-> _]].
    + by destruct (so_ids _ _ _ Hok1) as [[_ ->]|[_ ->]].
    + exists k2. eexists. split; [done|]. split; [exact Hok2|]. split; [|done].
      destruct Hm2 as [Hs2 Hcont2 Hval2 Hy2 Hu2]. constructor.
      * eapply same_tasks_trans; [|exact Hs2]. by constructor.
      * intros q. rewrite Hcont2. destruct (decide _) as [|Hne]; [done|]. rewrite Hcont. by rewrite decide_False.
      * intros q Hq. rewrite Hval2. apply Hval.
      * congruence.
  - fold (wake_time k n). rewrite bind_assoc.
    match goal with |- context [on_lists _ ≫= ?g] =>
      destruct (set_value_run None _ k1 t c (StateItem t) (wake_time k n) g Hok1) as (k2 & -> & Hok2 & Hva & _);
        [done|done|apply u32_is_u32|apply Hout|apply Hout|]
    end.
    destruct Hva as [Hs2 Hcont2 Hval2 Hy2 Hu2]. destruct Hs2 as [R1 R2 R3 R4 R5 R6 R7 R8 R9 R10].
    assert (Ew : wake_time k2 n = wake_time k n) by (unfold wake_time; congruence).
    assert (El : wait_list k2 n = wait_list k n) by (unfold wait_list; by rewrite Ew, R6, S6, R5, S5, R4, S4).
    destruct (wait_run _ k2 t c n f Hok2) as (k3 & G3 & Hrun & Hok3 & Hb & Hval3); try done.
    { congruence. } { congruence. } { by rewrite Hcont2. } { rewrite Hval2, decide_True by done. by rewrite Ew. }
    exists k3, G3. split.
    { rewrite <- Hrun. rewrite Ew. by rewrite R6, S6, R5, S5, R4, S4. }
    split; [done|]. destruct Hb as [Hs3 Hcont3 Hother Hy3]. split.
    + constructor.
      * eapply same_tasks_trans; [|exact Hs3]. eapply (same_tasks_trans _ k1); by constructor.
      * intros q. rewrite Hcont3, El. destruct (decide _); [done|]. rewrite Hcont2, Hcont. by rewrite decide_False.
      * intros q Hq. rewrite Hval3, Hval2, decide_False by congruence. apply Hval.
      * congruence.
    + intros _. by rewrite Hval3, Hval2, decide_True.
Qed.

End horizon.

(** The invariant between two steps of the kernel. *)
Definition sched_ok (G : listing) (k : kernel) : Prop := sched_but (xTickCount k) None G k.
