(* ===== verification/RtTick.v ===== *)
(** * FreeRTOS: ticks, delays and context switches

    What the tick interrupt, [vTaskSwitchContext], [vTaskDelay] and the steps
    of [vTaskSuspend] do to the lists and to the invariant of [RtSched], the
    wrap-around of the tick counter included. *)
From S2P Require Import Prelude.
From S2P Require Import RtList.
From S2P Require Import RtRings.
From S2P Require Import RtTasks.
From S2P Require Import RtSched.

Local Open Scope Z_scope.

(** ** The tick *)

(** The time a task waits for is [now]. *)
Definition due (k : kernel) (now t : Z) : bool :=
  bool_decide (cont k (StateItem t) = Some (pxDelayedTaskList k)) &&
  bool_decide (value k (StateItem t) = Some now).

(** The due tasks are ready and wait for nothing; the others are where they
    were. *)
Record woken (now : Z) (k k' : kernel) : Prop := {
  wk_same : same_tasks k k';
  wk_value : forall q, value k' q = value k q;
  wk_yield : xYieldPending k' = xYieldPending k;
  wk_state : forall t c, tcbs k !! t = Some c ->
    cont k' (StateItem t) = if due k now t then Some (Ready (uxPriority c)) else cont k (StateItem t);
  wk_event : forall t c, tcbs k !! t = Some c ->
    cont k' (EventItem t) = if due k now t then None else cont k (EventItem t)
}.

Lemma woken_refl now k : (forall t, due k now t = false) -> woken now k k.
Proof. intros Hd. constructor; try done; intros t c _; by rewrite Hd. Qed.

Lemma moved_same p c k k' : moved p c k k' -> same_tasks k k'.
Proof. by intros []. Qed.

Section tick.
Variable h : Z.

(** A due task leaves the delayed list and the list of its event. *)
Lemma wake_one_run {B} G k t c xs (f : unit -> KM B) :
  sched_but h None G k -> tcbs k !! t = Some c ->
  contents G (pxDelayedTaskList k) = StateItem t :: xs ->
  exists k' G',
    (unblock_task t ≫= f) k = f tt k' /\
    sched_but h None G' k' /\ contents G' (pxDelayedTaskList k') = xs /\
    same_tasks k k' /\ (forall q, value k' q = value k q) /\ xYieldPending k' = xYieldPending k /\
    (forall q, cont k' q = if decide (q = StateItem t) then Some (Ready (uxPriority c))
                           else if decide (q = EventItem t) then None else cont k q).
Proof.
  intros Hok Ec Exs. set (D := pxDelayedTaskList k) in *.
  assert (Hin : StateItem t ∈ contents G D) by (rewrite Exs; left).
  pose proof (ring_nodup_contents _ _ _ _ Hok D) as Hnd. rewrite Exs in Hnd. apply NoDup_cons in Hnd as [Hnt _].
  destruct (delayed_kernel_list _ _ _ _ Hok) as (_ & _ & Hr & _). fold D in Hr.
  unfold unblock_task. rewrite bind_assoc.
  match goal with |- context [on_lists _ ≫= ?g] =>
    destruct (take_run h None G k D (StateItem t) g Hok Hin) as (k1 & -> & Hok1 & M1 & _); [by left|] end.
  assert (He : except None D = None) by (destruct (so_ids _ _ _ _ Hok) as [[E _]|[E _]]; unfold D; by rewrite E).
  rewrite He in Hok1. set (G1 := taken G D (StateItem t)) in *.
  assert (E1 : contents G1 D = xs).
  { destruct (contents_in _ _ _ Hin) as [i Ei]. unfold G1, taken. rewrite Ei, contents_insert, decide_True by done.
    rewrite Exs. apply (remove_item_split ListEnd (StateItem t) [] xs); [by apply not_elem_of_nil|done]. }
  pose proof (st_tcbs _ _ (moved_same _ _ _ _ M1)) as T1.
  assert (Ec1 : tcbs k1 !! t = Some c) by by rewrite T1.
  rewrite bind_assoc, (container_run k1 (EventItem t) t (cont k1 (EventItem t))) by by eapply cont_item.
  assert (exists k2 G2, (when (negb (bool_decide (cont k1 (EventItem t) = None)))
      (on_lists (uxListRemove (EventItem t)) ;; mret tt) ≫= fun _ => prvAddTaskToReadyList t ≫= f) k1 =
      (prvAddTaskToReadyList t ≫= f) k2 /\ sched_but h None G2 k2 /\ contents G2 D = xs /\
      moved (EventItem t) None k1 k2) as (k2 & G2 & Hrun2 & Hok2 & E2 & M2).
  { destruct (cont k1 (EventItem t)) as [l|] eqn:El.
    - rewrite bool_decide_false by done. cbn [negb when]. rewrite bind_assoc.
      apply (cont_in _ _ _ _ _ _ Hok1) in El as Hel. pose proof (so_fits _ _ _ _ Hok1 _ _ Hel) as Hf.
      assert (Hl : except None l = None /\ l <> D).
      { destruct l; cbn in Hf; try done; split; try done; destruct (so_ids _ _ _ _ Hok) as [[E _]|[E _]]; unfold D; by rewrite E. }
      match goal with |- context [on_lists _ ≫= ?g] =>
        destruct (take_run h None G1 k1 l (EventItem t) g Hok1 Hel) as (k2 & -> & Hok2 & M2 & _); [by left|] end.
      destruct Hl as [Hl1 Hl2]. rewrite Hl1 in Hok2.
      exists k2, (taken G1 l (EventItem t)). split; [by rewrite bind_ret|]. split; [done|]. split; [|done].
      unfold taken. destruct (contents_in _ _ _ Hel) as [i ->]. by rewrite contents_insert, decide_False.
    - rewrite bool_decide_true by done. cbn [negb when]. rewrite bind_ret. exists k1, G1.
      split_and!; try done. constructor; try done. intros q. by destruct (decide (EventItem t = q)) as [<-|]. }
  rewrite bind_assoc, Hrun2. clear Hrun2.
  pose proof (st_tcbs _ _ (moved_same _ _ _ _ M2)) as T2.
  destruct (add_ready_run h None G2 k2 t c f Hok2) as (k3 & -> & Hok3 & M3).
  { by rewrite T2. } { rewrite (mv_cont _ _ _ _ M2), decide_False by done. rewrite (mv_cont _ _ _ _ M1). by rewrite decide_True. }
  { by left. }
  exists k3. eexists. split; [done|]. split; [exact Hok3|].
  pose proof (same_tasks_trans _ _ _ (moved_same _ _ _ _ M1) (same_tasks_trans _ _ _ (moved_same _ _ _ _ M2) (moved_same _ _ _ _ M3))) as Hs.
  split_and!.
  - rewrite (st_delayed _ _ Hs). fold D. unfold put_end.
    destruct (G2 !! Ready (uxPriority c)) as [[i ys]|]; [|done].
    by rewrite contents_insert, decide_False by apply Hr.
  - done.
  - intros q. by rewrite (mv_value _ _ _ _ M3), (mv_value _ _ _ _ M2), (mv_value _ _ _ _ M1).
  - by rewrite (mv_yield _ _ _ _ M3), (mv_yield _ _ _ _ M2), (mv_yield _ _ _ _ M1).
  - intros q. rewrite (mv_cont _ _ _ _ M3), (mv_cont _ _ _ _ M2), (mv_cont _ _ _ _ M1).
    repeat case_decide; congruence.
Qed.
End tick.

(** A due task has at least the priority of the running one. *)
Definition preempts (k : kernel) (now : Z) (cur : TCB_t) : Prop :=
  exists t c, tcbs k !! t = Some c /\ due k now t = true /\ uxPriority cur <= uxPriority c.

Definition is_bool (z : Z) : Prop := z = pdTRUE \/ z = pdFALSE.

(** The invariant with the next task due no earlier. *)
Lemma later_ok G k v :
  sched_but (xTickCount k - 1) None G k -> is_u32 v ->
  (forall p, p ∈ contents G (pxDelayedTaskList k) -> exists w, value k p = Some w /\ xTickCount k < w /\ v <= w) ->
  sched_ok G (set_unblock v k).
Proof.
  intros [? ? ? ? ? ? ? ? [? _] [D1 D2] ?] Hv Hmin. constructor; try done.
  split; [|done]. cbn [set_unblock pxDelayedTaskList]. rewrite Forall_forall in *. exact Hmin.
Qed.

Lemma unblock_run {B} (f : Z -> KM B) now cur : forall fuel G k r,
  sched_but (xTickCount k - 1) None G k -> xTickCount k = now ->
  tcbs k !! pxCurrentTCB k = Some cur -> (length (contents G (pxDelayedTaskList k)) < fuel)%nat -> is_bool r ->
  exists r' k' G', (unblock_tasks fuel now r ≫= f) k = f r' k' /\ sched_ok G' k' /\ woken now k k' /\
    is_bool r' /\ (r' = pdTRUE <-> r = pdTRUE \/ preempts k now cur).
Proof.
  induction fuel as [|fuel IH]; intros G k r Hok Hnow Hcur Hf Hr; [lia|].
  destruct (delayed_kernel_list _ _ _ _ Hok) as (K1 & _ & _ & _).
  cbn [unblock_tasks]. rewrite bind_assoc, bind_get, bind_assoc, (list_empty_ok _ _ _ _ Hok) by done.
  destruct (contents G (pxDelayedTaskList k)) as [|p xs] eqn:Exs.
  - rewrite bool_decide_true by done. rewrite bind_assoc, bind_modify, bind_ret.
    assert (Hd : forall t, due k now t = false).
    { intros t. unfold due. apply andb_false_iff. left. apply bool_decide_eq_false. intros Hc.
      apply (cont_in _ _ _ _ _ _ Hok) in Hc. rewrite Exs in Hc. by apply elem_of_nil in Hc. }
    exists r. eexists. exists G. split; [done|]. split.
    + apply later_ok; [done|done|]. rewrite Exs. intros q Hq. by apply elem_of_nil in Hq.
    + split; [constructor; try done; intros t c _; by rewrite Hd|]. split; [done|].
      split; [by left|]. intros [?|(t & c & _ & E & _)]; [done|]. by rewrite Hd in E.
  - rewrite bool_decide_false by done.
    destruct (delayed_state _ _ _ _ p Hok) as (t & c & -> & Ec); [rewrite Exs; left|].
    destruct (head_least _ _ _ _ _ _ Hok Exs) as (v & Ev & Uv & Hmin).
    destruct (so_delayed _ _ _ _ Hok) as [D1 _]. rewrite Exs, Forall_forall in D1.
    rewrite bind_assoc, (head_entry_ok _ _ _ _ Hok _ _ _ _ _ Exs eq_refl), bind_assoc.
    rewrite (value_run _ _ v) by done.
    destruct (Z.ltb_spec now v) as [Hlt|Hge].
    + rewrite bind_assoc, bind_modify, bind_ret.
      assert (Hd : forall t', due k now t' = false).
      { intros t'. unfold due. apply not_true_iff_false. intros [Hc Hv]%andb_true_iff.
        apply bool_decide_eq_true in Hc, Hv. apply (cont_in _ _ _ _ _ _ Hok) in Hc. rewrite Exs in Hc.
        destruct (Hmin _ Hc) as (w & Ew & ?). rewrite Hv in Ew. injection Ew as <-. lia. }
      exists r. eexists. exists G. split; [done|]. split.
      * apply later_ok; [done|done|]. rewrite Exs. intros q Hq. destruct (Hmin _ Hq) as (w & Ew & ?).
        exists w. split; [done|]. lia.
      * split; [constructor; try done; intros ? ? _; by rewrite Hd|]. split; [done|].
        split; [by left|]. intros [?|(t' & c' & _ & E & _)]; [done|]. by rewrite Hd in E.
    + assert (v = now) as ->.
      { destruct (D1 (StateItem t) ltac:(left)) as (w & Ew & ? & _). rewrite Ev in Ew. injection Ew as <-. lia. }
      rewrite bind_assoc.
      match goal with |- context [unblock_task t ≫= ?g] =>
        destruct (wake_one_run _ G k t c xs g Hok Ec Exs) as (k1 & G1 & -> & Hok1 & E1 & Hs & Hval & Hy & Hcont) end.
      pose proof Hs as [S1 S2 S3 S4 S5 S6 S7 S8 S9 S10].
      rewrite bind_assoc, (ld_tcb_run t c) by by rewrite S1. rewrite bind_assoc, bind_get, bind_assoc.
      rewrite (ld_tcb_run _ cur) by by rewrite S1, S3.
      assert (Hdt : due k now t = true).
      { unfold due. apply andb_true_iff. split; apply bool_decide_eq_true; [|done].
        apply (cont_in _ _ _ _ _ _ Hok). rewrite Exs. left. }
      assert (Hd1 : due k1 now t = false).
      { unfold due. rewrite Hcont, decide_True, S4 by done. apply andb_false_iff. left.
        apply bool_decide_eq_false. intros [= E]. by destruct (so_ids _ _ _ _ Hok) as [[E' _]|[E' _]]; rewrite E' in E. }
      assert (Hdo : forall t', t' <> t -> due k1 now t' = due k now t').
      { intros t' Hne. unfold due. rewrite Hcont, Hval, S4, !decide_False by congruence. done. }
      destruct (IH G1 k1 (if uxPriority cur <=? uxPriority c then pdTRUE else r)) as (r' & k' & G' & Hrun & Hok' & Hw & Hb & Hiff).
      { by rewrite S6. } { by rewrite S6. } { by rewrite S1, S3. } { rewrite E1. cbn in Hf. lia. }
      { case_match; [by left|done]. }
      exists r', k', G'. split; [exact Hrun|]. split; [done|]. destruct Hw as [W1 W2 W3 W4 W5].
      rewrite S1 in W4, W5. split; [constructor|split; [done|]].
      * by eapply same_tasks_trans.
      * intros q. by rewrite W2.
      * congruence.
      * intros t' c' Ec'. rewrite (W4 t' c' Ec'). destruct (decide (t' = t)) as [->|Hne].
        -- rewrite Hd1, Hdt, Hcont, decide_True by done. congruence.
        -- rewrite Hdo by done. by rewrite Hcont, !decide_False by congruence.
      * intros t' c' Ec'. rewrite (W5 t' c' Ec'). destruct (decide (t' = t)) as [->|Hne].
        -- rewrite Hd1, Hdt, Hcont, decide_False by done. by rewrite decide_True.
        -- rewrite Hdo by done. by rewrite Hcont, !decide_False by congruence.
      * rewrite Hiff. unfold preempts. rewrite S1. split.
        -- intros [E|(t' & c' & Ec' & Hd & Hp)].
           ++ destruct (Z.leb_spec (uxPriority cur) (uxPriority c)); [right; by exists t, c|by left].
           ++ right. exists t', c'. split_and!; try done. rewrite <- Hdo; [done|]. intros ->. congruence.
        -- intros [E|(t' & c' & Ec' & Hd & Hp)]; [left; by case_match|].
           destruct (decide (t' = t)) as [->|Hne].
           ++ left. assert (c' = c) as -> by congruence. by rewrite (proj2 (Z.leb_le _ _) Hp).
           ++ right. exists t', c'. split_and!; try done. by rewrite Hdo.
Qed.

(** *** [xTaskIncrementTick] *)

(** A task that waits with a time-out until [now]. *)
Definition timed (k : kernel) (t : Z) : Prop :=
  cont k (StateItem t) = Some (pxDelayedTaskList k) \/ cont k (StateItem t) = Some (pxOverflowDelayedTaskList k).
Definition wakes (k : kernel) (now t : Z) : bool :=
  bool_decide (timed k t) && bool_decide (value k (StateItem t) = Some now).

Definition next_tick (k : kernel) : Z := add32 (xTickCount k) 1.

Record ticked (k k' : kernel) : Prop := {
  tk_tick : xTickCount k' = next_tick k;
  tk_tcbs : tcbs k' = tcbs k;
  tk_words : words k' = words k;
  tk_current : pxCurrentTCB k' = pxCurrentTCB k;
  tk_pended : uxPendedTicks k' = uxPendedTicks k;
  tk_suspended : uxSchedulerSuspended k' = uxSchedulerSuspended k;
  tk_overflows : xNumOfOverflows k' =
    if next_tick k =? 0 then add32 (xNumOfOverflows k) 1 else xNumOfOverflows k;
  tk_counts : uxCurrentNumberOfTasks k' = uxCurrentNumberOfTasks k /\ xSchedulerRunning k' = xSchedulerRunning k;
  tk_value : forall q, value k' q = value k q;
  tk_yield : xYieldPending k' = xYieldPending k;
  tk_state : forall t c, tcbs k !! t = Some c ->
    cont k' (StateItem t) = if wakes k (next_tick k) t then Some (Ready (uxPriority c)) else cont k (StateItem t);
  tk_event : forall t c, tcbs k !! t = Some c ->
    cont k' (EventItem t) = if wakes k (next_tick k) t then None else cont k (EventItem t)
}.

(** Up to the wake-ups: the new tick, the delayed lists exchanged when the
    counter wraps around. *)
Definition advance : KM unit :=
  k ← get; modify (set_tick (xTickCount k + 1)%word) ;;
  when ((xTickCount k + 1)%word =? 0) taskSWITCH_DELAYED_LISTS.

Record advanced (k k' : kernel) : Prop := {
  ad_tick : xTickCount k' = next_tick k;
  ad_store : store k' = store k;
  ad_tcbs : tcbs k' = tcbs k;
  ad_words : words k' = words k;
  ad_current : pxCurrentTCB k' = pxCurrentTCB k;
  ad_pended : uxPendedTicks k' = uxPendedTicks k;
  ad_suspended : uxSchedulerSuspended k' = uxSchedulerSuspended k;
  ad_counts : uxCurrentNumberOfTasks k' = uxCurrentNumberOfTasks k /\ xSchedulerRunning k' = xSchedulerRunning k;
  ad_yield : xYieldPending k' = xYieldPending k;
  ad_overflows : xNumOfOverflows k' =
    if next_tick k =? 0 then add32 (xNumOfOverflows k) 1 else xNumOfOverflows k;
  ad_due : forall t, due k' (next_tick k) t = wakes k (next_tick k) t
}.

Lemma reset_unblock_any n k k' :
  prvResetNextTaskUnblockTime (set_unblock n k) = Ok tt k' -> prvResetNextTaskUnblockTime k = Ok tt k'.
Proof.
  unfold prvResetNextTaskUnblockTime, on_lists, mbind, M_bind, get, modify.
  cbn [set_unblock store pxDelayedTaskList set_store].
  destruct (listLIST_IS_EMPTY _ _) as [b s| | |]; try done. destruct b; [done|]. cbn [set_store store].
  destruct (listGET_OWNER_OF_HEAD_ENTRY _ _ _) as [t s'| | |]; try done. cbn [set_store store].
  by destruct (ld_value _ _).
Qed.

Lemma next_tick_cases k : is_u32 (xTickCount k) ->
  next_tick k = xTickCount k + 1 /\ next_tick k <> 0 \/ next_tick k = 0 /\ xTickCount k = 2 ^ 32 - 1.
Proof.
  unfold is_u32, next_tick, add32. intros Hk. destruct (decide (xTickCount k = 2 ^ 32 - 1)) as [->|Hne].
  - right. done.
  - left. rewrite u32_small by (unfold is_u32; lia). lia.
Qed.

Lemma timed_in G k t : sched_ok G k ->
  (cont k (StateItem t) = Some (pxDelayedTaskList k) ->
   exists v, value k (StateItem t) = Some v /\ xTickCount k < v < 2 ^ 32 /\ xNextTaskUnblockTime k <= v) /\
  (cont k (StateItem t) = Some (pxOverflowDelayedTaskList k) ->
   exists v, value k (StateItem t) = Some v /\ 0 <= v < xTickCount k).
Proof.
  intros Hok. split; intros Hc; apply (cont_in _ _ _ _ _ _ Hok) in Hc;
    destruct (value_of _ _ _ _ Hok _ _ Hc) as (v & Ev & Uv); exists v; (split; [done|]).
  - destruct (so_delayed _ _ _ _ Hok) as [D _]. rewrite Forall_forall in D.
    destruct (D _ Hc) as (w & Ew & ? & ?). rewrite Ev in Ew. injection Ew as <-. unfold is_u32 in Uv. lia.
  - destruct (so_overflow _ _ _ _ Hok) as [D _]. rewrite Forall_forall in D.
    destruct (D _ Hc) as (w & Ew & ?). rewrite Ev in Ew. injection Ew as <-. unfold is_u32 in Uv. lia.
Qed.

Lemma advance_run {B} G k (f : unit -> KM B) :
  sched_ok G k ->
  exists k', (advance ≫= f) k = f tt k' /\ sched_but (xTickCount k' - 1) None G k' /\ advanced k k'.
Proof.
  intros Hok. destruct (so_ticks _ _ _ _ Hok) as [Uk Un]. unfold advance. fold (next_tick k).
  rewrite bind_assoc, bind_get, bind_assoc, bind_modify. fold (next_tick k).
  pose proof Hok as [? ? ? ? ? ? ? Hids ? [D1 D2] [O1 O2]].
  destruct (next_tick_cases k Uk) as [[Et Hne]|[Et Emax]].
  - rewrite (proj2 (Z.eqb_neq _ _) Hne). cbn [when]. rewrite bind_ret.
    exists (set_tick (next_tick k) k). split; [done|]. split.
    + rewrite Et. cbn [set_tick xTickCount]. replace (xTickCount k + 1 - 1) with (xTickCount k) by lia.
      constructor; try done.
      * split; [|done]. cbn. rewrite <- Et. apply u32_is_u32.
      * split; [|done]. rewrite Forall_forall in *. intros q Hq. destruct (O1 q Hq) as (v & Ev & ?).
        exists v. split; [done|]. cbn. lia.
    + constructor; try done; [by rewrite (proj2 (Z.eqb_neq _ _) Hne)|].
      intros t. unfold due, wakes. cbn [set_tick pxDelayedTaskList].
      destruct (timed_in G k t Hok) as [_ Ho].
      apply eq_true_iff_eq. rewrite !andb_true_iff, !bool_decide_eq_true. unfold timed. split; [tauto|].
      intros [[?|Hc] Hv]; [done|]. destruct (Ho Hc) as (v & Ev & ?). unfold value in Hv. unfold value in Ev.
      cbn in Hv, Ev. rewrite Hv in Ev. injection Ev as <-. lia.
  - rewrite Et. cbn [Z.eqb when].
    assert (HD : contents G (pxDelayedTaskList k) = []).
    { destruct (contents G (pxDelayedTaskList k)) as [|p xs] eqn:E; [done|].
      destruct (delayed_state _ _ _ _ p Hok) as (t & c & -> & _); [rewrite E; left|].
      assert (Hin : StateItem t ∈ contents G (pxDelayedTaskList k)) by (rewrite E; left).
      apply (cont_in _ _ _ _ _ _ Hok) in Hin. destruct (proj1 (timed_in _ _ t Hok) Hin) as (v & _ & ? & _). lia. }
    set (k2 := set_overflows (xNumOfOverflows k + 1)%word
      (set_overflow (pxDelayedTaskList k) (set_delayed (pxOverflowDelayedTaskList k) (set_tick 0 k)))).
    assert (Hok2 : sched_but (-1) None G (set_unblock 0 k2)).
    { constructor; try done.
      - cbn. tauto.
      - split; [|done]. cbn [k2 set_unblock set_overflows set_overflow set_delayed set_tick pxDelayedTaskList].
        rewrite Forall_forall in *. intros q Hq. destruct (O1 q Hq) as (v & Ev & _).
        destruct (value_of _ _ _ _ Hok _ _ Hq) as (w & Ew & Uw). rewrite Ev in Ew. injection Ew as <-.
        exists v. split; [done|]. unfold is_u32 in Uw. cbn. lia.
      - cbn [k2 set_unblock set_overflows set_overflow set_delayed set_tick pxOverflowDelayedTaskList].
        rewrite HD. split; constructor. }
    destruct (reset_unblock_run _ None G (set_unblock 0 k2) mret Hok2) as [Hrun Hok3].
    rewrite bind_ret_r in Hrun. apply reset_unblock_any in Hrun.
    eexists. split.
    { unfold taskSWITCH_DELAYED_LISTS. rewrite bind_assoc, bind_get, bind_assoc, bind_modify, bind_assoc, bind_modify.
      rewrite bind_assoc, bind_get, bind_assoc, bind_modify. apply (bind_ok _ _ _ _ _ Hrun). }
    split; [exact Hok3|]. constructor; try done; rewrite ?Et; try done.
    intros t. unfold due, wakes. cbn [set_unblock k2 set_overflows set_overflow set_delayed set_tick pxDelayedTaskList].
    apply eq_true_iff_eq. rewrite !andb_true_iff, !bool_decide_eq_true. unfold timed. split; [tauto|].
    intros [[Hc|?] Hv]; [|done]. apply (cont_in _ _ _ _ _ _ Hok) in Hc. rewrite HD in Hc. by apply elem_of_nil in Hc.
Qed.

(** The part of the tick after [advance]. *)
Definition wake_due (now : Z) : KM Z :=
  k ← get;
  r ← (if xNextTaskUnblockTime k <=? now then unblock_tasks (list_fuel k) now pdFALSE
       else mret pdFALSE);
  k ← get; cur ← ld_tcb (pxCurrentTCB k);
  n ← on_lists (listCURRENT_LIST_LENGTH (Ready (uxPriority cur)));
  mret (if 1 <? n then pdTRUE else r).

Lemma ring_fuel h e G k l : sched_but h e G k -> kernel_list l -> (length (contents G l) < list_fuel k)%nat.
Proof.
  intros Hok Hl. destruct (kernel_list_get _ _ _ _ Hok l Hl) as (i & xs & El & ->).
  unfold list_fuel. apply Nat.lt_succ_r. by apply (ring_size ListEnd G (store k) l i xs (so_lists _ _ _ _ Hok)).
Qed.

(** Whether the tick wants a switch. *)
Definition wants_switch (G : listing) (k : kernel) (now : Z) (cur : TCB_t) : Prop :=
  preempts k now cur \/ (1 < length (contents G (Ready (uxPriority cur))))%nat.

Lemma wake_due_run {B} G k cur (f : Z -> KM B) :
  sched_but (xTickCount k - 1) None G k -> tcbs k !! pxCurrentTCB k = Some cur ->
  exists r k' G', (wake_due (xTickCount k) ≫= f) k = f r k' /\ sched_ok G' k' /\ woken (xTickCount k) k k' /\ is_bool r /\
    (r = pdTRUE <-> wants_switch G' k (xTickCount k) cur).
Proof.
  intros Hok Hcur. destruct (delayed_kernel_list _ _ _ _ Hok) as (K1 & _).
  unfold wake_due. rewrite bind_assoc, bind_get, bind_assoc.
  set (rest := fun r : Z => _ ≫= f).
  assert (exists r k' G', ((if xNextTaskUnblockTime k <=? xTickCount k then
      unblock_tasks (list_fuel k) (xTickCount k) pdFALSE else mret pdFALSE) ≫= rest) k = rest r k' /\
    sched_ok G' k' /\ woken (xTickCount k) k k' /\ is_bool r /\ (r = pdTRUE <-> preempts k (xTickCount k) cur))
    as (r & k' & G' & -> & Hok' & Hw & Hb & Hiff).
  { destruct (Z.leb_spec (xNextTaskUnblockTime k) (xTickCount k)) as [Hle|Hgt].
    - destruct (unblock_run rest (xTickCount k) cur (list_fuel k) G k pdFALSE) as (r & k' & G' & Hrun & ? & ? & ? & Hiff);
        try done; [by eapply ring_fuel|by right|].
      exists r, k', G'. split_and!; try done. rewrite Hiff. split; [intros [?|?]; done|tauto].
    - assert (Hv : forall q, q ∈ contents G (pxDelayedTaskList k) ->
        exists v, value k q = Some v /\ xTickCount k < v /\ xNextTaskUnblockTime k <= v).
      { destruct (so_delayed _ _ _ _ Hok) as [D _]. rewrite Forall_forall in D. intros q Hq.
        destruct (D q Hq) as (v & ? & ? & ?). exists v. split; [done|lia]. }
      assert (Hd : forall t, due k (xTickCount k) t = false).
      { intros t. unfold due. apply not_true_iff_false. intros [Hc Hval]%andb_true_iff.
        apply bool_decide_eq_true in Hc, Hval. apply (cont_in _ _ _ _ _ _ Hok) in Hc.
        destruct (Hv _ Hc) as (v & Ev & ? & _). rewrite Hval in Ev. injection Ev as <-. lia. }
      exists pdFALSE, k, G. split; [done|]. split.
      + assert (E : set_unblock (xNextTaskUnblockTime k) k = k) by by destruct k. rewrite <- E.
        apply later_ok; [done|apply (so_ticks _ _ _ _ Hok)|done].
      + split; [by apply woken_refl|]. split; [by right|]. split; [done|].
        intros (t & c & _ & E & _). by rewrite Hd in E. }
  destruct Hw as [[S1 S2 S3 S4 S5 S6 S7 S8 S9 S10] W2 W3 W4 W5].
  assert (Hcur' : tcbs k' !! pxCurrentTCB k' = Some cur) by by rewrite S1, S3.
  subst rest. cbv beta. rewrite bind_assoc, bind_get, bind_assoc, (ld_tcb_run _ _ _ _ Hcur'), bind_assoc.
  assert (Hkl : kernel_list (Ready (uxPriority cur)))
    by (destruct (so_tasks _ _ _ _ Hok _ _ Hcur) as [_ Hp _ _]; exact Hp).
  rewrite (list_length_ok _ _ _ _ Hok' _ _ Hkl), bind_ret.
  eexists _, k', G'. split; [done|]. split; [done|]. split; [by constructor|]. unfold wants_switch.
  destruct (Z.ltb_spec 1 (Z.of_nat (length (contents G' (Ready (uxPriority cur)))))) as [Hlt|Hge].
  - split; [by left|]. split; [|done]. intros _. right. lia.
  - split; [done|]. rewrite Hiff. split; [tauto|]. intros [?|?]; [done|lia].
Qed.

Lemma tick_unfold {B} k (f : Z -> KM B) :
  uxSchedulerSuspended k = 0 ->
  (xTaskIncrementTick ≫= f) k =
  (advance ≫= fun _ => wake_due (next_tick k) ≫= fun r => k' ← get;
     f (if negb (xYieldPending k' =? pdFALSE) then pdTRUE else r)) k.
Proof.
  intros Hs. unfold xTaskIncrementTick, advance. rewrite !bind_assoc, !bind_get, !bind_assoc, Hs.
  cbn [Z.eqb pdFALSE]. rewrite !bind_assoc, !bind_modify, !bind_assoc. fold (next_tick k).
  apply bind_ext. intros [] k1. unfold wake_due. rewrite !bind_assoc, !bind_get, !bind_assoc.
  apply bind_ext. intros r k2. rewrite !bind_assoc, !bind_get, !bind_assoc.
  apply bind_ext. intros c k3. rewrite !bind_assoc. by apply bind_ext.
Qed.

(** The tick when the scheduler is not suspended. *)
Lemma tick_run {B} G k (cur : TCB_t) (f : Z -> KM B) :
  sched_ok G k -> uxSchedulerSuspended k = 0 -> tcbs k !! pxCurrentTCB k = Some cur ->
  exists r k' G', (xTaskIncrementTick ≫= f) k = f r k' /\ sched_ok G' k' /\ ticked k k' /\ is_bool r /\
    ((r = pdTRUE) <-> xYieldPending k <> pdFALSE \/
       (exists t c, tcbs k !! t = Some c /\ wakes k (next_tick k) t = true /\ uxPriority cur <= uxPriority c) \/
       ((1 < length (contents G' (Ready (uxPriority cur))))%nat)).
Proof.
  intros Hok Hs Hcur. rewrite (tick_unfold k f Hs).
  match goal with |- context [advance ≫= ?g] =>
    destruct (advance_run G k g Hok) as (k1 & -> & Hok1 & [A1 A2 A3 A4 A5 A6 A7 [A11 A12] A8 A9 A10]) end.
  rewrite <- A1. assert (Hcur1 : tcbs k1 !! pxCurrentTCB k1 = Some cur) by by rewrite A3, A5.
  match goal with |- context [wake_due _ ≫= ?g] =>
    destruct (wake_due_run G k1 cur g Hok1 Hcur1) as (r & k2 & G2 & -> & Hok2 & Hw & Hb & Hiff) end.
  destruct Hw as [[S1 S2 S3 S4 S5 S6 (C1 & C2 & C3 & C4) S8 S9 S10] W2 W3 W4 W5].
  rewrite bind_get. eexists _, k2, G2. split; [done|]. split; [done|].
  assert (Hcont : forall q, cont k1 q = cont k q) by (intros q; unfold cont; by rewrite A2).
  split; [|split].
  - constructor; try congruence.
    + split; congruence.
    + intros q. rewrite W2. unfold value. by rewrite A2.
    + intros t c Ec. rewrite (W4 t c) by by rewrite A3. by rewrite A1, A10, Hcont.
    + intros t c Ec. rewrite (W5 t c) by by rewrite A3. by rewrite A1, A10, Hcont.
  - destruct (negb _); [by left|done].
  - rewrite W3, A8. unfold wants_switch, preempts in Hiff.
    assert (Hp : (exists t c, tcbs k1 !! t = Some c /\ due k1 (xTickCount k1) t = true /\ uxPriority cur <= uxPriority c) <->
      (exists t c, tcbs k !! t = Some c /\ wakes k (xTickCount k1) t = true /\ uxPriority cur <= uxPriority c)).
    { rewrite A3, A1. split; intros (t & c & ? & E & ?); exists t, c; (split_and!; [done| |done]);
        [by rewrite <- A10|by rewrite A10]. }
    rewrite Hp in Hiff. unfold pdFALSE in *. destruct (Z.eqb_spec (xYieldPending k) 0) as [E|E]; cbn [negb].
    + rewrite Hiff, E. tauto.
    + tauto.
Qed.

(** ** Context switches *)
Definition stack_intact (k : kernel) (c : TCB_t) : Prop :=
  forall i, i ∈ [0; 4; 8; 12] -> words k !! (pxStack c + i) = Some ulCheckValue.

Lemma ld_word_run {B} a v (f : Z -> KM B) k : words k !! a = Some v -> (ld_word a ≫= f) k = f v k.
Proof. intros E. unfold mbind, M_bind, ld_word. by rewrite E. Qed.

Lemma stack_check_run {B} k c (f : unit -> KM B) :
  tcbs k !! pxCurrentTCB k = Some c -> stack_intact k c ->
  (taskCHECK_FOR_STACK_OVERFLOW ≫= f) k = f tt k.
Proof.
  intros Ec Hst. unfold taskCHECK_FOR_STACK_OVERFLOW. rewrite bind_assoc, bind_get, bind_assoc.
  rewrite (ld_tcb_run _ _ _ _ Ec), bind_assoc.
  assert (H0 : words k !! pxStack c = Some ulCheckValue)
    by (replace (pxStack c) with (pxStack c + 0) by lia; apply Hst; set_solver).
  rewrite (ld_word_run _ _ _ _ H0). cbn [Z.eqb ulCheckValue negb Pos.eqb]. rewrite !bind_assoc.
  rewrite (ld_word_run _ ulCheckValue) by (apply Hst; set_solver).
  cbn [Z.eqb ulCheckValue negb Pos.eqb]. rewrite !bind_assoc.
  rewrite (ld_word_run _ ulCheckValue) by (apply Hst; set_solver).
  cbn [Z.eqb ulCheckValue negb Pos.eqb]. rewrite !bind_assoc.
  rewrite (ld_word_run _ ulCheckValue) by (apply Hst; set_solver). done.
Qed.

(** The highest bit is that of the highest priority with a task. *)
Lemma top_is_highest h G k pr :
  sched_but h None G k -> 0 <= pr < configMAX_PRIORITIES -> contents G (Ready pr) <> [] ->
  (forall q, pr < q < configMAX_PRIORITIES -> contents G (Ready q) = []) ->
  uxTopReadyPriority k <> 0 /\ Z.log2 (uxTopReadyPriority k) = pr.
Proof.
  intros Hok Hpr Hne Hhigh. destruct (so_top _ _ _ _ Hok) as [T1 T2].
  assert (Hbit : forall q, 0 <= q < configMAX_PRIORITIES ->
    Z.testbit (uxTopReadyPriority k) q = nonempty G (Ready q)).
  { intros q Hq. pose proof (so_bits _ _ _ _ Hok q Hq) as Hb. unfold bit_ok in Hb. by rewrite decide_False in Hb. }
  assert (Hset : Z.testbit (uxTopReadyPriority k) pr = true).
  { rewrite Hbit by done. unfold nonempty. by rewrite bool_decide_false. }
  assert (H0 : uxTopReadyPriority k <> 0) by (intros E; rewrite E, Z.bits_0 in Hset; done).
  split; [done|]. assert (Hpos : 0 < uxTopReadyPriority k) by lia.
  assert (Hlt : Z.log2 (uxTopReadyPriority k) < configMAX_PRIORITIES) by (apply Z.log2_lt_pow2; done).
  pose proof (Z.log2_nonneg (uxTopReadyPriority k)).
  assert (Hlog : Z.testbit (uxTopReadyPriority k) (Z.log2 (uxTopReadyPriority k)) = true) by by apply Z.bit_log2.
  rewrite Hbit in Hlog by lia. unfold nonempty in Hlog. apply negb_true_iff, bool_decide_eq_false in Hlog.
  destruct (Z.lt_total (Z.log2 (uxTopReadyPriority k)) pr) as [Hl|[->|Hg]]; [|done|].
  - rewrite Z.bits_above_log2 in Hset by lia. done.
  - destruct Hlog. apply Hhigh. lia.
Qed.

(** What a switch changes. *)
Record switched (t : Z) (k k' : kernel) : Prop := {
  sw_current : pxCurrentTCB k' = t;
  sw_tcbs : tcbs k' = tcbs k;
  sw_words : words k' = words k;
  sw_tick : xTickCount k' = xTickCount k;
  sw_overflows : xNumOfOverflows k' = xNumOfOverflows k;
  sw_suspended : uxSchedulerSuspended k' = uxSchedulerSuspended k;
  sw_pended : uxPendedTicks k' = uxPendedTicks k;
  sw_counts : uxCurrentNumberOfTasks k' = uxCurrentNumberOfTasks k /\ xSchedulerRunning k' = xSchedulerRunning k;
  sw_yield : xYieldPending k' = pdFALSE;
  sw_delayed : pxDelayedTaskList k' = pxDelayedTaskList k;
  sw_overflow : pxOverflowDelayedTaskList k' = pxOverflowDelayedTaskList k;
  sw_cont : forall q, cont k' q = cont k q;
  sw_value : forall q, value k' q = value k q
}.

(** The invariant does not look at the index of a list or the running task. *)
Lemma switch_ok h e G k k' l i j xs :
  sched_but h e G k -> G !! l = Some (i, xs) -> lists_ok ListEnd (<[l := (j, xs)]> G) (store k') ->
  items (store k') = items (store k) -> links (store k') = links (store k) ->
  tcbs k' = tcbs k -> uxTopReadyPriority k' = uxTopReadyPriority k ->
  pxDelayedTaskList k' = pxDelayedTaskList k -> pxOverflowDelayedTaskList k' = pxOverflowDelayedTaskList k ->
  xTickCount k' = xTickCount k -> xNextTaskUnblockTime k' = xNextTaskUnblockTime k ->
  sched_but h e (<[l := (j, xs)]> G) k'.
Proof.
  intros Hok Hl Hlists Ei Elk Et Etop Ed Eo Ek En.
  pose proof (contents_get _ _ _ _ Hl) as Exs.
  apply (sched_update h e e G k); try done; rewrite ?En, ?Etop; try done.
  - intros q. by rewrite Ei.
  - intros q. unfold value. by rewrite Elk.
  - apply (so_ticks _ _ _ _ Hok).
  - apply (so_top _ _ _ _ Hok).
  - intros q Hq. left. by rewrite Exs.
  - intros pr Hpr. pose proof (so_bits _ _ _ _ Hok pr Hpr) as Hb. unfold bit_ok, nonempty in *.
    rewrite contents_insert. destruct (decide (l = Ready pr)) as [->|]; [by rewrite Exs in Hb|done].
  - intros ->. destruct (so_delayed _ _ _ _ Hok) as [D1 D2]. rewrite Exs in D1, D2. split; [|done].
    rewrite Forall_forall in *. intros q Hq.
    apply (due_after_frame _ k); [unfold value; by rewrite Elk|by rewrite En|by apply D1].
  - intros ->. destruct (so_overflow _ _ _ _ Hok) as [D1 D2]. rewrite Exs in D1, D2. split; [|done].
    rewrite Forall_forall in *. intros q Hq.
    apply (due_after_wrap_frame k); [unfold value; by rewrite Elk|done|by apply D1].
Qed.

Lemma switch_run {B} G k cur pr i xs t rest (f : unit -> KM B) :
  sched_ok G k -> uxSchedulerSuspended k = 0 -> tcbs k !! pxCurrentTCB k = Some cur -> stack_intact k cur ->
  0 <= pr < configMAX_PRIORITIES -> G !! Ready pr = Some (i, xs) ->
  (forall q, pr < q < configMAX_PRIORITIES -> contents G (Ready q) = []) ->
  turn_order i xs = StateItem t :: rest ->
  exists k', (vTaskSwitchContext ≫= f) k = f tt k' /\ switched t k k' /\
    sched_ok (<[Ready pr := (StateItem t, xs)]> G) k'.
Proof.
  intros Hok Hs Hcur Hst Hpr Hl Hhigh Hturn.
  assert (Exs : contents G (Ready pr) = xs) by by eapply contents_get.
  assert (Hin : StateItem t ∈ xs) by (rewrite <- (turn_order_perm ListEnd i xs), Hturn; left).
  assert (Hne : contents G (Ready pr) <> []) by (rewrite Exs; intros ->; by apply elem_of_nil in Hin).
  destruct (top_is_highest _ _ _ _ Hok Hpr Hne Hhigh) as [H0 Hlog].
  destruct (owner_is _ _ _ _ Hok (Ready pr) (StateItem t)) as (t' & [= <-] & _ & Hit); [by rewrite Exs|].
  set (k1 := set_yield pdFALSE k).
  assert (Hn : listGET_OWNER_OF_NEXT_ENTRY ListEnd (Ready pr) (store k1) =
    Ok t (LStore (links (store k)) (items (store k)) (alter (with_index (StateItem t)) (Ready pr) (lists (store k)))))
    by by apply (next_entry_run ListEnd G _ _ i xs (StateItem t) rest t (so_lists _ _ _ _ Hok)).
  eexists. split; [|split].
  - unfold vTaskSwitchContext. rewrite bind_assoc, bind_get, Hs. cbn [Z.eqb pdFALSE negb].
    rewrite bind_assoc, bind_modify. fold pdFALSE. fold k1. rewrite bind_assoc, (stack_check_run k1 cur) by done.
    unfold taskSELECT_HIGHEST_PRIORITY_TASK. rewrite bind_assoc, bind_get, bind_assoc.
    unfold portGET_HIGHEST_PRIORITY. cbn [k1 set_yield uxTopReadyPriority].
    rewrite (proj2 (Z.eqb_neq _ _) H0), bind_ret, Hlog, bind_assoc, (on_lists_run _ _ _ _ _ Hn), bind_modify. done.
  - constructor; done.
  - apply (switch_ok _ _ G k _ _ i); try done.
    apply (index_ok ListEnd G (store k) (Ready pr) i xs (StateItem t)); [apply (so_lists _ _ _ _ Hok)|done|by right].
Qed.

(** ** The running system *)

(** Between two steps: the running task and a ready one exist, the stacks are
    intact, nothing is pended. *)
Record live (G : listing) (k : kernel) : Prop := {
  lv_ok : sched_ok G k;
  lv_suspended : uxSchedulerSuspended k = 0;
  lv_current : is_Some (tcbs k !! pxCurrentTCB k);
  lv_stacks : forall t c, tcbs k !! t = Some c -> stack_intact k c;
  lv_ready : exists t c, tcbs k !! t = Some c /\ cont k (StateItem t) = Some (Ready (uxPriority c));
  lv_pending : forall t, cont k (EventItem t) <> Some xPendingReadyList;
  lv_pended : uxPendedTicks k = 0;
  lv_tasks : 0 < uxCurrentNumberOfTasks k
}.

(** The highest priority with a ready task. *)
Lemma highest_below (G : listing) : forall n : nat,
  (exists pr, 0 <= pr < Z.of_nat n /\ contents G (Ready pr) <> []) ->
  exists pr, 0 <= pr < Z.of_nat n /\ contents G (Ready pr) <> [] /\
    forall q, pr < q < Z.of_nat n -> contents G (Ready q) = [].
Proof.
  induction n as [|n IH]; intros (pr & Hpr & Hne); [lia|].
  destruct (decide (contents G (Ready (Z.of_nat n)) = [])) as [E|E].
  - destruct IH as (p & Hp & Hnep & Hq); [exists pr; split; [|done]|].
    + destruct (decide (pr = Z.of_nat n)) as [->|]; [done|lia].
    + exists p. split; [lia|]. split; [done|]. intros q Hq'.
      destruct (decide (q = Z.of_nat n)) as [->|]; [done|apply Hq; lia].
  - exists (Z.of_nat n). split; [lia|]. split; [done|]. intros q. lia.
Qed.

Lemma highest_ready h e G k t c :
  sched_but h e G k -> tcbs k !! t = Some c -> cont k (StateItem t) = Some (Ready (uxPriority c)) ->
  exists pr i xs, 0 <= pr < configMAX_PRIORITIES /\ G !! Ready pr = Some (i, xs) /\ xs <> [] /\
    (forall q, pr < q < configMAX_PRIORITIES -> contents G (Ready q) = []).
Proof.
  intros Hok Ec Hc. apply (cont_in _ _ _ _ _ _ Hok) in Hc. destruct (so_tasks _ _ _ _ Hok _ _ Ec) as [_ Hp _ _].
  destruct (highest_below G 8%nat) as (pr & Hpr & Hne & Hq).
  { exists (uxPriority c). split; [exact Hp|]. intros E. rewrite E in Hc. by apply elem_of_nil in Hc. }
  change (Z.of_nat 8) with configMAX_PRIORITIES in *.
  destruct (kernel_list_get _ _ _ _ Hok (Ready pr)) as (i & xs & El & Exs); [exact Hpr|].
  exists pr, i, xs. rewrite Exs in Hne. done.
Qed.

(** The task that is switched in: the next one of the highest priority. *)
Record chosen (G : listing) (k : kernel) (t : Z) : Prop := {
  ch_list : exists pr i xs rest, 0 <= pr < configMAX_PRIORITIES /\ G !! Ready pr = Some (i, xs) /\
    turn_order i xs = StateItem t :: rest /\
    (forall q, pr < q < configMAX_PRIORITIES -> contents G (Ready q) = []);
  ch_highest : exists c, tcbs k !! t = Some c /\ cont k (StateItem t) = Some (Ready (uxPriority c)) /\
    forall t' c', tcbs k !! t' = Some c' -> cont k (StateItem t') = Some (Ready (uxPriority c')) ->
      uxPriority c' <= uxPriority c
}.

(** The running task is a ready one of the highest priority. *)
Definition runs_top (k : kernel) : Prop :=
  exists c, tcbs k !! pxCurrentTCB k = Some c /\ cont k (StateItem (pxCurrentTCB k)) = Some (Ready (uxPriority c)) /\
    forall t' c', tcbs k !! t' = Some c' -> cont k (StateItem t') = Some (Ready (uxPriority c')) ->
      uxPriority c' <= uxPriority c.

Lemma chosen_top G k t k' : chosen G k t -> switched t k k' -> runs_top k'.
Proof.
  intros [_ (c & Ec & Hc & Hle)] [W1 W2 _ _ _ _ _ _ _ _ _ W12 _]. exists c. rewrite W1, W2, W12.
  split_and!; [done|done|]. intros t' c' E'. rewrite W12. by apply Hle.
Qed.

(** The choice, and what it does to the turn of the tasks of that priority. *)
Lemma switch_choice {B} G k (f : unit -> KM B) :
  live G k ->
  exists t k' pr i xs rest, (vTaskSwitchContext ≫= f) k = f tt k' /\ switched t k k' /\
    live (<[Ready pr := (StateItem t, xs)]> G) k' /\ chosen G k t /\
    G !! Ready pr = Some (i, xs) /\ turn_order i xs = StateItem t :: rest /\
    turn_order (StateItem t) xs = rest ++ [StateItem t] /\ 0 <= pr < configMAX_PRIORITIES /\
    (forall q, pr < q < configMAX_PRIORITIES -> contents G (Ready q) = []).
Proof.
  intros [Hok Hs [cur Hcur] Hst (tr & cr & Ecr & Hcr) Hpend Hp0 Hnt].
  destruct (highest_ready _ _ _ _ _ _ Hok Ecr Hcr) as (pr & i & xs & Hpr & Hl & Hne & Hhigh).
  assert (Exs : contents G (Ready pr) = xs) by by eapply contents_get.
  destruct (turn_order i xs) as [|p rest] eqn:Et.
  { destruct xs as [|x xs]; [done|]. pose proof (turn_order_perm ListEnd i (x :: xs)) as Hperm.
    rewrite Et in Hperm. by apply Permutation_nil_cons in Hperm. }
  assert (Hin : p ∈ contents G (Ready pr)) by (rewrite Exs, <- (turn_order_perm ListEnd i xs), Et; left).
  pose proof (so_fits _ _ _ _ Hok _ _ Hin) as Hfit. destruct p as [t| |]; try done.
  destruct Hfit as (ct & Ect & Ept).
  destruct (switch_run G k cur pr i xs t rest f) as (k' & Hrun & Hsw & Hok'); try done; [by eapply Hst|].
  exists t, k', pr, i, xs, rest. split; [done|]. split; [done|].
  assert (Hct : cont k (StateItem t) = Some (Ready (uxPriority ct)))
    by (apply (cont_in _ _ _ _ _ _ Hok); by rewrite Ept).
  assert (Hnext : turn_order (StateItem t) xs = rest ++ [StateItem t]).
  { destruct (lo_list _ _ _ (so_lists _ _ _ _ Hok) _ _ _ Hl) as [_ [Hi Hn _ _]].
    apply (turn_order_next ListEnd i xs (StateItem t) rest (ListEnd (Ready pr)) Hi Hn Et). }
  split; [|split; [|done]].
  - destruct Hsw as [W1 W2 W3 W4 W5 W6 W7 [W8 _] W9 W10 W11 W12 W13]. constructor; rewrite ?W2, ?W6, ?W7, ?W8; try done.
    + rewrite W1. by eexists.
    + intros t' c' E. unfold stack_intact. rewrite W3. by apply (Hst t').
    + exists t, ct. by rewrite W12.
    + intros t'. by rewrite W12.
  - constructor; [by exists pr, i, xs, rest|]. exists ct. split_and!; [done|done|].
    intros t' c' Ec' Hc'. apply (cont_in _ _ _ _ _ _ Hok) in Hc'.
    destruct (so_tasks _ _ _ _ Hok _ _ Ec') as [_ Hp' _ _]. rewrite Ept.
    destruct (Z.lt_ge_cases pr (uxPriority c')); [|done].
    rewrite Hhigh in Hc' by lia. by apply elem_of_nil in Hc'.
Qed.

Lemma switch_step {B} G k (f : unit -> KM B) :
  live G k ->
  exists t k' G', (vTaskSwitchContext ≫= f) k = f tt k' /\ switched t k k' /\ live G' k' /\ chosen G k t.
Proof.
  intros Hlv. destruct (switch_choice G k f Hlv) as (t & k' & pr & i & xs & rest & ? & ? & ? & ? & _).
  by exists t, k', (<[Ready pr := (StateItem t, xs)]> G).
Qed.

(** One tick interrupt. *)
Record interrupted (k k' : kernel) : Prop := {
  in_tick : xTickCount k' = next_tick k;
  in_tcbs : tcbs k' = tcbs k;
  in_value : forall q, value k' q = value k q;
  in_state : forall t c, tcbs k !! t = Some c ->
    cont k' (StateItem t) = if wakes k (next_tick k) t then Some (Ready (uxPriority c)) else cont k (StateItem t);
  in_event : forall t c, tcbs k !! t = Some c ->
    cont k' (EventItem t) = if wakes k (next_tick k) t then None else cont k (EventItem t)
}.

Lemma ready_not_timed G k t c :
  sched_ok G k -> cont k (StateItem t) = Some (Ready (uxPriority c)) -> ~ timed k t.
Proof.
  intros Hok Hc. unfold timed. rewrite Hc. destruct (so_ids _ _ _ _ Hok) as [[-> ->]|[-> ->]]; intros [?|?]; done.
Qed.

Lemma wakes_timed k now t : wakes k now t = true <-> timed k t /\ value k (StateItem t) = Some now.
Proof. unfold wakes. by rewrite andb_true_iff, !bool_decide_eq_true. Qed.

Lemma ticked_live G k k' G' : live G k -> sched_ok G' k' -> ticked k k' -> live G' k'.
Proof.
  intros [Hok Hs Hcur Hst (t & c & Ec & Hc) Hpend Hp0 Hnt] Hok' [T1 T2 T3 T4 T5 T6 T7 [T8 _] T9 T10 T11 T12].
  constructor; rewrite ?T2, ?T4, ?T5, ?T6, ?T8; try done.
  - intros t' c' E. unfold stack_intact. rewrite T3. by apply (Hst t').
  - exists t, c. split; [done|]. rewrite (T11 t c Ec).
    by destruct (wakes k (next_tick k) t).
  - intros t'. destruct (tcbs k !! t') as [c'|] eqn:E'.
    + rewrite (T12 t' c' E'). destruct (wakes _ _ _); [done|apply Hpend].
    + intros Hx. apply (cont_in _ _ _ _ _ _ Hok') in Hx. apply (so_fits _ _ _ _ Hok') in Hx.
      cbn in Hx. rewrite T2, E' in Hx. by destruct Hx.
Qed.

Lemma tick_step {B} G k (f : unit -> KM B) :
  live G k ->
  exists k' G', (FreeRTOS_Tick_Handler ≫= f) k = f tt k' /\ live G' k' /\ interrupted k k' /\
    xNumOfOverflows k' = if next_tick k =? 0 then add32 (xNumOfOverflows k) 1 else xNumOfOverflows k.
Proof.
  intros Hlv. pose proof Hlv as [Hok Hs [cur Hcur] _ _ _ _ _].
  unfold FreeRTOS_Tick_Handler. rewrite bind_assoc.
  match goal with |- context [xTaskIncrementTick ≫= ?g] =>
    destruct (tick_run G k cur g Hok Hs Hcur) as (r & k1 & G1 & -> & Hok1 & Ht & _) end.
  pose proof (ticked_live _ _ _ _ Hlv Hok1 Ht) as Hlv1. destruct Ht as [T1 T2 T3 T4 T5 T6 T7 T8 T9 T10 T11 T12].
  destruct (negb (r =? pdFALSE)); cbn [when].
  - destruct (switch_step G1 k1 f Hlv1) as (t & k2 & G2 & -> & [W1 W2 W3 W4 W5 W6 W7 W8 W9 W10 W11 W12 W13] & Hlv2 & _).
    exists k2, G2. split; [done|]. split; [done|]. split; [|congruence]. constructor; try congruence.
    + intros t' c' E. rewrite W12. by rewrite (T11 t' c' E).
    + intros t' c' E. rewrite W12. by rewrite (T12 t' c' E).
  - rewrite bind_ret. exists k1, G1. split; [done|]. split; [done|]. split; [by constructor|done].
Qed.

Fixpoint ticks (n : nat) : KM unit :=
  match n with O => mret tt | S n' => FreeRTOS_Tick_Handler ;; ticks n' end.

(** The number of ticks until a waiting task wakes. *)
Definition ticks_left (k : kernel) (t : Z) : Z :=
  match value k (StateItem t) with Some v => sub32 v (xTickCount k) | None => 0 end.

Lemma ticks_left_pos G k t : sched_ok G k -> timed k t -> 0 < ticks_left k t < 2 ^ 32.
Proof.
  intros Hok Ht. destruct (timed_in _ _ t Hok) as [Hd Ho]. destruct (so_ticks _ _ _ _ Hok) as [Uk _].
  unfold ticks_left, sub32. unfold is_u32 in Uk.
  destruct Ht as [Hc|Hc]; [destruct (Hd Hc) as (v & -> & ? & _)|destruct (Ho Hc) as (v & -> & ?)].
  - rewrite u32_small; [lia|unfold is_u32; lia].
  - unfold u32. rewrite <- (Z.mod_add _ 1) by done. rewrite Z.mod_small; lia.
Qed.

Lemma left_one k t v : value k (StateItem t) = Some v -> is_u32 v -> is_u32 (xTickCount k) ->
  ticks_left k t = 1 <-> v = next_tick k.
Proof.
  intros Ev Uv Uk. unfold ticks_left, next_tick, sub32, add32, u32. rewrite Ev. unfold is_u32 in *.
  split.
  - intros E. assert (Hv : v = (v - xTickCount k + xTickCount k) mod 2 ^ 32) by (rewrite Z.sub_add, Z.mod_small; lia).
    rewrite Hv, <- Zplus_mod_idemp_l, E. f_equal. lia.
  - intros ->. rewrite Zminus_mod_idemp_l. replace (xTickCount k + 1 - xTickCount k) with 1 by lia. done.
Qed.

Lemma left_next k k' t v : value k (StateItem t) = Some v -> value k' (StateItem t) = Some v ->
  xTickCount k' = next_tick k -> 0 < ticks_left k t < 2 ^ 32 -> ticks_left k' t = ticks_left k t - 1.
Proof.
  intros Ev Ev' Et Hl. unfold ticks_left in *. rewrite Ev', Et. rewrite Ev in *.
  unfold next_tick, sub32, add32, u32 in *. rewrite Zminus_mod_idemp_r.
  replace (v - (xTickCount k + 1)) with (v - xTickCount k - 1) by lia.
  rewrite <- Zminus_mod_idemp_l. apply Z.mod_small. lia.
Qed.

(** A waiting task wakes when its ticks have passed and not before. *)
Lemma ticks_run n : forall G k t c, live G k -> tcbs k !! t = Some c -> timed k t -> Z.of_nat n <= ticks_left k t ->
  exists k' G', ticks n k = Ok tt k' /\ live G' k' /\ tcbs k' = tcbs k /\
    xTickCount k' = u32 (xTickCount k + Z.of_nat n) /\
    (if Z.of_nat n <? ticks_left k t then timed k' t /\ ticks_left k' t = ticks_left k t - Z.of_nat n
     else cont k' (StateItem t) = Some (Ready (uxPriority c)) /\ cont k' (EventItem t) = None).
Proof.
  induction n as [|n IH]; intros G k t c Hlv Ec Ht Hn; pose proof Hlv as [Hok _ _ _ _ _ _ _];
    pose proof (ticks_left_pos _ _ _ Hok Ht) as Hpos; destruct (so_ticks _ _ _ _ Hok) as [Uk _].
  - exists k, G. split; [done|]. split; [done|]. split; [done|]. rewrite Z.add_0_r. split; [by rewrite u32_small|].
    destruct (Z.ltb_spec (Z.of_nat 0) (ticks_left k t)); [|lia]. split; [done|lia].
  - cbn [ticks]. destruct (tick_step G k (fun _ => ticks n) Hlv) as (k1 & G1 & Hrun & Hlv1 & [I1 I2 I3 I4 I5] & _).
    rewrite Hrun. clear Hrun.
    destruct (so_tasks _ _ _ _ Hok _ _ Ec) as [_ _ (o & v & _ & Ev & Uv) _].
    pose proof (left_one k t v Ev Uv Uk) as Hone.
    destruct (decide (ticks_left k t = 1)) as [E1|E1].
    + assert (n = 0%nat) as -> by lia. exists k1, G1. split; [done|]. split; [done|]. split; [done|].
      split; [by rewrite I1|]. rewrite E1. destruct (Z.ltb_spec (Z.of_nat 1) 1); [lia|].
      assert (Hw : wakes k (next_tick k) t = true).
      { apply wakes_timed. split; [done|]. unfold value. rewrite Ev. f_equal. by apply Hone. }
      rewrite (I4 t c Ec), (I5 t c Ec), Hw. done.
    + assert (Hw : wakes k (next_tick k) t = false).
      { apply not_true_iff_false. intros [_ E]%wakes_timed. apply E1, Hone. unfold value in E. congruence. }
      assert (Hl1 : ticks_left k1 t = ticks_left k t - 1).
      { apply (left_next k k1 t v); try done. rewrite I3. done. }
      assert (Ht1 : timed k1 t).
      { pose proof (lv_ok _ _ Hlv1) as Hok1. unfold timed in *. rewrite (I4 t c Ec), Hw.
        destruct (so_ids _ _ _ _ Hok) as [[E E']|[E E']], (so_ids _ _ _ _ Hok1) as [[F F']|[F F']];
          rewrite E, E' in Ht; rewrite F, F'; tauto. }
      destruct (IH G1 k1 t c Hlv1 ltac:(by rewrite I2) Ht1) as (k' & G' & Hrun & Hlv' & T' & Hk' & Hres); [lia|].
      exists k', G'. split; [done|]. split; [done|]. split; [by rewrite T'|]. split.
      * rewrite Hk', I1. unfold next_tick, add32, u32. rewrite Zplus_mod_idemp_l. f_equal. lia.
      * rewrite Hl1 in Hres. destruct (Z.ltb_spec (Z.of_nat n) (ticks_left k t - 1)),
          (Z.ltb_spec (Z.of_nat (S n)) (ticks_left k t)); try lia; [|done].
        destruct Hres as [? ->]. split; [done|lia].
Qed.

(** ** The clock

    The tick counter and the number of its wraps are one counter of 64 bits. *)
Definition clock (k : kernel) : Z := xNumOfOverflows k * 2 ^ 32 + xTickCount k.

Lemma clock_next k k' :
  is_u32 (xTickCount k) -> is_u32 (xNumOfOverflows k) -> xTickCount k' = next_tick k ->
  xNumOfOverflows k' = (if next_tick k =? 0 then add32 (xNumOfOverflows k) 1 else xNumOfOverflows k) ->
  clock k' = (clock k + 1) mod 2 ^ 64 /\ is_u32 (xTickCount k') /\ is_u32 (xNumOfOverflows k').
Proof.
  intros Hk Ho Et Eo. unfold clock. rewrite Eo, Et. unfold next_tick, add32, u32, is_u32 in *.
  change (2 ^ 64) with (2 ^ 32 * 2 ^ 32).
  destruct (decide (xTickCount k = 2 ^ 32 - 1)) as [E|E].
  - rewrite E. change ((2 ^ 32 - 1 + 1) mod 2 ^ 32) with 0. cbn [Z.eqb].
    split; [|split; [lia|apply Z.mod_pos_bound; lia]].
    replace (xNumOfOverflows k * 2 ^ 32 + (2 ^ 32 - 1) + 1) with ((xNumOfOverflows k + 1) * 2 ^ 32) by lia.
    rewrite Zmult_mod_distr_r. lia.
  - rewrite (Z.mod_small (xTickCount k + 1)) by lia. destruct (Z.eqb_spec (xTickCount k + 1) 0); [lia|].
    split; [|split; [lia|done]]. rewrite Z.mod_small by nia. lia.
Qed.

Lemma ticks_clock n : forall G k, live G k -> is_u32 (xNumOfOverflows k) ->
  exists k' G', ticks n k = Ok tt k' /\ live G' k' /\ clock k' = (clock k + Z.of_nat n) mod 2 ^ 64 /\
    is_u32 (xTickCount k') /\ is_u32 (xNumOfOverflows k').
Proof.
  induction n as [|n IH]; intros G k Hlv Uo; destruct (so_ticks _ _ _ _ (lv_ok _ _ Hlv)) as [Uk _].
  - exists k, G. rewrite Z.add_0_r. split_and!; try done. unfold clock, is_u32 in *. rewrite Z.mod_small by nia. lia.
  - cbn [ticks]. destruct (tick_step G k (fun _ => ticks n) Hlv) as (k1 & G1 & -> & Hlv1 & [I1 _ _ _ _] & I6).
    destruct (clock_next k k1 Uk Uo I1 I6) as (E1 & _ & Uo1).
    destruct (IH G1 k1 Hlv1 Uo1) as (k' & G' & Hrun & Hlv' & E' & U' & Uo').
    exists k', G'. split_and!; try done. rewrite E', E1, Zplus_mod_idemp_l. f_equal. lia.
Qed.

(** ** Delays *)
Lemma suspended_ok h e G k v : sched_but h e G k -> sched_but h e G (set_suspended v k).
Proof. intros [? ? ? ? ? ? ? ? ? ? ?]. by constructor. Qed.

(** [xTaskResumeAll] with nothing pended: a switch if one was asked for. *)
Lemma resume_run {B} G k (f : Z -> KM B) :
  live G (set_suspended 0 k) -> uxSchedulerSuspended k = 1 ->
  (xTaskResumeAll ≫= f) k =
  (if negb (xYieldPending k =? pdFALSE) then vTaskSwitchContext ≫= fun _ => f pdTRUE else f pdFALSE)
    (set_suspended 0 k).
Proof.
  intros Hlv Hs. set (k0 := set_suspended 0 k) in *. pose proof Hlv as [Hok _ _ _ _ Hpend Hp0 Hnt].
  unfold xTaskResumeAll. rewrite bind_assoc, bind_get, bind_assoc, bind_modify, Hs.
  change (1 - 1)%word with 0. fold k0. rewrite bind_assoc, bind_get.
  change (uxSchedulerSuspended k0) with 0. cbn [Z.eqb pdFALSE].
  rewrite (proj2 (Z.ltb_lt _ _) Hnt). rewrite bind_assoc. cbn [list_fuel ready_pending]. unfold list_fuel.
  cbn [ready_pending]. rewrite bind_assoc, (list_empty_ok _ _ _ _ Hok) by done.
  assert (Hc : contents G xPendingReadyList = []).
  { destruct (contents G xPendingReadyList) as [|p xs] eqn:E; [done|].
    assert (Hin : p ∈ contents G xPendingReadyList) by (rewrite E; left).
    pose proof (so_fits _ _ _ _ Hok _ _ Hin) as Hf. destruct p as [|t|]; try done.
    apply (cont_in _ _ _ _ _ _ Hok) in Hin. by destruct (Hpend t). }
  rewrite Hc, bool_decide_true by done. rewrite bind_ret. cbn [Z.eqb negb when]. rewrite bind_assoc, bind_ret.
  rewrite bind_assoc, bind_get, Hp0. cbn [Z.ltb Z.compare when]. rewrite bind_assoc, bind_ret.
  rewrite bind_assoc, bind_get. change (xYieldPending k0) with (xYieldPending k).
  destruct (negb (xYieldPending k =? pdFALSE)); [|done]. unfold portYIELD. rewrite bind_assoc. done.
Qed.

Lemma blocked_live G k k' G' l p :
  live G k -> sched_ok G' k' -> blocked p l k k' -> l <> xPendingReadyList ->
  (exists t c, tcbs k !! t = Some c /\ StateItem t <> p /\ cont k (StateItem t) = Some (Ready (uxPriority c))) ->
  live G' k'.
Proof.
  intros [_ Hs Hcur Hst _ Hpend Hp0 Hnt] Hok [[S1 S2 S3 S4 S5 S6 (C1 & C2 & C3 & C4) S8 S9 S10] Bc Bo By] Hl (t & c & Ec & Hne & Hc).
  constructor; rewrite ?S1, ?S3, ?S9, ?S10, ?C2; try done.
  - intros t' c' E. unfold stack_intact. rewrite S2. by apply (Hst t').
  - exists t, c. split; [done|]. by rewrite Bc, decide_False.
  - intros t'. rewrite Bc. destruct (decide _); [congruence|apply Hpend].
Qed.

Lemma resume_set v w k : set_suspended v (set_suspended w k) = set_suspended v k.
Proof. done. Qed.

Lemma delay_run G k t c n :
  live G k -> pxCurrentTCB k = t -> tcbs k !! t = Some c -> cont k (StateItem t) = Some (Ready (uxPriority c)) ->
  (exists t' c', t' <> t /\ tcbs k !! t' = Some c' /\ cont k (StateItem t') = Some (Ready (uxPriority c'))) ->
  0 < n < 2 ^ 32 ->
  exists k' G', vTaskDelay n k = Ok tt k' /\ live G' k' /\ tcbs k' = tcbs k /\ xTickCount k' = xTickCount k /\
    timed k' t /\ ticks_left k' t = n /\ (forall q, q <> StateItem t -> cont k' q = cont k q) /\
    pxCurrentTCB k' <> t /\ runs_top k' /\ xSchedulerRunning k' = xSchedulerRunning k.
Proof.
  intros Hlv <- Ec Hc (t' & c' & Hne' & Ec' & Hc') Hn. set (t := pxCurrentTCB k) in *.
  pose proof Hlv as [Hok Hs _ _ _ _ _ _]. destruct (so_ticks _ _ _ _ Hok) as [Uk _].
  set (k1 := set_suspended 1 k).
  assert (Hok1 : sched_ok G k1) by by apply suspended_ok.
  unfold vTaskDelay. rewrite (proj2 (Z.ltb_lt 0 n)) by lia.
  unfold vTaskSuspendAll. rewrite !bind_assoc, bind_get, bind_modify, Hs. change (0 + 1)%word with 1. fold k1.
  rewrite bind_assoc.
  match goal with |- context [prvAddCurrentTaskToDelayedList _ _ ≫= ?g] =>
    destruct (block_current_run _ G k1 c n pdFALSE g Hok1 eq_refl Ec Hc Hn) as (k2 & G2 & -> & Hok2 & Hb & Hv) end.
  assert (Hni : indefinitely n pdFALSE = false) by (unfold indefinitely; apply andb_false_r).
  specialize (Hv Hni). unfold block_list in Hb. rewrite Hni in Hb.
  assert (Hsusp : uxSchedulerSuspended k2 = 1) by by rewrite (st_suspended _ _ (bl_same _ _ _ _ Hb)).
  pose proof (wake_time_cases k1 n Uk Hn) as [Uw Hcase].
  assert (Hb0 : blocked (StateItem t) (wait_list k1 n) k (set_suspended 0 k2)).
  { destruct Hb as [[S1 S2 S3 S4 S5 S6 S7 S8 S9 S10] B1 B2 B3]. by constructor. }
  assert (Hlv2 : live G2 (set_suspended 0 k2)).
  { eapply (blocked_live G k); [done| |exact Hb0| |].
    - unfold sched_ok. apply suspended_ok. cbn [set_suspended xTickCount].
      rewrite (st_tick _ _ (bl_same _ _ _ _ Hb)). exact Hok2.
    - by destruct (so_ids _ _ _ _ Hok) as [[E E']|[E E']], Hcase as [[-> _]|[-> _]]; cbn; rewrite ?E, ?E'.
    - exists t', c'. split_and!; [done|congruence|done]. }
  rewrite (resume_run G2) by done.
  assert (exists s, (if negb (xYieldPending k2 =? pdFALSE) then
      vTaskSwitchContext ≫= fun _ => when (pdTRUE =? pdFALSE) portYIELD else when (pdFALSE =? pdFALSE) portYIELD)
      (set_suspended 0 k2) = s /\ (vTaskSwitchContext ≫= mret) (set_suspended 0 k2) = s) as (s & -> & <-).
  { eexists. split; [|reflexivity]. destruct (negb _); cbn [Z.eqb pdTRUE pdFALSE when].
    - apply bind_ext. by intros [].
    - unfold portYIELD. by rewrite bind_ret_r. }
  destruct (switch_step G2 _ mret Hlv2) as (t2 & k3 & G3 & Hrun & Hsw & Hlv3 & Hch).
  pose proof (chosen_top _ _ _ _ Hch Hsw) as Htop. destruct Hsw as [W1 W2 W3 W4 W5 W6 W7 [_ W8] W9 W10 W11 W12 W13].
  exists k3, G3. rewrite Hrun. destruct Hb0 as [[S1 S2 S3 S4 S5 S6 S7 S8 S9 S10] B1 B2 B3].
  split; [done|]. split; [done|]. split; [congruence|]. split; [congruence|].
  assert (Hct : cont k3 (StateItem t) = Some (wait_list k1 n)) by (by rewrite W12, B1, decide_True).
  split; [|split; [|split; [|split; [|split; [done|]]]]].
  - unfold timed. rewrite Hct, W10, W11, S4, S5. destruct Hcase as [[-> _]|[-> _]]; cbn; tauto.
  - unfold ticks_left. rewrite W13.
    rewrite (Hv : value (set_suspended 0 k2) (StateItem t) = Some (wake_time k1 n)), W4, S6.
    unfold wake_time, sub32, add32, u32. cbn [k1 set_suspended xTickCount]. rewrite Zminus_mod_idemp_l.
    replace (xTickCount k + n - xTickCount k) with n by lia. apply Z.mod_small. lia.
  - intros q Hq. rewrite W12, B1. by rewrite decide_False by congruence.
  - rewrite W1. intros ->. destruct Hch as [_ (c2 & Ec2 & Hc2 & _)].
    rewrite B1, decide_True in Hc2 by done.
    destruct (so_ids _ _ _ _ Hok) as [[E E']|[E E']], Hcase as [[F _]|[F _]]; cbn in F; rewrite F, ?E, ?E' in Hc2; done.
  - congruence.
Qed.

(** ** Suspending and resuming a task *)
Definition leave_list (t : Z) : KM unit :=
  n ← on_lists (uxListRemove (StateItem t));
  when (n =? 0) (c ← ld_tcb t; taskRESET_READY_PRIORITY (uxPriority c)).

Lemma task_reset_run {B} h e G k pr (f : unit -> KM B) :
  sched_but h e G k -> e = None \/ e = Some pr -> 0 <= pr < configMAX_PRIORITIES ->
  exists k', (taskRESET_READY_PRIORITY pr ≫= f) k = f tt k' /\ sched_but h None G k' /\
    exists top, k' = set_top top k.
Proof.
  intros Hok He Hpr. unfold taskRESET_READY_PRIORITY. rewrite bind_assoc.
  rewrite (list_length_ok _ _ _ _ Hok) by exact Hpr.
  destruct (contents G (Ready pr)) as [|x xs] eqn:E.
  - change (Z.of_nat (length (@nil node)) =? 0) with true. cbn [when]. rewrite reset_run.
    exists (cleared pr k). split; [done|]. split; [by eapply reset_ok|by eexists].
  - destruct (Z.eqb_spec (Z.of_nat (length (x :: xs))) 0) as [E0|_]; [cbn [length] in E0; lia|].
    cbn [when]. rewrite bind_ret. exists k. split; [done|]. split; [|exists (uxTopReadyPriority k); by destruct k].
    destruct He as [-> | ->]; [done|]. apply (sched_but_nonempty h pr); [done|]. unfold nonempty. by rewrite E.
Qed.

Lemma leave_list_run {B} h G k t c l (f : unit -> KM B) :
  sched_but h None G k -> tcbs k !! t = Some c -> cont k (StateItem t) = Some l ->
  exists k' G', (leave_list t ≫= f) k = f tt k' /\ sched_but h None G' k' /\ moved (StateItem t) None k k'.
Proof.
  intros Hok Ec Hc. pose proof (so_tasks _ _ _ _ Hok _ _ Ec) as [_ Hpr _ _].
  apply (cont_in _ _ _ _ _ _ Hok) in Hc as Hin. unfold leave_list. rewrite bind_assoc.
  match goal with |- context [on_lists _ ≫= ?g] =>
    destruct (take_run h None G k l (StateItem t) g Hok Hin) as (k1 & -> & Hok1 & Hm & _); [by left|] end.
  assert (Ec1 : tcbs k1 !! t = Some c) by by rewrite (st_tcbs _ _ (mv_same _ _ _ _ Hm)).
  assert (He : except None l = None \/ except None l = Some (uxPriority c)).
  { pose proof (so_fits _ _ _ _ Hok _ _ Hin) as Hf. destruct l; cbn in *; try (by left).
    destruct Hf as (c' & E & <-). right. congruence. }
  destruct (Z.eqb_spec (Z.of_nat (length (remove_item (StateItem t) (contents G l)))) 0) as [E0|E0]; cbn [when].
  - rewrite bind_assoc, (ld_tcb_run _ _ _ _ Ec1).
    destruct (task_reset_run h _ _ k1 (uxPriority c) f Hok1 He Hpr) as (k2 & -> & Hok2 & top & ->).
    eexists _, _. split; [done|]. split; [exact Hok2|]. destruct Hm as [[] ? ? ? ?]. by constructor.
  - rewrite bind_ret. exists k1. eexists. split; [done|]. split; [|exact Hm].
    destruct l as [pr| | | | | |]; cbn [except] in Hok1; try exact Hok1.
    apply (sched_but_nonempty h pr); [done|]. unfold nonempty, taken.
    destruct (contents_in _ _ _ Hin) as [i Ei]. rewrite Ei, contents_insert, decide_True by done.
    apply negb_true_iff, bool_decide_eq_false. intros E. rewrite E in E0. done.
Qed.

(** Off the list of its event, if it is on one. *)
Definition leave_event (t : Z) : KM unit :=
  o ← on_lists (listLIST_ITEM_CONTAINER (EventItem t));
  when (negb (bool_decide (o = None))) (on_lists (uxListRemove (EventItem t)) ;; mret tt).

Lemma leave_event_run {B} h G k t c (f : unit -> KM B) :
  sched_but h None G k -> tcbs k !! t = Some c ->
  exists k' G', (leave_event t ≫= f) k = f tt k' /\ sched_but h None G' k' /\ moved (EventItem t) None k k' /\
    (forall l p, p <> EventItem t -> p ∈ contents G l <-> p ∈ contents G' l).
Proof.
  intros Hok Ec. unfold leave_event.
  rewrite bind_assoc, (container_run k (EventItem t) t (cont k (EventItem t))) by by eapply cont_item.
  destruct (cont k (EventItem t)) as [l|] eqn:El.
  - rewrite bool_decide_false by done. cbn [negb when]. rewrite bind_assoc.
    apply (cont_in _ _ _ _ _ _ Hok) in El as Hel. pose proof (so_fits _ _ _ _ Hok _ _ Hel) as Hf.
    assert (Hl : except None l = None) by (destruct l; done).
    match goal with |- context [on_lists _ ≫= ?g] =>
      destruct (take_run h None G k l (EventItem t) g Hok Hel) as (k2 & -> & Hok2 & M2 & _); [by left|] end.
    rewrite Hl in Hok2. exists k2, (taken G l (EventItem t)). split; [by rewrite bind_ret|].
    split; [done|]. split; [done|]. intros l' p Hp. unfold taken. destruct (contents_in _ _ _ Hel) as [i ->].
    rewrite contents_insert. destruct (decide (l = l')) as [<-|]; [|done]. rewrite remove_item_in. tauto.
  - rewrite bool_decide_true by done. cbn [negb when]. rewrite bind_ret. exists k, G.
    split_and!; try done. constructor; try done. intros q. by destruct (decide (EventItem t = q)) as [<-|].
Qed.

Lemma notify_state_ok h G k t g :
  (forall c, uxPriority (g c) = uxPriority c) ->
  sched_but h None G k -> sched_but h None G (set_tcbs (alter g t (tcbs k)) k).
Proof.
  intros Hg [H1 H2 H3 H4 H5 H6 H7 H8 H9 H10 H11].
  assert (Hlook : forall t' c', alter g t (tcbs k) !! t' = Some c' ->
    exists c, tcbs k !! t' = Some c /\ uxPriority c' = uxPriority c).
  { intros t' c'. rewrite lookup_alter. destruct (decide (t = t')) as [->|]; [|by eauto].
    destruct (tcbs k !! t') as [c|]; [|done]. cbn. intros [= <-]. exists c. by rewrite Hg. }
  constructor; try done.
  - intros l p Hp. specialize (H3 l p Hp). destruct l, p; cbn [fits set_tcbs tcbs] in *; try done;
      try (by apply alter_is_Some).
    destruct H3 as (c & E & E'). rewrite lookup_alter. destruct (decide _) as [->|]; [|by eauto].
    rewrite E. cbn. exists (g c). by rewrite Hg.
  - intros t' c' (c & E & Ep)%Hlook. apply (task_ok_frame (store k) _ _ c); [by left|done| |by apply H4].
    intros q v _ E' U. by exists v.
  - cbn [set_tcbs tcbs]. by rewrite <- (size_dom (D := gset Z)), dom_alter_L, size_dom.
Qed.

(** ** What the tick and the switch do *)

(** C13: the tick.  [xTaskIncrementTick] always returns; the counter advances
    by one and wraps around; exactly the tasks that wait for the new time, on
    either delayed list, become ready and leave the list of the event they
    waited for; every other task stays where it is.  It asks for a switch when
    one is pending, when a woken task has at least the priority of the running
    one, or when another task shares that priority. *)
Theorem xTaskIncrementTick_wakes G k cur :
  sched_ok G k -> uxSchedulerSuspended k = 0 -> tcbs k !! pxCurrentTCB k = Some cur ->
  exists r k' G', xTaskIncrementTick k = Ok r k' /\ sched_ok G' k' /\
    xTickCount k' = add32 (xTickCount k) 1 /\ tcbs k' = tcbs k /\ pxCurrentTCB k' = pxCurrentTCB k /\
    (forall t c, tcbs k !! t = Some c ->
       let now := wakes k (add32 (xTickCount k) 1) t in
       cont k' (StateItem t) = (if now then Some (Ready (uxPriority c)) else cont k (StateItem t)) /\
       cont k' (EventItem t) = (if now then None else cont k (EventItem t))) /\
    (r = pdTRUE \/ r = pdFALSE) /\
    (r = pdTRUE <-> xYieldPending k <> pdFALSE \/
       (exists t c, tcbs k !! t = Some c /\ wakes k (add32 (xTickCount k) 1) t = true /\ uxPriority cur <= uxPriority c) \/
       (1 < length (contents G' (Ready (uxPriority cur))))%nat).
Proof.
  intros Hok Hs Hcur. destruct (tick_run G k cur mret Hok Hs Hcur) as (r & k' & G' & Hrun & Hok' & Ht & Hb & Hiff).
  rewrite bind_ret_r in Hrun. exists r, k', G'. destruct Ht. split_and!; try done.
  intros t c Ec. split; [exact (tk_state0 t c Ec)|exact (tk_event0 t c Ec)].
Qed.

(** C15: the choice.  [vTaskSwitchContext] makes a ready task of the highest
    priority the running one: the next in turn among those of that priority,
    which goes to the end of the turn.  No task changes lists. *)
Theorem vTaskSwitchContext_highest G k :
  live G k ->
  exists t k' pr i xs rest, vTaskSwitchContext k = Ok tt k' /\ pxCurrentTCB k' = t /\
    G !! Ready pr = Some (i, xs) /\ turn_order i xs = StateItem t :: rest /\
    (forall q, pr < q < configMAX_PRIORITIES -> contents G (Ready q) = []) /\
    live (<[Ready pr := (StateItem t, xs)]> G) k' /\ turn_order (StateItem t) xs = rest ++ [StateItem t] /\
    runs_top k' /\ (forall p, cont k' p = cont k p) /\ tcbs k' = tcbs k.
Proof.
  intros Hlv. destruct (switch_choice G k mret Hlv)
    as (t & k' & pr & i & xs & rest & Hrun & Hsw & Hlv' & Hch & Hl & Ht & Hn & _ & Hq).
  rewrite bind_ret_r in Hrun. pose proof (chosen_top _ _ _ _ Hch Hsw) as Htop. destruct Hsw.
  by exists t, k', pr, i, xs, rest.
Qed.

Definition stack_damaged (k : kernel) (c : TCB_t) : Prop :=
  (forall i, i ∈ [0; 4; 8; 12] -> is_Some (words k !! (pxStack c + i))) /\ ~ stack_intact k c.

(** C32: a task that wrote below its stack, into the last four words, is caught
    when it is switched out: the hook is called and does not return. *)
Theorem stack_overflow_stops k c :
  uxSchedulerSuspended k = 0 -> tcbs k !! pxCurrentTCB k = Some c -> stack_damaged k c ->
  vTaskSwitchContext k = Hang (set_yield pdFALSE k).
Proof.
  intros Hs Ec [Hw Hbad]. unfold vTaskSwitchContext. rewrite bind_get, Hs. cbn [Z.eqb pdFALSE negb].
  rewrite bind_modify. unfold taskCHECK_FOR_STACK_OVERFLOW.
  rewrite bind_assoc, bind_get, bind_assoc. fold pdFALSE. set (k1 := set_yield pdFALSE k).
  rewrite (ld_tcb_run _ c) by done.
  destruct (Hw 0) as [w0 E0]; [set_solver|]. destruct (Hw 4) as [w1 E1]; [set_solver|].
  destruct (Hw 8) as [w2 E2]; [set_solver|]. destruct (Hw 12) as [w3 E3]; [set_solver|].
  rewrite Z.add_0_r in E0. rewrite bind_assoc, (ld_word_run _ w0) by done.
  destruct (Z.eqb_spec w0 ulCheckValue) as [->|]; cbn [negb]; [|rewrite !bind_assoc, !bind_ret; done].
  rewrite !bind_assoc, (ld_word_run _ w1) by done.
  destruct (Z.eqb_spec w1 ulCheckValue) as [->|]; cbn [negb]; [|rewrite ?bind_assoc, !bind_ret; done].
  rewrite ?bind_assoc, (ld_word_run _ w2) by done.
  destruct (Z.eqb_spec w2 ulCheckValue) as [->|]; cbn [negb]; [|rewrite ?bind_assoc, !bind_ret; done].
  rewrite ?bind_assoc, (ld_word_run _ w3) by done.
  destruct (Z.eqb_spec w3 ulCheckValue) as [->|Hne].
  - destruct Hbad. intros i. rewrite !elem_of_cons, elem_of_nil.
    intros [-> |[-> |[-> |[-> |[]]]]]; rewrite ?Z.add_0_r; done.
  - rewrite !bind_ret. done.
Qed.

(** ** Time-outs *)
Lemma clock_split k0 k e :
  is_u32 (xTickCount k0) -> is_u32 (xNumOfOverflows k0) -> is_u32 (xTickCount k) -> is_u32 (xNumOfOverflows k) ->
  0 <= e < 2 ^ 33 - xTickCount k0 -> clock k = (clock k0 + e) mod 2 ^ 64 ->
  xNumOfOverflows k = xNumOfOverflows k0 /\ xTickCount k = xTickCount k0 + e \/
  xNumOfOverflows k <> xNumOfOverflows k0 /\ xTickCount k = xTickCount k0 + e - 2 ^ 32.
Proof.
  unfold clock, is_u32. intros U1 U2 U3 U4 He E. change (2 ^ 64) with (2 ^ 32 * 2 ^ 32) in E.
  assert (H : exists j, xNumOfOverflows k0 * 2 ^ 32 + xTickCount k0 + e =
    2 ^ 32 * 2 ^ 32 * j + (xNumOfOverflows k * 2 ^ 32 + xTickCount k)).
  { eexists. rewrite E. apply Z.div_mod. lia. }
  destruct H as [j Hj]. assert (j = 0 \/ j = 1) as [-> | ->] by nia; lia.
Qed.

Lemma time_out_run k0 k e n :
  is_u32 (xTickCount k0) -> is_u32 (xNumOfOverflows k0) -> is_u32 (xTickCount k) -> is_u32 (xNumOfOverflows k) ->
  0 <= e < 2 ^ 33 - xTickCount k0 -> clock k = (clock k0 + e) mod 2 ^ 64 ->
  0 <= n < portMAX_DELAY ->
  let entering := TimeOut (xNumOfOverflows k0) (xTickCount k0) in
  exists rest, xTaskCheckForTimeOut entering n k =
    Ok (if e <? n then (pdFALSE, TimeOut (xNumOfOverflows k) (xTickCount k), n - e) else (pdTRUE, entering, rest)) k.
Proof.
  intros U1 U2 U3 U4 He E Hn entering. pose proof (clock_split k0 k e U1 U2 U3 U4 He E) as Hs.
  assert (Hn' : n < 2 ^ 32 - 1) by exact (proj2 Hn).
  unfold xTaskCheckForTimeOut. rewrite bind_get, (proj2 (Z.eqb_neq n portMAX_DELAY)) by lia.
  cbn [entering xOverflowCount xTimeOnEntering].
  assert (Hel : e < 2 ^ 32 -> (xTickCount k - xTickCount k0)%word = e).
  { unfold sub32, u32. intros He2. destruct Hs as [[_ ->]|[_ ->]].
    - replace (xTickCount k0 + e - xTickCount k0) with e by lia. apply Z.mod_small. lia.
    - replace (xTickCount k0 + e - 2 ^ 32 - xTickCount k0) with (e + (-1) * 2 ^ 32) by lia.
      rewrite Z.mod_add by lia. apply Z.mod_small. lia. }
  destruct (negb _ && _) eqn:Eb.
  - exists n. apply andb_true_iff in Eb as [Eo Et]. apply negb_true_iff, Z.eqb_neq in Eo. apply Z.leb_le in Et.
    destruct (Z.ltb_spec e n); [|done]. destruct Hs as [[? _]|[_ Hk]]; [done|lia].
  - exists 0. assert (e < 2 ^ 32) as He2.
    { apply andb_false_iff in Eb as [Eb|Eb].
      - apply negb_false_iff, Z.eqb_eq in Eb. unfold is_u32 in *. destruct Hs as [[_ ?]|[? _]]; [lia|done].
      - apply Z.leb_gt in Eb. unfold is_u32 in *. destruct Hs as [[_ ?]|[_ ?]]; lia. }
    rewrite (Hel He2). destruct (Z.ltb_spec e n); [|done].
    unfold vTaskInternalSetTimeOutState. rewrite bind_assoc, bind_get, bind_ret. unfold sub32.
    by rewrite u32_small by (unfold is_u32; lia).
Qed.

(** C29: a time-out is exact.  A task that noted the time with
    [vTaskSetTimeOutState] and asks after [e] ticks with [xTaskCheckForTimeOut]
    whether [n] ticks have passed is told so exactly when [n <= e]; otherwise
    the time left is [n - e], counted from the new note.  The counter may wrap
    meanwhile; the answer is right until it passes its old value a second
    time. *)
Theorem xTaskCheckForTimeOut_exact G k e n :
  live G k -> is_u32 (xNumOfOverflows k) -> Z.of_nat e < 2 ^ 33 - xTickCount k -> 0 <= n < portMAX_DELAY ->
  exists k' G' rest, ticks e k = Ok tt k' /\ live G' k' /\
    vTaskSetTimeOutState k = Ok (TimeOut (xNumOfOverflows k) (xTickCount k)) k /\
    xTaskCheckForTimeOut (TimeOut (xNumOfOverflows k) (xTickCount k)) n k' =
    Ok (if Z.of_nat e <? n then (pdFALSE, TimeOut (xNumOfOverflows k') (xTickCount k'), n - Z.of_nat e)
        else (pdTRUE, TimeOut (xNumOfOverflows k) (xTickCount k), rest)) k'.
Proof.
  intros Hlv Uo He Hn. destruct (so_ticks _ _ _ _ (lv_ok _ _ Hlv)) as [Uk _].
  destruct (ticks_clock e G k Hlv Uo) as (k' & G' & Hrun & Hlv' & E & U' & Uo').
  destruct (time_out_run k k' (Z.of_nat e) n Uk Uo U' Uo') as [rest Hr]; [lia|done|done|].
  by exists k', G', rest.
Qed.
