(* ===== verification/RtLive.v ===== *)
(** * FreeRTOS: the running system

    Every call of the scheduler made from a state in which it runs as it
    should leaves it in such a state: the running task is the ready one of the
    highest priority, no task is lost, and the call returns. *)
From S2P Require Import Prelude.
From S2P Require Import RtList.
From S2P Require Import RtRings.
From S2P Require Import RtTasks.
From S2P Require Import RtSched.
From S2P Require Import RtTick.

Local Open Scope Z_scope.

(** ** Stable states *)
Definition ready (k : kernel) (t : Z) : Prop :=
  exists c, tcbs k !! t = Some c /\ cont k (StateItem t) = Some (Ready (uxPriority c)).

(** What scheduling looks at in a control block. *)
Definition priority_stack (c : TCB_t) : Z * Z := (uxPriority c, pxStack c).
Definition blocks (k : kernel) (t : Z) : option (Z * Z) := priority_stack <$> tcbs k !! t.

(** Between two calls, but for the choice of the running task. *)
Record settled (idle : Z) (G : listing) (k : kernel) : Prop := {
  se_live : live G k;
  se_running : xSchedulerRunning k <> pdFALSE;
  se_idle : ready k idle;
  se_placed : forall t, is_Some (tcbs k !! t) -> is_Some (cont k (StateItem t))
}.
Definition stable (idle : Z) (G : listing) (k : kernel) : Prop := settled idle G k /\ runs_top k.

Lemma blocks_get k k' t c :
  blocks k' t = blocks k t -> tcbs k !! t = Some c ->
  exists c', tcbs k' !! t = Some c' /\ uxPriority c' = uxPriority c /\ pxStack c' = pxStack c.
Proof.
  unfold blocks, priority_stack. intros E Ec. rewrite Ec in E. destruct (tcbs k' !! t) as [c'|]; [|done].
  injection E as ??. by exists c'.
Qed.

(** What all calls leave alone. *)
Record kept (k k' : kernel) : Prop := {
  kp_blocks : forall t, blocks k' t = blocks k t;
  kp_words : words k' = words k;
  kp_suspended : uxSchedulerSuspended k' = uxSchedulerSuspended k;
  kp_pended : uxPendedTicks k' = uxPendedTicks k;
  kp_counts : uxCurrentNumberOfTasks k' = uxCurrentNumberOfTasks k;
  kp_running : xSchedulerRunning k' = xSchedulerRunning k;
  kp_current : pxCurrentTCB k' = pxCurrentTCB k
}.
Lemma kept_trans k1 k2 k3 : kept k1 k2 -> kept k2 k3 -> kept k1 k3.
Proof. intros [] []. constructor; congruence. Qed.
Lemma same_kept k k' : same_tasks k k' -> kept k k'.
Proof.
  intros [S1 S2 S3 S4 S5 S6 (C1 & C2 & C3 & C4) S8 S9 S10]. constructor; try done.
  intros t. unfold blocks. by rewrite S1.
Qed.

Lemma is_Some_blocks k t : is_Some (blocks k t) <-> is_Some (tcbs k !! t).
Proof. unfold blocks. by rewrite fmap_is_Some. Qed.

Lemma settled_kept idle G k k' G' :
  settled idle G k -> sched_ok G' k' -> kept k k' ->
  cont k' (StateItem idle) = cont k (StateItem idle) ->
  (forall t, is_Some (tcbs k !! t) -> is_Some (cont k' (StateItem t))) ->
  (forall t, cont k' (EventItem t) <> Some xPendingReadyList) ->
  settled idle G' k'.
Proof.
  intros [[_ Hs Hcur Hst _ _ Hp0 Hnt] Hr (ci & Eci & Hci) Hpl] Hok' [K1 K2 K3 K4 K5 K6 K7] Hi Hpl' Hpend.
  assert (Hready : ready k' idle).
  { destruct (blocks_get k k' idle ci (K1 _) Eci) as (c' & Ec' & Ep & _). exists c'. by rewrite Hi, Ep. }
  constructor; [constructor|..]; rewrite ?K3, ?K4, ?K5, ?K6, ?K7; try done.
  - apply is_Some_blocks. rewrite K1. by apply is_Some_blocks.
  - intros t c' Ec'. destruct (blocks_get k' k t c' (eq_sym (K1 t)) Ec') as (c & Ec & _ & Es).
    specialize (Hst t c Ec). unfold stack_intact in *. by rewrite <- Es, K2.
  - destruct Hready as (c & ? & ?). by exists idle, c.
  - intros t Ht. apply Hpl', is_Some_blocks. rewrite <- K1. by apply is_Some_blocks.
Qed.

(** The running task stays on top when the tasks made ready have at most its
    priority. *)
Lemma top_kept k k' :
  runs_top k -> kept k k' ->
  cont k' (StateItem (pxCurrentTCB k)) = cont k (StateItem (pxCurrentTCB k)) ->
  (forall cur t c, tcbs k !! pxCurrentTCB k = Some cur -> tcbs k !! t = Some c ->
     cont k' (StateItem t) = Some (Ready (uxPriority c)) ->
     cont k (StateItem t) = Some (Ready (uxPriority c)) \/ uxPriority c <= uxPriority cur) ->
  runs_top k'.
Proof.
  intros (cur & Ecur & Hcur & Htop) [K1 _ _ _ _ _ K7] Hc Hnew.
  destruct (blocks_get k k' _ cur (K1 _) Ecur) as (cur' & Ecur' & Ep & _).
  exists cur'. rewrite K7, Ep, Hc. split_and!; [done|done|]. intros t c' Ec' Hr.
  destruct (blocks_get k' k t c' (eq_sym (K1 t)) Ec') as (c & Ec & Ep' & _). rewrite <- Ep' in Hr |- *.
  destruct (Hnew cur t c Ecur Ec Hr) as [?|?]; [by apply (Htop t)|done].
Qed.

(** A switch makes a settled state stable. *)
Lemma switch_settled {B} idle G k (f : unit -> KM B) :
  settled idle G k ->
  exists k' G', (vTaskSwitchContext ≫= f) k = f tt k' /\ stable idle G' k' /\ (forall q, cont k' q = cont k q) /\
    tcbs k' = tcbs k /\ (forall q, value k' q = value k q) /\ xTickCount k' = xTickCount k.
Proof.
  intros [Hlv Hr (ci & Eci & Hci) Hpl].
  destruct (switch_step G k f Hlv) as (t & k' & G' & Hrun & Hsw & Hlv' & Hch).
  pose proof (chosen_top _ _ _ _ Hch Hsw) as Htop.
  destruct Hsw as [W1 W2 W3 W4 W5 W6 W7 [_ W8] W9 W10 W11 W12 W13].
  exists k', G'. split; [done|]. split; [|done]. split; [|done]. constructor; [done|congruence|..].
  - exists ci. by rewrite W2, W12.
  - intros t'. rewrite W2, W12. apply Hpl.
Qed.

(** ** The tick *)
Lemma timed_ready G k t c : sched_ok G k -> tcbs k !! t = Some c ->
  cont k (StateItem t) = Some (Ready (uxPriority c)) -> wakes k (next_tick k) t = false.
Proof.
  intros Hok _ Hc. apply not_true_iff_false. intros [Ht _]%wakes_timed. by destruct (ready_not_timed _ _ _ _ Hok Hc).
Qed.

Lemma tick_settled idle G k k' G' :
  settled idle G k -> sched_ok G' k' -> ticked k k' -> settled idle G' k'.
Proof.
  intros [Hlv Hr (ci & Eci & Hci) Hpl] Hok' Ht. pose proof (ticked_live _ _ _ _ Hlv Hok' Ht) as Hlv'.
  pose proof (lv_ok _ _ Hlv) as Hok. destruct Ht as [T1 T2 T3 T4 T5 T6 T7 [_ T8] T9 T10 T11 T12].
  constructor; [done|by rewrite T8|..].
  - exists ci. rewrite T2. split; [done|]. rewrite (T11 _ _ Eci). by rewrite (timed_ready G k idle ci Hok Eci Hci).
  - intros t. rewrite T2. intros [c Ec]. rewrite (T11 _ _ Ec). destruct (wakes _ _ _); [by eexists|].
    apply Hpl. by eexists.
Qed.

(** Without a switch nobody that woke has the priority of the running task. *)
Lemma tick_top G k k' (cur : TCB_t) :
  sched_ok G k -> ticked k k' -> runs_top k -> tcbs k !! pxCurrentTCB k = Some cur ->
  ~ (exists t c, tcbs k !! t = Some c /\ wakes k (next_tick k) t = true /\ uxPriority cur <= uxPriority c) ->
  runs_top k'.
Proof.
  intros Hok [T1 T2 T3 T4 T5 T6 T7 T8 T9 T10 T11 T12] (cur' & Ecur' & Hcur & Htop) Ecur Hno.
  assert (cur' = cur) as -> by congruence. exists cur. rewrite T2, T4, (T11 _ _ Ecur).
  rewrite (timed_ready _ _ _ _ Hok Ecur Hcur). split_and!; [done|done|].
  intros t c Ec. rewrite (T11 _ _ Ec). destruct (wakes k (next_tick k) t) eqn:Ew; [|by apply Htop].
  intros _. destruct (Z.le_gt_cases (uxPriority c) (uxPriority cur)); [done|]. destruct Hno. exists t, c.
  split_and!; [done|done|lia].
Qed.

Lemma tick_stable {B} idle G k (f : unit -> KM B) :
  stable idle G k ->
  exists k' G', (FreeRTOS_Tick_Handler ≫= f) k = f tt k' /\ stable idle G' k' /\ interrupted k k'.
Proof.
  intros [Hse Htop]. pose proof (se_live _ _ _ Hse) as [Hok Hs [cur Hcur] _ _ _ _ _].
  unfold FreeRTOS_Tick_Handler. rewrite bind_assoc.
  match goal with |- context [xTaskIncrementTick ≫= ?g] =>
    destruct (tick_run G k cur g Hok Hs Hcur) as (r & k1 & G1 & -> & Hok1 & Ht & Hb & Hiff) end.
  pose proof (tick_settled _ _ _ _ _ Hse Hok1 Ht) as Hse1.
  destruct Hb as [-> | ->]; cbn [Z.eqb pdTRUE pdFALSE negb when].
  - destruct Ht as [T1 T2 T3 T4 T5 T6 T7 T8 T9 T10 T11 T12].
    destruct (switch_settled idle G1 k1 f Hse1) as (k2 & G2 & -> & Hst & W12 & W2 & W13 & W4).
    exists k2, G2. split; [done|]. split; [done|]. constructor; try congruence.
    + intros t c E. rewrite W12. by apply T11.
    + intros t c E. rewrite W12. by apply (T12 t c).
  - rewrite bind_ret. exists k1, G1. split; [done|]. split.
    + split; [done|]. apply (tick_top G k k1 cur); try done. intros Hex.
      assert (pdFALSE = pdTRUE) by (apply Hiff; tauto). done.
    + destruct Ht. by constructor.
Qed.

(** ** Calls that change control blocks only *)
Record block_set (k k' : kernel) : Prop := {
  bs_kept : kept k k';
  bs_cont : forall q, cont k' q = cont k q;
  bs_value : forall q, value k' q = value k q;
  bs_tick : xTickCount k' = xTickCount k;
  bs_yield : xYieldPending k' = xYieldPending k
}.
Lemma block_set_trans k1 k2 k3 : block_set k1 k2 -> block_set k2 k3 -> block_set k1 k3.
Proof.
  intros [K1 C1 V1 T1 Y1] [K2 C2 V2 T2 Y2]. constructor; [by eapply kept_trans| | |congruence..]; intros q; congruence.
Qed.

Lemma block_set_run {B} G k t c g (f : unit -> KM B) :
  (forall c, priority_stack (g c) = priority_stack c) -> sched_ok G k -> tcbs k !! t = Some c ->
  exists k', (st_tcb g t ≫= f) k = f tt k' /\ sched_ok G k' /\ block_set k k' /\ tcbs k' = <[t := g c]> (tcbs k).
Proof.
  intros Hg Hok Ec. exists (set_tcbs (alter g t (tcbs k)) k). split; [by apply st_tcb_run|].
  assert (Ea : alter g t (tcbs k) = <[t := g c]> (tcbs k)).
  { apply map_eq. intros u. rewrite lookup_alter, lookup_insert. destruct (decide (t = u)) as [<-|]; [by rewrite Ec|done]. }
  split; [|split; [|done]].
  - apply notify_state_ok; [|done]. intros c'. specialize (Hg c'). unfold priority_stack in Hg. congruence.
  - constructor; try done. constructor; try done. intros t'. unfold blocks. cbn [set_tcbs tcbs]. rewrite lookup_alter.
    destruct (decide (t = t')) as [<-|]; [|done]. rewrite Ec. cbn. by rewrite Hg.
Qed.
Lemma when_block_run {B} G k t c b g (f : unit -> KM B) :
  (forall c, priority_stack (g c) = priority_stack c) -> sched_ok G k -> tcbs k !! t = Some c ->
  exists k', (when b (st_tcb g t) ≫= f) k = f tt k' /\ sched_ok G k' /\ block_set k k' /\
    tcbs k' = if b then <[t := g c]> (tcbs k) else tcbs k.
Proof.
  intros Hg Hok Ec. destruct b; cbn [when]; [by apply block_set_run|]. by exists k.
Qed.

Lemma settled_same idle G k k' G' :
  settled idle G k -> sched_ok G' k' -> kept k k' -> (forall q, cont k' q = cont k q) -> settled idle G' k'.
Proof.
  intros Hse Hok Hk Hc. apply (settled_kept idle G k); [done..|apply Hc| |].
  - intros t. rewrite Hc. apply (se_placed _ _ _ Hse).
  - intros t. rewrite Hc. apply (lv_pending _ _ (se_live _ _ _ Hse)).
Qed.
Lemma stable_same idle G k k' G' :
  stable idle G k -> sched_ok G' k' -> kept k k' -> (forall q, cont k' q = cont k q) -> stable idle G' k'.
Proof.
  intros [Hse Htop] Hok Hk Hc. split; [by apply (settled_same _ G k)|].
  apply (top_kept k); [done..|apply Hc|]. intros cur t c _ _. rewrite Hc. by left.
Qed.

(** ** Suspending a task *)
Definition handle (k : kernel) (x : Z) : Z := if x =? 0 then pxCurrentTCB k else x.
Lemma task_handle_run {B} x (f : Z -> KM B) k : (prvGetTCBFromHandle x ≫= f) k = f (handle k x) k.
Proof. unfold prvGetTCBFromHandle, handle. by destruct (x =? 0). Qed.

(** The end of [vTaskSuspend], the task off all lists. *)
Definition suspend_rest (t : Z) : KM unit :=
  on_lists (vListInsertEnd xSuspendedTaskList (StateItem t)) ;;
  c ← ld_tcb t;
  when (ucNotifyState c =? taskWAITING_NOTIFICATION)
    (st_tcb (with_notify_state taskNOT_WAITING_NOTIFICATION) t) ;;
  k ← get;
  when (negb (xSchedulerRunning k =? pdFALSE)) prvResetNextTaskUnblockTime ;;
  k ← get;
  if t =? pxCurrentTCB k then
    if negb (xSchedulerRunning k =? pdFALSE) then portYIELD
    else
      n ← on_lists (listCURRENT_LIST_LENGTH xSuspendedTaskList); k ← get;
      if n =? uxCurrentNumberOfTasks k then modify (set_current 0) else vTaskSwitchContext
  else mret tt.

Lemma suspend_unfold {B} x (f : unit -> KM B) k :
  (vTaskSuspend x ≫= f) k =
  (leave_list (handle k x) ≫= fun _ => leave_event (handle k x) ≫= fun _ => suspend_rest (handle k x) ≫= f) k.
Proof.
  unfold vTaskSuspend. rewrite bind_assoc, task_handle_run. unfold leave_list. rewrite !bind_assoc.
  apply bind_ext. intros n k1. rewrite bind_assoc. apply bind_ext. intros [] k2.
  unfold leave_event. rewrite !bind_assoc. apply bind_ext. intros o k3. rewrite bind_assoc. by apply bind_ext.
Qed.

Record parked (t : Z) (l : list_id) (k k' : kernel) : Prop := {
  pk_kept : kept k k';
  pk_state : forall q, cont k' (StateItem q) = if decide (q = t) then Some l else cont k (StateItem q);
  pk_event : forall q, cont k' (EventItem q) = if decide (q = t) then None else cont k (EventItem q);
  pk_value : forall q, value k' q = value k q;
  pk_tick : xTickCount k' = xTickCount k
}.

(** Off all lists, whatever list the task was on. *)
Lemma leave_run {B} G k t c l (f : unit -> KM B) :
  sched_ok G k -> tcbs k !! t = Some c -> cont k (StateItem t) = Some l ->
  exists k' G', (leave_list t ≫= fun _ => leave_event t ≫= f) k = f tt k' /\
    sched_but (xTickCount k) None G' k' /\ same_tasks k k' /\ xYieldPending k' = xYieldPending k /\
    (forall q, value k' q = value k q) /\
    (forall q, cont k' q = if decide (task_of q = Some t) then None else cont k q).
Proof.
  intros Hok Ec Hl.
  destruct (leave_list_run _ G k t c l (fun _ => leave_event t ≫= f) Hok Ec Hl) as (k1 & G1 & -> & Hok1 & M1).
  assert (Ec1 : tcbs k1 !! t = Some c) by by rewrite (st_tcbs _ _ (mv_same _ _ _ _ M1)).
  destruct (leave_event_run _ G1 k1 t c f Hok1 Ec1) as (k2 & G2 & -> & Hok2 & M2 & _).
  exists k2, G2. destruct M1 as [S1 C1 V1 Y1 _], M2 as [S2 C2 V2 Y2 _].
  split; [done|]. split; [done|]. split; [by eapply same_tasks_trans|]. split; [congruence|].
  split; [intros q; by rewrite V2|]. intros q. rewrite C2, C1.
  destruct q as [u|u|x]; cbn [task_of]; repeat case_decide; congruence.
Qed.

(** Up to the choice of another task. *)
Lemma suspend_run {B} idle G k t c (f : unit -> KM B) :
  settled idle G k -> tcbs k !! t = Some c -> t <> idle ->
  exists k' G',
    (leave_list t ≫= fun _ => leave_event t ≫= fun _ => suspend_rest t ≫= f) k =
      ((if t =? pxCurrentTCB k then portYIELD else mret tt) ≫= f) k' /\
    settled idle G' k' /\ parked t xSuspendedTaskList k k'.
Proof.
  intros Hse Ec Hne. pose proof (lv_ok _ _ (se_live _ _ _ Hse)) as Hok.
  destruct (se_placed _ _ _ Hse t) as [l Hl]; [by eexists|].
  destruct (leave_run G k t c l (fun _ => suspend_rest t ≫= f) Hok Ec Hl) as (k2 & G2 & -> & Hok2 & S2 & _ & V2 & C2).
  pose proof S2 as [T1 T2 T3 T4 T5 T6 T7 T8 T9 T10].
  unfold suspend_rest. rewrite bind_assoc.
  match goal with |- context [on_lists _ ≫= ?g] =>
    destruct (put_run _ None G2 k2 xSuspendedTaskList t (StateItem t) g Hok2) as (k3 & -> & Hok3 & [S3 C3 V3 Y3 _]);
      try done end.
  { by apply (so_dom _ _ _ _ Hok2). } { rewrite T1. by eexists. } { by rewrite C2, decide_True. }
  { cbn. rewrite T1. by eexists. }
  { by destruct (so_ids _ _ _ _ Hok2) as [[-> _]|[-> _]]. }
  { by destruct (so_ids _ _ _ _ Hok2) as [[_ ->]|[_ ->]]. }
  pose proof (same_tasks_trans _ _ _ S2 S3) as S.
  assert (Ec3 : tcbs k3 !! t = Some c) by by rewrite (st_tcbs _ _ S).
  set (G3 := put_end G2 xSuspendedTaskList (StateItem t)) in *.
  assert (Hok3' : sched_ok G3 k3). { unfold sched_ok. by rewrite (st_tick _ _ S). }
  rewrite bind_assoc, (ld_tcb_run _ _ _ _ Ec3), bind_assoc.
  match goal with |- context [when _ (st_tcb ?g t) ≫= ?h] =>
    destruct (when_block_run G3 k3 t c (ucNotifyState c =? taskWAITING_NOTIFICATION) g h)
      as (k4' & -> & Hok4' & [K4' C4' V4' T4' _] & _); [done|done|done|] end.
  rewrite bind_assoc, bind_get, bind_assoc.
  pose proof (kept_trans _ _ _ (same_kept _ _ S) K4') as K.
  assert (Hrun : xSchedulerRunning k4' =? pdFALSE = false).
  { rewrite (kp_running _ _ K). apply Z.eqb_neq, (se_running _ _ _ Hse). }
  rewrite Hrun. cbn [negb when].
  match goal with |- context [prvResetNextTaskUnblockTime ≫= ?h] =>
    destruct (reset_unblock_run _ None _ k4' h Hok4') as [-> Hok5] end.
  set (k5 := set_unblock _ k4') in *. rewrite bind_assoc, bind_get.
  change (xSchedulerRunning k5) with (xSchedulerRunning k4'). rewrite Hrun. cbn [negb].
  change (pxCurrentTCB k5) with (pxCurrentTCB k4'). rewrite (kp_current _ _ K).
  assert (K5 : kept k k5) by (eapply kept_trans; [exact K|by constructor]).
  assert (C5 : forall q, cont k5 q = if decide (StateItem t = q) then Some xSuspendedTaskList
    else if decide (task_of q = Some t) then None else cont k q).
  { intros q. change (cont k5 q) with (cont k4' q). by rewrite C4', C3, C2. }
  exists k5. eexists. split; [done|]. split.
  - apply (settled_kept idle G k); [done|exact Hok5|done|..].
    + by rewrite C5, !decide_False by (cbn; congruence).
    + intros u Hu. rewrite C5. destruct (decide _); [by eexists|]. rewrite decide_False by (cbn; congruence).
      by apply (se_placed _ _ _ Hse).
    + intros u. rewrite C5, decide_False by done. case_decide; [done|]. apply (lv_pending _ _ (se_live _ _ _ Hse)).
  - constructor; [done|..].
    + intros q. rewrite C5. cbn [task_of]. repeat case_decide; congruence.
    + intros q. rewrite C5. cbn [task_of]. repeat case_decide; congruence.
    + intros q. change (value k5 q) with (value k4' q). by rewrite V4', V3, V2.
    + change (xTickCount k5) with (xTickCount k4'). by rewrite T4', (st_tick _ _ S).
Qed.

Lemma parked_stable idle G k k' G' t l :
  stable idle G k -> settled idle G' k' -> parked t l k k' -> t <> pxCurrentTCB k ->
  (forall pr, l <> Ready pr) -> stable idle G' k'.
Proof.
  intros [Hse Htop] Hse' [K C E V _] Hne Hl. split; [done|]. apply (top_kept k); [done|done|..].
  - rewrite C. by rewrite decide_False.
  - intros cur u c _ _. rewrite C. case_decide; [intros [= Hx]; by destruct (Hl (uxPriority c))|by left].
Qed.

Lemma suspend_stable {B} idle G k x (f : unit -> KM B) :
  stable idle G k -> is_Some (tcbs k !! handle k x) -> handle k x <> idle ->
  exists k' G', (vTaskSuspend x ≫= f) k = f tt k' /\ stable idle G' k' /\
    (forall t, blocks k' t = blocks k t) /\
    cont k' (StateItem (handle k x)) = Some xSuspendedTaskList /\ cont k' (EventItem (handle k x)) = None /\
    (forall q, task_of q <> Some (handle k x) -> cont k' q = cont k q) /\
    xTickCount k' = xTickCount k /\ (forall q, value k' q = value k q).
Proof.
  intros [Hse Htop] [c Ec] Hne. set (t := handle k x) in *. rewrite suspend_unfold. fold t.
  destruct (suspend_run idle G k t c f Hse Ec Hne) as (k1 & G1 & -> & Hse1 & Hp). pose proof Hp as [K C E V T].
  assert (Hc : forall q, task_of q <> Some t -> cont k1 q = cont k q).
  { intros [u|u|l] Hu; cbn in Hu; [rewrite C|rewrite E|].
    - by rewrite decide_False by congruence.
    - by rewrite decide_False by congruence.
    - assert (Hno : forall G0 k0, sched_ok G0 k0 -> cont k0 (ListEnd l) = None).
      { intros G0 k0 H0. unfold cont. by rewrite (lo_end _ _ _ (so_lists _ _ _ _ H0)). }
      rewrite (Hno G1), (Hno G); [done|apply (lv_ok _ _ (se_live _ _ _ Hse))|apply (lv_ok _ _ (se_live _ _ _ Hse1))]. }
  destruct (Z.eqb_spec t (pxCurrentTCB k)) as [->|Hcur].
  - destruct (switch_settled idle G1 k1 f Hse1) as (k2 & G2 & Hrun & Hst & C2 & T2 & V2 & X2).
    exists k2, G2. split; [exact Hrun|]. split; [done|]. split_and!.
    + intros u. unfold blocks. rewrite T2. apply (kp_blocks _ _ K).
    + rewrite C2, C. by rewrite decide_True.
    + rewrite C2, E. by rewrite decide_True.
    + intros q Hq. rewrite C2. by apply Hc.
    + congruence.
    + intros q. by rewrite V2.
  - exists k1, G1. rewrite bind_ret. split; [done|]. split; [by apply (parked_stable idle G k k1 G1 t xSuspendedTaskList)|]. split_and!.
    + apply (kp_blocks _ _ K).
    + rewrite C. by rewrite decide_True.
    + rewrite E. by rewrite decide_True.
    + done.
    + done.
    + done.
Qed.

(** ** Making a task ready *)
Definition make_ready (t : Z) : KM unit := on_lists (uxListRemove (StateItem t)) ;; prvAddTaskToReadyList t.

Lemma make_ready_run {B} G k t c l (f : unit -> KM B) :
  sched_ok G k -> tcbs k !! t = Some c -> cont k (StateItem t) = Some l ->
  exists k' G', (make_ready t ≫= f) k = f tt k' /\ sched_ok G' k' /\
    moved (StateItem t) (Some (Ready (uxPriority c))) k k'.
Proof.
  intros Hok Ec Hl. apply (cont_in _ _ _ _ _ _ Hok) in Hl as Hin. unfold make_ready. rewrite bind_assoc.
  match goal with |- context [on_lists _ ≫= ?g] =>
    destruct (take_run _ None G k l (StateItem t) g Hok Hin) as (k1 & -> & Hok1 & M1 & _); [by left|] end.
  assert (Ec1 : tcbs k1 !! t = Some c) by by rewrite (st_tcbs _ _ (mv_same _ _ _ _ M1)).
  destruct (add_ready_run _ _ _ k1 t c f Hok1 Ec1) as (k2 & -> & Hok2 & M2).
  { rewrite (mv_cont _ _ _ _ M1). by rewrite decide_True. }
  { pose proof (so_fits _ _ _ _ Hok _ _ Hin) as Hf. destruct l; cbn in *; try (by left).
    destruct Hf as (c' & E & <-). right. congruence. }
  destruct M1 as [S1 C1 V1 Y1 U1], M2 as [S2 C2 V2 Y2 U2].
  pose proof (same_tasks_trans _ _ _ S1 S2) as S.
  exists k2. eexists. split; [done|]. split.
  - unfold sched_ok. rewrite (st_tick _ _ S). exact Hok2.
  - constructor; [done| | |congruence..].
    + intros q. rewrite C2, C1. by repeat case_decide.
    + intros q. by rewrite V2.
Qed.

Lemma ready_settled idle G k t c k' G' :
  settled idle G k -> tcbs k !! t = Some c -> sched_ok G' k' ->
  moved (StateItem t) (Some (Ready (uxPriority c))) k k' -> settled idle G' k'.
Proof.
  intros Hse Ec Hok' [S C V Y U]. pose proof (se_idle _ _ _ Hse) as (ci & Eci & Hci).
  apply (settled_kept idle G k); [done|done|by apply same_kept|..].
  - rewrite C. destruct (decide (StateItem t = StateItem idle)) as [[= ->]|]; [|done]. congruence.
  - intros u Hu. rewrite C. destruct (decide _); [by eexists|by apply (se_placed _ _ _ Hse)].
  - intros u. rewrite C. rewrite decide_False by done. apply (lv_pending _ _ (se_live _ _ _ Hse)).
Qed.

(** The running task yields to the task made ready unless its priority is
    higher: whether it does so at equal priority is free. *)
Lemma yield_to_stable {B} idle G k t c cur k1 G1 b (f : unit -> KM B) :
  stable idle G k -> tcbs k !! t = Some c -> tcbs k !! pxCurrentTCB k = Some cur ->
  sched_ok G1 k1 -> moved (StateItem t) (Some (Ready (uxPriority c))) k k1 ->
  (uxPriority cur < uxPriority c -> b = true) ->
  exists k' G', (when b portYIELD ≫= f) k1 = f tt k' /\ stable idle G' k' /\
    tcbs k' = tcbs k /\ (forall q, cont k' q = cont k1 q) /\ (forall q, value k' q = value k q) /\
    xTickCount k' = xTickCount k.
Proof.
  intros [Hse Htop] Ec Ecur Hok1 Hm Hb. pose proof (ready_settled _ _ _ _ _ _ _ Hse Ec Hok1 Hm) as Hse1.
  destruct Hm as [S C V Y U]. destruct b; cbn [when].
  - destruct (switch_settled idle G1 k1 f Hse1) as (k2 & G2 & Hrun & Hst & C2 & T2 & V2 & X2).
    exists k2, G2. split; [exact Hrun|]. split; [done|]. split_and!.
    + rewrite T2. apply (st_tcbs _ _ S).
    + done.
    + intros q. by rewrite V2.
    + rewrite X2. apply (st_tick _ _ S).
  - exists k1, G1. rewrite bind_ret. split; [done|]. split; [|split_and!; try done; by destruct S].
    split; [done|]. apply (top_kept k); [done|by apply same_kept|..].
    + rewrite C. destruct (decide (StateItem t = StateItem (pxCurrentTCB k))) as [[= E]|]; [|done].
      destruct Htop as (c' & Ec' & Hc' & _). rewrite Hc'. congruence.
    + intros cur' u cu Ecur' Eu. rewrite C. destruct (decide _) as [[= <-]|]; [|by left]. intros _.
      right. assert (cu = c) as -> by congruence. assert (cur' = cur) as -> by congruence.
      destruct (Z.le_gt_cases (uxPriority c) (uxPriority cur)) as [|Hgt]; [done|].
      assert (false = true) by (apply Hb; lia). done.
Qed.

(** ** Resuming a task *)
Definition suspended (k : kernel) (t : Z) : bool :=
  bool_decide (cont k (StateItem t) = Some xSuspendedTaskList) && bool_decide (cont k (EventItem t) = None).

Lemma suspended_run {B} G k t c (f : bool -> KM B) :
  sched_ok G k -> tcbs k !! t = Some c -> (prvTaskIsTaskSuspended t ≫= f) k = f (suspended k t) k.
Proof.
  intros Hok Ec. unfold prvTaskIsTaskSuspended, suspended.
  pose proof (cont_item _ _ _ _ _ _ (StateItem t) Hok Ec eq_refl) as Es.
  pose proof (cont_item _ _ _ _ _ _ (EventItem t) Hok Ec eq_refl) as Ee.
  rewrite bind_assoc, (contained_run _ _ _ _ _ _ Es).
  destruct (bool_decide _); cbn [andb]; [|by rewrite bind_ret].
  rewrite bind_assoc, (contained_run _ _ _ _ _ _ Ee).
  destruct (decide (cont k (EventItem t) = Some xPendingReadyList)) as [E|E].
  - rewrite bool_decide_true by done. cbn [negb]. rewrite bind_ret, E. done.
  - rewrite bool_decide_false by done. cbn [negb]. by rewrite bind_assoc, (container_run _ _ _ _ _ Ee), bind_ret.
Qed.

Lemma resume_stable {B} idle G k x (f : unit -> KM B) :
  stable idle G k -> x = 0 \/ is_Some (tcbs k !! x) ->
  exists k' G', (vTaskResume x ≫= f) k = f tt k' /\ stable idle G' k' /\ tcbs k' = tcbs k /\
    xTickCount k' = xTickCount k /\ (forall q, value k' q = value k q) /\
    (forall q, cont k' q =
       match tcbs k !! x with
       | Some c => if decide (q = StateItem x /\ suspended k x = true /\ x <> pxCurrentTCB k) then Some (Ready (uxPriority c))
                   else cont k q
       | None => cont k q
       end).
Proof.
  intros Hst Hx. pose proof Hst as [Hse Htop]. pose proof (se_live _ _ _ Hse) as Hlv.
  pose proof (lv_ok _ _ Hlv) as Hok. destruct (lv_current _ _ Hlv) as [cur Ecur].
  unfold vTaskResume. rewrite bind_assoc, bind_get.
  destruct (Z.eqb_spec x (pxCurrentTCB k)) as [->|Hne]; cbn [negb andb].
  { exists k, G. rewrite bind_ret. split_and!; try done. intros q. rewrite Ecur. rewrite decide_False by tauto. done. }
  destruct (Z.eqb_spec x 0) as [->|H0]; cbn [negb].
  { exists k, G. rewrite bind_ret. split_and!; try done. intros q. destruct (tcbs k !! 0) as [c|] eqn:E; [|done].
    destruct (so_tasks _ _ _ _ Hok _ _ E) as [Hpos _ _ _]. done. }
  destruct Hx as [?|[c Ec]]; [done|]. rewrite Ec. rewrite bind_assoc, (suspended_run G k x c) by done.
  destruct (suspended k x) eqn:Es.
  2:{ exists k, G. rewrite bind_ret. split_and!; try done. intros q. rewrite decide_False by (intros (_ & ? & _); done). done. }
  pose proof Es as [Hs He]%andb_true_iff. apply bool_decide_eq_true in Hs, He.
  match goal with |- context [on_lists ?m ≫= ?g] =>
    assert (Hun : forall k0, ((on_lists m ≫= g) ≫= f) k0 = (make_ready x ≫= fun _ =>
      (c ← ld_tcb x; k ← get; cur ← ld_tcb (pxCurrentTCB k); when (uxPriority cur <=? uxPriority c) portYIELD) ≫= f) k0) end.
  { intros k0. unfold make_ready. rewrite !bind_assoc. apply bind_ext. intros n k1. by rewrite bind_assoc. }
  rewrite Hun. clear Hun.
  match goal with |- context [make_ready x ≫= ?g] =>
    destruct (make_ready_run G k x c _ g Hok Ec Hs) as (k1 & G1 & -> & Hok1 & Hm) end.
  pose proof (mv_same _ _ _ _ Hm) as S. rewrite bind_assoc, (ld_tcb_run x c) by by rewrite (st_tcbs _ _ S).
  rewrite bind_assoc, bind_get, bind_assoc, (ld_tcb_run _ cur) by by rewrite (st_tcbs _ _ S), (st_current _ _ S).
  destruct (yield_to_stable idle G k x c cur k1 G1 (uxPriority cur <=? uxPriority c) f) as (k2 & G2 & -> & Hst2 & T2 & C2 & V2 & X2);
    try done; [intros; apply Z.leb_le; lia|].
  exists k2, G2. split_and!; try done. intros q. rewrite C2, (mv_cont _ _ _ _ Hm).
  destruct (decide (q = StateItem x /\ _)) as [(-> & _)|Hq]; [by rewrite decide_True|].
  rewrite decide_False; [done|]. intros <-. by apply Hq.
Qed.

(** ** Delays and yields *)
Lemma yield_stable {B} idle G k (f : unit -> KM B) :
  stable idle G k -> exists k' G', (portYIELD ≫= f) k = f tt k' /\ stable idle G' k' /\
    (forall q, cont k' q = cont k q) /\ tcbs k' = tcbs k /\ (forall q, value k' q = value k q) /\ xTickCount k' = xTickCount k.
Proof. intros [Hse _]. by apply (switch_settled idle G). Qed.

Lemma delay_stable idle G k n :
  stable idle G k -> pxCurrentTCB k <> idle -> 0 <= n < 2 ^ 32 ->
  exists k' G', vTaskDelay n k = Ok tt k' /\ stable idle G' k'.
Proof.
  intros Hst Hne Hn. pose proof Hst as [Hse (c & Ec & Hc & _)]. destruct (decide (n = 0)) as [->|Hn0].
  - unfold vTaskDelay. cbn [Z.ltb Z.compare]. rewrite bind_ret. cbn [Z.eqb pdFALSE when].
    destruct (yield_stable idle G k mret Hst) as (k' & G' & Hrun & Hst' & _). rewrite bind_ret_r in Hrun. by exists k', G'.
  - destruct (se_idle idle G k Hse) as (ci & Eci & Hci).
    destruct (delay_run G k (pxCurrentTCB k) c n) as (k' & G' & Hrun & Hlv & T & X & Htm & _ & Hcont & _ & Htop & Hr); try done.
    { exact (se_live _ _ _ Hse). } { by exists idle, ci. } { lia. }
    exists k', G'. split; [done|]. split; [|done]. constructor; [done| | |].
    + rewrite Hr. apply (se_running _ _ _ Hse).
    + exists ci. rewrite T, Hcont by congruence. done.
    + intros u. rewrite T. intros Hu. destruct (decide (u = pxCurrentTCB k)) as [->|].
      * destruct Htm as [-> | ->]; by eexists.
      * rewrite Hcont by congruence. by apply (se_placed idle G k Hse).
Qed.

(** ** Notifications *)
Definition notified (t ulValue : Z) (eAction : eNotifyAction) (c : TCB_t) : TCB_t :=
  with_notified (notified_value eAction (ucNotifyState c) (ulNotifiedValue c) ulValue).1
    (with_notify_state taskNOTIFICATION_RECEIVED c).

Lemma record_run {B} G k t c v a (f : Z * Z * Z -> KM B) :
  sched_ok G k -> tcbs k !! t = Some c ->
  exists k', (record_notification t v a ≫= f) k =
      f ((notified_value a (ucNotifyState c) (ulNotifiedValue c) v).2, ulNotifiedValue c, ucNotifyState c) k' /\
    sched_ok G k' /\ block_set k k' /\ tcbs k' = <[t := notified t v a c]> (tcbs k).
Proof.
  intros Hok Ec. unfold record_notification. rewrite bind_assoc, (ld_tcb_run _ _ _ _ Ec), bind_assoc.
  match goal with |- context [st_tcb ?g t ≫= ?h] =>
    destruct (block_set_run G k t c g h) as (k1 & -> & Hok1 & B1 & T1); [done|done|done|] end.
  rewrite bind_assoc.
  match goal with |- context [st_tcb ?g t ≫= ?h] =>
    destruct (block_set_run G k1 t (with_notify_state taskNOTIFICATION_RECEIVED c) g h) as (k2 & -> & Hok2 & B2 & T2);
      [done|done|by rewrite T1, lookup_insert_eq|] end.
  exists k2. rewrite bind_ret. split; [done|]. split; [done|]. split; [by eapply block_set_trans|].
  by rewrite T2, T1, insert_insert_eq.
Qed.

(** The task waits: it becomes ready, and runs if its priority is the
    highest. *)
Lemma notify_stable {B} idle G k t c v a (f : Z * Z -> KM B) :
  stable idle G k -> tcbs k !! t = Some c ->
  exists k' G', (xTaskGenericNotify t v a ≫= f) k =
      f ((notified_value a (ucNotifyState c) (ulNotifiedValue c) v).2, ulNotifiedValue c) k' /\
    stable idle G' k' /\ tcbs k' = <[t := notified t v a c]> (tcbs k) /\
    (forall q, cont k' q =
       if decide (q = StateItem t /\ ucNotifyState c = taskWAITING_NOTIFICATION) then Some (Ready (uxPriority c))
       else cont k q) /\
    (forall q, value k' q = value k q) /\ xTickCount k' = xTickCount k.
Proof.
  intros Hst Ec. pose proof Hst as [Hse _]. pose proof (lv_ok _ _ (se_live _ _ _ Hse)) as Hok.
  unfold xTaskGenericNotify. rewrite bind_assoc.
  match goal with |- context [record_notification t v a ≫= ?g] =>
    destruct (record_run G k t c v a g Hok Ec) as (k1 & -> & Hok1 & [K1 C1 V1 X1 _] & T1) end.
  pose proof (stable_same idle G k k1 G Hst Hok1 K1 C1) as Hst1. rewrite bind_assoc.
  set (c1 := notified t v a c) in *. assert (Ec1 : tcbs k1 !! t = Some c1) by by rewrite T1, lookup_insert_eq.
  destruct (Z.eqb_spec (ucNotifyState c) taskWAITING_NOTIFICATION) as [Ew|Ew]; cbn [when].
  2:{ exists k1, G. rewrite !bind_ret. split_and!; try done. intros q. rewrite decide_False by tauto. apply C1. }
  pose proof Hst1 as [Hse1 (cur & Ecur & _)]. destruct (se_placed _ _ _ Hse1 t) as [l Hl]; [by eexists|].
  match goal with |- context [on_lists ?m ≫= ?g] =>
    assert (Hun : forall h k0, ((on_lists m ≫= g) ≫= (h : unit -> KM B)) k0 = (make_ready t ≫= fun _ =>
      (c ← ld_tcb t; k ← get; cur ← ld_tcb (pxCurrentTCB k); when (uxPriority cur <? uxPriority c) portYIELD) ≫= h) k0) end.
  { intros h k0. unfold make_ready. rewrite !bind_assoc. apply bind_ext. intros n k2. by rewrite bind_assoc. }
  rewrite Hun. clear Hun.
  match goal with |- context [make_ready t ≫= ?g] =>
    destruct (make_ready_run G k1 t c1 _ g Hok1 Ec1 Hl) as (k2 & G2 & -> & Hok2 & Hm) end.
  pose proof (mv_same _ _ _ _ Hm) as S. rewrite bind_assoc, (ld_tcb_run t c1) by by rewrite (st_tcbs _ _ S).
  rewrite bind_assoc, bind_get, bind_assoc, (ld_tcb_run _ cur) by by rewrite (st_tcbs _ _ S), (st_current _ _ S).
  match goal with |- context [when _ portYIELD ≫= ?g] =>
    destruct (yield_to_stable idle G k1 t c1 cur k2 G2 (uxPriority cur <? uxPriority c1) g) as (k3 & G3 & -> & Hst3 & T3 & C3 & V3 & X3);
      try done; [intros; apply Z.ltb_lt; lia|] end.
  exists k3, G3. rewrite bind_ret. split_and!; try done.
  - congruence.
  - intros q. rewrite C3, (mv_cont _ _ _ _ Hm), C1.
    destruct (decide (StateItem t = q)) as [<-|Hq]; [by rewrite decide_True|].
    rewrite decide_False by naive_solver. done.
  - intros q. by rewrite V3, V1.
  - congruence.
Qed.

(** The running task waits for an event, for [n] ticks or for ever. *)
Lemma block_stable {B} idle G k n (f : unit -> KM B) :
  stable idle G k -> pxCurrentTCB k <> idle -> 0 < n < 2 ^ 32 ->
  exists k' G', (prvAddCurrentTaskToDelayedList n pdTRUE ≫= fun _ => portYIELD ≫= f) k = f tt k' /\
    stable idle G' k' /\ tcbs k' = tcbs k /\
    (forall q, cont k' q = if decide (q = StateItem (pxCurrentTCB k)) then Some (block_list k n pdTRUE) else cont k q).
Proof.
  intros [Hse (c & Ec & Hc & _)] Hne Hn. pose proof (lv_ok _ _ (se_live _ _ _ Hse)) as Hok.
  match goal with |- context [prvAddCurrentTaskToDelayedList _ _ ≫= ?g] =>
    destruct (block_current_run _ G k c n pdTRUE g Hok eq_refl Ec Hc Hn) as (k1 & G1 & -> & Hok1 & [S C _ _] & _) end.
  assert (Hse1 : settled idle G1 k1).
  { apply (settled_kept idle G k); [done| |by apply same_kept|..].
    - unfold sched_ok. rewrite (st_tick _ _ S). exact Hok1.
    - rewrite C. by rewrite decide_False by congruence.
    - intros t Ht. rewrite C. destruct (decide _); [by eexists|by apply (se_placed _ _ _ Hse)].
    - intros t. rewrite C. rewrite decide_False by done. apply (lv_pending _ _ (se_live _ _ _ Hse)). }
  destruct (switch_settled idle G1 k1 f Hse1) as (k2 & G2 & Hrun & Hst & C2 & T2 & V2 & X2).
  exists k2, G2. split; [exact Hrun|]. split; [done|]. split; [by rewrite T2, (st_tcbs _ _ S)|].
  intros q. rewrite C2, C. by repeat case_decide.
Qed.

Lemma take_wait_stable idle G k n :
  stable idle G k -> pxCurrentTCB k <> idle -> 0 <= n < 2 ^ 32 ->
  exists k' G', ulTaskNotifyTake_wait n k = Ok tt k' /\ stable idle G' k'.
Proof.
  intros Hst Hne Hn. pose proof Hst as [Hse (c & Ec & _)]. pose proof (lv_ok _ _ (se_live _ _ _ Hse)) as Hok.
  unfold ulTaskNotifyTake_wait. rewrite bind_get, (ld_tcb_run _ _ _ _ Ec).
  destruct (ulNotifiedValue c =? 0); cbn [when]; [|by exists k, G].
  match goal with |- context [st_tcb ?g _ ≫= ?h] =>
    destruct (block_set_run G k (pxCurrentTCB k) c g h) as (k1 & -> & Hok1 & [K1 C1 V1 X1 _] & T1); [done|done|done|] end.
  pose proof (stable_same idle G k k1 G Hst Hok1 K1 C1) as Hst1.
  destruct (Z.ltb_spec 0 n); cbn [when]; [|by exists k1, G].
  destruct (block_stable idle G k1 n mret Hst1) as (k2 & G2 & Hrun & Hst2 & _); [by rewrite (kp_current _ _ K1)|lia|].
  exists k2, G2. split; [|done]. etransitivity; [|exact Hrun]. apply bind_ext. intros [] k3. by rewrite bind_ret_r.
Qed.

Lemma take_finish_stable {B} idle G k b (f : Z -> KM B) :
  stable idle G k ->
  exists r k', (ulTaskNotifyTake_finish b ≫= f) k = f r k' /\ stable idle G k'.
Proof.
  intros Hst. pose proof Hst as [Hse (c & Ec & _)]. pose proof (lv_ok _ _ (se_live _ _ _ Hse)) as Hok.
  unfold ulTaskNotifyTake_finish. rewrite bind_assoc, bind_get, bind_assoc, (ld_tcb_run _ _ _ _ Ec), bind_assoc.
  set (g := if negb (b =? pdFALSE) then with_notified 0 else with_notified (ulNotifiedValue c - 1)%word).
  assert (Hw : forall h : unit -> KM B, (when (negb (ulNotifiedValue c =? 0)) (if negb (b =? pdFALSE) then st_tcb (with_notified 0) (pxCurrentTCB k)
     else st_tcb (with_notified (ulNotifiedValue c - 1)%word) (pxCurrentTCB k)) ≫= h) k =
     (when (negb (ulNotifiedValue c =? 0)) (st_tcb g (pxCurrentTCB k)) ≫= h) k).
  { intros h. subst g. by destruct (negb (b =? pdFALSE)). }
  rewrite Hw. clear Hw.
  match goal with |- context [when ?b (st_tcb g _) ≫= ?h] =>
    destruct (when_block_run G k (pxCurrentTCB k) c b g h) as (k1 & -> & Hok1 & B1 & T1);
      [intros c'; subst g; by destruct (negb _)|done|done|] end.
  assert (exists c1, tcbs k1 !! pxCurrentTCB k = Some c1) as [c1 Ec1].
  { rewrite T1. destruct (negb (ulNotifiedValue c =? 0)); [eexists; apply lookup_insert_eq|by eexists]. }
  rewrite bind_assoc.
  match goal with |- context [st_tcb ?g _ ≫= ?h] =>
    destruct (block_set_run G k1 (pxCurrentTCB k) c1 g h) as (k2 & -> & Hok2 & B2 & T2); [done|done|done|] end.
  rewrite bind_ret. exists (ulNotifiedValue c), k2. split; [done|].
  destruct (block_set_trans _ _ _ B1 B2) as [K C V X _]. by apply (stable_same idle G k).
Qed.

(** ** Calls and reachable states

    The calls of the running task and the tick interrupt, in any order. *)
Inductive call : Type :=
| Tick | Yield | Delay (xTicksToDelay : Z) | Suspend (xTaskToSuspend : Z) | Resume (xTaskToResume : Z)
| Notify (xTaskToNotify ulValue : Z) (eAction : eNotifyAction)
| TakeWait (xTicksToWait : Z) | TakeFinish (xClearCountOnExit : Z).

Definition perform (c : call) : KM unit :=
  match c with
  | Tick => FreeRTOS_Tick_Handler
  | Yield => portYIELD
  | Delay n => vTaskDelay n
  | Suspend t => vTaskSuspend t
  | Resume t => vTaskResume t
  | Notify t v a => xTaskGenericNotify t v a ;; mret tt
  | TakeWait n => ulTaskNotifyTake_wait n
  | TakeFinish b => ulTaskNotifyTake_finish b ;; mret tt
  end.

(** Handles are those of tasks, tick counts have 32 bits, and the idle task
    neither blocks nor is suspended. *)
Definition allowed (idle : Z) (k : kernel) (c : call) : Prop :=
  match c with
  | Tick | Yield | TakeFinish _ => True
  | Delay n | TakeWait n => pxCurrentTCB k <> idle /\ is_u32 n
  | Suspend t => is_Some (tcbs k !! handle k t) /\ handle k t <> idle
  | Resume t => t = 0 \/ is_Some (tcbs k !! t)
  | Notify t _ _ => is_Some (tcbs k !! t)
  end.

Inductive reachable (idle : Z) (k : kernel) : kernel -> Prop :=
| reach_start : reachable idle k k
| reach_call k1 k2 c : reachable idle k k1 -> allowed idle k1 c -> perform c k1 = Ok tt k2 -> reachable idle k k2.

Lemma perform_stable idle G k c :
  stable idle G k -> allowed idle k c -> exists k' G', perform c k = Ok tt k' /\ stable idle G' k'.
Proof.
  intros Hst Ha. destruct c as [| |n|x|x|t v a|n|b]; cbn [perform allowed] in *.
  - destruct (tick_stable idle G k mret Hst) as (k' & G' & Hrun & Hst' & _). exists k', G'.
    by rewrite bind_ret_r in Hrun.
  - destruct (yield_stable idle G k mret Hst) as (k' & G' & Hrun & Hst' & _). exists k', G'.
    by rewrite bind_ret_r in Hrun.
  - destruct Ha. by apply (delay_stable idle G).
  - destruct Ha as [Hx Hne]. destruct (suspend_stable idle G k x mret Hst Hx Hne) as (k' & G' & Hrun & Hst' & _).
    exists k', G'. by rewrite bind_ret_r in Hrun.
  - destruct (resume_stable idle G k x mret Hst Ha) as (k' & G' & Hrun & Hst' & _).
    exists k', G'. by rewrite bind_ret_r in Hrun.
  - destruct Ha as [ct Ect].
    destruct (notify_stable idle G k t ct v a (fun _ => mret tt) Hst Ect) as (k' & G' & Hrun & Hst' & _). by exists k', G'.
  - destruct Ha. by apply (take_wait_stable idle G).
  - destruct (take_finish_stable idle G k b (fun _ => mret tt) Hst) as (r & k' & Hrun & Hst'). by exists k', G.
Qed.

Lemma reachable_stable idle G k k' :
  stable idle G k -> reachable idle k k' -> exists G', stable idle G' k'.
Proof.
  intros Hst Hr. induction Hr as [|k1 k2 c Hr [G1 Hst1] Ha Hrun]; [by exists G|].
  destruct (perform_stable idle G1 k1 c Hst1 Ha) as (k' & G' & Hrun' & Hst').
  rewrite Hrun in Hrun'. apply ok_inj in Hrun' as [_ <-]. by exists G'.
Qed.

(** ** What the running system promises *)

(** From a stable state only stable states are reached, and in all of them
    the next call returns. *)
Lemma next_call_stable idle G k k1 c :
  stable idle G k -> reachable idle k k1 -> allowed idle k1 c ->
  exists k2 G2, perform c k1 = Ok tt k2 /\ stable idle G2 k2.
Proof.
  intros Hst Hr Ha. destruct (reachable_stable _ _ _ _ Hst Hr) as [G1 Hst1].
  by apply (perform_stable idle G1).
Qed.

Lemma ticks_stable idle n : forall G k, stable idle G k -> exists k' G', ticks n k = Ok tt k' /\ stable idle G' k'.
Proof.
  induction n as [|n IH]; intros G k Hst; cbn [ticks]; [by exists k, G|].
  destruct (tick_stable idle G k (fun _ => ticks n) Hst) as (k1 & G1 & -> & Hst1 & _). by apply (IH G1).
Qed.

(** A task that waits is on a delayed list, so it is not ready. *)
Lemma timed_not_ready G k t : sched_ok G k -> timed k t -> ~ ready k t.
Proof. intros Hok Ht (c & Ec & Hc). by apply (ready_not_timed G k t c). Qed.

Lemma delay_ready_run idle G k n :
  stable idle G k -> pxCurrentTCB k <> idle -> 0 < n < 2 ^ 32 ->
  exists k1 G1, vTaskDelay n k = Ok tt k1 /\ stable idle G1 k1 /\ xTickCount k1 = xTickCount k /\
    forall j, Z.of_nat j <= n -> exists k2 G2, ticks j k1 = Ok tt k2 /\ stable idle G2 k2 /\
      xTickCount k2 = u32 (xTickCount k + Z.of_nat j) /\ (ready k2 (pxCurrentTCB k) <-> Z.of_nat j = n).
Proof.
  intros Hst Hne Hn. pose proof Hst as [Hse (c & Ec & Hc & _)]. destruct (se_idle idle G k Hse) as (ci & Eci & Hci).
  destruct (delay_run G k (pxCurrentTCB k) c n) as (k1 & G1 & Hrun & Hlv & T & X & Htm & Hleft & _); try done.
  { exact (se_live _ _ _ Hse). } { by exists idle, ci. }
  destruct (delay_stable idle G k n Hst Hne) as (k1' & G1' & Hrun' & Hst1); [lia|].
  rewrite Hrun in Hrun'. apply ok_inj in Hrun' as [_ <-].
  exists k1, G1'. split; [done|]. split; [done|]. split; [done|]. intros j Hj.
  destruct (ticks_run j G1 k1 (pxCurrentTCB k) c Hlv) as (k2 & G2 & Hrun2 & Hlv2 & T2 & X2 & Hres);
    [by rewrite T|done|by rewrite Hleft|].
  destruct (ticks_stable idle j G1' k1 Hst1) as (k2' & G2' & Hrun2' & Hst2).
  rewrite Hrun2 in Hrun2'. apply ok_inj in Hrun2' as [_ <-].
  exists k2, G2'. split; [done|]. split; [done|]. split; [by rewrite X2, X|]. rewrite Hleft in Hres.
  destruct (Z.ltb_spec (Z.of_nat j) n).
  - destruct Hres as [Hres _]. split; [|lia]. intros Hr. by destruct (timed_not_ready G2 k2 _ (lv_ok _ _ Hlv2) Hres Hr).
  - split; [lia|]. intros _. exists c. rewrite T2, T. split; [done|apply Hres].
Qed.

(** ** Waiting for a notification *)

(** With no bound on the time and no notification, the running task waits on
    the list of the suspended tasks. *)
Lemma take_blocks_run idle G k c :
  stable idle G k -> pxCurrentTCB k <> idle -> tcbs k !! pxCurrentTCB k = Some c -> ulNotifiedValue c = 0 ->
  exists k' G', ulTaskNotifyTake_wait portMAX_DELAY k = Ok tt k' /\ stable idle G' k' /\
    tcbs k' = <[pxCurrentTCB k := with_notify_state taskWAITING_NOTIFICATION c]> (tcbs k) /\
    (forall q, cont k' q = if decide (q = StateItem (pxCurrentTCB k)) then Some xSuspendedTaskList else cont k q).
Proof.
  intros Hst Hne Ec H0. pose proof Hst as [Hse _]. pose proof (lv_ok _ _ (se_live _ _ _ Hse)) as Hok.
  unfold ulTaskNotifyTake_wait. rewrite bind_get, (ld_tcb_run _ _ _ _ Ec), H0. cbn [Z.eqb when].
  match goal with |- context [st_tcb ?g _ ≫= ?h] =>
    destruct (block_set_run G k (pxCurrentTCB k) c g h) as (k1 & -> & Hok1 & [K1 C1 V1 X1 _] & T1); [done|done|done|] end.
  pose proof (stable_same idle G k k1 G Hst Hok1 K1 C1) as Hst1.
  change (0 <? portMAX_DELAY) with true. cbn [when]. pose proof (kp_current _ _ K1) as Ecur.
  destruct (block_stable idle G k1 portMAX_DELAY mret Hst1) as (k2 & G2 & Hrun & Hst2 & T2 & C2); [by rewrite Ecur|done|].
  exists k2, G2. split; [|split; [done|split; [by rewrite T2|]]].
  - etransitivity; [|exact Hrun]. apply bind_ext. intros [] k3. by rewrite bind_ret_r.
  - intros q. by rewrite C2, Ecur, C1.
Qed.

Lemma state_blocked G k t c :
  sched_ok G k -> tcbs k !! t = Some c -> t <> pxCurrentTCB k -> suspended k t = true ->
  ucNotifyState c = taskWAITING_NOTIFICATION -> eTaskGetState t k = Ok eBlocked k.
Proof.
  intros Hok Ec Hne Hs Hw. apply andb_true_iff in Hs as [Hs He]. apply bool_decide_eq_true in Hs, He.
  unfold eTaskGetState. rewrite bind_get, (proj2 (Z.eqb_neq _ _) Hne).
  rewrite (container_run _ _ _ _ _ (cont_item _ _ _ _ _ _ (StateItem t) Hok Ec eq_refl)), Hs.
  assert (Hd : xSuspendedTaskList <> pxDelayedTaskList k /\ xSuspendedTaskList <> pxOverflowDelayedTaskList k)
    by (by destruct (so_ids _ _ _ _ Hok) as [[-> ->]|[-> ->]]).
  rewrite !(bool_decide_false (Some _ = Some _)) by naive_solver. cbn [orb].
  rewrite bool_decide_true by done.
  rewrite (container_run _ _ _ _ _ (cont_item _ _ _ _ _ _ (EventItem t) Hok Ec eq_refl)), He.
  rewrite bool_decide_true by done. rewrite (ld_tcb_run _ _ _ _ Ec), Hw. done.
Qed.

(** C31: [vTaskResume] does not only resume suspended tasks.  A task blocked in
    [ulTaskNotifyTake] without a time-out is reported as blocked, and is on no
    event list; resuming it makes it ready although it was never suspended and
    nobody notified it: its notification value is still 0 and its state still
    that of a task waiting for a notification. *)
Theorem resume_ends_notification_wait idle G k c :
  stable idle G k -> pxCurrentTCB k <> idle -> tcbs k !! pxCurrentTCB k = Some c -> ulNotifiedValue c = 0 ->
  cont k (EventItem (pxCurrentTCB k)) = None ->
  exists k1 k2 G2 c2, ulTaskNotifyTake_wait portMAX_DELAY k = Ok tt k1 /\
    eTaskGetState (pxCurrentTCB k) k1 = Ok eBlocked k1 /\
    vTaskResume (pxCurrentTCB k) k1 = Ok tt k2 /\ stable idle G2 k2 /\ ready k2 (pxCurrentTCB k) /\
    tcbs k2 !! pxCurrentTCB k = Some c2 /\ ulNotifiedValue c2 = 0 /\ ucNotifyState c2 = taskWAITING_NOTIFICATION.
Proof.
  intros Hst Hne Ec H0 He. destruct (take_blocks_run idle G k c Hst Hne Ec H0) as (k1 & G1 & Hrun & Hst1 & T1 & C1).
  set (t := pxCurrentTCB k) in *. set (c1 := with_notify_state taskWAITING_NOTIFICATION c) in *.
  pose proof Hst1 as [Hse1 (cur & Ecur & Hcur & _)]. pose proof (lv_ok _ _ (se_live _ _ _ Hse1)) as Hok1.
  assert (Ec1 : tcbs k1 !! t = Some c1) by (rewrite T1; apply lookup_insert_eq).
  assert (Hs : suspended k1 t = true).
  { unfold suspended. rewrite !C1, decide_True, decide_False by done. rewrite He. by rewrite !bool_decide_true. }
  assert (Hnt : t <> pxCurrentTCB k1). { intros E. rewrite <- E, C1, decide_True in Hcur by done. done. }
  destruct (resume_stable idle G1 k1 t mret Hst1) as (k2 & G2 & Hrun2 & Hst2 & T2 & _ & _ & C2); [right; by eexists|].
  rewrite bind_ret_r in Hrun2. exists k1, k2, G2, c1. split; [done|].
  split; [by apply (state_blocked G1 k1 t c1)|]. do 2 (split; [done|]). split; [|by rewrite T2].
  exists c1. rewrite T2. split; [done|]. by rewrite C2, Ec1, decide_True.
Qed.

(** C11: the scheduler never gets into a bad state.  From a stable state
    (every list consistent, the delayed lists sorted, no task lost, the running
    task a ready one of the highest priority), after any sequence of ticks and
    of calls by the running task, any further call returns, in a stable state.
    None of them hangs, runs out of fuel or reads what is not there. *)
Theorem scheduler_stays_stable idle G k k1 c :
  stable idle G k -> reachable idle k k1 -> allowed idle k1 c ->
  exists k2 G2, perform c k1 = Ok tt k2 /\ stable idle G2 k2.
Proof. exact (next_call_stable idle G k k1 c). Qed.

(** C14: a delay is exact.  A task that calls [vTaskDelay n] is not ready
    during the next [n - 1] ticks and is ready after the [n]th, also when the
    tick counter wraps around meanwhile. *)
Theorem vTaskDelay_exact idle G k n :
  stable idle G k -> pxCurrentTCB k <> idle -> 0 < n < 2 ^ 32 ->
  exists k1 G1, vTaskDelay n k = Ok tt k1 /\ stable idle G1 k1 /\ xTickCount k1 = xTickCount k /\
    forall j, Z.of_nat j <= n -> exists k2 G2, ticks j k1 = Ok tt k2 /\ stable idle G2 k2 /\
      xTickCount k2 = u32 (xTickCount k + Z.of_nat j) /\ (ready k2 (pxCurrentTCB k) <-> Z.of_nat j = n).
Proof. exact (delay_ready_run idle G k n). Qed.

(** C30: [xTaskNotify] stores the value its action asks for, gives the previous
    one, and makes the task ready exactly when it was waiting for a
    notification; no other task moves, and the running task is again a ready
    one of the highest priority. *)
Theorem xTaskGenericNotify_delivers idle G k t c v a :
  stable idle G k -> tcbs k !! t = Some c ->
  let r := notified_value a (ucNotifyState c) (ulNotifiedValue c) v in
  exists k' G', xTaskGenericNotify t v a k = Ok (r.2, ulNotifiedValue c) k' /\ stable idle G' k' /\
    tcbs k' = <[t := with_notified r.1 (with_notify_state taskNOTIFICATION_RECEIVED c)]> (tcbs k) /\
    (ucNotifyState c = taskWAITING_NOTIFICATION -> ready k' t) /\
    (forall q, q <> StateItem t \/ ucNotifyState c <> taskWAITING_NOTIFICATION -> cont k' q = cont k q).
Proof.
  intros Hst Ec r. destruct (notify_stable idle G k t c v a mret Hst Ec) as (k' & G' & Hrun & Hst' & T & C & _).
  rewrite bind_ret_r in Hrun. exists k', G'. split; [done|]. split; [done|]. split; [done|]. split.
  - intros Hw. eexists. rewrite T, lookup_insert_eq. split; [done|]. by rewrite C, decide_True.
  - intros q Hq. rewrite C, decide_False; [done|]. naive_solver.
Qed.
