(* ===== verification/RtCreate.v ===== *)
(** * FreeRTOS: creating and deleting tasks ([tasks.c], [port.c])

    The calls that use both the scheduler and the heap, on the pair of their
    states.  The heap keeps the headers of its blocks, the scheduler the
    control blocks and the words of the stacks that are inside them. *)
From S2P Require Import Prelude.
From S2P Require Import RtList.
From S2P Require Import RtTasks.
From S2P Require Import RtHeap.

Local Open Scope Z_scope.

(** ** Constants ([FreeRTOSConfig.h], [projdefs.h], [port.c]) *)
Definition configMAX_TASK_NAME_LEN : Z := 10.
Definition configMINIMAL_STACK_SIZE : Z := 200.
Definition errCOULD_NOT_ALLOCATE_REQUIRED_MEMORY : Z := -1.
Definition pdPASS : Z := pdTRUE.
Definition sizeof_StackType_t : Z := 4.
Definition sizeof_TCB_t : Z := 88.
Definition portINITIAL_SPSR : Z := 0x1f.
Definition portTHUMB_MODE_BIT : Z := 0x20.
Definition portTHUMB_MODE_ADDRESS : Z := 1.
Definition portTASK_RETURN_ADDRESS : Z := 0.
Definition portNO_CRITICAL_NESTING : Z := 0.
Definition portNO_FLOATING_POINT_CONTEXT : Z := 0.

(** ** The first frame of a task *)

(** A word outside the stacks belongs to something else. *)
Definition st_word (a v : Z) : KM unit := fun k =>
  match words k !! a with Some _ => Ok tt (set_words (<[a := v]> (words k)) k) | None => Undef end.

(** [*p = v; p--;] *)
Definition push (v p : Z) : KM Z := st_word p v ;; mret (p - 4)%word.

Definition pxPortInitialiseStack (pxTopOfStack pxCode pvParameters : Z) : KM Z :=
  p ← push 0 pxTopOfStack;
  p ← push 0 p;
  p ← push 0 p;
  st_word p portINITIAL_SPSR ;;
  when (negb ((pxCode .& portTHUMB_MODE_ADDRESS)%word =? 0))
    (v ← ld_word p; st_word p (v .| portTHUMB_MODE_BIT)%word) ;;
  let p := (p - 4)%word in
  p ← push pxCode p;
  p ← push portTASK_RETURN_ADDRESS p;
  p ← push 0x12121212 p;
  p ← push 0x11111111 p;
  p ← push 0x10101010 p;
  p ← push 0x09090909 p;
  p ← push 0x08080808 p;
  p ← push 0x07070707 p;
  p ← push 0x06060606 p;
  p ← push 0x05050505 p;
  p ← push 0x04040404 p;
  p ← push 0x03030303 p;
  p ← push 0x02020202 p;
  p ← push 0x01010101 p;
  p ← push pvParameters p;
  p ← push portNO_CRITICAL_NESTING p;
  st_word p portNO_FLOATING_POINT_CONTEXT ;;
  mret p.

(** ** A new task *)

(** [memset( pxStack, 0xa5, n )]: the stack now belongs to a task. *)
Definition fill_stack (pxStack n : Z) : KM unit :=
  for_range 0 (Z.to_nat (n / 4)) (fun i =>
    k ← get; modify (set_words (<[(pxStack + 4 * i)%word := ulCheckValue]> (words k)))).

(** The loop stops after the terminator. *)
Fixpoint copy_name (pcName : Z -> Z) (t : Z) (n : nat) (x : Z) : KM unit :=
  match n with
  | O => mret tt
  | S n' =>
      c ← ld_tcb t; st_tcb (with_name (<[x := pcName x]> (pcTaskName c))) t ;;
      if pcName x =? 0 then mret tt else copy_name pcName t n' (x + 1)
  end.

Definition prvInitialiseNewTask (pxTaskCode : Z) (pcName : Z -> Z) (ulStackDepth pvParameters uxPriority pxNewTCB : Z)
  : KM unit :=
  c ← ld_tcb pxNewTCB;
  fill_stack (pxStack c) (ulStackDepth * sizeof_StackType_t)%word ;;
  let pxTopOfStack := (pxStack c + (ulStackDepth - 1) * sizeof_StackType_t)%word in
  let pxTopOfStack := (pxTopOfStack .& ~! portBYTE_ALIGNMENT_MASK)%word in
  copy_name pcName pxNewTCB (Z.to_nat configMAX_TASK_NAME_LEN) 0 ;;
  c ← ld_tcb pxNewTCB; st_tcb (with_name (<[configMAX_TASK_NAME_LEN - 1 := 0]> (pcTaskName c))) pxNewTCB ;;
  let uxPriority :=
    if configMAX_PRIORITIES <=? uxPriority then (configMAX_PRIORITIES - 1)%word else uxPriority in
  st_tcb (with_priority uxPriority) pxNewTCB ;;
  st_tcb (with_base uxPriority) pxNewTCB ;;
  st_tcb (with_mutexes 0) pxNewTCB ;;
  on_lists (vListInitialiseItem (StateItem pxNewTCB)) ;;
  on_lists (vListInitialiseItem (EventItem pxNewTCB)) ;;
  on_lists (st_owner (StateItem pxNewTCB) pxNewTCB) ;;
  on_lists (st_value (EventItem pxNewTCB) (configMAX_PRIORITIES - uxPriority)%word) ;;
  on_lists (st_owner (EventItem pxNewTCB) pxNewTCB) ;;
  st_tcb (with_notified 0) pxNewTCB ;;
  st_tcb (with_notify_state taskNOT_WAITING_NOTIFICATION) pxNewTCB ;;
  top ← pxPortInitialiseStack pxTopOfStack pxTaskCode pvParameters;
  st_tcb (with_top_of_stack top) pxNewTCB.

(** ** Scheduler and heap *)
Record rtos : Type := Rtos { os_kernel : kernel; os_heap : heap }.
Abbreviation RM := (M rtos).

Definition in_kernel {A} (m : KM A) : RM A := fun s =>
  match m (os_kernel s) with
  | Ok a k => Ok a (Rtos k (os_heap s))
  | Hang k => Hang (Rtos k (os_heap s))
  | Undef => Undef
  | NoFuel => NoFuel
  end.
Definition in_heap_4 {A} (m : HM A) : RM A := fun s =>
  match m (os_heap s) with
  | Ok a h => Ok a (Rtos (os_kernel s) h)
  | Hang h => Hang (Rtos (os_kernel s) h)
  | Undef => Undef
  | NoFuel => NoFuel
  end.

(** What the memory of a block holds when it is read as a control block: the
    scalar fields and the two list items. *)
Record raw_tcb : Type := RawTCB {
  raw_fields : TCB_t;
  raw_state_link : MiniListItem_t node; raw_state_item : ListItem_t list_id Z;
  raw_event_link : MiniListItem_t node; raw_event_item : ListItem_t list_id Z
}.

(** A control block comes into being, holding what the memory held, and goes. *)
Definition place_tcb (r : raw_tcb) (t : Z) (k : kernel) : kernel :=
  set_tcbs (<[t := raw_fields r]> (tcbs k))
    (set_store (LStore
       (<[StateItem t := raw_state_link r]> (<[EventItem t := raw_event_link r]> (links (store k))))
       (<[StateItem t := raw_state_item r]> (<[EventItem t := raw_event_item r]> (items (store k))))
       (lists (store k))) k).
Definition remove_tcb (t : Z) (k : kernel) : kernel :=
  set_tcbs (delete t (tcbs k))
    (set_store (LStore (delete (StateItem t) (delete (EventItem t) (links (store k))))
       (delete (StateItem t) (delete (EventItem t) (items (store k)))) (lists (store k))) k).

Section rtos.
(** The addresses of the heap and of the head of its free list, and what the
    memory of the heap holds where it was never written or was freed. *)
Variables ucHeap xStart : Z.
Variable old_memory : rtos -> Z -> raw_tcb.

(** [vApplicationMallocFailedHook] only prints. *)
Definition pvPortMalloc (xWantedSize : Z) : RM Z :=
  in_kernel vTaskSuspendAll ;;
  pvReturn ← in_heap_4 (malloc_locked ucHeap xStart xWantedSize);
  in_kernel xTaskResumeAll ;;
  mret pvReturn.

Definition vPortFree (pv : Z) : RM unit :=
  allocated ← in_heap_4 (free_check ucHeap xStart pv);
  when allocated
    (in_kernel vTaskSuspendAll ;;
     in_heap_4 (free_locked ucHeap xStart pv) ;;
     in_kernel xTaskResumeAll ;; mret tt).

(** The result and [*pxCreatedTask], unless that is NULL or not written. *)
Definition xTaskCreate (pxTaskCode : Z) (pcName : Z -> Z) (usStackDepth pvParameters uxPriority : Z)
  : RM (Z * option Z) :=
  pxStack ← pvPortMalloc (usStackDepth * sizeof_StackType_t)%word;
  pxNewTCB ←
    (if negb (pxStack =? 0) then
       pxNewTCB ← pvPortMalloc sizeof_TCB_t;
       if negb (pxNewTCB =? 0) then
         s ← get; in_kernel (modify (place_tcb (old_memory s pxNewTCB) pxNewTCB)) ;;
         in_kernel (st_tcb (with_stack pxStack) pxNewTCB) ;; mret pxNewTCB
       else vPortFree pxStack ;; mret 0
     else mret 0);
  if negb (pxNewTCB =? 0) then
    in_kernel (prvInitialiseNewTask pxTaskCode pcName usStackDepth pvParameters uxPriority pxNewTCB) ;;
    in_kernel (prvAddNewTaskToReadyList pxNewTCB) ;;
    mret (pdPASS, Some pxNewTCB)
  else mret (errCOULD_NOT_ALLOCATE_REQUIRED_MEMORY, None).

(** Frees the stack, then the control block. *)
Definition prvDeleteTCB (pxTCB : Z) : RM unit :=
  c ← in_kernel (ld_tcb pxTCB); vPortFree (pxStack c) ;;
  vPortFree pxTCB ;; in_kernel (modify (remove_tcb pxTCB)).

Definition vTaskDelete (xTaskToDelete : Z) : RM unit :=
  t ← in_kernel (prvGetTCBFromHandle xTaskToDelete);
  in_kernel (n ← on_lists (uxListRemove (StateItem t));
             when (n =? 0) (c ← ld_tcb t; taskRESET_READY_PRIORITY (uxPriority c))) ;;
  in_kernel (o ← on_lists (listLIST_ITEM_CONTAINER (EventItem t));
             when (negb (bool_decide (o = None))) (on_lists (uxListRemove (EventItem t)) ;; mret tt)) ;;
  in_kernel (k ← get; modify (set_number (uxTaskNumber k + 1)%word)) ;;
  s ← get;
  (if t =? pxCurrentTCB (os_kernel s) then
     in_kernel (on_lists (vListInsertEnd xTasksWaitingTermination (StateItem t)) ;;
                k ← get; modify (set_deleted (uxDeletedTasksWaitingCleanUp k + 1)%word))
   else
     in_kernel (k ← get; modify (set_tasks (uxCurrentNumberOfTasks k - 1)%word)) ;;
     prvDeleteTCB t ;;
     in_kernel prvResetNextTaskUnblockTime) ;;
  in_kernel (k ← get;
    when (negb (xSchedulerRunning k =? pdFALSE)) (when (t =? pxCurrentTCB k) portYIELD)).

(** ** The idle task *)
Fixpoint clean_up (fuel : nat) : RM unit :=
  match fuel with
  | O => no_fuel
  | S f =>
      s ← get;
      if 0 <? uxDeletedTasksWaitingCleanUp (os_kernel s) then
        t ← in_kernel (on_lists (listGET_OWNER_OF_HEAD_ENTRY ListEnd xTasksWaitingTermination));
        in_kernel (on_lists (uxListRemove (StateItem t)) ;;
                   k ← get; modify (set_tasks (uxCurrentNumberOfTasks k - 1)%word) ;;
                   k ← get; modify (set_deleted (uxDeletedTasksWaitingCleanUp k - 1)%word)) ;;
        prvDeleteTCB t ;;
        clean_up f
      else mret tt
  end.
Definition prvCheckTasksWaitingTermination : RM unit :=
  s ← get; clean_up (S (size (tcbs (os_kernel s)))).

(** One round of the loop of the idle task. *)
Definition prvIdleTask_round : RM unit :=
  prvCheckTasksWaitingTermination ;;
  in_kernel (n ← on_lists (listCURRENT_LIST_LENGTH (Ready tskIDLE_PRIORITY)); when (1 <? n) portYIELD).
End rtos.

(** ** Starting the scheduler

    From the point where the idle task and the timer task exist, up to
    [xPortStartScheduler], which does not return. *)
Definition configINITIAL_TICK_COUNT : Z := 0.
Definition start_running : KM unit :=
  modify (set_unblock portMAX_DELAY) ;; modify (set_running pdTRUE) ;; modify (set_tick configINITIAL_TICK_COUNT).
