(* ===== verification/RtStack.v ===== *)
(** * FreeRTOS: the stack and the control block of a new task

    What [prvInitialiseNewTask] leaves in them. *)
From S2P Require Import Prelude.
From S2P Require Import RtList.
From S2P Require Import RtRings.
From S2P Require Import RtTasks.
From S2P Require Import RtHeap.
From S2P Require Import RtAlloc.
From S2P Require Import RtSched.
From S2P Require Import RtTick.
From S2P Require Import RtCreate.

Local Open Scope Z_scope.

(** ** The first frame *)

(** Words written downwards from [p]. *)
Fixpoint put_down (vs : list Z) (p : Z) (m : gmap Z Z) : gmap Z Z :=
  match vs with [] => m | v :: vs' => put_down vs' (p - 4) (<[p := v]> m) end.

Lemma put_down_other vs p m a :
  (forall i : nat, (i < length vs)%nat -> a <> p - 4 * Z.of_nat i) -> put_down vs p m !! a = m !! a.
Proof.
  revert p m. induction vs as [|v vs IH]; intros p m Ha; [done|]. cbn [put_down]. rewrite IH.
  - apply lookup_insert_ne. specialize (Ha 0%nat). cbn in Ha. lia.
  - intros i Hi. specialize (Ha (S i)). cbn in Ha. lia.
Qed.

Lemma put_down_at vs p m i v : vs !! i = Some v -> put_down vs p m !! (p - 4 * Z.of_nat i) = Some v.
Proof.
  revert p m i. induction vs as [|w vs IH]; intros p m i Hi; [done|]. cbn [put_down].
  destruct i as [|i]; cbn in Hi.
  - injection Hi as ->. rewrite put_down_other; [|intros; lia]. rewrite Z.mul_0_r, Z.sub_0_r. apply lookup_insert_eq.
  - rewrite <- (IH (p - 4) (<[p := w]> m) i Hi). f_equal. lia.
Qed.

(** What [portRESTORE_CONTEXT] pops, from the top of the stack down: three
    words for debuggers, the status register, the entry point, r14, r12 to r0,
    the critical nesting count and the floating point flag. *)
Definition first_frame (pxCode pvParameters : Z) : list Z :=
  [0; 0; 0;
   if negb ((pxCode .& portTHUMB_MODE_ADDRESS)%word =? 0) then (portINITIAL_SPSR .| portTHUMB_MODE_BIT)%word
   else portINITIAL_SPSR;
   pxCode; portTASK_RETURN_ADDRESS;
   0x12121212; 0x11111111; 0x10101010; 0x09090909; 0x08080808; 0x07070707; 0x06060606; 0x05050505;
   0x04040404; 0x03030303; 0x02020202; 0x01010101; pvParameters;
   portNO_CRITICAL_NESTING; portNO_FLOATING_POINT_CONTEXT].

Lemma st_word_run {B} a v (f : unit -> KM B) k :
  is_Some (words k !! a) -> (st_word a v ≫= f) k = f tt (set_words (<[a := v]> (words k)) k).
Proof. intros [w E]. unfold mbind, M_bind, st_word. by rewrite E. Qed.
Lemma push_run {B} a v (f : Z -> KM B) k :
  is_Some (words k !! a) -> 4 <= a < 2 ^ 32 ->
  (push v a ≫= f) k = f (a - 4) (set_words (<[a := v]> (words k)) k).
Proof.
  intros Hw Ha. unfold push. rewrite bind_assoc, st_word_run by done. rewrite bind_ret.
  unfold sub32. by rewrite u32_small by (unfold is_u32; lia).
Qed.

Lemma is_Some_insert (m : gmap Z Z) a v b : is_Some (m !! b) -> is_Some (<[a := v]> m !! b).
Proof. intros Hb. rewrite lookup_insert_is_Some'. by right. Qed.

(** Several words pushed. *)
Fixpoint pushes (vs : list Z) (p : Z) : KM Z :=
  match vs with [] => mret p | v :: vs' => p ← push v p; pushes vs' p end.

Definition room (top : Z) (n : nat) (k : kernel) : Prop :=
  4 * Z.of_nat n <= top < 2 ^ 32 /\ forall i : nat, (i < n)%nat -> is_Some (words k !! (top - 4 * Z.of_nat i)).

Lemma room_set top n k a v : room top n k -> room top n (set_words (<[a := v]> (words k)) k).
Proof. intros [? Hw]. split; [done|]. intros i Hi. by apply is_Some_insert, Hw. Qed.
Lemma room_next top n k : room top (S n) k -> room (top - 4) n k.
Proof.
  intros [? Hw]. split; [lia|]. intros i Hi. replace (top - 4 - 4 * Z.of_nat i) with (top - 4 * Z.of_nat (S i)) by lia.
  apply Hw. lia.
Qed.
Lemma room_here top n k : room top (S n) k -> is_Some (words k !! top).
Proof. intros [_ Hw]. specialize (Hw 0%nat ltac:(lia)). by rewrite Z.sub_0_r in Hw. Qed.

Lemma pushes_run {B} vs : forall p n (f : Z -> KM B) k,
  room p (length vs + n) k ->
  (pushes vs p ≫= f) k = f (p - 4 * Z.of_nat (length vs)) (set_words (put_down vs p (words k)) k) /\
  room (p - 4 * Z.of_nat (length vs)) n (set_words (put_down vs p (words k)) k).
Proof.
  induction vs as [|v vs IH]; intros p n f k Hr; cbn [pushes length put_down].
  - rewrite bind_ret. cbn [Nat.add length] in Hr.
    replace (p - 4 * Z.of_nat 0) with p by lia. by destruct k.
  - pose proof (room_here _ _ _ Hr) as Hp. pose proof (proj1 Hr) as Hb. cbn [length Nat.add] in Hb.
    rewrite bind_assoc, push_run by (done || lia).
    destruct (IH (p - 4) n f (set_words (<[p := v]> (words k)) k)) as [-> Hr'].
    { by apply room_set, room_next. }
    replace (p - 4 * Z.of_nat (S (length vs))) with (p - 4 - 4 * Z.of_nat (length vs)) by lia. by split.
Qed.

Lemma put_down_app vs ws p m :
  put_down (vs ++ ws) p m = put_down ws (p - 4 * Z.of_nat (length vs)) (put_down vs p m).
Proof.
  revert p m. induction vs as [|v vs IH]; intros p m; cbn [put_down app length].
  - f_equal; lia.
  - rewrite IH. f_equal. lia.
Qed.

(** The status register: the [T] bit for an entry point in Thumb code. *)
Lemma spsr_run {B} pxCode p (f : unit -> KM B) k :
  is_Some (words k !! p) ->
  (st_word p portINITIAL_SPSR ≫= fun _ =>
     when (negb ((pxCode .& portTHUMB_MODE_ADDRESS)%word =? 0))
       (v ← ld_word p; st_word p (v .| portTHUMB_MODE_BIT)%word) ≫= f) k =
  f tt (set_words (<[p := nth 3 (first_frame pxCode 0) 0]> (words k)) k).
Proof.
  intros Hp. rewrite st_word_run by done. cbn [first_frame nth].
  destruct (negb _); cbn [when]; [|by rewrite bind_ret].
  rewrite bind_assoc, (ld_word_run _ portINITIAL_SPSR) by (cbn [set_words words]; apply lookup_insert_eq).
  rewrite st_word_run by (cbn [set_words words]; rewrite lookup_insert_eq; by eexists).
  cbn [set_words words]. by rewrite insert_insert_eq.
Qed.

Lemma stack_frame_run {B} top pxCode pvParameters (f : Z -> KM B) k :
  room top 21 k ->
  (pxPortInitialiseStack top pxCode pvParameters ≫= f) k =
  f (top - 80) (set_words (put_down (first_frame pxCode pvParameters) top (words k)) k).
Proof.
  intros Hr. unfold pxPortInitialiseStack.
  match goal with |- ((push 0 top ≫= ?g) ≫= f) k = _ =>
    transitivity ((pushes [0; 0; 0] top ≫= fun p =>
      st_word p portINITIAL_SPSR ≫= fun _ =>
        when (negb ((pxCode .& portTHUMB_MODE_ADDRESS)%word =? 0))
          (v ← ld_word p; st_word p (v .| portTHUMB_MODE_BIT)%word) ≫= fun _ =>
        pushes [pxCode; portTASK_RETURN_ADDRESS; 0x12121212; 0x11111111; 0x10101010; 0x09090909;
          0x08080808; 0x07070707; 0x06060606; 0x05050505; 0x04040404; 0x03030303; 0x02020202;
          0x01010101; pvParameters; portNO_CRITICAL_NESTING] (sub32 p 4) ≫= fun p =>
        st_word p portNO_FLOATING_POINT_CONTEXT ≫= fun _ => f p) k) end.
  { cbn [pushes]. repeat (rewrite ?bind_ret, ?bind_assoc, ?bind_ret; apply bind_ext; intros ? ?). done. }
  match goal with |- (pushes ?vs top ≫= ?g) k = _ =>
    destruct (pushes_run vs top 18 g k Hr) as [-> Hr1] end.
  set (k1 := set_words _ k) in *. cbn [length] in Hr1 |- *.
  rewrite spsr_run by by eapply room_here.
  set (k2 := set_words _ k1).
  assert (E : sub32 (top - 4 * Z.of_nat 3) 4 = top - 16).
  { destruct Hr as [Hb _]. unfold sub32. rewrite u32_small by (unfold is_u32; lia). lia. }
  rewrite E. clear E.
  assert (Hr2 : room (top - 16) 17 k2).
  { replace (top - 16) with (top - 4 * Z.of_nat 3 - 4) by lia. by apply room_next, room_set. }
  match goal with |- (pushes ?vs _ ≫= ?g) k2 = _ =>
    destruct (pushes_run vs (top - 16) 1 g k2 Hr2) as [-> Hr3] end.
  rewrite st_word_run by by eapply room_here. cbn [length].
  replace (top - 80) with (top - 16 - 4 * Z.of_nat 16) by lia. unfold k2, k1. cbn [set_words words].
  match goal with |- context [put_down ?vs (top - 16) _] =>
    change (first_frame pxCode pvParameters) with
      ([0; 0; 0] ++ [nth 3 (first_frame pxCode 0) 0] ++ vs ++ [portNO_FLOATING_POINT_CONTEXT]) end.
  rewrite !put_down_app. cbn [length put_down].
  replace (top - 4 * Z.of_nat 3 - 4 * Z.of_nat 1) with (top - 16) by lia. done.
Qed.

(** ** The control block of a new task *)
Definition in_stack (s n a : Z) : Prop := exists j, 0 <= j < n /\ a = s + 4 * j.
#[export] Instance in_stack_dec s n a : Decision (in_stack s n a).
Proof.
  refine (cast_if (decide (0 <= (a - s) / 4 < n /\ s + 4 * ((a - s) / 4) = a))).
  - match goal with H : _ /\ _ |- _ => destruct H as [? E]; exists ((a - s) / 4); split; [done|lia] end.
  - intros (j & Hj & ->). assert ((s + 4 * j - s) / 4 = j) by (replace (s + 4 * j - s) with (j * 4) by lia; by apply Z.div_mul).
    intuition lia.
Qed.

Lemma fill_words {B} s : forall (n : nat) i (f : unit -> KM B) k,
  0 <= s -> 0 <= i -> s + 4 * (i + Z.of_nat n) < 2 ^ 32 ->
  exists w, (for_range i n (fun i => k ← get; modify (set_words (<[(s + 4 * i)%word := ulCheckValue]> (words k)))) ≫= f) k =
      f tt (set_words w k) /\
    (forall a, (exists j, i <= j < i + Z.of_nat n /\ a = s + 4 * j) -> w !! a = Some ulCheckValue) /\
    (forall a, ~ (exists j, i <= j < i + Z.of_nat n /\ a = s + 4 * j) -> w !! a = words k !! a).
Proof.
  induction n as [|n IH]; intros i f k Hs Hi Hb; cbn [for_range].
  - exists (words k). rewrite bind_ret. split; [by destruct k|]. split; [|done]. intros a (j & ? & _). lia.
  - rewrite bind_assoc. cbv beta. rewrite bind_assoc, bind_get, bind_modify.
    destruct (IH (i + 1) f (set_words (<[(s + 4 * i)%word := ulCheckValue]> (words k)) k)) as (w & -> & Hin & Hout); [lia..|].
    assert (E : (s + 4 * i)%word = s + 4 * i).
    { unfold add32, mul32. rewrite !u32_small; rewrite ?u32_small; unfold is_u32; lia. }
    exists w. split; [done|]. rewrite E in Hout. split.
    + intros a (j & Hj & ->). destruct (decide (j = i)) as [->|Hne].
      * rewrite Hout; [cbn [set_words words]; apply lookup_insert_eq|]. intros (j' & ? & ?). lia.
      * apply Hin. exists j. split; [lia|done].
    + intros a Ha. rewrite Hout.
      * cbn [set_words words]. apply lookup_insert_ne. intros <-. apply Ha. exists i. lia.
      * intros (j & Hj & ->). apply Ha. exists j. split; [lia|done].
Qed.

Lemma fill_stack_run {B} s n (f : unit -> KM B) k :
  0 <= s -> 0 <= n -> s + 4 * n < 2 ^ 32 ->
  exists w, (fill_stack s (n * sizeof_StackType_t)%word ≫= f) k = f tt (set_words w k) /\
    forall a, w !! a = if decide (in_stack s n a) then Some ulCheckValue else words k !! a.
Proof.
  intros Hs Hn Hb. unfold fill_stack.
  assert (E : Z.to_nat ((n * sizeof_StackType_t)%word / 4) = Z.to_nat n).
  { unfold mul32, sizeof_StackType_t. rewrite u32_small by (unfold is_u32; lia). by rewrite Z.div_mul. }
  rewrite E. destruct (fill_words s (Z.to_nat n) 0 f k) as (w & -> & Hin & Hout); [lia..|].
  rewrite Z2Nat.id in Hin, Hout by done. exists w. split; [done|]. intros a.
  destruct (decide _) as [H|H]; [by apply Hin|by apply Hout].
Qed.

Lemma copy_name_run {B} nm t : forall n x (f : unit -> KM B) k c,
  tcbs k !! t = Some c ->
  exists m, (copy_name nm t n x ≫= f) k = f tt (set_tcbs (<[t := with_name m c]> (tcbs k)) k).
Proof.
  induction n as [|n IH]; intros x f k c Ec; cbn [copy_name].
  - exists (pcTaskName c). rewrite bind_ret. f_equal. destruct k; unfold set_tcbs; cbn in *. f_equal.
    symmetry. apply insert_id. rewrite Ec. by destruct c.
  - rewrite bind_assoc, (ld_tcb_run _ _ _ _ Ec), bind_assoc, st_tcb_run by by eexists.
    set (k1 := set_tcbs _ k).
    assert (E : alter (with_name (<[x := nm x]> (pcTaskName c))) t (tcbs k) = <[t := with_name (<[x := nm x]> (pcTaskName c)) c]> (tcbs k)).
    { apply map_eq. intros u. rewrite lookup_alter, lookup_insert. destruct (decide (t = u)) as [<-|]; [by rewrite Ec|done]. }
    assert (Ec1 : tcbs k1 !! t = Some (with_name (<[x := nm x]> (pcTaskName c)) c))
      by (unfold k1; rewrite E; apply lookup_insert_eq).
    destruct (nm x =? 0).
    + rewrite bind_ret. exists (<[x := nm x]> (pcTaskName c)). f_equal. unfold k1. by rewrite E.
    + destruct (IH (x + 1) f k1 _ Ec1) as (m & ->). exists m. f_equal. unfold k1. rewrite E.
      unfold set_tcbs; cbn. f_equal. apply insert_insert_eq.
Qed.

(** A block is written: the rest of the kernel stays. *)
Lemma st_tcb_set {B} g t c (f : unit -> KM B) k :
  tcbs k !! t = Some c -> (st_tcb g t ≫= f) k = f tt (set_tcbs (<[t := g c]> (tcbs k)) k).
Proof.
  intros Ec. rewrite st_tcb_run by by eexists. f_equal. f_equal. apply map_eq. intros u.
  rewrite lookup_alter, lookup_insert. destruct (decide (t = u)) as [<-|]; [by rewrite Ec|done].
Qed.

(** A new task: of priority at most the highest, nothing notified, its stack
    filled and holding its first frame. *)
Definition new_priority (p : Z) : Z := if configMAX_PRIORITIES <=? p then configMAX_PRIORITIES - 1 else p.
Record new_block (s p top : Z) (c : TCB_t) : Prop := {
  nb_priority : uxPriority c = new_priority p;
  nb_base : uxBasePriority c = new_priority p;
  nb_mutexes : uxMutexesHeld c = 0;
  nb_stack : pxStack c = s;
  nb_notified : ulNotifiedValue c = 0 /\ ucNotifyState c = taskNOT_WAITING_NOTIFICATION;
  nb_top : pxTopOfStack c = top
}.
(** The top of the frame of a stack of [n] words at [s]. *)
Definition frame_top (s n : Z) : Z := (s + 4 * (n - 1)) / 8 * 8.

Lemma frame_top_bounds s n : 0 <= s -> s mod 8 = 0 -> 1 <= n ->
  frame_top s n <= s + 4 * (n - 1) < frame_top s n + 8 /\ (frame_top s n - s) mod 4 = 0.
Proof. intros. unfold frame_top. Z.div_mod_to_equations. lia. Qed.

Record new_words (s n pxCode pvParameters : Z) (w w' : gmap Z Z) : Prop := {
  nw_guard : forall i, i ∈ [0; 4; 8; 12] -> w' !! (s + i) = Some ulCheckValue;
  nw_frame : forall (i : nat) v, first_frame pxCode pvParameters !! i = Some v ->
    w' !! (frame_top s n - 4 * Z.of_nat i) = Some v;
  nw_fill : forall a, in_stack s n a -> a < frame_top s n - 80 \/ frame_top s n < a -> w' !! a = Some ulCheckValue;
  nw_other : forall a, ~ in_stack s n a -> w' !! a = w !! a
}.

Lemma new_stack_run {B} s n pxCode pvParameters (f : Z -> KM B) k :
  0 <= s -> s mod 8 = 0 -> 26 <= n -> s + 4 * n < 2 ^ 32 ->
  (forall a, in_stack s n a -> words k !! a = Some ulCheckValue) ->
  exists w, (pxPortInitialiseStack (frame_top s n) pxCode pvParameters ≫= f) k = f (frame_top s n - 80) (set_words w k) /\
    new_words s n pxCode pvParameters (words k) w.
Proof.
  intros Hs Hal Hn Hb Hw. set (top := frame_top s n).
  destruct (frame_top_bounds s n Hs Hal ltac:(lia)) as [Ht H4]. fold top in Ht, H4. set (q := (top - s) / 4).
  assert (Eq : top = s + 4 * q).
  { pose proof (Z.div_mod (top - s) 4 ltac:(lia)). unfold q. lia. }
  assert (Hin : forall i : nat, (i < 21)%nat -> in_stack s n (top - 4 * Z.of_nat i)).
  { intros i Hi. exists (q - Z.of_nat i). lia. }
  rewrite stack_frame_run.
  2:{ split; [lia|]. intros i Hi. rewrite Hw by by apply Hin. by eexists. }
  eexists. split; [done|]. fold top. constructor; fold top.
  - intros i Hi. rewrite put_down_other.
    + apply Hw. revert Hi. rewrite !elem_of_cons, elem_of_nil.
      intros [-> |[-> |[-> |[-> |[]]]]]; [exists 0|exists 1|exists 2|exists 3]; lia.
    + intros j Hj. cbn [first_frame length] in Hj. revert Hi. rewrite !elem_of_cons, elem_of_nil.
      intros [-> |[-> |[-> |[-> |[]]]]]; lia.
  - intros i v Hi. by apply put_down_at.
  - intros a Ha Hout. rewrite put_down_other; [by apply Hw|]. intros i Hi. cbn [first_frame length] in Hi. lia.
  - intros a Ha. apply put_down_other. intros i Hi ->. by apply Ha, Hin.
Qed.

(** A kernel in which one control block, words and lists have changed. *)
Definition draft (k : kernel) (t : Z) (w : gmap Z Z) (c : TCB_t) (s : lstore node list_id Z) : kernel :=
  set_words w (set_tcbs (<[t := c]> (tcbs k)) (set_store s k)).

Section draft.
Variables (k : kernel) (t : Z) (w : gmap Z Z) (c : TCB_t) (s : lstore node list_id Z).
Lemma draft_st_tcb {B} g (f : unit -> KM B) : (st_tcb g t ≫= f) (draft k t w c s) = f tt (draft k t w (g c) s).
Proof.
  rewrite (st_tcb_set g t c) by (cbn [draft set_words set_tcbs tcbs]; apply lookup_insert_eq).
  unfold draft, set_tcbs, set_words, set_store. cbn. by rewrite insert_insert_eq.
Qed.
Lemma draft_ld_tcb {B} (f : TCB_t -> KM B) : (ld_tcb t ≫= f) (draft k t w c s) = f c (draft k t w c s).
Proof. apply ld_tcb_run. cbn [draft set_words set_tcbs tcbs]. apply lookup_insert_eq. Qed.
Lemma draft_on_lists {A B} (m : M (lstore node list_id Z) A) (f : A -> KM B) a s' :
  m s = Ok a s' -> (on_lists m ≫= f) (draft k t w c s) = f a (draft k t w c s').
Proof. intros E. exact (on_lists_run m f (draft k t w c s) a s' E). Qed.
Lemma draft_words v : set_words v (draft k t w c s) = draft k t v c s.
Proof. done. Qed.
End draft.

Lemma draft_self k t c : tcbs k !! t = Some c -> k = draft k t (words k) c (store k).
Proof. intros Ec. destruct k; unfold draft, set_words, set_tcbs, set_store; cbn in *. by rewrite insert_id. Qed.

Lemma item_set p o q (s : lstore node list_id Z) : items s !! p = Some (ListItem o q) ->
  st_item (with_container None) p s = Ok tt (LStore (links s) (<[p := ListItem o None]> (items s)) (lists s)).
Proof.
  intros E. unfold st_item. rewrite E. do 2 f_equal. apply map_eq. intros u. rewrite lookup_alter, lookup_insert.
  destruct (decide (p = u)) as [<-|]; [by rewrite E|done].
Qed.
Lemma owner_set p o q w (s : lstore node list_id Z) : items s !! p = Some (ListItem o q) ->
  st_item (with_owner w) p s = Ok tt (LStore (links s) (<[p := ListItem w q]> (items s)) (lists s)).
Proof.
  intros E. unfold st_item. rewrite E. do 2 f_equal. apply map_eq. intros u. rewrite lookup_alter, lookup_insert.
  destruct (decide (p = u)) as [<-|]; [by rewrite E|done].
Qed.

(** The items of a new task. *)
Lemma new_items_run {B} k t w c s xo xl yo yl z v (f : unit -> KM B) :
  items s !! StateItem t = Some (ListItem xo xl) -> items s !! EventItem t = Some (ListItem yo yl) ->
  links s !! EventItem t = Some z ->
  (on_lists (vListInitialiseItem (StateItem t)) ≫= fun _ =>
   on_lists (vListInitialiseItem (EventItem t)) ≫= fun _ =>
   on_lists (st_owner (StateItem t) t) ≫= fun _ =>
   on_lists (st_value (EventItem t) v) ≫= fun _ =>
   on_lists (st_owner (EventItem t) t) ≫= f) (draft k t w c s) =
  f tt (draft k t w c (LStore (alter (with_value v) (EventItem t) (links s))
    (<[EventItem t := ListItem t None]> (<[StateItem t := ListItem t None]> (items s))) (lists s))).
Proof.
  intros Ex Ey Ez. rewrite (draft_on_lists _ _ _ _ _ _ _ _ _ (item_set _ _ _ _ Ex)).
  erewrite (draft_on_lists _ _ _ _ _ _ _ tt); [|eapply item_set; cbn [items]; rewrite lookup_insert_ne by done; exact Ey].
  erewrite (draft_on_lists _ _ _ _ _ _ _ tt); [|eapply owner_set; cbn [items]; rewrite lookup_insert_ne by done; apply lookup_insert_eq].
  erewrite (draft_on_lists _ _ _ _ _ _ _ tt); [|unfold st_value, st_link; cbn [links]; rewrite Ez; reflexivity].
  erewrite (draft_on_lists _ _ _ _ _ _ _ tt); [|eapply owner_set; cbn [items]; rewrite lookup_insert_ne by done; apply lookup_insert_eq].
  cbn [links items lists]. do 2 f_equal. f_equal. apply map_eq. intros u. rewrite !lookup_insert. by repeat case_decide.
Qed.

Lemma prvInitialiseNewTask_run {B} code nm n param p k t w c0 s xo xl yo yl z (f : unit -> KM B) :
  let st := pxStack c0 in
  0 <= st -> st mod 8 = 0 -> 26 <= n -> st + 4 * n < 2 ^ 32 -> 0 <= p ->
  items s !! StateItem t = Some (ListItem xo xl) -> items s !! EventItem t = Some (ListItem yo yl) ->
  links s !! EventItem t = Some z ->
  exists w' c, (prvInitialiseNewTask code nm n param p t ≫= f) (draft k t w c0 s) =
      f tt (draft k t w' c (LStore (alter (with_value (configMAX_PRIORITIES - new_priority p)) (EventItem t) (links s))
        (<[EventItem t := ListItem t None]> (<[StateItem t := ListItem t None]> (items s))) (lists s))) /\
    new_words st n code param w w' /\ new_block st p (frame_top st n - 80) c.
Proof.
  intros st Hs Hal Hn Hb Hp Ex Ey Ez. unfold prvInitialiseNewTask. rewrite bind_assoc, draft_ld_tcb, bind_assoc. fold st.
  match goal with |- context [fill_stack st _ ≫= ?g] =>
    destruct (fill_stack_run st n g (draft k t w c0 s)) as (w1 & -> & Hw1); [lia..|] end.
  rewrite draft_words, bind_assoc.
  match goal with |- context [copy_name _ t ?a ?b ≫= ?g] =>
    destruct (copy_name_run nm t a b g (draft k t w1 c0 s) c0) as (m & ->);
      [cbn [draft set_words set_tcbs tcbs]; apply lookup_insert_eq|] end.
  match goal with |- context [set_tcbs ?a (draft k t w1 c0 s)] =>
    assert (Ed : set_tcbs a (draft k t w1 c0 s) = draft k t w1 (with_name m c0) s) end.
  { unfold draft, set_tcbs, set_words, set_store. cbn. by rewrite insert_insert_eq. }
  rewrite Ed. clear Ed. rewrite bind_assoc, draft_ld_tcb, bind_assoc, draft_st_tcb.
  change (configMAX_PRIORITIES - 1)%word with (configMAX_PRIORITIES - 1). fold (new_priority p).
  do 3 rewrite bind_assoc, draft_st_tcb.
  set (v := (configMAX_PRIORITIES - new_priority p)%word).
  set (top := ((st + (n - 1) * sizeof_StackType_t) .& ~! portBYTE_ALIGNMENT_MASK)%word).
  set (rest := fun _ : unit => st_tcb (with_notified 0) t ≫= fun _ =>
    st_tcb (with_notify_state taskNOT_WAITING_NOTIFICATION) t ≫= fun _ =>
    pxPortInitialiseStack top code param ≫= fun top => st_tcb (with_top_of_stack top) t ≫= f).
  match goal with |- context [draft k t w1 ?c s] => set (c1 := c) end.
  match goal with |- exists w' c, (?m ≫= f) ?k1 = _ /\ _ =>
    assert (Hun : (m ≫= f) k1 = (on_lists (vListInitialiseItem (StateItem t)) ≫= fun _ =>
      on_lists (vListInitialiseItem (EventItem t)) ≫= fun _ =>
      on_lists (st_owner (StateItem t) t) ≫= fun _ => on_lists (st_value (EventItem t) v) ≫= fun _ =>
      on_lists (st_owner (EventItem t) t) ≫= rest) k1) end.
  { subst rest. do 8 (rewrite bind_assoc; apply bind_ext; intros ? ?). done. }
  rewrite Hun. clear Hun. rewrite (new_items_run k t w1 c1 s xo xl yo yl z v rest Ex Ey Ez). unfold rest.
  rewrite !draft_st_tcb.
  assert (Ev : v = configMAX_PRIORITIES - new_priority p).
  { unfold v, sub32. apply u32_small. unfold new_priority, configMAX_PRIORITIES, is_u32.
    destruct (Z.leb_spec 8 p); lia. }
  assert (Et : top = frame_top st n).
  { unfold top, frame_top. rewrite mask8 by apply u32_is_u32. unfold add32, mul32, sub32, sizeof_StackType_t.
    rewrite (u32_small (n - 1)) by (unfold is_u32; lia). rewrite (u32_small ((n - 1) * 4)) by (unfold is_u32; lia).
    rewrite u32_small by (unfold is_u32; lia). do 2 f_equal. lia. }
  rewrite Ev, Et.
  match goal with |- context [pxPortInitialiseStack _ _ _ ≫= ?g] =>
    match goal with |- context [draft k t w1 ?c ?s0] =>
      destruct (new_stack_run st n code param g (draft k t w1 c s0)) as (w2 & -> & Hw2) end end; [done..| |].
  { intros a Ha. cbn [draft set_words words]. by rewrite Hw1, decide_True. }
  rewrite draft_words, draft_st_tcb. eexists _, _. split; [done|]. split.
  - destruct Hw2 as [N1 N2 N3 N4]. constructor; try done. intros a Ha. rewrite N4 by done.
    cbn [draft set_words words]. by rewrite Hw1, decide_False.
  - by constructor.
Qed.
