(* ===== verification/RtStart.v ===== *)
(** * FreeRTOS: from no task to a running scheduler

    Creating tasks keeps the invariant of the scheduler, and the scheduler
    starts in a stable state. *)
From S2P Require Import Prelude.
From S2P Require Import RtList.
From S2P Require Import RtRings.
From S2P Require Import RtTasks.
From S2P Require Import RtSched.
From S2P Require Import RtTick.
From S2P Require Import RtLive.
From S2P Require Import RtCreate.
From S2P Require Import RtStack.

Local Open Scope Z_scope.

(** ** The lists of the kernel *)
Fixpoint empties (ls : list list_id) (G : listing) : listing :=
  match ls with [] => G | l :: ls' => empties ls' (<[l := (ListEnd l, [])]> G) end.

Lemma empties_lookup ls G l :
  empties ls G !! l = if decide (l ∈ ls) then Some (ListEnd l, []) else G !! l.
Proof.
  revert G. induction ls as [|x ls IH]; intros G; cbn [empties].
  - rewrite decide_False; [done|]. apply not_elem_of_nil.
  - rewrite IH. destruct (decide (l ∈ ls)).
    + rewrite decide_True; [done|by right].
    + rewrite lookup_insert. destruct (decide (x = l)) as [->|Hne].
      * rewrite decide_True; [done|left].
      * rewrite decide_False; [done|]. intros [->|?]%elem_of_cons; done.
Qed.

(** A list that is storage, but no list yet. *)
Definition unborn (s : lstore node list_id Z) (l : list_id) : Prop :=
  is_Some (lists s !! l) /\ is_Some (links s !! ListEnd l).

Fixpoint initialise (ls : list list_id) : KM unit :=
  match ls with [] => mret tt | l :: ls' => on_lists (vListInitialise ListEnd l) ;; initialise ls' end.

Lemma initialise_run {B} ls : forall G k (f : unit -> KM B),
  NoDup ls -> lists_ok ListEnd G (store k) -> (forall l, l ∈ ls -> G !! l = None /\ unborn (store k) l) ->
  exists s', (initialise ls ≫= f) k = f tt (set_store s' k) /\ lists_ok ListEnd (empties ls G) s' /\
    items s' = items (store k) /\ (forall p t, task_of p = Some t -> vl (links s') p = value k p).
Proof.
  induction ls as [|l ls IH]; intros G k f Hnd Hok Hls; cbn [initialise empties].
  - exists (store k). rewrite bind_ret. split; [by destruct k|done].
  - apply NoDup_cons in Hnd as [Hl Hnd]. destruct (Hls l) as (Hg & Hu1 & Hu2); [left|].
    destruct (vListInitialise_run ListEnd G (store k) l Hok Hg Hu1 Hu2) as (s1 & E & Hok1 & Ei & Ev & Ed & Ek).
    rewrite bind_assoc, (on_lists_run _ _ _ _ _ E).
    destruct (IH (<[l := (ListEnd l, [])]> G) (set_store s1 k) f Hnd Hok1) as (s' & -> & Hok' & Ei' & Ev').
    { intros l' Hl'. destruct (Hls l') as (Hg' & Hu1' & Hu2'); [by right|]. split.
      - rewrite lookup_insert_ne; [done|]. by intros ->.
      - split; cbn [set_store store]; [by apply Ed|by apply Ek]. }
    exists s'. split; [done|]. split; [done|]. split; [by rewrite Ei'|].
    intros p t Hp. rewrite (Ev' p t Hp). unfold value. cbn [set_store store]. apply Ev. by destruct p.
Qed.

Definition kernel_lists : list list_id :=
  [Ready 0; Ready 1; Ready 2; Ready 3; Ready 4; Ready 5; Ready 6; Ready 7; xDelayedTaskList1; xDelayedTaskList2;
   xPendingReadyList; xTasksWaitingTermination; xSuspendedTaskList].
Lemma kernel_lists_all l : kernel_list l <-> l ∈ kernel_lists.
Proof.
  unfold kernel_lists, kernel_list, configMAX_PRIORITIES. rewrite !elem_of_cons, elem_of_nil.
  destruct l as [p| | | | | |]; try (split; [tauto|intros _; exact I]); try naive_solver.
  split; [|intros H; repeat destruct H as [[= ->]|H]; try done; lia].
  intros Hp. assert (p = 0 \/ p = 1 \/ p = 2 \/ p = 3 \/ p = 4 \/ p = 5 \/ p = 6 \/ p = 7) as H by lia.
  repeat destruct H as [-> |H]; try tauto. subst. tauto.
Qed.

Lemma init_lists_run {B} G k (f : unit -> KM B) :
  lists_ok ListEnd G (store k) -> (forall l, kernel_list l -> G !! l = None /\ unborn (store k) l) ->
  exists s', (prvInitialiseTaskLists ≫= f) k =
      f tt (set_overflow xDelayedTaskList2 (set_delayed xDelayedTaskList1 (set_store s' k))) /\
    lists_ok ListEnd (empties kernel_lists G) s' /\
    items s' = items (store k) /\ (forall p t, task_of p = Some t -> vl (links s') p = value k p).
Proof.
  intros Hok Hls.
  destruct (initialise_run kernel_lists G k
    (fun _ => modify (set_delayed xDelayedTaskList1) ≫= fun _ => modify (set_overflow xDelayedTaskList2) ≫= f))
    as (s' & E & H); [|done| |].
  - apply (bool_decide_unpack _). vm_compute. exact I.
  - intros l Hl%kernel_lists_all. by apply Hls.
  - exists s'. split; [|done]. etransitivity; [|etransitivity; [exact E|by rewrite !bind_modify]].
    unfold prvInitialiseTaskLists. change (Z.to_nat configMAX_PRIORITIES) with 8%nat.
    cbn [for_range kernel_lists initialise].
    repeat (rewrite ?bind_ret, ?bind_assoc, ?bind_ret; apply bind_ext; intros ? ?). done.
Qed.

(** ** Adding tasks before the scheduler runs *)
Record not_started (G : listing) (k : kernel) : Prop := {
  ns_live : live G k;
  ns_top : runs_top k;
  ns_running : xSchedulerRunning k = pdFALSE;
  ns_ready : forall t, is_Some (tcbs k !! t) -> ready k t;
  ns_count : uxCurrentNumberOfTasks k = Z.of_nat (size (tcbs k));
  ns_yield : xYieldPending k = pdFALSE
}.

(** Before the first task: lists that are no lists yet, perhaps event lists of
    queues, on which nobody waits. *)
Record blank (G : listing) (k : kernel) : Prop := {
  bk_lists : lists_ok ListEnd G (store k);
  bk_empty : forall l, contents G l = [];
  bk_new : forall l, kernel_list l -> G !! l = None /\ unborn (store k) l;
  bk_tcbs : tcbs k = ∅;
  bk_zero : pxCurrentTCB k = 0 /\ uxCurrentNumberOfTasks k = 0 /\ uxTopReadyPriority k = 0 /\
    uxSchedulerSuspended k = 0 /\ uxPendedTicks k = 0 /\ xSchedulerRunning k = pdFALSE /\
    xYieldPending k = pdFALSE;
  bk_ticks : is_u32 (xTickCount k) /\ is_u32 (xNextTaskUnblockTime k)
}.

(** The items of a new task are on no list. *)
Record fresh_items (t : Z) (s s1 : lstore node list_id Z) : Prop := {
  fi_other : forall p, task_of p <> Some t -> links s1 !! p = links s !! p /\ items s1 !! p = items s !! p;
  fi_lists : lists s1 = lists s;
  fi_state : items s1 !! StateItem t = Some (ListItem t None) /\
    exists v, vl (links s1) (StateItem t) = Some v /\ is_u32 v;
  fi_event : items s1 !! EventItem t = Some (ListItem t None) /\
    exists v, vl (links s1) (EventItem t) = Some v /\ is_u32 v
}.

Lemma fresh_lists_ok G t s s1 :
  lists_ok ListEnd G s -> (forall l p, p ∈ contents G l -> task_of p <> Some t) -> fresh_items t s s1 ->
  lists_ok ListEnd G s1.
Proof.
  intros [L1 L2 L3 L4 L5] Hout [F1 F2 [F3 F3'] [F4 F4']].
  assert (Hns : forall p, task_of p = Some t -> items s1 !! p = Some (ListItem t None) /\ is_Some (links s1 !! p)).
  { intros [u|u|l]; cbn; try done; intros [= ->]; [destruct F3' as (v & E & _)|destruct F4' as (v & E & _)];
      (split; [done|]); unfold vl in E; destruct (links s1 !! _); [by eexists|done|by eexists|done]. }
  assert (Hin : forall l i xs p, G !! l = Some (i, xs) -> p ∈ xs -> task_of p <> Some t).
  { intros l i xs p Hl Hp. apply (Hout l). by rewrite (contents_get _ _ _ _ Hl). }
  constructor.
  - intros l i xs Hl. destruct (L1 l i xs Hl) as [Hc Hr]. rewrite F2. split; [done|].
    assert (Hsame : forall p, p ∈ ListEnd l :: xs -> links s1 !! p = links s !! p).
    { intros p [-> |Hp]%elem_of_cons; apply F1; [done|by apply (Hin l i xs)]. }
    apply (ring_frame ListEnd (links s)); [| |exact Hr].
    + intros q Hq. unfold nx, pv. by rewrite Hsame.
    + unfold vl. rewrite Hsame; [done|left].
  - intros l i xs p Hl Hp. rewrite (proj2 (F1 p ltac:(by apply (Hin l i xs)))). by apply (L2 l i xs).
  - intros l p o E. apply (L3 l p o). destruct (decide (task_of p = Some t)) as [Ht|Ht].
    + destruct (Hns p Ht) as [E' _]. congruence.
    + by rewrite <- (proj2 (F1 p Ht)).
  - intros l. by rewrite (proj2 (F1 (ListEnd l) ltac:(done))).
  - intros p. destruct (decide (task_of p = Some t)) as [Ht|Ht]; [intros _; by apply Hns|].
    rewrite (proj1 (F1 p Ht)), (proj2 (F1 p Ht)). apply L5.
Qed.

Lemma task_ok_fresh t s s1 c :
  fresh_items t s s1 -> 0 < t -> 0 <= uxPriority c < configMAX_PRIORITIES -> task_ok s1 t c.
Proof.
  intros [_ _ [E1 (v1 & V1 & U1)] [E2 (v2 & V2 & U2)]] Ht Hp. constructor; [done|done|by exists None, v1|by exists None, v2].
Qed.

Lemma draft_ok G k t w c s1 :
  sched_ok G k -> tcbs k !! t = None -> 0 < t -> 0 <= uxPriority c < configMAX_PRIORITIES ->
  fresh_items t (store k) s1 -> Z.of_nat (S (size (tcbs k))) < 2 ^ 32 ->
  sched_ok G (draft k t w c s1) /\
  (forall q, cont (draft k t w c s1) q = if decide (task_of q = Some t) then None else cont k q).
Proof.
  intros Hok Ht Hpos Hp Hf Hsz. pose proof Hf as [F1 F2 [F3 F3'] [F4 F4']].
  assert (Hout : forall l p, p ∈ contents G l -> task_of p <> Some t).
  { intros l p Hin E. destruct (fits_task _ _ _ (so_fits _ _ _ _ Hok _ _ Hin)) as (u & Eu & Hu).
    rewrite E in Eu. injection Eu as <-. rewrite Ht in Hu. by destruct Hu. }
  assert (Hval : forall l q, q ∈ contents G l -> value (draft k t w c s1) q = value k q).
  { intros l q Hq. unfold value, vl. cbn [draft set_words set_tcbs set_store store]. by rewrite (proj1 (F1 q (Hout l q Hq))). }
  split.
  - pose proof Hok as [H1 H2 H3 H4 H5 H6 H7 H8 H9 [D1 D2] [O1 O2]]. constructor; try done.
    + by apply (fresh_lists_ok G t (store k)).
    + intros l p Hin. specialize (H3 l p Hin). pose proof (Hout l p Hin) as Hne.
      destruct l, p; cbn [fits draft set_words set_tcbs tcbs task_of] in *; try done;
        rewrite lookup_insert_ne by congruence; done.
    + intros u cu. cbn [draft set_words set_tcbs tcbs store set_store]. rewrite lookup_insert.
      destruct (decide (t = u)) as [<-|Hne]; [intros [= <-]; by apply (task_ok_fresh t (store k))|].
      intros Eu. destruct (H4 u cu Eu) as [K1 K2 K3 K4]. constructor; [done|done|..].
      * unfold vl. rewrite (proj1 (F1 (StateItem u) ltac:(cbn; congruence))), (proj2 (F1 (StateItem u) ltac:(cbn; congruence))). done.
      * unfold vl. rewrite (proj1 (F1 (EventItem u) ltac:(cbn; congruence))), (proj2 (F1 (EventItem u) ltac:(cbn; congruence))). done.
    + cbn [draft set_words set_tcbs tcbs]. by rewrite map_size_insert_None.
    + split.
      * rewrite Forall_forall in *. intros q Hq. apply (due_after_frame _ k); [by apply (Hval (pxDelayedTaskList k))|done|by apply D1].
      * apply (sorted_by_ext ListEnd (value k)); [|done]. intros q Hq. by apply (Hval (pxDelayedTaskList k)).
    + split.
      * rewrite Forall_forall in *. intros q Hq. apply (due_after_wrap_frame k); [by apply (Hval (pxOverflowDelayedTaskList k))|done|by apply O1].
      * apply (sorted_by_ext ListEnd (value k)); [|done]. intros q Hq. by apply (Hval (pxOverflowDelayedTaskList k)).
  - intros q. unfold cont. cbn [draft set_words set_tcbs set_store store].
    destruct (decide (task_of q = Some t)) as [E|E]; [|by rewrite (proj2 (F1 q E))].
    destruct q; cbn in E; try done; injection E as ->; [by rewrite F3|by rewrite F4].
Qed.

(** With all lists empty there is nothing to check. *)
Lemma empty_sched_ok G k :
  lists_ok ListEnd G (store k) -> (forall l, kernel_list l -> is_Some (G !! l)) -> (forall l, contents G l = []) ->
  (forall t c, tcbs k !! t = Some c -> task_ok (store k) t c) -> Z.of_nat (size (tcbs k)) < 2 ^ 32 ->
  uxTopReadyPriority k = 0 -> pxDelayedTaskList k = xDelayedTaskList1 -> pxOverflowDelayedTaskList k = xDelayedTaskList2 ->
  is_u32 (xTickCount k) -> is_u32 (xNextTaskUnblockTime k) -> sched_ok G k.
Proof.
  intros H1 H2 He H4 H5 Et Ed Eo Hk Hn. constructor; try done.
  - intros l p. rewrite He. intros Hp. by apply elem_of_nil in Hp.
  - by rewrite Et.
  - intros pr _. unfold bit_ok. rewrite decide_False by done. unfold nonempty. by rewrite He, Et, Z.bits_0.
  - by left.
  - rewrite He. split; constructor.
  - rewrite He. split; constructor.
Qed.

(** The guard words of the stacks of the other tasks are not in the new
    stack. *)
Definition stacks_apart (k : kernel) (s n : Z) : Prop :=
  forall u c i, tcbs k !! u = Some c -> i ∈ [0; 4; 8; 12] -> ~ in_stack s n (pxStack c + i).

Lemma draft_stacks k t w c s1 n code param :
  (forall u cu, tcbs k !! u = Some cu -> stack_intact k cu) -> stacks_apart k (pxStack c) n ->
  new_words (pxStack c) n code param (words k) w ->
  forall u cu, tcbs (draft k t w c s1) !! u = Some cu -> stack_intact (draft k t w c s1) cu.
Proof.
  intros Hst Hap [N1 N2 N3 N4] u cu. cbn [draft set_words set_tcbs tcbs]. rewrite lookup_insert.
  destruct (decide (t = u)) as [<-|Hne]; [intros [= <-]; exact N1|].
  intros Eu i Hi. cbn [draft set_words words]. rewrite N4; [by apply (Hst u)|by apply (Hap u)].
Qed.

Lemma number_ok h e G k v : sched_but h e G k -> sched_but h e G (set_number v k).
Proof. intros [? ? ? ? ? ? ? ? ? ? ?]. by constructor. Qed.

(** The end of [prvAddNewTaskToReadyList]: the task is numbered and made
    ready. *)
Definition number_and_ready (t : Z) : KM unit :=
  k ← get; modify (set_number (uxTaskNumber k + 1)%word) ;;
  k ← get; st_tcb (with_number (uxTaskNumber k)) t ;;
  prvAddTaskToReadyList t ;;
  k ← get;
  when (negb (xSchedulerRunning k =? pdFALSE))
    (cur ← ld_tcb (pxCurrentTCB k); c ← ld_tcb t; when (uxPriority cur <? uxPriority c) portYIELD).

Lemma number_and_ready_run {B} G k t c (f : unit -> KM B) :
  sched_ok G k -> tcbs k !! t = Some c -> cont k (StateItem t) = None -> xSchedulerRunning k = pdFALSE ->
  exists k' G', (number_and_ready t ≫= f) k = f tt k' /\ sched_ok G' k' /\ kept k k' /\
    (forall q, cont k' q = if decide (StateItem t = q) then Some (Ready (uxPriority c)) else cont k q) /\
    tcbs k' = <[t := with_number (uxTaskNumber k + 1)%word c]> (tcbs k) /\ xYieldPending k' = xYieldPending k.
Proof.
  intros Hok Ec Hc Hr. unfold number_and_ready. rewrite bind_assoc, bind_get, bind_assoc, bind_modify.
  set (k1 := set_number _ k). rewrite bind_assoc, bind_get, bind_assoc.
  assert (Hok1 : sched_ok G k1). { exact (number_ok _ _ _ _ _ Hok). }
  match goal with |- context [st_tcb ?g t ≫= ?h] =>
    destruct (block_set_run G k1 t c g h) as (k2 & -> & Hok2 & [K2 C2 V2 X2 Y2] & T2); [done|done|done|] end.
  rewrite bind_assoc.
  match goal with |- context [prvAddTaskToReadyList t ≫= ?h] =>
    destruct (add_ready_run _ None G k2 t (with_number (uxTaskNumber k1) c) h Hok2) as (k3 & -> & Hok3 & [S3 C3 V3 Y3 U3]) end.
  { by rewrite T2, lookup_insert_eq. } { by rewrite C2. } { by left. }
  rewrite bind_assoc, bind_get. pose proof (same_kept _ _ S3) as K3.
  rewrite (kp_running _ _ K3), (kp_running _ _ K2). change (xSchedulerRunning k1) with (xSchedulerRunning k). rewrite Hr.
  cbn [Z.eqb pdFALSE negb when]. rewrite bind_ret. exists k3. eexists. split; [done|]. split.
  { unfold sched_ok. rewrite (st_tick _ _ S3). exact Hok3. }
  split; [|split; [|split]].
  - apply (kept_trans _ k1); [by constructor|by apply (kept_trans _ k2)].
  - intros q. rewrite C3, C2. done.
  - rewrite (st_tcbs _ _ S3), T2. done.
  - by rewrite Y3, Y2.
Qed.

(** What the caller has prepared: a control block of 88 bytes at [t], not one
    of the tasks', with fresh items and a stack of its own. *)
Record prepared (k : kernel) (t : Z) (n code param p : Z) (w : gmap Z Z) (c : TCB_t) (s1 : lstore node list_id Z) : Prop := {
  pp_handle : 0 < t;
  pp_new : tcbs k !! t = None;
  pp_room : Z.of_nat (S (size (tcbs k))) < 2 ^ 32;
  pp_priority : 0 <= p;
  pp_block : new_block (pxStack c) p (frame_top (pxStack c) n - 80) c;
  pp_items : fresh_items t (store k) s1;
  pp_words : new_words (pxStack c) n code param (words k) w;
  pp_apart : stacks_apart k (pxStack c) n
}.

Lemma prepared_priority k t n code param p w c s1 :
  prepared k t n code param p w c s1 -> 0 <= uxPriority c < configMAX_PRIORITIES.
Proof.
  intros [_ _ _ Hp [-> _ _ _ _ _] _ _ _]. unfold new_priority, configMAX_PRIORITIES. destruct (Z.leb_spec 8 p); lia.
Qed.

(** The new task runs first if no task has a higher priority. *)
Record added (t : Z) (c : TCB_t) (k k' : kernel) : Prop := {
  ad_blocks : forall u, blocks k' u = if decide (t = u) then Some (priority_stack c) else blocks k u;
  ad_ready : ready k' t;
  ad_waits : forall u, u <> t -> cont k' (StateItem u) = cont k (StateItem u);
  ad_first : pxCurrentTCB k' =
    match tcbs k !! pxCurrentTCB k with
    | Some cur => if uxPriority cur <=? uxPriority c then t else pxCurrentTCB k
    | None => t
    end
}.

(** A kernel with all tasks ready, but for the new one, which becomes it. *)
Record almost (t : Z) (k : kernel) : Prop := {
  al_zero : uxSchedulerSuspended k = 0 /\ uxPendedTicks k = 0 /\ xSchedulerRunning k = pdFALSE /\ xYieldPending k = pdFALSE;
  al_count : uxCurrentNumberOfTasks k = Z.of_nat (size (tcbs k));
  al_stacks : forall u c, tcbs k !! u = Some c -> stack_intact k c;
  al_ready : forall u, u <> t -> is_Some (tcbs k !! u) -> ready k u;
  al_pending : forall u, cont k (EventItem u) <> Some xPendingReadyList;
  al_current : exists cur, tcbs k !! pxCurrentTCB k = Some cur /\
    forall u c, tcbs k !! u = Some c -> uxPriority c <= uxPriority cur
}.

Lemma almost_ready t c k k' G' :
  almost t k -> tcbs k !! t = Some c -> sched_ok G' k' -> kept k k' ->
  (forall q, cont k' q = if decide (StateItem t = q) then Some (Ready (uxPriority c)) else cont k q) ->
  dom (tcbs k') = dom (tcbs k) -> xYieldPending k' = xYieldPending k -> not_started G' k' /\ ready k' t.
Proof.
  intros [(A1 & A2 & A3 & A8) A4 A5 A6 A7 (cur & Ecur & Hle)] Ec Hok' [K1 K2 K3 K4 K5 K6 K7] Hc Hdom Hy.
  assert (Hr : forall u, is_Some (tcbs k' !! u) -> ready k' u).
  { intros u [c' Ec']. destruct (blocks_get k' k u c' (eq_sym (K1 u)) Ec') as (cu & Ecu & Ep & _).
    exists c'. split; [done|]. rewrite Hc. destruct (decide (StateItem t = StateItem u)) as [[= <-]|Hne].
    - do 2 f_equal. congruence.
    - destruct (A6 u ltac:(congruence)) as (c2 & Ec2 & ->); [by eexists|]. do 2 f_equal. congruence. }
  assert (Hcur : is_Some (tcbs k' !! pxCurrentTCB k')).
  { apply is_Some_blocks. rewrite K7, K1. apply is_Some_blocks. by eexists. }
  assert (Hsize : size (tcbs k') = size (tcbs k)) by by rewrite <- !(size_dom (D := gset Z)), Hdom.
  assert (Htr : ready k' t).
  { apply Hr. apply is_Some_blocks. rewrite K1. apply is_Some_blocks. by eexists. }
  split; [|done]. constructor.
  - constructor; rewrite ?K3, ?K4, ?K5; try done.
    + intros u c' Ec'. destruct (blocks_get k' k u c' (eq_sym (K1 u)) Ec') as (cu & Ecu & _ & Es).
      specialize (A5 u cu Ecu). unfold stack_intact in *. by rewrite <- Es, K2.
    + destruct Htr as (c' & ? & ?). by exists t, c'.
    + intros u. rewrite Hc. by rewrite decide_False by done.
    + rewrite A4. assert (size (tcbs k) <> 0%nat); [|lia]. intros E. apply map_size_empty_inv in E. by rewrite E, lookup_empty in Ec.
  - destruct (Hr _ Hcur) as (c' & Ec' & Hc'). exists c'. split_and!; [done|done|]. intros u cu Eu _.
    destruct (blocks_get k' k _ c' (eq_sym (K1 _)) Ec') as (c1 & Ec1 & <- & _). rewrite K7 in Ec1.
    destruct (blocks_get k' k u cu (eq_sym (K1 u)) Eu) as (cu1 & Eu1 & <- & _).
    rewrite Ecur in Ec1. injection Ec1 as <-. by apply (Hle u).
  - congruence.
  - done.
  - by rewrite K5, A4, Hsize.
  - congruence.
Qed.

Lemma add_first_run {B} G k t n code param p w c s1 (f : unit -> KM B) :
  blank G k -> prepared k t n code param p w c s1 ->
  exists k' G', (prvAddNewTaskToReadyList t ≫= f) (draft k t w c s1) = f tt k' /\ not_started G' k' /\ added t c k k' /\
    words k' = w.
Proof.
  intros [B1 B2 B3 B4 (Z1 & Z2 & Z3 & Z4 & Z5 & Z6 & Z7) [U1 U2]] Hpp. pose proof (prepared_priority _ _ _ _ _ _ _ _ _ Hpp) as Hp.
  destruct Hpp as [P1 P2 P3 P4 P5 P6 P7 P8]. set (d := draft k t w c s1).
  unfold prvAddNewTaskToReadyList. rewrite bind_assoc, bind_get, bind_assoc, bind_modify, bind_assoc, bind_get.
  change (pxCurrentTCB (set_tasks _ d)) with (pxCurrentTCB k). rewrite Z1. cbn [Z.eqb]. rewrite !bind_assoc, bind_modify.
  change (uxCurrentNumberOfTasks (set_tasks ?v _)) with v. change (uxCurrentNumberOfTasks d) with (uxCurrentNumberOfTasks k).
  rewrite Z2. change ((0 + 1)%word) with 1. cbn [Z.eqb Pos.eqb when].
  set (k1 := set_current t (set_tasks 1 d)).
  match goal with |- context [prvInitialiseTaskLists ≫= ?g] =>
    destruct (init_lists_run G k1 g) as (s' & -> & Hl2 & Ei2 & Ev2) end.
  { apply (fresh_lists_ok G t (store k)); [done|intros l q; rewrite B2; by intros ?%elem_of_nil|done]. }
  { intros l Hl. destruct (B3 l Hl) as (Hg & [Hu1 Hu2]). split; [done|]. split; cbn [k1 set_current set_tasks d draft set_words set_tcbs set_store store].
    - by rewrite (fi_lists _ _ _ P6).
    - by rewrite (proj1 (fi_other _ _ _ P6 (ListEnd l) ltac:(done))). }
  set (k2 := set_overflow _ _).
  assert (T2 : tcbs k2 = {[t := c]}) by (cbn; by rewrite B4).
  assert (Hok2 : sched_ok (empties kernel_lists G) k2).
  { apply empty_sched_ok; try done.
    - intros l Hl%kernel_lists_all. rewrite empties_lookup, decide_True by done. by eexists.
    - intros l. unfold contents. rewrite empties_lookup. destruct (decide _); [done|]. apply B2.
    - rewrite T2. intros u cu [<- <-]%lookup_singleton_Some.
      destruct (task_ok_fresh t (store k) s1 c P6 P1 Hp) as [K1 K2 K3 K4]. constructor; [done|done|..];
        cbn [k2 set_overflow set_delayed set_store store]; rewrite Ei2, (Ev2 _ t) by done; done.
    - rewrite T2, map_size_singleton. done. }
  match goal with |- context [(get ≫= ?g) ≫= f] => change (get ≫= g) with (number_and_ready t) end.
  destruct (number_and_ready_run (empties kernel_lists G) k2 t c f Hok2) as (k3 & G3 & Hrun & Hok3 & K3 & C3 & T3 & Y3).
  { by rewrite T2, lookup_singleton_eq. }
  { unfold cont. cbn [k2 set_overflow set_delayed set_store store]. rewrite Ei2.
    cbn [k1 set_current set_tasks d draft set_words set_tcbs set_store store]. by rewrite (proj1 (fi_state _ _ _ P6)). }
  { done. }
  exists k3, G3. split; [exact Hrun|].
  assert (Hno : forall q l, cont k2 q <> Some l).
  { intros q l Hq%(cont_in _ _ _ _ _ _ Hok2). revert Hq. unfold contents. rewrite empties_lookup.
    destruct (decide _); [apply not_elem_of_nil|]. fold (contents G l). rewrite B2. apply not_elem_of_nil. }
  destruct (almost_ready t c k2 k3 G3) as [Hns Hr]; try done.
  - constructor; try done.
    + rewrite T2. by rewrite map_size_singleton.
    + rewrite T2. intros u cu [<- <-]%lookup_singleton_Some. exact (nw_guard _ _ _ _ _ _ P7).
    + rewrite T2. intros u Hu [cu [? _]%lookup_singleton_Some]. congruence.
    + exists c. rewrite T2. split; [apply lookup_singleton_eq|]. by intros u cu [_ <-]%lookup_singleton_Some.
  - by rewrite T2, lookup_singleton_eq.
  - rewrite T3. apply dom_insert_lookup_L. rewrite T2, lookup_singleton_eq. by eexists.
  - split; [done|]. split; [constructor; [|done|..]|].
    + intros u. rewrite (kp_blocks _ _ K3). unfold blocks. rewrite T2, B4, lookup_empty, lookup_singleton.
      by destruct (decide (t = u)).
    + intros u Hu. rewrite C3, decide_False by congruence. destruct (cont k2 (StateItem u)) as [l|] eqn:E; [by destruct (Hno _ _ E)|].
      destruct (cont k (StateItem u)) as [l|] eqn:E'; [|done]. exfalso. revert E'. unfold cont.
      destruct (items (store k) !! StateItem u) as [[o q]|] eqn:Ei; [|done]. cbn. intros ->.
      destruct (lo_on _ _ _ B1 _ _ _ Ei) as (i & xs & Hl & Hx). pose proof (contents_get _ _ _ _ Hl) as Exs.
      rewrite B2 in Exs. subst xs. by apply not_elem_of_nil in Hx.
    + rewrite (kp_current _ _ K3), B4, lookup_empty. done.
    + exact (kp_words _ _ K3).
Qed.

Lemma add_next_run {B} G k t n code param p w c s1 (f : unit -> KM B) :
  not_started G k -> prepared k t n code param p w c s1 ->
  exists k' G', (prvAddNewTaskToReadyList t ≫= f) (draft k t w c s1) = f tt k' /\ not_started G' k' /\ added t c k k' /\
    words k' = w.
Proof.
  intros [Hlv Htop Hrun Hready Hcount Hy] Hpp. pose proof (prepared_priority _ _ _ _ _ _ _ _ _ Hpp) as Hp.
  destruct Hpp as [P1 P2 P3 P4 P5 P6 P7 P8]. pose proof Hlv as [Hok Hs _ Hst _ Hpend Hp0 Hnt].
  destruct Htop as (cur & Ecur & Hcur & Hle).
  destruct (draft_ok G k t w c s1 Hok P2 P1 Hp P6 P3) as [Hokd Hcd]. set (d := draft k t w c s1) in *.
  assert (Hne : pxCurrentTCB k <> t) by congruence.
  assert (Hc0 : pxCurrentTCB k =? 0 = false).
  { apply Z.eqb_neq. intros E. rewrite E in Ecur. destruct (so_tasks _ _ _ _ Hok _ _ Ecur) as [Hpos _ _ _]. done. }
  unfold prvAddNewTaskToReadyList. rewrite bind_assoc, bind_get, bind_assoc, bind_modify, bind_assoc, bind_get.
  change (pxCurrentTCB (set_tasks _ d)) with (pxCurrentTCB k). rewrite Hc0.
  change (uxCurrentNumberOfTasks d) with (uxCurrentNumberOfTasks k). rewrite Hcount.
  assert (En : (Z.of_nat (size (tcbs k)) + 1)%word = Z.of_nat (S (size (tcbs k)))).
  { unfold add32. rewrite u32_small by (unfold is_u32; lia). lia. }
  rewrite En. set (k1 := set_tasks _ d). change (xSchedulerRunning k1) with (xSchedulerRunning k). rewrite Hrun.
  cbn [Z.eqb pdFALSE when]. rewrite bind_assoc.
  assert (Td : tcbs d !! pxCurrentTCB k = Some cur) by (cbn; by rewrite lookup_insert_ne by congruence).
  assert (Tt : tcbs d !! t = Some c) by (cbn; apply lookup_insert_eq).
  rewrite bind_assoc, (ld_tcb_run _ cur) by exact Td. rewrite bind_assoc, (ld_tcb_run _ c) by exact Tt.
  set (first := if uxPriority cur <=? uxPriority c then t else pxCurrentTCB k).
  set (k2 := set_current first k1).
  match goal with |- context [when _ (modify (set_current t)) ≫= ?g] =>
    assert (Hw : (when (uxPriority cur <=? uxPriority c) (modify (set_current t)) ≫= g) k1 = g tt k2) end.
  { unfold k2, first. destruct (uxPriority cur <=? uxPriority c); cbn [when]; [by rewrite bind_modify|by rewrite bind_ret]. }
  rewrite Hw. clear Hw.
  match goal with |- context [(get ≫= ?g) ≫= f] => change (get ≫= g) with (number_and_ready t) end.
  assert (Hok2 : sched_ok G k2) by (destruct Hokd as [? ? ? ? ? ? ? ? ? ? ?]; by constructor).
  assert (Hc2 : forall q, cont k2 q = if decide (task_of q = Some t) then None else cont k q) by exact Hcd.
  destruct (number_and_ready_run G k2 t c f Hok2) as (k3 & G3 & Hrun3 & Hok3 & K3 & C3 & T3 & Y3); [exact Tt| |done|].
  { by rewrite Hc2, decide_True. }
  exists k3, G3. split; [exact Hrun3|].
  assert (Hothers : forall u cu, tcbs k2 !! u = Some cu -> u = t /\ cu = c \/ u <> t /\ tcbs k !! u = Some cu).
  { intros u cu. change (tcbs k2) with (<[t := c]> (tcbs k)). rewrite lookup_insert.
    destruct (decide (t = u)) as [<-|]; [intros [= <-]; by left|right; done]. }
  destruct (almost_ready t c k2 k3 G3) as [Hns Hr]; try done.
  - constructor; try done.
    + change (tcbs k2) with (<[t := c]> (tcbs k)). by rewrite map_size_insert_None.
    + intros u cu Eu. by apply (draft_stacks k t w c s1 n code param Hst P8 P7 u).
    + intros u Hu [cu Eu]. destruct (Hothers u cu Eu) as [[? _]|[_ Eu']]; [done|].
      destruct (Hready u) as (c' & Ec' & Hc'); [by eexists|]. exists c'.
      change (tcbs k2) with (<[t := c]> (tcbs k)). rewrite lookup_insert_ne by done. split; [done|].
      rewrite Hc2. by rewrite decide_False by (cbn; congruence).
    + intros u. rewrite Hc2. case_decide; [done|apply Hpend].
    + change (pxCurrentTCB k2) with first. unfold first. destruct (Z.leb_spec (uxPriority cur) (uxPriority c)).
      * exists c. split; [exact Tt|]. intros u cu Eu. destruct (Hothers u cu Eu) as [[-> ->]|[Hu Eu']]; [done|].
        destruct (Hready u) as (c' & Ec' & Hc'); [by eexists|]. assert (c' = cu) as -> by congruence.
        pose proof (Hle u cu Eu' Hc'). lia.
      * exists cur. split; [exact Td|]. intros u cu Eu. destruct (Hothers u cu Eu) as [[-> ->]|[Hu Eu']]; [lia|].
        destruct (Hready u) as (c' & Ec' & Hc'); [by eexists|]. assert (c' = cu) as -> by congruence.
        by apply (Hle u cu Eu').
  - rewrite T3. apply dom_insert_lookup_L. exists c. exact Tt.
  - split; [done|]. split; [constructor; [|done|..]|].
    + intros u. rewrite (kp_blocks _ _ K3). unfold blocks. change (tcbs k2) with (<[t := c]> (tcbs k)). rewrite lookup_insert.
      by destruct (decide (t = u)).
    + intros u Hu. rewrite C3, decide_False by congruence. rewrite Hc2. by rewrite decide_False by (cbn; congruence).
    + rewrite (kp_current _ _ K3), Ecur. done.
    + exact (kp_words _ _ K3).
Qed.

(** ** Starting *)
Lemma start_running_run G k idle :
  not_started G k -> is_Some (tcbs k !! idle) ->
  exists k', start_running k = Ok tt k' /\ stable idle G k' /\ tcbs k' = tcbs k /\ xTickCount k' = 0 /\
    pxCurrentTCB k' = pxCurrentTCB k /\ store k' = store k.
Proof.
  intros [Hlv Htop Hrun Hready Hcount Hy] Hi. pose proof Hlv as [Hok Hs Hcur Hst Hr Hpend Hp0 Hnt].
  eexists. split; [reflexivity|]. split; [|done].
  set (k' := set_tick _ _).
  assert (Hempty : forall l, l = pxDelayedTaskList k \/ l = pxOverflowDelayedTaskList k -> contents G l = []).
  { intros l Hl. destruct (contents G l) as [|q xs] eqn:E; [done|]. assert (Hq : q ∈ contents G l) by (rewrite E; left).
    pose proof (so_fits _ _ _ _ Hok _ _ Hq) as Hf. apply (cont_in _ _ _ _ _ _ Hok) in Hq.
    assert (exists u, q = StateItem u /\ is_Some (tcbs k !! u)) as (u & -> & Hu).
    { destruct (so_ids _ _ _ _ Hok) as [[E1 E2]|[E1 E2]], Hl as [-> | ->]; rewrite ?E1, ?E2 in Hf; destruct q; try done; eauto. }
    destruct (Hready u Hu) as (c & _ & Hc). rewrite Hc in Hq. injection Hq as <-.
    destruct (so_ids _ _ _ _ Hok) as [[E1 E2]|[E1 E2]], Hl as [Hl|Hl]; rewrite ?E1, ?E2 in Hl; done. }
  assert (Hok' : sched_ok G k').
  { pose proof Hok as [H1 H2 H3 H4 H5 H6 H7 H8 H9 _ _]. constructor; try done.
    - cbn [k' set_tick set_running set_unblock pxDelayedTaskList]. rewrite Hempty by by left. split; constructor.
    - cbn [k' set_tick set_running set_unblock pxOverflowDelayedTaskList]. rewrite Hempty by by right. split; constructor. }
  split; [|exact Htop]. constructor; [by constructor|done|exact (Hready idle Hi)|].
  intros u Hu. destruct (Hready u Hu) as (c & _ & Hc). change (cont k' (StateItem u)) with (cont k (StateItem u)).
  rewrite Hc. by eexists.
Qed.
