(* ===== verification/RtSystem.v ===== *)
(** * FreeRTOS: tasks on the heap

    [xTaskCreate] on the scheduler and the heap together: the stack and the
    control block of a new task are blocks of the heap no other task uses. *)
From S2P Require Import Prelude.
From S2P Require Import RtList.
From S2P Require Import RtRings.
From S2P Require Import RtTasks.
From S2P Require Import RtHeap.
From S2P Require Import RtAlloc.
From S2P Require Import RtSched.
From S2P Require Import RtTick.
From S2P Require Import RtLive.
From S2P Require Import RtCreate.
From S2P Require Import RtStack.
From S2P Require Import RtStart.

Local Open Scope Z_scope.

Lemma in_kernel_run {A B} (m : KM A) (f : A -> RM B) s a k :
  m (os_kernel s) = Ok a k -> (in_kernel m ≫= f) s = f a (Rtos k (os_heap s)).
Proof. intros E. unfold mbind, M_bind, in_kernel. by rewrite E. Qed.
Lemma in_heap_run {A B} (m : HM A) (f : A -> RM B) s a h :
  m (os_heap s) = Ok a h -> (in_heap_4 m ≫= f) s = f a (Rtos (os_kernel s) h).
Proof. intros E. unfold mbind, M_bind, in_heap_4. by rewrite E. Qed.

(** Before the scheduler runs, with tasks or without. *)
Definition before_start (k : kernel) : Prop := (exists G, blank G k) \/ (exists G, not_started G k).

Lemma suspended_zero k : before_start k -> uxSchedulerSuspended k = 0.
Proof.
  intros [[G [_ _ _ _ (_ & _ & _ & ? & _) _]]|[G [Hlv _ _ _ _ _]]]; [done|apply (lv_suspended _ _ Hlv)].
Qed.

(** Taking the lock and giving it back. *)
Lemma lock_run k : before_start k -> vTaskSuspendAll k = Ok tt (set_suspended 1 k).
Proof. intros Hb%suspended_zero. unfold vTaskSuspendAll. rewrite bind_get, Hb. done. Qed.
Lemma unlock_run k : before_start k -> xTaskResumeAll (set_suspended 1 k) = Ok pdFALSE k.
Proof.
  intros Hb. pose proof (suspended_zero k Hb) as Hs.
  assert (E : set_suspended 0 (set_suspended 1 k) = k) by (rewrite resume_set, <- Hs; by destruct k).
  destruct Hb as [[G [_ _ _ _ (_ & Hn & _) _]]|[G [Hlv _ _ _ _ Hy]]].
  - unfold xTaskResumeAll. rewrite bind_get, bind_modify.
    change (uxSchedulerSuspended (set_suspended 1 k) - 1)%word with 0. rewrite E, bind_get, Hs. cbn [Z.eqb pdFALSE].
    rewrite Hn. done.
  - rewrite <- (bind_ret_r xTaskResumeAll), (resume_run G) by (by rewrite ?E). rewrite E.
    change (xYieldPending (set_suspended 1 k)) with (xYieldPending k). rewrite Hy. done.
Qed.

Section heap.
Variables ucHeap xStart : Z.
Variable old_memory : rtos -> Z -> raw_tcb.

Lemma pvPortMalloc_run {B} n (f : Z -> RM B) s pv h :
  before_start (os_kernel s) -> malloc_locked ucHeap xStart n (os_heap s) = Ok pv h ->
  (pvPortMalloc ucHeap xStart n ≫= f) s = f pv (Rtos (os_kernel s) h).
Proof.
  intros Hb Hm. unfold pvPortMalloc. rewrite bind_assoc, (in_kernel_run _ _ _ _ _ (lock_run _ Hb)), bind_assoc.
  rewrite (in_heap_run _ _ (Rtos (set_suspended 1 (os_kernel s)) (os_heap s)) _ _ Hm), bind_assoc.
  by rewrite (in_kernel_run _ _ (Rtos (set_suspended 1 (os_kernel s)) h) _ _ (unlock_run _ Hb)).
Qed.

Lemma vPortFree_run {B} pv (f : unit -> RM B) s h :
  before_start (os_kernel s) -> release ucHeap xStart pv (os_heap s) = Ok tt h ->
  (vPortFree ucHeap xStart pv ≫= f) s = f tt (Rtos (os_kernel s) h).
Proof.
  intros Hb Hr. unfold release in Hr. apply bind_inv in Hr as (b & h1 & Hc & Hf).
  unfold vPortFree. rewrite bind_assoc, (in_heap_run _ _ _ _ _ Hc). destruct b; cbn [when] in *.
  - set (k1 := set_suspended 1 (os_kernel s)).
    rewrite bind_assoc, (in_kernel_run _ _ (Rtos (os_kernel s) h1) _ _ (lock_run _ Hb)), bind_assoc.
    rewrite (in_heap_run _ _ (Rtos k1 h1) _ _ Hf), bind_assoc.
    by rewrite (in_kernel_run _ _ (Rtos k1 h) _ _ (unlock_run _ Hb)).
  - rewrite bind_ret. apply ok_inj in Hf as [_ <-]. done.
Qed.

(** Every task's control block and stack are in blocks in use. *)
Definition task_memory (bs : list block) (t : Z) (c : TCB_t) : Prop :=
  exists z z', Block (t - 8) z false ∈ bs /\ 8 + sizeof_TCB_t <= z /\
    Block (pxStack c - 8) z' false ∈ bs /\ 24 <= z'.
Record memory_ok (a0 : Z) (bs : list block) (s : rtos) : Prop := {
  mo_heap : heap_view ucHeap xStart a0 bs (os_heap s);
  mo_tasks : forall t c, tcbs (os_kernel s) !! t = Some c -> task_memory bs t c
}.

Lemma task_memory_more bs bs' t c :
  (forall b, b ∈ bs -> b_free b = false -> b ∈ bs') -> task_memory bs t c -> task_memory bs' t c.
Proof. intros Hin (z & z' & H1 & H2 & H3 & H4). exists z, z'. split_and!; try done; by apply Hin. Qed.

(** The new stack meets no guard word of another. *)
Lemma new_stack_apart bs k st n z :
  (forall t c, tcbs k !! t = Some c -> task_memory bs t c) ->
  (forall c, c ∈ bs -> b_free c = false -> st - 8 + z <= b_addr c \/ b_addr c + b_size c <= st - 8) ->
  4 * n <= z - 8 -> stacks_apart k st n.
Proof.
  intros Ht Hap Hn u c i Eu Hi (j & Hj & E). destruct (Ht u c Eu) as (_ & z' & _ & _ & Hb & Hz').
  destruct (Hap _ Hb eq_refl) as [H|H]; cbn [b_addr b_size] in H; revert Hi; rewrite !elem_of_cons, elem_of_nil;
    intros [-> |[-> |[-> |[-> |[]]]]]; lia.
Qed.
Lemma new_handle_free bs k t z :
  (forall u c, tcbs k !! u = Some c -> task_memory bs u c) ->
  (forall c, c ∈ bs -> b_free c = false -> t - 8 + z <= b_addr c \/ b_addr c + b_size c <= t - 8) ->
  8 <= z -> tcbs k !! t = None.
Proof.
  intros Ht Hap Hz. destruct (tcbs k !! t) as [c|] eqn:E; [|done]. exfalso.
  destruct (Ht t c E) as (z' & _ & Hb & Hz' & _). unfold sizeof_TCB_t in Hz'.
  destruct (Hap _ Hb eq_refl) as [H|H]; cbn [b_addr b_size] in H; lia.
Qed.
End heap.

(** ** The blocks of a task *)

(** What a request for [n] bytes takes from the heap: the header and a
    multiple of 8 bytes. *)
Definition room (n : Z) : Z := (n + 15) / 8 * 8.

Lemma block_size_room n : 0 < n < 2 ^ 31 -> block_size n = room n.
Proof.
  intros Hn. destruct (block_size_spec n Hn) as [Hb Hm]. unfold room.
  pose proof (Z.div_mod (block_size n) 8). pose proof (Z.div_mod (n + 15) 8). pose proof (Z.mod_pos_bound (n + 15) 8). lia.
Qed.

(** A free block that has room for a request and [R] bytes more has those
    bytes afterwards, wherever the request was served. *)
Lemma allocate_fits n bs b R :
  0 < n -> b ∈ bs -> b_free b = true -> 0 <= R -> room n + R <= b_size b < 2 ^ 31 ->
  exists a r, allocate n bs = Some (a, r) /\
    (16 < R -> exists d, d ∈ r /\ b_free d = true /\ R <= b_size d < 2 ^ 31).
Proof.
  intros Hn Hb Hf HR Hs. assert (n < 2 ^ 31).
  { unfold room in Hs. pose proof (Z.div_mod (n + 15) 8). pose proof (Z.mod_pos_bound (n + 15) 8). lia. }
  unfold allocate. destruct (Z.ltb_spec 0 n), (Z.ltb_spec n (2 ^ 31)); try lia. cbn [andb].
  rewrite block_size_room by lia. assert (0 <= room n) by (apply Z.mul_nonneg_nonneg; [apply Z.div_pos|]; lia).
  set (w := room n) in *. pose proof (first_fit_spec w bs) as Hff.
  destruct (first_fit w bs) as [[a r]|]; [|specialize (Hff b Hb Hf); lia].
  destruct Hff as (p & c & q & -> & Hc & Hw & _ & -> & ->). exists (b_addr c), (p ++ carve w c ++ q). split; [done|].
  intros H16. assert (b = c \/ b ∈ p ++ carve w c ++ q) as [-> | Hin].
  { revert Hb. rewrite !elem_of_app, elem_of_cons. tauto. }
  - exists (Block (b_addr c + w) (b_size c - w) true). split; [|split; [done|cbn; lia]].
    unfold carve. change heapMINIMUM_BLOCK_SIZE with 16. destruct (Z.ltb_spec 16 (b_size c - w)); [set_solver +|lia].
  - exists b. split; [done|]. split; [done|lia].
Qed.

(** The blocks of the stack and of the control block of a task, by the
    addresses of their headers. *)
Record task_room : Type := TaskRoom { tr_stack : Z; tr_tcb : Z }.
Definition handle (m : task_room) : Z := tr_tcb m + 8.

(** The two allocations of a task with a stack of [n] words: both or none. *)
Definition two_blocks (n : Z) (bs : list block) : option (task_room * list block) :=
  '(a, bs1) ← allocate (4 * n) bs; '(b, bs2) ← allocate sizeof_TCB_t bs1; Some (TaskRoom a b, bs2).

Section rooms.
Variables ucHeap xStart : Z.

Lemma heap_view_sizes a0 bs h b : heap_view ucHeap xStart a0 bs h -> b ∈ bs -> 8 <= b_size b < 2 ^ 31.
Proof.
  intros [[Ha Ht _ _ _ _ _ _]|(_ & Hl & -> & ->)]; [by eapply size_below|].
  destruct (initial_heap_ok ucHeap xStart h Hl) as [Ha Ht _ _ _ _ _ _]. by eapply size_below.
Qed.

(** Where they lie: large enough, two blocks, and new ones. *)
Lemma two_blocks_room a0 bs h n m bs2 :
  heap_view ucHeap xStart a0 bs h -> 0 <= n -> 4 * n < 2 ^ 32 -> two_blocks n bs = Some (m, bs2) ->
  exists z z', Block (tr_stack m) z false ∈ bs2 /\ 8 + 4 * n <= z /\
    Block (tr_tcb m) z' false ∈ bs2 /\ 8 + sizeof_TCB_t <= z' /\ tr_stack m <> tr_tcb m /\
    forall c, c ∈ bs -> b_free c = false -> c ∈ bs2 /\ b_addr c <> tr_stack m /\ b_addr c <> tr_tcb m.
Proof.
  intros Hv Hn Hn4 E. unfold two_blocks in E.
  destruct (allocate (4 * n) bs) as [[a bs1]|] eqn:Ea; cbn in E; [|done].
  destruct (allocate sizeof_TCB_t bs1) as [[b bs2']|] eqn:Eb; cbn in E; [|done]. injection E as <- <-. cbn.
  assert (U4 : is_u32 (4 * n)) by (unfold is_u32; lia).
  assert (U88 : is_u32 sizeof_TCB_t) by done.
  destruct (malloc_area_run _ _ _ _ _ _ _ _ Hv U4 Ea)
    as (h1 & z & _ & Hok1 & Hin1 & _ & Hz & _ & _ & _ & Hap1).
  assert (Hv1 : heap_view ucHeap xStart a0 bs1 h1) by (by left).
  destruct (malloc_area_run _ _ _ _ _ _ _ _ Hv1 U88 Eb)
    as (h2 & z' & _ & _ & Hin2 & _ & Hz' & _ & _ & _ & Hap2). unfold sizeof_TCB_t in Hz'.
  destruct (Hap2 _ Hin1 eq_refl) as [Hin1' Hne]. cbn [b_addr b_size] in Hne.
  exists z, z'. unfold sizeof_TCB_t. do 4 (split; [done || lia|]). split; [lia|]. intros c Hc Ec.
  destruct (Hap1 c Hc Ec) as [Hc1 H1]. destruct (Hap2 c Hc1 Ec) as [Hc2 H2].
  pose proof (heap_view_sizes _ _ _ _ Hv Hc). split; [done|]. lia.
Qed.
End rooms.

(** ** [xTaskCreate] *)
Section create.
Variables ucHeap xStart : Z.
Variable old_memory : rtos -> Z -> raw_tcb.
Hypothesis old_words : forall s t, is_u32 (xItemValue (raw_state_link (old_memory s t))).

(** The control block with the address of its stack, holding what the memory
    held. *)
Lemma place_draft r t st k :
  set_tcbs (alter (with_stack st) t (tcbs (place_tcb r t k))) (place_tcb r t k) =
  draft k t (words k) (with_stack st (raw_fields r)) (store (place_tcb r t k)).
Proof.
  unfold draft, place_tcb, set_words, set_tcbs, set_store. cbn. f_equal.
  apply map_eq. intros u. rewrite lookup_alter, !lookup_insert. destruct (decide (t = u)); [|done]. by rewrite decide_True.
Qed.

(** The new items, whatever the memory held. *)
Lemma placed_items r t k v :
  is_u32 (xItemValue (raw_state_link r)) -> is_u32 v ->
  let s := store (place_tcb r t k) in
  fresh_items t (store k) (LStore (alter (with_value v) (EventItem t) (links s))
    (<[EventItem t := ListItem t None]> (<[StateItem t := ListItem t None]> (items s))) (lists s)).
Proof.
  intros Hr Hv. cbn [place_tcb set_tcbs set_store store links items lists]. constructor; cbn [links items lists]; [|done|..].
  - intros q Hq. assert (EventItem t <> q /\ StateItem t <> q) as [H1 H2] by (split; intros <-; done).
    by rewrite lookup_alter_ne, !lookup_insert_ne by done.
  - split; [rewrite lookup_insert_ne by done; apply lookup_insert_eq|]. eexists. split; [|exact Hr].
    unfold vl. by rewrite lookup_alter_ne, lookup_insert_eq by done.
  - split; [apply lookup_insert_eq|]. exists v. split; [|done].
    unfold vl. by rewrite lookup_alter_eq, lookup_insert_ne, lookup_insert_eq by done.
Qed.

Lemma new_priority_bounds p : 0 <= p -> 0 <= new_priority p < configMAX_PRIORITIES.
Proof. unfold new_priority, configMAX_PRIORITIES. destruct (Z.leb_spec 8 p); lia. Qed.

(** From the two blocks to the ready task. *)
Lemma new_task_run bs k h code nm n param p st t z z' r :
  before_start k -> (forall u c, tcbs k !! u = Some c -> task_memory bs u c) -> 26 <= n -> 0 <= p -> Z.of_nat (S (size (tcbs k))) < 2 ^ 32 ->
  is_u32 (xItemValue (raw_state_link r)) ->
  0 < st -> st mod 8 = 0 -> st + 4 * n < 2 ^ 32 -> 4 * n <= z - 8 -> 0 < t -> 8 + sizeof_TCB_t <= z' ->
  (forall c, c ∈ bs -> b_free c = false -> (st - 8 + z <= b_addr c \/ b_addr c + b_size c <= st - 8) /\
     (t - 8 + z' <= b_addr c \/ b_addr c + b_size c <= t - 8)) ->
  exists k' G' c,
    (in_kernel (modify (place_tcb r t)) ≫= fun _ => in_kernel (st_tcb (with_stack st) t) ≫= fun _ =>
     in_kernel (prvInitialiseNewTask code nm n param p t) ≫= fun _ =>
     in_kernel (prvAddNewTaskToReadyList t)) (Rtos k h) = Ok tt (Rtos k' h) /\
    not_started G' k' /\ added t c k k' /\ new_block st p (frame_top st n - 80) c /\
    new_words st n code param (words k) (words k').
Proof.
  intros Hb Hm Hn Hp Hroom Hr Hst Hal Hhi Hz Ht Hz' Hap.
  rewrite (in_kernel_run _ _ _ tt (place_tcb r t k)) by done.
  match goal with |- context [in_kernel (st_tcb ?g t) ≫= ?f] =>
    rewrite (in_kernel_run (st_tcb g t) f _ tt (draft k t (words k) (with_stack st (raw_fields r)) (store (place_tcb r t k)))) end.
  2:{ cbn [os_kernel]. rewrite <- place_draft. unfold st_tcb. cbn [place_tcb set_tcbs tcbs]. by rewrite lookup_insert_eq. }
  cbn [os_heap].
  destruct (prvInitialiseNewTask_run code nm n param p k t (words k) (with_stack st (raw_fields r))
    (store (place_tcb r t k)) (pvOwner (raw_state_item r)) (pxContainer (raw_state_item r))
    (pvOwner (raw_event_item r)) (pxContainer (raw_event_item r)) (raw_event_link r) mret)
    as (w & c & Hrun & Hw & Hc); cbn [with_stack pxStack] in *; try done; try lia.
  { cbn. rewrite lookup_insert_eq. by destruct (raw_state_item r). }
  { cbn. rewrite lookup_insert_ne, lookup_insert_eq by done. by destruct (raw_event_item r). }
  { cbn. by rewrite lookup_insert_ne, lookup_insert_eq by done. }
  rewrite bind_ret_r in Hrun.
  match goal with |- context [(in_kernel (prvInitialiseNewTask _ _ _ _ _ _) ≫= _) ?s0] =>
    rewrite (in_kernel_run _ _ s0 _ _ Hrun) end. cbn [os_heap].
  set (s1 := LStore _ _ _) in *.
  assert (Hpp : prepared k t n code param p w c s1).
  { constructor; try done.
    - apply (new_handle_free bs k t z'); [exact Hm|intros d Hd Ed; exact (proj2 (Hap d Hd Ed))|unfold sizeof_TCB_t in Hz'; lia].
    - by rewrite (nb_stack _ _ _ _ Hc).
    - apply placed_items; [done|]. pose proof (new_priority_bounds p Hp). unfold configMAX_PRIORITIES, is_u32 in *. lia.
    - by rewrite (nb_stack _ _ _ _ Hc).
    - rewrite (nb_stack _ _ _ _ Hc). apply (new_stack_apart bs k st n z); [exact Hm|intros d Hd Ed; exact (proj1 (Hap d Hd Ed))|done]. }
  assert (exists k' G', prvAddNewTaskToReadyList t (draft k t w c s1) = Ok tt k' /\ not_started G' k' /\
    added t c k k' /\ words k' = w) as (k' & G' & Hadd & Hns & Had & Ew).
  { rewrite <- (bind_ret_r (prvAddNewTaskToReadyList t)).
    destruct Hb as [[G Hb]|[G Hb]]; [by apply (add_first_run G k t n code param p)|by apply (add_next_run G k t n code param p)]. }
  exists k', G', c. split; [unfold in_kernel; cbn [os_kernel]; by rewrite Hadd|].
  split_and!; try done. by rewrite Ew.
Qed.

Lemma added_tasks a0 bs bs' k k' h' t c :
  (forall u cu, tcbs k !! u = Some cu -> task_memory bs u cu) -> added t c k k' ->
  (forall b, b ∈ bs -> b_free b = false -> b ∈ bs') -> task_memory bs' t c ->
  heap_view ucHeap xStart a0 bs' h' -> memory_ok ucHeap xStart a0 bs' (Rtos k' h').
Proof.
  intros Hm [Hb _ _ _] Hin Ht Hh. constructor; [done|]. intros u cu Eu. cbn [os_kernel] in *.
  specialize (Hb u). unfold blocks in Hb. rewrite Eu in Hb. destruct (decide (t = u)) as [<-|Hne].
  - injection Hb as _ Es. unfold task_memory in *. by rewrite Es.
  - destruct (tcbs k !! u) as [c0|] eqn:E0; [|done]. injection Hb as _ Es.
    apply (task_memory_more bs); [done|]. specialize (Hm u c0 E0). unfold task_memory in *. by rewrite Es.
Qed.

(** What creating a task does: nothing but give back what it took when there
    is no memory, or a task that is ready, on memory nobody else uses. *)
Definition created (a0 : Z) (bs : list block) (code n param p : Z) (s : rtos) (r : res rtos (Z * option Z)) : Prop :=
  match allocate (4 * n) bs with
  | None => exists h', r = Ok (errCOULD_NOT_ALLOCATE_REQUIRED_MEMORY, None) (Rtos (os_kernel s) h') /\
      heap_ok ucHeap xStart a0 bs h'
  | Some (a, bs1) =>
      match allocate sizeof_TCB_t bs1 with
      | None => exists h', r = Ok (errCOULD_NOT_ALLOCATE_REQUIRED_MEMORY, None) (Rtos (os_kernel s) h') /\
          heap_ok ucHeap xStart a0 bs h'
      | Some (b, bs2) => exists k' h' G' c,
          r = Ok (pdPASS, Some (b + 8)) (Rtos k' h') /\ not_started G' k' /\
          heap_ok ucHeap xStart a0 bs2 h' /\ memory_ok ucHeap xStart a0 bs2 (Rtos k' h') /\
          added (b + 8) c (os_kernel s) k' /\ new_block (a + 8) p (frame_top (a + 8) n - 80) c /\
          new_words (a + 8) n code param (words (os_kernel s)) (words k')
      end
  end.

Lemma xTaskCreate_run a0 bs s code nm n param p :
  before_start (os_kernel s) -> memory_ok ucHeap xStart a0 bs s -> 26 <= n -> 4 * n < 2 ^ 32 -> 0 <= p ->
  Z.of_nat (S (size (tcbs (os_kernel s)))) < 2 ^ 32 ->
  created a0 bs code n param p s (xTaskCreate ucHeap xStart old_memory code nm n param p s).
Proof.
  intros Hb Hm Hn Hn4 Hp Hroom. destruct s as [k h]. cbn [os_kernel os_heap] in *. pose proof (mo_heap _ _ _ _ _ Hm) as Hv.
  assert (E4 : (n * sizeof_StackType_t)%word = 4 * n).
  { unfold mul32, sizeof_StackType_t. rewrite u32_small by (unfold is_u32; lia). lia. }
  assert (U4 : is_u32 (4 * n)) by (unfold is_u32; lia).
  unfold created, xTaskCreate. rewrite E4. destruct (allocate (4 * n) bs) as [[a bs1]|] eqn:Ea.
  2:{ destruct (malloc_run ucHeap xStart a0 bs (4 * n) h Hv U4) as (h1 & Hrun & Hok & _). rewrite Ea in Hrun, Hok.
      rewrite (pvPortMalloc_run ucHeap xStart _ _ (Rtos k h) _ _ Hb Hrun). cbn [Z.eqb negb]. rewrite bind_ret. cbn [Z.eqb negb].
      by exists h1. }
  destruct (malloc_area_run ucHeap xStart a0 bs (4 * n) h a bs1 Hv U4 Ea)
    as (h1 & z & Hrun1 & Hok1 & Hin1 & Hal & Hz & Hlo & Hhi & Hmax & Hap1).
  rewrite (pvPortMalloc_run ucHeap xStart _ _ (Rtos k h) _ _ Hb Hrun1). cbn [os_kernel].
  rewrite (proj2 (Z.eqb_neq (a + 8) 0)) by lia. cbn [negb]. rewrite bind_assoc.
  assert (Hv1 : heap_view ucHeap xStart a0 bs1 h1) by by left.
  assert (U88 : is_u32 sizeof_TCB_t) by (unfold is_u32, sizeof_TCB_t; lia).
  destruct (allocate sizeof_TCB_t bs1) as [[b bs2]|] eqn:Eb.
  2:{ destruct (malloc_run ucHeap xStart a0 bs1 _ h1 Hv1 U88) as (h2 & Hrun & Hok & _). rewrite Eb in Hrun, Hok.
      rewrite (pvPortMalloc_run ucHeap xStart _ _ (Rtos k h1) _ _ Hb Hrun). cbn [Z.eqb negb os_kernel]. rewrite bind_assoc.
      destruct (give_back_run ucHeap xStart a0 bs (4 * n) h a bs1 h2 Hv Ea Hok) as (h3 & Hrel & Hok3).
      rewrite (vPortFree_run ucHeap xStart _ _ (Rtos k h2) _ Hb Hrel), bind_ret. cbn [Z.eqb negb]. by exists h3. }
  destruct (malloc_area_run ucHeap xStart a0 bs1 sizeof_TCB_t h1 b bs2 Hv1 U88 Eb)
    as (h2 & z' & Hrun2 & Hok2 & Hin2 & _ & Hz' & Hlo2 & Hhi2 & _ & Hap2).
  rewrite (pvPortMalloc_run ucHeap xStart _ _ (Rtos k h1) _ _ Hb Hrun2). cbn [os_kernel].
  rewrite (proj2 (Z.eqb_neq (b + 8) 0)) by lia. cbn [negb].
  destruct (Hap2 _ Hin1 eq_refl) as [Hin1' Hdis]. cbn [b_addr b_size] in Hdis.
  destruct (new_task_run bs k h2 code nm n param p (a + 8) (b + 8) z z' (old_memory (Rtos k h2) (b + 8)))
    as (k' & G' & c & Hrun & Hns & Had & Hc & Hw); try done; try lia.
  { exact (mo_tasks _ _ _ _ _ Hm). }
  { intros d Hd Ed. replace (a + 8 - 8) with a by lia. replace (b + 8 - 8) with b by lia.
    destruct (Hap1 d Hd Ed) as [Hd1 ?]. split; [done|]. exact (proj2 (Hap2 d Hd1 Ed)). }
  exists k', h2, G', c.
  split; [|split; [done|split; [done|split; [|done]]]].
  - rewrite bind_assoc, bind_get, bind_assoc. apply bind_inv in Hrun as ([] & s1 & R1 & Hrun).
    rewrite (bind_ok _ _ _ _ _ R1), bind_assoc. apply bind_inv in Hrun as ([] & s2 & R2 & Hrun).
    rewrite (bind_ok _ _ _ _ _ R2), bind_ret. rewrite (proj2 (Z.eqb_neq (b + 8) 0)) by lia. cbn [negb].
    apply bind_inv in Hrun as ([] & s3 & R3 & R4).
    by rewrite (bind_ok _ _ _ _ _ R3), (bind_ok _ _ _ _ _ R4).
  - apply (added_tasks a0 bs bs2 k k' h2 (b + 8) c); [exact (mo_tasks _ _ _ _ _ Hm)|done|..].
    + intros d Hd Ed. exact (proj1 (Hap2 d (proj1 (Hap1 d Hd Ed)) Ed)).
    + exists z', z. rewrite (nb_stack _ _ _ _ Hc). replace (a + 8 - 8) with a by lia. replace (b + 8 - 8) with b by lia.
      split_and!; [done|lia|done|lia].
    + by left.
Qed.
(** ** Creating the tasks of an application, and starting *)
Record request : Type := Request {
  rq_code : Z; rq_name : Z -> Z; rq_depth : Z; rq_parameters : Z; rq_priority : Z
}.
Definition sensible (r : request) : Prop := 26 <= rq_depth r /\ 4 * rq_depth r < 2 ^ 32 /\ 0 <= rq_priority r.

(** The handles the calls gave. *)
Fixpoint create_all (rs : list request) : RM (list (option Z)) :=
  match rs with
  | [] => mret []
  | r :: rs' =>
      x ← xTaskCreate ucHeap xStart old_memory (rq_code r) (rq_name r) (rq_depth r) (rq_parameters r) (rq_priority r);
      hs ← create_all rs'; mret (x.2 :: hs)
  end.

(** What first fit gives to the requests, one after the other: the blocks of
    those it has room for, and the heap that is left. *)
Definition handles (ms : list (option task_room)) : list (option Z) := option_map handle <$> ms.
Fixpoint planned (rs : list request) (bs : list block) : list (option task_room) * list block :=
  match rs with
  | [] => ([], bs)
  | r :: rs' =>
      match two_blocks (rq_depth r) bs with
      | None => (None :: (planned rs' bs).1, (planned rs' bs).2)
      | Some (m, bs') => (Some m :: (planned rs' bs').1, (planned rs' bs').2)
      end
  end.

Lemma planned_length rs : forall bs, length (planned rs bs).1 = length rs.
Proof. induction rs as [|r rs IH]; intros bs; cbn; [done|]. destruct (two_blocks _ _) as [[m bs']|]; cbn; by rewrite IH. Qed.

(** The bytes the requests need; with a free block of that size none of them
    fails. *)
Fixpoint needs (rs : list request) : Z :=
  match rs with [] => 0 | r :: rs' => room (4 * rq_depth r) + (room sizeof_TCB_t + needs rs') end.

Lemma needs_bounds rs : Forall sensible rs -> 0 <= needs rs /\ (rs <> [] -> 16 < needs rs).
Proof.
  intros Hrs. induction Hrs as [|r rs (Hn & _ & _) _ IH]; cbn [needs]; [done|].
  assert (0 <= room (4 * rq_depth r)) by (apply Z.mul_nonneg_nonneg; [apply Z.div_pos|]; lia).
  change (room sizeof_TCB_t) with 96. destruct IH as [IH _]. split; [lia|intros _; lia].
Qed.

Lemma planned_fits rs : forall bs b,
  Forall sensible rs -> b ∈ bs -> b_free b = true -> needs rs <= b_size b < 2 ^ 31 -> Forall is_Some (planned rs bs).1.
Proof.
  induction rs as [|r rs IH]; intros bs b Hrs Hb Hf Hs; [by apply Forall_nil|]. cbn [planned needs] in *.
  apply Forall_cons in Hrs as [(Hn & _) Hrs]. destruct (needs_bounds rs Hrs) as [H0 H16].
  destruct (allocate_fits (4 * rq_depth r) bs b (room sizeof_TCB_t + needs rs)) as (a & bs1 & Ea & H1);
    [lia|done|done|change (room sizeof_TCB_t) with 96; lia|lia|].
  destruct H1 as (d & Hd & Hdf & Hds); [change (room sizeof_TCB_t) with 96; lia|].
  destruct (allocate_fits sizeof_TCB_t bs1 d (needs rs)) as (c & bs2 & Eb & H2); try done.
  unfold two_blocks. rewrite Ea. cbn. rewrite Eb. cbn. apply Forall_cons. split; [done|].
  destruct (decide (rs = [])) as [-> |Hne]; [by apply Forall_nil|].
  destruct (H2 (H16 Hne)) as (e & He & Hef & Hes). by apply (IH _ e).
Qed.

(** Areas of a heap, by the address of the block and the bytes asked for: each
    in a block in use of its own, none of them one that was in use before. *)
Record own_areas (bs bs' : list block) (l : list (Z * Z)) : Prop := {
  oa_in : forall a n, (a, n) ∈ l -> exists z, Block a z false ∈ bs' /\ 8 + n <= z;
  oa_nodup : NoDup l.*1;
  oa_new : forall c, c ∈ bs -> b_free c = false -> c ∈ bs' /\ b_addr c ∉ l.*1
}.
Definition areas_of (r : request) (o : option task_room) : list (Z * Z) :=
  match o with Some m => [(tr_stack m, 4 * rq_depth r); (tr_tcb m, sizeof_TCB_t)] | None => [] end.
Definition areas (rs : list request) (ms : list (option task_room)) : list (Z * Z) := concat (zip_with areas_of rs ms).

Lemma own_nil bs : own_areas bs bs [].
Proof. constructor; [by intros a n ?%elem_of_nil|apply NoDup_nil_2|]. intros c Hc _. split; [done|apply not_elem_of_nil]. Qed.
Lemma own_app bs bs1 bs2 l1 l2 : own_areas bs bs1 l1 -> own_areas bs1 bs2 l2 -> own_areas bs bs2 (l1 ++ l2).
Proof.
  intros [I1 N1 W1] [I2 N2 W2]. constructor.
  - intros a n [H|H]%elem_of_app; [|by apply I2]. destruct (I1 a n H) as (z & Hz & Hn). exists z.
    split; [by apply (W2 _ Hz)|done].
  - rewrite fmap_app. apply NoDup_app. split; [done|]. split; [|done].
    intros a ((a' & n) & -> & H)%list_elem_of_fmap. destruct (I1 _ _ H) as (z & Hz & _). by apply (W2 _ Hz).
  - intros c Hc Ec. destruct (W1 c Hc Ec) as [Hc1 H1]. destruct (W2 c Hc1 Ec) as [Hc2 H2].
    split; [done|]. rewrite fmap_app, elem_of_app. tauto.
Qed.
Lemma own_two_blocks a0 bs h r m bs' :
  heap_view ucHeap xStart a0 bs h -> sensible r -> two_blocks (rq_depth r) bs = Some (m, bs') ->
  own_areas bs bs' (areas_of r (Some m)).
Proof.
  intros Hv (Hn & Hn4 & _) E.
  assert (0 <= rq_depth r) as Hn0 by lia.
  destruct (two_blocks_room _ _ _ _ _ _ _ _ Hv Hn0 Hn4 E) as (z & z' & H1 & H2 & H3 & H4 & Hne & Hc).
  constructor; cbn.
  - intros a n. rewrite !elem_of_cons, elem_of_nil. intros [[= -> ->]|[[= -> ->]|[]]]; eauto.
  - apply NoDup_cons. split; [by rewrite list_elem_of_singleton|apply NoDup_singleton].
  - intros c Hb Ec. destruct (Hc c Hb Ec) as (? & ? & ?). split; [done|].
    rewrite !elem_of_cons, elem_of_nil. tauto.
Qed.

(** They do not meet. *)
Lemma own_apart a0 bs bs' h l i j x y :
  heap_view ucHeap xStart a0 bs' h -> own_areas bs bs' l -> i <> j -> l !! i = Some x -> l !! j = Some y ->
  x.1 + 8 + x.2 <= y.1 \/ y.1 + 8 + y.2 <= x.1.
Proof.
  intros Hv [I N _] Hij Hx Hy. destruct x as [a n], y as [b n']. cbn [fst snd].
  destruct (I a n) as (z & Hz & Hn); [by eapply list_elem_of_lookup_2|].
  destruct (I b n') as (z' & Hz' & Hn'); [by eapply list_elem_of_lookup_2|].
  assert (a <> b).
  { intros <-. apply Hij. apply (NoDup_lookup _ _ _ a N); rewrite list_lookup_fmap; [by rewrite Hx|by rewrite Hy]. }
  destruct (heap_view_tiles _ _ _ _ _ Hv) as (_ & e & Ht & _).
  pose proof (tiles_disjoint _ _ _ _ _ Ht Hz Hz' ltac:(congruence)) as Hd. cbn [b_addr b_size] in Hd. lia.
Qed.

Lemma added_size t c k k' : added t c k k' -> (size (tcbs k') <= S (size (tcbs k)))%nat.
Proof.
  intros [Hb _ _ _]. rewrite <- !(size_dom (D := gset Z)).
  etransitivity; [apply (subseteq_size _ ({[t]} ∪ dom (tcbs k)))|].
  - intros u Hu%elem_of_dom. rewrite elem_of_union, elem_of_singleton, elem_of_dom.
    destruct (decide (t = u)) as [<-|Hne]; [by left|]. right. apply is_Some_blocks.
    specialize (Hb u). rewrite decide_False in Hb by done. rewrite <- Hb. by apply is_Some_blocks.
  - rewrite size_union_alt, size_singleton. 
    assert (size (dom (tcbs k) ∖ {[t]} : gset Z) <= size (dom (tcbs k) : gset Z))%nat; [|lia].
    apply subseteq_size. set_solver.
Qed.
Lemma added_kept t c k k' u : added t c k k' -> is_Some (tcbs k !! u) \/ u = t -> is_Some (tcbs k' !! u).
Proof.
  intros [Hb _ _ _] Hu. apply is_Some_blocks. rewrite Hb. destruct (decide (t = u)) as [<-|Hne]; [by eexists|].
  apply is_Some_blocks. destruct Hu as [?|?]; [done|congruence].
Qed.

(** What one call gives: nothing new, or one task more, on the blocks first
    fit finds. *)
Definition next_state (bs : list block) (a0 : Z) (r : request) (s s' : rtos) (h : option Z) : Prop :=
  match two_blocks (rq_depth r) bs with
  | None => h = None /\ os_kernel s' = os_kernel s /\ memory_ok ucHeap xStart a0 bs s'
  | Some (m, bs') => h = Some (handle m) /\ memory_ok ucHeap xStart a0 bs' s' /\
      exists c G', not_started G' (os_kernel s') /\ added (handle m) c (os_kernel s) (os_kernel s') /\
        priority_stack c = (new_priority (rq_priority r), tr_stack m + 8)
  end.

Lemma create_one a0 bs s r :
  before_start (os_kernel s) -> memory_ok ucHeap xStart a0 bs s -> sensible r ->
  Z.of_nat (S (size (tcbs (os_kernel s)))) < 2 ^ 32 ->
  exists x s',
    xTaskCreate ucHeap xStart old_memory (rq_code r) (rq_name r) (rq_depth r) (rq_parameters r) (rq_priority r) s =
      Ok x s' /\ next_state bs a0 r s s' x.2.
Proof.
  intros Hb Hm (Hn & Hn4 & Hp) Hroom.
  pose proof (xTaskCreate_run a0 bs s (rq_code r) (rq_name r) (rq_depth r) (rq_parameters r) (rq_priority r)
    Hb Hm Hn Hn4 Hp Hroom) as Hc. unfold created in Hc.
  assert (Hnone : forall h', heap_ok ucHeap xStart a0 bs h' -> memory_ok ucHeap xStart a0 bs (Rtos (os_kernel s) h')).
  { intros h' Hh. constructor; [by left|]. apply (mo_tasks _ _ _ _ _ Hm). }
  unfold next_state, two_blocks. destruct (allocate (4 * rq_depth r) bs) as [[a bs1]|]; cbn.
  2:{ destruct Hc as (h' & Hrun & Hh). eexists _, _. split; [exact Hrun|]. auto. }
  destruct (allocate sizeof_TCB_t bs1) as [[b bs2]|]; cbn.
  2:{ destruct Hc as (h' & Hrun & Hh). eexists _, _. split; [exact Hrun|]. auto. }
  destruct Hc as (k' & h' & G' & c & Hrun & Hns & _ & Hm' & Ha & [Ep _ _ Es _ _] & _).
  eexists _, _. split; [exact Hrun|]. split; [done|]. split; [done|]. exists c, G'. unfold priority_stack. by rewrite Ep, Es.
Qed.

(** The task of a request, by its control block. *)
Definition task_of (k : kernel) (r : request) (m : task_room) : Prop :=
  blocks k (handle m) = Some (new_priority (rq_priority r), tr_stack m + 8).

(** After the calls: the heap as planned, on it the tasks that were there and
    one for each request that had room. *)
Record all_created (a0 : Z) (bs : list block) (rs : list request) (s s' : rtos) : Prop := {
  ac_memory : memory_ok ucHeap xStart a0 (planned rs bs).2 s';
  ac_areas : own_areas bs (planned rs bs).2 (areas rs (planned rs bs).1);
  ac_tasks : forall i r m, rs !! i = Some r -> (planned rs bs).1 !! i = Some (Some m) -> task_of (os_kernel s') r m;
  ac_others : forall u, Some u ∉ handles (planned rs bs).1 -> blocks (os_kernel s') u = blocks (os_kernel s) u;
  ac_kernel : os_kernel s' = os_kernel s \/ exists G', not_started G' (os_kernel s')
}.

(** A handle that is among the areas of the rest is not one of before. *)
Lemma handle_areas rs : forall bs m, Some (handle m) ∈ handles (planned rs bs).1 ->
  tr_tcb m ∈ (areas rs (planned rs bs).1).*1.
Proof.
  induction rs as [|r rs IH]; intros bs m; cbn [planned]; [by intros ?%elem_of_nil|].
  destruct (two_blocks (rq_depth r) bs) as [[m1 bs1]|]; cbn [fst handles fmap list_fmap option_map areas zip_with concat areas_of].
  - rewrite elem_of_cons. intros [[= E]|H]; [|rewrite fmap_app, elem_of_app; right; by apply IH].
    unfold handle in E. cbn. rewrite !elem_of_cons. right. left. lia.
  - rewrite elem_of_cons. intros [?|H]; [done|by apply IH].
Qed.

Lemma all_created_cons a0 bs r rs s s1 s2 h :
  memory_ok ucHeap xStart a0 bs s -> sensible r -> next_state bs a0 r s s1 h ->
  (forall bs1, memory_ok ucHeap xStart a0 bs1 s1 -> all_created a0 bs1 rs s1 s2) ->
  h = (match (planned (r :: rs) bs).1 with o :: _ => option_map handle o | [] => None end) /\ all_created a0 bs (r :: rs) s s2.
Proof.
  unfold next_state. cbn [planned]. intros Hm Hr Hn IH. destruct (two_blocks (rq_depth r) bs) as [[m bs1]|] eqn:E.
  - destruct Hn as (-> & Hm1 & c & G' & Hns & Ha & Hps). destruct (IH bs1 Hm1) as [I1 I2 I3 I4 I5].
    pose proof (own_two_blocks _ _ _ _ _ _ (mo_heap _ _ _ _ _ Hm) Hr E) as Hown.
    split; [done|]. constructor; cbn [planned]; rewrite ?E; cbn [fst snd]; [done|by eapply own_app| | |].
    + intros [|i] r' m' Er Em; cbn in Er, Em; [|by eapply I3]. injection Er as <-. injection Em as <-.
      unfold task_of. rewrite I4; [by rewrite (ad_blocks _ _ _ _ Ha), decide_True, Hps by done|].
      intros Hin%handle_areas. destruct Hown as [Hin1 _ _].
      destruct (Hin1 (tr_tcb m) sizeof_TCB_t) as (z & Hz & _); [cbn; rewrite !elem_of_cons; tauto|].
      by destruct (oa_new _ _ _ I2 _ Hz eq_refl).
    + intros u Hu. cbn in Hu. apply not_elem_of_cons in Hu as [Hne Hu].
      rewrite (I4 u Hu), (ad_blocks _ _ _ _ Ha), decide_False; [done|congruence].
    + right. destruct I5 as [-> |?]; [by exists G'|done].
  - destruct Hn as (-> & Ek & Hm1). destruct (IH bs Hm1) as [I1 I2 I3 I4 I5]. split; [done|].
    constructor; cbn [planned]; rewrite ?E; cbn [fst snd]; [done|done| | |by rewrite <- Ek].
    + intros [|i] r' m' Er Em; cbn in Er, Em; [done|by eapply I3].
    + intros u Hu. rewrite <- Ek. apply I4. cbn in Hu. by apply not_elem_of_cons in Hu as [_ ?].
Qed.

Lemma create_all_run a0 rs : forall bs s,
  before_start (os_kernel s) -> memory_ok ucHeap xStart a0 bs s -> Forall sensible rs ->
  Z.of_nat (size (tcbs (os_kernel s)) + length rs) < 2 ^ 32 ->
  exists s', create_all rs s = Ok (handles (planned rs bs).1) s' /\ all_created a0 bs rs s s'.
Proof.
  induction rs as [|r rs IH]; intros bs s Hb Hm Hrs Hsz; cbn [create_all].
  - exists s. split; [done|]. constructor; try done; [apply own_nil|by left].
  - apply Forall_cons in Hrs as [Hr Hrs]. cbn [length] in Hsz.
    destruct (create_one a0 bs s r Hb Hm Hr) as (x & s1 & Hrun & Hx); [lia|].
    assert (before_start (os_kernel s1) /\ Z.of_nat (size (tcbs (os_kernel s1)) + length rs) < 2 ^ 32) as [Hb1 Hsz1].
    { unfold next_state in Hx. destruct (two_blocks (rq_depth r) bs) as [[m bs1]|].
      - destruct Hx as (_ & _ & c & G' & ? & Ha%added_size & _). split; [right; by exists G'|lia].
      - destruct Hx as (_ & -> & _). split; [done|lia]. }
    assert (exists bs1, memory_ok ucHeap xStart a0 bs1 s1) as [bs1 Hm1].
    { unfold next_state in Hx. destruct (two_blocks (rq_depth r) bs) as [[m bs1]|]; [exists bs1|exists bs]; tauto. }
    destruct (IH bs1 s1 Hb1 Hm1 Hrs Hsz1) as (s2 & Hrun2 & _).
    assert (Hall : forall bs2, memory_ok ucHeap xStart a0 bs2 s1 ->
      handles (planned rs bs1).1 = handles (planned rs bs2).1 /\ all_created a0 bs2 rs s1 s2).
    { intros bs2 Hm2. destruct (IH bs2 s1 Hb1 Hm2 Hrs Hsz1) as (s3 & Hrun3 & H3).
      rewrite Hrun2 in Hrun3. by apply ok_inj in Hrun3 as [? <-]. }
    destruct (all_created_cons a0 bs r rs s s1 s2 x.2 Hm Hr Hx (fun bs2 Hm2 => proj2 (Hall bs2 Hm2))) as [Eh Hac].
    exists s2. split; [|done]. rewrite (bind_ok _ _ _ _ _ Hrun), (bind_ok _ _ _ _ _ Hrun2).
    unfold next_state in Hx. cbn [planned] in *. destruct (two_blocks (rq_depth r) bs) as [[m bs2]|].
    + destruct Hx as (-> & Hm2 & _). by rewrite (proj1 (Hall bs2 Hm2)).
    + destruct Hx as (-> & _ & Hm2). by rewrite (proj1 (Hall bs Hm2)).
Qed.
End create.

Lemma handles_task rs : forall bs t, Some t ∈ handles (planned rs bs).1 ->
  exists i r m, rs !! i = Some r /\ (planned rs bs).1 !! i = Some (Some m) /\ t = handle m.
Proof.
  intros bs t (i & Ei)%list_elem_of_lookup. unfold handles in Ei. rewrite list_lookup_fmap in Ei.
  destruct ((planned rs bs).1 !! i) as [[m|]|] eqn:E; try done. injection Ei as <-.
  destruct (lookup_lt_is_Some_2 rs i) as [r Er]; [rewrite <- (planned_length rs bs); by eapply lookup_lt_Some|].
  by exists i, r, m.
Qed.

Definition old_words_ok (old_memory : rtos -> Z -> raw_tcb) : Prop :=
  forall s t, is_u32 (xItemValue (raw_state_link (old_memory s t))).

Lemma all_created_tasks ucHeap xStart a0 bs rs s s1 t :
  all_created ucHeap xStart a0 bs rs s s1 -> tcbs (os_kernel s) = ∅ ->
  is_Some (tcbs (os_kernel s1) !! t) <-> Some t ∈ handles (planned rs bs).1.
Proof.
  intros Hac E0. rewrite <- is_Some_blocks. split.
  - intros Ht. destruct (decide (Some t ∈ handles (planned rs bs).1)) as [|Hn]; [done|].
    rewrite (ac_others _ _ _ _ _ _ _ Hac t Hn) in Ht. unfold blocks in Ht. rewrite E0, lookup_empty in Ht. by destruct Ht.
  - intros (i & r & m & Er & Em & ->)%handles_task. rewrite (ac_tasks _ _ _ _ _ _ _ Hac i r m Er Em). by eexists.
Qed.

Lemma boot_run ucHeap xStart old_memory a0 bs G s rs :
  old_words_ok old_memory -> blank G (os_kernel s) -> heap_view ucHeap xStart a0 bs (os_heap s) ->
  Forall sensible rs -> Z.of_nat (length rs) < 2 ^ 32 ->
  exists s1, create_all ucHeap xStart old_memory rs s = Ok (handles (planned rs bs).1) s1 /\
    all_created ucHeap xStart a0 bs rs s s1 /\
    forall idle, Some idle ∈ handles (planned rs bs).1 -> exists k G', start_running (os_kernel s1) = Ok tt k /\
      stable idle G' k /\ xTickCount k = 0 /\ tcbs k = tcbs (os_kernel s1) /\
      (forall t, Some t ∈ handles (planned rs bs).1 -> ready k t).
Proof.
  intros Hold Hb Hh Hrs Hlen. pose proof (bk_tcbs _ _ Hb) as E0.
  assert (Hm : memory_ok ucHeap xStart a0 bs s) by (constructor; [done|intros t c; by rewrite E0]).
  destruct (create_all_run ucHeap xStart old_memory Hold a0 rs bs s) as (s1 & Hrun & Hac);
    [left; by exists G|done|done|by rewrite E0, map_size_empty|].
  pose proof (fun t => all_created_tasks _ _ _ _ _ _ _ t Hac E0) as Ht.
  exists s1. do 2 (split; [done|]). intros idle Hi%Ht. destruct (ac_kernel _ _ _ _ _ _ _ Hac) as [E|[G1 Hns]].
  { rewrite E, E0 in Hi. by destruct Hi. }
  destruct (start_running_run G1 (os_kernel s1) idle Hns Hi) as (k & Hr & Hst & T & X & _ & Es).
  exists k, G1. do 4 (split; [done|]). intros t Hin%Ht. destruct (ns_ready _ _ Hns t Hin) as (c & Ec & Hc).
  exists c. rewrite T. split; [done|]. unfold cont in *. by rewrite Es.
Qed.

(** C12: creating tasks and starting the scheduler gives a well-formed system.
    From the memory after reset (no task, lists that are only storage, a heap
    that is not used yet or partly in use), any sequence of [xTaskCreate]s
    returns.  Which of them succeed, and where, is what first fit makes of the
    requests one after the other; when one free block has the bytes they need
    all of them do.  There is then a task for each request that had room and no
    other, of the priority asked for (at most 7), and its stack and its control
    block are each in a block of the heap in use, as large as asked for, that
    nothing else is in: no two of these areas meet and none is in a block that
    was in use before.  When one of the calls made the idle task, setting the
    scheduler running gives a stable state at tick 0 with those tasks, all of
    them ready. *)
Theorem created_tasks_start ucHeap xStart old_memory a0 bs G s rs :
  old_words_ok old_memory -> blank G (os_kernel s) -> heap_view ucHeap xStart a0 bs (os_heap s) ->
  Forall sensible rs -> Z.of_nat (length rs) < 2 ^ 32 ->
  let ms := (planned rs bs).1 in let bs' := (planned rs bs).2 in let l := areas rs ms in
  exists s1, create_all ucHeap xStart old_memory rs s = Ok (handles ms) s1 /\ length ms = length rs /\
    ((exists b, b ∈ bs /\ b_free b = true /\ needs rs <= b_size b) -> Forall is_Some ms) /\
    (forall t, is_Some (tcbs (os_kernel s1) !! t) <-> Some t ∈ handles ms) /\
    (forall i r m, rs !! i = Some r -> ms !! i = Some (Some m) -> task_of (os_kernel s1) r m) /\
    memory_ok ucHeap xStart a0 bs' s1 /\ own_areas bs bs' l /\
    (forall i j x y, i <> j -> l !! i = Some x -> l !! j = Some y -> x.1 + 8 + x.2 <= y.1 \/ y.1 + 8 + y.2 <= x.1) /\
    forall idle, Some idle ∈ handles ms -> exists k G', start_running (os_kernel s1) = Ok tt k /\ stable idle G' k /\
      xTickCount k = 0 /\ tcbs k = tcbs (os_kernel s1) /\ (forall t, Some t ∈ handles ms -> ready k t).
Proof.
  intros Hold Hb Hh Hrs Hlen ms bs' l.
  destruct (boot_run ucHeap xStart old_memory a0 bs G s rs Hold Hb Hh Hrs Hlen) as (s1 & Hrun & Hac & Hst).
  exists s1. split; [done|]. split; [apply planned_length|]. split.
  { intros (b & Hin & Hf & Hn). apply (planned_fits rs bs b Hrs Hin Hf). split; [done|].
    by apply (heap_view_sizes _ _ _ _ _ _ Hh Hin). }
  split; [intros t; eapply all_created_tasks; [done|apply (bk_tcbs _ _ Hb)]|].
  destruct Hac as [Hm Ho Ht _ _]. do 3 (split; [done|]). split; [|done].
  intros i j x y. eapply own_apart; [apply (mo_heap _ _ _ _ _ Hm)|done].
Qed.

(** C28: [xTaskCreate] before the scheduler runs.  Without memory for the stack
    or the control block it reports so, the kernel is as it was and the heap
    has its blocks back.  Otherwise the stack and the control block are blocks
    no other task has anything in; the task is ready, of its priority (at most
    7), on a stack that holds the frame it starts from and else the fill
    pattern, and it will run first unless a task of a higher priority exists. *)
Theorem xTaskCreate_outcome ucHeap xStart old_memory a0 bs s code nm n param p :
  old_words_ok old_memory -> before_start (os_kernel s) -> memory_ok ucHeap xStart a0 bs s -> 26 <= n -> 4 * n < 2 ^ 32 -> 0 <= p ->
  Z.of_nat (S (size (tcbs (os_kernel s)))) < 2 ^ 32 ->
  created ucHeap xStart a0 bs code n param p s (xTaskCreate ucHeap xStart old_memory code nm n param p s).
Proof. intros Hold. by apply xTaskCreate_run. Qed.
