(* ===== verification/RtDemo.v ===== *)
(** * FreeRTOS: a concrete system

    The memory after reset, three tasks, and a running scheduler: the theorems
    on lists, heap and scheduler applied to states that are computed. *)
From S2P Require Import Prelude.
From S2P Require Import RtList.
From S2P Require Import RtRings.
From S2P Require Import RtTasks.
From S2P Require Import RtHeap.
From S2P Require Import RtAlloc.
From S2P Require Import RtSched.
From S2P Require Import RtTick.
From S2P Require Import RtLive.
From S2P Require Import RtCreate.
From S2P Require Import RtStack.
From S2P Require Import RtStart.
From S2P Require Import RtSystem.

Local Open Scope Z_scope.

(** ** After reset *)
Definition demo_store : lstore node list_id Z :=
  LStore (list_to_map ((fun l => (ListEnd l, MiniListItem 0 (ListEnd l) (ListEnd l))) <$> kernel_lists)) ∅
    (list_to_map ((fun l => (l, ListT 0 (ListEnd l))) <$> kernel_lists)).
Definition demo_kernel : kernel :=
  Kernel demo_store ∅ ∅ 0 xDelayedTaskList1 xDelayedTaskList1 0 0 0 0 0 0 0 0 0 0 0.
Definition demo_boot : rtos := Rtos demo_kernel ex_heap.
Definition demo_memory (s : rtos) (t : Z) : raw_tcb :=
  RawTCB (TCB 0 0 0 ∅ 0 0 0 0 0 0) (MiniListItem 0 (StateItem t) (StateItem t)) (ListItem 0 None)
    (MiniListItem 0 (EventItem t) (EventItem t)) (ListItem 0 None).

Lemma demo_memory_ok : old_words_ok demo_memory.
Proof. intros s t. done. Qed.

Lemma demo_blank : blank ∅ demo_kernel.
Proof.
  constructor; try done.
  - constructor.
    + intros l i xs E. by rewrite lookup_empty in E.
    + intros l i xs p E. by rewrite lookup_empty in E.
    + intros l p o E. by destruct (lookup_empty_Some (M := gmap node) p (ListItem o (Some l)) E).
    + intros l. by apply (lookup_empty (M := gmap node)).
    + intros p [x E]. by destruct (lookup_empty_Some (M := gmap node) p x E).
  - intros l Hl%kernel_lists_all. split; [apply lookup_empty|]. revert l Hl. apply Forall_forall.
    apply (bool_decide_unpack _). vm_compute. exact I.
Qed.

(** ** Three tasks *)
Definition demo_requests : list request :=
  [Request 0x100100 (fun _ => 0) 200 0 2; Request 0x100201 (fun _ => 0) 100 7 2;
   Request 0x100300 (fun _ => 0) configMINIMAL_STACK_SIZE 0 tskIDLE_PRIORITY].

Definition system_after {A} (r : res rtos A) : rtos := match r with Ok _ s => s | _ => demo_boot end.
Definition kernel_after {A} (r : res kernel A) : kernel := match r with Ok _ k => k | _ => demo_kernel end.

Definition demo_created : rtos :=
  system_after (create_all ex_ucHeap ex_xStart demo_memory demo_requests demo_boot).
Definition demo_handles : list (option Z) :=
  match create_all ex_ucHeap ex_xStart demo_memory demo_requests demo_boot with Ok hs _ => hs | _ => [] end.
Definition demo_started : kernel := kernel_after (start_running (os_kernel demo_created)).

Definition demo_first : Z := 0x200338.
Definition demo_second : Z := 0x200530.
Definition demo_idle : Z := 0x2008b8.

Lemma demo_sensible : Forall sensible demo_requests.
Proof.
  unfold demo_requests. repeat (apply Forall_cons; split; [unfold sensible, configMINIMAL_STACK_SIZE, tskIDLE_PRIORITY; cbn; lia|]).
  by apply Forall_nil.
Qed.
Lemma demo_handles_are : demo_handles = [Some demo_first; Some demo_second; Some demo_idle].
Proof. vm_compute. reflexivity. Qed.

Lemma demo_stable : exists G, start_running (os_kernel demo_created) = Ok tt demo_started /\ stable demo_idle G demo_started.
Proof.
  destruct (boot_run ex_ucHeap ex_xStart demo_memory _ _ ∅ demo_boot demo_requests
    demo_memory_ok demo_blank ex_view demo_sensible eq_refl) as (s1 & Hrun & _ & H).
  pose proof demo_handles_are as Eh. unfold demo_handles in Eh. rewrite Hrun in Eh. rewrite Eh in H.
  destruct (H demo_idle ltac:(right; right; left)) as (k & G' & Hr & Hst & _).
  assert (Es : os_kernel demo_created = os_kernel s1) by (unfold demo_created; by rewrite Hrun).
  assert (Ek : demo_started = k) by (unfold demo_started; by rewrite Es, Hr).
  exists G'. rewrite Es, Ek. split; [exact Hr|exact Hst].
Qed.

(** The second task delays itself for one tick. *)
Definition demo_delayed : kernel := kernel_after (vTaskDelay 1 demo_started).
Lemma demo_second_runs : pxCurrentTCB demo_started = demo_second.
Proof. vm_compute. reflexivity. Qed.
Lemma demo_not_idle : pxCurrentTCB demo_started <> demo_idle.
Proof. by rewrite demo_second_runs. Qed.
Lemma demo_delayed_stable : exists G, stable demo_idle G demo_delayed.
Proof.
  destruct demo_stable as (G & _ & Hst).
  destruct (delay_stable demo_idle G demo_started 1 Hst demo_not_idle) as (k & G' & Hr & Hst'); [done|].
  exists G'. unfold demo_delayed. by rewrite Hr.
Qed.
#[local] Opaque demo_started demo_delayed demo_created.
Definition demo_block (t : Z) (k : kernel) : TCB_t :=
  match tcbs k !! t with Some c => c | None => TCB 0 0 0 ∅ 0 0 0 0 0 0 end.
Lemma demo_block_is t : t ∈ [demo_first; demo_second; demo_idle] ->
  tcbs demo_started !! t = Some (demo_block t demo_started) /\ tcbs demo_delayed !! t = Some (demo_block t demo_delayed).
Proof.
  revert t. apply Forall_forall. repeat (apply Forall_cons; split; [split; vm_compute; reflexivity|]). by apply Forall_nil.
Qed.

(** ** The theorems applied *)
Definition demo_areas : list (Z * Z) :=
  [(0x200008, 800); (0x200330, 88); (0x200390, 400); (0x200528, 88); (0x200588, 800); (0x2008b0, 88)].
Lemma created_tasks_start_witness :
  exists s1, create_all ex_ucHeap ex_xStart demo_memory demo_requests demo_boot =
      Ok [Some demo_first; Some demo_second; Some demo_idle] s1 /\
    (exists bs', own_areas ex_blocks bs' demo_areas) /\
    (exists b, b ∈ ex_blocks /\ b_free b = true /\ needs demo_requests <= b_size b) /\
    blocks (os_kernel s1) demo_second = Some (2, 0x200398) /\
    exists k G', start_running (os_kernel s1) = Ok tt k /\ stable demo_idle G' k /\ ready k demo_second.
Proof.
  destruct (created_tasks_start ex_ucHeap ex_xStart demo_memory _ _ ∅ demo_boot demo_requests
    demo_memory_ok demo_blank ex_view demo_sensible eq_refl)
    as (s1 & Hrun & _ & _ & _ & Ht & _ & Ho & _ & H).
  exists s1. split; [exact Hrun|]. split; [eexists; exact Ho|].
  split; [eexists; split; [left|split; [reflexivity|vm_compute; discriminate]]|].
  split; [exact (Ht 1%nat _ _ eq_refl eq_refl)|].
  destruct (H demo_idle) as (k & G' & Hr & Hst & _ & _ & Hready).
  { right. right. left. }
  exists k, G'. split; [exact Hr|]. split; [exact Hst|]. apply Hready. right. left.
Defined.

Lemma demo_memory_empty : memory_ok ex_ucHeap ex_xStart (heap_first ex_ucHeap) ex_blocks demo_boot.
Proof. constructor; [exact ex_view|]. intros t c E. by destruct (lookup_empty_Some (M := gmap Z) t c E). Qed.
Lemma xTaskCreate_outcome_witness :
  created ex_ucHeap ex_xStart (heap_first ex_ucHeap) ex_blocks 0x100100 200 0 2 demo_boot
    (xTaskCreate ex_ucHeap ex_xStart demo_memory 0x100100 (fun _ => 0) 200 0 2 demo_boot) /\
  exists a r, allocate (4 * 200) ex_blocks = Some (a, r).
Proof.
  split.
  - apply xTaskCreate_outcome; [exact demo_memory_ok|left; exists ∅; exact demo_blank|exact demo_memory_empty|done..].
  - eexists _, _. vm_compute. reflexivity.
Defined.

Lemma demo_may_delay : allowed demo_idle demo_started (Delay 5).
Proof. split; [exact demo_not_idle|by unfold is_u32]. Qed.
Lemma scheduler_stays_stable_witness :
  exists k2 G2, perform (Delay 5) demo_started = Ok tt k2 /\ stable demo_idle G2 k2.
Proof.
  destruct demo_stable as (G & _ & Hst).
  exact (scheduler_stays_stable demo_idle G demo_started demo_started (Delay 5) Hst (reach_start _ _)
    demo_may_delay).
Defined.

Lemma vTaskDelay_exact_witness :
  exists k1, vTaskDelay 2 demo_started = Ok tt k1 /\
    exists k2, ticks 2 k1 = Ok tt k2 /\ xTickCount k2 = 2 /\ ready k2 demo_second.
Proof.
  destruct demo_stable as (G & _ & Hst).
  destruct (vTaskDelay_exact demo_idle G demo_started 2 Hst demo_not_idle) as (k1 & G1 & Hr & _ & _ & H); [done|].
  exists k1. split; [exact Hr|]. destruct (H 2%nat) as (k2 & G2 & Hr2 & _ & Ht & Hready); [done|].
  exists k2. split; [exact Hr2|]. split; [exact Ht|]. rewrite <- demo_second_runs. by apply Hready.
Defined.

Lemma resume_ends_notification_wait_witness :
  exists k1 k2, ulTaskNotifyTake_wait portMAX_DELAY demo_started = Ok tt k1 /\
    eTaskGetState demo_second k1 = Ok eBlocked k1 /\ vTaskResume demo_second k1 = Ok tt k2 /\ ready k2 demo_second.
Proof.
  destruct demo_stable as (G & _ & Hst).
  destruct (resume_ends_notification_wait demo_idle G demo_started (demo_block demo_second demo_started) Hst
    demo_not_idle) as (k1 & k2 & G2 & c2 & H1 & H2 & H3 & _ & H4 & _); [by vm_compute..|].
  exists k1, k2. split; [exact H1|]. split; [exact H2|]. split; [exact H3|exact H4].
Defined.

Lemma xTaskGenericNotify_delivers_witness :
  exists k' G', xTaskGenericNotify demo_first 7 eSetBits demo_started = Ok (pdTRUE, 0) k' /\ stable demo_idle G' k'.
Proof.
  destruct demo_stable as (G & _ & Hst).
  destruct (xTaskGenericNotify_delivers demo_idle G demo_started demo_first (demo_block demo_first demo_started) 7 eSetBits Hst)
    as (k' & G' & H1 & H2 & _); [by vm_compute|].
  exists k', G'. split; [exact H1|exact H2].
Defined.

Lemma xTaskIncrementTick_wakes_witness :
  exists r k', xTaskIncrementTick demo_delayed = Ok r k' /\ xTickCount k' = 1 /\
    cont k' (StateItem demo_second) = Some (Ready 2).
Proof.
  destruct demo_delayed_stable as [G [Hse _]]. 
  destruct (xTaskIncrementTick_wakes G demo_delayed (demo_block demo_first demo_delayed)
    (lv_ok _ _ (se_live _ _ _ Hse))) as (r & k' & G' & H1 & _ & H2 & _ & _ & H3 & _); [by vm_compute..|].
  exists r, k'. split; [exact H1|]. split; [rewrite H2; by vm_compute|].
  destruct (H3 demo_second (demo_block demo_second demo_delayed)) as [H4 _]; [by vm_compute|].
  rewrite H4. by vm_compute.
Defined.

Lemma vTaskSwitchContext_highest_witness :
  exists k', vTaskSwitchContext demo_started = Ok tt k' /\ runs_top k'.
Proof.
  destruct demo_stable as (G & _ & Hse & _).
  destruct (vTaskSwitchContext_highest G demo_started (se_live _ _ _ Hse))
    as (t & k' & pr & i & xs & rest & H1 & _ & _ & _ & _ & _ & _ & H2 & _).
  exists k'. split; [exact H1|exact H2].
Defined.

(** The last word of the stack of the running task is overwritten. *)
Definition demo_damaged : kernel :=
  set_words (<[pxStack (demo_block demo_second demo_started) := 0]> (words demo_started)) demo_started.
Lemma stack_overflow_stops_witness : vTaskSwitchContext demo_damaged = Hang (set_yield pdFALSE demo_damaged).
Proof.
  apply (stack_overflow_stops demo_damaged (demo_block demo_second demo_started)); [done|by vm_compute|].
  split.
  - apply Forall_forall. repeat constructor; vm_compute; by eexists.
  - intros H. specialize (H 0 ltac:(left)). vm_compute in H. done.
Defined.

Lemma xTaskCheckForTimeOut_exact_witness :
  exists k', ticks 3 demo_started = Ok tt k' /\
    xTaskCheckForTimeOut (TimeOut 0 0) 10 k' = Ok (pdFALSE, TimeOut (xNumOfOverflows k') (xTickCount k'), 7) k'.
Proof.
  destruct demo_stable as (G & _ & Hse & _).
  destruct (xTaskCheckForTimeOut_exact G demo_started 3 10 (se_live _ _ _ Hse)) as (k' & G' & rest & H1 & _ & _ & H2);
    [done|done|done|].
  exists k'. split; [exact H1|exact H2].
Defined.
