(* ===== verification/RtPort.v ===== *)
(** * The FreeRTOS port: context switches in assembly ([portASM.S])

    Saving the processor state of a task on its stack, choosing another task
    and restoring its state, from the software interrupt a task yields with
    and from a hardware interrupt.  One line for each instruction, over the
    processor of [Arm].  The floating point registers, which [Arm] has not,
    are kept beside the memory. *)
From S2P Require Import Prelude.
From S2P Require Import Bus.
From S2P Require Import Arm.

Local Open Scope Z_scope.

(** ** Floating point registers

    D0 to D31 are 64 words, low word first. *)
Record vfp (S : Type) : Type := Vfp { vregs : list Z; fpscr : Z; vmem : S }.
Arguments Vfp {S}.
Arguments vregs {S}.
Arguments fpscr {S}.
Arguments vmem {S}.

#[export] Instance vfp_bus {S} `{Bus S} : Bus (vfp S) := {
  bus_rd a v := let '(x, s) := bus_rd a (vmem v) in (x, Vfp (vregs v) (fpscr v) s);
  bus_wr a x v := Vfp (vregs v) (fpscr v) (bus_wr a x (vmem v))
}.

Definition set_vregs {S} (l : list Z) (v : vfp S) : vfp S := Vfp l (fpscr v) (vmem v).
Definition set_fpscr {S} (x : Z) (v : vfp S) : vfp S := Vfp (vregs v) x (vmem v).

(** ** Instructions [Arm] has not *)
Section instructions.
Context {S : Type} `{Bus S}.
#[local] Abbreviation PM := (M (machine (vfp S))).

(** [ldr d, label] where the word at the label is the address of a variable. *)
Definition ldr_const (d : nat) (symbol : Z) : PM unit := wr d symbol.

(** [and d, n, #i], [sub d, n, k], [add d, n, k] *)
Definition and_imm (d n : nat) (i : Z) : PM unit := v ← rd n; wr d (Z.land v i).
Definition sub_reg (d n k : nat) : PM unit := v ← rd n; w ← rd k; wr d (sub32 v w).
Definition add_reg (d n k : nat) : PM unit := v ← rd n; w ← rd k; wr d (add32 v w).

(** [cmp n, #i]: the flags N, Z, C and V of the difference. *)
Definition compare_flags (v i : Z) : Z :=
  let r := sub32 v i in
  Z.lor (if Z.testbit r 31 then 2 ^ 31 else 0) (Z.lor (if r =? 0 then 2 ^ 30 else 0)
    (Z.lor (if i <=? v then 2 ^ 29 else 0)
       (if Z.testbit (Z.land (Z.lxor v i) (Z.lxor v r)) 31 then 2 ^ 28 else 0))).
Definition cmp_imm (n : nat) (i : Z) : PM unit :=
  v ← rd n; on_cpu (fun c => set_flags (Z.lor (Z.land (cflags c) 0x0FFFFFFF) (compare_flags v i)) c).

(** The conditions NE and EQ. *)
Definition equal : PM bool := from_cpu (fun c => Z.testbit (cflags c) 30).
Definition ne (m : PM unit) : PM unit := z ← equal; when (negb z) m.
Definition eq_ (m : PM unit) : PM unit := z ← equal; when z m.

(** [fmrx n, fpscr] and [vmsr fpscr, n] *)
Definition fmrx_fpscr (n : nat) : PM unit := v ← on_mem (fun v => Ok (fpscr v) v); wr n v.
Definition vmsr_fpscr (n : nat) : PM unit := v ← rd n; on_mem (modify (set_fpscr v)).
(** [vpush {Dd-Dd+15}] and [vpop {Dd-Dd+15}] *)
Definition vpush (d : nat) : PM unit :=
  a ← rd 13; ws ← on_mem (fun v => Ok (take 32 (drop (2 * d) (vregs v))) v);
  let a' := sub32 a 128 in stm_at a' ws ;; wr 13 a'.
Definition vpop (d : nat) : PM unit :=
  a ← rd 13; ws ← ldm_at a 32; wr 13 (add32 a 128) ;;
  on_mem (modify (fun v => set_vregs (take (2 * d) (vregs v) ++ ws ++ drop (2 * d + 32) (vregs v)) v)).

(** [srsdb sp!, #SYS_MODE]: the return address and the SPSR of the current
    mode, on the stack of System mode. *)
Definition srsdb_sys : PM unit :=
  a ← from_cpu (fun c => regs c Usr 13%nat); lr ← rd 14;
  sp ← from_cpu (fun c => spsr c (mode_bank (cmode c)));
  let a' := sub32 a 8 in
  stm_at a' [lr; sp] ;; on_cpu (fun c => set_regs (upd_reg Usr 13 a' (regs c)) c).

(** [rfeia sp!]: return address and CPSR from the stack. *)
Definition load_cpsr (v target : Z) : PM unit := fun m =>
  match set_cpsr v (cpu_of m) with
  | Some c => Ok tt (Machine (set_pc target c) (mem m))
  | None => Undef
  end.
Definition rfeia_sp : PM unit :=
  a ← rd 13; ws ← ldm_at a 2; wr 13 (add32 a 8) ;;
  match ws with [target; v] => load_cpsr v target | _ => undef end.

(** [cpsid i] *)
Definition cpsid_i : PM unit := on_cpu (fun c => set_flags (Z.lor (cflags c) IRQ_BIT) c).

(** Exception entry from the running task: [off] is what the exception adds to
    the address of the instruction executing or about to execute, [masks] the
    interrupts it masks.  The instruction set is ARM. *)
Definition enter (md : mode) (masks off : Z) : PM unit := on_cpu (fun c =>
  let c1 := set_spsr (upd_spsr (mode_bank md) (cpsr c) (spsr c)) c in
  let c2 := set_mode md (set_flags (Z.lor (bic32 (cflags c1) 0x0700FE20) masks) c1) in
  rset 14 (add32 (pc c) off) c2).
End instructions.

#[export] Hint Unfold ldr_const and_imm sub_reg add_reg cmp_imm equal ne eq_ fmrx_fpscr vmsr_fpscr
  vpush vpop srsdb_sys rfeia_sp cpsid_i : arm_db.

Definition r0_r12_r14 : list nat := [0; 1; 2; 3; 4; 5; 6; 7; 8; 9; 10; 11; 12; 14]%nat.

(** ** [portASM.S] *)
Section port_asm.
Context {S : Type} `{Bus S}.
(** What [mrs rX, spsr] gives in System mode; the registers and flags a C
    function leaves where the procedure call standard lets it change them. *)
Variable sys_spsr : cpu -> Z.
Variable clobbered : nat -> cpu -> Z.
Variable clobbered_flags : cpu -> Z.
(** Addresses of the variables. *)
Variables pxCurrentTCB ulCriticalNesting ulPortTaskHasFPUContext ulICCPMR ulMaxAPIPriorityMask : Z.
Variables ulPortInterruptNesting ulICCIAR ulICCEOIR ulPortYieldRequired : Z.
(** The address of [vApplicationIRQHandler] and the one its call returns to. *)
Variables vApplicationIRQHandlerConst irq_return : Z.
(** The C functions, on memory and floating point registers. *)
Variable vTaskSwitchContext : M (vfp S) unit.
Variable vApplicationFPUSafeIRQHandler : Z -> M (vfp S) unit.
#[local] Abbreviation PM := (M (machine (vfp S))).

Definition clobber : PM unit := on_cpu (fun c =>
  set_flags (clobbered_flags c)
    (rset_list [0; 1; 2; 3; 12; 14]%nat ((fun n => clobbered n c) <$> [0; 1; 2; 3; 12; 14]%nat) c)).
Definition blx_vTaskSwitchContext : PM unit := on_mem vTaskSwitchContext ;; clobber.
(** [blx] to an interrupt handler written in C, with the argument in r0. *)
Definition blx_handler (c_handler : Z -> M (vfp S) unit) : PM unit :=
  a0 ← rd 0; on_mem (c_handler a0) ;; clobber.

Definition portSAVE_CONTEXT : PM unit :=
  srsdb_sys ;;
  cps SYSTEM_MODE ;;
  push r0_r12_r14 ;;
  ldr_const 2 ulCriticalNesting ;;
  ldr 1 2 0 ;;
  push [1%nat] ;;
  ldr_const 2 ulPortTaskHasFPUContext ;;
  ldr 3 2 0 ;;
  cmp_imm 3 0 ;;
  ne (fmrx_fpscr 1) ;;
  ne (vpush 0) ;;
  ne (vpush 16) ;;
  ne (push [1%nat]) ;;
  push [3%nat] ;;
  ldr_const 0 pxCurrentTCB ;;
  ldr 1 0 0 ;;
  str 13 1 0.

Definition portRESTORE_CONTEXT : PM unit :=
  ldr_const 0 pxCurrentTCB ;;
  ldr 1 0 0 ;;
  ldr 13 1 0 ;;
  ldr_const 0 ulPortTaskHasFPUContext ;;
  pop [1%nat] ;;
  str 1 0 0 ;;
  cmp_imm 1 0 ;;
  ne (pop [0%nat]) ;;
  ne (vpop 16) ;;
  ne (vpop 0) ;;
  ne (vmsr_fpscr 0) ;;
  ldr_const 0 ulCriticalNesting ;;
  pop [1%nat] ;;
  str 1 0 0 ;;
  ldr_const 2 ulICCPMR ;;
  ldr 2 2 0 ;;
  cmp_imm 1 0 ;;
  eq_ (mov_imm 4 255) ;;
  ne (ldr_const 4 ulMaxAPIPriorityMask) ;;
  ne (ldr 4 4 0) ;;
  str 4 2 0 ;;
  pop r0_r12_r14 ;;
  rfeia_sp.

Definition FreeRTOS_SWI_Handler : PM unit :=
  portSAVE_CONTEXT ;;
  blx_vTaskSwitchContext ;;
  portRESTORE_CONTEXT.

Definition vPortRestoreTaskContext : PM unit :=
  cps SYSTEM_MODE ;;
  portRESTORE_CONTEXT.

(** [pop {pc}] in a function called from one place, to which it must return. *)
Definition pop_pc (return_address : Z) : PM unit :=
  a ← rd 13; ws ← ldm_at a 1; wr 13 (add32 a 4) ;;
  if decide (ws = [return_address]) then mret tt else undef.

(** The weak definition, which saves the floating point registers.  It is
    linked when the application has no [vApplicationIRQHandler] of its own. *)
Definition vApplicationIRQHandler : PM unit :=
  push [14%nat] ;;
  fmrx_fpscr 1 ;;
  vpush 0 ;;
  vpush 16 ;;
  push [1%nat] ;;
  blx_handler vApplicationFPUSafeIRQHandler ;;
  pop [0%nat] ;;
  vpop 16 ;;
  vpop 0 ;;
  vmsr_fpscr 0 ;;
  pop_pc irq_return.

Definition pop_interrupted : PM unit :=
  pop [0; 1; 2; 3; 4; 12]%nat ;;
  cps IRQ_MODE ;;
  pop [14%nat] ;;
  msr_spsr_cxsf 14 ;;
  pop [14%nat].

Definition exit_without_switch : PM unit :=
  pop_interrupted ;;
  movs_pc_lr.

Definition switch_before_exit : PM unit :=
  mov_imm 0 0 ;;
  str 0 1 0 ;;
  pop_interrupted ;;
  portSAVE_CONTEXT ;;
  blx_vTaskSwitchContext ;;
  portRESTORE_CONTEXT.

(** The [vApplicationIRQHandler] that is linked: the one above or
    [blx_handler] of the application's. *)
Variable linked_handler : PM unit.

(** [FreeRTOS_IRQ_Handler] up to the call of [vApplicationIRQHandler]. *)
Definition irq_prologue : PM unit :=
  sub_imm 14 14 4 ;;
  push [14%nat] ;;
  mrs_spsr sys_spsr 14 ;;
  push [14%nat] ;;
  cps SUPERVISOR_MODE ;;
  push [0; 1; 2; 3; 4; 12]%nat ;;
  ldr_const 3 ulPortInterruptNesting ;;
  ldr 1 3 0 ;;
  add_imm 4 1 1 ;;
  str 4 3 0 ;;
  ldr_const 2 ulICCIAR ;;
  ldr 2 2 0 ;;
  ldr 0 2 0 ;;
  mov 2 13 ;;
  and_imm 2 2 4 ;;
  sub_reg 13 13 2 ;;
  push [0; 1; 2; 3; 4; 14]%nat ;;
  ldr_const 1 vApplicationIRQHandlerConst ;;
  ldr_const 14 irq_return.

(** And what follows the call; [dsb] and [isb] order nothing here. *)
Definition irq_epilogue : PM unit :=
  pop [0; 1; 2; 3; 4; 14]%nat ;;
  add_reg 13 13 2 ;;
  cpsid_i ;;
  ldr_const 4 ulICCEOIR ;;
  ldr 4 4 0 ;;
  str 0 4 0 ;;
  str 1 3 0 ;;
  cmp_imm 1 0 ;;
  z ← equal;
  if negb z then exit_without_switch
  else
    ldr_const 1 ulPortYieldRequired ;;
    ldr 0 1 0 ;;
    cmp_imm 0 0 ;;
    z ← equal;
    if negb z then switch_before_exit else exit_without_switch.

Definition FreeRTOS_IRQ_Handler : PM unit :=
  irq_prologue ;;
  linked_handler ;;
  irq_epilogue.
End port_asm.
