(* ===== verification/RtFrame.v ===== *)
(** * FreeRTOS: the frame of a task that does not run

    What a saved context is and the stores of [portSAVE_CONTEXT] that make it. *)
From S2P Require Import Prelude.
From S2P Require Import Bus.
From S2P Require Import Arm.
From S2P Require Import RtPort.

Local Open Scope Z_scope.

#[export] Instance vfp_storage {S} `{Bus S} Ram `{!Storage S Ram} : Storage (vfp S) Ram.
Proof.
  assert (Hp : forall a (v : vfp S), peek a v = peek a (vmem v)).
  { intros a v. unfold peek. cbn. by destruct (bus_rd a (vmem v)). }
  assert (Hr : forall a (v : vfp S), after_rd a v = Vfp (vregs v) (fpscr v) (after_rd a (vmem v))).
  { intros a v. unfold after_rd. cbn. by destruct (bus_rd a (vmem v)). }
  constructor; intros; rewrite ?Hp, ?Hr; cbn [vmem bus_wr vfp_bus].
  - rewrite storage_rd by done. by destruct s.
  - by apply storage_wr_eq.
  - by apply storage_wr_ne.
  - by apply storage_rd_ne.
Qed.

Lemma vregs_store {S} `{Bus S} a vs (v : vfp S) :
  vregs (store_words a vs v) = vregs v /\ fpscr (store_words a vs v) = fpscr v.
Proof. revert a v. induction vs as [|w vs IH]; intros a v; [done|]. cbn [store_words]. by rewrite !(proj1 (IH _ _)), (proj2 (IH _ _)). Qed.

Lemma on_mem_read {S A B} (g : S -> A) (f : A -> M (machine S) B) c s :
  (on_mem (fun v => Ok (g v) v) ≫= f) (Machine c s) = f (g s) (Machine c s).
Proof. done. Qed.
Lemma on_mem_modify {S B} (g : S -> S) (f : unit -> M (machine S) B) c s :
  (on_mem (modify g) ≫= f) (Machine c s) = f tt (Machine c (g s)).
Proof. done. Qed.

(** ** What is written

    [v'] is [v] after stores to addresses in [P] and changes of the floating
    point registers; nothing else is touched, no device is read. *)
Section stores.
Context {S : Type} `{Bus S}.
Inductive stores (P : Z -> Prop) (v : vfp S) : vfp S -> Prop :=
| stores_refl : stores P v v
| stores_wr a x v' : P a -> stores P v v' -> stores P v (bus_wr a x v')
| stores_vregs l v' : stores P v v' -> stores P v (set_vregs l v')
| stores_fpscr x v' : stores P v v' -> stores P v (set_fpscr x v').

Lemma stores_trans P v1 v2 v3 : stores P v1 v2 -> stores P v2 v3 -> stores P v1 v3.
Proof. intros H1 H2. induction H2; eauto using stores. Qed.
Lemma stores_mono (P Q : Z -> Prop) v v' : (forall a, P a -> Q a) -> stores P v v' -> stores Q v v'.
Proof. intros HQ Hs. induction Hs; eauto using stores. Qed.

Lemma peek_set_vregs a l (v : vfp S) : peek a (set_vregs l v) = peek a v.
Proof. unfold peek. cbn. by destruct (bus_rd a (vmem v)). Qed.
Lemma peek_set_fpscr a x (v : vfp S) : peek a (set_fpscr x v) = peek a v.
Proof. unfold peek. cbn. by destruct (bus_rd a (vmem v)). Qed.

Lemma peek_stores Ram `{!Storage S Ram} P a v v' : Ram a -> ~ P a -> stores P v v' -> peek a v' = peek a v.
Proof.
  intros Ra Na Hs. induction Hs as [|b x v' Pb _ IH|l v' _ IH|x v' _ IH]; [done|..]; rewrite <- IH.
  - apply storage_wr_ne; [done|]. by intros ->.
  - apply peek_set_vregs.
  - apply peek_set_fpscr.
Qed.

Lemma store_words_stores P a ws (v : vfp S) :
  0 <= a -> a + 4 * Z.of_nat (length ws) <= 2 ^ 32 -> (forall b, a <= b < a + 4 * Z.of_nat (length ws) -> P b) ->
  stores P v (store_words a ws v).
Proof.
  revert a v. induction ws as [|w ws IH]; intros a v H0 H1 HP; [constructor|]. cbn [store_words length] in *.
  apply (stores_trans _ _ (bus_wr (u32 a) (u32 w) v)).
  - constructor; [|constructor]. rewrite u32_small by (unfold is_u32; lia). apply HP. lia.
  - apply IH; [lia|lia|]. intros b Hb. apply HP. lia.
Qed.
End stores.

(** ** Saved contexts *)

(** What a task sees of the processor. *)
Record context : Type := Context {
  cx_regs : list Z;
  cx_sp : Z;
  cx_pc : Z;
  cx_cpsr : Z;
  cx_nesting : Z;
  cx_flag : Z;
  cx_vregs : list Z;
  cx_fpscr : Z
}.

(** The words on its stack while it does not run, upwards from the stack
    pointer in its control block. *)
Definition vfp_words (X : context) : list Z :=
  if cx_flag X =? 0 then [] else cx_fpscr X :: drop 32 (cx_vregs X) ++ take 32 (cx_vregs X).
Definition saved_words (X : context) : list Z :=
  cx_flag X :: vfp_words X ++ cx_nesting X :: cx_regs X ++ [cx_pc X; cx_cpsr X].
Definition saved_sp (X : context) : Z := cx_sp X - 4 * Z.of_nat (length (saved_words X)).

Record context_ok (Ram : Z -> Prop) (X : context) : Prop := {
  co_regs : length (cx_regs X) = 14%nat;
  co_vregs : length (cx_vregs X) = 64%nat;
  co_words : Forall is_u32 (saved_words X);
  co_mode : decode_mode (cx_cpsr X) = Some SYSTEM_MODE;
  co_ram : ram_at Ram (saved_sp X) (Z.of_nat (length (saved_words X)));
  co_sp : cx_sp X < 2 ^ 32
}.

Definition in_frame (X : context) (a : Z) : Prop := saved_sp X <= a < cx_sp X.

Section words.
Context {S : Type} `{Bus S}.
Definition holds (a : Z) (ws : list Z) (s : S) : Prop := peek_words a (length ws) s = ws.

Variable Ram : Z -> Prop.
Context `{!Storage S Ram}.

Lemma u32_words ws : Forall is_u32 ws -> u32 <$> ws = ws.
Proof. induction 1 as [|w ws Hw _ IH]; [done|]. cbn. by rewrite u32_small, IH. Qed.

(** A push below words that are there. *)
Lemma holds_push a ws vs (s : S) :
  Forall is_u32 ws -> ram_at Ram a (Z.of_nat (length (ws ++ vs))) ->
  holds (a + 4 * Z.of_nat (length ws)) vs s -> holds a (ws ++ vs) (store_words a ws s).
Proof.
  intros Hu Hr Hh. unfold holds in *. rewrite length_app, peek_words_app. rewrite length_app in Hr.
  destruct Hr as (H0 & H1 & Hin). f_equal.
  - rewrite (peek_words_store_in Ram); [by apply u32_words|]. split_and!; [lia|lia|]. intros i Hi. apply Hin. lia.
  - rewrite (peek_words_store_out Ram); [done| | |lia].
    + split_and!; [lia|lia|]. intros i Hi. replace (a + 4 * Z.of_nat (length ws) + 4 * i) with
        (a + 4 * (Z.of_nat (length ws) + i)) by lia. apply Hin. lia.
    + split_and!; [lia|lia|]. intros i Hi. apply Hin. lia.
Qed.

(** Blocks pushed one below the other. *)
Fixpoint push_blocks (sp : Z) (bs : list (list Z)) (s : S) : S :=
  match bs with
  | [] => s
  | ws :: bs' => push_blocks (sp - 4 * Z.of_nat (length ws)) bs' (store_words (sp - 4 * Z.of_nat (length ws)) ws s)
  end.
Definition pushed (bs : list (list Z)) (vs : list Z) : list Z := foldl (fun acc ws => ws ++ acc) vs bs.

Lemma pushed_length bs vs : (length vs <= length (pushed bs vs))%nat.
Proof.
  revert vs. induction bs as [|ws bs IH]; intros vs; [done|]. cbn [pushed foldl]. specialize (IH (ws ++ vs)).
  rewrite length_app in IH. unfold pushed in IH. lia.
Qed.

Lemma in_pushed bs : forall vs w, w ∈ vs \/ (exists ws, ws ∈ bs /\ w ∈ ws) -> w ∈ pushed bs vs.
Proof.
  induction bs as [|ws bs IH]; intros vs w; [by intros [?|(ws & ?%elem_of_nil & _)]|].
  intros Hw. apply (IH (ws ++ vs)). rewrite elem_of_app.
  destruct Hw as [?|(ws' & [->|?]%elem_of_cons & ?)]; [tauto..|]. right. by exists ws'.
Qed.

Lemma push_blocks_run bs : forall sp vs s,
  let n := Z.of_nat (length (pushed bs vs)) in let top := sp + 4 * Z.of_nat (length vs) - 4 * n in
  Forall (Forall is_u32) bs -> ram_at Ram top n -> holds sp vs s ->
  holds top (pushed bs vs) (push_blocks sp bs s) /\
  (forall a, Ram a -> a < top \/ sp <= a -> peek a (push_blocks sp bs s) = peek a s).
Proof.
  induction bs as [|ws bs IH]; intros sp vs s n top Hu Hr Hh; cbn [push_blocks].
  - subst top n. cbn [pushed foldl] in *. replace (sp + _ - _) with sp by lia. done.
  - apply Forall_cons in Hu as [Hw Hu]. cbn [pushed foldl] in n. change (foldl _ (ws ++ vs) bs) with (pushed bs (ws ++ vs)) in n.
    pose proof (pushed_length bs (ws ++ vs)) as Hl. rewrite length_app in Hl.
    set (sp' := sp - 4 * Z.of_nat (length ws)).
    assert (Etop : top = sp' + 4 * Z.of_nat (length (ws ++ vs)) - 4 * n) by (subst top sp'; rewrite length_app; lia).
    destruct (id Hr) as (H0 & H1 & Hin).
    assert (Hws : ram_at Ram sp' (Z.of_nat (length (ws ++ vs)))).
    { apply (ram_at_sub Ram top n); [done|lia|lia|]. rewrite Etop. replace (_ - _) with (4 * (n - Z.of_nat (length (ws ++ vs)))) by lia.
      rewrite Z.mul_comm. by apply Z.mod_mul. }
    pose proof (IH sp' (ws ++ vs) (store_words sp' ws s)) as IH'. cbv zeta in IH'. fold n in IH'. rewrite <- Etop in IH'.
    destruct IH' as [Hh' Hout]; [done|done| |].
    { apply holds_push; [done|done|]. unfold sp'. by replace (sp - _ + _) with sp by lia. }
    split; [exact Hh'|]. intros a Ra Ha.
    destruct (id Hws) as (G0 & G1 & _). rewrite length_app in G1.
    rewrite Hout by (done || lia). apply (peek_store_words_out Ram); [done|lia|lia|lia].
Qed.

Lemma holds_other a ws (s s' : S) :
  (forall i, (i < length ws)%nat -> peek (a + 4 * Z.of_nat i) s' = peek (a + 4 * Z.of_nat i) s) ->
  holds a ws s -> holds a ws s'.
Proof.
  intros Hk Hh. unfold holds in *. rewrite <- Hh at 2. apply list_eq. intros i. destruct (decide (i < length ws)%nat).
  - rewrite !peek_words_lookup by done. f_equal. by apply Hk.
  - by rewrite !lookup_ge_None_2 by (rewrite length_peek_words; lia).
Qed.

Lemma holds_app a ws vs (s : S) :
  holds a (ws ++ vs) s <-> holds a ws s /\ holds (a + 4 * Z.of_nat (length ws)) vs s.
Proof.
  unfold holds. rewrite length_app, peek_words_app. split; [|by intros [-> ->]].
  intros E. apply app_inj_1 in E; [done|]. by rewrite length_peek_words.
Qed.
Lemma holds_one a w (s : S) : holds a [w] s <-> peek a s = w.
Proof. unfold holds. cbn. split; [by intros [=]|by intros ->]. Qed.
End words.

(** The Z flag after a comparison with zero. *)
Lemma equal_flag F v : is_u32 v ->
  Z.testbit (Z.lor (Z.land F 0x0FFFFFFF) (compare_flags v 0)) 30 = (v =? 0).
Proof.
  intros Hv. rewrite Z.lor_spec, Z.land_spec. change (Z.testbit 0x0FFFFFFF 30) with false. rewrite andb_false_r. cbn [orb].
  unfold compare_flags, sub32. rewrite Z.sub_0_r, u32_small by done. rewrite !Z.lor_spec.
  assert (Hb : forall (b : bool) z, Z.testbit z 30 = false -> Z.testbit (if b then z else 0) 30 = false).
  { intros b z Hz. destruct b; [done|apply Z.bits_0]. }
  rewrite (Hb _ (2 ^ 31)), (Hb _ (2 ^ 29)), (Hb _ (2 ^ 28)) by done. cbn [orb]. rewrite orb_false_r.
  by destruct (v =? 0).
Qed.

Section switch.
Context {S : Type} `{Bus S}.
Variable Ram : Z -> Prop.
Context `{!Storage S Ram}.
Variables pxCurrentTCB ulCriticalNesting ulPortTaskHasFPUContext ulICCPMR ulMaxAPIPriorityMask : Z.
#[local] Abbreviation SAVE :=
  (portSAVE_CONTEXT pxCurrentTCB ulCriticalNesting ulPortTaskHasFPUContext).
#[local] Abbreviation RESTORE :=
  (portRESTORE_CONTEXT pxCurrentTCB ulCriticalNesting ulPortTaskHasFPUContext ulICCPMR ulMaxAPIPriorityMask).

(** Steps that read variables: outside the frame, from memory. *)
Ltac var_step :=
  repeat match goal with
  | |- context [after_rd ?a ?s] => rewrite (storage_rd a s) by assumption
  | |- context [peek ?a (store_words ?b ?ws ?s)] =>
      rewrite (peek_store_words_out Ram b ws a s) by (cbn [length r0_r12_r14]; first [assumption|lia])
  end.
Ltac run_port Hsp Hflag :=
  repeat (istep Ram; rewrite ?Hsp, ?Hflag; norm_addr; var_step; rewrite ?Hflag, ?equal_flag by (try done; apply peek_u32);
          cbn [Z.eqb negb when]).

Ltac fp_step :=
  rewrite ?on_mem_read, ?on_mem_modify;
  repeat match goal with
  | |- context [vregs (store_words ?a ?ws ?s)] => rewrite (proj1 (vregs_store a ws s))
  | |- context [fpscr (store_words ?a ?ws ?s)] => rewrite (proj2 (vregs_store a ws s))
  end.

(** The variables are outside the [n] bytes from [top] on. *)
Definition apart (tcb top n : Z) : Prop :=
  forall a, a ∈ [pxCurrentTCB; ulCriticalNesting; ulPortTaskHasFPUContext; tcb] ->
    Ram a /\ 0 <= a < 2 ^ 32 /\ (a < top \/ top + n <= a).

Ltac open_apart Hv tcb :=
  let open a R B O := (destruct (Hv a) as (R & B & O); [rewrite !elem_of_cons; tauto|]) in
  let R1 := fresh "Rp" in let B1 := fresh "Bp" in let O1 := fresh "Op" in open pxCurrentTCB R1 B1 O1;
  let R2 := fresh "Rn" in let B2 := fresh "Bn" in let O2 := fresh "On" in open ulCriticalNesting R2 B2 O2;
  let R3 := fresh "Rf" in let B3 := fresh "Bf" in let O3 := fresh "Of" in open ulPortTaskHasFPUContext R3 B3 O3;
  let R4 := fresh "Rt" in let B4 := fresh "Bt" in let O4 := fresh "Ot" in open tcb R4 B4 O4.


Lemma srsdb_run {B} (f : unit -> M (machine (vfp S)) B) sp R SP md F SC CP PC v :
  md = SUPERVISOR_MODE \/ md = IRQ_MODE -> R Usr 13%nat = sp + 8 -> 0 <= sp -> sp + 8 < 2 ^ 32 ->
  (srsdb_sys ≫= f) (Machine (Cpu R SP md F SC CP PC) v) =
    f tt (Machine (Cpu (upd_reg Usr 13 sp R) SP md F SC CP PC)
            (store_words sp [R (mode_bank md) 14%nat; SP (mode_bank md)] v)).
Proof.
  intros Hmd Hsp H0 H1. unfold srsdb_sys.
  destruct Hmd as [-> | ->]; cbn [mode_bank]; repeat (istep Ram; rewrite ?Hsp; norm_addr); done.
Qed.

(** The stores of [portSAVE_CONTEXT], without and with a floating point
    context. *)
Lemma save_run_plain {B} (f : unit -> M (machine (vfp S)) B) tcb top R SP md F SC CP PC v :
  md = SUPERVISOR_MODE \/ md = IRQ_MODE ->
  0 <= top -> top + 72 < 2 ^ 32 -> ram_at Ram top 18 -> apart tcb top 72 ->
  peek pxCurrentTCB v = tcb -> R Usr 13%nat = top + 72 -> peek ulPortTaskHasFPUContext v = 0 ->
  exists R' F',
    (SAVE ≫= f) (Machine (Cpu R SP md F SC CP PC) v) = f tt (Machine (Cpu R' SP SYSTEM_MODE F' SC CP PC)
      (bus_wr tcb top (store_words top [0] (store_words (top + 4) [peek ulCriticalNesting v]
        (store_words (top + 8) (R Usr <$> r0_r12_r14)
          (store_words (top + 64) [R (mode_bank md) 14%nat; SP (mode_bank md)] v)))))) /\
    (forall b n, b <> Usr -> R' b n = R b n).
Proof.
  intros Hmd T0 T1 Hr Hv Htcb Hsp Hflag. open_apart Hv tcb.
  unfold portSAVE_CONTEXT. rewrite bind_assoc, (srsdb_run _ (top + 64)) by (done || lia).
  unfold r0_r12_r14. autounfold with arm_db. cbn [length].
  run_port Hsp Hflag; rewrite Htcb, (u32_small top) by (unfold is_u32; lia); eexists _, _; (split; [reflexivity|intros [] ? ?; reflexivity || congruence]).
Qed.

Lemma save_run_vfp {B} (f : unit -> M (machine (vfp S)) B) tcb top w R SP md F SC CP PC v :
  md = SUPERVISOR_MODE \/ md = IRQ_MODE ->
  0 <= top -> top + 332 < 2 ^ 32 -> ram_at Ram top 83 -> apart tcb top 332 ->
  peek pxCurrentTCB v = tcb -> R Usr 13%nat = top + 332 -> peek ulPortTaskHasFPUContext v = w -> w <> 0 ->
  length (vregs v) = 64%nat ->
  exists R' F',
    (SAVE ≫= f) (Machine (Cpu R SP md F SC CP PC) v) = f tt (Machine (Cpu R' SP SYSTEM_MODE F' SC CP PC)
      (bus_wr tcb top (store_words top [w] (store_words (top + 4) [fpscr v]
        (store_words (top + 8) (take 32 (drop 32 (vregs v))) (store_words (top + 136) (take 32 (vregs v))
        (store_words (top + 264) [peek ulCriticalNesting v]
        (store_words (top + 268) (R Usr <$> r0_r12_r14)
          (store_words (top + 324) [R (mode_bank md) 14%nat; SP (mode_bank md)] v))))))))) /\
    (forall b n, b <> Usr -> R' b n = R b n).
Proof.
  intros Hmd T0 T1 Hr Hv Htcb Hsp Hflag Hw Hlen. open_apart Hv tcb.
  assert (Hu : is_u32 w) by (rewrite <- Hflag; apply peek_u32).
  assert (Ht : length (take 32 (vregs v)) = 32%nat) by (rewrite length_take; lia).
  assert (Hd : length (take 32 (drop 32 (vregs v))) = 32%nat) by (rewrite length_take, length_drop; lia).
  unfold portSAVE_CONTEXT. rewrite bind_assoc, (srsdb_run _ (top + 324)) by (done || lia).
  unfold r0_r12_r14. autounfold with arm_db. cbn [length]. change (2 * 0)%nat with 0%nat. change (2 * 16)%nat with 32%nat.
  cbn [drop].
  repeat (istep Ram || fp_step; rewrite ?Hsp, ?Hflag; norm_addr; var_step;
    rewrite ?Hflag, ?equal_flag, ?(proj2 (Z.eqb_neq w 0) Hw) by (try done; apply peek_u32); cbn [Z.eqb negb when]).
  rewrite Htcb, (u32_small top) by (unfold is_u32; lia); eexists _, _; (split; [reflexivity|intros [] ? ?; reflexivity || congruence]).
Qed.
End switch.
