(* ===== verification/RtSwitch.v ===== *)
(** * FreeRTOS: saving and restoring a context

    [portSAVE_CONTEXT] leaves the frame of the task that runs in its stack and
    [portRESTORE_CONTEXT] brings back the task whose frame it finds. *)
From S2P Require Import Prelude.
From S2P Require Import Bus.
From S2P Require Import Arm.
From S2P Require Import RtPort.
From S2P Require Import RtFrame.

Local Open Scope Z_scope.

Section switch.
Context {S : Type} `{Bus S}.
Variable Ram : Z -> Prop.
Context `{!Storage S Ram}.
Variables pxCurrentTCB ulCriticalNesting ulPortTaskHasFPUContext ulICCPMR ulMaxAPIPriorityMask : Z.
#[local] Abbreviation SAVE :=
  (portSAVE_CONTEXT pxCurrentTCB ulCriticalNesting ulPortTaskHasFPUContext).
#[local] Abbreviation RESTORE :=
  (portRESTORE_CONTEXT pxCurrentTCB ulCriticalNesting ulPortTaskHasFPUContext ulICCPMR ulMaxAPIPriorityMask).
#[local] Abbreviation apart := (apart Ram pxCurrentTCB ulCriticalNesting ulPortTaskHasFPUContext).

(** ** Saving *)
Definition in_context (X : context) (R : bank -> nat -> Z) (v : vfp S) : Prop :=
  R Usr <$> r0_r12_r14 = cx_regs X /\ R Usr 13%nat = cx_sp X /\
  peek ulCriticalNesting v = cx_nesting X /\ peek ulPortTaskHasFPUContext v = cx_flag X /\
  (cx_flag X <> 0 -> vregs v = cx_vregs X /\ fpscr v = cx_fpscr X).

Definition blocks_of (X : context) : list (list Z) :=
  [[cx_pc X; cx_cpsr X]; cx_regs X; [cx_nesting X]] ++
  (if cx_flag X =? 0 then [] else [take 32 (cx_vregs X); take 32 (drop 32 (cx_vregs X)); [cx_fpscr X]]) ++ [[cx_flag X]].

Lemma blocks_pushed X : length (cx_vregs X) = 64%nat -> pushed (blocks_of X) [] = saved_words X.
Proof.
  intros Hl. unfold blocks_of, saved_words, vfp_words. destruct (cx_flag X =? 0); cbn; rewrite ?app_nil_r; [done|].
  rewrite (take_ge (drop 32 (cx_vregs X))) by (rewrite length_drop; lia). by rewrite <- !app_assoc.
Qed.

Lemma blocks_u32 X : length (cx_vregs X) = 64%nat -> Forall is_u32 (saved_words X) -> Forall (Forall is_u32) (blocks_of X).
Proof.
  intros Hl Hw. rewrite <- (blocks_pushed X) in Hw by done. rewrite Forall_forall in Hw.
  apply Forall_forall. intros ws Hws. apply Forall_forall. intros w Hwin. apply Hw, in_pushed. right. by exists ws.
Qed.
Lemma push_blocks_vfp bs : forall sp (v : vfp S),
  vregs (push_blocks sp bs v) = vregs v /\ fpscr (push_blocks sp bs v) = fpscr v.
Proof.
  induction bs as [|ws bs IH]; intros sp v; [done|]. cbn [push_blocks].
  destruct (IH (sp - 4 * Z.of_nat (length ws)) (store_words (sp - 4 * Z.of_nat (length ws)) ws v)) as [-> ->].
  apply vregs_store.
Qed.

Lemma push_blocks_stores P bs : forall sp vs (v : vfp S),
  let n := Z.of_nat (length (pushed bs vs)) in let top := sp + 4 * Z.of_nat (length vs) - 4 * n in
  0 <= top -> sp < 2 ^ 32 -> (forall a, top <= a < sp -> P a) -> stores P v (push_blocks sp bs v).
Proof.
  induction bs as [|ws bs IH]; intros sp vs v n top H0 H1 HP; cbn [push_blocks]; [constructor|].
  cbn [pushed foldl] in n. change (foldl _ (ws ++ vs) bs) with (pushed bs (ws ++ vs)) in n.
  pose proof (pushed_length bs (ws ++ vs)) as Hl. rewrite length_app in Hl.
  apply (stores_trans _ _ (store_words (sp - 4 * Z.of_nat (length ws)) ws v)).
  - apply store_words_stores; [lia|lia|]. intros b Hb. apply HP. lia.
  - apply (IH _ (ws ++ vs)); rewrite ?length_app; fold n; [lia|lia|]. intros a Ha. apply HP. lia.
Qed.

Lemma context_save_run {B} (f : unit -> M (machine (vfp S)) B) X tcb R SP md F SC CP PC v :
  md = SUPERVISOR_MODE \/ md = IRQ_MODE ->
  context_ok Ram X -> apart tcb (saved_sp X) (cx_sp X - saved_sp X) -> tcb <> pxCurrentTCB ->
  peek pxCurrentTCB v = tcb -> in_context X R v -> length (vregs v) = 64%nat ->
  R (mode_bank md) 14%nat = cx_pc X -> SP (mode_bank md) = cx_cpsr X ->
  exists R' F' v',
    (SAVE ≫= f) (Machine (Cpu R SP md F SC CP PC) v) = f tt (Machine (Cpu R' SP SYSTEM_MODE F' SC CP PC) v') /\
    (forall b n, b <> Usr -> R' b n = R b n) /\
    holds (saved_sp X) (saved_words X) v' /\ peek tcb v' = saved_sp X /\
    stores (fun a => in_frame X a \/ a = tcb) v v' /\ vregs v' = vregs v /\ fpscr v' = fpscr v.
Proof.
  intros Hmd [C1 C2 C3 C4 C5 C6] Hap Hne Htcb (HR & Hsp & Hnest & Hflag & Hvfp) Hlen Hpc Hcp.
  destruct (id C5) as (T0 & T1 & _).
  destruct (Hap tcb) as (Rt & Bt & Ot); [rewrite !elem_of_cons; tauto|].
  set (top := saved_sp X) in *. assert (Es : cx_sp X = top + 4 * Z.of_nat (length (saved_words X))) by (unfold top, saved_sp; lia).
  assert (exists R' F', (SAVE ≫= f) (Machine (Cpu R SP md F SC CP PC) v) =
    f tt (Machine (Cpu R' SP SYSTEM_MODE F' SC CP PC) (bus_wr tcb top (push_blocks (cx_sp X) (blocks_of X) v))) /\
    (forall b n, b <> Usr -> R' b n = R b n)) as (R' & F' & Hrun & Hbanks).
  { destruct (Z.eqb_spec (cx_flag X) 0) as [E0|E0].
    - assert (El : length (saved_words X) = 18%nat).
      { unfold saved_words, vfp_words. rewrite E0. cbn [Z.eqb app length]. rewrite length_app, C1. done. }
      rewrite El in *. replace (cx_sp X - top) with 72 in Hap by lia.
      destruct (save_run_plain Ram pxCurrentTCB ulCriticalNesting ulPortTaskHasFPUContext f tcb top R SP md F SC CP PC v) as (R' & F' & Hrun & Hbanks); try done; try lia.
      exists R', F'. split; [|done]. rewrite Hrun. do 3 f_equal. unfold blocks_of. rewrite E0. cbn [Z.eqb app push_blocks length].
      rewrite HR, C1, Hnest, Hpc, Hcp, Es. repeat (f_equal; try lia).
    - assert (El : length (saved_words X) = 83%nat).
      { unfold saved_words, vfp_words. rewrite (proj2 (Z.eqb_neq _ _) E0). cbn [app length].
        rewrite length_app. cbn [length]. rewrite !length_app, length_drop, length_take, C1, C2. done. }
      rewrite El in *. replace (cx_sp X - top) with 332 in Hap by lia. destruct (Hvfp E0) as [Ev Ef].
      destruct (save_run_vfp Ram pxCurrentTCB ulCriticalNesting ulPortTaskHasFPUContext f tcb top (cx_flag X) R SP md F SC CP PC v) as (R' & F' & Hrun & Hbanks); try done; try lia.
      exists R', F'. split; [|done]. rewrite Hrun. do 3 f_equal. unfold blocks_of. rewrite (proj2 (Z.eqb_neq _ _) E0). cbn [app push_blocks length].
      rewrite HR, C1, Hnest, Hpc, Hcp, Es, Ev, Ef. rewrite !length_take, length_drop, C2. repeat (f_equal; try lia). }
  pose proof (push_blocks_run Ram (blocks_of X) (cx_sp X) [] v) as Hpb. cbn zeta in Hpb.
  rewrite blocks_pushed in Hpb by done. cbn [length] in Hpb. rewrite Z.mul_0_r, Z.add_0_r in Hpb.
  destruct Hpb as [Hh Hout]; [by apply blocks_u32|exact C5|done|].
  exists R', F', (bus_wr tcb top (push_blocks (cx_sp X) (blocks_of X) v)). split; [exact Hrun|]. split; [exact Hbanks|].
  change (cx_sp X - 4 * Z.of_nat (length (saved_words X))) with top in *.
  split; [|split; [|split; [|split]]].
  - apply (holds_other top (saved_words X) (push_blocks (cx_sp X) (blocks_of X) v)); [|exact Hh].
    intros i Hi. apply storage_wr_ne; [|lia]. destruct C5 as (_ & _ & Hin). apply Hin. lia.
  - apply storage_wr_eq; [done|unfold is_u32; lia].
  - constructor; [by right|]. apply (push_blocks_stores _ (blocks_of X) (cx_sp X) []); rewrite ?blocks_pushed by done;
      cbn [length]; [lia|done|]. intros a Ha. left. unfold in_frame. fold top. lia.
  - exact (proj1 (push_blocks_vfp (blocks_of X) (cx_sp X) v)).
  - exact (proj2 (push_blocks_vfp (blocks_of X) (cx_sp X) v)).
Qed.

(** ** Restoring *)

Lemma peek_words_ext a n (v v' : vfp S) :
  (forall i, (i < n)%nat -> peek (a + 4 * Z.of_nat i) v' = peek (a + 4 * Z.of_nat i) v) ->
  peek_words a n v' = peek_words a n v.
Proof. intros Hk. pose proof (holds_other a (peek_words a n v) v v') as Hh. unfold holds in Hh. rewrite length_peek_words in Hh. by apply Hh. Qed.
Lemma peek_words_wr a n b x (v : vfp S) :
  ram_at Ram a (Z.of_nat n) -> (b < a \/ a + 4 * Z.of_nat n <= b) \/ ~ Ram b ->
  peek_words a n (bus_wr b x v) = peek_words a n v.
Proof.
  intros (H0 & H1 & Hin) Hb. apply peek_words_ext. intros i Hi.
  assert (Ra : Ram (a + 4 * Z.of_nat i)) by (apply Hin; lia).
  apply storage_wr_ne; [done|]. intros E. destruct Hb as [?|Hb]; [lia|]. apply Hb. by rewrite E.
Qed.
Lemma peek_words_set_vregs a n l (v : vfp S) : peek_words a n (set_vregs l v) = peek_words a n v.
Proof. apply peek_words_ext. intros. apply peek_set_vregs. Qed.
Lemma peek_words_set_fpscr a n x (v : vfp S) : peek_words a n (set_fpscr x v) = peek_words a n v.
Proof. apply peek_words_ext. intros. apply peek_set_fpscr. Qed.

Lemma load_cpsr_run {B} w t (f : unit -> M (machine (vfp S)) B) R SP md F SC CP PC v :
  decode_mode w = Some SYSTEM_MODE ->
  (load_cpsr w t ≫= f) (Machine (Cpu R SP md F SC CP PC) v) =
    f tt (Machine (Cpu R SP SYSTEM_MODE (Z.land w 0xFFFFFFE0) SC CP t) v).
Proof. intros Hd. unfold load_cpsr, mbind, M_bind, set_cpsr. cbn [cpu_of]. by rewrite Hd. Qed.

(** The variables [portRESTORE_CONTEXT] reads and writes, and the priority
    mask register, a device. *)
Record restore_vars (tcb top n pmr : Z) (v : vfp S) : Prop := {
  rv_apart : apart tcb top n;
  rv_tcb : tcb <> ulPortTaskHasFPUContext /\ tcb <> ulCriticalNesting;
  rv_flag : ulPortTaskHasFPUContext <> ulCriticalNesting;
  rv_pmr : Ram ulICCPMR /\ 0 <= ulICCPMR < 2 ^ 32 /\ peek ulICCPMR v = pmr /\ ~ Ram pmr;
  rv_mask : Ram ulMaxAPIPriorityMask /\ 0 <= ulMaxAPIPriorityMask < 2 ^ 32;
  rv_consts : forall a, a ∈ [ulICCPMR; ulMaxAPIPriorityMask] ->
    a <> ulPortTaskHasFPUContext /\ a <> ulCriticalNesting
}.

Definition mask_for (nest : Z) (v : vfp S) : Z := if nest =? 0 then 255 else peek ulMaxAPIPriorityMask v.

Ltac back_step :=
  repeat match goal with
  | |- context [after_rd ?a ?s] => rewrite (storage_rd a s) by assumption
  | |- context [peek ?a (bus_wr ?b ?x ?s)] => rewrite (storage_wr_ne a b x s) by (assumption || congruence)
  | |- context [peek ?a (set_vregs ?l ?s)] => rewrite (peek_set_vregs a l s)
  | |- context [peek ?a (set_fpscr ?l ?s)] => rewrite (peek_set_fpscr a l s)
  | |- context [peek_words ?a ?n (bus_wr ?b ?x ?s)] => rewrite (peek_words_wr a n b x s) by (first [ram | by right | by (left; norm_addr; lia)])
  | |- context [peek_words ?a ?n (set_vregs ?l ?s)] => rewrite (peek_words_set_vregs a n l s)
  | |- context [peek_words ?a ?n (set_fpscr ?l ?s)] => rewrite (peek_words_set_fpscr a n l s)
  end.

(** A list of words read in parts. *)
Lemma holds_cons a w ws (v : vfp S) : holds a (w :: ws) v <-> peek_words a 1 v = [w] /\ holds (a + 4) ws v.
Proof. exact (holds_app a [w] ws v). Qed.

Ltac back_run :=
  repeat (first [istep Ram | rewrite on_mem_read | rewrite on_mem_modify];
    norm_addr; back_step;
    repeat match goal with
    | E : peek ?a ?v = _ |- context [peek ?a ?v] => rewrite E
    | E : peek_words ?a ?n ?v = _ |- context [peek_words ?a ?n ?v] => rewrite E
    | E : (_ =? 0) = _ |- _ => rewrite !E
    | |- context [Z.testbit _ 30] => rewrite equal_flag by done
    end; cbn [Z.eqb negb when]).


Ltac open_restore Hv tcb :=
  destruct Hv as [Hv [N1 N2] N3 (Rp & Bp & Epmr & Np) (Rm & Bm) Hc];
  let C1 := fresh "C1" in let C2 := fresh "C2" in destruct (Hc ulICCPMR) as [C1 C2]; [rewrite !elem_of_cons; tauto|];
  let C1 := fresh "C1" in let C2 := fresh "C2" in destruct (Hc ulMaxAPIPriorityMask) as [C1 C2]; [rewrite !elem_of_cons; tauto|];
  let V1 := fresh "V1" in let V2 := fresh "V2" in
  destruct (Hv pxCurrentTCB) as (V1 & V2 & _); [rewrite !elem_of_cons; tauto|];
  let V1 := fresh "V1" in let V2 := fresh "V2" in let V3 := fresh "V3" in
  destruct (Hv ulCriticalNesting) as (V1 & V2 & V3); [rewrite !elem_of_cons; tauto|];
  let V1 := fresh "V1" in let V2 := fresh "V2" in let V3 := fresh "V3" in
  destruct (Hv ulPortTaskHasFPUContext) as (V1 & V2 & V3); [rewrite !elem_of_cons; tauto|];
  let V1 := fresh "V1" in let V2 := fresh "V2" in
  destruct (Hv tcb) as (V1 & V2 & _); [rewrite !elem_of_cons; tauto|];
  match type of Epmr with peek _ ?v = ?pmr =>
    assert (Bpm : 0 <= pmr < 2 ^ 32) by (rewrite <- Epmr; apply peek_u32);
    assert (Bmask : is_u32 (peek ulMaxAPIPriorityMask v)) by apply peek_u32
  end;
  clear Hc Hv.


Lemma restore_run_plain {B} (f : unit -> M (machine (vfp S)) B) tcb top pmr nest rs pcv w R SP F SC CP PC v :
  0 <= top -> top + 72 < 2 ^ 32 -> ram_at Ram top 18 -> restore_vars tcb top 72 pmr v ->
  peek pxCurrentTCB v = tcb -> peek tcb v = top -> is_u32 nest -> length rs = 14%nat ->
  holds top (0 :: nest :: rs ++ [pcv; w]) v -> decode_mode w = Some SYSTEM_MODE ->
  exists R',
    (RESTORE ≫= f) (Machine (Cpu R SP SYSTEM_MODE F SC CP PC) v) =
      f tt (Machine (Cpu R' SP SYSTEM_MODE (Z.land w 0xFFFFFFE0) SC CP pcv)
        (bus_wr pmr (mask_for nest v) (bus_wr ulCriticalNesting nest (bus_wr ulPortTaskHasFPUContext 0 v)))) /\
    R' Usr <$> r0_r12_r14 = rs /\ R' Usr 13%nat = top + 72 /\ (forall b n, b <> Usr -> R' b n = R b n).
Proof.
  intros T0 T1 Hr Hv Htcb Htop Hn Hl HW Hd. open_restore Hv tcb.
  rewrite !holds_cons, holds_app, Hl in HW. destruct HW as (E1 & E2 & E3 & E4). unfold holds in *. rewrite Hl in E3.
  replace (top + 4 + 4) with (top + 8) in * by lia.
  replace (top + 8 + 4 * Z.of_nat 14) with (top + 64) in * by lia. cbn [length] in E4.
  do 15 (destruct rs as [|? rs]; try discriminate Hl). clear Hl.
  unfold portRESTORE_CONTEXT, r0_r12_r14, mask_for. autounfold with arm_db. cbn [length].
  back_run. destruct (nest =? 0) eqn:En; cbn [negb when]; back_run.
  all: rewrite load_cpsr_run by exact Hd; change (u32 255) with 255; change (u32 0) with 0; rewrite ?(u32_small nest) by exact Hn;
    rewrite ?(u32_small (peek _ _)) by exact Bmask.
  all: eexists; split_and!; [reflexivity|reflexivity|reflexivity|].
  all: intros [] ? ?; reflexivity || congruence.
Qed.

Lemma vpop_both (lo hi l : list Z) : length l = 64%nat -> length hi = 32%nat ->
  take 0 (take 32 l ++ hi ++ drop 64 l) ++ lo ++ drop 32 (take 32 l ++ hi ++ drop 64 l) = lo ++ hi.
Proof.
  intros Hl Hh. cbn [take app]. rewrite drop_app_length' by (rewrite length_take; lia).
  by rewrite drop_ge, app_nil_r by lia.
Qed.

Lemma restore_run_vfp {B} (f : unit -> M (machine (vfp S)) B) tcb top pmr nest fl fp hi lo rs pcv w R SP F SC CP PC v :
  0 <= top -> top + 332 < 2 ^ 32 -> ram_at Ram top 83 -> restore_vars tcb top 332 pmr v ->
  peek pxCurrentTCB v = tcb -> peek tcb v = top -> is_u32 nest -> is_u32 fl -> fl <> 0 ->
  length rs = 14%nat -> length hi = 32%nat -> length lo = 32%nat -> length (vregs v) = 64%nat ->
  holds top (fl :: fp :: hi ++ lo ++ nest :: rs ++ [pcv; w]) v -> decode_mode w = Some SYSTEM_MODE ->
  exists R' v1,
    (RESTORE ≫= f) (Machine (Cpu R SP SYSTEM_MODE F SC CP PC) v) =
      f tt (Machine (Cpu R' SP SYSTEM_MODE (Z.land w 0xFFFFFFE0) SC CP pcv)
        (bus_wr pmr (mask_for nest v) (bus_wr ulCriticalNesting nest v1))) /\
    (forall a, peek a v1 = peek a (bus_wr ulPortTaskHasFPUContext fl v)) /\
    stores (fun a => a = ulPortTaskHasFPUContext) v v1 /\ vregs v1 = lo ++ hi /\ fpscr v1 = fp /\
    R' Usr <$> r0_r12_r14 = rs /\ R' Usr 13%nat = top + 332 /\ (forall b n, b <> Usr -> R' b n = R b n).
Proof.
  intros T0 T1 Hr Hv Htcb Htop Hn Hfl Hfl0 Hl Hhi Hlo Hvr HW Hd. open_restore Hv tcb.
  rewrite !holds_cons, !holds_app, !holds_cons, holds_app, Hhi, Hlo, Hl in HW.
  destruct HW as (E1 & E2 & E3 & E4 & E5 & E6 & E7). unfold holds in *. rewrite Hhi in E3. rewrite Hlo in E4. rewrite Hl in E6.
  replace (top + 4 + 4) with (top + 8) in * by lia.
  replace (top + 8 + 4 * Z.of_nat 32) with (top + 136) in * by lia.
  replace (top + 136 + 4 * Z.of_nat 32) with (top + 264) in * by lia.
  replace (top + 264 + 4) with (top + 268) in * by lia.
  replace (top + 268 + 4 * Z.of_nat 14) with (top + 324) in * by lia. cbn [length] in E7.
  assert (F0 : (fl =? 0) = false) by by apply Z.eqb_neq.
  do 15 (destruct rs as [|? rs]; try discriminate Hl). clear Hl.
  unfold portRESTORE_CONTEXT, r0_r12_r14, mask_for. autounfold with arm_db. cbn [length].
  change (2 * 0)%nat with 0%nat. change (2 * 16)%nat with 32%nat.
  back_run. destruct (nest =? 0) eqn:En; cbn [negb when]; back_run.
  all: rewrite load_cpsr_run by exact Hd; change (u32 255) with 255; rewrite ?(u32_small nest), ?(u32_small fl) by done;
    rewrite ?(u32_small (peek _ _)) by exact Bmask.
  all: eexists _, _; split_and!; [reflexivity| |by repeat constructor|by apply vpop_both|reflexivity..|intros [] ? ?; reflexivity || congruence].
  all: intros a; by rewrite peek_set_fpscr, !peek_set_vregs.
Qed.

Lemma context_restore_run {B} (f : unit -> M (machine (vfp S)) B) X tcb pmr R SP F SC CP PC v :
  context_ok Ram X -> restore_vars tcb (saved_sp X) (cx_sp X - saved_sp X) pmr v ->
  peek pxCurrentTCB v = tcb -> peek tcb v = saved_sp X -> holds (saved_sp X) (saved_words X) v ->
  length (vregs v) = 64%nat ->
  exists R' v',
    (RESTORE ≫= f) (Machine (Cpu R SP SYSTEM_MODE F SC CP PC) v) =
      f tt (Machine (Cpu R' SP SYSTEM_MODE (Z.land (cx_cpsr X) 0xFFFFFFE0) SC CP (cx_pc X)) v') /\
    in_context X R' v' /\ (forall b n, b <> Usr -> R' b n = R b n) /\
    stores (fun a => a ∈ [ulPortTaskHasFPUContext; ulCriticalNesting; pmr]) v v' /\
    length (vregs v') = 64%nat /\ (exists v1, v' = bus_wr pmr (mask_for (cx_nesting X) v) v1).
Proof.
  intros [C1 C2 C3 C4 C5 C6] Hrv Htcb Htop Hh Hlen.
  destruct (id Hrv) as [Hap _ Hfn (_ & _ & _ & Hpmr) _ _].
  destruct (Hap ulCriticalNesting) as (Rn & _ & _); [rewrite !elem_of_cons; tauto|].
  destruct (Hap ulPortTaskHasFPUContext) as (Rf & _ & _); [rewrite !elem_of_cons; tauto|].
  destruct (id C5) as (T0 & T1 & _). set (top := saved_sp X) in *.
  assert (Es : cx_sp X = top + 4 * Z.of_nat (length (saved_words X))) by (unfold top, saved_sp; lia).
  assert (Hfl : is_u32 (cx_flag X) /\ is_u32 (cx_nesting X)).
  { rewrite Forall_forall in C3. split; apply C3; unfold saved_words; rewrite ?elem_of_cons, ?elem_of_app, ?elem_of_cons; tauto. }
  destruct Hfl as [Ufl Un].
  assert (Hpk : forall a (v1 : vfp S), Ram a -> peek a (bus_wr pmr (mask_for (cx_nesting X) v) (bus_wr ulCriticalNesting (cx_nesting X) v1)) =
    if decide (a = ulCriticalNesting) then cx_nesting X else peek a v1).
  { intros a v1 Ra. rewrite (storage_wr_ne a pmr) by (done || by intros ->). destruct (decide _) as [->|].
    - by apply storage_wr_eq.
    - by apply storage_wr_ne. }
  destruct (Z.eqb_spec (cx_flag X) 0) as [E0|E0].
  - assert (El : length (saved_words X) = 18%nat).
    { unfold saved_words, vfp_words. rewrite E0. cbn [Z.eqb app length]. rewrite length_app, C1. done. }
    rewrite El in *. replace (cx_sp X - top) with 72 in Hrv by lia.
    unfold saved_words, vfp_words in Hh. rewrite E0 in Hh. cbn [Z.eqb app] in Hh.
    destruct (restore_run_plain f tcb top pmr (cx_nesting X) (cx_regs X) (cx_pc X) (cx_cpsr X) R SP F SC CP PC v)
      as (R' & Hrun & HR & Hsp & Ho); try done; try lia.
    eexists R', _. split; [exact Hrun|]. split_and!; [|done| |done|by eexists].
    + unfold in_context. rewrite !Hpk by done. rewrite decide_True, decide_False by done.
      rewrite storage_wr_eq by done. split_and!; try done; lia.
    + repeat constructor.
  - assert (El : length (saved_words X) = 83%nat).
    { unfold saved_words, vfp_words. rewrite (proj2 (Z.eqb_neq _ _) E0). cbn [app length].
      rewrite length_app. cbn [length]. rewrite !length_app, length_drop, length_take, C1, C2. done. }
    rewrite El in *. replace (cx_sp X - top) with 332 in Hrv by lia.
    unfold saved_words, vfp_words in Hh. rewrite (proj2 (Z.eqb_neq _ _) E0) in Hh. rewrite <- app_comm_cons, <- app_assoc in Hh.
    destruct (restore_run_vfp f tcb top pmr (cx_nesting X) (cx_flag X) (cx_fpscr X) (drop 32 (cx_vregs X)) (take 32 (cx_vregs X))
      (cx_regs X) (cx_pc X) (cx_cpsr X) R SP F SC CP PC v) as (R' & v1 & Hrun & Hv1 & Hst & Hvr & Hfp & HR & Hsp & Ho); try done; try lia.
    { rewrite length_drop. lia. } { rewrite length_take. lia. }
    rewrite take_drop in Hvr.
    eexists R', _. split; [exact Hrun|]. split_and!; [|done| |cbn [vregs bus_wr vfp_bus]; congruence|by eexists].
    + unfold in_context. rewrite !Hpk by done. rewrite decide_True, decide_False, Hv1 by done.
      rewrite storage_wr_eq by done. split_and!; try done; lia.
    + do 2 (constructor; [rewrite !elem_of_cons; tauto|]). refine (stores_mono _ _ _ _ _ Hst). intros a ->. constructor.
Qed.
End switch.
