(* ===== verification/RtYield.v ===== *)
(** * FreeRTOS: a task does not see that it was switched out

    The software interrupt a task yields with and the start of the first task,
    over the scheduler of [RtTasks]: the assembly code saves the context of the
    task that runs, the scheduler chooses, and the chosen task goes on with
    the registers, the stack, the critical nesting and the floating point
    registers it had. *)
From S2P Require Import Prelude.
From S2P Require Import Bus.
From S2P Require Import Arm.
From S2P Require Import RtTasks.
From S2P Require Import RtPort.
From S2P Require Import RtFrame.
From S2P Require Import RtSwitch.

Local Open Scope Z_scope.

Definition at_pc (p : Z) (X : context) : context :=
  Context (cx_regs X) (cx_sp X) p (cx_cpsr X) (cx_nesting X) (cx_flag X) (cx_vregs X) (cx_fpscr X).

Lemma at_pc_length p X : length (saved_words (at_pc p X)) = length (saved_words X).
Proof. unfold saved_words, vfp_words. cbn. rewrite !length_app. cbn. by rewrite !length_app. Qed.
Lemma at_pc_sp p X : saved_sp (at_pc p X) = saved_sp X.
Proof. unfold saved_sp. by rewrite at_pc_length. Qed.
Lemma at_pc_frame p X a : in_frame (at_pc p X) a <-> in_frame X a.
Proof. unfold in_frame. by rewrite at_pc_sp. Qed.

Lemma at_pc_ok Ram p X : is_u32 p -> context_ok Ram X -> context_ok Ram (at_pc p X).
Proof.
  intros Hp [C1 C2 C3 C4 C5 C6]. constructor; [done|done| |done| |done]; [|by rewrite at_pc_sp, at_pc_length].
  unfold saved_words, vfp_words in *. cbn [cx_flag cx_regs cx_vregs cx_fpscr cx_nesting cx_pc cx_cpsr at_pc].
  rewrite !Forall_cons, !Forall_app, !Forall_cons, !Forall_app, !Forall_cons in C3 |- *. tauto.
Qed.

(** The status register word and its parts. *)
Lemma cpsr_split w : is_u32 w -> decode_mode w = Some SYSTEM_MODE -> Z.lor (Z.land w 0xFFFFFFE0) (mode_bits SYSTEM_MODE) = w.
Proof.
  intros Hw Hd. assert (E : Z.land w 0x1F = 0x1F).
  { unfold decode_mode in Hd. repeat (case_match; [try discriminate; by apply Z.eqb_eq|]). discriminate. }
  cbn [mode_bits]. rewrite <- E, <- Z.land_lor_distr_r. change (Z.lor _ _) with (Z.ones 32).
  rewrite Z.land_ones by lia. apply Z.mod_small. exact Hw.
Qed.

Section yield.
Context {S : Type} `{Bus S}.
Variable Ram : Z -> Prop.
Context `{!Storage S Ram}.
Variable clobbered : nat -> cpu -> Z.
Variable clobbered_flags : cpu -> Z.
Variables current ulCriticalNesting ulPortTaskHasFPUContext ulICCPMR ulMaxAPIPriorityMask : Z.
(** The priority mask register. *)
Variable pmr : Z.
(** The kernel's data: its addresses, the kernel a memory encodes, and the
    compiled [vTaskSwitchContext]. *)
Variable K : Z -> Prop.
Variable encodes : kernel -> vfp S -> Prop.
Variable c_vTaskSwitchContext : M (vfp S) unit.
(** The tasks. *)
Variable ts : list Z.

#[local] Abbreviation SAVE := (portSAVE_CONTEXT current ulCriticalNesting ulPortTaskHasFPUContext).
#[local] Abbreviation RESTORE :=
  (portRESTORE_CONTEXT current ulCriticalNesting ulPortTaskHasFPUContext ulICCPMR ulMaxAPIPriorityMask).
#[local] Abbreviation BLX := (blx_vTaskSwitchContext clobbered clobbered_flags c_vTaskSwitchContext).
#[local] Abbreviation in_context := (in_context ulCriticalNesting ulPortTaskHasFPUContext).
#[local] Abbreviation mask_for := (mask_for ulMaxAPIPriorityMask).

(** The compiled function does what the model does, to the kernel's data. *)
Record kernel_code : Prop := {
  kc_current k v : encodes k v -> peek current v = pxCurrentTCB k;
  kc_stores k v v' : stores (fun a => ~ K a) v v' -> encodes k v -> encodes k v';
  kc_switch k k' v : encodes k v -> length (vregs v) = 64%nat -> vTaskSwitchContext k = Ok tt k' ->
    pxCurrentTCB k' ∈ ts ->
    exists v', c_vTaskSwitchContext v = Ok tt v' /\ encodes k' v' /\ length (vregs v') = 64%nat /\
      (forall a, Ram a -> ~ K a -> peek a v' = peek a v)
}.

(** Where things are: the frames of the tasks apart from each other, from the
    variables, from the control blocks and from the kernel's data. *)
Definition variables : list Z := [current; ulCriticalNesting; ulPortTaskHasFPUContext; ulICCPMR; ulMaxAPIPriorityMask].
Record layout (X : Z -> context) : Prop := {
  ly_context t : t ∈ ts -> context_ok Ram (X t);
  ly_apart t u a : t ∈ ts -> u ∈ ts -> t <> u -> in_frame (X t) a -> ~ in_frame (X u) a;
  ly_memory a : a ∈ variables ++ ts -> Ram a /\ 0 <= a < 2 ^ 32;
  ly_outside t a : t ∈ ts -> a ∈ variables ++ ts -> ~ in_frame (X t) a;
  ly_distinct : NoDup (variables ++ ts);
  ly_frames t a : t ∈ ts -> in_frame (X t) a -> ~ K a;
  ly_kernel a : a ∈ tail variables ++ ts -> ~ K a;
  ly_pmr : ~ Ram pmr /\ ~ K pmr
}.

Definition saved (X : Z -> context) (t : Z) (v : vfp S) : Prop :=
  peek t v = saved_sp (X t) /\ holds (saved_sp (X t)) (saved_words (X t)) v.

Record system (X : Z -> context) (k : kernel) (v : vfp S) : Prop := {
  sy_kernel : encodes k v;
  sy_task : pxCurrentTCB k ∈ ts;
  sy_vregs : length (vregs v) = 64%nat;
  sy_pmr : peek ulICCPMR v = pmr;
  sy_others t : t ∈ ts -> t <> pxCurrentTCB k -> saved X t v
}.

(** The task of [k] runs, in the context [X] has for it. *)
Record runs (X : Z -> context) (k : kernel) (c : cpu) (v : vfp S) : Prop := {
  rn_system : system X k v;
  rn_mode : cmode c = SYSTEM_MODE;
  rn_cpsr : cpsr c = cx_cpsr (X (pxCurrentTCB k));
  rn_pc : pc c = cx_pc (X (pxCurrentTCB k));
  rn_context : in_context (X (pxCurrentTCB k)) (regs c) v
}.

(** Memory that is none of the above. *)
Definition elsewhere (X : Z -> context) (a : Z) : Prop :=
  Ram a /\ ~ K a /\ a ∉ variables ++ ts /\ forall t, t ∈ ts -> ~ in_frame (X t) a.
Definition same_elsewhere (X : Z -> context) (v v' : vfp S) : Prop :=
  forall a, elsewhere X a -> peek a v' = peek a v.

(** What saving and restoring a task stores to. *)
Definition exchange_area (X : Z -> context) (a : Z) : Prop :=
  (exists t, t ∈ ts /\ in_frame (X t) a) \/ a ∈ variables ++ ts \/ a = pmr.

Lemma saved_kept X t v v' : context_ok Ram (X t) -> Ram t ->
  (forall a, Ram a -> a = t \/ in_frame (X t) a -> peek a v' = peek a v) -> saved X t v -> saved X t v'.
Proof.
  intros Hc Rt Hk [E Hh]. split; [by rewrite Hk by auto|].
  refine (holds_other _ _ v v' _ Hh). intros i Hi. destruct (co_ram _ _ Hc) as (H0 & H1 & Hin).
  apply Hk; [apply Hin; lia|]. right. unfold in_frame. unfold saved_sp at 2. unfold saved_sp in H0 |- *. lia.
Qed.

Hypothesis code : kernel_code.

Section moves.
Variable X : Z -> context.
Hypothesis lay : layout X.

Lemma ram_symbol a : a ∈ variables -> Ram a /\ 0 <= a < 2 ^ 32.
Proof. intros Ha. apply (ly_memory X lay). apply elem_of_app. by left. Qed.
Lemma ram_task t : t ∈ ts -> Ram t /\ 0 <= t < 2 ^ 32.
Proof. intros Ht. apply (ly_memory X lay). apply elem_of_app. by right. Qed.

Lemma ly_task_apart t : t ∈ ts ->
  apart Ram current ulCriticalNesting ulPortTaskHasFPUContext t (saved_sp (X t)) (cx_sp (X t) - saved_sp (X t)).
Proof.
  intros Ht a Ha. assert (Hin : a ∈ variables ++ ts).
  { rewrite elem_of_app. unfold variables. rewrite !elem_of_cons in *. destruct Ha as [->|[->|[->|[->|[]%elem_of_nil]]]]; tauto. }
  destruct (ly_memory X lay a Hin) as [Ra Ba]. split; [done|]. split; [done|].
  pose proof (ly_outside X lay t a Ht Hin) as Ho. unfold in_frame in Ho. lia.
Qed.

Lemma ly_task_symbol t a : t ∈ ts -> a ∈ variables -> t <> a.
Proof.
  intros Ht Ha ->. pose proof (ly_distinct X lay) as Hd. apply NoDup_app in Hd as (_ & Hd & _). by apply (Hd a).
Qed.

Lemma ly_restore t v : t ∈ ts -> peek ulICCPMR v = pmr ->
  restore_vars Ram current ulCriticalNesting ulPortTaskHasFPUContext ulICCPMR ulMaxAPIPriorityMask
    t (saved_sp (X t)) (cx_sp (X t) - saved_sp (X t)) pmr v.
Proof.
  intros Ht Hp. pose proof (ly_distinct X lay) as Hd. apply NoDup_app in Hd as (Hd & _ & _). unfold variables in Hd.
  rewrite !NoDup_cons, !elem_of_cons in Hd.
  destruct (ram_symbol ulICCPMR) as [P1 P2]; [unfold variables; rewrite !elem_of_cons; tauto|].
  destruct (ram_symbol ulMaxAPIPriorityMask) as [P3 P4]; [unfold variables; rewrite !elem_of_cons; tauto|].
  constructor; try done.
  - by apply ly_task_apart.
  - split; apply ly_task_symbol; unfold variables; rewrite ?elem_of_cons; tauto.
  - intros E. intuition congruence.
  - split_and!; [done|apply P2..|done|apply (ly_pmr X lay)].
  - intros a. rewrite !elem_of_cons, elem_of_nil. intros [->|[->|[]]]; split; intros E; intuition congruence.
Qed.

(** The parts of a [system] that stores to one frame and its control block,
    or to the kernel's data, keep. *)
Lemma system_saved t u v v' : t ∈ ts -> u ∈ ts -> u <> t ->
  stores (fun a => in_frame (X t) a \/ a = t) v v' -> saved X u v -> saved X u v'.
Proof.
  intros Ht Hu Hne Hst. apply saved_kept; [by apply (ly_context X lay)|by apply ram_task|].
  intros a Ra Ha. refine (peek_stores Ram _ a v v' Ra _ Hst). intros [Hf| ->].
  - destruct Ha as [->|Ha]; [|by apply (ly_apart X lay t u a)].
    apply (ly_outside X lay t u); [done|apply elem_of_app; by right|done].
  - destruct Ha as [->|Ha]; [done|]. apply (ly_outside X lay u t); [done|apply elem_of_app; by right|done].
Qed.

(** All tasks are saved: between [portSAVE_CONTEXT] and
    [portRESTORE_CONTEXT]. *)
Record all_saved (k : kernel) (v : vfp S) : Prop := {
  as_kernel : encodes k v;
  as_task : pxCurrentTCB k ∈ ts;
  as_vregs : length (vregs v) = 64%nat;
  as_pmr : peek ulICCPMR v = pmr;
  as_saved t : t ∈ ts -> saved X t v
}.

Lemma save_all {B} (f : unit -> M (machine (vfp S)) B) k R SP md F SC CP PC v :
  md = SUPERVISOR_MODE \/ md = IRQ_MODE -> system X k v -> in_context (X (pxCurrentTCB k)) R v ->
  R (mode_bank md) 14%nat = cx_pc (X (pxCurrentTCB k)) -> SP (mode_bank md) = cx_cpsr (X (pxCurrentTCB k)) ->
  exists R' F' v',
    (SAVE ≫= f) (Machine (Cpu R SP md F SC CP PC) v) = f tt (Machine (Cpu R' SP SYSTEM_MODE F' SC CP PC) v') /\
    (forall b n, b <> Usr -> R' b n = R b n) /\ same_elsewhere X v v' /\ all_saved k v' /\
    stores (exchange_area X) v v'.
Proof.
  intros Hmd [Hk Ht Hv Hp Ho] Hc Hpc Hsp. set (t := pxCurrentTCB k) in *.
  destruct (context_save_run Ram current ulCriticalNesting ulPortTaskHasFPUContext f (X t) t R SP md F SC CP PC v)
    as (R' & F' & v' & Hrun & Hb & Hh & Hs & Hst & Hvr & _); try done.
  { by apply (ly_context X lay). }
  { by apply ly_task_apart. }
  { apply ly_task_symbol; [done|]. unfold variables. rewrite elem_of_cons. tauto. }
  { by apply (kc_current code). }
  exists R', F', v'. split_and!; [done|done| | |].
  3:{ refine (stores_mono _ _ _ _ _ Hst). intros a [Ha| ->]; [left; by exists t|right; left; apply elem_of_app; by right]. }
  { intros a (Ra & _ & Hn & Hf). refine (peek_stores Ram _ a v v' Ra _ Hst). intros [Ha| ->]; [by apply (Hf t)|].
    apply Hn, elem_of_app. by right. }
  constructor; [|done|congruence| |].
  - apply (kc_stores code k v); [|done]. refine (stores_mono _ _ _ _ _ Hst). intros a [Ha| ->].
    + by apply (ly_frames X lay t).
    + apply (ly_kernel X lay), elem_of_app. by right.
  - rewrite <- Hp. refine (peek_stores Ram _ _ _ _ _ _ Hst); [apply ram_symbol; unfold variables; rewrite !elem_of_cons; tauto|].
    assert (Hin : ulICCPMR ∈ variables) by (unfold variables; rewrite !elem_of_cons; tauto).
    intros [Ha|E]; [|by apply (ly_task_symbol t ulICCPMR)].
    apply (ly_outside X lay t ulICCPMR); [done|apply elem_of_app; by left|done].
  - intros u Hu. destruct (decide (u = t)) as [->|Hne]; [by split|].
    apply (system_saved t u v); [done..|]. by apply Ho.
Qed.

Lemma switch_all {B} (f : unit -> M (machine (vfp S)) B) k k' R SP F SC CP PC v :
  all_saved k v -> vTaskSwitchContext k = Ok tt k' -> pxCurrentTCB k' ∈ ts ->
  exists R' F' v',
    (BLX ≫= f) (Machine (Cpu R SP SYSTEM_MODE F SC CP PC) v) = f tt (Machine (Cpu R' SP SYSTEM_MODE F' SC CP PC) v') /\
    (forall b n, b <> Usr -> R' b n = R b n) /\ same_elsewhere X v v' /\ all_saved k' v' /\
    c_vTaskSwitchContext v = Ok tt v'.
Proof.
  intros [Hk Ht Hv Hp Ho] Hr Ht'. destruct (kc_switch code k k' v Hk Hv Hr Ht') as (v' & Hrun & Hk' & Hv' & Hkeep).
  unfold blx_vTaskSwitchContext, clobber. rewrite bind_assoc, (on_mem_run _ _ _ _ _ _ Hrun).
  match goal with |- context [(on_cpu ?g ≫= ?f) (Machine ?c ?s)] =>
    let c' := cpu_eval (g c) in rewrite (on_cpu_run g f c s c' eq_refl) end.
  eexists _, _, v'. split; [reflexivity|]. split; [intros [] ? ?; reflexivity || congruence|].
  split; [intros a (Ra & Na & _); by apply Hkeep|]. split; [|exact Hrun].
  constructor; [done|done|done| |].
  - rewrite <- Hp. assert (Hin : ulICCPMR ∈ variables) by (unfold variables; rewrite !elem_of_cons; tauto).
    apply Hkeep; [by apply ram_symbol|]. apply (ly_kernel X lay), elem_of_app. left. cbn. rewrite !elem_of_cons. tauto.
  - intros u Hu. apply (saved_kept X u v); [by apply (ly_context X lay)|by apply ram_task| |by apply Ho].
    intros a Ra [->|Ha]; apply Hkeep; try done; [|by apply (ly_frames X lay u)].
    apply (ly_kernel X lay), elem_of_app. by right.
Qed.

Lemma sym_pmr : ulICCPMR ∈ variables.
Proof. unfold variables. rewrite !elem_of_cons. tauto. Qed.
Lemma restored_not_pmr : ulICCPMR ∉ [ulPortTaskHasFPUContext; ulCriticalNesting; pmr].
Proof.
  pose proof (ly_distinct X lay) as Hd. apply NoDup_app in Hd as (Hd & _ & _). unfold variables in Hd.
  rewrite !NoDup_cons, !elem_of_cons in Hd. rewrite !elem_of_cons, elem_of_nil. intros [E|[E|[E|[]]]]; [intuition congruence..|].
  apply (proj1 (ly_pmr X lay)). rewrite <- E. apply ram_symbol, sym_pmr.
Qed.
Lemma restored_not_task u a : u ∈ ts -> Ram a -> a = u \/ in_frame (X u) a ->
  a ∉ [ulPortTaskHasFPUContext; ulCriticalNesting; pmr].
Proof.
  intros Hu Ra Ha. rewrite !elem_of_cons, elem_of_nil. intros Hin.
  assert (Hv : a ∈ variables).
  { unfold variables. rewrite !elem_of_cons. destruct Hin as [->|[->|[->|[]]]]; [tauto..|]. by destruct (ly_pmr X lay). }
  destruct Ha as [->|Ha]; [by apply (ly_task_symbol u u)|].
  apply (ly_outside X lay u a); [done|apply elem_of_app; by left|done].
Qed.

Lemma restore_all {B} (f : unit -> M (machine (vfp S)) B) k R SP F SC CP PC v :
  all_saved k v ->
  exists c' v',
    (RESTORE ≫= f) (Machine (Cpu R SP SYSTEM_MODE F SC CP PC) v) = f tt (Machine c' v') /\
    runs X k c' v' /\ (exists v1, v' = bus_wr pmr (mask_for (cx_nesting (X (pxCurrentTCB k))) v) v1) /\
    same_elsewhere X v v' /\ spsr c' = SP /\ (forall b n, b <> Usr -> regs c' b n = R b n) /\
    stores (exchange_area X) v v'.
Proof.
  intros [Hk Ht Hv Hp Ho]. set (t := pxCurrentTCB k) in *. destruct (Ho t Ht) as [Hs Hh].
  pose proof (ly_context X lay t Ht) as Hcx.
  destruct (context_restore_run Ram current ulCriticalNesting ulPortTaskHasFPUContext ulICCPMR ulMaxAPIPriorityMask f (X t) t pmr
    R SP F SC CP PC v) as (R' & v' & Hrun & Hin & Hb & Hst & Hv' & Hm); try done.
  { by apply ly_restore. }
  { by apply (kc_current code). }
  assert (Hnk : forall a, a ∈ [ulPortTaskHasFPUContext; ulCriticalNesting; pmr] -> ~ K a).
  { intros a. rewrite !elem_of_cons, elem_of_nil. intros [->|[->|[->|[]]]]; [..|apply (ly_pmr X lay)];
      apply (ly_kernel X lay); cbn; rewrite !elem_of_cons; tauto. }
  exists (Cpu R' SP SYSTEM_MODE (Z.land (cx_cpsr (X t)) 0xFFFFFFE0) SC CP (cx_pc (X t))), v'. split_and!; [exact Hrun| |exact Hm| |done|done|].
  3:{ refine (stores_mono _ _ _ _ _ Hst). intros a. rewrite !elem_of_cons, elem_of_nil. unfold exchange_area.
      rewrite elem_of_app. unfold variables. rewrite !elem_of_cons. intros [->|[->|[->|[]]]]; tauto. }
  2:{ intros a (Ra & _ & Na & _). refine (peek_stores Ram _ a v v' Ra _ Hst). rewrite !elem_of_cons, elem_of_nil.
      rewrite elem_of_app in Na. unfold variables in Na. rewrite !elem_of_cons in Na. intros [E|[E|[->|[]]]]; [tauto..|]. by apply (proj1 (ly_pmr X lay)). }
  constructor; fold t; [|done| |done|done].
  - constructor; [|done|done| |].
    + apply (kc_stores code k v); [|done]. exact (stores_mono _ _ _ _ Hnk Hst).
    + rewrite <- Hp. refine (peek_stores Ram _ _ v v' _ restored_not_pmr Hst). apply ram_symbol, sym_pmr.
    + intros u Hu _. apply (saved_kept X u v); [by apply (ly_context X lay)|by apply ram_task| |by apply Ho].
      intros a Ra Ha. exact (peek_stores Ram _ a v v' Ra (restored_not_task u a Hu Ra Ha) Hst).
  - unfold cpsr. cbn [cflags cmode]. apply cpsr_split; [|apply Hcx].
    pose proof (co_words _ _ Hcx) as Hw. rewrite Forall_forall in Hw. apply Hw. unfold saved_words.
    rewrite elem_of_cons, elem_of_app, elem_of_cons, elem_of_app, !elem_of_cons. tauto.
Qed.
(** Both handlers end so: save, choose, restore. *)
Lemma exchange_run {B} (f : unit -> M (machine (vfp S)) B) k k' R SP md F SC CP PC v :
  md = SUPERVISOR_MODE \/ md = IRQ_MODE -> system X k v -> in_context (X (pxCurrentTCB k)) R v ->
  R (mode_bank md) 14%nat = cx_pc (X (pxCurrentTCB k)) -> SP (mode_bank md) = cx_cpsr (X (pxCurrentTCB k)) ->
  vTaskSwitchContext k = Ok tt k' -> pxCurrentTCB k' ∈ ts ->
  exists c' v',
    ((SAVE ;; BLX ;; RESTORE) ≫= f) (Machine (Cpu R SP md F SC CP PC) v) = f tt (Machine c' v') /\
    runs X k' c' v' /\
    (exists v1 v2, v' = bus_wr pmr (mask_for (cx_nesting (X (pxCurrentTCB k'))) v2) v1) /\
    same_elsewhere X v v' /\ spsr c' = SP /\ (forall b n, b <> Usr -> regs c' b n = R b n) /\
    (exists va vb, stores (exchange_area X) v va /\ c_vTaskSwitchContext va = Ok tt vb /\ stores (exchange_area X) vb v').
Proof.
  intros Hmd Hsys Hc Hpc Hsp Hr Ht'. rewrite bind_assoc.
  match goal with |- context [(SAVE ≫= ?f) (Machine _ _)] =>
    destruct (save_all f k R SP md F SC CP PC v Hmd Hsys Hc Hpc Hsp) as (R2 & F2 & v2 & -> & Hb2 & He2 & Has2 & Hst2) end.
  rewrite bind_assoc.
  match goal with |- context [(BLX ≫= ?f) (Machine _ _)] =>
    destruct (switch_all f k k' R2 SP F2 SC CP PC v2 Has2 Hr Ht') as (R3 & F3 & v3 & -> & Hb3 & He3 & Has3 & Hrun) end.
  destruct (restore_all f k' R3 SP F3 SC CP PC v3 Has3) as (c' & v' & -> & Hruns & (v1 & Hm) & He4 & Hspsr & Hb4 & Hst4).
  exists c', v'. split_and!; [done|done|by exists v1, v3| |done| |by exists v2, v3].
  - intros a Ha. by rewrite He4, He3, He2.
  - intros b n Hb. by rewrite Hb4, Hb3, Hb2.
Qed.
End moves.

Definition resumed_at (t p : Z) (X : Z -> context) (u : Z) : context := if decide (u = t) then at_pc p (X u) else X u.

Lemma resumed_frame t p X u a : in_frame (resumed_at t p X u) a <-> in_frame (X u) a.
Proof. unfold resumed_at. case_decide; [apply at_pc_frame|done]. Qed.

Lemma resumed_layout t p X : is_u32 p -> layout X -> layout (resumed_at t p X).
Proof.
  intros Hp [L1 L2 L3 L4 L5 L6 L7 L8]. constructor; try done.
  - intros u Hu. unfold resumed_at. case_decide; [by apply at_pc_ok; auto|by auto].
  - intros u w a Hu Hw Hne. rewrite !resumed_frame. by apply L2.
  - intros u a Hu Ha. rewrite resumed_frame. by apply L4.
  - intros u a Hu. rewrite resumed_frame. by apply L6.
Qed.

Lemma resumed_system t p X k v : t = pxCurrentTCB k -> system X k v -> system (resumed_at t p X) k v.
Proof.
  intros -> [Hk Ht Hv Hp Ho]. constructor; try done. intros u Hu Hne. unfold saved, resumed_at.
  rewrite decide_False by done. by apply Ho.
Qed.

(** C8: the task that yields.  The [SWI] instruction at [pc c], taken as an
    exception, saves the task, lets [vTaskSwitchContext] choose and ends with
    the chosen task running in the context it was left in; the task that
    yielded is left at the next instruction with everything else as it was.
    The priority mask is the one for the critical nesting of the new task, and
    the rest of the memory and the stack pointers of the exception modes are
    as they were. *)
Theorem FreeRTOS_SWI_Handler_switches X k k' c v :
  layout X -> runs X k c v -> vTaskSwitchContext k = Ok tt k' -> pxCurrentTCB k' ∈ ts ->
  exists c' v',
    (enter SUPERVISOR_MODE IRQ_BIT 4 ;;
     FreeRTOS_SWI_Handler clobbered clobbered_flags current ulCriticalNesting ulPortTaskHasFPUContext ulICCPMR
       ulMaxAPIPriorityMask c_vTaskSwitchContext) (Machine c v) = Ok tt (Machine c' v') /\
    runs (resumed_at (pxCurrentTCB k) (add32 (pc c) 4) X) k' c' v' /\
    (exists v1 v2, v' = bus_wr pmr (mask_for (cx_nesting (X (pxCurrentTCB k'))) v2) v1) /\
    same_elsewhere X v v' /\
    (forall b, b <> Svc -> spsr c' b = spsr c b) /\
    (forall b n, b <> Usr -> (b, n) <> (Svc, 14%nat) -> regs c' b n = regs c b n).
Proof.
  intros lay [Hsys Hm Hcp Hpc Hcx] Hr Ht'. set (t := pxCurrentTCB k) in *.
  set (X' := resumed_at t (add32 (pc c) 4) X).
  assert (lay' : layout X') by (apply resumed_layout; [apply u32_is_u32|done]).
  assert (Hsys' : system X' k v) by by apply resumed_system.
  assert (Et : X' t = at_pc (add32 (pc c) 4) (X t)) by (unfold X', resumed_at; by rewrite decide_True).
  destruct c as [R SP md F SC CP PC]. cbn [cmode] in Hm. subst md.
  unfold enter, FreeRTOS_SWI_Handler.
  match goal with |- context [(on_cpu ?g ≫= ?f) (Machine ?c ?s)] =>
    let c' := cpu_eval (g c) in rewrite (on_cpu_run g f c s c' eq_refl) end.
  rewrite <- bind_ret_r.
  match goal with |- context [(_ ≫= mret) (Machine (Cpu ?R1 ?SP1 ?md ?F1 ?SC1 ?CP1 ?PC1) v)] =>
    destruct (exchange_run X' lay' mret k k' R1 SP1 md F1 SC1 CP1 PC1 v) as (c' & v' & -> & Hruns & (v1 & v2 & Hm) & He & Hspsr & Hb & _);
      [by left|exact Hsys'|fold t; rewrite Et; exact Hcx|fold t; by rewrite Et|fold t; rewrite Et; exact Hcp|done|done|] end.
  exists c', v'. split_and!; [done|exact Hruns|..].
  - exists v1, v2. rewrite Hm. unfold X', resumed_at. by case_decide.
  - intros a Ha. apply He. destruct Ha as (H1 & H2 & H3 & H4). split_and!; try done.
    intros u Hu. unfold X'. rewrite resumed_frame. by apply H4.
  - intros b Hne. rewrite Hspsr. cbn [spsr]. unfold upd_spsr. by destruct b.
  - intros b n Hne Hn. rewrite Hb by done. cbn [regs]. by rewrite upd_reg_ne.
Qed.

Lemma start_run X k c v :
  layout X -> all_saved X k v ->
  exists c' v',
    vPortRestoreTaskContext current ulCriticalNesting ulPortTaskHasFPUContext ulICCPMR ulMaxAPIPriorityMask
      (Machine c v) = Ok tt (Machine c' v') /\ runs X k c' v'.
Proof.
  intros lay Has. destruct c as [R SP md F SC CP PC]. unfold vPortRestoreTaskContext. autounfold with arm_db.
  match goal with |- context [(on_cpu ?g ≫= ?f) (Machine ?c ?s)] =>
    let c' := cpu_eval (g c) in rewrite (on_cpu_run g f c s c' eq_refl) end.
  rewrite <- bind_ret_r.
  destruct (restore_all X lay mret k R SP F SC CP PC v Has) as (c' & v' & -> & Hruns & _). by exists c', v'.
Qed.
End yield.
