(* ===== verification/RtFirst.v ===== *)
(** * FreeRTOS: the first switch to a task

    The stack that [pxPortInitialiseStack] prepares is a saved context:
    [portRESTORE_CONTEXT] starts the task's function with its parameter. *)
From S2P Require Import Prelude.
From S2P Require Import Bus.
From S2P Require Import Arm.
From S2P Require Import RtTasks.
From S2P Require Import RtCreate.
From S2P Require Import RtStack.
From S2P Require Import RtPort.
From S2P Require Import RtFrame.
From S2P Require Import RtSwitch.

Local Open Scope Z_scope.

Definition initial_context (pxCode pvParameters top : Z) : context :=
  Context [pvParameters; 0x01010101; 0x02020202; 0x03030303; 0x04040404; 0x05050505; 0x06060606; 0x07070707;
           0x08080808; 0x09090909; 0x10101010; 0x11111111; 0x12121212; portTASK_RETURN_ADDRESS]
    (top - 8) pxCode portINITIAL_SPSR portNO_CRITICAL_NESTING portNO_FLOATING_POINT_CONTEXT (replicate 64 0) 0.

Lemma initial_frame pxCode pvParameters top :
  (pxCode .& portTHUMB_MODE_ADDRESS)%word = 0 ->
  first_frame pxCode pvParameters = [0; 0; 0] ++ reverse (saved_words (initial_context pxCode pvParameters top)).
Proof. intros He. unfold first_frame. by rewrite He. Qed.

Lemma initial_sp pxCode pvParameters top : saved_sp (initial_context pxCode pvParameters top) = top - 80.
Proof. unfold saved_sp. cbn [cx_sp initial_context]. change (length _) with 18%nat. lia. Qed.

Section first.
Context {S : Type} `{Bus S}.

Lemma initial_holds s n pxCode pvParameters w w' (v : vfp S) :
  let top := frame_top s n in
  (pxCode .& portTHUMB_MODE_ADDRESS)%word = 0 -> new_words s n pxCode pvParameters w w' ->
  (forall a x, w' !! a = Some x -> peek a v = x) ->
  holds (top - 80) (saved_words (initial_context pxCode pvParameters top)) v.
Proof.
  intros top He Hw Hv. unfold holds. apply list_eq. intros i.
  destruct (decide (i < 18)%nat) as [Hi|Hi].
  - rewrite peek_words_lookup by done.
    destruct (lookup_lt_is_Some_2 (saved_words (initial_context pxCode pvParameters top)) i) as [x Ex]; [done|].
    rewrite Ex. f_equal. apply Hv. replace (top - 80 + 4 * Z.of_nat i) with (top - 4 * Z.of_nat (20 - i)) by lia.
    apply (nw_frame _ _ _ _ _ _ Hw). rewrite (initial_frame _ _ top He), lookup_app_r by (cbn; lia).
    cbn [length]. rewrite reverse_lookup by (change (length _) with 18%nat; lia).
    change (length _) with 18%nat. replace (18 - Datatypes.S (20 - i - 3))%nat with i by lia. exact Ex.
  - rewrite !lookup_ge_None_2; [done|change (length _) with 18%nat; lia|rewrite length_peek_words; change (length _) with 18%nat; lia].
Qed.

Variable Ram : Z -> Prop.
Context `{!Storage S Ram}.
Variables current ulCriticalNesting ulPortTaskHasFPUContext ulICCPMR ulMaxAPIPriorityMask : Z.

(** C10: a new task starts.  The stack [pxPortInitialiseStack] lays out, in
    memory, is one [vPortRestoreTaskContext] can start from: with [t] the
    current task and the stack pointer it returned in [t]'s control block, the
    processor goes to the task's function in System mode with interrupts
    enabled, the parameter in r0, a stack that is empty but for the three
    words for debuggers, no critical nesting, no floating point
    context and every interrupt priority enabled. *)
Theorem new_task_starts s n pxCode pvParameters k t pmr c (v : vfp S) :
  let top := frame_top s n in
  0 <= s -> s mod 8 = 0 -> 26 <= n -> s + 4 * n < 2 ^ 32 ->
  (forall a, in_stack s n a -> words k !! a = Some ulCheckValue) ->
  (pxCode .& portTHUMB_MODE_ADDRESS)%word = 0 -> is_u32 pxCode -> is_u32 pvParameters ->
  (forall a, in_stack s n a -> Ram a) ->
  restore_vars Ram current ulCriticalNesting ulPortTaskHasFPUContext ulICCPMR ulMaxAPIPriorityMask t (top - 80) 72 pmr v ->
  peek current v = t -> length (vregs v) = 64%nat ->
  exists p k', pxPortInitialiseStack top pxCode pvParameters k = Ok p k' /\
    (peek t v = p -> (forall a x, words k' !! a = Some x -> peek a v = x) ->
     exists c' v1,
       vPortRestoreTaskContext current ulCriticalNesting ulPortTaskHasFPUContext ulICCPMR ulMaxAPIPriorityMask
         (Machine c v) = Ok tt (Machine c' (bus_wr pmr 255 v1)) /\
       pc c' = pxCode /\ cpsr c' = portINITIAL_SPSR /\ rget 0 c' = pvParameters /\ rget 13 c' = top - 8 /\
       rget 14 c' = portTASK_RETURN_ADDRESS /\
       peek ulCriticalNesting (bus_wr pmr 255 v1) = 0 /\ peek ulPortTaskHasFPUContext (bus_wr pmr 255 v1) = 0).
Proof.
  intros top Hs Hal Hn Hb Hw He Hcode Hpar Hram Hrv Hcur Hlen.
  destruct (new_stack_run s n pxCode pvParameters mret k Hs Hal Hn Hb Hw) as (w & Hrun & Hnw).
  rewrite bind_ret_r in Hrun. eexists _, _. split; [exact Hrun|]. intros Ht Hv. fold top in Ht.
  set (X := initial_context pxCode pvParameters top).
  destruct (frame_top_bounds s n Hs Hal ltac:(lia)) as [Hlo Hmod]. fold top in Hlo, Hmod.
  assert (Hok : context_ok Ram X).
  { constructor; [done|done| |done| |].
    - unfold saved_words, vfp_words. cbn [cx_flag cx_regs cx_nesting cx_pc cx_cpsr X initial_context Z.eqb app].
      repeat (apply Forall_cons; split; [first [done|unfold is_u32; lia]|]). constructor.
    - unfold X. rewrite initial_sp. change (Z.of_nat (length _)) with 18. split_and!; [lia|lia|]. intros i Hi. apply Hram.
      exists ((top - 80 - s) / 4 + i). pose proof (Z.div_mod (top - s) 4 ltac:(lia)).
      replace (top - 80 - s) with ((top - s) + (-20) * 4) by lia. rewrite Z.div_add by lia. lia.
    - cbn. lia. }
  destruct c as [R SP md F SC CP PC]. unfold vPortRestoreTaskContext. autounfold with arm_db.
  match goal with |- context [(on_cpu ?g ≫= ?f) (Machine ?c ?s)] =>
    let c' := cpu_eval (g c) in rewrite (on_cpu_run g f c s c' eq_refl) end.
  rewrite <- bind_ret_r.
  destruct (context_restore_run Ram current ulCriticalNesting ulPortTaskHasFPUContext ulICCPMR ulMaxAPIPriorityMask mret X t pmr
    R SP F SC CP PC v) as (R' & v' & -> & Hin & _ & _ & _ & v1 & ->); try done.
  { unfold X. rewrite initial_sp. cbn [cx_sp initial_context]. by replace (top - 8 - (top - 80)) with 72 by lia. }
  { unfold X. by rewrite initial_sp. }
  { unfold X. rewrite initial_sp. apply (initial_holds s n pxCode pvParameters (words k) w); try done. }
  destruct Hin as (Hregs & Hsp & Hne & Hfl & _).
  exists (Cpu R' SP SYSTEM_MODE (Z.land (cx_cpsr X) 0xFFFFFFE0) SC CP (cx_pc X)), v1.
  cbn [r0_r12_r14 fmap list_fmap cx_regs X initial_context] in Hregs.
  injection Hregs as H0 _ _ _ _ _ _ _ _ _ _ _ _ H14.
  by split_and!.
Qed.
End first.
