(* ===== verification/RtIrq.v ===== *)
(** * FreeRTOS: a task does not see interrupts

    The interrupt handler of [portASM.S] around the application's, while a task
    runs: it gives the task its registers back, or switches to another task as
    [FreeRTOS_SWI_Handler] does. *)
From S2P Require Import Prelude.
From S2P Require Import Bus.
From S2P Require Import Arm.
From S2P Require Import RtTasks.
From S2P Require Import RtPort.
From S2P Require Import RtFrame.
From S2P Require Import RtSwitch.
From S2P Require Import RtYield.

Local Open Scope Z_scope.

Section handler.
Context {S : Type} `{Bus S}.
Variable Ram : Z -> Prop.
Context `{!Storage S Ram}.
Variable clobbered : nat -> cpu -> Z.
Variable clobbered_flags : cpu -> Z.
Variable irq_return : Z.
Variable c_handler : Z -> M (vfp S) unit.

(** Registers the call may change. *)
Definition scratch (b : bank) (n : nat) : bool :=
  match b with Usr => bool_decide (n ∈ [0; 1; 2; 3; 12]%nat) | Svc => (n =? 14)%nat | _ => false end.

(** What [FreeRTOS_IRQ_Handler] needs of the code linked as
    [vApplicationIRQHandler], called with [x] in r0 and the stack of Supervisor
    mode free below [low + 264]: it returns, the application's C function has
    run with the effect [Q], the floating point registers and the registers a
    function must keep are as before. *)
Definition handler_runs (app : M (machine (vfp S)) unit) (low x : Z) (Q : vfp S -> vfp S -> Prop) (v : vfp S) : Prop :=
  forall B (f : unit -> M (machine (vfp S)) B) R SP F SC CP PC,
  R Svc 13%nat = low + 264 -> R Usr 0%nat = x -> R Svc 14%nat = irq_return ->
  exists R' F' v1 v2 v3,
    (app ≫= f) (Machine (Cpu R SP SUPERVISOR_MODE F SC CP PC) v) = f tt (Machine (Cpu R' SP SUPERVISOR_MODE F' SC CP PC) v3) /\
    stores (fun a => low <= a < low + 264) v v1 /\ Q v1 v2 /\ stores (fun _ => False) v2 v3 /\
    vregs v3 = vregs v /\ fpscr v3 = fpscr v /\
    (forall b n, scratch b n = false -> R' b n = R b n).

(** The C function from any state with its stack in use. *)
Definition c_runs (low x : Z) (Q : vfp S -> vfp S -> Prop) (v : vfp S) : Prop :=
  forall v1, stores (fun a => low <= a < low + 264) v v1 -> vregs v1 = vregs v ->
  exists v2, c_handler x v1 = Ok tt v2 /\ length (vregs v2) = 64%nat /\
    (forall a, Ram a -> low <= a < low + 264 -> peek a v2 = peek a v1) /\ Q v1 v2.

(** The application's function itself, when it leaves the floating point
    registers alone. *)
Lemma blx_handler_runs low x Q v :
  (forall v1 v2, c_handler x v1 = Ok tt v2 -> vregs v2 = vregs v1 /\ fpscr v2 = fpscr v1) ->
  c_runs low x Q v -> handler_runs (blx_handler clobbered clobbered_flags c_handler) low x Q v.
Proof.
  intros Hfp Hc B f R SP F SC CP PC Hsp Hx Hlr. destruct (Hc v) as (v2 & Hrun & _ & _ & HQ); [constructor|done|].
  unfold blx_handler, clobber. autounfold with arm_db. repeat (istep Ram; rewrite ?Hx). rewrite (on_mem_run _ _ _ _ _ _ Hrun).
  repeat istep Ram. eexists _, _, v, v2, v2. destruct (Hfp _ _ Hrun).
  split; [reflexivity|]. split_and!; try done; [constructor..|].
  intros b n Hs. destruct b; try reflexivity; do 15 (destruct n as [|n]; [first [reflexivity|discriminate Hs]|]); reflexivity.
Qed.

(** The weak definition of [portASM.S]. *)
Lemma vApplicationIRQHandler_runs low x Q v :
  0 <= low -> low + 264 < 2 ^ 32 -> ram_at Ram low 66 ->
  is_u32 irq_return -> length (vregs v) = 64%nat -> Forall is_u32 (vregs v) -> is_u32 (fpscr v) ->
  c_runs low x Q v -> handler_runs (vApplicationIRQHandler clobbered clobbered_flags irq_return c_handler) low x Q v.
Proof.
  intros L0 L1 Hr Hret Hlen Hu Hfp Hc B f R SP F SC CP PC Hsp Hx Hlr.
  assert (Ht : length (take 32 (vregs v)) = 32%nat) by (rewrite length_take; lia).
  assert (Hd : length (take 32 (drop 32 (vregs v))) = 32%nat) by (rewrite length_take, length_drop; lia).
  unfold vApplicationIRQHandler, pop_pc, blx_handler, clobber. autounfold with arm_db. cbn [length]. change (2 * 0)%nat with 0%nat. change (2 * 16)%nat with 32%nat.
  cbn [drop].
  repeat (first [istep Ram | rewrite on_mem_read]; rewrite ?Hsp, ?Hx, ?Hlr; norm_addr;
    repeat match goal with
    | |- context [vregs (store_words ?a ?ws ?s)] => rewrite (proj1 (vregs_store a ws s))
    | |- context [fpscr (store_words ?a ?ws ?s)] => rewrite (proj2 (vregs_store a ws s))
    end).
  set (lo := take 32 (vregs v)) in *. set (hi := take 32 (drop 32 (vregs v))) in *.
  set (bs := [[irq_return]; lo; hi; [fpscr v]]).
  match goal with |- context [store_words low [fpscr v] ?s] => set (v1 := store_words low [fpscr v] s) end.
  assert (E1 : v1 = push_blocks (low + 264) bs v).
  { unfold v1, bs. cbn [push_blocks length]. rewrite Ht, Hd. repeat (f_equal; try lia). }
  assert (Epu : pushed bs [] = fpscr v :: hi ++ lo ++ [irq_return]) by reflexivity.
  assert (Ebs : length (pushed bs []) = 66%nat) by (rewrite Epu; cbn [length]; rewrite !length_app, Ht, Hd; done).
  pose proof (push_blocks_run Ram bs (low + 264) [] v) as Hpb. pose proof (push_blocks_stores (fun a => low <= a < low + 264) bs (low + 264) [] v) as Hst.
  cbn zeta in Hpb, Hst. rewrite Ebs in Hpb, Hst. cbn [length] in Hpb, Hst.
  replace (low + 264 + 4 * Z.of_nat 0 - 4 * Z.of_nat 66) with low in Hpb, Hst by lia. rewrite <- E1 in Hpb, Hst.
  destruct Hpb as [Hh _]; [|exact Hr|done|].
  { unfold bs. repeat (apply Forall_cons; split); try apply Forall_nil; try done; apply Forall_take; [done|by apply Forall_drop]. }
  destruct (Hc v1) as (v2 & Hrun & Hl2 & Hk & HQ); [by apply Hst|rewrite E1; apply push_blocks_vfp|].
  assert (Hh2 : holds low (fpscr v :: hi ++ lo ++ [irq_return]) v2).
  { rewrite <- Epu. refine (holds_other _ _ v1 v2 _ Hh). intros j Hj. rewrite Ebs in Hj. destruct (id Hr) as (_ & _ & Hin).
    apply Hk; [apply Hin; lia|lia]. }
  rewrite !holds_cons, !holds_app, Hd, Ht in Hh2. destruct Hh2 as (G1 & G2 & G3 & G4). unfold holds in *. rewrite Hd in G2. rewrite Ht in G3.
  cbn [length] in G4. replace (low + 4 + 4 * Z.of_nat 32) with (low + 132) in * by lia.
  replace (low + 132 + 4 * Z.of_nat 32) with (low + 260) in * by lia.
  rewrite (on_mem_run _ _ _ _ _ _ Hrun).
  repeat (first [istep Ram | rewrite on_mem_read | rewrite on_mem_modify]; norm_addr;
    rewrite ?peek_words_set_vregs, ?peek_words_set_fpscr, ?G1, ?G2, ?G3, ?G4). 
  rewrite decide_True by done. rewrite bind_ret.
  eexists _, _, v1, v2, _. split; [reflexivity|]. split; [by apply Hst|]. split; [exact HQ|].
  split; [repeat constructor|]. split; [cbn [vregs set_fpscr set_vregs Nat.add]|split; [done|]].
  - unfold hi, lo. rewrite vpop_both by done. rewrite (take_ge (drop 32 (vregs v))) by (rewrite length_drop; lia). apply take_drop.
  - intros b n Hs. destruct b; try reflexivity.
    + do 15 (destruct n as [|n]; [first [reflexivity|discriminate Hs]|]). reflexivity.
    + do 15 (destruct n as [|n]; [first [reflexivity|discriminate Hs|exact (eq_sym Hsp)]|]). reflexivity.
Qed.
End handler.

Section irq.
Context {S : Type} `{Bus S}.
Variable Ram : Z -> Prop.
Context `{!Storage S Ram}.
Variable sys_spsr : cpu -> Z.
Variable clobbered : nat -> cpu -> Z.
Variable clobbered_flags : cpu -> Z.
Variables current ulCriticalNesting ulPortTaskHasFPUContext ulICCPMR ulMaxAPIPriorityMask : Z.
Variables ulPortInterruptNesting ulICCIAR ulICCEOIR ulPortYieldRequired : Z.
Variables vApplicationIRQHandlerConst irq_return : Z.
Variable c_vTaskSwitchContext : M (vfp S) unit.
#[local] Abbreviation SAVE := (portSAVE_CONTEXT current ulCriticalNesting ulPortTaskHasFPUContext).
#[local] Abbreviation RESTORE :=
  (portRESTORE_CONTEXT current ulCriticalNesting ulPortTaskHasFPUContext ulICCPMR ulMaxAPIPriorityMask).
#[local] Abbreviation BLX := (blx_vTaskSwitchContext clobbered clobbered_flags c_vTaskSwitchContext).
#[local] Abbreviation PROLOGUE := (irq_prologue sys_spsr ulPortInterruptNesting ulICCIAR vApplicationIRQHandlerConst irq_return).
#[local] Abbreviation EPILOGUE := (irq_epilogue clobbered clobbered_flags current ulCriticalNesting ulPortTaskHasFPUContext
  ulICCPMR ulMaxAPIPriorityMask ulICCEOIR ulPortYieldRequired c_vTaskSwitchContext).

(** The stacks of the two modes the handler uses and its variables.  [A] is
    the stack pointer of Supervisor mode after the first push, [low] the end
    of the stack, [I] the stack pointer of IRQ mode after its pushes. *)
Record irq_space (low A I : Z) : Prop := {
  is_low : 0 <= low /\ A = low + 288 + Z.land A 4 /\ A + 24 < 2 ^ 32 /\ 0 <= I /\ I + 8 < 2 ^ 32;
  is_ram : ram_at Ram low 72 /\ ram_at Ram A 6 /\ ram_at Ram I 2;
  is_apart : I + 8 <= low \/ A + 24 <= I;
  is_vars a : a ∈ [ulPortInterruptNesting; ulICCIAR; ulICCEOIR; ulPortYieldRequired] ->
    Ram a /\ 0 <= a < 2 ^ 32 /\ (a < I \/ I + 8 <= a) /\ (a < low \/ A + 24 <= a);
  is_distinct : NoDup [ulPortInterruptNesting; ulICCIAR; ulICCEOIR; ulPortYieldRequired]
}.

(** Registers r0 to r4 and r12. *)
Definition used : list nat := [0; 1; 2; 3; 4; 12]%nat.

Definition touched (b : bank) (n : nat) : bool :=
  match b with Usr => bool_decide (n ∈ used) | Svc | Irq => bool_decide (n ∈ [13; 14]%nat) | _ => false end.

Ltac untouched Hs :=
  match type of Hs with _ ?b ?n = false =>
    destruct b; try reflexivity; do 15 (destruct n as [|n]; [first [reflexivity|discriminate Hs]|]); reflexivity end.

Lemma land4 A : Z.land A 4 = 0 \/ Z.land A 4 = 4.
Proof.
  change 4 with (2 ^ 2). destruct (Z.testbit A 2) eqn:E.
  - right. apply Z.bits_inj'. intros n Hn. rewrite Z.land_spec, Z.pow2_bits_eqb by lia. destruct (Z.eqb_spec 2 n) as [<-|]; [by rewrite E|by rewrite andb_false_r].
  - left. apply Z.bits_inj'. intros n Hn. rewrite Z.land_spec, Z.pow2_bits_eqb, Z.bits_0 by lia. destruct (Z.eqb_spec 2 n) as [<-|]; [by rewrite E|by rewrite andb_false_r].
Qed.

Ltac irq_peeks :=
  repeat match goal with
  | |- context [after_rd ?a ?s] => rewrite (storage_rd a s) by assumption
  | |- context [peek ?a (after_rd ?b ?s)] => rewrite (storage_rd_ne a b s) by assumption
  | |- context [peek ?a (store_words ?b ?ws ?s)] =>
      rewrite (peek_store_words_out Ram b ws a s) by (cbn [length]; first [assumption|lia])
  | |- context [peek ?a (bus_wr ?b ?x ?s)] => rewrite (storage_wr_ne a b x s) by (assumption || congruence)
  end.
(* s *)
Ltac irq_steps HI HA Hlr Hn Hiar Es Ea :=
  repeat (istep Ram; rewrite ?HI, ?HA, ?Hlr; norm_addr; irq_peeks; rewrite ?Hn, ?Hiar, ?Es, ?Ea; norm_addr;
    change (add32 0 1) with 1).


Lemma irq_prologue_run {B} (f : unit -> M (machine (vfp S)) B) low A I iar ret R SP F SC CP PC v :
  irq_space low A I -> R Irq 13%nat = I + 8 -> R Svc 13%nat = A + 24 -> sub32 (R Irq 14%nat) 4 = ret ->
  peek ulPortInterruptNesting v = 0 -> peek ulICCIAR v = iar ->
  let v0 := bus_wr ulPortInterruptNesting 1 (store_words A (R Usr <$> used) (store_words I [SP Irq] (store_words (I + 4) [ret] v))) in
  exists R',
    (PROLOGUE ≫= f) (Machine (Cpu R SP IRQ_MODE F SC CP PC) v) =
      f tt (Machine (Cpu R' SP SUPERVISOR_MODE F SC CP PC)
        (store_words (low + 264) [peek iar v0; 0; Z.land A 4; ulPortInterruptNesting; 1; R Svc 14%nat] (after_rd iar v0))) /\
    R' Svc 13%nat = low + 264 /\ R' Svc 14%nat = irq_return /\ R' Irq 13%nat = I /\ R' Usr 0%nat = peek iar v0 /\
    (forall b n, touched b n = false -> R' b n = R b n).
Proof.
  intros [(L0 & EA & L1 & I0 & I1) (Ra1 & Ra2 & Ra3) Hap Hv Hd] HI HA Hlr Hn Hiar v0.
  destruct (Hv ulPortInterruptNesting) as (N1 & N2 & N3 & N4); [rewrite !elem_of_cons; tauto|].
  destruct (Hv ulICCIAR) as (A1 & A2 & A3 & A4); [rewrite !elem_of_cons; tauto|].
  pose proof (peek_u32 ulICCIAR v) as Biar. rewrite Hiar in Biar. unfold is_u32 in Biar.
  assert (A0 : low + 288 <= A) by (destruct (land4 A); lia).
  assert (Es : sub32 A (Z.land A 4) = low + 288) by (rewrite sub32_small; destruct (land4 A); lia).
  assert (Hni : ulPortInterruptNesting <> ulICCIAR) by (rewrite !NoDup_cons, !elem_of_cons in Hd; tauto).
  clear Hv Hd. unfold irq_prologue. autounfold with arm_db. cbn [length mode_bank].
  irq_steps HI HA Hlr Hn Hiar Es Es. change (u32 (0 + 1)) with 1. fold v0.
  eexists. split; [reflexivity|]. split_and!; try reflexivity. intros b n Hs. untouched Hs.
Qed.

Lemma pop_interrupted_run {B} (f : unit -> M (machine (vfp S)) B) A I rs w ret R SP F SC CP PC v :
  ram_at Ram A 6 -> ram_at Ram I 2 -> A + 24 < 2 ^ 32 -> I + 8 < 2 ^ 32 ->
  R Svc 13%nat = A -> R Irq 13%nat = I -> length rs = 6%nat -> holds A rs v -> holds I [w; ret] v ->
  exists R',
    (pop_interrupted ≫= f) (Machine (Cpu R SP SUPERVISOR_MODE F SC CP PC) v) =
      f tt (Machine (Cpu R' (upd_spsr Irq w SP) IRQ_MODE F SC CP PC) v) /\
    R' Usr <$> used = rs /\ R' Svc 13%nat = A + 24 /\ R' Irq 13%nat = I + 8 /\ R' Irq 14%nat = ret /\ R' Svc 14%nat = R Svc 14%nat /\
    (forall b n, touched b n = false -> R' b n = R b n).
Proof.
  intros RA RI A1 I1 HA HI Hl Hrs Hw. do 7 (destruct rs as [|? rs]; try discriminate Hl).
  unfold holds in *. cbn [length] in Hrs, Hw. destruct (id RA) as (A0 & _). destruct (id RI) as (I0 & _).
  assert (Hw1 : peek_words I 1 v = [w] /\ peek_words (I + 4) 1 v = [ret]) by (cbn in *; by simplify_eq).
  destruct Hw1 as [Hw1 Hw2].
  unfold pop_interrupted. autounfold with arm_db. cbn [length].
  repeat (istep Ram; rewrite ?HA, ?HI, ?Hrs, ?Hw1, ?Hw2; norm_addr).
  eexists. split; [reflexivity|]. split_and!; try reflexivity. intros b m Hs. untouched Hs.
Qed.

Lemma irq_epilogue_run {B} (f : unit -> M (machine (vfp S)) B) low A I eoir x w ret lr rs R SP F SC CP PC v :
  irq_space low A I -> R Svc 13%nat = low + 264 -> R Irq 13%nat = I -> is_u32 x ->
  peek ulICCEOIR v = eoir -> ~ Ram eoir -> length rs = 6%nat ->
  holds (low + 264) [x; 0; Z.land A 4; ulPortInterruptNesting; 1; lr] v -> holds A rs v -> holds I [w; ret] v ->
  let v' := bus_wr ulPortInterruptNesting 0 (bus_wr eoir x v) in
  let y := peek ulPortYieldRequired v in
  exists R' F',
    (EPILOGUE ≫= f) (Machine (Cpu R SP SUPERVISOR_MODE F SC CP PC) v) =
      ((if y =? 0 then movs_pc_lr else SAVE ;; BLX ;; RESTORE) ≫= f)
        (Machine (Cpu R' (upd_spsr Irq w SP) IRQ_MODE F' SC CP PC) (if y =? 0 then v' else bus_wr ulPortYieldRequired 0 v')) /\
    R' Usr <$> used = rs /\ R' Svc 13%nat = A + 24 /\ R' Irq 13%nat = I + 8 /\ R' Irq 14%nat = ret /\ R' Svc 14%nat = lr /\
    (forall b n, touched b n = false -> R' b n = R b n).
Proof.
  intros [(L0 & EA & L1 & I0 & I1) (Ra1 & Ra2 & Ra3) Hap Hv Hd] HA HI Ux Heo Neo Hl Hh Hrs Hw v' y.
  destruct (Hv ulPortInterruptNesting) as (N1 & N2 & N3 & N4); [rewrite !elem_of_cons; tauto|].
  destruct (Hv ulICCEOIR) as (E1 & E2 & E3 & E4); [rewrite !elem_of_cons; tauto|].
  destruct (Hv ulPortYieldRequired) as (Y1 & Y2 & Y3 & Y4); [rewrite !elem_of_cons; tauto|].
  pose proof (peek_u32 ulICCEOIR v) as Beo. rewrite Heo in Beo. unfold is_u32 in Beo.
  assert (A0 : low + 288 <= A) by (destruct (land4 A); lia).
  assert (Ea : add32 (low + 288) (Z.land A 4) = A) by (rewrite add32_small; destruct (land4 A); lia).
  assert (Hny : ulPortInterruptNesting <> ulPortYieldRequired) by (rewrite !NoDup_cons, !elem_of_cons in Hd; tauto).
  assert (Yeo : eoir <> ulPortYieldRequired) by (by intros ->).
  clear Hv Hd. unfold holds in Hh. cbn [length] in Hh.
  unfold irq_epilogue. autounfold with arm_db. cbn [length].
  repeat (istep Ram; rewrite ?HA, ?Hh; norm_addr; irq_peeks; rewrite ?Heo, ?Ea; norm_addr; rewrite ?equal_flag by done; cbn [Z.eqb negb]).
  change (u32 0) with 0. rewrite (u32_small x) by done. fold v'.
  rewrite equal_flag by apply peek_u32. fold y.
  assert (Hk : forall a n ws, ram_at Ram a (Z.of_nat n) -> ulPortInterruptNesting < a \/ a + 4 * Z.of_nat n <= ulPortInterruptNesting ->
    ulPortYieldRequired < a \/ a + 4 * Z.of_nat n <= ulPortYieldRequired -> length ws = n ->
    holds a ws v -> holds a ws v' /\ holds a ws (bus_wr ulPortYieldRequired 0 v')).
  { intros a n ws Hra Ho1 Ho2 <- Hws. unfold holds, v' in *.
    assert (E : peek_words a (length ws) (bus_wr ulPortInterruptNesting 0 (bus_wr eoir x v)) = ws).
    { rewrite (peek_words_wr Ram) by (done || by left). rewrite (peek_words_wr Ram) by (done || by right). exact Hws. }
    split; [exact E|]. rewrite (peek_words_wr Ram) by (done || by left). exact E. }
  destruct (Hk A 6%nat rs Ra2 ltac:(lia) ltac:(lia) Hl Hrs) as [Hrs1 Hrs2].
  destruct (Hk I 2%nat [w; ret] Ra3 ltac:(lia) ltac:(lia) eq_refl Hw) as [Hw1 Hw2]. clear Hk Hh.
  destruct (y =? 0) eqn:Ey; cbn [negb].
  - unfold exit_without_switch. rewrite bind_assoc.
    match goal with |- context [(pop_interrupted ≫= ?g) (Machine (Cpu ?R1 ?SP1 ?md ?F1 ?SC1 ?CP1 ?PC1) ?s)] =>
      destruct (pop_interrupted_run g A I rs w ret R1 SP1 F1 SC1 CP1 PC1 s) as (R' & Hrun & T1 & T2 & T3 & T4 & T5 & T6); try done;
      exists R', F1 end.
    split; [exact Hrun|]. split_and!; try done. intros b n Hs. rewrite T6 by done. untouched Hs.
  - unfold switch_before_exit, mov_imm, str, wr, rd.
    repeat (lazymatch goal with |- context [(pop_interrupted ≫= _) (Machine _ _)] => fail | |- _ => istep Ram end; norm_addr).
    change (u32 0) with 0.
    match goal with |- context [(pop_interrupted ≫= ?g) (Machine (Cpu ?R1 ?SP1 ?md ?F1 ?SC1 ?CP1 ?PC1) ?s)] =>
      destruct (pop_interrupted_run g A I rs w ret R1 SP1 F1 SC1 CP1 PC1 s) as (R' & Hrun & T1 & T2 & T3 & T4 & T5 & T6); try done;
      exists R', F1 end.
    split; [exact Hrun|]. split_and!; try done. intros b n Hs. rewrite T6 by done. untouched Hs.
Qed.
End irq.
