(* ===== verification/RtPreempt.v ===== *)
(** * FreeRTOS: interrupts while a task runs

    The interrupt handler of [portASM.S] as a whole, over the scheduler: the
    interrupted task goes on in the context it had, or is saved in it and
    another goes on. *)
From S2P Require Import Prelude.
From S2P Require Import Bus.
From S2P Require Import Arm.
From S2P Require Import Ttc.
From S2P Require Import RtTasks.
From S2P Require Import RtPort.
From S2P Require Import RtFrame.
From S2P Require Import RtSwitch.
From S2P Require Import RtYield.
From S2P Require Import RtIrq.

Local Open Scope Z_scope.

(** ** The application's handler, [tick.c]

    The acknowledge value names the interrupt: the timer's is the tick, which
    asks for a context switch when [xTaskIncrementTick] says so; for another the
    function installed for it runs, [other].  Gives whether [ulPortYieldRequired]
    is set. *)
Definition XSCUGIC_MAX_NUM_INTR_INPUTS : Z := 95.
Definition TICK_TIMER_INTR : Z := TTC1_TTCx_2_INTERRUPT.
Definition application_vApplicationIRQHandler (other : Z -> KM bool) (ulICCIAR : Z) : KM bool :=
  let ulInterruptID := Z.land ulICCIAR 0x3FF in
  if ulInterruptID <? XSCUGIC_MAX_NUM_INTR_INPUTS then
    if ulInterruptID =? TICK_TIMER_INTR then
      r ← xTaskIncrementTick; mret (negb (r =? pdFALSE))
    else other ulInterruptID
  else mret false.

(** Membership in an explicit list. *)
Ltac here := solve [repeat constructor].

Section preempt.
Context {S : Type} `{Bus S}.
Variable Ram : Z -> Prop.
Context `{!Storage S Ram}.
Variable sys_spsr : cpu -> Z.
Variable clobbered : nat -> cpu -> Z.
Variable clobbered_flags : cpu -> Z.
Variables current ulCriticalNesting ulPortTaskHasFPUContext ulICCPMR ulMaxAPIPriorityMask : Z.
Variables ulPortInterruptNesting ulICCIAR ulICCEOIR ulPortYieldRequired : Z.
Variables vApplicationIRQHandlerConst irq_return : Z.
Variable pmr : Z.
Variable K : Z -> Prop.
Variable encodes : kernel -> vfp S -> Prop.
Variable c_vTaskSwitchContext : M (vfp S) unit.
(** The interrupt handler the application has, in C, and the code linked as
    [vApplicationIRQHandler]. *)
Variable c_handler : Z -> M (vfp S) unit.
Variable app : M (machine (vfp S)) unit.
Variable ts : list Z.

#[local] Abbreviation SAVE := (portSAVE_CONTEXT current ulCriticalNesting ulPortTaskHasFPUContext).
#[local] Abbreviation RESTORE :=
  (portRESTORE_CONTEXT current ulCriticalNesting ulPortTaskHasFPUContext ulICCPMR ulMaxAPIPriorityMask).
#[local] Abbreviation BLX := (blx_vTaskSwitchContext clobbered clobbered_flags c_vTaskSwitchContext).
#[local] Abbreviation IRQ := (FreeRTOS_IRQ_Handler sys_spsr clobbered clobbered_flags current ulCriticalNesting
  ulPortTaskHasFPUContext ulICCPMR ulMaxAPIPriorityMask ulPortInterruptNesting ulICCIAR ulICCEOIR ulPortYieldRequired
  vApplicationIRQHandlerConst irq_return c_vTaskSwitchContext app).
#[local] Abbreviation in_context := (in_context ulCriticalNesting ulPortTaskHasFPUContext).
#[local] Abbreviation layout :=
  (layout Ram current ulCriticalNesting ulPortTaskHasFPUContext ulICCPMR ulMaxAPIPriorityMask pmr K ts).
#[local] Abbreviation system := (system ulICCPMR pmr encodes ts).
#[local] Abbreviation runs := (runs ulCriticalNesting ulPortTaskHasFPUContext ulICCPMR pmr encodes ts).
#[local] Abbreviation kernel_code := (kernel_code Ram current K encodes c_vTaskSwitchContext ts).
#[local] Abbreviation irq_space := (irq_space Ram ulPortInterruptNesting ulICCIAR ulICCEOIR ulPortYieldRequired).
#[local] Abbreviation variables := (variables current ulCriticalNesting ulPortTaskHasFPUContext ulICCPMR ulMaxAPIPriorityMask).

(** The kernel the interrupt finds, and what the application's handler does to
    it: with acknowledge value [x] and interrupts nested one deep it takes it
    to [k'] and leaves [y] in [ulPortYieldRequired]. *)
Variable k : kernel.
Variable handles : Z -> kernel -> Z -> Prop.
Record handler_code : Prop := {
  hc_run x v : encodes k v -> length (vregs v) = 64%nat -> peek ulPortInterruptNesting v = 1 ->
    exists k' y v', handles x k' y /\ c_handler x v = Ok tt v' /\ encodes k' v' /\ length (vregs v') = 64%nat /\
      peek ulPortYieldRequired v' = y /\
      (forall a, Ram a -> ~ K a -> a <> ulPortYieldRequired -> peek a v' = peek a v);
  hc_current x k' y : handles x k' y -> pxCurrentTCB k' = pxCurrentTCB k;
  (** Reading a device does not change the kernel's data. *)
  hc_read v a : encodes k v -> encodes k (after_rd a v)
}.

(** The application calls its handler [vApplicationFPUSafeIRQHandler], and the
    weak [vApplicationIRQHandler] of [portASM.S] calls it; or [vApplicationIRQHandler],
    which is then to leave the floating point registers alone. *)
Inductive linked : Prop :=
| linked_weak : app = vApplicationIRQHandler clobbered clobbered_flags irq_return c_handler -> linked
| linked_own : app = blx_handler clobbered clobbered_flags c_handler ->
    (forall x v v', c_handler x v = Ok tt v' -> vregs v' = vregs v /\ fpscr v' = fpscr v) -> linked.

(** The addresses the handler itself uses. *)
Definition irq_area (low A I a : Z) : Prop :=
  I <= a < I + 8 \/ low <= a < A + 24 \/ a ∈ [ulPortInterruptNesting; ulICCIAR; ulICCEOIR; ulPortYieldRequired].
Record irq_layout (X : Z -> context) (low A I : Z) (v : vfp S) : Prop := {
  il_space : irq_space low A I;
  il_frames t a : t ∈ ts -> in_frame (X t) a -> ~ irq_area low A I a;
  il_vars a : a ∈ variables ++ ts -> ~ irq_area low A I a;
  il_kernel a : irq_area low A I a -> ~ K a;
  il_nesting : peek ulPortInterruptNesting v = 0;
  il_eoir : ~ Ram (peek ulICCEOIR v) /\ ~ K (peek ulICCEOIR v);
  il_vregs : Forall is_u32 (vregs v) /\ is_u32 (fpscr v);
  il_return : is_u32 irq_return
}.

Hypothesis code : kernel_code.
Hypothesis handler : handler_code.
Hypothesis link : linked.

Lemma vregs_after_rd a (v : vfp S) : vregs (after_rd a v) = vregs v /\ fpscr (after_rd a v) = fpscr v.
Proof. unfold after_rd. cbn. by destruct (bus_rd a (vmem v)). Qed.

(** What the handler keeps on the stacks of IRQ and Supervisor mode while the
    application's part runs. *)
Definition entry_memory (low A I iar w ret lr : Z) (rs : list Z) (v : vfp S) : vfp S * Z :=
  let v0 := bus_wr ulPortInterruptNesting 1 (store_words A rs (store_words I [w] (store_words (I + 4) [ret] v))) in
  let x := peek iar v0 in
  (store_words (low + 264) [x; 0; Z.land A 4; ulPortInterruptNesting; 1; lr] (after_rd iar v0), x).

Lemma entry_memory_holds X low A I iar w ret lr rs v :
  irq_layout X low A I v -> encodes k v -> is_u32 w -> is_u32 ret -> Forall is_u32 rs -> length rs = 6%nat ->
  let v1 := fst (entry_memory low A I iar w ret lr rs v) in
  encodes k v1 /\ vregs v1 = vregs v /\ fpscr v1 = fpscr v /\
  (forall a, Ram a -> ~ irq_area low A I a -> peek a v1 = peek a v) /\
  peek ulICCEOIR v1 = peek ulICCEOIR v /\ peek ulPortInterruptNesting v1 = 1 /\
  holds (low + 264) [snd (entry_memory low A I iar w ret lr rs v); 0; Z.land A 4; ulPortInterruptNesting; 1; u32 lr] v1 /\
  holds A rs v1 /\ holds I [w; ret] v1 /\
  (exists v0, stores (irq_area low A I) v v0 /\ snd (entry_memory low A I iar w ret lr rs v) = peek iar v0).
Proof.
  intros [Hsp _ _ Hk Hn _ _ _] He Uw Ur Urs Hl. 
  destruct (id Hsp) as [(L0 & EA & L1 & I0 & I1) (Ra1 & Ra2 & Ra3) Hap Hv Hdist].
  pose proof (land4 A) as L4. unfold entry_memory. cbn [fst snd].
  set (vi := store_words I [w] (store_words (I + 4) [ret] v)).
  set (v0 := bus_wr ulPortInterruptNesting 1 (store_words A rs vi)).
  set (x := peek iar v0). set (v1 := store_words (low + 264) _ _).
  destruct (Hv ulPortInterruptNesting) as (N1 & N2 & N3 & N4); [rewrite !elem_of_cons; tauto|].
  set (P := fun a => I <= a < I + 8 \/ low <= a < A + 24 \/ a = ulPortInterruptNesting).
  assert (HP : forall a, P a -> irq_area low A I a).
  { intros a [Ha|[Ha| ->]]; [by left|right; by left|right; right; rewrite !elem_of_cons; tauto]. }
  assert (HPK : forall a, P a -> ~ K a) by (intros a Ha; by apply Hk, HP).
  assert (Hst0 : stores P v v0).
  { constructor; [right; by right|].
    apply (stores_trans _ _ vi); [|apply store_words_stores; rewrite ?Hl; [lia|lia|intros; right; left; lia]].
    apply (stores_trans _ _ (store_words (I + 4) [ret] v)); apply store_words_stores; cbn [length]; try lia; intros; left; lia. }
  assert (Hst1 : stores P (after_rd iar v0) v1).
  { apply store_words_stores; cbn [length]; [lia|lia|]. intros b Hb. right; left; lia. }
  assert (Hkeep : forall a, Ram a -> ~ P a -> peek a v1 = peek a v).
  { intros a Ra Na. rewrite (peek_stores Ram _ a _ _ Ra Na Hst1), storage_rd_ne by done. by apply (peek_stores Ram _ a _ _ Ra Na). }
  assert (Hheld : forall a n ws, ram_at Ram a (Z.of_nat n) -> length ws = n ->
    a + 4 * Z.of_nat n <= low + 264 \/ low + 288 <= a -> holds a ws v0 -> holds a ws v1).
  { intros a n ws Hra <- Ho Hh. unfold v1. refine (holds_other _ _ v0 _ _ Hh). intros i Hi.
    destruct (id Hra) as (H0 & H1 & Hin). assert (Ri : Ram (a + 4 * Z.of_nat i)) by (apply Hin; lia).
    rewrite (peek_store_words_out Ram) by (cbn [length]; lia || done). by rewrite storage_rd_ne. }
  assert (Hd0 : forall a n ws, ram_at Ram a (Z.of_nat n) -> length ws = n ->
    ulPortInterruptNesting < a \/ a + 4 * Z.of_nat n <= ulPortInterruptNesting -> holds a ws (store_words A rs vi) -> holds a ws v0).
  { intros a n ws Hra <- Ho Hh. unfold holds, v0 in *. rewrite (peek_words_wr Ram); [exact Hh|exact Hra|by left]. }
  split_and!.
  - apply (kc_stores _ _ _ _ _ _ code k (after_rd iar v0)); [exact (stores_mono _ _ _ _ HPK Hst1)|]. apply (hc_read handler).
    apply (kc_stores _ _ _ _ _ _ code k v); [exact (stores_mono _ _ _ _ HPK Hst0)|exact He].
  - unfold v1. rewrite (proj1 (vregs_store _ _ _)), (proj1 (vregs_after_rd _ _)). unfold v0, vi. cbn [vregs bus_wr vfp_bus].
    by rewrite !(proj1 (vregs_store _ _ _)).
  - unfold v1. rewrite (proj2 (vregs_store _ _ _)), (proj2 (vregs_after_rd _ _)). unfold v0, vi. cbn [fpscr bus_wr vfp_bus].
    by rewrite !(proj2 (vregs_store _ _ _)).
  - intros a Ra Na. apply Hkeep; [done|]. by intros Ha%HP.
  - destruct (Hv ulICCEOIR) as (E1 & E2 & E3 & E4); [rewrite !elem_of_cons; tauto|]. apply Hkeep; [done|].
    intros [?|[?|E]]; [lia|lia|]. rewrite !NoDup_cons, !elem_of_cons in Hdist. intuition congruence.
  - unfold v1. rewrite (peek_store_words_out Ram), storage_rd_ne by (cbn [length]; lia || done). by apply storage_wr_eq.
  - unfold holds, v1. etransitivity; [apply (peek_words_store_in Ram (low + 264) [x; 0; Z.land A 4; ulPortInterruptNesting; 1; lr]);
      cbn [length]; ram|]. cbn [fmap list_fmap].
    rewrite (u32_small x), (u32_small (Z.land A 4)), (u32_small ulPortInterruptNesting) by
      (apply peek_u32 || (unfold is_u32; lia)). done.
  - apply (Hheld A 6%nat); [done|done|lia|]. apply (Hd0 A 6%nat); [done|done|lia|].
    unfold holds. rewrite (peek_words_store_in Ram) by (by rewrite Hl). by apply u32_words.
  - apply (Hheld I 2%nat); [done|done|lia|]. apply (Hd0 I 2%nat); [done|done|lia|]. unfold holds.
    rewrite (peek_words_store_out Ram) by (rewrite ?Hl; cbn [length]; done || lia).
    apply (holds_push Ram I [w] [ret]); [by constructor|done|]. cbn [length].
    unfold holds. rewrite (peek_words_store_in Ram) by (cbn [length]; ram). cbn. by rewrite u32_small.
  - exists v0. split; [exact (stores_mono _ _ _ _ HP Hst0)|done].
Qed.

Lemma irq_distinct low A I : irq_space low A I ->
  ulPortInterruptNesting <> ulICCIAR /\ ulPortInterruptNesting <> ulICCEOIR /\
  ulPortInterruptNesting <> ulPortYieldRequired /\ ulICCEOIR <> ulPortYieldRequired.
Proof. intros [_ _ _ _ Hd]. rewrite !NoDup_cons, !elem_of_cons in Hd. tauto. Qed.

(** What the call of the application's part leaves alone, and what the handler
    finds again after it. *)
Definition left_alone (low : Z) (v1 v3 : vfp S) : Prop :=
  forall a, Ram a -> ~ K a -> a <> ulPortYieldRequired -> a < low \/ low + 264 <= a -> peek a v3 = peek a v1.

Lemma left_alone_call low v1 va vb v3 :
  stores (fun a => low <= a < low + 264) v1 va ->
  (forall a, Ram a -> ~ K a -> a <> ulPortYieldRequired -> peek a vb = peek a va) ->
  stores (fun _ => False) vb v3 -> left_alone low v1 v3.
Proof.
  intros H1 Hc H3 a Ra Ka Ya Oa. transitivity (peek a vb); [exact (peek_stores Ram _ a vb v3 Ra (fun Hf => Hf) H3)|].
  rewrite Hc by done. refine (peek_stores Ram _ a v1 va Ra _ H1). lia.
Qed.

Lemma left_alone_holds low a ws v1 v3 :
  left_alone low v1 v3 -> ram_at Ram a (Z.of_nat (length ws)) ->
  (forall b, a <= b < a + 4 * Z.of_nat (length ws) -> ~ K b /\ b <> ulPortYieldRequired /\ (b < low \/ low + 264 <= b)) ->
  holds a ws v1 -> holds a ws v3.
Proof.
  intros Hl Hra Ho Hws. refine (holds_other _ _ v1 v3 _ Hws). intros i Hi. destruct Hra as (_ & _ & Hin).
  destruct (Ho (a + 4 * Z.of_nat i)) as (O1 & O2 & O3); [lia|]. apply Hl; [apply Hin; lia|done..].
Qed.

Lemma stacks_apart X low A I v b : irq_layout X low A I v -> I <= b < I + 8 \/ low <= b < A + 24 ->
  ~ K b /\ b <> ulPortYieldRequired.
Proof.
  intros Hil Hb. split; [apply (il_kernel _ _ _ _ _ Hil); destruct Hb; [by left|right; by left]|].
  destruct (is_vars _ _ _ _ _ _ _ _ (il_space _ _ _ _ _ Hil) ulPortYieldRequired ltac:(here)) as (_ & _ & H1 & H2). lia.
Qed.

Lemma symbol_area low A I a : a ∈ [ulPortInterruptNesting; ulICCIAR; ulICCEOIR; ulPortYieldRequired] -> irq_area low A I a.
Proof. intros Ha. right. by right. Qed.

(** The memory when the handler leaves. *)
Definition exit_memory (eoir x y : Z) (v : vfp S) : vfp S :=
  let v' := bus_wr ulPortInterruptNesting 0 (bus_wr eoir x v) in if y =? 0 then v' else bus_wr ulPortYieldRequired 0 v'.

Lemma exit_memory_keeps X low A I v eoir x y v3 : irq_layout X low A I v -> ~ Ram eoir -> ~ K eoir ->
  let v5 := exit_memory eoir x y v3 in
  stores (fun a => ~ K a) v3 v5 /\ vregs v5 = vregs v3 /\ fpscr v5 = fpscr v3 /\
  (forall a, Ram a -> ~ irq_area low A I a -> peek a v5 = peek a v3) /\ peek ulPortInterruptNesting v5 = 0 /\
  (peek ulPortYieldRequired v3 = y -> peek ulPortYieldRequired v5 = 0) /\
  stores (fun a => a = ulPortInterruptNesting \/ a = ulPortYieldRequired) (bus_wr eoir x v3) v5.
Proof.
  intros Hil Re Ke v5. pose proof (irq_distinct _ _ _ (il_space _ _ _ _ _ Hil)) as (_ & _ & Dy & _).
  assert (Kn : ~ K ulPortInterruptNesting) by (apply (il_kernel _ _ _ _ _ Hil), symbol_area; here).
  assert (Ky : ~ K ulPortYieldRequired) by (apply (il_kernel _ _ _ _ _ Hil), symbol_area; here).
  destruct (is_vars _ _ _ _ _ _ _ _ (il_space _ _ _ _ _ Hil) ulPortInterruptNesting ltac:(here)) as (Rn & _).
  destruct (is_vars _ _ _ _ _ _ _ _ (il_space _ _ _ _ _ Hil) ulPortYieldRequired ltac:(here)) as (Ry & _).
  unfold v5, exit_memory. split_and!.
  - destruct (y =? 0); repeat (constructor; [done|]); constructor.
  - by destruct (y =? 0).
  - by destruct (y =? 0).
  - intros a Ra Na. assert (Hn : a <> ulPortInterruptNesting) by (intros ->; apply Na, symbol_area; here).
    assert (Hy : a <> ulPortYieldRequired) by (intros ->; apply Na, symbol_area; here).
    assert (He : eoir <> a) by (by intros ->).
    destruct (y =? 0); rewrite ?(storage_wr_ne a) by (done || congruence); done.
  - destruct (y =? 0); [|rewrite (storage_wr_ne ulPortInterruptNesting) by (done || congruence)]; by apply storage_wr_eq.
  - intros Ey. destruct (Z.eqb_spec y 0) as [E|]; [|by apply storage_wr_eq].
    rewrite !(storage_wr_ne ulPortYieldRequired) by first [done | congruence | by intros ->]. congruence.
  - destruct (y =? 0); repeat (constructor; [tauto|]); constructor.
Qed.

(** The call: the application's part from [v1] on, with the stack in use. *)
Definition called (low x : Z) (va vb : vfp S) : Prop :=
  exists kh, handles x kh (peek ulPortYieldRequired vb) /\ encodes kh vb /\
    forall a, Ram a -> ~ K a -> a <> ulPortYieldRequired -> peek a vb = peek a va.

Lemma call_run X low A I x v v1 : irq_layout X low A I v -> encodes k v1 -> length (vregs v1) = 64%nat ->
  peek ulPortInterruptNesting v1 = 1 ->
  c_runs Ram c_handler low x (called low x) v1.
Proof.
  intros Hil He Hl Hn va Hst Hva. destruct (is_low _ _ _ _ _ _ _ _ (il_space _ _ _ _ _ Hil)) as (L0 & EA & _). pose proof (land4 A) as L4.
  destruct (is_vars _ _ _ _ _ _ _ _ (il_space _ _ _ _ _ Hil) ulPortInterruptNesting ltac:(here)) as (Rn & _ & _ & On).
  destruct (hc_run handler x va) as (kh & y & vb & H1 & H2 & H3 & H4 & H5 & H6); [|by rewrite Hva| |].
  { apply (kc_stores _ _ _ _ _ _ code k v1); [|done]. refine (stores_mono _ _ _ _ _ Hst).
    intros a Ha. apply (stacks_apart X low A I v a Hil). lia. }
  { rewrite <- Hn. refine (peek_stores Ram _ _ v1 va Rn _ Hst). lia. }
  exists vb. split_and!; [done|done| |].
  - intros a Ra Ha. destruct (stacks_apart X low A I v a Hil); [lia|]. by apply H6.
  - exists kh. rewrite H5. by split_and!.
Qed.

Lemma linked_runs X low A I x v v1 : irq_layout X low A I v -> encodes k v1 -> vregs v1 = vregs v -> fpscr v1 = fpscr v ->
  length (vregs v) = 64%nat -> peek ulPortInterruptNesting v1 = 1 -> handler_runs irq_return app low x (called low x) v1.
Proof.
  intros Hil He Hv Hf Hl Hn. destruct (is_low _ _ _ _ _ _ _ _ (il_space _ _ _ _ _ Hil)) as (L0 & EA & L1 & _). pose proof (land4 A) as L4.
  destruct (is_ram _ _ _ _ _ _ _ _ (il_space _ _ _ _ _ Hil)) as (Ra & _).
  assert (Hc : c_runs Ram c_handler low x (called low x) v1) by (apply (call_run X low A I x v); congruence).
  destruct link as [-> | -> Hfp].
  - apply (vApplicationIRQHandler_runs Ram); [lia|lia|ram|exact (il_return _ _ _ _ _ Hil)|congruence| | |done].
    + rewrite Hv. apply (il_vregs _ _ _ _ _ Hil).
    + rewrite Hf. apply (il_vregs _ _ _ _ _ Hil).
  - apply (blx_handler_runs Ram); [by apply Hfp|done].
Qed.

(** The registers of the interrupted task. *)
Lemma same_registers (R1 R2 R R' : bank -> nat -> Z) :
  R' Usr <$> used = R Usr <$> used -> (forall b n, touched b n = false -> R' b n = R2 b n) ->
  (forall b n, scratch b n = false -> R2 b n = R1 b n) -> (forall b n, touched b n = false -> R1 b n = R b n) ->
  forall n, R' Usr n = R Usr n.
Proof.
  intros T1 T6 Hr2 S5 n. destruct (touched Usr n) eqn:En.
  - apply bool_decide_eq_true in En. cbn in T1. injection T1 as U0 U1 U2 U3 U4 U5. unfold used in En.
    rewrite !elem_of_cons, elem_of_nil in En. by destruct En as [->|[->|[->|[->|[->|[->|[]]]]]]].
  - rewrite T6, Hr2, S5; try done. cbn in En |- *. apply bool_decide_eq_false in En. apply bool_decide_eq_false.
    intros Hin. apply En. unfold used. rewrite !elem_of_cons in *. tauto.
Qed.

(** [x] is what ICCIAR gives when the handler reads it, after it has stored to
    its own memory only. *)
Definition acknowledged (low A I : Z) (v : vfp S) (x : Z) : Prop :=
  exists v0, stores (irq_area low A I) v v0 /\ x = peek (peek ulICCIAR v) v0.

(** The state after the handler, before the branch: the interrupted context
    in IRQ mode, as an exception from the task would leave it. *)
Lemma handler_run {B} (f : unit -> M (machine (vfp S)) B) X low A I ret w R SP F SC CP PC v :
  irq_layout X low A I v -> encodes k v -> length (vregs v) = 64%nat ->
  R Irq 13%nat = I + 8 -> R Svc 13%nat = A + 24 -> sub32 (R Irq 14%nat) 4 = ret -> SP Irq = w ->
  is_u32 ret -> is_u32 w -> Forall is_u32 (R Usr <$> used) ->
  exists x kh y R' F' v',
    acknowledged low A I v x /\ handles x kh y /\
    (IRQ ≫= f) (Machine (Cpu R SP IRQ_MODE F SC CP PC) v) =
      ((if y =? 0 then movs_pc_lr else SAVE ;; BLX ;; RESTORE) ≫= f)
        (Machine (Cpu R' (upd_spsr Irq w SP) IRQ_MODE F' SC CP PC) v') /\
    (forall n, R' Usr n = R Usr n) /\ R' Irq 14%nat = ret /\ R' Svc 13%nat = A + 24 /\ R' Irq 13%nat = I + 8 /\
    encodes kh v' /\ vregs v' = vregs v /\ fpscr v' = fpscr v /\
    (forall a, Ram a -> ~ K a -> ~ irq_area low A I a -> peek a v' = peek a v) /\
    peek ulPortInterruptNesting v' = 0 /\ peek ulPortYieldRequired v' = 0 /\
    exists vh, encodes kh vh /\
      stores (fun a => a = ulPortInterruptNesting \/ a = ulPortYieldRequired) (bus_wr (peek ulICCEOIR v) x vh) v'.
Proof.
  intros Hil He Hlen HI HA Hlr Hw Uret Uw Uregs.
  pose proof (il_space _ _ _ _ _ Hil) as Hsp. pose proof (il_nesting _ _ _ _ _ Hil) as Hn.
  destruct (is_low _ _ _ _ _ _ _ _ Hsp) as (L0 & EA & L1 & I0 & I1). pose proof (land4 A) as L4.
  destruct (is_ram _ _ _ _ _ _ _ _ Hsp) as (Ra1 & Ra2 & Ra3). pose proof (is_apart _ _ _ _ _ _ _ _ Hsp) as Hap.
  unfold FreeRTOS_IRQ_Handler. rewrite bind_assoc.
  match goal with |- context [(irq_prologue _ _ _ _ _ ≫= ?g) _] =>
    destruct (irq_prologue_run Ram sys_spsr ulPortInterruptNesting ulICCIAR ulICCEOIR ulPortYieldRequired
      vApplicationIRQHandlerConst irq_return g low A I _ ret R SP F SC CP PC v Hsp HI HA Hlr Hn eq_refl)
      as (R1 & -> & S1 & S2 & S3 & S4 & S5) end.
  rewrite Hw in *. set (lr := R Svc 14%nat).
  destruct (entry_memory_holds X low A I (peek ulICCIAR v) w ret lr (R Usr <$> used) v Hil He Uw Uret Uregs eq_refl)
    as (He1 & Hv1 & Hf1 & Hkeep1 & Heo1 & Hn1 & G1 & G2 & G3 & Hack).
  unfold entry_memory in *. cbn [fst snd] in *.
  set (v0 := bus_wr ulPortInterruptNesting 1 _) in *. set (x := peek (peek ulICCIAR v) v0) in *.
  set (v1 := store_words (low + 264) _ _) in *. clearbody v0. assert (Ux : is_u32 x) by apply peek_u32. clearbody x v1.
  rewrite bind_assoc.
  match goal with |- context [(app ≫= ?g) _] =>
    destruct (linked_runs X low A I x v v1 Hil He1 Hv1 Hf1 Hlen Hn1 B g R1 SP F SC CP PC S1 S4 S2)
      as (R2 & F2 & va & vb & v3 & -> & Hst1 & (kh & Hh & Hkh & Hkeep) & Hst2 & Hvr & Hfp & Hr2) end.
  pose proof (left_alone_call low v1 va vb v3 Hst1 Hkeep Hst2) as Hla. clear Hkeep Hst1.
  assert (Ky : peek ulPortYieldRequired v3 = peek ulPortYieldRequired vb).
  { destruct (is_vars _ _ _ _ _ _ _ _ Hsp ulPortYieldRequired ltac:(here)) as (Ry & _).
    exact (peek_stores Ram _ _ vb v3 Ry (fun Hf => Hf) Hst2). }
  assert (Heo : peek ulICCEOIR v3 = peek ulICCEOIR v).
  { rewrite <- Heo1. destruct (is_vars _ _ _ _ _ _ _ _ Hsp ulICCEOIR ltac:(here)) as (Re & _ & _ & Oe).
    apply Hla; [done|apply (il_kernel _ _ _ _ _ Hil), symbol_area; here|apply (irq_distinct _ _ _ Hsp)|lia]. }
  destruct (il_eoir _ _ _ _ _ Hil) as [Neo Keo]. rewrite <- Heo in Neo, Keo.
  destruct (irq_epilogue_run Ram clobbered clobbered_flags current ulCriticalNesting ulPortTaskHasFPUContext ulICCPMR
    ulMaxAPIPriorityMask ulPortInterruptNesting ulICCIAR ulICCEOIR ulPortYieldRequired c_vTaskSwitchContext f low A I
    (peek ulICCEOIR v3) x w ret (u32 lr) (R Usr <$> used) R2 SP F2 SC CP PC v3) as (R' & F' & -> & T1 & T2 & T3 & T4 & _ & T6);
    [done|by rewrite Hr2|by rewrite Hr2|done|done|done|done|..].
  1-3: (eapply left_alone_holds; [exact Hla|first [exact Ra2|exact Ra3|cbn [length]; ram]| |eassumption]); intros b Hb; cbn [length fmap list_fmap used] in Hb;
    (destruct (stacks_apart X low A I v b Hil); [lia|]); split_and!; [done|done|lia].
  fold (exit_memory (peek ulICCEOIR v3) x (peek ulPortYieldRequired v3) v3). rewrite Ky.
  destruct (exit_memory_keeps X low A I v (peek ulICCEOIR v3) x (peek ulPortYieldRequired vb) v3 Hil Neo Keo) as (Q1 & Q2 & Q3 & Q4 & Q5 & Q6 & Q7).
  assert (Hk3 : encodes kh v3).
  { apply (kc_stores _ _ _ _ _ _ code kh vb); [|done].
    exact (stores_mono _ _ _ _ (fun a (Hf : False) => False_ind _ Hf) Hst2). }
  eexists x, kh, _, R', F', _. split; [exact Hack|]. split; [exact Hh|]. split; [reflexivity|]. split.
  { apply (same_registers R1 R2); done. }
  do 3 (split; [done|]). split.
  { by apply (kc_stores _ _ _ _ _ _ code kh v3); [exact Q1|]. }
  split; [congruence|]. split; [congruence|]. split.
  2:{ split; [exact Q5|]. split; [exact (Q6 Ky)|]. exists v3. split; [exact Hk3|]. rewrite <- Heo. exact Q7. }
  intros a Ra Ka Na. rewrite Q4 by done. rewrite Hla; [by apply Hkeep1|done|done| |].
  - intros ->. apply Na, symbol_area; here.
  - unfold irq_area in Na. lia.
Qed.

Section task.
Variable X : Z -> context.
Hypothesis lay : layout X.
#[local] Abbreviation same_elsewhere := (same_elsewhere Ram current ulCriticalNesting ulPortTaskHasFPUContext ulICCPMR
  ulMaxAPIPriorityMask K ts X).
#[local] Abbreviation elsewhere := (elsewhere Ram current ulCriticalNesting ulPortTaskHasFPUContext ulICCPMR
  ulMaxAPIPriorityMask K ts X).

(** The handler leaves the tasks as they are. *)
Lemma handled_runs low A I kh v v' R R' :
  irq_layout X low A I v -> system X k v -> in_context (X (pxCurrentTCB k)) R v ->
  pxCurrentTCB kh = pxCurrentTCB k -> (forall n, R' Usr n = R Usr n) ->
  encodes kh v' -> vregs v' = vregs v -> fpscr v' = fpscr v ->
  (forall a, Ram a -> ~ K a -> ~ irq_area low A I a -> peek a v' = peek a v) ->
  system X kh v' /\ in_context (X (pxCurrentTCB kh)) R' v'.
Proof.
  intros Hil [Hk Ht Hv Hp Ho] (C1 & C2 & C3 & C4 & C5) Ec HR Hk' Hv' Hf' Hkeep. rewrite Ec.
  assert (Hsym : forall a, a ∈ tail variables -> peek a v' = peek a v).
  { intros a Ha. assert (Hin : a ∈ variables ++ ts) by (apply elem_of_app; left; by constructor).
    apply Hkeep; [by apply (ly_memory _ _ _ _ _ _ _ _ _ _ lay)| |by apply (il_vars _ _ _ _ _ Hil)].
    apply (ly_kernel _ _ _ _ _ _ _ _ _ _ lay), elem_of_app. by left. }
  split.
  - constructor; rewrite ?Ec; [done|done|congruence|rewrite Hsym by here; done|].
    intros t Ht' Hne. apply (saved_kept Ram X t v); [by apply (ly_context _ _ _ _ _ _ _ _ _ _ lay)| | |by apply Ho].
    + apply (ly_memory _ _ _ _ _ _ _ _ _ _ lay), elem_of_app. by right.
    + intros a Ra [->|Ha]; apply Hkeep; try done.
      * apply (ly_kernel _ _ _ _ _ _ _ _ _ _ lay), elem_of_app. by right.
      * apply (il_vars _ _ _ _ _ Hil), elem_of_app. by right.
      * by apply (ly_frames _ _ _ _ _ _ _ _ _ _ lay t).
      * by apply (il_frames _ _ _ _ _ Hil t).
  - split_and!.
    + rewrite <- C1. apply list_fmap_ext. intros i n _. apply HR.
    + by rewrite HR.
    + rewrite Hsym by here. done.
    + rewrite Hsym by here. done.
    + rewrite Hv', Hf'. done.
Qed.

Lemma context_u32 t : t ∈ ts -> is_u32 (cx_pc (X t)) /\ is_u32 (cx_cpsr (X t)) /\ Forall is_u32 (cx_regs (X t)).
Proof.
  intros Ht. destruct (ly_context _ _ _ _ _ _ _ _ _ _ lay t Ht) as [_ _ Hw _ _ _]. unfold saved_words in Hw.
  rewrite Forall_cons, Forall_app, Forall_cons, Forall_app, !Forall_cons in Hw. tauto.
Qed.

Lemma upd_spsr_eq b w (f : bank -> Z) : upd_spsr b w f b = w.
Proof. unfold upd_spsr. by destruct b. Qed.

(** [movs pc, lr] from IRQ mode. *)
Lemma movs_run {B} (f : unit -> M (machine (vfp S)) B) R SP F SC CP PC v w :
  SP Irq = w -> decode_mode w = Some SYSTEM_MODE ->
  (movs_pc_lr ≫= f) (Machine (Cpu R SP IRQ_MODE F SC CP PC) v) =
    f tt (Machine (Cpu R SP SYSTEM_MODE (Z.land w 0xFFFFFFE0) SC CP (R Irq 14%nat)) v).
Proof.
  intros Hw Hd. unfold movs_pc_lr, rd. rewrite bind_assoc.
  match goal with |- context [(from_cpu ?g ≫= ?f) (Machine ?c ?s)] =>
    let x := cpu_val (g c) in rewrite (from_cpu_run g f c s x eq_refl) end.
  by rewrite (eret_run _ _ _ _ w SYSTEM_MODE).
Qed.

(** The end of the interrupt: with the kernel as the application's handler left
    it, [x] is stored to the end-of-interrupt register; after that the memory
    and the priority mask register are stored to, and no other device, but for
    what [vTaskSwitchContext] does. *)
Definition own_area (low A I a : Z) : Prop :=
  exchange_area current ulCriticalNesting ulPortTaskHasFPUContext ulICCPMR ulMaxAPIPriorityMask pmr ts X a \/ irq_area low A I a.
Definition ended (low A I eoir x : Z) (kh : kernel) (switched : bool) (v' : vfp S) : Prop :=
  exists vh ve, encodes kh vh /\ stores (own_area low A I) (bus_wr eoir x vh) ve /\
    if switched then exists vs, c_vTaskSwitchContext ve = Ok tt vs /\ stores (own_area low A I) vs v' else v' = ve.

(** The handler's variables are none of the places the tasks and the kernel
    use. *)
Lemma symbol_elsewhere low A I v a : irq_layout X low A I v ->
  a ∈ [ulPortInterruptNesting; ulICCIAR; ulICCEOIR; ulPortYieldRequired] -> elsewhere a.
Proof.
  intros Hil Ha. pose proof (symbol_area low A I a Ha) as Hs. split_and!.
  - by apply (is_vars _ _ _ _ _ _ _ _ (il_space _ _ _ _ _ Hil) a Ha).
  - by apply (il_kernel _ _ _ _ _ Hil).
  - intros Hv. by apply (il_vars _ _ _ _ _ Hil a Hv).
  - intros t Ht Hf. by apply (il_frames _ _ _ _ _ Hil t a Ht Hf).
Qed.

(** C9: a task does not see interrupts.  An interrupt taken while a task runs
    goes through [FreeRTOS_IRQ_Handler], which acknowledges it, calls the
    application's handler with interrupts nested one deep and signals its end;
    if the handler asked for no switch, the interrupted task goes on with every
    register, flag and floating point register as it was; if it did, the task
    is left saved in exactly that context and the task [vTaskSwitchContext]
    chooses goes on in its own.  The end-of-interrupt register has been given
    the number that was acknowledged, after the application's handler and before
    any switch; the nesting count is back at 0, so that the next interrupt can
    switch again, the request for a switch is cleared, the stack pointers of
    the exception modes are where they were, and the memory that is neither the
    kernel's nor a stack is untouched. *)
Theorem FreeRTOS_IRQ_Handler_preempts low A I c v :
  irq_layout X low A I v -> runs X k c v -> regs c Irq 13%nat = I + 8 -> regs c Svc 13%nat = A + 24 ->
  exists x kh y, acknowledged low A I v x /\ handles x kh y /\
    forall k', (if y =? 0 then k' = kh else vTaskSwitchContext kh = Ok tt k' /\ pxCurrentTCB k' ∈ ts) ->
    exists c' v',
      (enter IRQ_MODE IRQ_BIT 4 ;; IRQ) (Machine c v) = Ok tt (Machine c' v') /\ runs X k' c' v' /\
      regs c' Irq 13%nat = I + 8 /\ regs c' Svc 13%nat = A + 24 /\
      peek ulPortInterruptNesting v' = 0 /\ peek ulPortYieldRequired v' = 0 /\
      ended low A I (peek ulICCEOIR v) x kh (negb (y =? 0)) v' /\
      (forall a, elsewhere a -> ~ irq_area low A I a -> peek a v' = peek a v).
Proof.
  intros Hil [Hsys Hm Hcp Hpc Hcx] HI HA. set (t := pxCurrentTCB k) in *.
  pose proof (sy_task _ _ _ _ _ _ _ Hsys) as Ht. destruct (context_u32 t Ht) as (Up & Uc & Ur).
  destruct c as [R SP md F SC CP PC]. cbn [cmode regs pc] in *. subst md.
  set (R0 := upd_reg Irq 14 (add32 PC 4) R). set (w := cx_cpsr (X t)) in *.
  assert (Uregs : Forall is_u32 (R0 Usr <$> used)).
  { destruct Hcx as (C1 & _). rewrite <- C1 in Ur. cbn [r0_r12_r14 fmap list_fmap] in Ur. rewrite !Forall_cons in Ur.
    change (R0 Usr <$> used) with (R Usr <$> used). cbn [used fmap list_fmap]. rewrite !Forall_cons, Forall_nil. tauto. }
  destruct (handler_run mret X low A I PC w R0 (upd_spsr Irq w SP) (Z.lor (bic32 F 0x0700FE20) IRQ_BIT) SC CP PC v)
    as (x & kh & y & R' & F' & v' & Hack & Hh & Hrun & HR & H14 & HA' & HI' & Hkh & Hvr & Hfp & Hkeep & Hn & Hy & vh & Hvh & Hst);
    [done|apply Hsys|apply Hsys|done|done| |done|by rewrite Hpc|done|done|].
  { unfold R0. rewrite upd_reg_eq. unfold add32, sub32, u32. rewrite Zminus_mod_idemp_l. rewrite Z.add_simpl_r.
    apply Z.mod_small. by rewrite Hpc. }
  pose proof (hc_current handler x kh y Hh) as Ec.
  destruct (handled_runs low A I kh v v' R R' Hil Hsys Hcx Ec HR Hkh Hvr Hfp Hkeep) as [Hsys' Hcx'].
  exists x, kh, y. split; [done|]. split; [done|]. intros k' Hk'.
  assert (Hent : (enter IRQ_MODE IRQ_BIT 4 ;; IRQ) (Machine (Cpu R SP SYSTEM_MODE F SC CP PC) v) =
    ((if y =? 0 then movs_pc_lr else SAVE ;; BLX ;; RESTORE) ≫= mret)
        (Machine (Cpu R' (upd_spsr Irq w (upd_spsr Irq w SP)) IRQ_MODE F' SC CP PC) v')).
  { unfold enter.
    match goal with |- context [(on_cpu ?g ≫= ?f) (Machine ?c ?s)] =>
      let c' := cpu_eval (g c) in rewrite (on_cpu_run g f c s c' eq_refl) end.
    rewrite <- Hrun, bind_ret_r. rewrite <- Hcp. reflexivity. }
  assert (Hst' : stores (own_area low A I) (bus_wr (peek ulICCEOIR v) x vh) v').
  { refine (stores_mono _ _ _ _ _ Hst). intros a Ha. right. apply symbol_area. destruct Ha as [->| ->]; here. }
  rewrite Hent. destruct (y =? 0); cbn [negb].
  - subst k'. rewrite (movs_run _ _ _ _ _ _ _ _ w); [|by rewrite upd_spsr_eq|apply (ly_context _ _ _ _ _ _ _ _ _ _ lay t Ht)].
    eexists _, v'. split; [reflexivity|]. split.
    2:{ split_and!; try done; [by exists vh, v'|]. intros a (Ra & Ka & _) Na; by apply Hkeep. }
    constructor; rewrite ?Ec; cbn [cmode cpsr pc regs cflags]; fold t; [done|done| |by rewrite H14|by rewrite Ec in Hcx'].
    by apply cpsr_split; [|apply (ly_context _ _ _ _ _ _ _ _ _ _ lay t Ht)].
  - destruct Hk' as [Hsw Ht'].
    match goal with |- context [(_ ≫= mret) (Machine (Cpu ?R1 ?SP1 ?md ?F1 ?SC1 ?CP1 ?PC1) ?v1)] =>
      destruct (exchange_run Ram clobbered clobbered_flags current ulCriticalNesting ulPortTaskHasFPUContext ulICCPMR
        ulMaxAPIPriorityMask pmr K encodes c_vTaskSwitchContext ts code X lay mret kh k' R1 SP1 md F1 SC1 CP1 PC1 v1)
        as (c' & v4 & -> & Hruns & _ & He & _ & Hb & va & vs & Hsa & Hsv & Hss);
        [by right|done|done|cbn [mode_bank]; rewrite Ec; fold t; by rewrite H14
        |cbn [mode_bank]; rewrite Ec; fold t; by rewrite upd_spsr_eq|done|done|] end.
    exists c', v4. split; [reflexivity|]. split; [done|].
    split_and!; [by rewrite Hb|by rewrite Hb|rewrite He; [done|apply (symbol_elsewhere low A I v); [done|here]]..| |].
    { exists vh, va. split; [done|]. split; [|exists vs; split; [done|]].
      - apply (stores_trans _ _ v'); [done|]. refine (stores_mono _ _ _ _ _ Hsa). intros a Ha. by left.
      - refine (stores_mono _ _ _ _ _ Hss). intros a Ha. by left. }
    intros a Ha Na. rewrite He by done. destruct Ha as (Ra & Ka & _). by apply Hkeep.
Qed.
End task.
End preempt.
