(* ===== verification/RtPortDemo.v ===== *)
(** * FreeRTOS: context switches of the concrete system

    The system of [RtDemo] with its tasks' frames in memory: the theorems on
    the assembly code applied to it. *)
From S2P Require Import Prelude.
From S2P Require Import Bus.
From S2P Require Import Arm.
From S2P Require Import RtTasks.
From S2P Require Import RtTick.
From S2P Require Import RtLive.
From S2P Require Import RtPort.
From S2P Require Import RtFrame.
From S2P Require Import RtSwitch.
From S2P Require Import RtYield.
From S2P Require Import RtCreate.
From S2P Require Import RtStack.
From S2P Require Import RtFirst.
From S2P Require Import RtIrq.
From S2P Require Import RtPreempt.
From S2P Require Import RtDemo.

Local Open Scope Z_scope.

(** ** A memory with a kernel beside it *)
Definition kernel_memory : Type := kernel * regfile.

#[export] Instance kernel_memory_bus : Bus kernel_memory := {
  bus_rd a p := let '(x, m) := bus_rd a (snd p) in (x, (fst p, m));
  bus_wr a x p := (fst p, bus_wr a x (snd p))
}.
#[export] Instance kernel_memory_storage P : Storage kernel_memory P.
Proof.
  constructor; unfold peek, after_rd; cbn; intros; try done; [by destruct s| |].
  - rewrite lookup_insert_eq. cbn. by apply u32_small.
  - by rewrite lookup_insert_ne by done.
Qed.

(** Addresses of the variables, of the priority mask register and of the
    frames. *)
Definition at_current : Z := 0x180000.
Definition at_nesting : Z := 0x180004.
Definition at_flag : Z := 0x180008.
Definition at_iccpmr : Z := 0x18000C.
Definition at_mask : Z := 0x180010.
Definition at_pmr : Z := 0xF8F00104.
Definition at_irq_nesting : Z := 0x180014.
Definition at_icciar : Z := 0x180018.
Definition at_icceoir : Z := 0x18001C.
Definition at_yield : Z := 0x180020.
(** The devices are above the memory. *)
Definition demo_ram (a : Z) : Prop := a < 0xF8F00000.
Definition demo_ts : list Z := [demo_first; demo_second; demo_idle].

(** The kernel's data in memory is the word that names the running task. *)
Definition demo_data (a : Z) : Prop := a = at_current.
Definition demo_encodes (k : kernel) (v : vfp kernel_memory) : Prop :=
  fst (vmem v) = k /\ peek at_current v = pxCurrentTCB k.

Definition demo_switch : M (vfp kernel_memory) unit := fun v =>
  match vTaskSwitchContext (fst (vmem v)) with
  | Ok _ k => Ok tt (Vfp (vregs v) (fpscr v) (k, bus_wr at_current (pxCurrentTCB k) (snd (vmem v))))
  | Hang _ => Hang v
  | Undef => Undef
  | NoFuel => NoFuel
  end.

Lemma peek_beside a l x k m : peek a (Vfp l x (k, m) : vfp kernel_memory) = peek a m.
Proof. done. Qed.

Lemma demo_code : kernel_code demo_ram at_current demo_data demo_encodes demo_switch demo_ts.
Proof.
  constructor.
  - by intros k v [].
  - intros k v v' Hst [<- Hc]. split.
    + clear Hc. induction Hst; try done.
    + rewrite <- Hc. refine (peek_stores demo_ram _ _ v v' _ _ Hst); [by vm_compute|]. intros Hn. by apply Hn.
  - intros k k' v [<- _] Hl Hr Ht. unfold demo_switch. rewrite Hr. eexists. split; [reflexivity|].
    destruct v as [vr fp [k m]]. split; [|split; [done|]].
    + split; [done|]. cbn [vmem vregs fpscr snd]. rewrite peek_beside. apply (storage_wr_eq (P := fun _ => True)); [done|].
      unfold demo_ts in Ht. rewrite !elem_of_cons, elem_of_nil in Ht. unfold is_u32.
      destruct Ht as [->|[->|[->|[]]]]; unfold demo_first, demo_second, demo_idle; lia.
    + intros a _ Ha. cbn [vmem vregs fpscr snd]. rewrite !peek_beside.
      apply (storage_wr_ne (P := fun _ => True)); [done|]. intros E. by apply Ha.
Qed.

(** ** The contexts

    The task that runs has a floating point context; the others have not. *)
Definition demo_sp (t : Z) : Z := if t =? demo_first then 0x301000 else if t =? demo_second then 0x302000 else 0x303000.
Definition demo_context (t : Z) : context :=
  Context (Z.add 3 <$> [0; 1; 2; 3; 4; 5; 6; 7; 8; 9; 10; 11; 12; 13]) (demo_sp t) 0x100040 0x8000001F 0
    (if t =? demo_second then 1 else 0) (Z.of_nat <$> seq 0 64) 0x1000000.
Definition demo_frames : regfile :=
  store_words at_current [demo_second; 0; 1; at_pmr; 0xA0; 0; 0xF8F0010C; 0xF8F00110; 0]
  (store_words 0xF8F0010C [TICK_TIMER_INTR]
   (store_words demo_first [saved_sp (demo_context demo_first)]
    (store_words demo_idle [saved_sp (demo_context demo_idle)]
      (store_words (saved_sp (demo_context demo_first)) (saved_words (demo_context demo_first))
        (store_words (saved_sp (demo_context demo_idle)) (saved_words (demo_context demo_idle)) (∅ : regfile)))))).
Definition demo_machine_memory : vfp kernel_memory := Vfp (Z.of_nat <$> seq 0 64) 0x1000000 (demo_started, demo_frames).
Definition demo_cpu : cpu :=
  Cpu (fun b n => match b, n with Usr, 13%nat => demo_sp demo_second | Usr, 14%nat => 16 | Usr, _ => Z.of_nat n + 3
    | Svc, 13%nat => 0x1E0138 | Irq, 13%nat => 0x1F0008 | _, _ => 0 end)
    (fun _ => 0) SYSTEM_MODE 0x80000000 1 (fun _ _ => 0) 0x100040.

Lemma demo_sp_bound t : t ∈ demo_ts ->
  demo_sp t - 332 <= saved_sp (demo_context t) /\ 0x300000 <= saved_sp (demo_context t) /\
  saved_sp (demo_context t) + 4 * Z.of_nat (length (saved_words (demo_context t))) = demo_sp t /\ demo_sp t <= 0x303000.
Proof. revert t. apply Forall_forall, (bool_decide_unpack _). vm_compute. exact I. Qed.

Lemma frames_layout :
  layout demo_ram at_current at_nesting at_flag at_iccpmr at_mask at_pmr demo_data demo_ts demo_context.
Proof.
  assert (Hf : forall t a, t ∈ demo_ts -> in_frame (demo_context t) a -> demo_sp t - 332 <= a < demo_sp t).
  { intros t a Ht. change (saved_sp (demo_context t) <= a < demo_sp t -> demo_sp t - 332 <= a < demo_sp t).
    intros Ha. pose proof (demo_sp_bound t Ht) as Hb. lia. }
  assert (Hts : forall t, t ∈ demo_ts -> t = demo_first \/ t = demo_second \/ t = demo_idle).
  { intros t Ht. unfold demo_ts in Ht. rewrite !elem_of_cons, elem_of_nil in Ht. tauto. }
  assert (Hsym : forall a, a ∈ variables at_current at_nesting at_flag at_iccpmr at_mask ++ demo_ts -> 0x180000 <= a < 0x300000).
  { apply Forall_forall, (bool_decide_unpack _). vm_compute. exact I. }
  constructor.
  - intros t Ht. constructor; [done|done| |by destruct (Hts t Ht) as [->|[->| ->]]| |].
    + apply (Forall_impl (fun w => 0 <= w < 2 ^ 32)); [|done]. revert t Ht. apply Forall_forall, (bool_decide_unpack _).
      vm_compute. exact I.
    + pose proof (demo_sp_bound t Ht) as (_ & Hb & Hs & Hm). split_and!; [lia|lia|]. intros i Hi. unfold demo_ram, at_pmr. lia.
    + destruct (Hts t Ht) as [->|[->| ->]]; vm_compute; congruence.
  - intros t u a Ht Hu Hne Ha Hb. apply Hf in Ha; [|done]. apply Hf in Hb; [|done].
    destruct (Hts t Ht) as [->|[->| ->]], (Hts u Hu) as [->|[->| ->]]; try done;
      unfold demo_sp, demo_first, demo_second, demo_idle in *; cbn in Ha, Hb; lia.
  - intros a Ha%Hsym. unfold demo_ram, at_pmr. lia.
  - intros t a Ht Ha%Hsym Hin. apply Hf in Hin; [|done].
    destruct (Hts t Ht) as [->|[->| ->]]; unfold demo_sp, demo_first, demo_second, demo_idle in *; cbn in Hin; lia.
  - apply (bool_decide_unpack _). by vm_compute.
  - intros t a Ht Hin ->. apply Hf in Hin; [|done].
    destruct (Hts t Ht) as [->|[->| ->]]; unfold demo_sp, demo_first, demo_second, demo_idle, at_current in *; cbn in Hin; lia.
  - intros a Ha. assert (E : a ∈ [at_nesting; at_flag; at_iccpmr; at_mask; demo_first; demo_second; demo_idle] -> a <> at_current).
    { intros Hin. clear Ha. revert a Hin. apply Forall_forall, (bool_decide_unpack _). vm_compute. exact I. }
    by apply E.
  - split; [unfold demo_ram, at_pmr; lia|by vm_compute].
Qed.

Definition demo_switched : kernel := kernel_after (vTaskSwitchContext demo_started).
Lemma demo_switched_is : vTaskSwitchContext demo_started = Ok tt demo_switched.
Proof.
  destruct demo_stable as (G & _ & Hse & _).
  destruct (switch_choice G demo_started mret (se_live _ _ _ Hse)) as (t & k' & pr & i & xs & rest & Hrun & _).
  rewrite bind_ret_r in Hrun. unfold demo_switched. rewrite Hrun. reflexivity.
Qed.
Lemma demo_first_chosen : pxCurrentTCB demo_switched = demo_first.
Proof. by vm_compute. Qed.

Lemma demo_saved t : t ∈ [demo_first; demo_idle] -> saved demo_context t demo_machine_memory.
Proof.
  intros Ht. cut (forall s, peek t demo_frames = s -> s = saved_sp (demo_context t) ->
    peek_words (saved_sp (demo_context t)) (length (saved_words (demo_context t))) demo_frames = saved_words (demo_context t) ->
    saved demo_context t demo_machine_memory).
  - intros Hc. apply (Hc _ eq_refl); clear Hc; revert t Ht; apply Forall_forall, (bool_decide_unpack _); vm_compute; exact I.
  - intros s E1 -> E2. split; [exact E1|]. unfold holds. rewrite <- E2 at 2. clear.
    generalize (saved_sp (demo_context t)). induction (length _) as [|n IH]; intros a; [done|]. cbn [peek_words]. f_equal. apply IH.
Qed.

Lemma demo_runs :
  runs at_nesting at_flag at_iccpmr at_pmr demo_encodes demo_ts demo_context demo_started demo_cpu demo_machine_memory.
Proof.
  constructor; rewrite ?demo_second_runs; [|done|done|done|].
  - constructor; rewrite ?demo_second_runs.
    + split; [done|]. rewrite demo_second_runs. by vm_compute.
    + apply (bool_decide_unpack _). by vm_compute.
    + done.
    + change (peek at_iccpmr demo_frames = at_pmr). by vm_compute.
    + intros t Ht Hne. apply demo_saved. unfold demo_ts in Ht. rewrite !elem_of_cons in *. tauto.
  - split_and!; [done|done| | |done].
    + change (peek at_nesting demo_frames = 0). by vm_compute.
    + change (peek at_flag demo_frames = 1). by vm_compute.
Qed.

Lemma FreeRTOS_SWI_Handler_switches_witness :
  exists c' v',
    (enter SUPERVISOR_MODE IRQ_BIT 4 ;;
     FreeRTOS_SWI_Handler (fun _ _ => 0) (fun _ => 0) at_current at_nesting at_flag at_iccpmr at_mask demo_switch)
      (Machine demo_cpu demo_machine_memory) = Ok tt (Machine c' v') /\ pc c' = 0x100040 /\ rget 13 c' = 0x301000.
Proof.
  destruct (FreeRTOS_SWI_Handler_switches demo_ram (fun _ _ => 0) (fun _ => 0) at_current at_nesting at_flag at_iccpmr at_mask
    at_pmr demo_data demo_encodes demo_switch demo_ts demo_code demo_context demo_started demo_switched demo_cpu demo_machine_memory
    frames_layout demo_runs demo_switched_is) as (c' & v' & Hrun & [_ Hm _ Hpc Hc] & _).
  { rewrite demo_first_chosen. apply (bool_decide_unpack _). by vm_compute. }
  exists c', v'. split; [exact Hrun|]. rewrite demo_first_chosen in Hpc, Hc.
  destruct Hc as (_ & Hsp & _). split; [exact Hpc|]. unfold rget. rewrite Hm. exact Hsp.
Defined.

(** ** A new task *)
Definition new_stack : Z := 0x400000.
Definition new_kernel : kernel :=
  set_words (list_to_map ((fun i => (new_stack + 4 * Z.of_nat i, ulCheckValue)) <$> seq 0 64)) demo_kernel.
Definition new_kernel_after : kernel :=
  kernel_after (pxPortInitialiseStack (frame_top new_stack 64) 0x100080 7 new_kernel).
Definition new_memory : regfile :=
  store_words at_current [demo_first; 0; 0; at_pmr; 0xA0] (store_words demo_first [frame_top new_stack 64 - 80] (words new_kernel_after)).

Lemma new_pointer :
  match pxPortInitialiseStack (frame_top new_stack 64) 0x100080 7 new_kernel with Ok p _ => p | _ => 0 end = 0x4000a8.
Proof. by vm_compute. Qed.
Lemma new_control_block : peek demo_first (Vfp (replicate 64 0) 0 new_memory) = 0x4000a8.
Proof. by vm_compute. Qed.
Lemma new_current : peek at_current (Vfp (replicate 64 0) 0 new_memory) = demo_first.
Proof. by vm_compute. Qed.
Lemma new_vars :
  restore_vars demo_ram at_current at_nesting at_flag at_iccpmr at_mask demo_first (frame_top new_stack 64 - 80) 72 at_pmr
    (Vfp (replicate 64 0) 0 new_memory).
Proof.
  assert (Ht : frame_top new_stack 64 = 0x4000f8) by by vm_compute.
  constructor; [|by vm_compute|by vm_compute| | |].
  - intros a Ha. assert (Hb : 0x180000 <= a < 0x300000).
    { revert a Ha. apply Forall_forall, (bool_decide_unpack _). vm_compute. exact I. }
    rewrite Ht. unfold demo_ram, at_pmr. lia.
  - split_and!; [by vm_compute|done|done|by vm_compute|]. unfold demo_ram, at_pmr; lia.
  - split; [by vm_compute|done].
  - apply Forall_forall, (bool_decide_unpack _). vm_compute. exact I.
Qed.

Lemma new_task_starts_witness :
  exists c' v',
    vPortRestoreTaskContext at_current at_nesting at_flag at_iccpmr at_mask
      (Machine demo_cpu (Vfp (replicate 64 0) 0 new_memory)) = Ok tt (Machine c' v') /\ pc c' = 0x100080 /\ rget 0 c' = 7.
Proof.
  destruct (new_task_starts demo_ram at_current at_nesting at_flag at_iccpmr at_mask new_stack 64 0x100080 7 new_kernel
    demo_first at_pmr demo_cpu (Vfp (replicate 64 0) 0 new_memory)) as (p & k' & Hk & Hrun);
    [done|done|done|done| |done|done|done| | |exact new_current|done|].
  - intros a (j & Hj & ->). assert (Hin : Z.to_nat j ∈ seq 0 64) by (apply elem_of_seq; lia).
    replace j with (Z.of_nat (Z.to_nat j)) by lia. revert Hin. generalize (Z.to_nat j). apply Forall_forall, (bool_decide_unpack _).
    vm_compute. exact I.
  - intros a (j & Hj & ->). unfold demo_ram, at_pmr, new_stack. lia.
  - exact new_vars.
  - destruct Hrun as (c' & v1 & H1 & H2 & _ & H3 & _).
    + pose proof new_pointer as Ep. rewrite Hk in Ep. rewrite Ep. exact new_control_block.
    + assert (Ek : k' = new_kernel_after) by (unfold new_kernel_after; by rewrite Hk). rewrite Ek.
      change (map_Forall (fun a x => peek a new_memory = x) (words new_kernel_after)). apply (bool_decide_unpack _). vm_compute. exact I.
    + exists c', (bus_wr at_pmr 255 v1). split; [exact H1|]. split; [exact H2|exact H3].
Defined.

(** ** An interrupt

    The application's handler of [tick.c], with no function installed for the
    other interrupts. *)
Definition no_handler (id : Z) : KM bool := mret false.
Definition demo_interrupt (x : Z) : M (vfp kernel_memory) unit := fun v =>
  match application_vApplicationIRQHandler no_handler x (fst (vmem v)) with
  | Ok b k => Ok tt (Vfp (vregs v) (fpscr v) (k, if (b : bool) then bus_wr at_yield pdTRUE (snd (vmem v)) else snd (vmem v)))
  | Hang _ => Hang v
  | Undef => Undef
  | NoFuel => NoFuel
  end.
Definition demo_handles (x : Z) (k' : kernel) (y : Z) : Prop :=
  exists b : bool, application_vApplicationIRQHandler no_handler x demo_started = Ok b k' /\ (b = true -> y = pdTRUE).
Definition demo_ticked : kernel := kernel_after (xTaskIncrementTick demo_started).

(** Two tasks of the same priority take turns: the tick asks for a switch. *)
Lemma demo_ticked_is : xTaskIncrementTick demo_started = Ok pdTRUE demo_ticked.
Proof.
  assert (E : match xTaskIncrementTick demo_started with Ok r _ => r =? pdTRUE | _ => false end = true) by by vm_compute.
  unfold demo_ticked. destruct (xTaskIncrementTick demo_started) as [r k|k| |]; try discriminate E.
  apply Z.eqb_eq in E. by rewrite E.
Qed.
Lemma demo_ticked_current : pxCurrentTCB demo_ticked = pxCurrentTCB demo_started.
Proof. by vm_compute. Qed.
#[local] Opaque xTaskIncrementTick demo_started demo_ticked.

Lemma demo_interrupt_run x (v : vfp kernel_memory) k b k' : fst (vmem v) = k ->
  application_vApplicationIRQHandler no_handler x k = Ok b k' ->
  demo_interrupt x v = Ok tt (Vfp (vregs v) (fpscr v) (k', if (b : bool) then bus_wr at_yield pdTRUE (snd (vmem v)) else snd (vmem v))).
Proof. intros <- E. unfold demo_interrupt. rewrite E. reflexivity. Qed.

Lemma interrupt_cases x : exists (b : bool) k', application_vApplicationIRQHandler no_handler x demo_started = Ok b k' /\
  pxCurrentTCB k' = pxCurrentTCB demo_started /\ (Z.land x 0x3FF = TICK_TIMER_INTR -> b = true /\ k' = demo_ticked).
Proof.
  unfold application_vApplicationIRQHandler. destruct (Z.ltb_spec (Z.land x 0x3FF) XSCUGIC_MAX_NUM_INTR_INPUTS) as [Hl|Hl].
  - destruct (Z.eqb_spec (Z.land x 0x3FF) TICK_TIMER_INTR) as [He|He].
    + exists true, demo_ticked. unfold mbind, M_bind. rewrite demo_ticked_is. split; [reflexivity|]. split; [exact demo_ticked_current|].
      intros _. split; reflexivity.
    + exists false, demo_started. split; [reflexivity|]. split; [reflexivity|]. intros E. destruct (He E).
  - exists false, demo_started. split; [reflexivity|]. split; [reflexivity|]. intros E. rewrite E in Hl. by vm_compute in Hl.
Qed.

Lemma demo_handler : handler_code demo_ram at_irq_nesting at_yield demo_data demo_encodes demo_interrupt demo_started demo_handles.
Proof.
  constructor.
  - intros x [vr fp [k m]] [Ek Hc] Hl _. cbn [vmem fst] in Ek. subst k.
    destruct (interrupt_cases x) as (b & k' & Hr & Hcur & _).
    exists k', (peek at_yield (if (b : bool) then bus_wr at_yield pdTRUE m else m)),
      (Vfp vr fp (k', if (b : bool) then bus_wr at_yield pdTRUE m else m)).
    split; [|split; [exact (demo_interrupt_run x (Vfp vr fp (demo_started, m)) demo_started b k' eq_refl Hr)|]].
    { exists b. split; [exact Hr|]. intros ->. apply (storage_wr_eq (S := regfile) (P := fun _ => True)); [exact I|unfold is_u32, pdTRUE; lia]. }
    assert (Hm : forall a, a <> at_yield -> peek a (if (b : bool) then bus_wr at_yield pdTRUE m else m) = peek a m).
    { intros a Ha. destruct b; [|reflexivity]. apply (storage_wr_ne (S := regfile) (P := fun _ => True)); [exact I|congruence]. }
    split; [split; [reflexivity|]|split; [exact Hl|split; [reflexivity|]]].
    + rewrite peek_beside in *. rewrite Hcur, Hm by (unfold at_current, at_yield; lia). exact Hc.
    + intros a _ _ Hy. rewrite !peek_beside. by apply Hm.
  - intros x k' y (b & Hr & _). destruct (interrupt_cases x) as (b' & k1 & Hr' & Hcur & _).
    destruct (ok_inj _ _ _ _ (eq_trans (eq_sym Hr) Hr')) as [_ ->]. exact Hcur.
  - intros [vr fp [k m]] a H. exact H.
Qed.

Lemma demo_linked : linked (fun _ _ => 0) (fun _ => 0) 0x100200 demo_interrupt (blx_handler (fun _ _ => 0) (fun _ => 0) demo_interrupt).
Proof.
  apply linked_own; [done|]. intros x v v' E. unfold demo_interrupt in E.
  destruct (application_vApplicationIRQHandler no_handler x (fst (vmem v))) as [b k|k| |]; try discriminate E. by injection E as <-.
Qed.

Lemma demo_irq_layout :
  irq_layout demo_ram at_current at_nesting at_flag at_iccpmr at_mask at_irq_nesting at_icciar at_icceoir at_yield 0x100200
    demo_data demo_ts demo_context 0x1E0000 0x1E0120 0x1F0000 demo_machine_memory.
Proof.
  assert (Hs : forall a, irq_area at_irq_nesting at_icciar at_icceoir at_yield 0x1E0000 0x1E0120 0x1F0000 a ->
    0x180014 <= a < 0x1F0008).
  { intros a [Ha|[Ha|Ha]]; [lia|lia|]. revert a Ha. apply Forall_forall, (bool_decide_unpack _). vm_compute. exact I. }
  assert (Hv : forall a, a ∈ variables at_current at_nesting at_flag at_iccpmr at_mask ++ demo_ts -> a < 0x180014 \/ 0x1F0008 <= a).
  { apply Forall_forall, (bool_decide_unpack _). vm_compute. exact I. }
  constructor.
  - constructor; [by split_and!| | | |].
    + unfold ram_at, demo_ram. split_and!; try lia; intros; lia.
    + lia.
    + unfold demo_ram. assert (Hb : forall a, a ∈ [at_irq_nesting; at_icciar; at_icceoir; at_yield] -> 0x180000 <= a < 0x190000)
        by (apply Forall_forall, (bool_decide_unpack _); vm_compute; exact I). intros a Ha%Hb. lia.
    + apply (bool_decide_unpack _). by vm_compute.
  - intros t a Ht Ha Hi%Hs. pose proof (demo_sp_bound t Ht). unfold in_frame in Ha. lia.
  - intros a Ha%Hv Hi%Hs. lia.
  - intros a Hi%Hs. unfold demo_data, at_current. lia.
  - change (peek at_irq_nesting demo_frames = 0). by vm_compute.
  - assert (E : peek at_icceoir demo_machine_memory = 0xF8F00110).
    { change (peek at_icceoir demo_frames = 0xF8F00110). by vm_compute. }
    rewrite E. unfold demo_ram, demo_data, at_current. lia.
  - split; [|done]. apply (Forall_impl (fun w => 0 <= w < 2 ^ 32)); [|done]. apply (bool_decide_unpack _). vm_compute. exact I.
  - done.
Qed.

Lemma demo_ticked_switches : exists k', vTaskSwitchContext demo_ticked = Ok tt k' /\ pxCurrentTCB k' = demo_first.
Proof.
  assert (E : match vTaskSwitchContext demo_ticked with Ok _ k => pxCurrentTCB k | _ => 0 end = demo_first) by by vm_compute.
  destruct (vTaskSwitchContext demo_ticked) as [[] k|k| |]; try discriminate E. by exists k.
Qed.

(** The value the handler reads from ICCIAR is the timer's. *)
Lemma demo_acknowledged x :
  acknowledged at_irq_nesting at_icciar at_icceoir at_yield 0x1E0000 0x1E0120 0x1F0000 demo_machine_memory x -> x = TICK_TIMER_INTR.
Proof.
  intros (v0 & Hst & ->). assert (E : peek at_icciar demo_machine_memory = 0xF8F0010C).
  { change (peek at_icciar demo_frames = 0xF8F0010C). by vm_compute. }
  rewrite E. transitivity (peek 0xF8F0010C demo_frames); [|by vm_compute].
  refine (peek_stores (fun _ => True) _ _ demo_machine_memory v0 I _ Hst).
  intros [Ha|[Ha|Ha]]; [lia|lia|]. revert Ha. apply (bool_decide_unpack _). by vm_compute.
Qed.

Lemma FreeRTOS_IRQ_Handler_preempts_witness :
  exists c' v',
    (enter IRQ_MODE IRQ_BIT 4 ;;
     FreeRTOS_IRQ_Handler (fun _ => 0) (fun _ _ => 0) (fun _ => 0) at_current at_nesting at_flag at_iccpmr at_mask
       at_irq_nesting at_icciar at_icceoir at_yield 0x100180 0x100200 demo_switch
       (blx_handler (fun _ _ => 0) (fun _ => 0) demo_interrupt))
      (Machine demo_cpu demo_machine_memory) = Ok tt (Machine c' v') /\ pc c' = 0x100040 /\ rget 13 c' = 0x301000 /\
    peek at_irq_nesting v' = 0 /\ peek at_yield v' = 0.
Proof.
  destruct (FreeRTOS_IRQ_Handler_preempts demo_ram (fun _ => 0) (fun _ _ => 0) (fun _ => 0) at_current at_nesting at_flag at_iccpmr
    at_mask at_irq_nesting at_icciar at_icceoir at_yield 0x100180 0x100200 at_pmr demo_data demo_encodes demo_switch demo_interrupt
    (blx_handler (fun _ _ => 0) (fun _ => 0) demo_interrupt) demo_ts demo_started demo_handles demo_code demo_handler demo_linked
    demo_context frames_layout 0x1E0000 0x1E0120 0x1F0000 demo_cpu demo_machine_memory demo_irq_layout demo_runs eq_refl eq_refl)
    as (x & kh & y & Hack & (b & Hb & Hy) & Hrun).
  destruct (interrupt_cases x) as (b' & k1 & Hb' & _ & Htick). rewrite (demo_acknowledged x Hack) in Htick.
  destruct (Htick eq_refl) as [-> ->]. destruct (ok_inj _ _ _ _ (eq_trans (eq_sym Hb) Hb')) as [-> ->]. rewrite (Hy eq_refl) in Hrun.
  destruct demo_ticked_switches as (k' & Hk & Ek). destruct (Hrun k') as (c' & v' & H1 & [_ Hm _ Hpc Hc] & _ & _ & Hn & Hyr & _).
  { split; [exact Hk|]. rewrite Ek. apply (bool_decide_unpack _). by vm_compute. }
  exists c', v'. split; [exact H1|]. rewrite Ek in Hpc, Hc. destruct Hc as (_ & Hsp & _).
  split; [exact Hpc|]. split; [|by split]. unfold rget. rewrite Hm. exact Hsp.
Defined.
